(* ===== verification/_CoqProject ===== *)
-Q . S2P
Prelude.v
PyText.v
PyJson.v
Utf8.v
PyTime.v
Tables.v
JsonParser.v
JsonLaws.v
Contracts.v
RegistryRows.v
Schema.v
Repository.v
Service.v
Acceptance.v
Execution.v
Evolution.v
Methods.v
Integrity.v
System.v
History.v
Waiting.v
Running.v
Origin.v
Scenario.v
Guarantees.v
Deliveries.v
Outcomes.v
Requests.v
Acceptances.v
Completions.v
Controls.v
Identity.v
Log.v
Admission.v
ContractLaws.v
WorkStatus.v
Findings.v
Projection.v
RegistryRepository.v
EnvironmentIdentity.v
Authorization.v
Registry.v
RegistryWorkspaces.v
RegistryViews.v
Assembler.v
AssemblerLaws.v
ContextRepository.v
Context.v
ContextCandidates.v
ContextSnapshots.v
TaskLifecycle.v
ForkRepository.v
Fork.v
Redaction.v
RegistryMethods.v
ContextMethods.v
RegistryFrame.v
RegistryIntegrity.v
RegistrySound.v
ContextSound.v
ContextSteps.v
ForkSound.v
Worker.v
RegistryScenario.v
RegistryGuarantees.v
RegistryRequests.v
RegistryRetries.v
RegistryEnvironments.v
RegistryOutcomes.v
RegistryDefaults.v
ProjectionLaws.v
RegistryFindings.v
ContextScenario.v
ContextGuarantees.v
ContextOutcomes.v
ContextFindings.v
ForkOutcomes.v
ForkGuarantees.v
RedactionLaws.v
WorkerLaws.v
