(* ===== verification/Prelude.v ===== *)
(** * OpenScience control plane: verification development

    OpenScience ([ainrf]) runs research Tasks on external agent engines.  Its
    core is the Conversation Domain of [src/src/ainrf/domain]: a control plane
    over one SQLite database that admits user requests, hands submissions to an
    engine at most once, records what the engine accepted as canonical Turns and
    items, and settles every Turn, control request and deferred next Turn when
    the engine finishes.  Around it, in the same database, is the registry of
    Projects, members, Workspaces, Environments and Task relationships, whose
    roles and grants decide who may run what and where, and the Project Context:
    versioned texts that members edit, publish and propose to change, and the
    immutable snapshot of them that every Task is pinned to.  This library
    models all three and proves what they promise.

    ** The program and its model

    - [conversation_contracts.py]: the state enumerations, their transition
      tables and [require_*] checks, runtime projections, receipts and the
      translation of engine values.  File [Contracts]; the string and JSON
      operations it uses are in [PyText].
    - [db/baselines/agentic_researcher.sql] with migration 034: the thirteen
      conversation tables.  File [Schema]: a record per row, [db] is the whole
      database, [*_insert_guard] and [*_update_guard] are the checks, unique
      indexes, foreign keys and triggers.  [Tables] has the SQL statements on
      lists of rows and the lemmas all tables share.
    - [conversation_repository.py], [conversation_execution_repository.py] and
      the conversation part of [repositories.py]: one definition per statement.
      File [Repository].
    - [conversation_service.py] with the authorization of [service.py] and
      [environment_access.py]: the user-facing methods.  Files [Service]
      (prologue, admission, cancellation, controls, Task lifecycle) and
      [Acceptance] ([accept_submission], [finish_turn], reads).
    - [conversation_execution.py]: the interface of the trusted worker: claim,
      begin delivery, accept and open, append, consume controls, finish.  File
      [Execution].

    - [service.py] with [repositories.py], [environment_access.py],
      [environment_identity.py], [project_initialization.py] and
      [write_fence.py]: the registry.  [RegistryRows] has the rows,
      [RegistryRepository] the constraints and one definition per statement,
      [Authorization] the role checks and execution grants,
      [EnvironmentIdentity] the canonical connection and its fingerprint,
      [Registry] the methods on Projects, members, owners and relationships,
      [RegistryWorkspaces] those on Environments, Workspaces and their links,
      [RegistryViews] the reads and the console summaries with their
      permissions.
    - [conversation_projection.py]: the status and times that the lists of Tasks
      show, computed from Turns and submissions.  File [Projection]; the
      registry counts busy Tasks with it.
    - [context.py] and [context_assembler.py]: the Project Context.  [Assembler]
      is the pure assembly of a snapshot's content and manifest, with the byte
      budgets of [Utf8] and the timestamps of [PyTime]; [ContextRepository] has
      the constraints and one definition per statement, [Context] the draft,
      publication and the reads, [ContextCandidates] proposals and their
      decisions, [ContextSnapshots] fragments, previews and snapshots.
    - [create_task], [preview_move] and [move_task] with their helpers in
      [service.py], [repositories.py] and [conversation_service.py]: file
      [TaskLifecycle].  A new Task is pinned to a snapshot and its conversation
      opened in one transaction; a move repins the Task and its queued
      submissions.
    - [preview_fork] and [confirm_fork], which hand a conversation over to the
      other engine: [ForkRepository] has the two tables of receipts, their
      triggers and the revision of a transcript, [Fork] the two methods with the
      selection of Turns and the metrics.
    - [conversation_worker.py]: the dispatcher.  File [Worker]: the launch context
      with its checks, the handlers of engine events and control requests, and one
      dispatch as a state machine ([worker_step]) over its local variables and the
      database, with steps of other processes between any two of its transactions.
    - [output_redaction.py] and [list_items]: what a viewer may read.
      [Redaction] models Python's [re] as far as the patterns use it (a
      backtracking matcher that lists the ends of its matches in their order),
      the eight patterns, the sensitive names and the recursion through payloads
      and the JSON texts inside them.
    - [json.dumps(sort_keys=True)], which request hashes and fingerprints are
      taken of: [PyText], and in ASCII [PyJson]; [json.loads]: [JsonParser]; their laws, with the round
      trip through both, in [JsonLaws].

    The service and the worker interact only through the database.  A method
    body is a value of the monad [tx] below: explicit state passing over [db]
    with Python exceptions as error values; [transaction] is [BEGIN IMMEDIATE]
    ... [COMMIT] with rollback on an exception.  Method bodies call each other
    as the code does, callbacks included.

    ** Conventions

    - Clock readings and [uuid4] values are arguments, in the order in which the
      code draws them.  A timestamp is a number of microseconds: the code writes
      fixed-width ISO-8601 texts, which compare in the same order.  Where such a
      text enters a digest or a response, [PyTime] writes it out.
    - A Python string is the [string] of its UTF-8 bytes; [Utf8] cuts one to a
      byte budget.  [str.lower] knows every letter, but not the final form of a sigma.
    - A JSON column holds the decoded value, and [json_valid] is asked of it.  An item
      also keeps how [json.dumps] wrote its columns (the items of a run are written in
      ASCII), since reads return their text and the revision of a transcript digests it.
    - SHA-256 and [uuid5] digests are the class [Host]; the digests, the release
      of the running process and [uuid5] of the registry are the class [Kernel]
      ([EnvironmentIdentity]), together with the configured byte budget, the
      platform constraints, [difflib.unified_diff] and the environment of the
      container; nothing is assumed of them unless a theorem says so.  The
      authorization database, which the code
      reads from a file, is the argument [auth].
    - [accept_and_open_execution] resolves its identity on another connection
      before its transaction; the database it saw then is its argument
      [snapshot].
    - Two definitions take fuel.  [json_loads] scans a text with twice its length,
      which is enough for every text ([JsonLaws.scan_enough]); the redaction of
      texts inside texts takes the eight levels after which the code stops
      decoding, and more make no difference ([RedactionLaws.embedded_texts_end]).
      Every other loop of the modelled code runs over a list of rows that it has
      read first, and the rest is straight-line code, so all other definitions
      are structural, and all are total and executable.
    - The limits of Python and SQLite (recursion depth and the nesting of JSON, the number
      of digits of an integer that [json.loads] reads) are not modelled.

    ** The transition system

    [System] makes one step of every committed transaction, and one step,
    [control_plane], of every change of the tables that the conversation domain
    only reads (projects, grants, the maintenance flag, new Task rows).
    [reachable] databases and [rtc step] runs are what the invariants speak of.
    Interleavings of users and workers are the sequences of steps, since SQLite
    serializes the transactions.

    [registry_step] ([RegistryMethods]) is one committed mutation of the registry
    or the provisioning of a default Project, [context_step] ([ContextMethods])
    one of the Project Context or of the Task lifecycle around it; [domain_step]
    ([RegistryFrame]) is a registry, context, conversation or maintenance step,
    and [domain_reachable] ([RegistrySound]) databases are those of runs that
    start empty.  What registry and context steps do to the conversation tables,
    opening and repinning included, are steps of [System], which is how the
    guarantees of the conversation domain carry over.

    Interfaces carry the invariants from statements to runs:
    [StatementSpec R] ([Methods]): a relation that holds across each SQL
    statement holds across each method; [SafeStatements] ([Methods]) and
    [BlockSpec] ([System]): for invariants that single statements break and
    whole blocks restore.  [Evolution], [Integrity], [History], [Waiting], [Running],
    [Origin] and [Identity] discharge them.  [Barred] and
    [Prologued]/[Stores] ([Requests]) do the same for the prologue and epilogue
    that user requests share.  [RegistryUpdates], [RegistryStatements],
    [RegistrySafe] and [RegistryBlocks] ([RegistryMethods]) are their
    counterparts for the registry, and [ContextUpdates], [ContextStatements],
    [ContextSafe] and [ContextBlocks] ([ContextMethods]) those for the Project
    Context, with [Ledger] for the prologue and epilogue its requests share;
    [ForkReceipts] and [ForkBlocks] ([ContextMethods]) are those for forks, which
    [ForkSound] discharges for the receipts; [RegistryFrame], [RegistryIntegrity], [RegistrySound],
    [RegistryEnvironments], [ContextSound] and [ContextSteps] discharge them.

    ** What is proved

    - Refinement: seen through [list_turns], every run refines an abstract log
      of Turns ([Log]).
    - Invariants of every reachable database: relational integrity ([Integrity]),
      append-only history along the contract tables ([Evolution]), gap-free
      numbering ([History]), one active Turn, with one running execution
      ([Running]), every Turn from one delivered submission ([Origin]), a
      next Turn waits only on a Turn in progress ([Waiting]), execution
      identifiers are those computed before launch ([Identity]); collected in
      [Guarantees].
    - The path of a submission: what admission writes ([Admission]), which one is
      claimed, and that a claim cannot fail, that delivery happens at most once,
      respects capacity and stays fenced after a cancellation ([Deliveries]), what an
      acceptance commits and that it is idempotent ([Acceptances]), what a completion settles and that the transcript is then
      final ([Completions]), interrupts claimed once and reconciled at the end
      ([Controls]), cancellation of a Task ([Outcomes]).
    - Requests: a retry is answered from the store, a reused key is refused,
      mutations are authorized, an outsider cannot tell a Task from none
      ([Requests]), maintenance stops all writes ([Requests]), counters and
      inverses of the Task lifecycle ([WorkStatus]).
    - Contracts: triggers agree with the tables, the submission lifecycle
      terminates, what the sanitizers accept ([ContractLaws]).
    - The registry: unique indexes, references and what the methods keep beyond
      them hold in every reachable database, registry runs refine the steps that
      the conversation domain allows around it, nothing registered disappears,
      and the lists show exactly the visible Projects ([RegistryGuarantees]);
      mutations are authorized, and refused by a process without a release
      ([RegistryRequests]); a retry changes nothing ([RegistryRetries]);
      a referenced Environment keeps its endpoint and equal endpoints have equal
      identities ([RegistryEnvironments]); what choosing a Primary and a transfer
      of ownership leave behind ([RegistryOutcomes]); default Projects are
      provisioned once ([RegistryDefaults]); relationship identifiers identify
      ([RegistryOutcomes]).
    - Projections: the status of a Task follows its conversation, whichever Tasks
      it is read with ([ProjectionLaws]).
    - The Project Context: in every reachable database decided candidates are in
      exactly the version that accepted them, pinned snapshots and fragments
      exist and are the assembly of what they name, and decisions and frozen
      texts are final ([ContextGuarantees], from the rules of [ContextSound]
      that [ContextSteps] keeps); the assembly is total on sources of the right
      kinds, fits its budget and reports every cut ([AssemblerLaws]); what
      publication, acceptance, confirmation, creation and a move leave behind
      ([ContextOutcomes]).
    - Forks: which Turns a transfer range selects and what a confirmation leaves
      behind ([ForkOutcomes]); in every reachable database a transfer is complete,
      in time and the only one of its preview ([ForkSound]), and what it hands over
      is what was previewed ([ForkGuarantees]).
    - The dispatcher: its runs are runs of the domain, whatever its engine does; it
      starts no submission twice, records the events of the engine in their order
      and settles what it started ([WorkerLaws]).
    - What is read: equal canonical texts are equal values, and decoding one gives
      the value back, whether [json.dumps] wrote it in ASCII or not ([JsonLaws]: the
      class [TextWriter] is the law of a writer of texts); no absolute path is found
      again in a redacted text, no sensitive field keeps its value in a redacted
      payload, and who reads which ([RedactionLaws]).
    - [Findings], [RegistryFindings], [ContextFindings], and the end of [ForkGuarantees],
      [RedactionLaws] and [WorkerLaws]: behaviours of the code that its callers
      do not expect, and the agreement of the console's permissions with the
      guards.

    [Scenario] evaluates one whole conversation from an empty domain,
    [RegistryScenario] the life of a Project with its Workspaces,
    [ContextScenario] its Context with Tasks created, moved and forked; their databases
    are the inputs of the witnesses.

    ** What is not modelled

    The cycle around the dispatcher ([ConversationWorkerRuntime]: heartbeats,
    overview and literature work); usage and cost in the projections; the
    overview and skill tables; the write fence between processes (its
    maintenance flag is part of the database, its release check is
    [fence_ready]).  The facades that only forward to the modelled methods and
    the telemetry counters around them leave no trace in the database.  Engine
    adapters, the HTTP API, authentication, files, terminals, backups,
    monitoring and deployment are I/O or glue around the modelled methods,
    literature is an independent subsystem.

    Next extensions, in this order: overview jobs; literature.

    This file holds the shared prelude: results, the transaction monad with its
    notation and inversion lemmas, tactics, hint databases and generic lemmas. *)

From stdpp Require Import base tactics list strings sorting.
From Stdlib Require Import ZArith Lia.

Declare Scope tx_scope.
Delimit Scope tx_scope with tx.

(** ** Results and the transaction monad

    Python exceptions are values of [result]; code that runs inside one
    SQLite transaction is a value of [tx S E A]: it reads and writes the
    database [S] and either returns or raises. *)

Inductive result (E A : Type) : Type :=
| Ok (a : A)
| Err (e : E).
Arguments Ok {E A} _.
Arguments Err {E A} _.

Definition tx (S E A : Type) : Type := S → result E (A * S).

#[export] Instance tx_ret {S E} : MRet (tx S E) := λ A a s, Ok (a, s).

#[export] Instance tx_bind {S E} : MBind (tx S E) := λ A B f m s,
  match m s with
  | Ok (a, s') => f a s'
  | Err e => Err e
  end.

Definition raise {S E A} (e : E) : tx S E A := λ _, Err e.

(** A read (a [SELECT]): a function of the current database. *)
Definition gets {S E A} (f : S → A) : tx S E A := λ s, Ok (f s, s).

Definition puts {S E} (f : S → S) : tx S E unit := λ s, Ok (tt, f s).

(** [if not b: raise e] *)
Definition require {S E} (b : bool) (e : E) : tx S E unit :=
  if b then mret tt else raise e.

(** [row = ...; if row is None: raise e] *)
Definition require_some {S E A} (o : option A) (e : E) : tx S E A :=
  match o with
  | Some a => mret a
  | None => raise e
  end.

(** [for x in l: ...] *)
Fixpoint for_each {S E A} (l : list A) (body : A → tx S E unit) : tx S E unit :=
  match l with
  | [] => mret tt
  | x :: l' => body x ≫= λ _, for_each l' body
  end.

(** [out = []; for x in l: out.append(...)] *)
Fixpoint for_collect {S E A B} (l : list A) (body : A → tx S E B) : tx S E (list B) :=
  match l with
  | [] => mret []
  | x :: l' => body x ≫= λ y, for_collect l' body ≫= λ ys, mret (y :: ys)
  end.

(** [try: ...; conn.commit() except BaseException: conn.rollback(); raise]:
    the outcome together with the database that is left behind. *)
Definition transaction {S E A} (m : tx S E A) (s : S) : result E A * S :=
  match m s with
  | Ok (a, s') => (Ok a, s')
  | Err e => (Err e, s)
  end.

(** ** Inversion of successful runs *)

Section inversion.
Context {S E : Type}.
Implicit Types s : S.

Lemma bind_Ok {A B} (m : tx S E A) (f : A → tx S E B) s b s'' :
  (m ≫= f) s = Ok (b, s'') ↔ ∃ a s', m s = Ok (a, s') ∧ f a s' = Ok (b, s'').
Proof.
  unfold mbind, tx_bind. split.
  - destruct (m s) as [[a s']|e]; naive_solver.
  - intros (a & s' & -> & ?). done.
Qed.

Lemma bind_Err {A B} (m : tx S E A) (f : A → tx S E B) s e :
  (m ≫= f) s = Err e ↔
  m s = Err e ∨ ∃ a s', m s = Ok (a, s') ∧ f a s' = Err e.
Proof.
  unfold mbind, tx_bind. split.
  - destruct (m s) as [[a s']|e']; naive_solver.
  - intros [->|(a & s' & -> & ?)]; done.
Qed.

Lemma ret_Ok {A} (a b : A) s s' :
  (mret a : tx S E A) s = Ok (b, s') ↔ b = a ∧ s' = s.
Proof. unfold mret, tx_ret. naive_solver. Qed.

Lemma gets_Ok {A} (f : S → A) s a s' :
  (gets f : tx S E A) s = Ok (a, s') ↔ a = f s ∧ s' = s.
Proof. unfold gets. naive_solver. Qed.

Lemma puts_Ok (f : S → S) s a s' :
  (puts f : tx S E unit) s = Ok (a, s') ↔ s' = f s.
Proof. unfold puts. destruct a. naive_solver. Qed.

Lemma raise_Ok {A} (e : E) s (a : A) s' : (raise e : tx S E A) s = Ok (a, s') ↔ False.
Proof. unfold raise. naive_solver. Qed.

Lemma require_Ok b (e : E) s u s' :
  require b e s = Ok (u, s') ↔ b = true ∧ s' = s.
Proof. unfold require. destruct b, u; unfold mret, tx_ret, raise; naive_solver. Qed.

Lemma require_some_Ok {A} (o : option A) (e : E) s a s' :
  require_some o e s = Ok (a, s') ↔ o = Some a ∧ s' = s.
Proof. destruct o; unfold require_some, mret, tx_ret, raise; naive_solver. Qed.
End inversion.

(** [tx_inv H]: decompose the hypothesis that a block ran successfully. *)
Ltac tx_inv_once H :=
  first
    [ apply bind_Ok in H; destruct H as (? & ? & ? & H)
    | apply ret_Ok in H; destruct H as [? ?]
    | apply gets_Ok in H; destruct H as [? ?]
    | apply puts_Ok in H
    | apply raise_Ok in H; destruct H
    | apply require_Ok in H; destruct H as [? ?]
    | apply require_some_Ok in H; destruct H as [? ?] ].

Ltac tx_inv_all :=
  repeat
    match goal with
    | H : (_ ≫= _) _ = Ok _ |- _ => apply bind_Ok in H; destruct H as (? & ? & ? & H)
    | H : mret _ _ = Ok _ |- _ => apply ret_Ok in H; destruct H as [? ?]
    | H : gets _ _ = Ok _ |- _ => apply gets_Ok in H; destruct H as [? ?]
    | H : puts _ _ = Ok _ |- _ => apply puts_Ok in H
    | H : raise _ _ = Ok _ |- _ => apply raise_Ok in H; destruct H
    | H : require _ _ _ = Ok _ |- _ => apply require_Ok in H; destruct H as [? ?]
    | H : require_some _ _ _ = Ok _ |- _ => apply require_some_Ok in H; destruct H as [? ?]
    | x : unit |- _ => destruct x
    end; simplify_eq.

(** ** Relational specifications of transactions

    [Respects R m]: whenever [m] succeeds it relates the databases before and
    after by [R].  For an invariant [I] take [R := keeps I]. *)

Class Respects {S E A} (R : relation S) (m : tx S E A) : Prop :=
  respects s a s' : m s = Ok (a, s') → R s s'.

Lemma respects_apply {S E A} (R : relation S) (m : tx S E A) s a s' :
  Respects R m → m s = Ok (a, s') → R s s'.
Proof. intros Hm. apply Hm. Qed.

Definition keeps {S} (I : S → Prop) : relation S := λ s s', I s → I s'.

#[export] Instance keeps_preorder {S} (I : S → Prop) : PreOrder (keeps I).
Proof. split; unfold keeps; red; naive_solver. Qed.

Section respects.
Context {S E : Type} (R : relation S) `{!PreOrder R}.

#[export] Instance respects_ret {A} (a : A) : Respects (E:=E) R (mret a).
Proof. intros s b s' H. tx_inv_all. reflexivity. Qed.

#[export] Instance respects_raise {A} (e : E) : Respects R (raise (A:=A) e).
Proof. intros s b s' H. tx_inv_all. Qed.

#[export] Instance respects_gets {A} (f : S → A) : Respects (E:=E) R (gets f).
Proof. intros s b s' H. tx_inv_all. reflexivity. Qed.

#[export] Instance respects_require b (e : E) : Respects R (require b e).
Proof. intros s u s' H. tx_inv_all. reflexivity. Qed.

#[export] Instance respects_require_some {A} (o : option A) (e : E) :
  Respects R (require_some o e).
Proof. intros s u s' H. tx_inv_all. reflexivity. Qed.

#[export] Instance respects_bind {A B} (m : tx S E A) (f : A → tx S E B) :
  Respects R m → (∀ a, Respects R (f a)) → Respects R (m ≫= f).
Proof.
  intros Hm Hf s b s' H. tx_inv_all.
  etrans; [by eapply Hm | by eapply Hf].
Qed.

#[export] Instance respects_for_each {A} (l : list A) (body : A → tx S E unit) :
  (∀ x, Respects R (body x)) → Respects R (for_each l body).
Proof. intros Hb. induction l; simpl; apply _. Qed.

Lemma respects_for_each_in {A} (l : list A) (body : A → tx S E unit) :
  (∀ x, x ∈ l → Respects R (body x)) → Respects R (for_each l body).
Proof.
  induction l as [|x l IH]; intros Hb; simpl; [apply _|].
  apply respects_bind; [apply Hb; constructor | intros _; apply IH].
  intros y Hy. apply Hb. by constructor.
Qed.

#[export] Instance respects_for_collect {A B} (l : list A) (body : A → tx S E B) :
  (∀ x, Respects R (body x)) → Respects R (for_collect l body).
Proof. intros Hb. induction l; simpl; apply _. Qed.

(** A rolled-back transaction changes nothing; a committed one respects [R]. *)
Lemma transaction_respects {A} (m : tx S E A) s :
  Respects R m → R s (transaction m s).2.
Proof.
  intros Hm. unfold transaction.
  destruct (m s) as [[a s']|e] eqn:Hs; simpl; [by eapply Hm | reflexivity].
Qed.
End respects.

(** One iteration of a loop, with what the others did before and after it. *)
Lemma for_each_elem_in {S E A} (R : relation S) `{!PreOrder R} (l : list A)
    (body : A → tx S E unit) s u s' x :
  (∀ y, y ∈ l → Respects R (body y)) → for_each l body s = Ok (u, s') → x ∈ l →
  ∃ s1 s2, R s s1 ∧ body x s1 = Ok (tt, s2) ∧ R s2 s'.
Proof.
  revert s. induction l as [|y l IH]; intros s Hb Hrun Hx.
  { by apply not_elem_of_nil in Hx. }
  assert (∀ z, z ∈ l → Respects R (body z)) as Hb' by (intros; apply Hb; by constructor).
  simpl in Hrun. apply bind_Ok in Hrun as ([] & t & Hy & Hl).
  apply elem_of_cons in Hx as [->|Hx].
  - exists s, t. split_and!; [reflexivity | done |].
    revert Hl. by apply respects_apply, respects_for_each_in.
  - destruct (IH _ Hb' Hl Hx) as (s1 & s2 & H1 & H2 & H3).
    exists s1, s2. split_and!; [|done..]. etrans; [|done].
    revert Hy. apply respects_apply, Hb. constructor.
Qed.

Lemma for_each_elem {S E A} (R : relation S) `{!PreOrder R} (l : list A)
    (body : A → tx S E unit) s u s' x :
  (∀ y, Respects R (body y)) → for_each l body s = Ok (u, s') → x ∈ l →
  ∃ s1 s2, R s s1 ∧ body x s1 = Ok (tt, s2) ∧ R s2 s'.
Proof. intros Hb. apply for_each_elem_in; auto. Qed.

(** [solve_respects] walks over the statements of a block. *)
Ltac respects_step :=
  match goal with
  | |- Respects _ (_ ≫= _) => apply respects_bind; [apply _ | | intros ?]
  | |- Respects _ (match ?x with _ => _ end) => destruct x
  | |- Respects _ (let _ := _ in _) => cbv zeta
  | |- Respects _ (for_each _ _) => apply respects_for_each; [apply _ | intros ?]
  | |- Respects _ (for_collect _ _) => apply respects_for_collect; [apply _ | intros ?]
  | |- Respects _ _ => first [apply _ | assumption | solve [eauto with respects]]
  end.

Create HintDb respects.
Ltac solve_respects := repeat respects_step.

Lemma transaction_rollback {S E A} (m : tx S E A) s e s' :
  transaction m s = (Err e, s') → s' = s.
Proof. unfold transaction. destruct (m s) as [[a t]|]; naive_solver. Qed.

Lemma transaction_commit {S E A} (m : tx S E A) s a s' :
  transaction m s = (Ok a, s') ↔ m s = Ok (a, s').
Proof. unfold transaction. destruct (m s) as [[b t]|]; naive_solver. Qed.
