(* ===== verification/PyText.v ===== *)
(** * Python text and JSON values

    The [str] operations and the JSON values that the conversation code uses.
    A Python [str] is the string of its UTF-8 bytes.  [strip] knows all Unicode
    spaces and [lower] the lower case of every letter; the only rule of [str.lower]
    that is left out is that a capital sigma at the end of a word becomes a final one. *)

From stdpp Require Import base tactics list strings pretty.
From Stdlib Require Import ZArith Lia Ascii.
From Stdlib Require String.
From S2P Require Import Prelude.

Local Open Scope string_scope.

(** [str.isspace] of an ASCII character *)
Definition is_space (c : ascii) : bool :=
  let n := nat_of_ascii c in
  Nat.eqb n 32 || (Nat.leb 9 n && Nat.leb n 13) || (Nat.leb 28 n && Nat.leb n 31).

(** ... and of the characters with two and three bytes: U+0085 and U+00A0; U+1680,
    U+2000 to U+200A, U+2028, U+2029, U+202F, U+205F and U+3000. *)
Definition is_space2 (c c1 : ascii) : bool :=
  let n1 := nat_of_ascii c1 in
  Nat.eqb (nat_of_ascii c) 194 && (Nat.eqb n1 133 || Nat.eqb n1 160).
Definition is_space3 (c c1 c2 : ascii) : bool :=
  let n := nat_of_ascii c in
  let n1 := nat_of_ascii c1 in
  let n2 := nat_of_ascii c2 in
  (Nat.eqb n 225 && Nat.eqb n1 154 && Nat.eqb n2 128)
  || (Nat.eqb n 226 && Nat.eqb n1 128
        && ((Nat.leb 128 n2 && Nat.leb n2 138) || Nat.eqb n2 168 || Nat.eqb n2 169
            || Nat.eqb n2 175))
  || (Nat.eqb n 226 && Nat.eqb n1 129 && Nat.eqb n2 159)
  || (Nat.eqb n 227 && Nat.eqb n1 128 && Nat.eqb n2 128).

Fixpoint lstrip (s : string) : string :=
  match s with
  | EmptyString => EmptyString
  | String c s' =>
      if is_space c then lstrip s'
      else
        match s' with
        | EmptyString => s
        | String c1 s2 =>
            if is_space2 c c1 then lstrip s2
            else
              match s2 with
              | EmptyString => s
              | String c2 s3 => if is_space3 c c1 c2 then lstrip s3 else s
              end
        end
  end.

(** A text ends where only spaces follow; a space never starts inside a character. *)
Fixpoint rstrip (s : string) : string :=
  match s with
  | EmptyString => EmptyString
  | String c s' => if String.eqb (lstrip s) EmptyString then EmptyString else String c (rstrip s')
  end.

Definition strip (s : string) : string := rstrip (lstrip s).

(** [bool(s)] of a string. *)
Definition truthy (s : string) : bool := negb (String.eqb s "").

(** [not s.strip()] *)
Definition blank (s : string) : bool := String.eqb (strip s) "".

(** SQLite's one-argument [trim] removes U+0020 only. *)
Fixpoint sql_blank (s : string) : bool :=
  match s with
  | EmptyString => true
  | String c s' => Nat.eqb (nat_of_ascii c) 32 && sql_blank s'
  end.

Definition lower_ascii (c : ascii) : ascii :=
  let n := nat_of_ascii c in
  if Nat.leb 65 n && Nat.leb n 90 then ascii_of_nat (n + 32) else c.

Fixpoint map_string (f : ascii → ascii) (s : string) : string :=
  match s with
  | EmptyString => EmptyString
  | String c s' => String (f c) (map_string f s')
  end.

(** ** Characters *)

Definition code (c : ascii) : nat := nat_of_ascii c.

(** A continuation byte [10xxxxxx] of UTF-8. *)
Definition continuation (c : ascii) : bool := Nat.leb 128 (code c) && Nat.ltb (code c) 192.

Definition byte (n : N) : ascii := ascii_of_N n.

(** A code point in UTF-8; a lone surrogate takes three bytes like its neighbours. *)
Definition utf8 (n : N) : string :=
  if N.ltb n 128 then String (byte n) ""
  else if N.ltb n 2048 then String (byte (192 + n / 64)) (String (byte (128 + n mod 64)) "")
  else if N.ltb n 65536 then
    String (byte (224 + n / 4096)) (String (byte (128 + n / 64 mod 64))
      (String (byte (128 + n mod 64)) ""))
  else
    String (byte (240 + n / 262144)) (String (byte (128 + n / 4096 mod 64))
      (String (byte (128 + n / 64 mod 64)) (String (byte (128 + n mod 64)) ""))).

(** The code point of two, three or four bytes; the code points of the surrogates have no
    bytes. *)
Definition six_bits (c : ascii) : N := N.modulo (N_of_ascii c) 64.
Definition leads (first last : N) (c : ascii) : bool :=
  N.leb first (N_of_ascii c) && N.leb (N_of_ascii c) last.

Definition two_bytes (c c1 : ascii) : option N :=
  let n := (N_of_ascii c mod 32 * 64 + six_bits c1)%N in
  if leads 192 223 c && continuation c1 && N.leb 128 n then Some n else None.
Definition three_bytes (c c1 c2 : ascii) : option N :=
  let n := ((N_of_ascii c mod 16 * 64 + six_bits c1) * 64 + six_bits c2)%N in
  if leads 224 239 c && continuation c1 && continuation c2 && N.leb 2048 n
     && negb (N.leb 55296 n && N.ltb n 57344)
  then Some n else None.
Definition four_bytes (c c1 c2 c3 : ascii) : option N :=
  let n := (((N_of_ascii c mod 8 * 64 + six_bits c1) * 64 + six_bits c2) * 64 + six_bits c3)%N in
  if leads 240 247 c && continuation c1 && continuation c2 && continuation c3
     && N.leb 65536 n && N.ltb n 1114112
  then Some n else None.

(** [f] on every character; bytes that are no character stay. *)
Fixpoint map_chars (f : N → string) (s : string) : string :=
  match s with
  | EmptyString => ""
  | String c s1 =>
      if N.ltb (N_of_ascii c) 128 then f (N_of_ascii c) ++ map_chars f s1
      else
        match s1 with
        | EmptyString => s
        | String c1 s2 =>
            match two_bytes c c1 with
            | Some n => f n ++ map_chars f s2
            | None =>
                match s2 with
                | EmptyString => String c (map_chars f s1)
                | String c2 s3 =>
                    match three_bytes c c1 c2 with
                    | Some n => f n ++ map_chars f s3
                    | None =>
                        match s3 with
                        | EmptyString => String c (map_chars f s1)
                        | String c3 s4 =>
                            match four_bytes c c1 c2 c3 with
                            | Some n => f n ++ map_chars f s4
                            | None => String c (map_chars f s1)
                            end
                        end
                    end
                end
            end
        end
  end.

(** The letters beyond ASCII with a lower case: the first, the last, the step between them
    and the distance to their lower case (Unicode 14). *)
Definition upper_ranges : list (Z * Z * Z * Z) :=
  [(192, 214, 1, 32); (216, 222, 1, 32); (256, 302, 2, 1); (306, 310, 2, 1); (313, 327, 2, 1);
   (330, 374, 2, 1); (376, 376, 1, (-121)); (377, 381, 2, 1); (385, 385, 1, 210); (386, 388, 2, 1);
   (390, 390, 1, 206); (391, 391, 1, 1); (393, 394, 1, 205); (395, 395, 1, 1); (398, 398, 1, 79);
   (399, 399, 1, 202); (400, 400, 1, 203); (401, 401, 1, 1); (403, 403, 1, 205); (404, 404, 1, 207);
   (406, 406, 1, 211); (407, 407, 1, 209); (408, 408, 1, 1); (412, 412, 1, 211); (413, 413, 1, 213);
   (415, 415, 1, 214); (416, 420, 2, 1); (422, 422, 1, 218); (423, 423, 1, 1); (425, 425, 1, 218);
   (428, 428, 1, 1); (430, 430, 1, 218); (431, 431, 1, 1); (433, 434, 1, 217); (435, 437, 2, 1);
   (439, 439, 1, 219); (440, 440, 1, 1); (444, 444, 1, 1); (452, 452, 1, 2); (453, 453, 1, 1);
   (455, 455, 1, 2); (456, 456, 1, 1); (458, 458, 1, 2); (459, 475, 2, 1); (478, 494, 2, 1);
   (497, 497, 1, 2); (498, 500, 2, 1); (502, 502, 1, (-97)); (503, 503, 1, (-56)); (504, 542, 2, 1);
   (544, 544, 1, (-130)); (546, 562, 2, 1); (570, 570, 1, 10795); (571, 571, 1, 1);
   (573, 573, 1, (-163)); (574, 574, 1, 10792); (577, 577, 1, 1); (579, 579, 1, (-195));
   (580, 580, 1, 69); (581, 581, 1, 71); (582, 590, 2, 1); (880, 882, 2, 1); (886, 886, 1, 1);
   (895, 895, 1, 116); (902, 902, 1, 38); (904, 906, 1, 37); (908, 908, 1, 64); (910, 911, 1, 63);
   (913, 929, 1, 32); (931, 939, 1, 32); (975, 975, 1, 8); (984, 1006, 2, 1);
   (1012, 1012, 1, (-60)); (1015, 1015, 1, 1); (1017, 1017, 1, (-7)); (1018, 1018, 1, 1);
   (1021, 1023, 1, (-130)); (1024, 1039, 1, 80); (1040, 1071, 1, 32); (1120, 1152, 2, 1);
   (1162, 1214, 2, 1); (1216, 1216, 1, 15); (1217, 1229, 2, 1); (1232, 1326, 2, 1);
   (1329, 1366, 1, 48); (4256, 4293, 1, 7264); (4295, 4295, 1, 7264); (4301, 4301, 1, 7264);
   (5024, 5103, 1, 38864); (5104, 5109, 1, 8); (7312, 7354, 1, (-3008)); (7357, 7359, 1, (-3008));
   (7680, 7828, 2, 1); (7838, 7838, 1, (-7615)); (7840, 7934, 2, 1); (7944, 7951, 1, (-8));
   (7960, 7965, 1, (-8)); (7976, 7983, 1, (-8)); (7992, 7999, 1, (-8)); (8008, 8013, 1, (-8));
   (8025, 8031, 2, (-8)); (8040, 8047, 1, (-8)); (8072, 8079, 1, (-8)); (8088, 8095, 1, (-8));
   (8104, 8111, 1, (-8)); (8120, 8121, 1, (-8)); (8122, 8123, 1, (-74)); (8124, 8124, 1, (-9));
   (8136, 8139, 1, (-86)); (8140, 8140, 1, (-9)); (8152, 8153, 1, (-8)); (8154, 8155, 1, (-100));
   (8168, 8169, 1, (-8)); (8170, 8171, 1, (-112)); (8172, 8172, 1, (-7)); (8184, 8185, 1, (-128));
   (8186, 8187, 1, (-126)); (8188, 8188, 1, (-9)); (8486, 8486, 1, (-7517));
   (8490, 8490, 1, (-8383)); (8491, 8491, 1, (-8262)); (8498, 8498, 1, 28); (8544, 8559, 1, 16);
   (8579, 8579, 1, 1); (9398, 9423, 1, 26); (11264, 11311, 1, 48); (11360, 11360, 1, 1);
   (11362, 11362, 1, (-10743)); (11363, 11363, 1, (-3814)); (11364, 11364, 1, (-10727));
   (11367, 11371, 2, 1); (11373, 11373, 1, (-10780)); (11374, 11374, 1, (-10749));
   (11375, 11375, 1, (-10783)); (11376, 11376, 1, (-10782)); (11378, 11378, 1, 1);
   (11381, 11381, 1, 1); (11390, 11391, 1, (-10815)); (11392, 11490, 2, 1); (11499, 11501, 2, 1);
   (11506, 11506, 1, 1); (42560, 42604, 2, 1); (42624, 42650, 2, 1); (42786, 42798, 2, 1);
   (42802, 42862, 2, 1); (42873, 42875, 2, 1); (42877, 42877, 1, (-35332)); (42878, 42886, 2, 1);
   (42891, 42891, 1, 1); (42893, 42893, 1, (-42280)); (42896, 42898, 2, 1); (42902, 42920, 2, 1);
   (42922, 42922, 1, (-42308)); (42923, 42923, 1, (-42319)); (42924, 42924, 1, (-42315));
   (42925, 42925, 1, (-42305)); (42926, 42926, 1, (-42308)); (42928, 42928, 1, (-42258));
   (42929, 42929, 1, (-42282)); (42930, 42930, 1, (-42261)); (42931, 42931, 1, 928);
   (42932, 42946, 2, 1); (42948, 42948, 1, (-48)); (42949, 42949, 1, (-42307));
   (42950, 42950, 1, (-35384)); (42951, 42953, 2, 1); (42960, 42960, 1, 1); (42966, 42968, 2, 1);
   (42997, 42997, 1, 1); (65313, 65338, 1, 32); (66560, 66599, 1, 40); (66736, 66771, 1, 40);
   (66928, 66938, 1, 39); (66940, 66954, 1, 39); (66956, 66962, 1, 39); (66964, 66965, 1, 39);
   (68736, 68786, 1, 64); (71840, 71871, 1, 32); (93760, 93791, 1, 32); (125184, 125217, 1, 34)]%Z.

Definition lower_point (n : N) : N :=
  let z := Z.of_N n in
  match List.find (λ '(first, last, step, _),
          Z.leb first z && Z.leb z last && Z.eqb ((z - first) mod step) 0) upper_ranges with
  | Some (_, _, _, distance) => Z.to_N (z + distance)
  | None => n
  end.

(** U+0130 becomes two characters. *)
Definition lower_char (n : N) : string :=
  if N.ltb n 128 then String (lower_ascii (byte n)) ""
  else if N.eqb n 304 then "i" ++ utf8 775
  else utf8 (lower_point n).

Definition lower : string → string := map_chars lower_char.

Example lower_examples :
  lower (utf8 8490 ++ "ey" ++ utf8 304 ++ utf8 201 ++ utf8 1046 ++ utf8 66560 ++ utf8 128512)
  = "keyi" ++ utf8 775 ++ utf8 233 ++ utf8 1078 ++ utf8 66600 ++ utf8 128512 ∧
  lower "API-Key_1" = "api-key_1".
Proof. vm_compute. auto. Qed.

(** [s.replace("-", "_")] *)
Definition dash_to_underscore : string → string :=
  map_string (λ c, if Ascii.eqb c "-" then "_"%char else c).

(** [needle in s] and [s.startswith(needle)] *)
Definition startswith (needle s : string) : bool := String.prefix needle s.

Fixpoint contains (needle s : string) : bool :=
  startswith needle s ||
  match s with
  | EmptyString => false
  | String _ s' => contains needle s'
  end.

(** ** JSON *)

Inductive json : Type :=
| JNull
| JBool (b : bool)
| JInt (n : Z)
| JFloat (repr : string)
| JStr (s : string)
| JList (l : list json)
| JObj (fields : list (string * json)).

(** Induction through lists and fields. *)
Section json_nested_ind.
Context (P : json → Prop).
Context (Hnull : P JNull) (Hbool : ∀ b, P (JBool b)) (Hint : ∀ n, P (JInt n))
  (Hfloat : ∀ r, P (JFloat r)) (Hstr : ∀ s, P (JStr s))
  (Hlist : ∀ l, Forall P l → P (JList l))
  (Hobj : ∀ fields, Forall (λ kv, P kv.2) fields → P (JObj fields)).

Fixpoint json_nested_ind (v : json) : P v :=
  match v with
  | JNull => Hnull
  | JBool b => Hbool b
  | JInt n => Hint n
  | JFloat r => Hfloat r
  | JStr s => Hstr s
  | JList l => Hlist l ((fix go l : Forall P l :=
      match l with
      | [] => Forall_nil_2 P
      | x :: l => Forall_cons_2 P x l (json_nested_ind x) (go l)
      end) l)
  | JObj fields => Hobj fields ((fix go l : Forall (λ kv, P kv.2) l :=
      match l with
      | [] => Forall_nil_2 _
      | kv :: l => Forall_cons_2 _ kv l (json_nested_ind kv.2) (go l)
      end) fields)
  end.
End json_nested_ind.

(** A [dict[str, object]]: keys in insertion order, each once. *)
Definition dict := list (string * json).

Fixpoint dict_get (k : string) (d : dict) : option json :=
  match d with
  | [] => None
  | (k', v) :: d' => if String.eqb k k' then Some v else dict_get k d'
  end.

(** [d[k] = v]: replaces in place or appends. *)
Fixpoint dict_set (k : string) (v : json) (d : dict) : dict :=
  match d with
  | [] => [(k, v)]
  | (k', v') :: d' => if String.eqb k k' then (k, v) :: d' else (k', v') :: dict_set k v d'
  end.

(** [d.update(changes)] *)
Definition dict_update (changes d : dict) : dict :=
  foldl (λ acc kv, dict_set kv.1 kv.2 acc) d changes.

(** [bool(v)] of a decoded JSON value. *)
Definition json_truthy (v : json) : bool :=
  match v with
  | JNull => false
  | JBool b => b
  | JInt n => negb (Z.eqb n 0)
  | JFloat r => negb (String.eqb r "0.0" || String.eqb r "-0.0")
  | JStr s => truthy s
  | JList l => match l with [] => false | _ => true end
  | JObj d => match d with [] => false | _ => true end
  end.

(** [bool(d.get(k))] *)
Definition dict_truthy (k : string) (d : dict) : bool :=
  match dict_get k d with
  | Some v => json_truthy v
  | None => false
  end.

Definition json_of_option (o : option string) : json :=
  match o with
  | Some s => JStr s
  | None => JNull
  end.

(** [str(column)] of a nullable column. *)
Definition str_of (o : option string) : string := default "None" o.

(** ** Canonical JSON text: [json.dumps(value, sort_keys=True,
    separators=(",", ":"), ensure_ascii=False)] *)

Definition hex_digit (n : nat) : ascii :=
  if Nat.leb n 9 then ascii_of_nat (48 + n) else ascii_of_nat (87 + n).

Definition quote : string := String (ascii_of_nat 34) "".
Definition backslash : string := String (ascii_of_nat 92) "".

Definition escape_char (c : ascii) : string :=
  let n := nat_of_ascii c in
  if Nat.eqb n 34 then backslash ++ quote
  else if Nat.eqb n 92 then backslash ++ backslash
  else if Nat.eqb n 8 then backslash ++ "b"
  else if Nat.eqb n 9 then backslash ++ "t"
  else if Nat.eqb n 10 then backslash ++ "n"
  else if Nat.eqb n 12 then backslash ++ "f"
  else if Nat.eqb n 13 then backslash ++ "r"
  else if Nat.ltb n 32 then
    backslash ++ "u00" ++ String (hex_digit (Nat.div n 16)) (String (hex_digit (Nat.modulo n 16)) "")
  else String c "".

Fixpoint escape (s : string) : string :=
  match s with
  | EmptyString => ""
  | String c s' => escape_char c ++ escape s'
  end.

Definition quoted (s : string) : string := quote ++ escape s ++ quote.

Definition key_le (a b : string * string) : bool := String.leb a.1 b.1.

Fixpoint insert_field (kv : string * string) (l : list (string * string)) :=
  match l with
  | [] => [kv]
  | x :: l' => if key_le kv x then kv :: x :: l' else x :: insert_field kv l'
  end.

Definition join (sep : string) (l : list string) : string := String.concat sep l.

(** [json.dumps(value, sort_keys=True, separators=(isep, ksep))] with the texts written by
    [esc]. *)
Fixpoint json_dumps (esc : string → string) (isep ksep : string) (v : json) : string :=
  let quoted s := quote ++ esc s ++ quote in
  match v with
  | JNull => "null"
  | JBool true => "true"
  | JBool false => "false"
  | JInt n => pretty n
  | JFloat r => r
  | JStr s => quoted s
  | JList l => "[" ++ join isep (map (json_dumps esc isep ksep) l) ++ "]"
  | JObj d =>
      let printed := map (λ kv, (kv.1, json_dumps esc isep ksep kv.2)) d in
      let sorted := foldr insert_field [] printed in
      "{" ++ join isep (map (λ kv, quoted kv.1 ++ ksep ++ kv.2) sorted) ++ "}"
  end.

Definition canonical_json : json → string := json_dumps escape "," ":".

(** ** Facts *)

Lemma append_cons c (s r : string) : String c s ++ r = String c (s ++ r).
Proof. done. Qed.
Lemma append_nil_l (r : string) : "" ++ r = r.
Proof. done. Qed.
Lemma append_assoc (a b c : string) : (a ++ b) ++ c = a ++ (b ++ c).
Proof. induction a as [|x a IH]; [done|]. by rewrite !append_cons, IH. Qed.
Lemma append_nil_r (a : string) : a ++ "" = a.
Proof. induction a as [|c a IH]; [done|]. by rewrite append_cons, IH. Qed.
Lemma length_append (a b : string) :
  String.length (a ++ b) = String.length a + String.length b.
Proof. induction a as [|c a IH]; [done|]. simpl. by rewrite IH. Qed.

Lemma dict_get_set_eq k v d : dict_get k (dict_set k v d) = Some v.
Proof.
  induction d as [|[k' v'] d IH]; simpl; [by rewrite String.eqb_refl|].
  destruct (String.eqb k k') eqn:E; simpl; [by rewrite String.eqb_refl | by rewrite E].
Qed.

Lemma dict_get_set_ne k k' v d : k ≠ k' → dict_get k (dict_set k' v d) = dict_get k d.
Proof.
  intros Hne. induction d as [|[j w] d IH]; simpl.
  - by rewrite (proj2 (String.eqb_neq k k') Hne).
  - destruct (String.eqb k' j) eqn:E; simpl.
    + apply String.eqb_eq in E as <-. by rewrite (proj2 (String.eqb_neq k k') Hne).
    + destruct (String.eqb k j); [done|]. apply IH.
Qed.

(** Keys that an update does not mention keep their value. *)
Lemma dict_get_update_ne k changes d :
  k ∉ changes.*1 → dict_get k (dict_update changes d) = dict_get k d.
Proof.
  unfold dict_update. revert d. induction changes as [|[j w] changes IH]; intros d Hk; [done|].
  csimpl in *. apply not_elem_of_cons in Hk as [Hne Hk].
  rewrite IH by done. by apply dict_get_set_ne.
Qed.

Lemma strip_blank_iff s : blank s = true ↔ strip s = "".
Proof. unfold blank. apply String.eqb_eq. Qed.

(** SQLite's binary collation is a total order. *)
Lemma string_leb_trans a b c :
  String.leb a b = true → String.leb b c = true → String.leb a c = true.
Proof.
  unfold String.leb. revert b c.
  induction a as [|x a IH]; intros [|y b] [|z c]; simpl; try done.
  unfold Ascii.compare.
  destruct (N.compare_spec (N_of_ascii x) (N_of_ascii y)) as [Hxy|Hxy|Hxy]; [|intros _|done];
  (destruct (N.compare_spec (N_of_ascii y) (N_of_ascii z)) as [Hyz|Hyz|Hyz]; [| |done]);
  destruct (N.compare_spec (N_of_ascii x) (N_of_ascii z)) as [Hxz|Hxz|Hxz]; try done; try lia.
  apply IH.
Qed.
