(* ===== verification/PyJson.v ===== *)
(** * ASCII JSON text and numbers in text

    [json.dumps] with [ensure_ascii=True], the key order of [sort_keys=True],
    [int(text)] and [len(text)], as the registry uses them.  [int(text)] is the
    one of ASCII text. *)

From stdpp Require Import base tactics list strings pretty.
From Stdlib Require Import ZArith Lia Ascii.
From Stdlib Require String.
From S2P Require Import Prelude PyText.

Local Open Scope string_scope.

(** ** Unicode *)

(** [len(text)]: the characters of a text start at the other bytes. *)
Fixpoint py_len (s : string) : nat :=
  match s with
  | EmptyString => 0
  | String c s' => (if continuation c then 0 else 1) + py_len s'
  end.

(** The [\uXXXX] escape of a UTF-16 code unit. *)
Definition unicode_escape (n : N) : string :=
  let digit k := hex_digit (N.to_nat (N.modulo (N.shiftr n k) 16)) in
  backslash ++ "u"
    ++ String (digit 12%N) (String (digit 8%N) (String (digit 4%N) (String (digit 0%N) ""))).

(** A character above the basic plane is a surrogate pair. *)
Definition escape_code_point (n : N) : string :=
  if N.ltb n 65536 then unicode_escape n
  else
    let m := (n - 65536)%N in
    unicode_escape (55296 + N.shiftr m 10)%N ++ unicode_escape (56320 + N.modulo m 1024)%N.

(** [ensure_ascii=True]: every character outside [" ".."~"] is escaped. *)
Definition escape_code (n : N) : string :=
  if N.ltb n 127 then escape_char (byte n) else escape_code_point n.
Definition ascii_escape : string → string := map_chars escape_code.

(** ** [json.dumps(value, ensure_ascii=True, sort_keys=True, separators=(isep, ksep))] *)

Definition compact_json : json → string := json_dumps ascii_escape "," ":".
Definition spaced_json : json → string := json_dumps ascii_escape ", " ": ".

(** ** [json.loads(json.dumps(value, sort_keys=True, allow_nan=False))] *)

Fixpoint insert_sorted (kv : string * json) (l : dict) : dict :=
  match l with
  | [] => [kv]
  | x :: l' => if String.leb kv.1 x.1 then kv :: x :: l' else x :: insert_sorted kv l'
  end.

(** Every object in key order. *)
Fixpoint sort_keys (v : json) : json :=
  match v with
  | JList l => JList (map sort_keys l)
  | JObj d => JObj (foldr insert_sorted [] (map (λ kv, (kv.1, sort_keys kv.2)) d))
  | _ => v
  end.

Definition not_finite (r : string) : bool :=
  String.eqb r "NaN" || String.eqb r "Infinity" || String.eqb r "-Infinity".

Fixpoint json_finite (v : json) : bool :=
  match v with
  | JFloat r => negb (not_finite r)
  | JList l => forallb json_finite l
  | JObj d => forallb (λ kv, json_finite kv.2) d
  | _ => true
  end.

(** ** [int(text)] *)

Definition digit_value (c : ascii) : option Z :=
  if Nat.leb 48 (code c) && Nat.leb (code c) 57 then Some (Z.of_nat (code c - 48)) else None.

(** Decimal digits, with single underscores between them. *)
Fixpoint int_digits (acc : Z) (after_digit : bool) (s : string) : option Z :=
  match s with
  | EmptyString => if after_digit then Some acc else None
  | String c s' =>
      match digit_value c with
      | Some k => int_digits (acc * 10 + k)%Z true s'
      | None => if Ascii.eqb c "_" && after_digit then int_digits acc false s' else None
      end
  end.

Definition py_int (s : string) : option Z :=
  match strip s with
  | String "-" s' => Z.opp <$> int_digits 0 false s'
  | String "+" s' => int_digits 0 false s'
  | s' => int_digits 0 false s'
  end.

Example py_int_examples :
  (py_int " 22 ", py_int "-1_000", py_int "2_", py_int "", py_int "0x1")
  = (Some 22%Z, Some (-1000)%Z, None, None, None).
Proof. reflexivity. Qed.

Example ascii_escape_examples :
  ascii_escape (String (ascii_of_nat 195) (String (ascii_of_nat 169) "~"))
  = backslash ++ "u00e9~" ∧
  ascii_escape (String (ascii_of_nat 240) (String (ascii_of_nat 159)
    (String (ascii_of_nat 152) (String (ascii_of_nat 128) ""))))
  = backslash ++ "ud83d" ++ backslash ++ "ude00".
Proof. split; reflexivity. Qed.
