(* ===== verification/Utf8.v ===== *)
(** * UTF-8 texts cut to a byte budget

    [len(text.encode("utf-8"))], [encoded[:n]] and
    [bytes.decode("utf-8", errors="ignore")], as the Context assembler uses them.
    A text is the string of its UTF-8 bytes, so encoding is the identity; the
    bytes that are decoded are always the beginning of an encoded text, whose
    only possible fault is an incomplete last character. *)

From stdpp Require Import base tactics list strings.
From Stdlib Require Import ZArith Lia Ascii.
From S2P Require Import Prelude PyText.

Local Open Scope string_scope.

Definition byte_len (s : string) : Z := Z.of_nat (String.length s).

(** [encoded[:n]] and [encoded[n:]] *)
Fixpoint take_bytes (n : nat) (s : string) : string :=
  match n, s with
  | S n', String c s' => String c (take_bytes n' s')
  | _, _ => EmptyString
  end.
Fixpoint drop_bytes (n : nat) (s : string) : string :=
  match n, s with
  | S n', String _ s' => drop_bytes n' s'
  | _, _ => s
  end.

(** The number of bytes of the character that starts with a byte, less one. *)
Definition continuations (c : ascii) : nat :=
  let n := nat_of_ascii c in
  if Nat.ltb n 192 then 0 else if Nat.ltb n 224 then 1 else if Nat.ltb n 240 then 2 else 3.

(** Decoding, [errors="ignore"]: [cur] holds the bytes of the character being
    read, [need] how many are missing; what is incomplete at the end is ignored. *)
Fixpoint decode_from (cur : string) (need : nat) (s : string) : string :=
  match s with
  | EmptyString => EmptyString
  | String c s' =>
      match need with
      | O =>
          match continuations c with
          | O => String c (decode_from "" 0 s')
          | w => decode_from (String c "") w s'
          end
      | S O => (cur ++ String c "") ++ decode_from "" 0 s'
      | S n => decode_from (cur ++ String c "") n s'
      end
  end.
Definition decode_ignore (s : string) : string := decode_from "" 0 s.

Definition utf8_prefix (value : string) (byte_budget : Z) : string :=
  if Z.leb byte_budget 0 then ""
  else if Z.leb (byte_len value) byte_budget then value
  else decode_ignore (take_bytes (Z.to_nat byte_budget) value).

(** A text: a sequence of whole characters. *)
Definition whole (s : string) : Prop := decode_ignore s = s.

(** ** Facts *)

Lemma app_cons_text c (a b : string) : String c a ++ b = String c (a ++ b).
Proof. done. Qed.

Lemma app_nil_text (s : string) : s ++ "" = s.
Proof. induction s as [|c s IH]; [done|]. by rewrite app_cons_text, IH. Qed.

Lemma app_assoc_text (a b c : string) : (a ++ b) ++ c = a ++ b ++ c.
Proof. induction a as [|x a IH]; [done|]. by rewrite !app_cons_text, IH. Qed.

Lemma length_app_text (a b : string) :
  String.length (a ++ b) = (String.length a + String.length b)%nat.
Proof. induction a as [|x a IH]; [done|]. rewrite app_cons_text. simpl. by rewrite IH. Qed.

Lemma byte_len_app (a b : string) : byte_len (a ++ b) = (byte_len a + byte_len b)%Z.
Proof. unfold byte_len. rewrite length_app_text. lia. Qed.

Lemma byte_len_nonneg (s : string) : (0 ≤ byte_len s)%Z.
Proof. unfold byte_len. lia. Qed.

Lemma byte_len_zero (s : string) : byte_len s = 0%Z → s = "".
Proof. unfold byte_len. destruct s; simpl; [done | lia]. Qed.

Lemma take_drop_bytes n s : take_bytes n s ++ drop_bytes n s = s.
Proof.
  revert s. induction n; intros [|c s]; [done..|]. simpl. by rewrite app_cons_text, IHn.
Qed.

Lemma length_take_bytes n s : String.length (take_bytes n s) = Nat.min n (String.length s).
Proof. revert s. induction n; intros [|c s]; simpl; [done..|]. by rewrite IHn. Qed.

Lemma length_drop_bytes n s : String.length (drop_bytes n s) = (String.length s - n)%nat.
Proof. revert s. induction n; intros [|c s]; simpl; [done..|]. by rewrite IHn. Qed.

Lemma take_bytes_app n a b :
  (n ≤ String.length a)%nat → take_bytes n (a ++ b) = take_bytes n a.
Proof.
  revert n. induction a as [|c a IH]; intros [|n]; simpl; intros; [by destruct b | lia | done|].
  rewrite IH; [done | lia].
Qed.

Lemma take_bytes_app_more n a b :
  take_bytes (String.length a + n) (a ++ b) = a ++ take_bytes n b.
Proof. induction a as [|c a IH]; simpl; [done|]. by rewrite IH, app_cons_text. Qed.

Lemma drop_bytes_app n a b :
  (n ≤ String.length a)%nat → drop_bytes n (a ++ b) = drop_bytes n a ++ b.
Proof.
  revert n. induction a as [|c a IH]; intros [|n]; simpl; intros; [by destruct b | lia | done|].
  apply IH. lia.
Qed.

Lemma take_bytes_all n s : (String.length s ≤ n)%nat → take_bytes n s = s.
Proof.
  revert s. induction n as [|n IH]; intros [|c s]; simpl; intros; [done | lia | done|].
  rewrite IH; [done | lia].
Qed.

(** The rest of a character that has been started. *)
Lemma decode_from_need cur need s :
  decode_from cur (S need) s =
  if Nat.ltb (String.length s) (S need) then ""
  else (cur ++ take_bytes (S need) s) ++ decode_ignore (drop_bytes (S need) s).
Proof.
  revert cur s. induction need as [|need IH]; intros cur [|c s]; try done.
  change (decode_from cur (S (S need)) (String c s))
    with (decode_from (cur ++ String c "") (S need) s).
  change (take_bytes (S (S need)) (String c s)) with (String c "" ++ take_bytes (S need) s).
  change (drop_bytes (S (S need)) (String c s)) with (drop_bytes (S need) s).
  rewrite IH. cbn [String.length].
  destruct (Nat.ltb_spec (String.length s) (S need)),
    (Nat.ltb_spec (S (String.length s)) (S (S need))); try lia; [done|].
  by rewrite !app_assoc_text.
Qed.

(** Decoding one character. *)
Lemma decode_cons c s :
  decode_ignore (String c s) =
  if Nat.ltb (String.length s) (continuations c) then ""
  else String c (take_bytes (continuations c) s ++ decode_ignore (drop_bytes (continuations c) s)).
Proof.
  unfold decode_ignore at 1. cbn [decode_from]. destruct (continuations c) as [|w] eqn:Hw.
  - by destruct s.
  - rewrite decode_from_need. destruct (Nat.ltb_spec (String.length s) (S w)); [done|].
    by rewrite !app_assoc_text.
Qed.

Lemma continuations_le c : (continuations c ≤ 3)%nat.
Proof. unfold continuations. repeat destruct (Nat.ltb _ _); lia. Qed.

(** Induction over the characters of a byte string. *)
Lemma character_ind (P : string → Prop) :
  P "" →
  (∀ c s, (String.length s < continuations c)%nat → P (String c s)) →
  (∀ c s t, String.length s = continuations c → P t → P (String c (s ++ t))) →
  ∀ s, P s.
Proof.
  intros Hnil Hcut Hchar s. remember (String.length s) as n eqn:Hn. revert s Hn.
  induction (lt_wf n) as [n _ IH]. intros [|c s] ->; [done|]. simpl in IH.
  destruct (decide (String.length s < continuations c)%nat) as [|Hge]; [auto|].
  rewrite <-(take_drop_bytes (continuations c) s).
  apply Hchar; [rewrite length_take_bytes; lia|].
  eapply IH; [|done]. rewrite length_drop_bytes. lia.
Qed.

Lemma decode_char c s t :
  String.length s = continuations c →
  decode_ignore (String c (s ++ t)) = String c (s ++ decode_ignore t).
Proof.
  intros Hs. rewrite decode_cons, length_app_text, Hs.
  destruct (Nat.ltb_spec (continuations c + String.length t) (continuations c)); [lia|].
  rewrite <-Hs, take_bytes_app, take_bytes_all, drop_bytes_app by lia.
  assert (drop_bytes (String.length s) s = "") as ->; [|done].
  apply byte_len_zero. unfold byte_len. rewrite length_drop_bytes. lia.
Qed.

Lemma decode_cut c s : (String.length s < continuations c)%nat → decode_ignore (String c s) = "".
Proof. intros Hs. rewrite decode_cons. by destruct (Nat.ltb_spec (String.length s) (continuations c)); [|lia]. Qed.

(** Decoding drops at most three bytes at the end, and what is left is whole. *)
Lemma decode_prefix s :
  ∃ t, s = decode_ignore s ++ t ∧ (String.length t ≤ 3)%nat ∧ whole (decode_ignore s).
Proof.
  induction s as [|c s Hs|c s t Hs (u & Ht & Hu & Hw)] using character_ind.
  - exists "". split; [done|]. simpl. split; [lia | done].
  - rewrite decode_cut by done. exists (String c s). split; [done|].
    pose proof (continuations_le c). simpl. split; [lia | done].
  - rewrite decode_char by done. exists u. rewrite app_cons_text, app_assoc_text, <-Ht.
    split; [done|]. split; [done|]. unfold whole in *. by rewrite decode_char, Hw by done.
Qed.

Lemma whole_nil : whole "".
Proof. done. Qed.

Lemma decode_app a b : whole a → decode_ignore (a ++ b) = a ++ decode_ignore b.
Proof.
  induction a as [|c s Hs|c s t Hs IH] using character_ind; intros Hw.
  - done.
  - unfold whole in Hw. rewrite decode_cut in Hw by done. discriminate.
  - unfold whole in Hw. rewrite decode_char in Hw by done. injection Hw as Hw.
    rewrite app_cons_text, app_assoc_text, decode_char by done. rewrite IH.
    + by rewrite app_cons_text, app_assoc_text.
    + unfold whole. revert Hw. clear. intros Hw.
      induction s as [|x s IH]; simpl in Hw; [done|]. injection Hw. auto.
Qed.

Lemma whole_app a b : whole a → whole b → whole (a ++ b).
Proof. unfold whole. intros Ha Hb. by rewrite decode_app, Hb by done. Qed.

Lemma utf8_prefix_nonpos s n : (n ≤ 0)%Z → utf8_prefix s n = "".
Proof. unfold utf8_prefix. by destruct (Z.leb_spec n 0); [|lia]. Qed.

(** What is kept of a text: a prefix of whole characters within the budget, all of
    the text if it fits, and otherwise at most three bytes less than the budget. *)
Lemma utf8_prefix_spec s n :
  whole s →
  ∃ t, s = utf8_prefix s n ++ t ∧ whole (utf8_prefix s n) ∧
    (byte_len (utf8_prefix s n) ≤ Z.max 0 n)%Z ∧
    ((byte_len s ≤ n)%Z → t = "") ∧
    (t ≠ "" → (n - 3 ≤ byte_len (utf8_prefix s n))%Z).
Proof.
  intros Hs. unfold utf8_prefix. destruct (Z.leb_spec n 0) as [Hn|Hn].
  { exists s. split; [done|]. split; [done|]. unfold byte_len; simpl.
    split; [lia|]. split; [|lia]. intros Hle. apply byte_len_zero. unfold byte_len in *. lia. }
  destruct (Z.leb_spec (byte_len s) n) as [Hle|Hle].
  { exists "". rewrite app_nil_text. split_and!; try done. lia. }
  destruct (decode_prefix (take_bytes (Z.to_nat n) s)) as (u & Hu & Hl & Hw).
  exists (u ++ drop_bytes (Z.to_nat n) s).
  assert (byte_len (take_bytes (Z.to_nat n) s) = n) as Hlen.
  { unfold byte_len in *. rewrite length_take_bytes. lia. }
  rewrite Hu in Hlen at 1. rewrite byte_len_app in Hlen. pose proof (byte_len_nonneg u).
  split_and!; [|done | lia | lia |].
  - rewrite <-app_assoc_text, <-Hu. by rewrite take_drop_bytes.
  - intros _. unfold byte_len in *. lia.
Qed.

(** ASCII texts are cut at the byte. *)
Fixpoint ascii_text (s : string) : bool :=
  match s with
  | EmptyString => true
  | String c s' => Nat.ltb (nat_of_ascii c) 128 && ascii_text s'
  end.

Lemma ascii_continuations c : Nat.ltb (nat_of_ascii c) 128 = true → continuations c = 0%nat.
Proof. unfold continuations. intros Hc%Nat.ltb_lt. by destruct (Nat.ltb_spec (nat_of_ascii c) 192); [|lia]. Qed.

Lemma ascii_whole s : ascii_text s = true → whole s.
Proof.
  unfold whole. induction s as [|c s IH]; [done|]. cbn [ascii_text]. intros [Hc Hs]%andb_true_iff.
  rewrite decode_cons, (ascii_continuations c Hc). simpl. destruct s; [done|]. by rewrite IH.
Qed.

Lemma ascii_take n s : ascii_text s = true → ascii_text (take_bytes n s) = true.
Proof.
  revert s. induction n as [|n IH]; intros [|c s]; try done. simpl.
  intros [Hc Hs]%andb_true_iff. rewrite Hc. by apply IH.
Qed.

Lemma ascii_app a b : ascii_text (a ++ b) = ascii_text a && ascii_text b.
Proof. induction a as [|c a IH]; [done|]. rewrite app_cons_text. simpl. by rewrite IH, andb_assoc. Qed.

Lemma utf8_prefix_ascii s n :
  ascii_text s = true → utf8_prefix s n = take_bytes (Z.to_nat n) s.
Proof.
  intros Hs. unfold utf8_prefix. destruct (Z.leb_spec n 0).
  { assert (Z.to_nat n = 0%nat) as -> by lia. by destruct s. }
  destruct (Z.leb_spec (byte_len s) n).
  { rewrite take_bytes_all; [done|]. unfold byte_len in *. lia. }
  apply ascii_whole, ascii_take, Hs.
Qed.
