(* ===== verification/PyTime.v ===== *)
(** * [datetime.isoformat()] of UTC times

    A time is a number of microseconds since the epoch; its text is the one that
    [datetime.now(timezone.utc).isoformat()] gives: the proleptic Gregorian date,
    the time of day, the microseconds unless they are zero, and [+00:00]. *)

From stdpp Require Import base tactics list strings pretty.
From Stdlib Require Import ZArith Lia.
From S2P Require Import Prelude PyText.

Local Open Scope string_scope.
Local Open Scope Z_scope.

(** A number with leading zeros. *)
Fixpoint zeros (n : nat) : string :=
  match n with O => "" | S n' => "0" ++ zeros n' end.
Definition padded (width : nat) (n : Z) : string :=
  let digits := pretty n in zeros (width - String.length digits) ++ digits.

(** Year, month and day of a day number (the epoch is day 0); years start in March
    here, so that the leap day is the last of a year. *)
Definition civil_date (day : Z) : Z * Z * Z :=
  let z := day + 719468 in
  let era := z / 146097 in
  let doe := z mod 146097 in
  let yoe := (doe - doe / 1460 + doe / 36524 - doe / 146096) / 365 in
  let doy := doe - (365 * yoe + yoe / 4 - yoe / 100) in
  let mp := (5 * doy + 2) / 153 in
  let d := doy - (153 * mp + 2) / 5 + 1 in
  let m := if Z.ltb mp 10 then mp + 3 else mp - 9 in
  let y := yoe + era * 400 in
  ((if Z.leb m 2 then y + 1 else y), m, d).

Definition isoformat (t : Z) : string :=
  let microseconds := t mod 1000000 in
  let seconds := t / 1000000 in
  let '(y, m, d) := civil_date (seconds / 86400) in
  let s := seconds mod 86400 in
  padded 4 y ++ "-" ++ padded 2 m ++ "-" ++ padded 2 d ++ "T"
    ++ padded 2 (s / 3600) ++ ":" ++ padded 2 (s / 60 mod 60) ++ ":" ++ padded 2 (s mod 60)
    ++ (if Z.eqb microseconds 0 then "" else "." ++ padded 6 microseconds) ++ "+00:00".

Example isoformat_epoch : isoformat 0 = "1970-01-01T00:00:00+00:00".
Proof. vm_compute. reflexivity. Qed.
Example isoformat_leap_day :
  isoformat 1709210096000789 = "2024-02-29T12:34:56.000789+00:00".
Proof. vm_compute. reflexivity. Qed.
Example isoformat_new_year :
  isoformat 1735689600500000 = "2025-01-01T00:00:00.500000+00:00".
Proof. vm_compute. reflexivity. Qed.

Lemma isoformat_truthy t : truthy (isoformat t) = true.
Proof.
  unfold truthy, isoformat. destruct (civil_date _) as [[y m] d].
  destruct (padded 4 y); reflexivity.
Qed.
