(* ===== verification/Tables.v ===== *)
(** * SQL tables as lists of rows

    A table is the list of its rows in insertion order.  This file gives the
    statements the repositories use ([SELECT ... fetchone], [UPDATE ... WHERE],
    [ORDER BY], [MAX]), the constraint forms of the schema (unique indexes,
    row checks), and the lemmas that every table shares: what an insertion and
    an update preserve. *)

From stdpp Require Import base tactics list strings sorting.
From Stdlib Require Import ZArith Lia.
From S2P Require Import Prelude.

Local Open Scope Z_scope.

Section tables.
Context {R : Type}.
Implicit Types (r : R) (t : list R) (p q : R → bool).

(** [SELECT * FROM t WHERE p] with [fetchone()] / [fetchall()]. *)
Definition select_one p t : option R := List.find p t.
Definition select p t : list R := List.filter p t.
Definition row_exists p t : bool := existsb p t.

(** [UPDATE t SET r := f r WHERE p]: the [BEFORE UPDATE] triggers and the
    row checks are [guard old new]; the first violated one aborts the
    statement.  The first component of the result is [rowcount]. *)
Fixpoint update_where p (guard : R → R → option string) (f : R → R) t :
    result string (Z * list R) :=
  match t with
  | [] => Ok (0, [])
  | r :: t' =>
      if p r then
        match guard r (f r) with
        | Some c => Err c
        | None =>
            match update_where p guard f t' with
            | Ok (n, u) => Ok (n + 1, f r :: u)
            | Err c => Err c
            end
        end
      else
        match update_where p guard f t' with
        | Ok (n, u) => Ok (n, r :: u)
        | Err c => Err c
        end
  end.

(** [COALESCE(MAX(col), 0) + 1] over the rows that satisfy [p]. *)
Definition next_seq p (col : R → Z) t : Z :=
  foldr Z.max 0 (col <$> select p t) + 1.

(** [ORDER BY] with the comparison [le]: stable insertion sort. *)
Fixpoint insert_by (le : R → R → bool) r t : list R :=
  match t with
  | [] => [r]
  | x :: t' => if le r x then r :: x :: t' else x :: insert_by le r t'
  end.
Definition order_by (le : R → R → bool) t : list R := foldr (insert_by le) [] t.

(** A unique index on [key], restricted to the rows that satisfy [p]. *)
Definition Unique {K} p (key : R → K) t : Prop := NoDup (key <$> select p t).

(** The check an insertion makes against a unique index. *)
Definition index_free {K} `{EqDecision K} p (key : R → K) r t : bool :=
  implb (p r) (negb (row_exists (λ x, p x && bool_decide (key x = key r)) t)).
End tables.

(** The first violated constraint of a list of (holds, name) pairs. *)
Fixpoint violation (cs : list (bool * string)) : option string :=
  match cs with
  | [] => None
  | (true, _) :: cs' => violation cs'
  | (false, c) :: _ => Some c
  end.

Definition always {R} (_ : R) : bool := true.

Lemma violation_None cs : violation cs = None ↔ Forall (λ c, c.1 = true) cs.
Proof.
  induction cs as [|[[] c] cs IH]; simpl.
  - by split.
  - rewrite IH. split; [by constructor | by inversion 1].
  - split; [done | inversion 1; naive_solver].
Qed.

(** ** Reads *)
Section reads.
Context {R : Type}.
Implicit Types (r : R) (t : list R) (p q : R → bool).

Lemma elem_of_select p t r : r ∈ select p t ↔ r ∈ t ∧ p r = true.
Proof. unfold select. rewrite !list_elem_of_In. apply filter_In. Qed.

Lemma select_one_Some p t r : select_one p t = Some r → r ∈ t ∧ p r = true.
Proof. unfold select_one. intros H%find_some. by rewrite list_elem_of_In. Qed.

Lemma select_one_the p t r :
  r ∈ t → p r = true → (∀ x, x ∈ t → p x = true → x = r) → select_one p t = Some r.
Proof.
  intros Hr Hp Hu. destruct (select_one p t) as [x|] eqn:Hx.
  - apply select_one_Some in Hx as [Hx Hpx]. by rewrite (Hu x Hx Hpx).
  - unfold select_one in Hx. apply find_none with (x:=r) in Hx; [congruence|].
    by apply list_elem_of_In.
Qed.

Lemma select_one_None p t : select_one p t = None ↔ ∀ r, r ∈ t → p r = false.
Proof.
  unfold select_one. split.
  - intros H r Hr%list_elem_of_In. by eapply find_none in H.
  - intros H. destruct (find p t) eqn:Hf; [|done].
    apply find_some in Hf as [Hr%list_elem_of_In Hp]. by rewrite H in Hp.
Qed.

Lemma row_exists_true p t : row_exists p t = true ↔ ∃ r, r ∈ t ∧ p r = true.
Proof.
  unfold row_exists. rewrite existsb_exists. by setoid_rewrite list_elem_of_In.
Qed.

Lemma row_exists_false p t : row_exists p t = false ↔ ∀ r, r ∈ t → p r = false.
Proof.
  rewrite <-not_true_iff_false, row_exists_true. split.
  - intros H r Hr. apply not_true_iff_false. naive_solver.
  - intros H (r & Hr & Hp). by rewrite H in Hp.
Qed.

Lemma select_app p t u : select p (t ++ u) = select p t ++ select p u.
Proof. apply List.filter_app. Qed.

Lemma select_nil_iff p t : select p t = [] ↔ ∀ r, r ∈ t → p r = false.
Proof.
  split.
  - intros H r Hr. apply not_true_iff_false. intros Hp.
    assert (r ∈ select p t) as Hin by (by apply elem_of_select).
    rewrite H in Hin. by apply not_elem_of_nil in Hin.
  - intros H. destruct (select p t) as [|r u] eqn:Hs; [done|].
    assert (r ∈ select p t) as [Hr Hp]%elem_of_select by (rewrite Hs; constructor).
    by rewrite H in Hp.
Qed.

(** A unique index makes the row that [fetchone()] returns the only one. *)
Lemma unique_eq {K} p (key : R → K) t r1 r2 :
  Unique p key t → r1 ∈ t → r2 ∈ t → p r1 = true → p r2 = true →
  key r1 = key r2 → r1 = r2.
Proof.
  unfold Unique. intros Hnd H1 H2 Hp1 Hp2 Hk.
  assert (r1 ∈ select p t) as [i Hi]%list_elem_of_lookup by (by apply elem_of_select).
  assert (r2 ∈ select p t) as [j Hj]%list_elem_of_lookup by (by apply elem_of_select).
  enough (i = j) by naive_solver.
  eapply NoDup_lookup; [exact Hnd | |]; rewrite list_lookup_fmap.
  - by rewrite Hi.
  - by rewrite Hj, Hk.
Qed.
End reads.

Lemma select_select {R} (p q : R → bool) t :
  select p (select q t) = select (λ r, q r && p r) t.
Proof.
  unfold select. induction t as [|r t IH]; simpl; [done|].
  destruct (q r); simpl; [|done]. destruct (p r); by rewrite IH.
Qed.

(** At most one row of a unique index has a given key. *)
Lemma select_always {R} (t : list R) : select always t = t.
Proof. unfold select. induction t; simpl; congruence. Qed.

Lemma unique_count {R K} (p q : R → bool) (key : R → K) t k :
  Unique p key t → (∀ r, q r = true → key r = k) →
  (length (select p (select q t)) ≤ 1)%nat.
Proof.
  intros Hu Hk. unfold Unique in Hu.
  assert (∀ l, sublist l (select p t) → (∀ r, r ∈ l → key r = k) → (length l ≤ 1)%nat) as Hl.
  { intros l Hsub Hkey. assert (NoDup (key <$> l)) as Hnd
      by (eapply sublist_NoDup; [done | by apply (fmap_sublist key)]).
    destruct l as [|r1 [|r2 l]]; simpl; [lia..|]. exfalso. csimpl in Hnd.
    apply NoDup_cons in Hnd as [Hn _]. apply Hn.
    rewrite (Hkey r1), (Hkey r2) by (repeat constructor). constructor. }
  apply Hl.
  - clear. unfold select. induction t as [|r t IH]; simpl; [done|].
    destruct (q r), (p r) eqn:Hp; simpl; rewrite ?Hp; try done; by constructor.
  - intros r [[_ Hq]%elem_of_select _]%elem_of_select. auto.
Qed.

(** ** Insertions and updates *)
Section writes.
Context {R : Type}.
Implicit Types (r : R) (t : list R) (p q : R → bool).

Definition on_rows p (f : R → R) t : list R := (λ r, if p r then f r else r) <$> t.

Lemma update_where_Ok p guard f t n u :
  update_where p guard f t = Ok (n, u) →
  u = on_rows p f t ∧ n = Z.of_nat (length (select p t)) ∧
  ∀ r, r ∈ t → p r = true → guard r (f r) = None.
Proof.
  revert n u. induction t as [|r t IH]; intros n u; simpl.
  { intros [= <- <-]. split_and!; [done..|]. intros r Hr. by apply not_elem_of_nil in Hr. }
  destruct (p r) eqn:Hp; [destruct (guard r (f r)) eqn:Hg; [done|]|];
    destruct (update_where p guard f t) as [[m v]|] eqn:Ht; try done;
    intros [= <- <-]; destruct (IH _ _ eq_refl) as (-> & -> & IHg);
    (split_and!; [done | simpl; lia |]);
    (intros x Hx Hpx; apply elem_of_cons in Hx as [->|Hx]; [congruence || done | by eapply IHg]).
Qed.

Lemma update_where_runs p guard f t :
  (∀ r, r ∈ t → p r = true → guard r (f r) = None) →
  update_where p guard f t = Ok (Z.of_nat (length (select p t)), on_rows p f t).
Proof.
  induction t as [|r t IH]; intros Hg; simpl; [done|].
  rewrite IH by (intros x Hx; apply Hg; by constructor).
  unfold on_rows; csimpl. destruct (p r) eqn:Hp; simpl; [|done].
  rewrite Hg by (done || constructor). repeat f_equal. lia.
Qed.

Lemma elem_of_on_rows p f t r :
  r ∈ on_rows p f t ↔ ∃ x, x ∈ t ∧ r = if p x then f x else x.
Proof. unfold on_rows. rewrite list_elem_of_fmap. naive_solver. Qed.

Lemma on_rows_kept p f t r : r ∈ t → p r = false → r ∈ on_rows p f t.
Proof. intros Hr Hp. apply elem_of_on_rows. exists r. by rewrite Hp. Qed.

Lemma fmap_on_rows {K} (key : R → K) p f t :
  (∀ r, r ∈ t → p r = true → key (f r) = key r) → key <$> on_rows p f t = key <$> t.
Proof.
  intros Hk. unfold on_rows. induction t as [|r t IH]; csimpl; [done|].
  rewrite IH by (intros; apply Hk; [by constructor | done]). f_equal.
  destruct (p r) eqn:Hp; [|done]. apply Hk; [constructor | done].
Qed.

Lemma on_rows_none p f t : (∀ r, r ∈ t → p r = false) → on_rows p f t = t.
Proof.
  intros H. unfold on_rows. induction t as [|r t IH]; csimpl; [done|].
  rewrite H by constructor. f_equal. apply IH. intros x Hx. apply H. by constructor.
Qed.

(** The update of the row that was just inserted. *)
Lemma on_rows_new p f t r :
  (∀ x, x ∈ t → p x = false) → p r = true → on_rows p f (t ++ [r]) = t ++ [f r].
Proof.
  intros Ht Hr. unfold on_rows. rewrite fmap_app. fold (on_rows p f t).
  rewrite on_rows_none by done. csimpl. by rewrite Hr.
Qed.

Lemma unique_insert {K} `{EqDecision K} p (key : R → K) t r :
  Unique p key t → index_free p key r t = true → Unique p key (t ++ [r]).
Proof.
  unfold Unique, index_free. intros Hnd Hfree.
  rewrite select_app, fmap_app. simpl.
  destruct (p r) eqn:Hp; simpl in *; [|by rewrite app_nil_r].
  apply NoDup_app. split_and!; [done| |apply NoDup_singleton].
  intros k (x & -> & [Hx Hpx]%elem_of_select)%list_elem_of_fmap Hk.
  apply list_elem_of_singleton in Hk.
  apply negb_true_iff, (row_exists_false _ _) with (r:=x) in Hfree; [|done].
  rewrite Hpx, Hk in Hfree. by rewrite bool_decide_eq_true_2 in Hfree.
Qed.

(** An update that keeps the key and never moves a row into the index keeps
    the index unique. *)
Lemma unique_update {K} p q (key : R → K) f t :
  Unique p key t →
  (∀ r, r ∈ t → q r = true → p (f r) = true → p r = true ∧ key (f r) = key r) →
  Unique p key (on_rows q f t).
Proof.
  unfold Unique. intros Hnd Hf.
  enough (sublist (key <$> select p (on_rows q f t)) (key <$> select p t)) as Hsub
    by (by eapply sublist_NoDup).
  clear Hnd. unfold on_rows in *. induction t as [|r t IH]; csimpl; [done|].
  assert (∀ x, x ∈ t → q x = true → p (f x) = true → p x = true ∧ key (f x) = key x)
    by (intros; apply Hf; [by constructor | done..]).
  destruct (q r) eqn:Hq.
  - destruct (p (f r)) eqn:Hpf.
    + destruct (Hf r) as [-> Hk]; [constructor|done..|].
      simpl. rewrite Hk. apply sublist_skip, IH, H.
    + destruct (p r); simpl; [apply sublist_cons|]; apply IH, H.
  - destruct (p r); simpl; [apply sublist_skip|]; apply IH, H.
Qed.

(** A unique index, position by position. *)
Lemma unique_alt {K} p (key : R → K) t :
  Unique p key t ↔
  ∀ i j r1 r2, t !! i = Some r1 → t !! j = Some r2 → p r1 = true → p r2 = true →
    key r1 = key r2 → i = j.
Proof.
  unfold Unique, select. induction t as [|r t IH]; simpl.
  { split; [done | constructor]. }
  destruct (p r) eqn:Hp; csimpl; rewrite ?NoDup_cons, IH; clear IH.
  - split.
    + intros [Hnin IH] [|i] [|j] r1 r2 H1 H2 Hp1 Hp2 Hk; simplify_eq/=; [done| | |].
      * exfalso. apply Hnin, list_elem_of_fmap. exists r2. split; [done|].
        apply elem_of_select. eauto using list_elem_of_lookup_2.
      * exfalso. apply Hnin, list_elem_of_fmap. exists r1. split; [done|].
        apply elem_of_select. eauto using list_elem_of_lookup_2.
      * f_equal. by apply (IH i j r1 r2).
    + intros Hu. split.
      * intros (x & Hk & [[i Hi]%list_elem_of_lookup Hpx]%elem_of_select)%list_elem_of_fmap.
        by specialize (Hu 0%nat (S i) r x eq_refl Hi Hp Hpx Hk).
      * intros i j r1 r2 H1 H2 Hp1 Hp2 Hk. by specialize (Hu (S i) (S j) r1 r2 H1 H2 Hp1 Hp2 Hk) as [= ->].
  - split.
    + intros Hu [|i] [|j] r1 r2 H1 H2 Hp1 Hp2 Hk; simplify_eq/=; try congruence.
      f_equal. by apply (Hu i j r1 r2).
    + intros Hu i j r1 r2 H1 H2 Hp1 Hp2 Hk. by specialize (Hu (S i) (S j) r1 r2 H1 H2 Hp1 Hp2 Hk) as [= ->].
Qed.

(** An update of the row with one primary key that the index accepts against
    the other rows. *)
Lemma unique_update_one {K P} `{EqDecision K} p q (pk : R → P) (key : R → K) f t k :
  Unique always pk t → Unique p key t →
  (∀ r, q r = true → pk r = k) →
  (∀ r x, r ∈ t → q r = true → x ∈ t → pk x ≠ k → p (f r) = true → p x = true →
     key x ≠ key (f r)) →
  Unique p key (on_rows q f t).
Proof.
  rewrite !unique_alt. unfold on_rows. intros Hpk Hu Hq Hfree i j r1 r2.
  rewrite !list_lookup_fmap, !fmap_Some.
  intros (x & Hi & ->) (y & Hj & ->) Hp1 Hp2 Hk.
  assert (∀ i x, t !! i = Some x → x ∈ t) as Hin by eauto using list_elem_of_lookup_2.
  destruct (q x) eqn:Hqx, (q y) eqn:Hqy.
  - apply (Hpk i j x y); try done. by rewrite (Hq x), (Hq y).
  - destruct (decide (i = j)) as [|Hne]; [done|]. exfalso.
    apply (Hfree x y); eauto. intros Hy. apply Hne, (Hpk i j x y); try done. by rewrite Hy, (Hq x).
  - destruct (decide (i = j)) as [|Hne]; [done|]. exfalso.
    apply (Hfree y x); eauto. intros Hy. apply Hne, (Hpk i j x y); try done. by rewrite Hy, (Hq y).
  - eauto.
Qed.

Lemma forall_insert (P : R → Prop) t r : Forall P t → P r → Forall P (t ++ [r]).
Proof. intros. apply Forall_app. auto. Qed.

Lemma forall_update (P : R → Prop) q f t :
  Forall P t → (∀ r, r ∈ t → q r = true → P r → P (f r)) → Forall P (on_rows q f t).
Proof.
  rewrite !Forall_forall. intros HP Hf r (x & Hx & ->)%elem_of_on_rows.
  destruct (q x) eqn:Hq; eauto.
Qed.

(** Rows outside the selection stay outside. *)
Lemma select_on_rows_skip p q f t :
  (∀ r, r ∈ t → q r = true → p r = false ∧ p (f r) = false) →
  select p (on_rows q f t) = select p t.
Proof.
  unfold select, on_rows. induction t as [|r t IH]; intros H; csimpl; [done|].
  assert (List.filter p ((λ r, if q r then f r else r) <$> t) = List.filter p t) as IH'
    by (apply IH; intros; apply H; [by constructor | done]).
  destruct (q r) eqn:Hq; [|by rewrite IH'].
  destruct (H r) as [-> ->]; [constructor | done|]. done.
Qed.

Lemma select_on_rows p q f t :
  (∀ r, p (f r) = p r) → select p (on_rows q f t) = on_rows q f (select p t).
Proof.
  intros Hp. unfold select, on_rows. induction t as [|r t IH]; csimpl; [done|].
  destruct (q r) eqn:Hq; rewrite ?Hp; destruct (p r); csimpl; by rewrite ?Hq, IH.
Qed.

Lemma select_one_on_rows p q f t :
  (∀ r, p (f r) = p r) →
  select_one p (on_rows q f t) = (λ r, if q r then f r else r) <$> select_one p t.
Proof.
  intros Hp. unfold select_one, on_rows. induction t as [|r t IH]; csimpl; [done|].
  destruct (q r) eqn:Hq; rewrite ?Hp; destruct (p r); simpl; by rewrite ?Hq, ?IH.
Qed.

Lemma select_on_rows_length p q f t :
  (∀ r, r ∈ t → q r = true → p (f r) = p r) →
  length (select p (on_rows q f t)) = length (select p t).
Proof.
  unfold select, on_rows. induction t as [|r t IH]; intros H; csimpl; [done|].
  assert (length (List.filter p (on_rows q f t)) = length (List.filter p t)) as IH'
    by (apply IH; intros; apply H; [by constructor | done]).
  unfold on_rows in IH'. destruct (q r) eqn:Hq.
  - rewrite H by (done || constructor). destruct (p r); simpl; congruence.
  - destruct (p r); simpl; congruence.
Qed.
End writes.

(** ** [ORDER BY] and sequence numbers *)
Section ordering.
Context {R : Type} (le : R → R → bool).
Implicit Types (r : R) (t : list R).

Lemma insert_by_perm r t : insert_by le r t ≡ₚ r :: t.
Proof.
  induction t as [|x t IH]; simpl; [done|].
  destruct (le r x); [done|]. rewrite IH. by constructor.
Qed.

Lemma order_by_perm t : order_by le t ≡ₚ t.
Proof. induction t as [|r t IH]; simpl; [done|]. by rewrite insert_by_perm, IH. Qed.

Lemma elem_of_order_by t r : r ∈ order_by le t ↔ r ∈ t.
Proof. by rewrite order_by_perm. Qed.

(** [ORDER BY ... LIMIT 1] finds a row when there is one. *)
Lemma head_order_by_Some t r : head (order_by le t) = Some r → r ∈ t.
Proof.
  intros Hh. rewrite <-elem_of_order_by. destruct (order_by le t); simplify_eq/=. constructor.
Qed.
Lemma head_order_by_None t : head (order_by le t) = None ↔ t = [].
Proof.
  pose proof (order_by_perm t) as Hp. split.
  - destruct (order_by le t); [|done]. intros _. by apply Permutation_nil_l in Hp.
  - by intros ->.
Qed.

Context (le_total : ∀ x y, le x y = true ∨ le y x = true).
Context (le_trans : ∀ x y z, le x y = true → le y z = true → le x z = true).

Lemma insert_by_sorted r t :
  StronglySorted (λ x y, le x y = true) t →
  StronglySorted (λ x y, le x y = true) (insert_by le r t).
Proof.
  induction 1 as [|x t Hs IH Hx]; simpl; [repeat constructor|].
  destruct (le r x) eqn:Hle.
  - constructor; [by constructor|]. constructor; [done|].
    eapply Forall_impl; [exact Hx|]. intros y Hy. by eapply le_trans.
  - constructor; [done|]. rewrite insert_by_perm. constructor; [|done].
    destruct (le_total x r); [done|]. congruence.
Qed.

Lemma order_by_sorted t : StronglySorted (λ x y, le x y = true) (order_by le t).
Proof. induction t; simpl; [constructor|]. by apply insert_by_sorted. Qed.

(** [ORDER BY ... LIMIT 1] returns a least row. *)
Lemma order_by_head_least t r :
  head (order_by le t) = Some r → r ∈ t ∧ ∀ x, x ∈ t → le r x = true.
Proof.
  pose proof (order_by_sorted t) as Hs. intros Hh.
  destruct (order_by le t) as [|y u] eqn:Ho; simplify_eq/=.
  assert (∀ x, x ∈ t ↔ x ∈ r :: u) as Hmem by (intros x; by rewrite <-Ho, elem_of_order_by).
  split; [apply Hmem; constructor|].
  apply StronglySorted_inv in Hs as [_ Hs].
  intros x [->|Hx]%Hmem%elem_of_cons.
  - by destruct (le_total r r).
  - by eapply Forall_forall in Hs.
Qed.
End ordering.

(** Rows inserted in order are returned as they are. *)
Lemma order_by_id {R} (le : R → R → bool) t :
  StronglySorted (λ x y, le x y = true) t → order_by le t = t.
Proof.
  induction 1 as [|r t Hs IH Hr]; simpl; [done|]. rewrite IH.
  destruct t as [|x t]; simpl; [done|]. by rewrite (Forall_inv Hr).
Qed.

Lemma next_seq_gt {R} p (col : R → Z) t r :
  r ∈ t → p r = true → col r < next_seq p col t.
Proof.
  intros Hr Hp. unfold next_seq.
  assert (col r ∈ col <$> select p t) as Hin
    by (apply list_elem_of_fmap; exists r; split; [done | by apply elem_of_select]).
  induction (col <$> select p t) as [|z l IH]; simpl.
  - by apply not_elem_of_nil in Hin.
  - apply elem_of_cons in Hin as [->|Hin]; [lia|]. specialize (IH Hin). lia.
Qed.

Lemma next_seq_pos {R} p (col : R → Z) t : 0 < next_seq p col t.
Proof. unfold next_seq. induction (col <$> select p t); simpl; lia. Qed.

(** The values [1 .. n] in order of insertion. *)
Definition Dense {R} (p : R → bool) (col : R → Z) (t : list R) : Prop :=
  col <$> select p t = seqZ 1 (Z.of_nat (length (select p t))).

Lemma foldr_max_acc (a : Z) (l : list Z) :
  0 ≤ a → foldr Z.max a l = Z.max a (foldr Z.max 0 l).
Proof. intros. induction l; simpl; lia. Qed.

Lemma foldr_max_seqZ (n : nat) : foldr Z.max 0 (seqZ 1 (Z.of_nat n)) = Z.of_nat n.
Proof.
  induction n as [|n IH]; [done|].
  rewrite Nat2Z.inj_succ, <-Z.add_1_r, seqZ_app by lia.
  change (seqZ (1 + Z.of_nat n) 1) with [1 + Z.of_nat n]%Z.
  rewrite foldr_app, foldr_max_acc by (simpl; lia). rewrite IH. simpl. lia.
Qed.

Lemma dense_next_seq {R} p (col : R → Z) t :
  Dense p col t → next_seq p col t = Z.of_nat (length (select p t)) + 1.
Proof. unfold Dense, next_seq. intros ->. by rewrite foldr_max_seqZ. Qed.

(** Inserting with [COALESCE(MAX(col), 0) + 1] keeps the numbering gap-free. *)
Lemma dense_insert {R} (p : R → bool) (col : R → Z) t r :
  Dense p col t → (p r = true → col r = next_seq p col t) → Dense p col (t ++ [r]).
Proof.
  intros Hd Hr. pose proof (dense_next_seq _ _ _ Hd) as Hn.
  unfold Dense in *. rewrite select_app, fmap_app, length_app. simpl.
  destruct (p r) eqn:Hp; simpl; [|by rewrite app_nil_r, Nat.add_0_r].
  rewrite Hd, Nat2Z.inj_add, seqZ_app by lia. f_equal.
  change (Z.of_nat 1) with 1. rewrite Hr, Hn by done.
  change (seqZ (1 + Z.of_nat (length (select p t))) 1)
    with [1 + Z.of_nat (length (select p t))]%Z.
  f_equal. lia.
Qed.

Lemma dense_update {R} (p q : R → bool) (col : R → Z) f t :
  Dense p col t →
  (∀ r, r ∈ t → q r = true → p (f r) = p r ∧ col (f r) = col r) →
  Dense p col (on_rows q f t).
Proof.
  unfold Dense. intros Hd Hf.
  rewrite select_on_rows_length by (intros; by apply Hf). rewrite <-Hd. clear Hd.
  unfold select, on_rows. induction t as [|r t IH]; csimpl; [done|].
  assert (col <$> List.filter p ((λ r, if q r then f r else r) <$> t)
          = col <$> List.filter p t) as IH'
    by (apply IH; intros; apply Hf; [by constructor | done]).
  destruct (q r) eqn:Hq.
  - destruct (Hf r) as [Hp Hc]; [constructor | done |]. rewrite Hp.
    destruct (p r); csimpl; congruence.
  - destruct (p r); csimpl; congruence.
Qed.

(** A densely numbered table read back with [ORDER BY col]. *)
Lemma dense_order_by {R} (p : R → bool) (col : R → Z) t :
  Dense p col t → order_by (λ a b, Z.leb (col a) (col b)) (select p t) = select p t.
Proof.
  unfold Dense. intros Hd. apply order_by_id.
  assert (∀ (n : nat) (k : Z) (l : list R), col <$> l = seqZ k (Z.of_nat n) →
    StronglySorted (λ x y, Z.leb (col x) (col y) = true) l) as Hgen; [|by eapply Hgen].
  clear. induction n as [|n IH]; intros k l.
  { simpl. intros ->%fmap_nil_inv. constructor. }
  rewrite seqZ_cons by lia. destruct l as [|r l]; [done|]. csimpl. intros [= Hr Hl].
  replace (Z.pred (Z.of_nat (S n))) with (Z.of_nat n) in Hl by lia.
  constructor; [by eapply IH|]. apply Forall_forall. intros x Hx. apply Z.leb_le.
  assert (col x ∈ col <$> l) as Hc by (apply list_elem_of_fmap; eauto).
  rewrite Hl in Hc. apply elem_of_seqZ in Hc. lia.
Qed.
