(* ===== verification/JsonParser.v ===== *)
(** * [json.loads]

    The decoder of Python's [json] module on the UTF-8 bytes of its text: [NaN] and the
    infinities are numbers, a control character in a string is an error, a repeated key
    keeps its last value, a surrogate pair of escapes is one character.  [float_repr] is
    the [repr] of the float that a text denotes.  The recursion is on fuel; twice the
    length of the text is enough ([JsonLaws.scan_enough]). *)

From stdpp Require Import base tactics list strings pretty.
From Stdlib Require Import ZArith Lia Ascii.
From Stdlib Require String.
From S2P Require Import Prelude PyText PyJson.

Local Open Scope string_scope.

Class Floats := { float_repr : string → string }.

Definition json_space (c : ascii) : bool :=
  Nat.eqb (code c) 32 || Nat.eqb (code c) 9 || Nat.eqb (code c) 10 || Nat.eqb (code c) 13.

Fixpoint skip_space (s : string) : string :=
  match s with
  | String c s' => if json_space c then skip_space s' else s
  | EmptyString => ""
  end.

(** ** Strings *)

Definition hex_value (c : ascii) : option N :=
  let n := N.of_nat (code c) in
  if N.leb 48 n && N.leb n 57 then Some (n - 48)%N
  else if N.leb 97 n && N.leb n 102 then Some (n - 87)%N
  else if N.leb 65 n && N.leb n 70 then Some (n - 55)%N
  else None.

Definition hex4 (a b c d : ascii) : option N :=
  a ← hex_value a; b ← hex_value b; c ← hex_value c; d ← hex_value d;
  Some (((a * 16 + b) * 16 + c) * 16 + d)%N.

Definition simple_escape (c : ascii) : option ascii :=
  if Nat.eqb (code c) 34 || Nat.eqb (code c) 92 || Ascii.eqb c "/" then Some c
  else if Ascii.eqb c "b" then Some (ascii_of_nat 8)
  else if Ascii.eqb c "f" then Some (ascii_of_nat 12)
  else if Ascii.eqb c "n" then Some (ascii_of_nat 10)
  else if Ascii.eqb c "r" then Some (ascii_of_nat 13)
  else if Ascii.eqb c "t" then Some (ascii_of_nat 9)
  else None.

Definition prepend (p : string) (o : option (string * string)) : option (string * string) :=
  match o with Some r => Some (p ++ r.1, r.2) | None => None end.

(** The low half of a surrogate pair. *)
Definition low_surrogate (b u c1 c2 c3 c4 : ascii) : option N :=
  if Nat.eqb (code b) 92 && Ascii.eqb u "u" then
    n ← hex4 c1 c2 c3 c4;
    if N.leb 56320 n && N.ltb n 57344 then Some n else None
  else None.

(** The text of a string after its opening quote, and what follows the closing one. *)
Fixpoint scan_string (s : string) : option (string * string) :=
  match s with
  | EmptyString => None
  | String c s1 =>
      if Nat.eqb (code c) 34 then Some ("", s1)
      else if Nat.ltb (code c) 32 then None
      else if Nat.eqb (code c) 92 then
        match s1 with
        | EmptyString => None
        | String e s2 =>
            match simple_escape e with
            | Some x => prepend (String x "") (scan_string s2)
            | None =>
                if Ascii.eqb e "u" then
                  match s2 with
                  | String h1 (String h2 (String h3 (String h4 s3))) =>
                      match hex4 h1 h2 h3 h4 with
                      | None => None
                      | Some n =>
                          if N.leb 55296 n && N.ltb n 56320 then
                            match s3 with
                            | String b (String u (String c1 (String c2 (String c3 (String c4 s4))))) =>
                                match low_surrogate b u c1 c2 c3 c4 with
                                | Some m =>
                                    prepend (utf8 (65536 + (n - 55296) * 1024 + (m - 56320))%N)
                                      (scan_string s4)
                                | None => prepend (utf8 n) (scan_string s3)
                                end
                            | _ => prepend (utf8 n) (scan_string s3)
                            end
                          else prepend (utf8 n) (scan_string s3)
                      end
                  | _ => None
                  end
                else None
            end
        end
      else prepend (String c "") (scan_string s1)
  end.

(** ** Numbers *)

Fixpoint take_digits (s : string) : string * string :=
  match s with
  | String c s' =>
      match digit_value c with
      | Some _ => let r := take_digits s' in (String c r.1, r.2)
      | None => ("", s)
      end
  | EmptyString => ("", "")
  end.

Definition fraction (s : string) : string * string :=
  match s with
  | String "." s' => let r := take_digits s' in if truthy r.1 then ("." ++ r.1, r.2) else ("", s)
  | _ => ("", s)
  end.

Definition exponent (s : string) : string * string :=
  match s with
  | String c s' =>
      if Ascii.eqb c "e" || Ascii.eqb c "E" then
        let signed := match s' with
                      | String "+" s'' => ("+", s'')
                      | String "-" s'' => ("-", s'')
                      | _ => ("", s')
                      end in
        let r := take_digits signed.2 in
        if truthy r.1 then (String c (signed.1 ++ r.1), r.2) else ("", s)
      else ("", s)
  | EmptyString => ("", "")
  end.

Definition integer_part (s : string) : string * string :=
  match s with
  | String "0" s' => ("0", s')
  | _ => take_digits s
  end.

Section loads.
Context `{Floats}.

Definition scan_number (s : string) : option (json * string) :=
  let signed := match s with String "-" s' => ("-", s') | _ => ("", s) end in
  let i := integer_part signed.2 in
  if truthy i.1 then
    let f := fraction i.2 in
    let e := exponent f.2 in
    if truthy f.1 || truthy e.1 then
      Some (JFloat (float_repr (signed.1 ++ i.1 ++ f.1 ++ e.1)), e.2)
    else
      n ← int_digits 0 false i.1;
      Some (JInt (if truthy signed.1 then - n else n)%Z, i.2)
  else None.

(** ** Values *)

Definition literals : list (string * json) :=
  [("null", JNull); ("true", JBool true); ("false", JBool false); ("NaN", JFloat "NaN");
   ("Infinity", JFloat "Infinity"); ("-Infinity", JFloat "-Infinity")].

Fixpoint strip_prefix (p s : string) : option string :=
  match p, s with
  | EmptyString, _ => Some s
  | String a p', String b s' => if Ascii.eqb a b then strip_prefix p' s' else None
  | _, _ => None
  end.

Fixpoint literal (l : list (string * json)) (s : string) : option (json * string) :=
  match l with
  | [] => None
  | (p, v) :: l' => match strip_prefix p s with Some r => Some (v, r) | None => literal l' s end
  end.

(** [dict(pairs)] *)
Definition dict_of (pairs : list (string * json)) : dict := dict_update pairs [].

(** What follows [c], if the text begins with it. *)
Definition expect (c : ascii) (s : string) : option string :=
  match s with
  | String x s' => if Ascii.eqb x c then Some s' else None
  | EmptyString => None
  end.

Fixpoint scan_value (fuel : nat) (s : string) : option (json * string) :=
  match fuel with
  | O => None
  | S n =>
      match s with
      | EmptyString => None
      | String c s1 =>
          if Nat.eqb (code c) 34 then r ← scan_string s1; Some (JStr r.1, r.2)
          else if Ascii.eqb c "{" then
            match expect "}" (skip_space s1) with
            | Some s2 => Some (JObj [], s2)
            | None => r ← scan_fields n (skip_space s1); Some (JObj (dict_of r.1), r.2)
            end
          else if Ascii.eqb c "[" then
            match expect "]" (skip_space s1) with
            | Some s2 => Some (JList [], s2)
            | None => r ← scan_items n (skip_space s1); Some (JList r.1, r.2)
            end
          else match literal literals s with Some r => Some r | None => scan_number s end
      end
  end
with scan_fields (fuel : nat) (s : string) : option (list (string * json) * string) :=
  match fuel with
  | O => None
  | S n =>
      match s with
      | EmptyString => None
      | String q s1 =>
          if Nat.eqb (code q) 34 then
            k ← scan_string s1;
            s2 ← expect ":" (skip_space k.2);
            v ← scan_value n (skip_space s2);
            match expect "}" (skip_space v.2) with
            | Some s3 => Some ([(k.1, v.1)], s3)
            | None =>
                s3 ← expect "," (skip_space v.2);
                r ← scan_fields n (skip_space s3);
                Some ((k.1, v.1) :: r.1, r.2)
            end
          else None
      end
  end
with scan_items (fuel : nat) (s : string) : option (list json * string) :=
  match fuel with
  | O => None
  | S n =>
      v ← scan_value n s;
      match expect "]" (skip_space v.2) with
      | Some s3 => Some ([v.1], s3)
      | None =>
          s3 ← expect "," (skip_space v.2);
          r ← scan_items n (skip_space s3);
          Some (v.1 :: r.1, r.2)
      end
  end.

(** [json.loads(text)]; [None] is a [JSONDecodeError]. *)
Definition json_loads (s : string) : option json :=
  r ← scan_value (2 * String.length s + 1) (skip_space s);
  if truthy (skip_space r.2) then None else Some r.1.
End loads.

Section examples.
#[local] Instance plain_floats : Floats := { float_repr r := r }.

Definition dq : string := quote.
Example loads_examples :
  json_loads (" { " ++ dq ++ "a" ++ dq ++ " : [ 1 , -2.5e3 , NaN , null ] , " ++ dq ++ "a" ++ dq
    ++ ":" ++ dq ++ backslash ++ "u00e9" ++ backslash ++ "ud83d" ++ backslash ++ "ude00" ++ dq
    ++ " } ")
  = Some (JObj [("a", JStr (utf8 233 ++ utf8 128512))]) ∧
  json_loads "[01]" = None ∧ json_loads "[1,]" = None ∧ json_loads "" = None ∧
  json_loads (dq ++ String (ascii_of_nat 10) dq) = None ∧
  json_loads "[1, -2.5e3, [], {}]"
  = Some (JList [JInt 1; JFloat "-2.5e3"; JList []; JObj []]).
Proof. vm_compute. auto 10. Qed.
End examples.
