(* ===== verification/JsonLaws.v ===== *)
(** * Laws of canonical JSON

    The order of keys is a total order, sorting an object depends on its fields
    and not on how they were listed, and sorting twice is sorting once.
    [json.loads(json.dumps(value, sort_keys=True, separators=(",", ":"),
    ensure_ascii=False))] is the value with the keys of its objects in order, so equal
    texts, and equal digests of them, stand for equal values. *)

From stdpp Require Import base tactics list strings sorting pretty.
From Stdlib Require Import ZArith Lia Ascii.
From Stdlib Require String.
From S2P Require Import Prelude PyText PyJson Tables JsonParser.

(** ** Sorted fields *)

Definition field_le (a b : string * json) : bool := String.leb a.1 b.1.
Definition sort_fields (d : dict) : dict := foldr insert_sorted [] d.

Lemma sort_fields_order d : sort_fields d = order_by field_le d.
Proof.
  unfold sort_fields, order_by. induction d as [|kv d IH]; simpl; [done|]. rewrite IH.
  generalize (foldr (insert_by field_le) [] d) as l. induction l as [|x l IHl]; simpl; [done|].
  unfold field_le at 1. by rewrite IHl.
Qed.

Lemma field_le_total a b : field_le a b = true ∨ field_le b a = true.
Proof. apply String.leb_total. Qed.
Lemma field_le_trans a b c : field_le a b = true → field_le b c = true → field_le a c = true.
Proof. apply string_leb_trans. Qed.

Lemma sort_fields_sorted d : StronglySorted (λ a b, field_le a b = true) (sort_fields d).
Proof. rewrite sort_fields_order. apply order_by_sorted; [apply field_le_total | apply field_le_trans]. Qed.

Lemma sort_fields_perm d : sort_fields d ≡ₚ d.
Proof. rewrite sort_fields_order. apply order_by_perm. Qed.

(** The fields of an object, in whatever order they are listed. *)
Lemma sort_fields_unique d1 d2 : NoDup d1.*1 → d1 ≡ₚ d2 → sort_fields d1 = sort_fields d2.
Proof.
  intros Hnd Hp. apply (StronglySorted_unique_strong (λ a b, field_le a b = true)).
  - intros x y Hx Hy Hxy Hyx. rewrite sort_fields_perm in Hx.
    rewrite sort_fields_perm, <-Hp in Hy. pose proof (String.leb_antisym _ _ Hxy Hyx) as Hk.
    apply list_elem_of_lookup in Hx as [i Hi], Hy as [j Hj].
    enough (i = j) by congruence. eapply NoDup_lookup; [exact Hnd|..];
      rewrite list_lookup_fmap; [by rewrite Hi | by rewrite Hj, Hk].
  - apply sort_fields_sorted.
  - apply sort_fields_sorted.
  - by rewrite !sort_fields_perm.
Qed.

Lemma sort_fields_idemp d : sort_fields (sort_fields d) = sort_fields d.
Proof. rewrite (sort_fields_order (sort_fields d)). apply order_by_id, sort_fields_sorted. Qed.

Lemma sort_fields_map (f : json → json) d :
  map (λ kv, (kv.1, f kv.2)) (sort_fields d) = sort_fields (map (λ kv, (kv.1, f kv.2)) d).
Proof.
  unfold sort_fields. induction d as [|kv d IH]; simpl; [done|]. rewrite <-IH. clear IH.
  generalize (foldr insert_sorted [] d) as l. induction l as [|x l IHl]; simpl; [done|].
  destruct (String.leb kv.1 x.1); simpl; [done|]. by rewrite IHl.
Qed.

(** ** Canonical values *)

Lemma sort_keys_idemp v : sort_keys (sort_keys v) = sort_keys v.
Proof.
  induction v as [| | | | |l IH|d IH] using json_nested_ind; simpl; try done.
  - f_equal. rewrite map_map. by induction IH; simpl; f_equal.
  - f_equal. fold (sort_fields (map (λ kv, (kv.1, sort_keys kv.2)) d)).
    fold (sort_fields (map (λ kv, (kv.1, sort_keys kv.2))
      (sort_fields (map (λ kv, (kv.1, sort_keys kv.2)) d)))).
    rewrite sort_fields_map, sort_fields_idemp. f_equal.
    induction IH as [|kv d Hkv _ IHd]; simpl; [done|]. by rewrite Hkv, IHd.
Qed.

Lemma forallb_perm {A} (p : A → bool) l1 l2 : l1 ≡ₚ l2 → forallb p l1 = forallb p l2.
Proof. induction 1; simpl; [done | congruence | by destruct (p x), (p y) | congruence]. Qed.

Lemma json_finite_sorted v : json_finite (sort_keys v) = json_finite v.
Proof.
  induction v as [| | | | |l IH|d IH] using json_nested_ind; simpl; try done.
  - induction IH as [|x l Hx _ IHl]; simpl; [done|]. by rewrite Hx, IHl.
  - rewrite (forallb_perm _ _ _ (sort_fields_perm (map (λ kv, (kv.1, sort_keys kv.2)) d))).
    induction IH as [|x l Hx _ IHl]; simpl; [done|]. by rewrite Hx, IHl.
Qed.

Local Open Scope string_scope.

(** * Decoding canonical JSON gives the value back *)

(** ** Strings *)

Lemma scan_escaped_char c t :
  scan_string (escape_char c ++ t) = prepend (String c "") (scan_string t).
Proof. destruct c as [[] [] [] [] [] [] [] []]; reflexivity. Qed.

Lemma scan_escaped s t : scan_string (escape s ++ quote ++ t) = Some (s, t).
Proof.
  induction s as [|c s IH]; [done|]. cbn [escape]. rewrite append_assoc, scan_escaped_char, IH.
  done.
Qed.

(** *** Texts in ASCII *)

Ltac euclid := zify; Z.to_euclidean_division_equations; lia.

Lemma hex_digit_value k : (k < 16)%N → hex_value (hex_digit (N.to_nat k)) = Some k.
Proof.
  intros Hk. assert (k = 0 ∨ k = 1 ∨ k = 2 ∨ k = 3 ∨ k = 4 ∨ k = 5 ∨ k = 6 ∨ k = 7 ∨ k = 8 ∨ k = 9
    ∨ k = 10 ∨ k = 11 ∨ k = 12 ∨ k = 13 ∨ k = 14 ∨ k = 15)%N as Hc by lia.
  by destruct_or!; subst.
Qed.

(** The four digits of a code unit. *)
Definition unit_digit (n k : N) : ascii := hex_digit (N.to_nat (N.modulo (N.shiftr n k) 16)).
Lemma hex4_unit n :
  (n < 65536)%N →
  hex4 (unit_digit n 12) (unit_digit n 8) (unit_digit n 4) (unit_digit n 0) = Some n.
Proof.
  intros Hn. unfold hex4, unit_digit. rewrite !hex_digit_value by (by apply N.mod_lt). simpl.
  f_equal. rewrite !N.shiftr_div_pow2. change (2 ^ 12)%N with 4096%N.
  change (2 ^ 8)%N with 256%N. change (2 ^ 4)%N with 16%N. change (2 ^ 0)%N with 1%N. euclid.
Qed.

Lemma unicode_escape_text n t :
  unicode_escape n ++ t = String (ascii_of_nat 92) (String "u" (String (unit_digit n 12)
    (String (unit_digit n 8) (String (unit_digit n 4) (String (unit_digit n 0) t))))).
Proof. done. Qed.

Lemma scan_unit n s :
  (n < 65536)%N →
  scan_string (unicode_escape n ++ s) =
  if N.leb 55296 n && N.ltb n 56320 then
    match s with
    | String b (String u (String c1 (String c2 (String c3 (String c4 s'))))) =>
        match low_surrogate b u c1 c2 c3 c4 with
        | Some m =>
            prepend (utf8 (65536 + (n - 55296) * 1024 + (m - 56320))%N) (scan_string s')
        | None => prepend (utf8 n) (scan_string s)
        end
    | _ => prepend (utf8 n) (scan_string s)
    end
  else prepend (utf8 n) (scan_string s).
Proof.
  intros Hn. rewrite unicode_escape_text.
  transitivity (match hex4 (unit_digit n 12) (unit_digit n 8) (unit_digit n 4) (unit_digit n 0) with
    | None => None
    | Some n =>
  if N.leb 55296 n && N.ltb n 56320 then
    match s with
    | String b (String u (String c1 (String c2 (String c3 (String c4 s'))))) =>
        match low_surrogate b u c1 c2 c3 c4 with
        | Some m =>
            prepend (utf8 (65536 + (n - 55296) * 1024 + (m - 56320))%N) (scan_string s')
        | None => prepend (utf8 n) (scan_string s)
        end
    | _ => prepend (utf8 n) (scan_string s)
    end
  else prepend (utf8 n) (scan_string s) end); [reflexivity|]. by rewrite hex4_unit.
Qed.

(** A code unit that is not the first of a pair. *)
Lemma scan_unicode_escape n t :
  (n < 65536)%N → (n < 55296 ∨ 56320 ≤ n)%N →
  scan_string (unicode_escape n ++ t) = prepend (utf8 n) (scan_string t).
Proof.
  intros Hn Hs. rewrite scan_unit by done.
  replace (N.leb 55296 n && N.ltb n 56320) with false; [done|].
  symmetry. apply andb_false_iff. rewrite N.leb_gt, N.ltb_ge. lia.
Qed.

Lemma scan_pair n t :
  (65536 ≤ n < 1114112)%N →
  scan_string (escape_code_point n ++ t) = prepend (utf8 n) (scan_string t).
Proof.
  intros Hn. unfold escape_code_point. destruct (N.ltb_spec n 65536); [lia|]. cbv zeta.
  rewrite N.shiftr_div_pow2. change (2 ^ 10)%N with 1024%N.
  set (high := (55296 + (n - 65536) / 1024)%N). set (low := (56320 + (n - 65536) mod 1024)%N).
  assert (55296 ≤ high < 56320 ∧ 56320 ≤ low < 57344 ∧
    n = 65536 + (high - 55296) * 1024 + (low - 56320))%N as (Hh & Hl & En) by (subst high low; euclid).
  clearbody high low. rewrite append_assoc, scan_unit, unicode_escape_text by lia.
  replace (N.leb 55296 high && N.ltb high 56320) with true
    by (symmetry; apply andb_true_iff; rewrite N.leb_le, N.ltb_lt; lia).
  unfold low_surrogate. change (Nat.eqb (code (ascii_of_nat 92)) 92 && Ascii.eqb "u" "u") with true.
  cbv iota. rewrite hex4_unit by lia. cbn [mbind option_bind].
  replace (N.leb 56320 low && N.ltb low 57344) with true
    by (symmetry; apply andb_true_iff; rewrite N.leb_le, N.ltb_lt; lia).
  by rewrite <-En.
Qed.

Lemma byte_of c n : n = N_of_ascii c → byte n = c.
Proof. intros ->. apply ascii_N_embedding. Qed.

Lemma continuation_range c : continuation c = true → (128 ≤ N_of_ascii c < 192)%N.
Proof.
  unfold continuation, code, nat_of_ascii. intros [H1%Nat.leb_le H2%Nat.ltb_lt]%andb_true_iff. lia.
Qed.

Ltac characters := repeat match goal with
  | H : _ && _ = true |- _ => apply andb_true_iff in H as [? ?]
  | H : continuation _ = true |- _ => apply continuation_range in H
  | H : leads _ _ _ = true |- _ => unfold leads in H
  | H : N.leb _ _ = true |- _ => apply N.leb_le in H
  | H : N.ltb _ _ = true |- _ => apply N.ltb_lt in H
  end.

(** The bytes of a character are the ones of its code point. *)
Lemma two_bytes_spec c c1 n :
  two_bytes c c1 = Some n → (128 ≤ n < 2048)%N ∧ utf8 n = String c (String c1 "").
Proof.
  unfold two_bytes, six_bits. cbv zeta. destruct (_ && _) eqn:E; [|done]. intros [= En].
  characters. assert (128 ≤ n < 2048)%N as Hn by euclid. split; [done|]. unfold utf8.
  destruct (N.ltb_spec n 128); [lia|]. destruct (N.ltb_spec n 2048); [|lia].
  rewrite (byte_of c), (byte_of c1) by euclid. done.
Qed.

Lemma three_bytes_spec c c1 c2 n :
  three_bytes c c1 c2 = Some n →
  (2048 ≤ n < 65536)%N ∧ (n < 55296 ∨ 57344 ≤ n)%N ∧ utf8 n = String c (String c1 (String c2 "")).
Proof.
  unfold three_bytes, six_bits. cbv zeta. destruct (_ && negb _) eqn:E; [|done]. intros [= En].
  apply andb_true_iff in E as [E Hs]. apply negb_true_iff, andb_false_iff in Hs.
  rewrite N.leb_gt, N.ltb_ge in Hs. rewrite En in E, Hs. characters.
  assert (2048 ≤ n < 65536)%N as Hn by euclid. split_and!; [lia..| |]; [lia|]. unfold utf8.
  destruct (N.ltb_spec n 128); [lia|]. destruct (N.ltb_spec n 2048); [lia|].
  destruct (N.ltb_spec n 65536); [|lia].
  clear Hs. rewrite (byte_of c), (byte_of c1), (byte_of c2) by euclid. done.
Qed.

Lemma four_bytes_spec c c1 c2 c3 n :
  four_bytes c c1 c2 c3 = Some n →
  (65536 ≤ n < 1114112)%N ∧ utf8 n = String c (String c1 (String c2 (String c3 ""))).
Proof.
  unfold four_bytes, six_bits. cbv zeta. destruct (_ && _) eqn:E; [|done]. intros [= En].
  rewrite En in E. characters. split; [lia|]. unfold utf8.
  destruct (N.ltb_spec n 128); [lia|]. destruct (N.ltb_spec n 2048); [lia|].
  destruct (N.ltb_spec n 65536); [lia|].
  rewrite (byte_of c), (byte_of c1), (byte_of c2), (byte_of c3) by euclid. done.
Qed.

Lemma scan_escape_code n t :
  (n < 1114112)%N → (n < 55296 ∨ 56320 ≤ n)%N →
  scan_string (escape_code n ++ t) = prepend (utf8 n) (scan_string t).
Proof.
  intros Hn Hs. unfold escape_code. destruct (N.ltb_spec n 127).
  - rewrite scan_escaped_char. unfold utf8. destruct (N.ltb_spec n 128); [done | lia].
  - unfold escape_code_point. destruct (N.ltb_spec n 65536).
    + by apply scan_unicode_escape.
    + rewrite <-scan_pair by lia. unfold escape_code_point. by destruct (N.ltb_spec n 65536); [lia|].
Qed.

Lemma prepend_prepend p q o : prepend p (prepend q o) = prepend (p ++ q) o.
Proof. destruct o as [r|]; [|done]. simpl. by rewrite append_assoc. Qed.

(** A byte beyond ASCII stands for itself. *)
Lemma scan_byte c t :
  (128 ≤ N_of_ascii c)%N → scan_string (String c t) = prepend (String c "") (scan_string t).
Proof.
  intros Hc. cbn [scan_string]. unfold code, nat_of_ascii.
  destruct (Nat.eqb_spec (N.to_nat (N_of_ascii c)) 34); [lia|].
  destruct (Nat.ltb_spec (N.to_nat (N_of_ascii c)) 32); [lia|].
  destruct (Nat.eqb_spec (N.to_nat (N_of_ascii c)) 92); [lia|]. done.
Qed.

Lemma scan_ascii_escaped s t : scan_string (ascii_escape s ++ quote ++ t) = Some (s, t).
Proof.
  remember (String.length s) as k eqn:Ek. revert s Ek.
  induction (lt_wf k) as [k _ IH]. intros [|c s1] ->; [done|].
  assert (∀ s', (String.length s' < String.length (String c s1))%nat →
    scan_string (ascii_escape s' ++ quote ++ t) = Some (s', t)) as IH' by (intros; by eapply IH).
  clear IH. rename IH' into IH. unfold ascii_escape in *.
  assert (∀ n u s', (n < 1114112)%N → (n < 55296 ∨ 56320 ≤ n)%N → utf8 n = u →
    (String.length s' < String.length (String c s1))%nat →
    scan_string ((escape_code n ++ map_chars escape_code s') ++ quote ++ t) = Some (u ++ s', t)) as Hchar.
  { intros n u s' Hn Hs <- Hl. by rewrite append_assoc, scan_escape_code, IH by done. }
  cbn [map_chars]. destruct (N.ltb_spec (N_of_ascii c) 128) as [Hc|Hc].
  { apply (Hchar _ (String c "")); [lia..| |simpl; lia]. unfold utf8.
    destruct (N.ltb_spec (N_of_ascii c) 128); [|lia]. by rewrite (byte_of c). }
  assert (scan_string (String c (map_chars escape_code s1) ++ quote ++ t) = Some (String c s1, t)) as Hb.
  { rewrite append_cons, scan_byte, IH by (done || simpl; lia). done. }
  destruct s1 as [|c1 s2]; [done|]. destruct (two_bytes c c1) as [n|] eqn:E2.
  { apply two_bytes_spec in E2 as [? ?].
    apply (Hchar n (String c (String c1 "")) s2); [lia..|done|simpl; lia]. }
  destruct s2 as [|c2 s3]; [done|]. destruct (three_bytes c c1 c2) as [n|] eqn:E3.
  { apply three_bytes_spec in E3 as (? & ? & ?).
    apply (Hchar n (String c (String c1 (String c2 ""))) s3); [lia..|done|simpl; lia]. }
  destruct s3 as [|c3 s4]; [done|]. destruct (four_bytes c c1 c2 c3) as [n|] eqn:E4; [|done].
  apply four_bytes_spec in E4 as [? ?].
  apply (Hchar n (String c (String c1 (String c2 (String c3 "")))) s4); [lia..|done|simpl; lia].
Qed.

(** *** Writers of texts, and the law by which the scanner reads them back *)

Class TextWriter (esc : string → string) :=
  scan_written : ∀ s t, scan_string (esc s ++ quote ++ t) = Some (s, t).
#[export] Instance escape_writer : TextWriter escape := scan_escaped.
#[export] Instance ascii_writer : TextWriter ascii_escape := scan_ascii_escaped.

(** ** Numbers *)

(** What may follow a number: nothing, or what separates it. *)
Definition delimited (s : string) : Prop :=
  match s with
  | EmptyString => True
  | String c _ => c = ","%char ∨ c = "]"%char ∨ c = "}"%char
  end.

Ltac delimiter H := destruct H as [-> | [-> | ->]].

Lemma take_digits_app s t :
  delimited t → take_digits (s ++ t) = ((take_digits s).1, (take_digits s).2 ++ t).
Proof.
  intros Ht. induction s as [|c s IH].
  - destruct t as [|c t]; [done|]. by delimiter Ht.
  - rewrite append_cons. cbn [take_digits]. rewrite IH. by destruct (digit_value c).
Qed.

Lemma fraction_app s t : delimited t → fraction (s ++ t) = ((fraction s).1, (fraction s).2 ++ t).
Proof.
  intros Ht. destruct s as [|c s].
  - destruct t as [|c t]; [done|]. by delimiter Ht.
  - destruct (Ascii.eqb_spec c ".") as [->|Hc].
    + rewrite append_cons. cbn [fraction]. rewrite take_digits_app by done. cbn [fst snd].
      by destruct (truthy _).
    + rewrite append_cons. assert (∀ x, fraction (String c x) = ("", String c x)) as E.
      { intros x. unfold fraction. by destruct c as [[] [] [] [] [] [] [] []]. }
      by rewrite !E.
Qed.

Lemma exponent_app s t : delimited t → exponent (s ++ t) = ((exponent s).1, (exponent s).2 ++ t).
Proof.
  intros Ht. destruct s as [|c s].
  - destruct t as [|c t]; [done|]. by delimiter Ht.
  - rewrite append_cons. cbn [exponent]. destruct (_ || _); [|done].
    set (sign := λ x : string, match x with
                      | String "+" s'' => ("+", s'')
                      | String "-" s'' => ("-", s'')
                      | _ => ("", x)
                      end).
    change (match s ++ t with String "+" s'' => ("+", s'') | String "-" s'' => ("-", s'')
            | _ => ("", s ++ t) end) with (sign (s ++ t)).
    change (match s with String "+" s'' => ("+", s'') | String "-" s'' => ("-", s'')
            | _ => ("", s) end) with (sign s).
    assert (sign (s ++ t) = ((sign s).1, (sign s).2 ++ t)) as ->.
    { destruct s as [|x s]; [destruct t as [|x t]; [done|]; by delimiter Ht|].
      by destruct x as [[] [] [] [] [] [] [] []]. }
    cbn [fst snd]. rewrite take_digits_app by done. cbn [fst snd]. by destruct (truthy _).
Qed.

Lemma integer_part_app s t :
  delimited t → integer_part (s ++ t) = ((integer_part s).1, (integer_part s).2 ++ t).
Proof.
  intros Ht. destruct s as [|c s].
  - destruct t as [|c t]; [done|]. by delimiter Ht.
  - destruct (Ascii.eqb_spec c "0") as [->|Hc]; [done|].
    assert (∀ x, integer_part (String c x) = take_digits (String c x)) as E.
    { intros x. unfold integer_part. by destruct c as [[] [] [] [] [] [] [] []]. }
    rewrite append_cons. rewrite !E. apply (take_digits_app (String c s) t Ht).
Qed.

Definition number_start (s : string) : Prop :=
  ∃ c s', (s = String c s' ∨ s = String "-" (String c s')) ∧ is_Some (digit_value c).

Section numbers.
Context `{Floats}.

Lemma scan_number_app s t :
  delimited t → scan_number (s ++ t) = (λ r, (r.1, r.2 ++ t)) <$> scan_number s.
Proof.
  intros Ht. unfold scan_number. cbv zeta.
  set (sign := λ x : string, match x with String "-" s' => ("-", s') | _ => ("", x) end).
  change (match s ++ t with String "-" s' => ("-", s') | _ => ("", s ++ t) end) with (sign (s ++ t)).
  change (match s with String "-" s' => ("-", s') | _ => ("", s) end) with (sign s).
  assert (sign (s ++ t) = ((sign s).1, (sign s).2 ++ t)) as ->.
  { destruct s as [|x s]; [destruct t as [|x t]; [done|]; by delimiter Ht|].
    by destruct x as [[] [] [] [] [] [] [] []]. }
  cbn [fst snd]. rewrite integer_part_app by done. cbn [fst snd].
  destruct (truthy _); [|done]. rewrite fraction_app by done. cbn [fst snd].
  rewrite exponent_app by done. cbn [fst snd]. destruct (_ || _); [done|].
  by destruct (int_digits _ _ _).
Qed.

Lemma integer_part_digit s : truthy (integer_part s).1 = true → ∃ c s', s = String c s' ∧ is_Some (digit_value c).
Proof.
  destruct s as [|c s]; [done|]. intros Hi. exists c, s. split; [done|].
  destruct (Ascii.eqb_spec c "0") as [->|Hc]; [done|].
  assert (integer_part (String c s) = take_digits (String c s)) as E.
  { unfold integer_part. by destruct c as [[] [] [] [] [] [] [] []]. }
  rewrite E in Hi. simpl in Hi. by destruct (digit_value c).
Qed.

Lemma scan_number_start s r : scan_number s = Some r → number_start s.
Proof.
  unfold scan_number. cbv zeta. intros Hs.
  destruct (truthy (integer_part _).1) eqn:Ht; [|done]. clear Hs.
  apply integer_part_digit in Ht as (c & s' & Hs & Hc). destruct s as [|x s]; [done|].
  destruct (Ascii.eqb_spec x "-") as [->|Hx].
  - exists c, s'. simpl in Hs. subst. auto.
  - exists c, s'. split; [left|done]. rewrite <-Hs.
    by destruct x as [[] [] [] [] [] [] [] []].
Qed.

(** A number is none of the other values. *)
Lemma scan_value_number n s :
  number_start s → scan_value (S n) s = scan_number s.
Proof.
  intros (c & s' & Hs & [k Hk]).
  assert (∃ x y, s = String x y ∧ Nat.eqb (code x) 34 = false ∧ Ascii.eqb x "{" = false ∧
    Ascii.eqb x "[" = false ∧ literal literals s = None) as (x & y & -> & Hq & Hb & Hl & Hn).
  { destruct Hs as [-> | ->]; eexists _, _; (split; [reflexivity|]);
      destruct c as [[] [] [] [] [] [] [] []]; try discriminate Hk; done. }
  cbn [scan_value]. rewrite Hq, Hb, Hl, Hn. done.
Qed.
End numbers.

(** *** Decimal integers *)

Fixpoint digits_only (s : string) : bool :=
  match s with
  | EmptyString => true
  | String c s' => match digit_value c with Some _ => digits_only s' | None => false end
  end.

Lemma pretty_char_value x :
  (x < 10)%N → digit_value (pretty_N_char x) = Some (Z.of_N x).
Proof.
  intros Hx. assert (x = 0 ∨ x = 1 ∨ x = 2 ∨ x = 3 ∨ x = 4 ∨ x = 5 ∨ x = 6 ∨ x = 7 ∨ x = 8 ∨ x = 9)%N
    as Hc by lia. by destruct_or!; subst.
Qed.

Lemma pretty_go_value n s b :
  int_digits 0 b (pretty_N_go n s) = int_digits (Z.of_N n) (b || negb (N.eqb n 0)) s.
Proof.
  revert s b. induction (N.lt_wf_0 n) as [n _ IH]; intros s b.
  assert (n = 0 ∨ 0 < n)%N as [->|Hn] by lia; [by rewrite pretty_N_go_0, orb_false_r|].
  rewrite pretty_N_go_step by done. rewrite IH by (by apply N.div_lt). cbn [int_digits].
  rewrite pretty_char_value by (apply N.mod_lt; lia).
  assert (N.eqb n 0 = false) as -> by (apply N.eqb_neq; lia). rewrite orb_true_r.
  f_equal. rewrite N2Z.inj_div, N2Z.inj_mod. pose proof (Z.div_mod (Z.of_N n) 10 ltac:(done)). lia.
Qed.

Lemma pretty_go_digits n s : digits_only s = true → digits_only (pretty_N_go n s) = true.
Proof.
  revert s. induction (N.lt_wf_0 n) as [n _ IH]; intros s Hs.
  assert (n = 0 ∨ 0 < n)%N as [->|Hn] by lia; [done|].
  rewrite pretty_N_go_step by done. apply IH; [by apply N.div_lt|]. simpl.
  by rewrite pretty_char_value by (apply N.mod_lt; lia).
Qed.

(** The first digit of a positive number is not zero. *)
Lemma pretty_go_first n s :
  (0 < n)%N → ∃ x s', (0 < x < 10)%N ∧ pretty_N_go n s = String (pretty_N_char x) s'.
Proof.
  revert s. induction (N.lt_wf_0 n) as [n _ IH]; intros s Hn. rewrite pretty_N_go_step by done.
  destruct (N.eq_0_gt_0_cases (n `div` 10)) as [Hz|Hp].
  - rewrite Hz, pretty_N_go_0. exists (n `mod` 10)%N, s. split; [|done].
    pose proof (N.div_mod n 10 ltac:(done)). pose proof (N.mod_lt n 10 ltac:(done)). lia.
  - apply IH; [by apply N.div_lt | done].
Qed.

Lemma take_all_digits s : digits_only s = true → take_digits s = (s, "").
Proof.
  induction s as [|c s IH]; [done|]. simpl. destruct (digit_value c); [|done].
  intros Hs. by rewrite IH.
Qed.

Lemma pretty_N_number (n : N) :
  integer_part (pretty n) = (pretty n, "") ∧ int_digits 0 false (pretty n) = Some (Z.of_N n) ∧
  truthy (pretty n) = true.
Proof.
  unfold pretty, pretty_N. case_decide as Hn; [by subst|].
  destruct (pretty_go_first n "") as (x & s' & Hx & E); [lia|]. split_and!.
  - assert (integer_part (pretty_N_go n "") = take_digits (pretty_N_go n "")) as ->.
    { rewrite E. assert (x = 1 ∨ x = 2 ∨ x = 3 ∨ x = 4 ∨ x = 5 ∨ x = 6 ∨ x = 7 ∨ x = 8 ∨ x = 9)%N
        as Hc by lia. by destruct_or!; subst. }
    by apply take_all_digits, pretty_go_digits.
  - rewrite pretty_go_value. simpl. by destruct n.
  - by rewrite E.
Qed.

Lemma scan_pretty `{Floats} (n : Z) t :
  delimited t → scan_number (pretty n ++ t) = Some (JInt n, t).
Proof.
  intros Ht. rewrite scan_number_app by done. enough (scan_number (pretty n) = Some (JInt n, ""))
    as -> by done.
  assert (∀ k : N, scan_number (pretty k) = Some (JInt (Z.of_N k), "")) as Hpos.
  { intros k. destruct (pretty_N_number k) as (Hi & Hv & Htr). unfold scan_number. cbv zeta.
    assert (match pretty k with String "-" s' => ("-", s') | _ => ("", pretty k) end = ("", pretty k))
      as ->.
    { destruct (pretty k) as [|c s] eqn:E; [done|]. simpl in Hv.
      destruct c as [[] [] [] [] [] [] [] []]; try done. }
    cbn [fst snd]. rewrite Hi. cbn [fst snd]. rewrite Htr. cbn [fraction exponent fst snd orb truthy].
    simpl. by rewrite Hv. }
  destruct n as [|p|p].
  - apply (Hpos 0%N).
  - apply (Hpos (Npos p)).
  - change (pretty (Zneg p)) with (String "-" (pretty (Npos p))).
    destruct (pretty_N_number (Npos p)) as (Hi & Hv & Htr). unfold scan_number. cbv zeta.
    cbn [fst snd]. rewrite Hi. cbn [fst snd]. rewrite Htr. simpl. by rewrite Hv.
Qed.

(** ** Values *)

Section values.
Context `{Floats}.

(** A float that is printed as the decoder prints it. *)
Definition float_text (r : string) : Prop :=
  r = "NaN" ∨ r = "Infinity" ∨ r = "-Infinity" ∨ scan_number r = Some (JFloat r, "").

(** Every key of an object once, and floats in Python's own notation. *)
Fixpoint json_ok (v : json) : Prop :=
  match v with
  | JFloat r => float_text r
  | JList l => foldr (λ x P, json_ok x ∧ P) True l
  | JObj d => NoDup d.*1 ∧ foldr (λ kv P, json_ok kv.2 ∧ P) True d
  | _ => True
  end.

Lemma json_ok_list l : json_ok (JList l) ↔ Forall json_ok l.
Proof. induction l; simpl; [done|]. rewrite Forall_cons. naive_solver. Qed.
Lemma json_ok_fields (d : dict) :
  foldr (λ kv P, json_ok kv.2 ∧ P) True d ↔ Forall (λ kv, json_ok kv.2) d.
Proof. induction d; simpl; [done|]. rewrite Forall_cons. naive_solver. Qed.

(** A text begins with the first character of a value. *)
Definition value_start (s : string) : Prop :=
  match s with
  | EmptyString => False
  | String c _ => json_space c = false ∧ c ≠ "]"%char ∧ c ≠ "}"%char
  end.

Lemma number_value_start s : number_start s → value_start s.
Proof.
  intros (c & s' & [-> | ->] & [k Hk]); [|done].
  destruct c as [[] [] [] [] [] [] [] []]; try discriminate Hk; done.
Qed.

Lemma float_text_start r : float_text r → value_start r.
Proof.
  intros [-> |[-> |[-> |Hr]]]; try done. by apply number_value_start; eapply scan_number_start.
Qed.

Lemma value_start_app s t : value_start s → value_start (s ++ t).
Proof. by destruct s. Qed.

Lemma skip_value s : value_start s → skip_space s = s.
Proof. destruct s; [done|]. simpl. by intros [-> _]. Qed.

(** Whatever the writer of its texts, [json.dumps] writes what [json.loads] reads. *)
Section written.
Context (esc : string → string) `{TextWriter esc}.

#[local] Abbreviation written := (json_dumps esc "," ":").
#[local] Abbreviation quoted s := (quote ++ esc s ++ quote).

Lemma written_start v : json_ok v → value_start (written v).
Proof.
  destruct v as [|[]|n|r|s|l|d]; simpl; try done.
  - intros _. apply number_value_start. eapply scan_number_start.
    pose proof (scan_pretty n "" I) as E. by rewrite append_nil_r in E.
  - apply float_text_start.
Qed.

Definition decodes (v : json) : Prop := ∀ n t,
  json_ok v → delimited t → (2 * String.length (written v) + 1 ≤ n)%nat →
  scan_value n (written v ++ t) = Some (sort_keys v, t).

Lemma decodes_float r : decodes (JFloat r).
Proof.
  intros [|n] t Hok Ht Hn; [lia|]. cbn [json_dumps sort_keys].
  destruct Hok as [-> |[-> |[-> |Hr]]]; [by destruct t..|].
  assert (scan_number (r ++ t) = Some (JFloat r, t)) as Hs by (rewrite scan_number_app, Hr by done; done).
  rewrite scan_value_number; [done|]. by eapply scan_number_start.
Qed.

Lemma decodes_string s : decodes (JStr s).
Proof.
  intros [|n] t _ Ht Hn; [lia|]. cbn [json_dumps sort_keys].
  change (quote ++ esc s ++ quote) with (String (ascii_of_nat 34) (esc s ++ quote)).
  rewrite append_cons, append_assoc. cbn [scan_value]. change (Nat.eqb (code _) 34) with true.
  cbv iota. by rewrite scan_written.
Qed.

Lemma join_cons sep x y l : join sep (x :: y :: l) = x ++ sep ++ join sep (y :: l).
Proof. done. Qed.

Lemma join_start x l : value_start x → value_start (join "," (x :: l)).
Proof. destruct l; [done|]. rewrite join_cons. apply value_start_app. Qed.

Lemma scan_items_text l : Forall decodes l → ∀ n t, Forall json_ok l → l ≠ [] →
  (2 * String.length (join "," (map written l) ++ "]") ≤ n)%nat →
  scan_items n (join "," (map written l) ++ "]" ++ t) = Some (map sort_keys l, t).
Proof.
  induction 1 as [|v l Hv Hl IH]; [done|]. intros [|n] t [Hok Hoks]%Forall_cons _ Hn.
  { rewrite length_append in Hn. simpl in Hn. lia. }
  destruct l as [|w l].
  - unfold join in *. cbn [map String.concat] in *. rewrite length_append in Hn. cbn [scan_items].
    simpl in Hn. rewrite Hv; [done | done | simpl; auto | lia].
  - cbn [map] in *. rewrite join_cons in *. rewrite !append_assoc. rewrite !length_append in Hn.
    change (String.length ",") with 1%nat in Hn. cbn [scan_items].
    rewrite Hv; [|done | simpl; auto | lia]. cbn [mbind option_bind fst snd].
    change (skip_space ("," ++ ?x)) with (String "," x). cbn -[skip_space scan_items scan_fields].
    rewrite skip_value, IH; [done | done | done | rewrite length_append; lia |].
    apply value_start_app, join_start, written_start. by apply Forall_cons in Hoks as [? _].
Qed.

(** Objects are printed in the order of their keys. *)
Definition field_text (kv : string * json) : string := quoted kv.1 ++ ":" ++ written kv.2.

Lemma printed_fields d :
  map (λ kv, quoted kv.1 ++ ":" ++ kv.2)
    (foldr insert_field [] (map (λ kv, (kv.1, written kv.2)) d))
  = map field_text (sort_fields d).
Proof.
  assert (foldr insert_field [] (map (λ kv, (kv.1, written kv.2)) d)
    = map (λ kv, (kv.1, written kv.2)) (sort_fields d)) as ->; [|by rewrite map_map].
  unfold sort_fields. induction d as [|kv d IH]; [done|]. cbn [map foldr]. rewrite IH. clear IH.
  generalize (foldr insert_sorted [] d) as l. induction l as [|x l IH]; simpl; [done|].
  unfold key_le; simpl. destruct (String.leb kv.1 x.1); simpl; [done|]. by rewrite IH.
Qed.

Lemma scan_fields_text l : Forall (λ kv, decodes kv.2) l → ∀ n t,
  Forall (λ kv, json_ok kv.2) l → l ≠ [] →
  (2 * String.length (join "," (map field_text l) ++ "}") ≤ n)%nat →
  scan_fields n (join "," (map field_text l) ++ "}" ++ t)
  = Some (map (λ kv, (kv.1, sort_keys kv.2)) l, t).
Proof.
  assert (∀ n kv t, scan_fields (S n) (field_text kv ++ t) =
    v ← scan_value n (skip_space (written kv.2 ++ t));
    match expect "}" (skip_space v.2) with
    | Some s3 => Some ([(kv.1, v.1)], s3)
    | None => s3 ← expect "," (skip_space v.2);
        r ← scan_fields n (skip_space s3); Some ((kv.1, v.1) :: r.1, r.2)
    end) as Hstep.
  { intros n kv t. unfold field_text.
    change (quote ++ esc kv.1 ++ quote) with (String (ascii_of_nat 34) (esc kv.1 ++ quote)).
    rewrite !append_cons, !append_assoc. cbn [scan_fields].
    change (Nat.eqb (code (ascii_of_nat 34)) 34) with true. cbv iota. by rewrite scan_written. }
  induction 1 as [|[k v] l Hv Hl IH]; [done|]. intros [|n] t [Hok Hoks]%Forall_cons _ Hn.
  { rewrite length_append in Hn. simpl in Hn. lia. }
  simpl in Hok, Hv. assert (String.length (written v) + 1 ≤ String.length (field_text (k, v)))%nat as Hlen.
  { unfold field_text. rewrite !length_append. simpl. lia. }
  assert (∀ t, skip_space (written v ++ t) = written v ++ t) as Hskip.
  { intros t'. by apply skip_value, value_start_app, written_start. }
  destruct l as [|w l].
  - unfold join in *. cbn [map String.concat] in *. rewrite length_append in Hn.
    change (String.length "}") with 1%nat in Hn. rewrite Hstep. simpl. rewrite Hskip.
    rewrite Hv; [done | done | simpl; auto | lia].
  - cbn [map] in *. rewrite join_cons in *. rewrite !append_assoc. rewrite !length_append in Hn.
    change (String.length ",") with 1%nat in Hn. rewrite Hstep. simpl. rewrite Hskip.
    rewrite Hv; [|done | simpl; auto | lia]. cbn [mbind option_bind fst snd].
    change (skip_space ("," ++ ?x)) with (String "," x). cbn -[skip_space scan_items scan_fields].
    rewrite skip_value, IH; [done | done | done | rewrite length_append; lia |].
    by apply value_start_app, join_start.
Qed.

(** A dictionary of distinct keys. *)
Lemma dict_of_id (l : dict) : NoDup l.*1 → dict_of l = l.
Proof.
  intros Hnd. unfold dict_of, dict_update.
  assert (∀ acc : dict, NoDup (acc ++ l)%list.*1 →
    foldl (λ acc kv, dict_set kv.1 kv.2 acc) acc l = (acc ++ l)%list) as E; [|by apply E].
  clear Hnd. induction l as [|[k v] l IH]; intros acc Hnd; simpl; [by rewrite app_nil_r|].
  assert (k ∉ acc.*1) as Hk.
  { rewrite fmap_app in Hnd. apply NoDup_app in Hnd as (_ & Hd & _). intros Hin.
    apply (Hd k Hin). csimpl. constructor. }
  assert (dict_set k v acc = (acc ++ [(k, v)])%list) as ->.
  { clear Hnd IH. induction acc as [|[k' v'] acc IHa]; simpl; [done|].
    csimpl in Hk. apply not_elem_of_cons in Hk as [Hne Hk].
    apply String.eqb_neq in Hne. rewrite Hne. f_equal. by apply IHa. }
  rewrite IH; by rewrite <-(assoc_L (++)%list).
Qed.

Lemma expect_other c s : value_start s → c = "]"%char ∨ c = "}"%char → expect c s = None.
Proof.
  destruct s as [|x s]; [done|]. intros (_ & H1 & H2) Hc. simpl.
  destruct (Ascii.eqb_spec x c); [|done]. naive_solver.
Qed.

Theorem decodes_all v : decodes v.
Proof.
  induction v as [|b|z|r|s|l IH|d IH] using json_nested_ind.
  - intros [|n] t _ _ Hn; [lia|]. done.
  - intros [|n] t _ _ Hn; [lia|]. by destruct b.
  - intros [|n] t _ Ht Hn; [lia|]. cbn [json_dumps sort_keys].
    rewrite scan_value_number; [by apply scan_pretty|].
    eapply scan_number_start. by apply scan_pretty.
  - apply decodes_float.
  - apply decodes_string.
  - intros [|n] t Hok%json_ok_list Ht Hn; [lia|]. cbn [json_dumps sort_keys] in *.
    destruct l as [|v l]; [done|].
    rewrite !length_append in Hn. change (String.length "[") with 1%nat in Hn.
    rewrite !append_assoc. change ("[" ++ ?x) with (String "[" x). cbn [scan_value].
    change (Nat.eqb (code "[") 34) with false. change (Ascii.eqb "[" "{") with false.
    change (Ascii.eqb "[" "[") with true. cbv iota.
    assert (value_start (join "," (map written (v :: l)) ++ "]" ++ t)) as Hst.
    { apply value_start_app, join_start, written_start. by apply Forall_cons in Hok as [? _]. }
    pose proof (scan_items_text (v :: l) IH n t Hok ltac:(done)) as Hs.
    rewrite length_append in Hs. specialize (Hs ltac:(simpl in *; lia)).
    rewrite skip_value, expect_other, Hs by auto. done.
  - intros [|n] t [Hnd Hok%json_ok_fields] Ht Hn; [lia|]. cbn [json_dumps sort_keys] in *.
    rewrite printed_fields in *. fold (sort_fields (map (λ kv, (kv.1, sort_keys kv.2)) d)).
    rewrite <-sort_fields_map. rewrite <-(sort_fields_perm d) in Hnd, Hok, IH.
    destruct (sort_fields d) as [|kv l]; [done|].
    rewrite !length_append in Hn. change (String.length "{") with 1%nat in Hn.
    rewrite !append_assoc. change ("{" ++ ?x) with (String "{" x). cbn [scan_value].
    change (Nat.eqb (code "{") 34) with false. change (Ascii.eqb "{" "{") with true. cbv iota.
    assert (value_start (join "," (map field_text (kv :: l)) ++ "}" ++ t)) as Hst.
    { by apply value_start_app, join_start. }
    pose proof (scan_fields_text (kv :: l) IH n t Hok ltac:(done)) as Hs.
    rewrite length_append in Hs. specialize (Hs ltac:(simpl in *; lia)).
    rewrite skip_value, expect_other, Hs by auto. cbn [mbind option_bind fst snd].
    by rewrite dict_of_id by (by rewrite <-list_fmap_compose).
Qed.

Lemma json_loads_written v : json_ok v → json_loads (written v) = Some (sort_keys v).
Proof.
  intros Hok. unfold json_loads. rewrite skip_value by (by apply written_start).
  pose proof (decodes_all v (2 * String.length (written v) + 1) "" Hok I ltac:(lia)) as E.
  rewrite append_nil_r in E. by rewrite E.
Qed.

(** Equal texts stand for equal values. *)
Lemma written_inj v w :
  json_ok v → json_ok w → written v = written w → sort_keys v = sort_keys w.
Proof.
  intros Hv Hw E. apply json_loads_written in Hv, Hw. rewrite E in Hv. congruence.
Qed.
End written.

Definition json_loads_canonical : ∀ v, json_ok v → json_loads (canonical_json v) = Some (sort_keys v) :=
  json_loads_written escape.
Definition json_loads_compact : ∀ v, json_ok v → json_loads (compact_json v) = Some (sort_keys v) :=
  json_loads_written ascii_escape.
Definition canonical_json_inj :
  ∀ v w, json_ok v → json_ok w → canonical_json v = canonical_json w → sort_keys v = sort_keys w :=
  written_inj escape.
End values.

(** ** Enough fuel *)

Local Open Scope nat_scope.

Lemma take_digits_length s :
  String.length (take_digits s).1 + String.length (take_digits s).2 = String.length s.
Proof. induction s as [|c s IH]; [done|]. simpl. destruct (digit_value c); simpl; [lia|done]. Qed.

Lemma fraction_length s : String.length (fraction s).2 ≤ String.length s.
Proof.
  destruct s as [|c s]; [done|]. destruct (Ascii.eqb_spec c ".") as [->|Hc].
  - cbn [fraction]. pose proof (take_digits_length s). destruct (truthy _); simpl; lia.
  - unfold fraction. destruct c as [[] [] [] [] [] [] [] []]; done.
Qed.

Lemma exponent_length s : String.length (exponent s).2 ≤ String.length s.
Proof.
  destruct s as [|c s]; [done|]. cbn [exponent]. destruct (_ || _); [|done].
  set (signed := match s with String "+" s'' => ("+", s'') | String "-" s'' => ("-", s'')
                 | _ => ("", s) end).
  assert (String.length signed.2 ≤ String.length s).
  { destruct s as [|x s]; [done|]. destruct x as [[] [] [] [] [] [] [] []]; simpl; lia. }
  pose proof (take_digits_length signed.2). destruct (truthy _); simpl; lia.
Qed.

Lemma integer_part_length s :
  truthy (integer_part s).1 = true → String.length (integer_part s).2 < String.length s.
Proof.
  intros Ht. assert (String.length (integer_part s).1 + String.length (integer_part s).2
    = String.length s) as Hl.
  { destruct s as [|c s]; [done|]. destruct (Ascii.eqb_spec c "0") as [->|Hc]; [done|].
    assert (integer_part (String c s) = take_digits (String c s)) as ->.
    { unfold integer_part. by destruct c as [[] [] [] [] [] [] [] []]. }
    apply take_digits_length. }
  destruct (integer_part s).1; [done|]. simpl in Hl. lia.
Qed.

Lemma skip_space_length s : String.length (skip_space s) ≤ String.length s.
Proof. induction s as [|c s IH]; [done|]. simpl. destruct (json_space c); simpl; lia. Qed.

Lemma expect_length c s r : expect c s = Some r → String.length r < String.length s.
Proof. destruct s as [|x s]; [done|]. simpl. destruct (Ascii.eqb x c); [|done]. intros [= ->]. lia. Qed.

Lemma scan_string_length s r :
  scan_string s = Some r → String.length r.2 < String.length s.
Proof.
  assert (∀ n s, String.length s ≤ n → ∀ r, scan_string s = Some r →
    String.length r.2 < String.length s) as Hn; [|by eapply Hn].
  clear s r. induction n as [|n IH]; intros [|c s] Hlen r; try (simpl in *; lia); [done..|].
  assert (∀ p s', String.length s' ≤ String.length s → prepend p (scan_string s') = Some r →
    String.length r.2 < String.length (String c s)) as Hp.
  { intros p s' Hs'. unfold prepend. destruct (scan_string s') as [x|] eqn:E; [|done]. intros [= <-].
    simpl in *. apply IH in E; lia. }
  cbn [scan_string]. repeat case_match; try done; simplify_eq;
    first [ intros [= <-]; simpl; lia | apply Hp; simpl; lia ].
Qed.

Section fuel.
Context `{Floats}.

Lemma scan_number_length s r : scan_number s = Some r → String.length r.2 < String.length s.
Proof.
  unfold scan_number. cbv zeta.
  set (signed := match s with String "-" s' => ("-", s') | _ => ("", s) end).
  assert (String.length signed.2 ≤ String.length s).
  { destruct s as [|x s]; [done|]. destruct x as [[] [] [] [] [] [] [] []]; simpl; lia. }
  destruct (truthy (integer_part _).1) eqn:Ht; [|done]. apply integer_part_length in Ht.
  pose proof (fraction_length (integer_part signed.2).2).
  pose proof (exponent_length (fraction (integer_part signed.2).2).2).
  destruct (_ || _); [intros [= <-]; simpl; lia|]. destruct (int_digits _ _ _); [|done].
  intros [= <-]. simpl. lia.
Qed.

Lemma literal_length s r : literal literals s = Some r → String.length r.2 < String.length s.
Proof.
  assert (∀ p s r, strip_prefix p s = Some r → String.length s = String.length p + String.length r) as Hp.
  { induction p as [|a p IH]; intros [|b t] q; simpl; try (intros [= <-]; done); try done.
    destruct (Ascii.eqb a b); [|done]. intros E%IH. simpl. lia. }
  unfold literals. cbn [literal].
  repeat (case_match; [intros [= <-]; match goal with E : strip_prefix _ _ = Some _ |- _ =>
    apply Hp in E; simpl in *; lia end|]). done.
Qed.

(** Every scan consumes something. *)
Lemma scan_consumes n : ∀ s,
  (∀ r, scan_value n s = Some r → String.length r.2 < String.length s) ∧
  (∀ r, scan_fields n s = Some r → String.length r.2 < String.length s) ∧
  (∀ r, scan_items n s = Some r → String.length r.2 < String.length s).
Proof.
  induction n as [|n IH]; intros s; [done|]. split_and!; intros r.
  - destruct s as [|c s]; [done|]. cbn [scan_value]. pose proof (skip_space_length s).
    destruct (Nat.eqb _ _); [|destruct (Ascii.eqb c "{"); [|destruct (Ascii.eqb c "[")]].
    + destruct (scan_string s) as [x|] eqn:E; [|done]. intros [= <-].
      apply scan_string_length in E. simpl in *. lia.
    + destruct (expect "}" _) eqn:E.
      * intros [= <-]. apply expect_length in E. simpl. lia.
      * destruct (scan_fields n _) as [x|] eqn:Ef; [|done]. intros [= <-]. apply IH in Ef. simpl. lia.
    + destruct (expect "]" _) eqn:E.
      * intros [= <-]. apply expect_length in E. simpl. lia.
      * destruct (scan_items n _) as [x|] eqn:Ef; [|done]. intros [= <-]. apply IH in Ef. simpl. lia.
    + destruct (literal _ _) as [x|] eqn:E; [intros [= <-]; by apply literal_length|].
      apply scan_number_length.
  - destruct s as [|c s]; [done|]. cbn [scan_fields]. destruct (Nat.eqb _ _); [|done].
    destruct (scan_string s) as [k|] eqn:E; [|done]. apply scan_string_length in E. simpl.
    pose proof (skip_space_length k.2). destruct (expect ":" _) as [s2|] eqn:E2; [|done].
    apply expect_length in E2. simpl. pose proof (skip_space_length s2).
    destruct (scan_value n _) as [v|] eqn:Ev; [|done]. apply IH in Ev. simpl.
    pose proof (skip_space_length v.2). destruct (expect "}" _) as [s3|] eqn:E3.
    + intros [= <-]. apply expect_length in E3. simpl. lia.
    + destruct (expect "," _) as [s4|] eqn:E4; [|done]. apply expect_length in E4. simpl.
      pose proof (skip_space_length s4). destruct (scan_fields n _) as [x|] eqn:Ef; [|done].
      intros [= <-]. apply IH in Ef. simpl. lia.
  - cbn [scan_items]. destruct (scan_value n s) as [v|] eqn:Ev; [|done]. apply IH in Ev. simpl.
    pose proof (skip_space_length v.2). destruct (expect "]" _) as [s3|] eqn:E3.
    + intros [= <-]. apply expect_length in E3. simpl. lia.
    + destruct (expect "," _) as [s4|] eqn:E4; [|done]. apply expect_length in E4. simpl.
      pose proof (skip_space_length s4). destruct (scan_items n _) as [x|] eqn:Ef; [|done].
      intros [= <-]. apply IH in Ef. simpl. lia.
Qed.
(** More fuel than twice the length changes nothing. *)
Lemma scan_fuel n : ∀ m s,
  (2 * String.length s + 1 ≤ n → 2 * String.length s + 1 ≤ m → scan_value n s = scan_value m s) ∧
  (2 * String.length s + 1 ≤ n → 2 * String.length s + 1 ≤ m → scan_fields n s = scan_fields m s) ∧
  (2 * String.length s + 2 ≤ n → 2 * String.length s + 2 ≤ m → scan_items n s = scan_items m s).
Proof.
  induction n as [|n IH]; intros [|m] s; [split_and!; lia..|].
  destruct (scan_consumes n s) as (Hcv & _ & _). split_and!; intros Hn Hm.
  - destruct s as [|c s]; [done|]. cbn [scan_value]. simpl in Hn, Hm.
    pose proof (skip_space_length s). destruct (IH m (skip_space s)) as (_ & Hf & Hi).
    rewrite Hf, Hi by lia. done.
  - destruct s as [|c s]; [done|]. cbn [scan_fields]. destruct (Nat.eqb _ _); [|done]. simpl in Hn, Hm.
    destruct (scan_string s) as [k|] eqn:E; [|done]. apply scan_string_length in E. simpl.
    pose proof (skip_space_length k.2). destruct (expect ":" _) as [s2|] eqn:E2; [|done].
    apply expect_length in E2. simpl. pose proof (skip_space_length s2).
    destruct (IH m (skip_space s2)) as (-> & _ & _); [|lia..].
    destruct (scan_value m _) as [v|] eqn:Ev; [|done]. apply scan_consumes in Ev. simpl.
    pose proof (skip_space_length v.2). destruct (expect "}" _) as [s3|]; [done|].
    destruct (expect "," _) as [s4|] eqn:E4; [|done]. apply expect_length in E4. simpl.
    pose proof (skip_space_length s4). by destruct (IH m (skip_space s4)) as (_ & -> & _); [|lia..].
  - cbn [scan_items]. destruct (IH m s) as (-> & _ & _); [|lia..].
    destruct (scan_value m s) as [v|] eqn:Ev; [|done]. apply scan_consumes in Ev. simpl.
    pose proof (skip_space_length v.2). destruct (expect "]" _) as [s3|]; [done|].
    destruct (expect "," _) as [s4|] eqn:E4; [|done]. apply expect_length in E4. simpl.
    pose proof (skip_space_length s4). by destruct (IH m (skip_space s4)) as (_ & _ & ->); [|lia..].
Qed.

Lemma scan_enough n s :
  2 * String.length s + 1 ≤ n → scan_value n s = scan_value (2 * String.length s + 1) s.
Proof. intros Hn. by apply scan_fuel. Qed.
End fuel.
