(* ===== verification/Contracts.v ===== *)
(** * Conversation contracts ([src/ainrf/domain/conversation_contracts.py])

    The stable enumerations of the Conversation Domain, the five transition
    tables with their [require_*] checks, the validated value objects
    (runtime projections, native receipts) and the translation of provider
    values, together with the shape of the five state machines. *)

From stdpp Require Import base tactics list strings relations.
From Stdlib Require Import ZArith Lia.
From S2P Require Import Prelude PyText.

Local Open Scope string_scope.

(** ** Enumerations *)

Inductive TaskWorkStatus := Work_OPEN | Work_COMPLETED | Work_CANCELLED.

Inductive ConversationTaskStatus :=
| Task_QUEUED | Task_RUNNING | Task_SUCCEEDED | Task_FAILED | Task_CANCELLED | Task_COMPLETED.

Inductive TurnStatus := Turn_IN_PROGRESS | Turn_COMPLETED | Turn_INTERRUPTED | Turn_FAILED.

Inductive TurnSubmissionStatus :=
| Sub_QUEUED | Sub_CLAIMED | Sub_DELIVERING | Sub_DELIVERED | Sub_CANCELLED
| Sub_DELIVERY_UNKNOWN | Sub_FAILED_DELIVERY.

Inductive TurnSubmissionIntent := Intent_CREATE | Intent_RETRY | Intent_NEXT_TURN.

Inductive ContextSnapshotSource := Source_TASK_PIN | Source_SUBMISSION_OVERRIDE.

Inductive RuntimeExecutionStatus :=
| Exec_STARTING | Exec_RUNNING | Exec_RECONCILING | Exec_COMPLETED | Exec_INTERRUPTED
| Exec_FAILED | Exec_UNKNOWN.

Inductive RuntimeProjectionState := Proj_NOT_LOADED | Proj_IDLE | Proj_ACTIVE | Proj_SYSTEM_ERROR.

Inductive RuntimeActiveFlag := Flag_WAITING_ON_APPROVAL | Flag_WAITING_ON_USER_INPUT.

Inductive ControlKind := Control_STEER | Control_INTERRUPT.

Inductive ControlRequestStatus :=
| Ctl_REQUESTED | Ctl_DELIVERING | Ctl_ACCEPTED | Ctl_COMPLETED | Ctl_REJECTED
| Ctl_DELIVERY_UNKNOWN.

Inductive TurnItemType :=
| Item_USER_MESSAGE | Item_AGENT_MESSAGE | Item_REASONING_SUMMARY | Item_COMMAND_EXECUTION
| Item_FILE_CHANGE | Item_TOOL_CALL | Item_TOOL_RESULT | Item_APPROVAL_REQUEST
| Item_APPROVAL_RESULT | Item_SYSTEM_NOTICE | Item_PLAN_UPDATE | Item_ERROR.

Inductive TurnItemActor := Actor_USER | Actor_AGENT | Actor_TOOL | Actor_SYSTEM.

Definition item_type_value (t : TurnItemType) : string :=
  match t with
  | Item_USER_MESSAGE => "user_message"
  | Item_AGENT_MESSAGE => "agent_message"
  | Item_REASONING_SUMMARY => "reasoning_summary"
  | Item_COMMAND_EXECUTION => "command_execution"
  | Item_FILE_CHANGE => "file_change"
  | Item_TOOL_CALL => "tool_call"
  | Item_TOOL_RESULT => "tool_result"
  | Item_APPROVAL_REQUEST => "approval_request"
  | Item_APPROVAL_RESULT => "approval_result"
  | Item_SYSTEM_NOTICE => "system_notice"
  | Item_PLAN_UPDATE => "plan_update"
  | Item_ERROR => "error"
  end.

Definition item_actor_value (a : TurnItemActor) : string :=
  match a with
  | Actor_USER => "user"
  | Actor_AGENT => "agent"
  | Actor_TOOL => "tool"
  | Actor_SYSTEM => "system"
  end.

Inductive ForkTransferMode := SELECTED_TURNS | RECENT_TURNS | FULL_TRANSCRIPT | CONTEXT_ONLY.

Definition fork_mode_value (m : ForkTransferMode) : string :=
  match m with
  | SELECTED_TURNS => "selected_turns"
  | RECENT_TURNS => "recent_turns"
  | FULL_TRANSCRIPT => "full_transcript"
  | CONTEXT_ONLY => "context_only"
  end.

Inductive ConversationErrorCode :=
| ACTIVE_TURN_EXISTS | EXPECTED_TURN_MISMATCH | TURN_NOT_ACTIVE | DELIVERY_UNKNOWN
| RUNTIME_LOST | SESSION_UNAVAILABLE | CAPABILITY_UNSUPPORTED | TASK_NOT_OPEN
| FORK_CONFIRMATION_REQUIRED | MIGRATION_REQUIRED | INVALID_STATE_TRANSITION
| PROVIDER_CONTRACT_MISMATCH.

Inductive IdempotencyScope :=
| CREATE_TASK | CREATE_TURN | RETRY_TURN | STEER_TURN | INTERRUPT_TURN | UPDATE_WORK_STATUS
| COMPLETE_TASK | REOPEN_TASK | FORK_PREVIEW | FORK_CONFIRM | CANCEL_TASK | ARCHIVE_TASK
| UNARCHIVE_TASK | UPDATE_TASK_TITLE | MOVE_TASK.

Definition scope_value (s : IdempotencyScope) : string :=
  match s with
  | CREATE_TASK => "create_task"
  | CREATE_TURN => "create_turn"
  | RETRY_TURN => "retry_turn"
  | STEER_TURN => "steer_turn"
  | INTERRUPT_TURN => "interrupt_turn"
  | UPDATE_WORK_STATUS => "update_work_status"
  | COMPLETE_TASK => "complete_task"
  | REOPEN_TASK => "reopen_task"
  | FORK_PREVIEW => "fork_preview"
  | FORK_CONFIRM => "fork_confirm"
  | CANCEL_TASK => "cancel_task"
  | ARCHIVE_TASK => "archive_task"
  | UNARCHIVE_TASK => "unarchive_task"
  | UPDATE_TASK_TITLE => "update_task_title"
  | MOVE_TASK => "move_task"
  end.

(** A [StrEnum] member is its string. *)
Coercion scope_value : IdempotencyScope >-> string.

Inductive NativeReceiptKind :=
| START_ACCEPTED | STEER_ACCEPTED | INTERRUPT_REQUESTED | TERMINAL_EVIDENCE.

Inductive EngineFamily := Family_CODEX | Family_CLAUDE.

#[export] Instance ConversationTaskStatus_eq : EqDecision ConversationTaskStatus.
Proof. solve_decision. Defined.
#[export] Instance TaskWorkStatus_eq : EqDecision TaskWorkStatus.
Proof. solve_decision. Defined.
#[export] Instance TurnStatus_eq : EqDecision TurnStatus.
Proof. solve_decision. Defined.
#[export] Instance TurnSubmissionStatus_eq : EqDecision TurnSubmissionStatus.
Proof. solve_decision. Defined.
#[export] Instance TurnSubmissionIntent_eq : EqDecision TurnSubmissionIntent.
Proof. solve_decision. Defined.
#[export] Instance ContextSnapshotSource_eq : EqDecision ContextSnapshotSource.
Proof. solve_decision. Defined.
#[export] Instance RuntimeExecutionStatus_eq : EqDecision RuntimeExecutionStatus.
Proof. solve_decision. Defined.
#[export] Instance RuntimeProjectionState_eq : EqDecision RuntimeProjectionState.
Proof. solve_decision. Defined.
#[export] Instance RuntimeActiveFlag_eq : EqDecision RuntimeActiveFlag.
Proof. solve_decision. Defined.
#[export] Instance ControlKind_eq : EqDecision ControlKind.
Proof. solve_decision. Defined.
#[export] Instance ControlRequestStatus_eq : EqDecision ControlRequestStatus.
Proof. solve_decision. Defined.
#[export] Instance TurnItemType_eq : EqDecision TurnItemType.
Proof. solve_decision. Defined.
#[export] Instance TurnItemActor_eq : EqDecision TurnItemActor.
Proof. solve_decision. Defined.
#[export] Instance ForkTransferMode_eq : EqDecision ForkTransferMode.
Proof. solve_decision. Defined.
#[export] Instance ConversationErrorCode_eq : EqDecision ConversationErrorCode.
Proof. solve_decision. Defined.
#[export] Instance IdempotencyScope_eq : EqDecision IdempotencyScope.
Proof. solve_decision. Defined.
#[export] Instance EngineFamily_eq : EqDecision EngineFamily.
Proof. solve_decision. Defined.

(** ** Errors of the contract layer *)

Inductive contract_error :=
| ContractError (code : ConversationErrorCode)
| ContractValueError.

(** ** Transition tables *)

Definition TASK_TRANSITIONS (s : TaskWorkStatus) : list TaskWorkStatus :=
  match s with
  | Work_OPEN => [Work_COMPLETED; Work_CANCELLED]
  | Work_COMPLETED => [Work_OPEN]
  | Work_CANCELLED => [Work_OPEN]
  end.

Definition TURN_TRANSITIONS (s : TurnStatus) : list TurnStatus :=
  match s with
  | Turn_IN_PROGRESS => [Turn_COMPLETED; Turn_INTERRUPTED; Turn_FAILED]
  | Turn_COMPLETED | Turn_INTERRUPTED | Turn_FAILED => []
  end.

Definition SUBMISSION_TRANSITIONS (s : TurnSubmissionStatus) : list TurnSubmissionStatus :=
  match s with
  | Sub_QUEUED => [Sub_CLAIMED; Sub_CANCELLED]
  | Sub_CLAIMED => [Sub_DELIVERING; Sub_CANCELLED]
  | Sub_DELIVERING => [Sub_DELIVERED; Sub_DELIVERY_UNKNOWN]
  | Sub_DELIVERY_UNKNOWN => [Sub_DELIVERED; Sub_FAILED_DELIVERY]
  | Sub_DELIVERED | Sub_CANCELLED | Sub_FAILED_DELIVERY => []
  end.

Definition RUNTIME_EXECUTION_TRANSITIONS (s : RuntimeExecutionStatus) :
    list RuntimeExecutionStatus :=
  match s with
  | Exec_STARTING => [Exec_RUNNING; Exec_RECONCILING; Exec_FAILED]
  | Exec_RUNNING => [Exec_RECONCILING; Exec_COMPLETED; Exec_INTERRUPTED; Exec_FAILED]
  | Exec_RECONCILING =>
      [Exec_RUNNING; Exec_COMPLETED; Exec_INTERRUPTED; Exec_FAILED; Exec_UNKNOWN]
  | Exec_COMPLETED | Exec_INTERRUPTED | Exec_FAILED | Exec_UNKNOWN => []
  end.

Definition CONTROL_TRANSITIONS (k : ControlKind) (s : ControlRequestStatus) :
    list ControlRequestStatus :=
  match k with
  | Control_STEER =>
      match s with
      | Ctl_REQUESTED => [Ctl_DELIVERING; Ctl_REJECTED]
      | Ctl_DELIVERING => [Ctl_ACCEPTED; Ctl_REJECTED; Ctl_DELIVERY_UNKNOWN]
      | Ctl_ACCEPTED | Ctl_COMPLETED | Ctl_REJECTED | Ctl_DELIVERY_UNKNOWN => []
      end
  | Control_INTERRUPT =>
      match s with
      | Ctl_REQUESTED => [Ctl_ACCEPTED; Ctl_REJECTED; Ctl_DELIVERY_UNKNOWN]
      | Ctl_ACCEPTED => [Ctl_COMPLETED]
      | Ctl_DELIVERING | Ctl_COMPLETED | Ctl_REJECTED | Ctl_DELIVERY_UNKNOWN => []
      end
  end.

Section require.
Context {T : Type} `{EqDecision T}.

Definition require_transition (current target : T) (transitions : T → list T) :
    result contract_error unit :=
  if bool_decide (target ∈ transitions current) then Ok tt
  else Err (ContractError INVALID_STATE_TRANSITION).

Lemma require_transition_Ok current target transitions u :
  require_transition current target transitions = Ok u ↔ target ∈ transitions current.
Proof. unfold require_transition. destruct u. case_bool_decide; naive_solver. Qed.
End require.

Definition require_task_work_transition (current target : TaskWorkStatus) :=
  require_transition current target TASK_TRANSITIONS.
Definition require_turn_transition (current target : TurnStatus) :=
  require_transition current target TURN_TRANSITIONS.
Definition require_submission_transition (current target : TurnSubmissionStatus) :=
  require_transition current target SUBMISSION_TRANSITIONS.
Definition require_runtime_execution_transition (current target : RuntimeExecutionStatus) :=
  require_transition current target RUNTIME_EXECUTION_TRANSITIONS.
Definition require_control_transition (kind : ControlKind) (current target : ControlRequestStatus) :=
  require_transition current target (CONTROL_TRANSITIONS kind).

Definition require_single_active_turn (statuses : list TurnStatus) : result contract_error unit :=
  if Nat.ltb 1 (length (List.filter (λ s, bool_decide (s = Turn_IN_PROGRESS)) statuses))
  then Err (ContractError ACTIVE_TURN_EXISTS)
  else Ok tt.

(** ** Value objects *)

Record RuntimeProjection := mkRuntimeProjection {
  proj_state : RuntimeProjectionState;
  proj_active_flags : list RuntimeActiveFlag;
}.

(** [RuntimeProjection.__post_init__] *)
Definition make_runtime_projection (state : RuntimeProjectionState)
    (flags : list RuntimeActiveFlag) : result contract_error RuntimeProjection :=
  if bool_decide (state ≠ Proj_ACTIVE) && negb (Nat.eqb (length flags) 0)
  then Err (ContractError PROVIDER_CONTRACT_MISMATCH)
  else if negb (Nat.eqb (length (remove_dups flags)) (length flags))
  then Err (ContractError PROVIDER_CONTRACT_MISMATCH)
  else Ok (mkRuntimeProjection state flags).

Definition FORBIDDEN_METADATA_KEYS : list string :=
  ["api_key"; "apikey"; "authorization"; "auth_token"; "access_token"; "refresh_token";
   "credential"; "secret"; "cookie"; "provider_header"].

(** [key.strip().lower().replace("-", "_")] *)
Definition normalize_key (key : string) : string := dash_to_underscore (lower (strip key)).

Definition is_bearer (value : string) : bool := startswith "bearer " (lower (lstrip value)).

(** [NativeReceiptMetadata.__post_init__]: the loop with its [seen] set. *)
Fixpoint check_metadata (seen : list string) (attributes : list (string * string)) :
    result contract_error unit :=
  match attributes with
  | [] => Ok tt
  | (key, value) :: rest =>
      let normalized := normalize_key key in
      if negb (truthy normalized) || bool_decide (normalized ∈ seen)
      then Err ContractValueError
      else if existsb (λ fragment, contains fragment normalized) FORBIDDEN_METADATA_KEYS
      then Err (ContractError PROVIDER_CONTRACT_MISMATCH)
      else if is_bearer value
      then Err (ContractError PROVIDER_CONTRACT_MISMATCH)
      else check_metadata (normalized :: seen) rest
  end.

Definition make_native_receipt_metadata (attributes : list (string * string)) :
    result contract_error (list (string * string)) :=
  match check_metadata [] attributes with
  | Ok _ => Ok attributes
  | Err e => Err e
  end.

Record OpaqueNativeReference := mkOpaqueNativeReference {
  ref_provider : EngineFamily;
  ref_type : string;
  ref_value : string;
}.

Definition make_opaque_native_reference (provider : EngineFamily) (reference_type value : string) :
    result contract_error OpaqueNativeReference :=
  if blank reference_type || blank value then Err ContractValueError
  else Ok (mkOpaqueNativeReference provider reference_type value).

Record NativeReceipt := mkNativeReceipt {
  receipt_kind : NativeReceiptKind;
  receipt_task_id : string;
  receipt_turn_id : string;
  receipt_references : list OpaqueNativeReference;
  receipt_metadata : list (string * string);
}.

Definition make_native_receipt (kind : NativeReceiptKind) (task_id turn_id : string)
    (references : list OpaqueNativeReference) (metadata : list (string * string)) :
    result contract_error NativeReceipt :=
  if negb (truthy task_id) || negb (truthy turn_id) then Err ContractValueError
  else Ok (mkNativeReceipt kind task_id turn_id references metadata).

(** ** Provider vocabulary *)

Definition CODEX_TURN_STATUS : list (string * TurnStatus) :=
  [("inProgress", Turn_IN_PROGRESS); ("completed", Turn_COMPLETED);
   ("interrupted", Turn_INTERRUPTED); ("failed", Turn_FAILED)].
Definition CODEX_RUNTIME_STATE : list (string * RuntimeProjectionState) :=
  [("notLoaded", Proj_NOT_LOADED); ("idle", Proj_IDLE); ("active", Proj_ACTIVE);
   ("systemError", Proj_SYSTEM_ERROR)].
Definition CODEX_ACTIVE_FLAG : list (string * RuntimeActiveFlag) :=
  [("waitingOnApproval", Flag_WAITING_ON_APPROVAL);
   ("waitingOnUserInput", Flag_WAITING_ON_USER_INPUT)].

Fixpoint translate_provider_value {T} (value : string) (values : list (string * T)) :
    result contract_error T :=
  match values with
  | [] => Err (ContractError PROVIDER_CONTRACT_MISMATCH)
  | (k, v) :: rest => if String.eqb value k then Ok v else translate_provider_value value rest
  end.

Definition translate_codex_turn_status (value : string) :=
  translate_provider_value value CODEX_TURN_STATUS.
Definition translate_codex_runtime_state (value : string) :=
  translate_provider_value value CODEX_RUNTIME_STATE.
Definition translate_codex_active_flag (value : string) :=
  translate_provider_value value CODEX_ACTIVE_FLAG.

(** ** The state machines as step relations *)

Definition submission_step (s s' : TurnSubmissionStatus) : Prop := s' ∈ SUBMISSION_TRANSITIONS s.
Definition turn_step (s s' : TurnStatus) : Prop := s' ∈ TURN_TRANSITIONS s.
Definition execution_step (s s' : RuntimeExecutionStatus) : Prop :=
  s' ∈ RUNTIME_EXECUTION_TRANSITIONS s.
Definition control_step (k : ControlKind) (s s' : ControlRequestStatus) : Prop :=
  s' ∈ CONTROL_TRANSITIONS k s.

(** How many deliveries-in-progress steps a submission still has before it is final. *)
Definition submission_rank (s : TurnSubmissionStatus) : nat :=
  match s with
  | Sub_QUEUED => 4
  | Sub_CLAIMED => 3
  | Sub_DELIVERING => 2
  | Sub_DELIVERY_UNKNOWN => 1
  | Sub_DELIVERED | Sub_CANCELLED | Sub_FAILED_DELIVERY => 0
  end.

Lemma submission_step_rank s s' :
  submission_step s s' → (submission_rank s' < submission_rank s)%nat.
Proof. unfold submission_step. destruct s; simpl; set_unfold; naive_solver lia. Qed.

Lemma submission_rtc_rank s s' :
  rtc submission_step s s' → (submission_rank s' ≤ submission_rank s)%nat.
Proof.
  induction 1 as [|s1 s2 s3 H%submission_step_rank]; lia.
Qed.

Definition control_rank (s : ControlRequestStatus) : nat :=
  match s with
  | Ctl_REQUESTED => 3
  | Ctl_DELIVERING => 2
  | Ctl_ACCEPTED => 1
  | Ctl_COMPLETED | Ctl_REJECTED | Ctl_DELIVERY_UNKNOWN => 0
  end.

Lemma control_step_rank k s s' : control_step k s s' → (control_rank s' < control_rank s)%nat.
Proof. unfold control_step. destruct k, s; simpl; set_unfold; naive_solver lia. Qed.
