(* ===== verification/RegistryRows.v ===== *)
(** * Rows of the project and workspace registry
    ([src/ainrf/db/baselines/agentic_researcher.sql])

    Projects, memberships, Environments, Workspaces, their links, Task
    relationships and the tables of the Project Context.  The
    conventions are those of [Schema]: an enumerated text column is its
    enumeration, a JSON column holds the decoded value, a timestamp is a number
    of microseconds. *)

From stdpp Require Import base tactics list strings.
From Stdlib Require Import ZArith.
From S2P Require Import Prelude PyText.

Local Open Scope string_scope.

Definition time := Z.

(** ** Projects and members *)

Inductive ProjectStatus := Project_ACTIVE | Project_ARCHIVED.
Inductive MemberRole := Role_VIEWER | Role_EDITOR.

Record project_row := mkProject {
  pj_project_id : string;
  pj_owner_user_id : string;
  pj_name : string;
  pj_description : option string;
  pj_status : ProjectStatus;
  pj_is_default : bool;
  pj_archived_at : option time;
  pj_archive_reason : option string;
  pj_created_at : time;
  pj_updated_at : time }.

Record member_row := mkMember {
  mb_project_id : string;
  mb_user_id : string;
  mb_role : MemberRole;
  mb_can_publish : bool;
  mb_created_at : time;
  mb_updated_at : time }.

(** ** Environments, Workspaces and links *)

Inductive EnvironmentStatus := Env_ACTIVE | Env_DISABLED.
Inductive WorkspaceStatus := Workspace_ACTIVE | Workspace_UNREGISTERED.
Inductive LinkStatus := Link_ACTIVE | Link_RETIRED.

Record environment_row := mkEnvironment {
  en_environment_id : string;
  en_alias : string;
  en_owner_user_id : option string;
  en_display_name : string;
  en_description : option string;
  en_connection : dict;
  en_credential_ref : option string;
  en_is_seed : bool;
  en_status : EnvironmentStatus;
  en_created_at : time;
  en_updated_at : time;
  en_connection_fingerprint : option string;
  en_disabled_at : option time;
  en_disabled_reason : option string }.

Record workspace_row := mkWorkspace {
  ws_workspace_id : string;
  ws_owner_user_id : string;
  ws_environment_id : string;
  ws_canonical_path : string;
  ws_label : string;
  ws_description : option string;
  ws_context_metadata : dict;
  ws_status : WorkspaceStatus;
  ws_legacy_project_id : option string;
  ws_created_at : time;
  ws_updated_at : time;
  ws_workspace_context : option string;
  ws_canonical_path_fingerprint : option string;
  ws_unregistered_at : option time;
  ws_unregistered_reason : option string;
  ws_last_seen_at : option time }.

Record link_row := mkLink {
  ln_project_id : string;
  ln_workspace_id : string;
  ln_status : LinkStatus;
  ln_is_primary : bool;
  ln_actor_id : string;
  ln_created_at : time;
  ln_updated_at : time }.

(** ** Task relationships *)

Inductive RelationshipType := Rel_DERIVED_FROM | Rel_DEPENDS_ON | Rel_RELATED_TO.

Record relationship_row := mkRelationship {
  rl_source_task_id : string;
  rl_target_task_id : string;
  rl_relationship_type : RelationshipType;
  rl_created_at : time;
  rl_relationship_id : option string;
  rl_metadata : dict }.

(** ** Project Context *)

Inductive ProvenanceStatus := Provenance_VERIFIED | Provenance_ATTENTION_NEEDED.

Record context_draft_row := mkContextDraft {
  dr_project_id : string;
  dr_content : string;
  dr_updated_by_user_id : string;
  dr_updated_at : time }.

Record context_version_row := mkContextVersion {
  cv_context_version_id : string;
  cv_project_id : string;
  cv_content : string;
  cv_fingerprint : string;
  cv_is_active : bool;
  cv_created_by_user_id : string;
  cv_created_at : time;
  cv_fragment_manifest : list json }.

Record provenance_row := mkProvenance {
  pv_context_version_id : string;
  pv_status : ProvenanceStatus;
  pv_evidence : dict;
  pv_recorded_at : time }.

Inductive CandidateStatus := Candidate_PROPOSED | Candidate_ACCEPTED | Candidate_REJECTED.

Record candidate_row := mkCandidate {
  cd_candidate_id : string;
  cd_project_id : string;
  cd_content : string;
  cd_status : CandidateStatus;
  cd_created_at : time;
  cd_created_by_user_id : option string;
  cd_source_metadata : dict;
  cd_accepted_by_user_id : option string;
  cd_accepted_at : option time;
  cd_rejected_by_user_id : option string;
  cd_rejected_at : option time;
  cd_rejection_reason : option string;
  cd_source_task_id : option string;
  cd_source_message_start_seq : option Z;
  cd_source_message_end_seq : option Z;
  cd_source_output_start_seq : option Z;
  cd_source_output_end_seq : option Z }.

Record fragment_row := mkFragmentRow {
  fr_fragment_id : string;
  fr_project_id : string;
  fr_source_type : string;
  fr_content : string;
  fr_created_at : time;
  fr_source_version : option string;
  fr_source_fingerprint : option string;
  fr_sort_order : Z;
  fr_byte_budget : option Z;
  fr_created_by_user_id : option string;
  fr_source_metadata : dict }.

Record context_snapshot_row := mkContextSnapshot {
  cs_context_snapshot_id : string;
  cs_context_version_id : option string;
  cs_fingerprint : string;
  cs_content : string;
  cs_created_at : time;
  cs_source_manifest : list json;
  cs_byte_budget : option Z;
  cs_truncated : bool }.

Record context_preview_row := mkContextPreview {
  pw_preview_id : string;
  pw_task_id : string;
  pw_project_id : string;
  pw_context_version_id : string;
  pw_created_by_user_id : string;
  pw_proposed_fingerprint : string;
  pw_proposed_content : string;
  pw_source_manifest : list json;
  pw_byte_budget : Z;
  pw_truncated : bool;
  pw_created_at : time;
  pw_expires_at : time;
  pw_confirmed_snapshot_id : option string;
  pw_confirmed_at : option time }.

#[export] Instance ProjectStatus_eq : EqDecision ProjectStatus.
Proof. solve_decision. Defined.
#[export] Instance MemberRole_eq : EqDecision MemberRole.
Proof. solve_decision. Defined.
#[export] Instance EnvironmentStatus_eq : EqDecision EnvironmentStatus.
Proof. solve_decision. Defined.
#[export] Instance WorkspaceStatus_eq : EqDecision WorkspaceStatus.
Proof. solve_decision. Defined.
#[export] Instance LinkStatus_eq : EqDecision LinkStatus.
Proof. solve_decision. Defined.
#[export] Instance RelationshipType_eq : EqDecision RelationshipType.
Proof. solve_decision. Defined.
#[export] Instance ProvenanceStatus_eq : EqDecision ProvenanceStatus.
Proof. solve_decision. Defined.
#[export] Instance CandidateStatus_eq : EqDecision CandidateStatus.
Proof. solve_decision. Defined.
