(* ===== verification/Schema.v ===== *)
(** * The conversation database
    ([src/ainrf/db/baselines/agentic_researcher.sql] with migrations 034-038)

    Rows, tables and the constraints SQLite enforces on them.  A text column
    with a [CHECK (... IN ...)] list is the enumeration of its values; a JSON
    column holds the decoded object (the code always writes canonical JSON, so
    [evidence_json = '{}'] is equality with the empty dict; an item keeps how its
    columns were written, because their text is read); a timestamp column
    holds microseconds since the epoch (the fixed-width ISO-8601 UTC texts the
    code writes compare in the same order).  Row records list every column the
    modelled code reads or writes.

    [*_insert_guard] and [*_update_guard] are the [BEFORE INSERT/UPDATE]
    triggers, checks, unique indexes and foreign keys of each table, as lists of
    named conditions; [None] means that SQLite accepts the row.  A unique index
    over a status set that an update can only leave is not listed again in the
    update guard. *)

From stdpp Require Import base tactics list strings sets relations.
From Stdlib Require Import ZArith Lia.
From S2P Require Import Prelude PyText PyJson Tables Contracts RegistryRows.

Local Open Scope string_scope.

(** ** Errors raised by the domain code *)

Inductive error :=
| MaintenanceModeError
| DomainNotFoundError (id : string)
| DomainPermissionError (code : string)
| DomainConflictError (code : string)
| ConversationContractError (code : ConversationErrorCode)
| DomainWriteFenceError
| ValueError
| TypeError
| KeyError
| AssertionError
| OverflowError
| RuntimeError
| IntegrityError (constraint : string).

(** ** Control-plane rows *)

Record task_row := mkTask {
  tk_task_id : string;
  tk_project_id : string;
  tk_workspace_id : string;
  tk_environment_id : string;
  tk_researcher_type : string;
  tk_harness_engine : string;
  tk_user_skills : option json;
  tk_user_mcp_servers : option json;
  tk_title : string;
  tk_prompt : string;
  tk_created_at : time;
  tk_updated_at : time;
  tk_owner_user_id : string;
  tk_archived_at : option time;
  tk_archive_reason : option string;
  tk_project_context_version_id : option string;
  tk_project_context_snapshot_id : option string }.

(** ** Conversation rows *)

Record state_row := mkState {
  st_task_id : string;
  st_work_status : TaskWorkStatus;
  st_revision : Z;
  st_created_at : time;
  st_updated_at : time }.

Record turn_row := mkTurn {
  tn_turn_id : string;
  tn_task_id : string;
  tn_turn_seq : Z;
  tn_status : TurnStatus;
  tn_retry_of_turn_id : option string;
  tn_context_snapshot_ref : option string;
  tn_binding_id : option string;
  tn_engine_family : string;
  tn_engine_driver : string;
  tn_contract_version : Z;
  tn_provider_profile_ref : option string;
  tn_provider_profile_version : option string;
  tn_provider_profile_fingerprint : option string;
  tn_model : option string;
  tn_native_turn_kind : option string;
  tn_native_turn_ref : option string;
  tn_accepted_at : time;
  tn_started_at : option time;
  tn_finished_at : option time;
  tn_updated_at : time;
  tn_failure_code : option string }.

Record item_row := mkItem {
  it_item_id : string;
  it_task_id : string;
  it_turn_id : string;
  it_task_item_seq : Z;
  it_turn_item_seq : Z;
  it_envelope_type : string;
  it_envelope_version : Z;
  it_item_type : TurnItemType;
  it_actor : TurnItemActor;
  it_payload : dict;
  it_native_provenance : dict;
  it_ensure_ascii : bool;  (* how [json.dumps] wrote the two columns *)
  it_native_dedupe_scope : option string;
  it_native_item_id : option string;
  it_parent_item_id : option string;
  it_call_item_id : option string;
  it_occurred_at : option time;
  it_ingested_at : time;
  it_persisted_at : time }.

Inductive BindingStatus := Binding_ACTIVE | Binding_SUPERSEDED.
#[export] Instance BindingStatus_eq : EqDecision BindingStatus.
Proof. solve_decision. Defined.

Record binding_row := mkBinding {
  bd_binding_id : string;
  bd_task_id : string;
  bd_binding_seq : Z;
  bd_status : BindingStatus;
  bd_engine_family : string;
  bd_engine_driver : string;
  bd_native_conversation_kind : string;
  bd_native_conversation_ref : string;
  bd_contract_version : Z;
  bd_provider_profile_ref : option string;
  bd_provider_profile_version : option string;
  bd_provider_profile_fingerprint : option string;
  bd_provenance : dict;
  bd_validation_evidence : dict;
  bd_created_at : time;
  bd_validated_at : option time;
  bd_superseded_at : option time }.

Record submission_row := mkSubmission {
  sb_submission_id : string;
  sb_task_id : string;
  sb_reserved_turn_id : string;
  sb_actor_user_id : string;
  sb_idempotency_key : string;
  sb_request_hash : string;
  sb_status : TurnSubmissionStatus;
  sb_input : dict;
  sb_context_snapshot_ref : option string;
  sb_context_snapshot_source : ContextSnapshotSource;
  sb_native_turn_kind : option string;
  sb_native_turn_ref : option string;
  sb_delivery_evidence : dict;
  sb_failure_code : option string;
  sb_created_at : time;
  sb_claimed_at : option time;
  sb_delivering_at : option time;
  sb_accepted_at : option time;
  sb_finished_at : option time;
  sb_updated_at : time }.

Record intent_row := mkIntent {
  in_submission_id : string;
  in_task_id : string;
  in_kind : TurnSubmissionIntent;
  in_retry_of_turn_id : option string;
  in_created_at : time }.

Inductive NextTurnStatus := Next_WAITING | Next_READY | Next_CANCELLED.
#[export] Instance NextTurnStatus_eq : EqDecision NextTurnStatus.
Proof. solve_decision. Defined.

Record next_turn_row := mkNextTurn {
  nt_submission_id : string;
  nt_task_id : string;
  nt_blocking_turn_id : string;
  nt_status : NextTurnStatus;
  nt_created_at : time;
  nt_promoted_at : option time;
  nt_updated_at : time }.

Record execution_row := mkExecution {
  ex_runtime_execution_id : string;
  ex_task_id : string;
  ex_turn_id : string;
  ex_execution_seq : Z;
  ex_runtime_generation : Z;
  ex_binding_id : option string;
  ex_status : RuntimeExecutionStatus;
  ex_native_runtime_kind : option string;
  ex_native_runtime_ref : option string;
  ex_native_turn_kind : option string;
  ex_native_turn_ref : option string;
  ex_evidence : dict;
  ex_failure_code : option string;
  ex_created_at : time;
  ex_started_at : option time;
  ex_finished_at : option time;
  ex_updated_at : time }.

Record control_row := mkControl {
  ct_control_request_id : string;
  ct_task_id : string;
  ct_expected_turn_id : string;
  ct_runtime_execution_id : string;
  ct_runtime_generation : Z;
  ct_kind : ControlKind;
  ct_status : ControlRequestStatus;
  ct_actor_user_id : string;
  ct_idempotency_key : string;
  ct_request_hash : string;
  ct_payload : dict;
  ct_evidence : dict;
  ct_failure_code : option string;
  ct_created_at : time;
  ct_accepted_at : option time;
  ct_completed_at : option time;
  ct_updated_at : time }.

Record idempotency_row := mkIdempotency {
  id_actor_user_id : string;
  id_scope : string;
  id_key : string;
  id_request_hash : string;
  id_response : json;
  id_created_at : time }.

Record audit_row := mkAudit {
  au_event_id : string;
  au_actor_id : string;
  au_event_type : string;
  au_subject_type : string;
  au_subject_id : string;
  au_metadata : dict;
  au_created_at : time }.

(** ** Fork rows *)

(** [fork_preview_receipts]; a number is kept as Python's [repr] of the float. *)
Record fork_preview_row := mkForkPreview {
  fp_preview_id : string;
  fp_preview_hash : string;
  fp_source_task_id : string;
  fp_source_revision : string;
  fp_source_engine_family : string;
  fp_target_engine_family : string;
  fp_target_project_id : string;
  fp_target_workspace_id : string;
  fp_target_harness_engine : string;
  fp_target_title : string;
  fp_transfer_mode : ForkTransferMode;
  fp_transfer_range : dict;
  fp_message_count : Z;
  fp_turn_count : Z;
  fp_item_count : Z;
  fp_character_count : Z;
  fp_utf8_byte_count : Z;
  fp_estimated_token_count : Z;
  fp_token_estimator : string;
  fp_context_window_percent : option string;
  fp_tool_result_count : Z;
  fp_reasoning_count : Z;
  fp_binary_count : Z;
  fp_image_reference_count : Z;
  fp_cost_estimate : option json;
  fp_cost_unknown : bool;
  fp_truncated : bool;
  fp_disclosure : dict;
  fp_created_at : time;
  fp_expires_at : time }.

Inductive ForkTransferStatus := Fork_CONFIRMED | Fork_TRANSFERRED | Fork_FAILED.
#[export] Instance ForkTransferStatus_eq : EqDecision ForkTransferStatus.
Proof. solve_decision. Defined.

(** [fork_transfer_receipts] *)
Record fork_transfer_row := mkForkTransfer {
  ft_transfer_id : string;
  ft_preview_id : string;
  ft_preview_hash : string;
  ft_source_task_id : string;
  ft_source_revision : string;
  ft_transfer_mode : ForkTransferMode;
  ft_truncation_acknowledged : bool;
  ft_full_transcript_confirmed : bool;
  ft_actor_user_id : string;
  ft_idempotency_key : string;
  ft_request_hash : string;
  ft_status : ForkTransferStatus;
  ft_target_task_id : option string;
  ft_evidence : dict;
  ft_failure_code : option string;
  ft_confirmed_at : time;
  ft_completed_at : option time;
  ft_updated_at : time }.

(** ** The database *)

Record db := mkDb {
  maintenance_is_active : option bool;
  projects : list project_row;
  project_members : list member_row;
  environments : list environment_row;
  workspaces : list workspace_row;
  workspace_links : list link_row;
  task_relationships : list relationship_row;
  context_drafts : list context_draft_row;
  context_versions : list context_version_row;
  context_provenance : list provenance_row;
  context_candidates : list candidate_row;
  context_fragments : list fragment_row;
  context_snapshots : list context_snapshot_row;
  context_previews : list context_preview_row;
  fork_previews : list fork_preview_row;
  fork_transfers : list fork_transfer_row;
  tasks : list task_row;
  task_authorities : list string;
  task_states : list state_row;
  task_turns : list turn_row;
  turn_items : list item_row;
  bindings : list binding_row;
  submissions : list submission_row;
  intents : list intent_row;
  next_turns : list next_turn_row;
  executions : list execution_row;
  controls : list control_row;
  idempotency : list idempotency_row;
  audit_events : list audit_row }.

Definition with_maintenance (f : option bool → option bool) (d : db) : db :=
  mkDb (f (maintenance_is_active d)) (projects d) (project_members d) (environments d)
    (workspaces d) (workspace_links d) (task_relationships d) (context_drafts d)
    (context_versions d) (context_provenance d) (context_candidates d) (context_fragments d)
    (context_snapshots d) (context_previews d) (fork_previews d) (fork_transfers d) (tasks d)
    (task_authorities d) (task_states d) (task_turns d) (turn_items d) (bindings d)
    (submissions d) (intents d) (next_turns d) (executions d) (controls d) (idempotency d)
    (audit_events d).
Definition with_projects (f : list project_row → list project_row) (d : db) : db :=
  mkDb (maintenance_is_active d) (f (projects d)) (project_members d) (environments d)
    (workspaces d) (workspace_links d) (task_relationships d) (context_drafts d)
    (context_versions d) (context_provenance d) (context_candidates d) (context_fragments d)
    (context_snapshots d) (context_previews d) (fork_previews d) (fork_transfers d) (tasks d)
    (task_authorities d) (task_states d) (task_turns d) (turn_items d) (bindings d)
    (submissions d) (intents d) (next_turns d) (executions d) (controls d) (idempotency d)
    (audit_events d).
Definition with_members (f : list member_row → list member_row) (d : db) : db :=
  mkDb (maintenance_is_active d) (projects d) (f (project_members d)) (environments d)
    (workspaces d) (workspace_links d) (task_relationships d) (context_drafts d)
    (context_versions d) (context_provenance d) (context_candidates d) (context_fragments d)
    (context_snapshots d) (context_previews d) (fork_previews d) (fork_transfers d) (tasks d)
    (task_authorities d) (task_states d) (task_turns d) (turn_items d) (bindings d)
    (submissions d) (intents d) (next_turns d) (executions d) (controls d) (idempotency d)
    (audit_events d).
Definition with_environments (f : list environment_row → list environment_row) (d : db) : db :=
  mkDb (maintenance_is_active d) (projects d) (project_members d) (f (environments d))
    (workspaces d) (workspace_links d) (task_relationships d) (context_drafts d)
    (context_versions d) (context_provenance d) (context_candidates d) (context_fragments d)
    (context_snapshots d) (context_previews d) (fork_previews d) (fork_transfers d) (tasks d)
    (task_authorities d) (task_states d) (task_turns d) (turn_items d) (bindings d)
    (submissions d) (intents d) (next_turns d) (executions d) (controls d) (idempotency d)
    (audit_events d).
Definition with_workspaces (f : list workspace_row → list workspace_row) (d : db) : db :=
  mkDb (maintenance_is_active d) (projects d) (project_members d) (environments d)
    (f (workspaces d)) (workspace_links d) (task_relationships d) (context_drafts d)
    (context_versions d) (context_provenance d) (context_candidates d) (context_fragments d)
    (context_snapshots d) (context_previews d) (fork_previews d) (fork_transfers d) (tasks d)
    (task_authorities d) (task_states d) (task_turns d) (turn_items d) (bindings d)
    (submissions d) (intents d) (next_turns d) (executions d) (controls d) (idempotency d)
    (audit_events d).
Definition with_links (f : list link_row → list link_row) (d : db) : db :=
  mkDb (maintenance_is_active d) (projects d) (project_members d) (environments d)
    (workspaces d) (f (workspace_links d)) (task_relationships d) (context_drafts d)
    (context_versions d) (context_provenance d) (context_candidates d) (context_fragments d)
    (context_snapshots d) (context_previews d) (fork_previews d) (fork_transfers d) (tasks d)
    (task_authorities d) (task_states d) (task_turns d) (turn_items d) (bindings d)
    (submissions d) (intents d) (next_turns d) (executions d) (controls d) (idempotency d)
    (audit_events d).
Definition with_relationships (f : list relationship_row → list relationship_row) (d : db) : db :=
  mkDb (maintenance_is_active d) (projects d) (project_members d) (environments d)
    (workspaces d) (workspace_links d) (f (task_relationships d)) (context_drafts d)
    (context_versions d) (context_provenance d) (context_candidates d) (context_fragments d)
    (context_snapshots d) (context_previews d) (fork_previews d) (fork_transfers d) (tasks d)
    (task_authorities d) (task_states d) (task_turns d) (turn_items d) (bindings d)
    (submissions d) (intents d) (next_turns d) (executions d) (controls d) (idempotency d)
    (audit_events d).
Definition with_drafts (f : list context_draft_row → list context_draft_row) (d : db) : db :=
  mkDb (maintenance_is_active d) (projects d) (project_members d) (environments d)
    (workspaces d) (workspace_links d) (task_relationships d) (f (context_drafts d))
    (context_versions d) (context_provenance d) (context_candidates d) (context_fragments d)
    (context_snapshots d) (context_previews d) (fork_previews d) (fork_transfers d) (tasks d)
    (task_authorities d) (task_states d) (task_turns d) (turn_items d) (bindings d)
    (submissions d) (intents d) (next_turns d) (executions d) (controls d) (idempotency d)
    (audit_events d).
Definition with_versions (f : list context_version_row → list context_version_row) (d : db) : db :=
  mkDb (maintenance_is_active d) (projects d) (project_members d) (environments d)
    (workspaces d) (workspace_links d) (task_relationships d) (context_drafts d)
    (f (context_versions d)) (context_provenance d) (context_candidates d) (context_fragments d)
    (context_snapshots d) (context_previews d) (fork_previews d) (fork_transfers d) (tasks d)
    (task_authorities d) (task_states d) (task_turns d) (turn_items d) (bindings d)
    (submissions d) (intents d) (next_turns d) (executions d) (controls d) (idempotency d)
    (audit_events d).
Definition with_provenance (f : list provenance_row → list provenance_row) (d : db) : db :=
  mkDb (maintenance_is_active d) (projects d) (project_members d) (environments d)
    (workspaces d) (workspace_links d) (task_relationships d) (context_drafts d)
    (context_versions d) (f (context_provenance d)) (context_candidates d) (context_fragments d)
    (context_snapshots d) (context_previews d) (fork_previews d) (fork_transfers d) (tasks d)
    (task_authorities d) (task_states d) (task_turns d) (turn_items d) (bindings d)
    (submissions d) (intents d) (next_turns d) (executions d) (controls d) (idempotency d)
    (audit_events d).
Definition with_candidates (f : list candidate_row → list candidate_row) (d : db) : db :=
  mkDb (maintenance_is_active d) (projects d) (project_members d) (environments d)
    (workspaces d) (workspace_links d) (task_relationships d) (context_drafts d)
    (context_versions d) (context_provenance d) (f (context_candidates d)) (context_fragments d)
    (context_snapshots d) (context_previews d) (fork_previews d) (fork_transfers d) (tasks d)
    (task_authorities d) (task_states d) (task_turns d) (turn_items d) (bindings d)
    (submissions d) (intents d) (next_turns d) (executions d) (controls d) (idempotency d)
    (audit_events d).
Definition with_fragments (f : list fragment_row → list fragment_row) (d : db) : db :=
  mkDb (maintenance_is_active d) (projects d) (project_members d) (environments d)
    (workspaces d) (workspace_links d) (task_relationships d) (context_drafts d)
    (context_versions d) (context_provenance d) (context_candidates d) (f (context_fragments d))
    (context_snapshots d) (context_previews d) (fork_previews d) (fork_transfers d) (tasks d)
    (task_authorities d) (task_states d) (task_turns d) (turn_items d) (bindings d)
    (submissions d) (intents d) (next_turns d) (executions d) (controls d) (idempotency d)
    (audit_events d).
Definition with_snapshots (f : list context_snapshot_row → list context_snapshot_row)
    (d : db) : db :=
  mkDb (maintenance_is_active d) (projects d) (project_members d) (environments d)
    (workspaces d) (workspace_links d) (task_relationships d) (context_drafts d)
    (context_versions d) (context_provenance d) (context_candidates d) (context_fragments d)
    (f (context_snapshots d)) (context_previews d) (fork_previews d) (fork_transfers d)
    (tasks d) (task_authorities d) (task_states d) (task_turns d) (turn_items d) (bindings d)
    (submissions d) (intents d) (next_turns d) (executions d) (controls d) (idempotency d)
    (audit_events d).
Definition with_previews (f : list context_preview_row → list context_preview_row) (d : db) : db :=
  mkDb (maintenance_is_active d) (projects d) (project_members d) (environments d)
    (workspaces d) (workspace_links d) (task_relationships d) (context_drafts d)
    (context_versions d) (context_provenance d) (context_candidates d) (context_fragments d)
    (context_snapshots d) (f (context_previews d)) (fork_previews d) (fork_transfers d)
    (tasks d) (task_authorities d) (task_states d) (task_turns d) (turn_items d) (bindings d)
    (submissions d) (intents d) (next_turns d) (executions d) (controls d) (idempotency d)
    (audit_events d).
Definition with_fork_previews (f : list fork_preview_row → list fork_preview_row) (d : db) : db :=
  mkDb (maintenance_is_active d) (projects d) (project_members d) (environments d)
    (workspaces d) (workspace_links d) (task_relationships d) (context_drafts d)
    (context_versions d) (context_provenance d) (context_candidates d) (context_fragments d)
    (context_snapshots d) (context_previews d) (f (fork_previews d)) (fork_transfers d)
    (tasks d) (task_authorities d) (task_states d) (task_turns d) (turn_items d) (bindings d)
    (submissions d) (intents d) (next_turns d) (executions d) (controls d) (idempotency d)
    (audit_events d).
Definition with_fork_transfers (f : list fork_transfer_row → list fork_transfer_row)
    (d : db) : db :=
  mkDb (maintenance_is_active d) (projects d) (project_members d) (environments d)
    (workspaces d) (workspace_links d) (task_relationships d) (context_drafts d)
    (context_versions d) (context_provenance d) (context_candidates d) (context_fragments d)
    (context_snapshots d) (context_previews d) (fork_previews d) (f (fork_transfers d))
    (tasks d) (task_authorities d) (task_states d) (task_turns d) (turn_items d) (bindings d)
    (submissions d) (intents d) (next_turns d) (executions d) (controls d) (idempotency d)
    (audit_events d).
Definition with_tasks (f : list task_row → list task_row) (d : db) : db :=
  mkDb (maintenance_is_active d) (projects d) (project_members d) (environments d)
    (workspaces d) (workspace_links d) (task_relationships d) (context_drafts d)
    (context_versions d) (context_provenance d) (context_candidates d) (context_fragments d)
    (context_snapshots d) (context_previews d) (fork_previews d) (fork_transfers d)
    (f (tasks d)) (task_authorities d) (task_states d) (task_turns d) (turn_items d)
    (bindings d) (submissions d) (intents d) (next_turns d) (executions d) (controls d)
    (idempotency d) (audit_events d).
Definition with_authorities (f : list string → list string) (d : db) : db :=
  mkDb (maintenance_is_active d) (projects d) (project_members d) (environments d)
    (workspaces d) (workspace_links d) (task_relationships d) (context_drafts d)
    (context_versions d) (context_provenance d) (context_candidates d) (context_fragments d)
    (context_snapshots d) (context_previews d) (fork_previews d) (fork_transfers d) (tasks d)
    (f (task_authorities d)) (task_states d) (task_turns d) (turn_items d) (bindings d)
    (submissions d) (intents d) (next_turns d) (executions d) (controls d) (idempotency d)
    (audit_events d).
Definition with_states (f : list state_row → list state_row) (d : db) : db :=
  mkDb (maintenance_is_active d) (projects d) (project_members d) (environments d)
    (workspaces d) (workspace_links d) (task_relationships d) (context_drafts d)
    (context_versions d) (context_provenance d) (context_candidates d) (context_fragments d)
    (context_snapshots d) (context_previews d) (fork_previews d) (fork_transfers d) (tasks d)
    (task_authorities d) (f (task_states d)) (task_turns d) (turn_items d) (bindings d)
    (submissions d) (intents d) (next_turns d) (executions d) (controls d) (idempotency d)
    (audit_events d).
Definition with_turns (f : list turn_row → list turn_row) (d : db) : db :=
  mkDb (maintenance_is_active d) (projects d) (project_members d) (environments d)
    (workspaces d) (workspace_links d) (task_relationships d) (context_drafts d)
    (context_versions d) (context_provenance d) (context_candidates d) (context_fragments d)
    (context_snapshots d) (context_previews d) (fork_previews d) (fork_transfers d) (tasks d)
    (task_authorities d) (task_states d) (f (task_turns d)) (turn_items d) (bindings d)
    (submissions d) (intents d) (next_turns d) (executions d) (controls d) (idempotency d)
    (audit_events d).
Definition with_items (f : list item_row → list item_row) (d : db) : db :=
  mkDb (maintenance_is_active d) (projects d) (project_members d) (environments d)
    (workspaces d) (workspace_links d) (task_relationships d) (context_drafts d)
    (context_versions d) (context_provenance d) (context_candidates d) (context_fragments d)
    (context_snapshots d) (context_previews d) (fork_previews d) (fork_transfers d) (tasks d)
    (task_authorities d) (task_states d) (task_turns d) (f (turn_items d)) (bindings d)
    (submissions d) (intents d) (next_turns d) (executions d) (controls d) (idempotency d)
    (audit_events d).
Definition with_bindings (f : list binding_row → list binding_row) (d : db) : db :=
  mkDb (maintenance_is_active d) (projects d) (project_members d) (environments d)
    (workspaces d) (workspace_links d) (task_relationships d) (context_drafts d)
    (context_versions d) (context_provenance d) (context_candidates d) (context_fragments d)
    (context_snapshots d) (context_previews d) (fork_previews d) (fork_transfers d) (tasks d)
    (task_authorities d) (task_states d) (task_turns d) (turn_items d) (f (bindings d))
    (submissions d) (intents d) (next_turns d) (executions d) (controls d) (idempotency d)
    (audit_events d).
Definition with_submissions (f : list submission_row → list submission_row) (d : db) : db :=
  mkDb (maintenance_is_active d) (projects d) (project_members d) (environments d)
    (workspaces d) (workspace_links d) (task_relationships d) (context_drafts d)
    (context_versions d) (context_provenance d) (context_candidates d) (context_fragments d)
    (context_snapshots d) (context_previews d) (fork_previews d) (fork_transfers d) (tasks d)
    (task_authorities d) (task_states d) (task_turns d) (turn_items d) (bindings d)
    (f (submissions d)) (intents d) (next_turns d) (executions d) (controls d) (idempotency d)
    (audit_events d).
Definition with_intents (f : list intent_row → list intent_row) (d : db) : db :=
  mkDb (maintenance_is_active d) (projects d) (project_members d) (environments d)
    (workspaces d) (workspace_links d) (task_relationships d) (context_drafts d)
    (context_versions d) (context_provenance d) (context_candidates d) (context_fragments d)
    (context_snapshots d) (context_previews d) (fork_previews d) (fork_transfers d) (tasks d)
    (task_authorities d) (task_states d) (task_turns d) (turn_items d) (bindings d)
    (submissions d) (f (intents d)) (next_turns d) (executions d) (controls d) (idempotency d)
    (audit_events d).
Definition with_next_turns (f : list next_turn_row → list next_turn_row) (d : db) : db :=
  mkDb (maintenance_is_active d) (projects d) (project_members d) (environments d)
    (workspaces d) (workspace_links d) (task_relationships d) (context_drafts d)
    (context_versions d) (context_provenance d) (context_candidates d) (context_fragments d)
    (context_snapshots d) (context_previews d) (fork_previews d) (fork_transfers d) (tasks d)
    (task_authorities d) (task_states d) (task_turns d) (turn_items d) (bindings d)
    (submissions d) (intents d) (f (next_turns d)) (executions d) (controls d) (idempotency d)
    (audit_events d).
Definition with_executions (f : list execution_row → list execution_row) (d : db) : db :=
  mkDb (maintenance_is_active d) (projects d) (project_members d) (environments d)
    (workspaces d) (workspace_links d) (task_relationships d) (context_drafts d)
    (context_versions d) (context_provenance d) (context_candidates d) (context_fragments d)
    (context_snapshots d) (context_previews d) (fork_previews d) (fork_transfers d) (tasks d)
    (task_authorities d) (task_states d) (task_turns d) (turn_items d) (bindings d)
    (submissions d) (intents d) (next_turns d) (f (executions d)) (controls d) (idempotency d)
    (audit_events d).
Definition with_controls (f : list control_row → list control_row) (d : db) : db :=
  mkDb (maintenance_is_active d) (projects d) (project_members d) (environments d)
    (workspaces d) (workspace_links d) (task_relationships d) (context_drafts d)
    (context_versions d) (context_provenance d) (context_candidates d) (context_fragments d)
    (context_snapshots d) (context_previews d) (fork_previews d) (fork_transfers d) (tasks d)
    (task_authorities d) (task_states d) (task_turns d) (turn_items d) (bindings d)
    (submissions d) (intents d) (next_turns d) (executions d) (f (controls d)) (idempotency d)
    (audit_events d).
Definition with_idempotency (f : list idempotency_row → list idempotency_row) (d : db) : db :=
  mkDb (maintenance_is_active d) (projects d) (project_members d) (environments d)
    (workspaces d) (workspace_links d) (task_relationships d) (context_drafts d)
    (context_versions d) (context_provenance d) (context_candidates d) (context_fragments d)
    (context_snapshots d) (context_previews d) (fork_previews d) (fork_transfers d) (tasks d)
    (task_authorities d) (task_states d) (task_turns d) (turn_items d) (bindings d)
    (submissions d) (intents d) (next_turns d) (executions d) (controls d) (f (idempotency d))
    (audit_events d).
Definition with_audit (f : list audit_row → list audit_row) (d : db) : db :=
  mkDb (maintenance_is_active d) (projects d) (project_members d) (environments d)
    (workspaces d) (workspace_links d) (task_relationships d) (context_drafts d)
    (context_versions d) (context_provenance d) (context_candidates d) (context_fragments d)
    (context_snapshots d) (context_previews d) (fork_previews d) (fork_transfers d) (tasks d)
    (task_authorities d) (task_states d) (task_turns d) (turn_items d) (bindings d)
    (submissions d) (intents d) (next_turns d) (executions d) (controls d) (idempotency d)
    (f (audit_events d)).

(** ** Small predicates shared by triggers and queries *)

Definition eqs (a b : string) : bool := String.eqb a b.
Lemma eqs_refl a : eqs a a = true.
Proof. apply String.eqb_refl. Qed.
Lemma eqs_ne a b : a ≠ b → eqs a b = false.
Proof. apply String.eqb_neq. Qed.
Definition eqo (a b : option string) : bool := bool_decide (a = b).
Definition is_none {A} (o : option A) : bool := match o with None => true | _ => false end.
Definition not_none {A} (o : option A) : bool := negb (is_none o).

(** [x IS NOT NULL AND trim(x) != ''] *)
Definition nonblank_opt (o : option string) : bool :=
  match o with Some s => negb (sql_blank s) | None => false end.

(** [(a IS NULL AND b IS NULL) OR (both non-blank)] *)
Definition native_pair (a b : option string) : bool :=
  (is_none a && is_none b) || (nonblank_opt a && nonblank_opt b).

Definition turn_active (t : turn_row) : bool := bool_decide (tn_status t = Turn_IN_PROGRESS).
Definition exec_active_status (s : RuntimeExecutionStatus) : bool :=
  match s with Exec_STARTING | Exec_RUNNING | Exec_RECONCILING => true | _ => false end.
Definition exec_active (e : execution_row) : bool := exec_active_status (ex_status e).
Definition binding_active (b : binding_row) : bool := bool_decide (bd_status b = Binding_ACTIVE).
Definition next_pending (n : next_turn_row) : bool :=
  match nt_status n with Next_WAITING | Next_READY => true | Next_CANCELLED => false end.

Definition turn_in (turn_id task_id : string) (t : turn_row) : bool :=
  eqs (tn_turn_id t) turn_id && eqs (tn_task_id t) task_id.
Definition authority_exists (d : db) (task_id : string) : bool :=
  existsb (eqs task_id) (task_authorities d).
Definition task_exists (d : db) (task_id : string) : bool :=
  row_exists (λ t, eqs (tk_task_id t) task_id) (tasks d).

Definition engine_pair_ok (family driver : string) : bool :=
  (eqs family "codex" && eqs driver "codex-app-server")
  || (eqs family "claude" && (eqs driver "claude-code" || eqs driver "agent-sdk")).

(** ** Row checks ([CHECK] clauses) *)

(** [json_valid(column) AND json_type(column) = 'object']: SQLite does not accept the [NaN] and
    the infinities of [json.dumps]. *)
Definition json_valid (d : dict) : bool := json_finite (JObj d).

Definition turn_check (t : turn_row) : bool :=
  Z.ltb 0 (tn_turn_seq t)
  && Z.ltb 0 (tn_contract_version t)
  && match tn_retry_of_turn_id t with
     | None => true
     | Some r => negb (eqs r (tn_turn_id t))
     end
  && native_pair (tn_native_turn_kind t) (tn_native_turn_ref t)
  && match tn_status t with
     | Turn_IN_PROGRESS => is_none (tn_finished_at t) && is_none (tn_failure_code t)
     | Turn_COMPLETED | Turn_INTERRUPTED =>
         not_none (tn_finished_at t) && is_none (tn_failure_code t)
     | Turn_FAILED => not_none (tn_finished_at t) && nonblank_opt (tn_failure_code t)
     end
  && engine_pair_ok (tn_engine_family t) (tn_engine_driver t).

Definition item_check (i : item_row) : bool :=
  Z.ltb 0 (it_task_item_seq i)
  && Z.ltb 0 (it_turn_item_seq i)
  && negb (sql_blank (it_envelope_type i))
  && Z.ltb 0 (it_envelope_version i)
  && negb (eqo (it_parent_item_id i) (Some (it_item_id i)))
  && negb (eqo (it_call_item_id i) (Some (it_item_id i)))
  && native_pair (it_native_dedupe_scope i) (it_native_item_id i)
  && json_valid (it_payload i)
  && json_valid (it_native_provenance i).

Definition binding_check (b : binding_row) : bool :=
  Z.ltb 0 (bd_binding_seq b)
  && negb (sql_blank (bd_native_conversation_kind b))
  && negb (sql_blank (bd_native_conversation_ref b))
  && Z.ltb 0 (bd_contract_version b)
  && match bd_status b with
     | Binding_ACTIVE => is_none (bd_superseded_at b)
     | Binding_SUPERSEDED => not_none (bd_superseded_at b)
     end
  && engine_pair_ok (bd_engine_family b) (bd_engine_driver b)
  && json_valid (bd_provenance b)
  && json_valid (bd_validation_evidence b).

Definition submission_check (s : submission_row) : bool :=
  negb (sql_blank (sb_reserved_turn_id s))
  && negb (sql_blank (sb_actor_user_id s))
  && negb (sql_blank (sb_idempotency_key s))
  && negb (sql_blank (sb_request_hash s))
  && native_pair (sb_native_turn_kind s) (sb_native_turn_ref s)
  && match sb_status s with
     | Sub_QUEUED | Sub_CLAIMED | Sub_DELIVERING =>
         is_none (sb_finished_at s) && is_none (sb_failure_code s)
     | Sub_DELIVERED =>
         not_none (sb_accepted_at s) && not_none (sb_finished_at s)
         && is_none (sb_failure_code s) && not_none (sb_native_turn_ref s)
     | Sub_DELIVERY_UNKNOWN => is_none (sb_finished_at s) && nonblank_opt (sb_failure_code s)
     | Sub_CANCELLED | Sub_FAILED_DELIVERY =>
         not_none (sb_finished_at s) && nonblank_opt (sb_failure_code s)
     end
  && json_valid (sb_input s)
  && json_valid (sb_delivery_evidence s).

Definition intent_check (i : intent_row) : bool :=
  match in_kind i with
  | Intent_RETRY => not_none (in_retry_of_turn_id i)
  | _ => is_none (in_retry_of_turn_id i)
  end.

Definition next_turn_check (n : next_turn_row) : bool :=
  match nt_status n with
  | Next_READY => not_none (nt_promoted_at n)
  | _ => is_none (nt_promoted_at n)
  end.

Definition execution_check (e : execution_row) : bool :=
  Z.ltb 0 (ex_execution_seq e)
  && Z.ltb 0 (ex_runtime_generation e)
  && native_pair (ex_native_runtime_kind e) (ex_native_runtime_ref e)
  && native_pair (ex_native_turn_kind e) (ex_native_turn_ref e)
  && match ex_status e with
     | Exec_STARTING | Exec_RUNNING | Exec_RECONCILING =>
         is_none (ex_finished_at e) && is_none (ex_failure_code e)
     | Exec_COMPLETED | Exec_INTERRUPTED =>
         not_none (ex_finished_at e) && is_none (ex_failure_code e)
     | Exec_FAILED | Exec_UNKNOWN =>
         not_none (ex_finished_at e) && nonblank_opt (ex_failure_code e)
     end
  && json_valid (ex_evidence e).

Definition control_check (c : control_row) : bool :=
  Z.ltb 0 (ct_runtime_generation c)
  && negb (sql_blank (ct_actor_user_id c))
  && negb (sql_blank (ct_idempotency_key c))
  && negb (sql_blank (ct_request_hash c))
  && match ct_status c with
     | Ctl_REQUESTED | Ctl_DELIVERING =>
         is_none (ct_accepted_at c) && is_none (ct_completed_at c) && is_none (ct_failure_code c)
     | Ctl_ACCEPTED =>
         not_none (ct_accepted_at c) && is_none (ct_completed_at c) && is_none (ct_failure_code c)
     | Ctl_COMPLETED =>
         bool_decide (ct_kind c = Control_INTERRUPT) && not_none (ct_accepted_at c)
         && not_none (ct_completed_at c) && is_none (ct_failure_code c)
     | Ctl_REJECTED | Ctl_DELIVERY_UNKNOWN =>
         not_none (ct_completed_at c) && nonblank_opt (ct_failure_code c)
     end
  && json_valid (ct_payload c)
  && json_valid (ct_evidence c).

Definition state_check (s : state_row) : bool := Z.ltb 0 (st_revision s).

(** ** Transition triggers *)

Definition work_trigger (old new : TaskWorkStatus) : bool :=
  match old, new with
  | Work_OPEN, (Work_COMPLETED | Work_CANCELLED) => true
  | (Work_COMPLETED | Work_CANCELLED), Work_OPEN => true
  | _, _ => false
  end.

Definition turn_trigger (old new : TurnStatus) : bool :=
  match old, new with
  | Turn_IN_PROGRESS, (Turn_COMPLETED | Turn_INTERRUPTED | Turn_FAILED) => true
  | _, _ => false
  end.

Definition submission_trigger (old new : TurnSubmissionStatus) : bool :=
  match old, new with
  | Sub_QUEUED, (Sub_CLAIMED | Sub_CANCELLED) => true
  | Sub_CLAIMED, (Sub_DELIVERING | Sub_CANCELLED) => true
  | Sub_DELIVERING, (Sub_DELIVERED | Sub_DELIVERY_UNKNOWN) => true
  | Sub_DELIVERY_UNKNOWN, (Sub_DELIVERED | Sub_FAILED_DELIVERY) => true
  | _, _ => false
  end.

Definition submission_terminal (s : TurnSubmissionStatus) : bool :=
  match s with Sub_DELIVERED | Sub_CANCELLED | Sub_FAILED_DELIVERY => true | _ => false end.

Definition execution_trigger (old new : RuntimeExecutionStatus) : bool :=
  match old, new with
  | Exec_STARTING, (Exec_RUNNING | Exec_RECONCILING | Exec_FAILED) => true
  | Exec_RUNNING, (Exec_RECONCILING | Exec_COMPLETED | Exec_INTERRUPTED | Exec_FAILED) => true
  | Exec_RECONCILING,
    (Exec_RUNNING | Exec_COMPLETED | Exec_INTERRUPTED | Exec_FAILED | Exec_UNKNOWN) => true
  | _, _ => false
  end.

Definition control_trigger (k : ControlKind) (old new : ControlRequestStatus) : bool :=
  match k, old, new with
  | Control_STEER, Ctl_REQUESTED, (Ctl_DELIVERING | Ctl_REJECTED) => true
  | Control_STEER, Ctl_DELIVERING, (Ctl_ACCEPTED | Ctl_REJECTED | Ctl_DELIVERY_UNKNOWN) => true
  | Control_INTERRUPT, Ctl_REQUESTED, (Ctl_ACCEPTED | Ctl_REJECTED | Ctl_DELIVERY_UNKNOWN) => true
  | Control_INTERRUPT, Ctl_ACCEPTED, Ctl_COMPLETED => true
  | _, _, _ => false
  end.

(** Migration 034: a promoted next-Turn reservation may still be cancelled. *)
Definition next_turn_trigger (old new : NextTurnStatus) : bool :=
  match old, new with
  | Next_WAITING, (Next_READY | Next_CANCELLED) => true
  | Next_READY, Next_CANCELLED => true
  | _, _ => false
  end.

(** SQL equality of nullable columns: [NULL] equals nothing. *)
Definition eq_sql (a b : option string) : bool :=
  match a, b with Some x, Some y => eqs x y | _, _ => false end.

(** A nullable foreign key: satisfied when [NULL]. *)
Definition fk_opt (o : option string) (p : string → bool) : bool :=
  match o with Some x => p x | None => true end.

(** ** Insert guards *)

Definition state_insert_guard (d : db) (s : state_row) : option string :=
  violation
    [(authority_exists d (st_task_id s), "conversation_task_state_v3_authority_guard_insert");
     (state_check s, "conversation_task_states_check");
     (task_exists d (st_task_id s), "conversation_task_states_task_fk");
     (index_free always st_task_id s (task_states d), "conversation_task_states_pk")].

Definition authority_insert_guard (d : db) (task_id : string) : option string :=
  violation
    [(task_exists d task_id, "conversation_task_authorities_task_fk");
     (negb (authority_exists d task_id), "conversation_task_authorities_pk")].

Definition native_turn_key (t : turn_row) := (tn_binding_id t, tn_native_turn_kind t, tn_native_turn_ref t).
Definition has_native_turn (t : turn_row) : bool :=
  not_none (tn_binding_id t) && not_none (tn_native_turn_ref t).

Definition turn_insert_guard (d : db) (t : turn_row) : option string :=
  violation
    [(fk_opt (tn_retry_of_turn_id t) (λ r,
        row_exists (λ p, turn_in r (tn_task_id t) p && Z.ltb (tn_turn_seq p) (tn_turn_seq t))
          (task_turns d)), "task_turn_retry_task_guard_insert");
     (fk_opt (tn_binding_id t) (λ b,
        row_exists (λ x, eqs (bd_binding_id x) b && eqs (bd_task_id x) (tn_task_id t)
          && eqs (bd_engine_family x) (tn_engine_family t)
          && eqs (bd_engine_driver x) (tn_engine_driver t)) (bindings d)),
      "task_turn_binding_lineage_guard_insert");
     (authority_exists d (tn_task_id t), "task_turn_v3_authority_guard_insert");
     (turn_check t, "task_turns_check");
     (task_exists d (tn_task_id t), "task_turns_task_fk");
     (index_free always tn_turn_id t (task_turns d), "task_turns_pk");
     (index_free always (λ x, (tn_task_id x, tn_turn_seq x)) t (task_turns d),
      "task_turns_task_seq_unique");
     (index_free turn_active tn_task_id t (task_turns d), "idx_task_turns_one_active_task");
     (index_free has_native_turn native_turn_key t (task_turns d),
      "idx_task_turns_native_identity")].

Definition item_dedupe_key (i : item_row) := (it_native_dedupe_scope i, it_native_item_id i).
Definition has_dedupe (i : item_row) : bool := not_none (it_native_dedupe_scope i).

Definition item_insert_guard (d : db) (i : item_row) : option string :=
  violation
    [(fk_opt (it_parent_item_id i) (λ p,
        row_exists (λ x, eqs (it_item_id x) p && eqs (it_task_id x) (it_task_id i)
          && Z.ltb (it_task_item_seq x) (it_task_item_seq i)) (turn_items d)),
      "turn_item_parent_task_guard_insert");
     (fk_opt (it_call_item_id i) (λ c,
        row_exists (λ x, eqs (it_item_id x) c && eqs (it_turn_id x) (it_turn_id i)
          && Z.ltb (it_turn_item_seq x) (it_turn_item_seq i)
          && bool_decide (it_item_type x = Item_TOOL_CALL)) (turn_items d)),
      "turn_item_call_turn_guard_insert");
     (authority_exists d (it_task_id i), "turn_item_v3_authority_guard_insert");
     (implb (bool_decide (it_item_type i = Item_TOOL_RESULT)) (not_none (it_call_item_id i)),
      "turn_item_result_call_required_insert");
     (item_check i, "turn_items_check");
     (row_exists (turn_in (it_turn_id i) (it_task_id i)) (task_turns d), "turn_items_turn_fk");
     (index_free always it_item_id i (turn_items d), "turn_items_pk");
     (index_free always (λ x, (it_task_id x, it_task_item_seq x)) i (turn_items d),
      "turn_items_task_seq_unique");
     (index_free always (λ x, (it_turn_id x, it_turn_item_seq x)) i (turn_items d),
      "turn_items_turn_seq_unique");
     (index_free has_dedupe item_dedupe_key i (turn_items d), "idx_turn_items_native_dedupe")].

Definition binding_native_key (b : binding_row) :=
  (bd_engine_family b, bd_engine_driver b, bd_native_conversation_kind b,
   bd_native_conversation_ref b).

Definition binding_insert_guard (d : db) (b : binding_row) : option string :=
  violation
    [(authority_exists d (bd_task_id b), "engine_binding_v3_authority_guard_insert");
     (binding_check b, "engine_conversation_bindings_check");
     (task_exists d (bd_task_id b), "engine_conversation_bindings_task_fk");
     (index_free always bd_binding_id b (bindings d), "engine_conversation_bindings_pk");
     (index_free always (λ x, (bd_task_id x, bd_binding_seq x)) b (bindings d),
      "engine_conversation_bindings_task_seq_unique");
     (index_free binding_active bd_task_id b (bindings d), "idx_engine_bindings_one_active_task");
     (index_free always binding_native_key b (bindings d), "idx_engine_bindings_native_identity")].

Definition submission_native_key (s : submission_row) :=
  (sb_task_id s, sb_native_turn_kind s, sb_native_turn_ref s).
Definition has_submission_native (s : submission_row) : bool := not_none (sb_native_turn_ref s).

Definition submission_insert_guard (d : db) (s : submission_row) : option string :=
  violation
    [(authority_exists d (sb_task_id s), "turn_submission_v3_authority_guard_insert");
     (submission_check s, "turn_submissions_check");
     (task_exists d (sb_task_id s), "turn_submissions_task_fk");
     (index_free always sb_submission_id s (submissions d), "turn_submissions_pk");
     (index_free always sb_reserved_turn_id s (submissions d),
      "turn_submissions_reserved_turn_id_unique");
     (index_free always (λ x, (sb_actor_user_id x, sb_task_id x, sb_idempotency_key x)) s
        (submissions d), "turn_submissions_actor_task_key_unique");
     (index_free has_submission_native submission_native_key s (submissions d),
      "idx_turn_submissions_native_identity")].

Definition intent_insert_guard (d : db) (i : intent_row) : option string :=
  violation
    [(intent_check i, "conversation_submission_intents_check");
     (row_exists (λ s, eqs (sb_submission_id s) (in_submission_id i)
        && eqs (sb_task_id s) (in_task_id i)) (submissions d),
      "conversation_submission_intents_submission_fk");
     (fk_opt (in_retry_of_turn_id i) (λ r,
        row_exists (turn_in r (in_task_id i)) (task_turns d)),
      "conversation_submission_intents_retry_fk");
     (index_free always in_submission_id i (intents d), "conversation_submission_intents_pk")].

Definition next_turn_insert_guard (d : db) (n : next_turn_row) : option string :=
  violation
    [(row_exists (λ t, turn_in (nt_blocking_turn_id n) (nt_task_id n) t && turn_active t)
        (task_turns d)
      && row_exists (λ s, eqs (sb_submission_id s) (nt_submission_id n)
           && eqs (sb_task_id s) (nt_task_id n) && bool_decide (sb_status s = Sub_QUEUED))
           (submissions d)
      && row_exists (λ i, eqs (in_submission_id i) (nt_submission_id n)
           && eqs (in_task_id i) (nt_task_id n) && bool_decide (in_kind i = Intent_NEXT_TURN))
           (intents d), "next_turn_active_blocker_guard_insert");
     (next_turn_check n, "next_turn_submissions_check");
     (index_free always nt_submission_id n (next_turns d), "next_turn_submissions_pk");
     (index_free next_pending nt_task_id n (next_turns d), "idx_next_turn_one_pending_task")].

Definition execution_native_key (e : execution_row) :=
  (ex_native_runtime_kind e, ex_native_runtime_ref e).
Definition has_execution_native (e : execution_row) : bool := not_none (ex_native_runtime_ref e).

Definition execution_insert_guard (d : db) (e : execution_row) : option string :=
  violation
    [(fk_opt (ex_binding_id e) (λ b,
        row_exists (λ t, turn_in (ex_turn_id e) (ex_task_id e) t
          && eq_sql (tn_binding_id t) (Some b)) (task_turns d)),
      "runtime_execution_binding_guard_insert");
     (authority_exists d (ex_task_id e), "runtime_execution_v3_authority_guard_insert");
     (not_none (ex_native_turn_kind e) && not_none (ex_native_turn_ref e)
      && row_exists (λ t, turn_in (ex_turn_id e) (ex_task_id e) t && turn_active t
           && eq_sql (tn_native_turn_kind t) (ex_native_turn_kind e)
           && eq_sql (tn_native_turn_ref t) (ex_native_turn_ref e)) (task_turns d),
      "runtime_execution_active_turn_guard_insert");
     (execution_check e, "runtime_executions_check");
     (index_free always ex_runtime_execution_id e (executions d), "runtime_executions_pk");
     (index_free always (λ x, (ex_turn_id x, ex_execution_seq x)) e (executions d),
      "runtime_executions_turn_seq_unique");
     (index_free always (λ x, (ex_turn_id x, ex_runtime_generation x)) e (executions d),
      "runtime_executions_turn_generation_unique");
     (fk_opt (ex_binding_id e) (λ b,
        row_exists (λ x, eqs (bd_binding_id x) b && eqs (bd_task_id x) (ex_task_id e))
          (bindings d)), "runtime_executions_binding_fk");
     (index_free exec_active ex_turn_id e (executions d),
      "idx_runtime_executions_one_active_turn");
     (index_free has_execution_native execution_native_key e (executions d),
      "idx_runtime_executions_native_identity")].

Definition control_insert_guard (d : db) (c : control_row) : option string :=
  violation
    [(row_exists (λ t, turn_in (ct_expected_turn_id c) (ct_task_id c) t && turn_active t)
        (task_turns d), "turn_control_active_turn_guard_insert");
     (row_exists (λ e, eqs (ex_runtime_execution_id e) (ct_runtime_execution_id c)
        && eqs (ex_turn_id e) (ct_expected_turn_id c)
        && Z.eqb (ex_runtime_generation e) (ct_runtime_generation c) && exec_active e)
        (executions d), "turn_control_runtime_guard_insert");
     (authority_exists d (ct_task_id c), "turn_control_v3_authority_guard_insert");
     (control_check c, "turn_control_requests_check");
     (index_free always ct_control_request_id c (controls d), "turn_control_requests_pk");
     (index_free always (λ x, (ct_actor_user_id x, ct_kind x, ct_idempotency_key x)) c
        (controls d), "turn_control_requests_actor_kind_key_unique")].

Definition idempotency_insert_guard (d : db) (r : idempotency_row) : option string :=
  violation
    [(index_free always (λ x, (id_actor_user_id x, id_scope x, id_key x)) r (idempotency d),
      "domain_idempotency_requests_pk")].

Definition audit_insert_guard (d : db) (r : audit_row) : option string :=
  violation [(index_free always au_event_id r (audit_events d), "domain_audit_events_pk")].

(** ** Update guards

    The [UPDATE OF status] triggers, for the statements that set the status
    column; [*_touch_guard] for the statements that do not. *)

Definition state_update_guard (old new : state_row) : option string :=
  violation
    [(work_trigger (st_work_status old) (st_work_status new),
      "conversation_task_state_transition_guard");
     (Z.eqb (st_revision new) (st_revision old + 1), "conversation_task_state_revision_guard");
     (state_check new, "conversation_task_states_check")].

Definition turn_update_guard (old new : turn_row) : option string :=
  violation
    [(turn_trigger (tn_status old) (tn_status new), "task_turn_transition_guard");
     (turn_check new, "task_turns_check")].

Definition binding_update_guard (old new : binding_row) : option string :=
  violation
    [(bool_decide (bd_status old = Binding_ACTIVE) && bool_decide (bd_status new = Binding_SUPERSEDED),
      "engine_binding_transition_guard");
     (binding_check new, "engine_conversation_bindings_check")].

Definition submission_update_guard (d : db) (old new : submission_row) : option string :=
  violation
    [(submission_trigger (sb_status old) (sb_status new), "turn_submission_transition_guard");
     (implb (bool_decide (sb_status new = Sub_DELIVERED))
        (row_exists (λ t, turn_in (sb_reserved_turn_id new) (sb_task_id new) t
           && eq_sql (tn_native_turn_kind t) (sb_native_turn_kind new)
           && eq_sql (tn_native_turn_ref t) (sb_native_turn_ref new)) (task_turns d)),
      "turn_submission_delivered_turn_guard");
     (negb (submission_terminal (sb_status old)), "turn_submission_terminal_immutable");
     (implb (bool_decide (sb_status old = Sub_QUEUED) && bool_decide (sb_status new = Sub_CLAIMED))
        (negb (row_exists (λ n, eqs (nt_submission_id n) (sb_submission_id old)
           && eqs (nt_task_id n) (sb_task_id old) && bool_decide (nt_status n = Next_WAITING))
           (next_turns d))), "next_turn_waiting_submission_claim_guard");
     (submission_check new, "turn_submissions_check");
     (index_free has_submission_native submission_native_key new
        (select (λ x, negb (eqs (sb_submission_id x) (sb_submission_id new))) (submissions d)),
      "idx_turn_submissions_native_identity")].

Definition submission_touch_guard (old new : submission_row) : option string :=
  violation
    [(negb (submission_terminal (sb_status old)), "turn_submission_terminal_immutable");
     (submission_check new, "turn_submissions_check")].

Definition next_turn_update_guard (d : db) (old new : next_turn_row) : option string :=
  violation
    [(next_turn_trigger (nt_status old) (nt_status new), "next_turn_transition_guard");
     (implb (bool_decide (nt_status new = Next_READY))
        (negb (row_exists (λ t, turn_in (nt_blocking_turn_id old) (nt_task_id old) t
           && turn_active t) (task_turns d))), "next_turn_ready_blocker_terminal_guard");
     (next_turn_check new, "next_turn_submissions_check")].

Definition execution_update_guard (old new : execution_row) : option string :=
  violation
    [(execution_trigger (ex_status old) (ex_status new), "runtime_execution_transition_guard");
     (exec_active old, "runtime_execution_terminal_immutable");
     (execution_check new, "runtime_executions_check")].

Definition control_update_guard (old new : control_row) : option string :=
  violation
    [(control_trigger (ct_kind old) (ct_status old) (ct_status new),
      "turn_control_transition_guard");
     (control_check new, "turn_control_requests_check")].

Definition control_touch_guard (old new : control_row) : option string :=
  violation [(control_check new, "turn_control_requests_check")].

(** ** The schema and the contracts agree

    The status triggers of the database accept exactly the transitions of the
    Python tables. *)

Lemma work_trigger_spec s s' : work_trigger s s' = true ↔ s' ∈ TASK_TRANSITIONS s.
Proof. destruct s, s'; simpl; set_unfold; naive_solver. Qed.
Lemma turn_trigger_spec s s' : turn_trigger s s' = true ↔ turn_step s s'.
Proof. unfold turn_step. destruct s, s'; simpl; set_unfold; naive_solver. Qed.
Lemma submission_trigger_spec s s' : submission_trigger s s' = true ↔ submission_step s s'.
Proof. unfold submission_step. destruct s, s'; simpl; set_unfold; naive_solver. Qed.
Lemma execution_trigger_spec s s' : execution_trigger s s' = true ↔ execution_step s s'.
Proof. unfold execution_step. destruct s, s'; simpl; set_unfold; naive_solver. Qed.
Lemma control_trigger_spec k s s' : control_trigger k s s' = true ↔ control_step k s s'.
Proof. unfold control_step. destruct k, s, s'; simpl; set_unfold; naive_solver. Qed.
