(* ===== verification/Repository.v ===== *)
(** * SQL repositories
    ([src/ainrf/domain/conversation_repository.py],
    [src/ainrf/domain/conversation_execution_repository.py] and the
    conversation-facing part of [src/ainrf/domain/repositories.py])

    One definition per repository method.  Reads are functions of the database;
    writes run in the transaction monad and either apply the statement or raise
    [IntegrityError] with the violated constraint. *)

From stdpp Require Import base tactics list strings.
From Stdlib Require Import ZArith Lia.
From S2P Require Import Prelude PyText Tables Contracts RegistryRows Schema.

Local Open Scope string_scope.

Abbreviation txn := (tx db error).

(** [INSERT]: the guard of the table, then the row is appended. *)
Definition insert_row {R} (guard : db → R → option string)
    (put : (list R → list R) → db → db) (row : R) : txn unit := λ d,
  match guard d row with
  | None => Ok (tt, put (λ t, (t ++ [row])%list) d)
  | Some c => Err (IntegrityError c)
  end.

(** [UPDATE]: returns [rowcount]. *)
Definition update_rows {R} (table : db → list R) (put : (list R → list R) → db → db)
    (p : R → bool) (guard : db → R → R → option string) (f : R → R) : txn Z := λ d,
  match update_where p (guard d) f (table d) with
  | Ok (n, u) => Ok (n, put (λ _, u) d)
  | Err c => Err (IntegrityError c)
  end.

Definition coalesce {A} (a b : option A) : option A :=
  match a with Some _ => a | None => b end.

(** [CASE WHEN ? = '{}' THEN old ELSE ? END] *)
Definition keep_if_empty (new old : dict) : dict := match new with [] => old | _ => new end.

(** ** Task authority and work state *)

Definition insert_task_authority (task_id : string) (created_at : time) : txn unit :=
  insert_row authority_insert_guard with_authorities task_id.

Definition task_authority (task_id : string) (d : db) : option string :=
  if authority_exists d task_id then Some "conversation_v3" else None.

Definition insert_task_state (task_id : string) (created_at : time) : txn unit :=
  insert_row state_insert_guard with_states
    (mkState task_id Work_OPEN 1 created_at created_at).

Definition task_state (task_id : string) (d : db) : option state_row :=
  select_one (λ s, eqs (st_task_id s) task_id) (task_states d).

Definition task_by_id (task_id : string) (d : db) : option task_row :=
  select_one (λ t, eqs (tk_task_id t) task_id) (tasks d).

Definition task_harness_engine (task_id : string) (d : db) : option string :=
  tk_harness_engine <$> task_by_id task_id d.

Definition set_work_status (status : TaskWorkStatus) (updated_at : time) (s : state_row) : state_row :=
  mkState (st_task_id s) status (st_revision s + 1) (st_created_at s) updated_at.

Definition repo_update_work_status (task_id : string) (expected_status status : TaskWorkStatus)
    (updated_at : time) : txn Z :=
  update_rows task_states with_states
    (λ s, eqs (st_task_id s) task_id && bool_decide (st_work_status s = expected_status))
    (λ _, state_update_guard) (set_work_status status updated_at).

(** ** Turns *)

Definition next_turn_seq (task_id : string) (d : db) : Z :=
  next_seq (λ t, eqs (tn_task_id t) task_id) tn_turn_seq (task_turns d).

Definition insert_turn (turn_id task_id : string) (turn_seq : Z) (status : TurnStatus)
    (retry_of_turn_id context_snapshot_ref binding_id : option string)
    (engine_family engine_driver : string) (contract_version : Z)
    (provider_profile_ref provider_profile_version provider_profile_fingerprint
     model native_turn_kind native_turn_ref : option string)
    (accepted_at : time) (started_at : option time) (updated_at : time) : txn unit :=
  insert_row turn_insert_guard with_turns
    (mkTurn turn_id task_id turn_seq status retry_of_turn_id context_snapshot_ref binding_id
       engine_family engine_driver contract_version provider_profile_ref
       provider_profile_version provider_profile_fingerprint model native_turn_kind
       native_turn_ref accepted_at started_at None updated_at None).

Definition set_turn_finished (status : TurnStatus) (finished_at updated_at : time)
    (failure_code : option string) (t : turn_row) : turn_row :=
  mkTurn (tn_turn_id t) (tn_task_id t) (tn_turn_seq t) status (tn_retry_of_turn_id t)
    (tn_context_snapshot_ref t) (tn_binding_id t) (tn_engine_family t) (tn_engine_driver t)
    (tn_contract_version t) (tn_provider_profile_ref t) (tn_provider_profile_version t)
    (tn_provider_profile_fingerprint t) (tn_model t) (tn_native_turn_kind t)
    (tn_native_turn_ref t) (tn_accepted_at t) (tn_started_at t) (Some finished_at) updated_at
    failure_code.

Definition repo_finish_turn (turn_id : string) (status : TurnStatus)
    (finished_at updated_at : time) (failure_code : option string) : txn Z :=
  update_rows task_turns with_turns (λ t, eqs (tn_turn_id t) turn_id && turn_active t)
    (λ _, turn_update_guard) (set_turn_finished status finished_at updated_at failure_code).

Definition active_turn (task_id : string) (d : db) : option turn_row :=
  select_one (λ t, eqs (tn_task_id t) task_id && turn_active t) (task_turns d).

Definition turn_by_id (turn_id : string) (d : db) : option turn_row :=
  select_one (λ t, eqs (tn_turn_id t) turn_id) (task_turns d).

Definition repo_list_turns (task_id : string) (d : db) : list turn_row :=
  order_by (λ a b, Z.leb (tn_turn_seq a) (tn_turn_seq b))
    (select (λ t, eqs (tn_task_id t) task_id) (task_turns d)).

(** ** Items *)

Definition next_task_item_seq (task_id : string) (d : db) : Z :=
  next_seq (λ i, eqs (it_task_id i) task_id) it_task_item_seq (turn_items d).

Definition next_turn_item_seq (turn_id : string) (d : db) : Z :=
  next_seq (λ i, eqs (it_turn_id i) turn_id) it_turn_item_seq (turn_items d).

Definition insert_turn_item (item : item_row) : txn unit :=
  insert_row item_insert_guard with_items item.

Definition list_turn_items (turn_id : string) (d : db) : list item_row :=
  order_by (λ a b, Z.leb (it_turn_item_seq a) (it_turn_item_seq b))
    (select (λ i, eqs (it_turn_id i) turn_id) (turn_items d)).

Definition list_task_items (task_id : string) (d : db) : list item_row :=
  order_by (λ a b, Z.leb (it_task_item_seq a) (it_task_item_seq b))
    (select (λ i, eqs (it_task_id i) task_id) (turn_items d)).

(** ** Engine conversation bindings *)

Definition next_binding_seq (task_id : string) (d : db) : Z :=
  next_seq (λ b, eqs (bd_task_id b) task_id) bd_binding_seq (bindings d).

Definition insert_binding (binding_id task_id : string) (binding_seq : Z)
    (engine_family engine_driver native_conversation_kind native_conversation_ref : string)
    (contract_version : Z)
    (provider_profile_ref provider_profile_version provider_profile_fingerprint : option string)
    (provenance validation_evidence : dict) (created_at : time) (validated_at : option time) :
    txn unit :=
  insert_row binding_insert_guard with_bindings
    (mkBinding binding_id task_id binding_seq Binding_ACTIVE engine_family engine_driver
       native_conversation_kind native_conversation_ref contract_version provider_profile_ref
       provider_profile_version provider_profile_fingerprint provenance validation_evidence
       created_at validated_at None).

Definition active_binding (task_id : string) (d : db) : option binding_row :=
  select_one (λ b, eqs (bd_task_id b) task_id && binding_active b) (bindings d).

Definition binding_by_id (binding_id : string) (d : db) : option binding_row :=
  select_one (λ b, eqs (bd_binding_id b) binding_id) (bindings d).

Definition binding_by_native_identity
    (engine_family engine_driver native_conversation_kind native_conversation_ref : string)
    (d : db) : option binding_row :=
  select_one (λ b, eqs (bd_engine_family b) engine_family && eqs (bd_engine_driver b) engine_driver
    && eqs (bd_native_conversation_kind b) native_conversation_kind
    && eqs (bd_native_conversation_ref b) native_conversation_ref) (bindings d).

Definition set_superseded (superseded_at : time) (validation_evidence : dict) (b : binding_row) :
    binding_row :=
  mkBinding (bd_binding_id b) (bd_task_id b) (bd_binding_seq b) Binding_SUPERSEDED
    (bd_engine_family b) (bd_engine_driver b) (bd_native_conversation_kind b)
    (bd_native_conversation_ref b) (bd_contract_version b) (bd_provider_profile_ref b)
    (bd_provider_profile_version b) (bd_provider_profile_fingerprint b) (bd_provenance b)
    validation_evidence (bd_created_at b) (bd_validated_at b) (Some superseded_at).

Definition supersede_binding (binding_id : string) (superseded_at : time)
    (validation_evidence : dict) : txn Z :=
  update_rows bindings with_bindings
    (λ b, eqs (bd_binding_id b) binding_id && binding_active b)
    (λ _, binding_update_guard) (set_superseded superseded_at validation_evidence).

(** ** Submissions *)

Definition insert_submission (submission_id task_id reserved_turn_id actor_user_id
    idempotency_key request_hash : string) (input : dict)
    (context_snapshot_ref : option string) (created_at updated_at : time)
    (context_snapshot_source : ContextSnapshotSource) : txn unit :=
  insert_row submission_insert_guard with_submissions
    (mkSubmission submission_id task_id reserved_turn_id actor_user_id idempotency_key
       request_hash Sub_QUEUED input context_snapshot_ref context_snapshot_source None None []
       None created_at None None None None updated_at).

Definition insert_submission_intent (submission_id task_id : string)
    (kind : TurnSubmissionIntent) (retry_of_turn_id : option string) (created_at : time) :
    txn unit :=
  insert_row intent_insert_guard with_intents
    (mkIntent submission_id task_id kind retry_of_turn_id created_at).

(** The conversation of a new Task and its first submission, as [create_task] and [confirm_fork]
    open it. *)
Definition open_conversation (task_id prompt actor key digest snapshot_id submission_id
    reserved_turn_id : string) (created_at : time) : txn unit :=
  insert_task_authority task_id created_at ≫= λ _,
  insert_task_state task_id created_at ≫= λ _,
  insert_submission submission_id task_id reserved_turn_id actor key digest
    [("text", JStr prompt)] (Some snapshot_id) created_at created_at Source_TASK_PIN ≫= λ _,
  insert_submission_intent submission_id task_id Intent_CREATE None created_at.

Definition submission_intent (submission_id : string) (d : db) : option intent_row :=
  select_one (λ i, eqs (in_submission_id i) submission_id) (intents d).

Definition submission_by_id (submission_id : string) (d : db) : option submission_row :=
  select_one (λ s, eqs (sb_submission_id s) submission_id) (submissions d).

Definition next_turn_of (submission_id : string) (d : db) : option next_turn_row :=
  select_one (λ n, eqs (nt_submission_id n) submission_id) (next_turns d).

(** The joins of [next_ready_submission]: the Task is open and the submission
    is not a next-Turn reservation, or is one that was promoted. *)
Definition task_is_open (task_id : string) (d : db) : bool :=
  row_exists (λ s, eqs (st_task_id s) task_id && bool_decide (st_work_status s = Work_OPEN))
    (task_states d).

Definition next_turn_released (d : db) (submission_id : string) : bool :=
  match next_turn_of submission_id d with
  | None => true
  | Some n => bool_decide (nt_status n = Next_READY)
  end.

Definition by_created (a b : submission_row) : bool :=
  Z.ltb (sb_created_at a) (sb_created_at b)
  || (Z.eqb (sb_created_at a) (sb_created_at b)
      && String.leb (sb_submission_id a) (sb_submission_id b)).

Definition next_ready_submission (d : db) : option submission_row :=
  head (order_by by_created
    (select (λ s, bool_decide (sb_status s = Sub_QUEUED) && task_is_open (sb_task_id s) d
               && next_turn_released d (sb_submission_id s)) (submissions d))).

Definition sub_pending (s : submission_row) : bool :=
  match sb_status s with Sub_QUEUED | Sub_CLAIMED | Sub_DELIVERING => true | _ => false end.

(** Each row with the status of its next-Turn reservation ([LEFT JOIN]). *)
Definition pending_submission_rows (task_id : string) (d : db) :
    list (submission_row * option NextTurnStatus) :=
  map (λ s, (s, nt_status <$>
        select_one (λ n, eqs (nt_submission_id n) (sb_submission_id s)
                      && eqs (nt_task_id n) (sb_task_id s)) (next_turns d)))
    (order_by by_created
       (select (λ s, eqs (sb_task_id s) task_id && sub_pending s) (submissions d))).

Definition submission_by_task_key (task_id actor_user_id idempotency_key : string) (d : db) :
    option submission_row :=
  select_one (λ s, eqs (sb_task_id s) task_id && eqs (sb_actor_user_id s) actor_user_id
                && eqs (sb_idempotency_key s) idempotency_key) (submissions d).

Definition owned_in (owner_user_id environment_id : string) (d : db) (task_id : string) : bool :=
  row_exists (λ t, eqs (tk_task_id t) task_id && eqs (tk_owner_user_id t) owner_user_id
                && eqs (tk_environment_id t) environment_id) (tasks d).

Definition sub_external (s : submission_row) : bool :=
  match sb_status s with Sub_DELIVERING | Sub_DELIVERY_UNKNOWN => true | _ => false end.

(** [SELECT ... UNION SELECT ...]: a set of Task identifiers. *)
Definition externally_active_task_ids (owner_user_id environment_id : string) (d : db) :
    list string :=
  remove_dups
    ((sb_task_id <$> select (λ s, sub_external s
         && owned_in owner_user_id environment_id d (sb_task_id s)) (submissions d))
     ++ (ex_task_id <$> select (λ e, exec_active e
         && owned_in owner_user_id environment_id d (ex_task_id e)) (executions d)))%list.

Definition set_submission_status (status : TurnSubmissionStatus) (updated_at : time)
    (claimed_at delivering_at accepted_at finished_at : option time)
    (native_turn_kind native_turn_ref : option string) (delivery_evidence : dict)
    (failure_code : option string) (s : submission_row) : submission_row :=
  mkSubmission (sb_submission_id s) (sb_task_id s) (sb_reserved_turn_id s) (sb_actor_user_id s)
    (sb_idempotency_key s) (sb_request_hash s) status (sb_input s) (sb_context_snapshot_ref s)
    (sb_context_snapshot_source s)
    (coalesce native_turn_kind (sb_native_turn_kind s))
    (coalesce native_turn_ref (sb_native_turn_ref s))
    (keep_if_empty delivery_evidence (sb_delivery_evidence s))
    (if bool_decide (status = Sub_DELIVERED) then None
     else coalesce failure_code (sb_failure_code s))
    (sb_created_at s)
    (coalesce claimed_at (sb_claimed_at s))
    (coalesce delivering_at (sb_delivering_at s))
    (coalesce accepted_at (sb_accepted_at s))
    (if bool_decide (status = Sub_DELIVERED)
     then coalesce finished_at (coalesce accepted_at (sb_finished_at s))
     else coalesce finished_at (sb_finished_at s))
    updated_at.

Definition transition_submission (submission_id : string)
    (expected_status status : TurnSubmissionStatus) (updated_at : time)
    (claimed_at delivering_at accepted_at finished_at : option time)
    (native_turn_kind native_turn_ref : option string) (delivery_evidence : dict)
    (failure_code : option string) : txn Z :=
  update_rows submissions with_submissions
    (λ s, eqs (sb_submission_id s) submission_id && bool_decide (sb_status s = expected_status))
    submission_update_guard
    (set_submission_status status updated_at claimed_at delivering_at accepted_at finished_at
       native_turn_kind native_turn_ref delivery_evidence failure_code).

(** The statement with which a new pin of a Task reaches its queued submissions
    ([UPDATE turn_submissions SET context_snapshot_ref = ?, updated_at = ?] in [context.py] and
    in [move_task]). *)
Definition set_submission_context (snapshot_id : string) (updated_at : time)
    (s : submission_row) : submission_row :=
  mkSubmission (sb_submission_id s) (sb_task_id s) (sb_reserved_turn_id s) (sb_actor_user_id s)
    (sb_idempotency_key s) (sb_request_hash s) (sb_status s) (sb_input s) (Some snapshot_id)
    (sb_context_snapshot_source s) (sb_native_turn_kind s) (sb_native_turn_ref s)
    (sb_delivery_evidence s) (sb_failure_code s) (sb_created_at s) (sb_claimed_at s)
    (sb_delivering_at s) (sb_accepted_at s) (sb_finished_at s) updated_at.

Definition repin_submissions (task_id snapshot_id : string) (updated_at : time) : txn Z :=
  update_rows submissions with_submissions
    (λ s, eqs (sb_task_id s) task_id && bool_decide (sb_status s = Sub_QUEUED)
       && bool_decide (sb_context_snapshot_source s = Source_TASK_PIN))
    (λ _, submission_touch_guard) (set_submission_context snapshot_id updated_at).

(** ** Runtime executions *)

Definition next_execution_seq (turn_id : string) (d : db) : Z :=
  next_seq (λ e, eqs (ex_turn_id e) turn_id) ex_execution_seq (executions d).

Definition next_runtime_generation (turn_id : string) (d : db) : Z :=
  next_seq (λ e, eqs (ex_turn_id e) turn_id) ex_runtime_generation (executions d).

Definition insert_runtime_execution (runtime_execution_id task_id turn_id : string)
    (execution_seq runtime_generation : Z)
    (binding_id native_runtime_kind native_runtime_ref native_turn_kind native_turn_ref :
       option string)
    (evidence : dict) (created_at : time) (started_at : option time) (updated_at : time) :
    txn unit :=
  insert_row execution_insert_guard with_executions
    (mkExecution runtime_execution_id task_id turn_id execution_seq runtime_generation binding_id
       Exec_STARTING native_runtime_kind native_runtime_ref native_turn_kind native_turn_ref
       evidence None created_at started_at None updated_at).

Definition runtime_execution_by_id (runtime_execution_id : string) (d : db) : option execution_row :=
  select_one (λ e, eqs (ex_runtime_execution_id e) runtime_execution_id) (executions d).

Definition runtime_execution_by_native_identity (native_runtime_kind native_runtime_ref : string)
    (d : db) : option execution_row :=
  select_one (λ e, eq_sql (ex_native_runtime_kind e) (Some native_runtime_kind)
                && eq_sql (ex_native_runtime_ref e) (Some native_runtime_ref)) (executions d).

Definition by_generation (a b : execution_row) : bool :=
  Z.ltb (ex_runtime_generation a) (ex_runtime_generation b)
  || (Z.eqb (ex_runtime_generation a) (ex_runtime_generation b)
      && Z.leb (ex_execution_seq a) (ex_execution_seq b)).

Definition runtime_executions_for_turn (turn_id : string) (d : db) : list execution_row :=
  order_by by_generation (select (λ e, eqs (ex_turn_id e) turn_id) (executions d)).

Definition active_runtime_execution (turn_id : string) (d : db) : option execution_row :=
  select_one (λ e, eqs (ex_turn_id e) turn_id && exec_active e) (executions d).

Definition set_execution_status (status : RuntimeExecutionStatus) (evidence : dict)
    (updated_at : time) (finished_at : option time) (failure_code : option string)
    (e : execution_row) : execution_row :=
  mkExecution (ex_runtime_execution_id e) (ex_task_id e) (ex_turn_id e) (ex_execution_seq e)
    (ex_runtime_generation e) (ex_binding_id e) status (ex_native_runtime_kind e)
    (ex_native_runtime_ref e) (ex_native_turn_kind e) (ex_native_turn_ref e) evidence
    failure_code (ex_created_at e) (ex_started_at e) finished_at updated_at.

Definition transition_runtime_execution (runtime_execution_id : string)
    (expected_status status : RuntimeExecutionStatus) (evidence : dict) (updated_at : time)
    (finished_at : option time) (failure_code : option string) : txn Z :=
  update_rows executions with_executions
    (λ e, eqs (ex_runtime_execution_id e) runtime_execution_id
       && bool_decide (ex_status e = expected_status))
    (λ _, execution_update_guard)
    (set_execution_status status evidence updated_at finished_at failure_code).

(** ** Next-Turn reservations *)

Definition insert_next_turn (submission_id task_id blocking_turn_id : string) (created_at : time) :
    txn unit :=
  insert_row next_turn_insert_guard with_next_turns
    (mkNextTurn submission_id task_id blocking_turn_id Next_WAITING created_at None created_at).

Definition by_next_created (a b : next_turn_row) : bool :=
  Z.ltb (nt_created_at a) (nt_created_at b)
  || (Z.eqb (nt_created_at a) (nt_created_at b)
      && String.leb (nt_submission_id a) (nt_submission_id b)).

Definition pending_next_turn (task_id : string) (d : db) : option next_turn_row :=
  head (order_by by_next_created
    (select (λ n, eqs (nt_task_id n) task_id && next_pending n
               && row_exists (λ s, eqs (sb_submission_id s) (nt_submission_id n)
                                && bool_decide (sb_status s = Sub_QUEUED)) (submissions d))
       (next_turns d))).

Definition waiting_next_turn (task_id : string) (d : db) : option next_turn_row :=
  head (order_by by_next_created
    (select (λ n, eqs (nt_task_id n) task_id && bool_decide (nt_status n = Next_WAITING)
               && row_exists (λ s, eqs (sb_submission_id s) (nt_submission_id n)) (submissions d))
       (next_turns d))).

Definition set_next_turn (status : NextTurnStatus) (promoted_at : option time)
    (updated_at : time) (n : next_turn_row) : next_turn_row :=
  mkNextTurn (nt_submission_id n) (nt_task_id n) (nt_blocking_turn_id n) status
    (nt_created_at n) promoted_at updated_at.

Definition promote_next_turn (submission_id : string) (promoted_at updated_at : time) : txn Z :=
  update_rows next_turns with_next_turns
    (λ n, eqs (nt_submission_id n) submission_id && bool_decide (nt_status n = Next_WAITING))
    next_turn_update_guard (set_next_turn Next_READY (Some promoted_at) updated_at).

Definition cancel_next_turn (submission_id : string) (updated_at : time) : txn Z :=
  update_rows next_turns with_next_turns
    (λ n, eqs (nt_submission_id n) submission_id && next_pending n)
    next_turn_update_guard (set_next_turn Next_CANCELLED None updated_at).

(** ** Control requests *)

Definition insert_control_request (control_request_id task_id expected_turn_id
    runtime_execution_id : string) (runtime_generation : Z) (kind : ControlKind)
    (actor_user_id idempotency_key request_hash : string) (payload : dict)
    (created_at updated_at : time) : txn unit :=
  insert_row control_insert_guard with_controls
    (mkControl control_request_id task_id expected_turn_id runtime_execution_id
       runtime_generation kind Ctl_REQUESTED actor_user_id idempotency_key request_hash payload
       [] None created_at None None updated_at).

Definition control_request_by_id (control_request_id : string) (d : db) : option control_row :=
  select_one (λ c, eqs (ct_control_request_id c) control_request_id) (controls d).

Definition by_ctl_created (a b : control_row) : bool :=
  Z.ltb (ct_created_at a) (ct_created_at b)
  || (Z.eqb (ct_created_at a) (ct_created_at b)
      && String.leb (ct_control_request_id a) (ct_control_request_id b)).

Definition by_ctl_updated (a b : control_row) : bool :=
  Z.ltb (ct_updated_at a) (ct_updated_at b)
  || (Z.eqb (ct_updated_at a) (ct_updated_at b)
      && String.leb (ct_control_request_id a) (ct_control_request_id b)).

Definition ctl_pending (c : control_row) : bool :=
  match ct_status c with Ctl_REQUESTED | Ctl_DELIVERING => true | _ => false end.

Definition requested_controls (runtime_execution_id : string) (d : db) : list control_row :=
  order_by by_ctl_created
    (select (λ c, eqs (ct_runtime_execution_id c) runtime_execution_id
               && bool_decide (ct_status c = Ctl_REQUESTED)) (controls d)).

Definition pending_controls (runtime_execution_id : string) (d : db) : list control_row :=
  order_by by_ctl_created
    (select (λ c, eqs (ct_runtime_execution_id c) runtime_execution_id && ctl_pending c)
       (controls d)).

Definition stale_control_requests (stale_before : time) (d : db) : list control_row :=
  order_by by_ctl_updated
    (select (λ c, Z.ltb (ct_updated_at c) stale_before && ctl_pending c) (controls d)).

Definition set_control_claim (evidence : dict) (updated_at : time) (c : control_row) : control_row :=
  mkControl (ct_control_request_id c) (ct_task_id c) (ct_expected_turn_id c)
    (ct_runtime_execution_id c) (ct_runtime_generation c) (ct_kind c) (ct_status c)
    (ct_actor_user_id c) (ct_idempotency_key c) (ct_request_hash c) (ct_payload c) evidence
    (ct_failure_code c) (ct_created_at c) (ct_accepted_at c) (ct_completed_at c) updated_at.

Definition empty_dict (e : dict) : bool := match e with [] => true | _ => false end.

Definition claim_interrupt_request (control_request_id : string) (evidence : dict)
    (updated_at : time) : txn Z :=
  update_rows controls with_controls
    (λ c, eqs (ct_control_request_id c) control_request_id
       && bool_decide (ct_kind c = Control_INTERRUPT)
       && bool_decide (ct_status c = Ctl_REQUESTED)
       && empty_dict (ct_evidence c)
       && is_none (ct_accepted_at c) && is_none (ct_completed_at c) && is_none (ct_failure_code c))
    (λ _, control_touch_guard) (set_control_claim evidence updated_at).

Definition set_control_status (status : ControlRequestStatus) (evidence : dict)
    (updated_at : time) (accepted_at completed_at : option time) (failure_code : option string)
    (c : control_row) : control_row :=
  mkControl (ct_control_request_id c) (ct_task_id c) (ct_expected_turn_id c)
    (ct_runtime_execution_id c) (ct_runtime_generation c) (ct_kind c) status
    (ct_actor_user_id c) (ct_idempotency_key c) (ct_request_hash c) (ct_payload c)
    (keep_if_empty evidence (ct_evidence c)) (coalesce failure_code (ct_failure_code c))
    (ct_created_at c) (coalesce accepted_at (ct_accepted_at c))
    (coalesce completed_at (ct_completed_at c)) updated_at.

Definition transition_control_request (control_request_id : string)
    (expected_status status : ControlRequestStatus) (evidence : dict) (updated_at : time)
    (accepted_at completed_at : option time) (failure_code : option string) : txn Z :=
  update_rows controls with_controls
    (λ c, eqs (ct_control_request_id c) control_request_id
       && bool_decide (ct_status c = expected_status))
    (λ _, control_update_guard)
    (set_control_status status evidence updated_at accepted_at completed_at failure_code).

Definition set_control_completed (completed_at updated_at : time) (c : control_row) : control_row :=
  mkControl (ct_control_request_id c) (ct_task_id c) (ct_expected_turn_id c)
    (ct_runtime_execution_id c) (ct_runtime_generation c) (ct_kind c) Ctl_COMPLETED
    (ct_actor_user_id c) (ct_idempotency_key c) (ct_request_hash c) (ct_payload c)
    (ct_evidence c) (ct_failure_code c) (ct_created_at c) (ct_accepted_at c)
    (Some completed_at) updated_at.

Definition complete_accepted_interrupts (runtime_execution_id : string)
    (completed_at updated_at : time) : txn Z :=
  update_rows controls with_controls
    (λ c, eqs (ct_runtime_execution_id c) runtime_execution_id
       && bool_decide (ct_kind c = Control_INTERRUPT) && bool_decide (ct_status c = Ctl_ACCEPTED))
    (λ _, control_update_guard) (set_control_completed completed_at updated_at).

(** ** Idempotency, audit and ownership ([_SqliteDomainRepository]) *)

Definition idempotency_record (actor_user_id scope key : string) (d : db) : option idempotency_row :=
  select_one (λ r, eqs (id_actor_user_id r) actor_user_id && eqs (id_scope r) scope
                && eqs (id_key r) key) (idempotency d).

Definition insert_idempotency_record (actor_user_id scope key request_hash : string)
    (response : json) (created_at : time) : txn unit :=
  insert_row idempotency_insert_guard with_idempotency
    (mkIdempotency actor_user_id scope key request_hash response created_at).

Definition insert_audit_event (event_id actor_id event_type subject_type subject_id : string)
    (metadata : dict) (created_at : time) : txn unit :=
  insert_row audit_insert_guard with_audit
    (mkAudit event_id actor_id event_type subject_type subject_id metadata created_at).

Definition project_owner (project_id : string) (d : db) : option string :=
  pj_owner_user_id <$> select_one (λ p, eqs (pj_project_id p) project_id) (projects d).

Definition project_member (project_id user_id : string) (d : db) : option member_row :=
  select_one (λ m, eqs (mb_project_id m) project_id && eqs (mb_user_id m) user_id)
    (project_members d).

Definition workspace_by_id (workspace_id : string) (d : db) : option workspace_row :=
  select_one (λ w, eqs (ws_workspace_id w) workspace_id) (workspaces d).
