(* ===== verification/Service.v ===== *)
(** * The conversation application service
    ([src/ainrf/domain/conversation_service.py], the authorization part of
    [src/ainrf/domain/service.py] and [src/ainrf/domain/environment_access.py])

    One definition per method.  A method body is the transaction it runs
    between [BEGIN IMMEDIATE] and [COMMIT]; [transaction] (Prelude) gives the
    committed or rolled-back database.  Clock readings ([_now()]) and random
    identifiers ([uuid4().hex]) are arguments, in the order the code draws
    them. *)

From stdpp Require Import base tactics list strings.
From Stdlib Require Import ZArith Lia.
From S2P Require Import Prelude PyText PyTime Tables Contracts RegistryRows Schema Repository.

Local Open Scope string_scope.
Local Open Scope tx_scope.

(** The two digests of the Python standard library that the code calls. *)
Class Host := {
  sha256_hex : string → string;
  uuid5_hex : string → string;
}.

(** The authenticated caller: [user.get("id")] and [user.get("role")]. *)
Record user := mkUser { u_id : option string; u_role : option string }.

Definition is_admin (u : user) : bool := eqo (u_role u) (Some "admin").
Definition owner_is (u : user) (owner : string) : bool := eqo (u_id u) (Some owner).

(** ** Authorization ([DomainAuthorizationService]) *)

Definition role_value (r : MemberRole) : string :=
  match r with Role_VIEWER => "viewer" | Role_EDITOR => "editor" end.

Definition project_role (project_id : string) (u : user) (d : db) : option string :=
  match project_owner project_id d with
  | None => None
  | Some owner =>
      if is_admin u then Some "admin"
      else if owner_is u owner then Some "owner"
      else
        match u_id u with
        | None => None
        | Some uid =>
            if negb (truthy uid) then None
            else (λ m, role_value (mb_role m)) <$> project_member project_id uid d
        end
  end.

Definition require_task_viewer (task_id : string) (u : user) : txn unit :=
  row ← gets (task_by_id task_id);
  row ← require_some row (DomainNotFoundError task_id);
  if is_admin u || owner_is u (tk_owner_user_id row) then mret tt
  else
    role ← gets (project_role (tk_project_id row) u);
    require (not_none role) (DomainNotFoundError task_id).

Definition require_task_owner (task_id : string) (u : user) : txn unit :=
  row ← gets (task_by_id task_id);
  row ← require_some row (DomainNotFoundError task_id);
  if is_admin u || owner_is u (tk_owner_user_id row) then mret tt
  else
    role ← gets (project_role (tk_project_id row) u);
    require (not_none role) (DomainNotFoundError task_id);;
    raise (DomainPermissionError "task_owner_required").

(** ** Environment execution grants (the auth database)

    [None] is an auth database that is missing, unreadable or lacks the table;
    a row is [(environment_id, user_id, is_active, max_concurrent_tasks)]. *)

Record access_row := mkAccess {
  ac_environment_id : string; ac_user_id : string; ac_active : bool;
  ac_max_concurrent_tasks : json }.

Definition active_environment_execution_grant (auth : option (list access_row))
    (environment_id user_id : string) : option (option Z) :=
  match auth with
  | None => None
  | Some rows =>
      match select_one (λ a, eqs (ac_environment_id a) environment_id
                          && eqs (ac_user_id a) user_id && ac_active a) rows with
      | None => None
      | Some a =>
          match ac_max_concurrent_tasks a with
          | JNull => Some None
          | JInt n => if Z.ltb n 0 then None else Some (Some n)
          | _ => None
          end
      end
  end.

Definition has_active_environment_execution_grant (auth : option (list access_row))
    (environment_id user_id : string) : bool :=
  not_none (active_environment_execution_grant auth environment_id user_id).

Section service.
Context `{Host}.

Definition request_hash (value : json) : string := sha256_hex (canonical_json value).

(** ** Guards shared by the methods *)

Definition actor_of (u : user) : txn string :=
  match u_id u with
  | Some a => if truthy a then mret a else raise (DomainPermissionError "")
  | None => raise (DomainPermissionError "")
  end.

Definition begin_write : txn unit :=
  active ← gets maintenance_is_active;
  match active with
  | Some false => mret tt
  | _ => raise MaintenanceModeError
  end.

Definition require_current_conversation (task_id : string) : txn state_row :=
  authority ← gets (task_authority task_id);
  _ ← require_some authority (ConversationContractError MIGRATION_REQUIRED);
  state ← gets (task_state task_id);
  require_some state (ConversationContractError MIGRATION_REQUIRED).

Definition require_open (state : state_row) : txn unit :=
  require (bool_decide (st_work_status state = Work_OPEN))
    (ConversationContractError TASK_NOT_OPEN).

(** [_replay]: the digest of the request and the stored response, if any. *)
Definition replay (actor : string) (scope : IdempotencyScope) (key : string) (request : json) :
    txn (string * option json) :=
  require (truthy key) (DomainConflictError "idempotency_key_required");;
  let digest := request_hash request in
  row ← gets (idempotency_record actor scope key);
  match row with
  | None => mret (digest, None)
  | Some row =>
      require (eqs (id_request_hash row) digest)
        (DomainConflictError "idempotency_key_conflict");;
      match id_response row with
      | JObj fields => mret (digest, Some (JObj fields))
      | _ => raise (DomainConflictError "idempotency_response_invalid")
      end
  end.

Definition store (actor : string) (scope : IdempotencyScope) (key digest : string)
    (response : json) (created_at : time) : txn unit :=
  insert_idempotency_record actor scope key digest response created_at.

Definition audit (event_id actor event_type subject_type subject_id : string)
    (created_at : time) : txn unit :=
  insert_audit_event event_id actor event_type subject_type subject_id [] created_at.

Definition require_task_environment_execution_grant (auth : option (list access_row))
    (task_id : string) (u : user) : txn unit :=
  row ← gets (λ d,
    task ← task_by_id task_id d;
    ws ← workspace_by_id (tk_workspace_id task) d;
    Some (tk_environment_id task, ws_environment_id ws));
  row ← require_some row (DomainNotFoundError task_id);
  require (eqs row.1 row.2) (DomainConflictError "task_environment_mismatch");;
  actor ← actor_of u;
  require (has_active_environment_execution_grant auth row.2 actor) (DomainPermissionError "").

Definition resolve_context_snapshot_ref (task_id : string) (requested : option string) :
    txn (option string) :=
  task ← gets (task_by_id task_id);
  task ← require_some task (DomainNotFoundError task_id);
  match coalesce requested (tk_project_context_snapshot_id task) with
  | None => mret None
  | Some ref =>
      require (negb (blank ref)) (DomainConflictError "context_snapshot_ref_invalid");;
      found ← gets (λ d,
        row_exists (λ s, eqs (cs_context_snapshot_id s) ref
          && row_exists (λ v, eq_sql (cs_context_version_id s) (Some (cv_context_version_id v))
               && eqs (cv_project_id v) (tk_project_id task)) (context_versions d))
          (context_snapshots d));
      require found (DomainConflictError "context_snapshot_ref_invalid");;
      mret (Some ref)
  end.

(** ** Task lifecycle *)

Definition initialize_task (task_id : string) (u : user) (created_at : time)
    (event_id : string) : txn json :=
  actor ← actor_of u;
  begin_write;;
  require_task_owner task_id u;;
  authority ← gets (task_authority task_id);
  require (is_none authority) (DomainConflictError "");;
  insert_task_authority task_id created_at;;
  insert_task_state task_id created_at;;
  audit event_id actor "conversation.task.initialized" "task" task_id created_at;;
  mret (JObj [("task_id", JStr task_id); ("work_status", JStr "open"); ("revision", JInt 1)]).

Definition work_status_value (s : TaskWorkStatus) : string :=
  match s with
  | Work_OPEN => "open"
  | Work_COMPLETED => "completed"
  | Work_CANCELLED => "cancelled"
  end.

(** [require_task_work_transition] raises inside the transaction. *)
Definition lift_contract {A} (r : result contract_error A) : txn A :=
  match r with
  | Ok a => mret a
  | Err (ContractError c) => raise (ConversationContractError c)
  | Err ContractValueError => raise ValueError
  end.

Definition update_work_status (task_id : string) (u : user) (status : TaskWorkStatus)
    (idempotency_key : string) (updated_at : time) (event_id : string) : txn json :=
  actor ← actor_of u;
  let request := JObj [("task_id", JStr task_id); ("status", JStr (work_status_value status))] in
  begin_write;;
  require_task_owner task_id u;;
  '(digest, replayed) ← replay actor UPDATE_WORK_STATUS idempotency_key request;
  match replayed with
  | Some response => mret response
  | None =>
      state ← require_current_conversation task_id;
      lift_contract (require_task_work_transition (st_work_status state) status);;
      n ← repo_update_work_status task_id (st_work_status state) status updated_at;
      require (Z.eqb n 1) (DomainConflictError "");;
      let response := JObj [("task_id", JStr task_id);
        ("work_status", JStr (work_status_value status));
        ("revision", JInt (st_revision state + 1))] in
      store actor UPDATE_WORK_STATUS idempotency_key digest response updated_at;;
      audit event_id actor "conversation.task.work_status_updated" "task" task_id updated_at;;
      mret response
  end.

Definition set_task_updated_at (updated_at : time) (t : task_row) : task_row :=
  mkTask (tk_task_id t) (tk_project_id t) (tk_workspace_id t) (tk_environment_id t)
    (tk_researcher_type t) (tk_harness_engine t) (tk_user_skills t) (tk_user_mcp_servers t)
    (tk_title t) (tk_prompt t) (tk_created_at t) updated_at (tk_owner_user_id t)
    (tk_archived_at t) (tk_archive_reason t) (tk_project_context_version_id t)
    (tk_project_context_snapshot_id t).

Definition touch_task (task_id : string) (updated_at : time) : txn Z :=
  update_rows tasks with_tasks (λ t, eqs (tk_task_id t) task_id) (λ _ _ _, None)
    (set_task_updated_at updated_at).

Definition transition_work_status (task_id : string) (u : user) (target : TaskWorkStatus)
    (idempotency_key : string) (scope : IdempotencyScope) (event_type : string)
    (updated_at : time) (event_id : string) : txn json :=
  actor ← actor_of u;
  let request := JObj [("task_id", JStr task_id)] in
  begin_write;;
  require_task_owner task_id u;;
  '(digest, replayed) ← replay actor scope idempotency_key request;
  match replayed with
  | Some response => mret response
  | None =>
      state ← require_current_conversation task_id;
      lift_contract (require_task_work_transition (st_work_status state) target);;
      n ← repo_update_work_status task_id (st_work_status state) target updated_at;
      require (Z.eqb n 1) (DomainConflictError "");;
      m ← touch_task task_id updated_at;
      require (Z.eqb m 1) (DomainNotFoundError task_id);;
      let response := JObj [("task_id", JStr task_id);
        ("work_status", JStr (work_status_value target));
        ("revision", JInt (st_revision state + 1))] in
      store actor scope idempotency_key digest response updated_at;;
      audit event_id actor event_type "task" task_id updated_at;;
      mret response
  end.

Definition complete_task (task_id : string) (u : user) (idempotency_key : string) :=
  transition_work_status task_id u Work_COMPLETED idempotency_key COMPLETE_TASK
    "conversation.task.completed".

Definition reopen_task (task_id : string) (u : user) (idempotency_key : string) :=
  transition_work_status task_id u Work_OPEN idempotency_key REOPEN_TASK
    "conversation.task.reopened".

(** ** Cancellation *)

Definition cancellation_evidence (task_id reason : string) : dict :=
  [("source", JStr "conversation.cancel_task"); ("task_id", JStr task_id);
   ("reason", JStr reason); ("replay_forbidden", JBool true)].

Definition is_delivering (s : submission_row) : bool :=
  bool_decide (sb_status s = Sub_DELIVERING).

(** One iteration of the loop over [pending_submission_rows]. *)
Definition cancel_pending (task_id : string) (updated_at : time)
    (row : submission_row * option NextTurnStatus) : txn unit :=
  let submission := row.1 in
  let submission_id := sb_submission_id submission in
  (match row.2 with
   | Some Next_WAITING | Some Next_READY =>
       n ← cancel_next_turn submission_id updated_at;
       require (Z.eqb n 1) (DomainConflictError "")
   | _ => mret tt
   end);;
  n ← (if is_delivering submission
       then transition_submission submission_id (sb_status submission) Sub_DELIVERY_UNKNOWN
              updated_at None None None None None None
              (cancellation_evidence task_id "task_cancelled_during_delivery")
              (Some "task_cancelled_during_delivery")
       else transition_submission submission_id (sb_status submission) Sub_CANCELLED
              updated_at None None None (Some updated_at) None None
              (cancellation_evidence task_id "task_cancelled_before_delivery")
              (Some "task_cancelled_before_delivery"));
  require (Z.eqb n 1) (DomainConflictError "").

(** The loop itself: the rows it read. *)
Definition cancel_pending_submissions (task_id : string) (updated_at : time) :
    txn (list (submission_row * option NextTurnStatus)) :=
  rows ← gets (pending_submission_rows task_id);
  for_each rows (cancel_pending task_id updated_at);;
  mret rows.

Definition cancel_task (task_id : string) (u : user) (idempotency_key : string)
    (updated_at : time) (control_uuid : string) : txn json :=
  actor ← actor_of u;
  let request := JObj [("task_id", JStr task_id)] in
  begin_write;;
  require_task_owner task_id u;;
  '(digest, replayed) ← replay actor CANCEL_TASK idempotency_key request;
  match replayed with
  | Some response => mret response
  | None =>
      state ← require_current_conversation task_id;
      active ← gets (active_turn task_id);
      control_request_id ←
        (match active with
         | None => mret None
         | Some turn =>
             execution ← gets (active_runtime_execution (tn_turn_id turn));
             execution ← require_some execution (ConversationContractError RUNTIME_LOST);
             insert_control_request control_uuid task_id (tn_turn_id turn)
               (ex_runtime_execution_id execution) (ex_runtime_generation execution)
               Control_INTERRUPT actor idempotency_key digest [] updated_at updated_at;;
             mret (Some control_uuid)
         end);
      (if bool_decide (st_work_status state = Work_OPEN) then
         lift_contract (require_task_work_transition Work_OPEN Work_CANCELLED);;
         n ← repo_update_work_status task_id Work_OPEN Work_CANCELLED updated_at;
         require (Z.eqb n 1) (DomainConflictError "")
       else mret tt);;
      rows ← cancel_pending_submissions task_id updated_at;
      _ ← touch_task task_id updated_at;
      let ids p := JList (map (λ r, JStr (sb_submission_id r.1)) (List.filter p rows)) in
      let response := JObj [("task_id", JStr task_id); ("work_status", JStr "cancelled");
        ("control_request_id", json_of_option control_request_id);
        ("cancelled_submission_ids", ids (λ r, negb (is_delivering r.1)));
        ("delivery_unknown_submission_ids", ids (λ r, is_delivering r.1))] in
      store actor CANCEL_TASK idempotency_key digest response updated_at;;
      mret response
  end.

(** ** Turn admission *)

Definition intent_of (retry_of_turn_id : option string) (active : option turn_row) :
    TurnSubmissionIntent :=
  match retry_of_turn_id with
  | Some _ => Intent_RETRY
  | None => match active with Some _ => Intent_NEXT_TURN | None => Intent_CREATE end
  end.

Definition intent_value (i : TurnSubmissionIntent) : string :=
  match i with
  | Intent_CREATE => "create"
  | Intent_RETRY => "retry"
  | Intent_NEXT_TURN => "next_turn"
  end.

Definition admit_request (task_id : string) (input : dict)
    (context_snapshot_ref retry_of_turn_id : option string) (allow_next_turn : bool) : json :=
  JObj [("task_id", JStr task_id); ("input", JObj input);
        ("context_snapshot_ref", json_of_option context_snapshot_ref);
        ("retry_of_turn_id", json_of_option retry_of_turn_id);
        ("allow_next_turn", JBool allow_next_turn)].

Definition check_retry_source (task_id : string) (retry_of_turn_id : option string) : txn unit :=
  match retry_of_turn_id with
  | None => mret tt
  | Some turn_id =>
      source ← gets (turn_by_id turn_id);
      source ← require_some source (DomainNotFoundError turn_id);
      require (eqs (tn_task_id source) task_id) (DomainNotFoundError turn_id);;
      require (negb (turn_active source)) (ConversationContractError TURN_NOT_ACTIVE)
  end.

(** [_admit]: the response and the submission announced to the dispatcher. *)
Definition admit_turn (auth : option (list access_row)) (task_id : string) (u : user) (input : dict)
    (idempotency_key : string) (context_snapshot_ref : option string) (scope : IdempotencyScope)
    (retry_of_turn_id : option string) (allow_next_turn : bool)
    (created_at : time) (submission_id reserved_turn_id event_id : string) :
    txn (json * option string) :=
  actor ← actor_of u;
  let request := admit_request task_id input context_snapshot_ref retry_of_turn_id
                   allow_next_turn in
  begin_write;;
  require_task_owner task_id u;;
  '(digest, replayed) ← replay actor scope idempotency_key request;
  match replayed with
  | Some response => mret (response, None)
  | None =>
      require_task_environment_execution_grant auth task_id u;;
      state ← require_current_conversation task_id;
      require_open state;;
      conflicting ← gets (submission_by_task_key task_id actor idempotency_key);
      require (is_none conflicting) (DomainConflictError "");;
      active ← gets (active_turn task_id);
      pending ← gets (pending_next_turn task_id);
      require (is_none pending) (ConversationContractError ACTIVE_TURN_EXISTS);;
      check_retry_source task_id retry_of_turn_id;;
      require (is_none active || allow_next_turn) (ConversationContractError ACTIVE_TURN_EXISTS);;
      require (is_none active || is_none retry_of_turn_id)
        (ConversationContractError ACTIVE_TURN_EXISTS);;
      resolved ← resolve_context_snapshot_ref task_id context_snapshot_ref;
      let intent := intent_of retry_of_turn_id active in
      insert_submission submission_id task_id reserved_turn_id actor idempotency_key digest
        input resolved created_at created_at
        (if is_none context_snapshot_ref then Source_TASK_PIN else Source_SUBMISSION_OVERRIDE);;
      insert_submission_intent submission_id task_id intent retry_of_turn_id created_at;;
      notify ←
        (match active with
         | Some turn =>
             insert_next_turn submission_id task_id (tn_turn_id turn) created_at;; mret None
         | None => mret (Some submission_id)
         end);
      let response := JObj [("submission_id", JStr submission_id); ("task_id", JStr task_id);
        ("reserved_turn_id", JStr reserved_turn_id); ("status", JStr "queued");
        ("intent", JStr (intent_value intent))] in
      store actor scope idempotency_key digest response created_at;;
      audit event_id actor "conversation.turn.admitted" "turn_submission" submission_id
        created_at;;
      mret (response, notify)
  end.

Definition create_turn (auth : option (list access_row)) (task_id : string) (u : user)
    (input : dict) (idempotency_key : string) (context_snapshot_ref : option string)
    (allow_next_turn : bool) :=
  admit_turn auth task_id u input idempotency_key context_snapshot_ref CREATE_TURN None
    allow_next_turn.

Definition retry_turn (auth : option (list access_row)) (task_id turn_id : string) (u : user)
    (input : dict) (idempotency_key : string) (context_snapshot_ref : option string) :=
  admit_turn auth task_id u input idempotency_key context_snapshot_ref RETRY_TURN (Some turn_id)
    false.

(** ** Task metadata *)

Definition update_task_metadata (task_id : string) (u : user) (scope : IdempotencyScope)
    (idempotency_key : string) (request : json) (require_idle : bool)
    (update : time → txn Z) (updated_at : time) : txn json :=
  actor ← actor_of u;
  begin_write;;
  require_task_owner task_id u;;
  '(digest, replayed) ← replay actor scope idempotency_key request;
  match replayed with
  | Some response => mret response
  | None =>
      _ ← require_current_conversation task_id;
      active ← gets (active_turn task_id);
      require (negb require_idle || is_none active)
        (ConversationContractError ACTIVE_TURN_EXISTS);;
      _ ← update updated_at;
      let response := JObj [("task_id", JStr task_id); ("updated_at", JStr (isoformat updated_at))] in
      store actor scope idempotency_key digest response updated_at;;
      mret response
  end.

Definition set_task_archive (archived_at : option time) (reason : option string)
    (updated_at : time) (t : task_row) : task_row :=
  mkTask (tk_task_id t) (tk_project_id t) (tk_workspace_id t) (tk_environment_id t)
    (tk_researcher_type t) (tk_harness_engine t) (tk_user_skills t) (tk_user_mcp_servers t)
    (tk_title t) (tk_prompt t) (tk_created_at t) updated_at (tk_owner_user_id t)
    archived_at reason (tk_project_context_version_id t) (tk_project_context_snapshot_id t).

Definition archive_task (task_id : string) (u : user) (idempotency_key : string) :=
  update_task_metadata task_id u ARCHIVE_TASK idempotency_key
    (JObj [("task_id", JStr task_id); ("archived", JBool true)]) true
    (λ now, update_rows tasks with_tasks
       (λ t, eqs (tk_task_id t) task_id && is_none (tk_archived_at t)) (λ _ _ _, None)
       (set_task_archive (Some now) (Some "user_archived") now)).

Definition unarchive_task (task_id : string) (u : user) (idempotency_key : string) :=
  update_task_metadata task_id u UNARCHIVE_TASK idempotency_key
    (JObj [("task_id", JStr task_id); ("archived", JBool false)]) false
    (λ now, update_rows tasks with_tasks
       (λ t, eqs (tk_task_id t) task_id && not_none (tk_archived_at t)) (λ _ _ _, None)
       (set_task_archive None None now)).

Definition set_task_title (title : string) (updated_at : time) (t : task_row) : task_row :=
  mkTask (tk_task_id t) (tk_project_id t) (tk_workspace_id t) (tk_environment_id t)
    (tk_researcher_type t) (tk_harness_engine t) (tk_user_skills t) (tk_user_mcp_servers t)
    title (tk_prompt t) (tk_created_at t) updated_at (tk_owner_user_id t)
    (tk_archived_at t) (tk_archive_reason t) (tk_project_context_version_id t)
    (tk_project_context_snapshot_id t).

Definition update_task_title (task_id : string) (u : user) (title idempotency_key : string)
    (updated_at : time) : txn json :=
  let normalized := strip title in
  require (truthy normalized) ValueError;;
  update_task_metadata task_id u UPDATE_TASK_TITLE idempotency_key
    (JObj [("task_id", JStr task_id); ("title", JStr normalized)]) false
    (λ now, update_rows tasks with_tasks (λ t, eqs (tk_task_id t) task_id) (λ _ _ _, None)
       (set_task_title normalized now)) updated_at.

(** ** Controls *)

Definition kind_value (k : ControlKind) : string :=
  match k with Control_STEER => "steer" | Control_INTERRUPT => "interrupt" end.

Definition request_control (task_id turn_id : string) (u : user) (kind : ControlKind)
    (payload : dict) (idempotency_key : string) (created_at : time)
    (control_request_id : string) : txn json :=
  actor ← actor_of u;
  let scope := match kind with Control_STEER => STEER_TURN | _ => INTERRUPT_TURN end in
  let request := JObj [("task_id", JStr task_id); ("turn_id", JStr turn_id);
                       ("payload", JObj payload)] in
  begin_write;;
  require_task_owner task_id u;;
  '(digest, replayed) ← replay actor scope idempotency_key request;
  match replayed with
  | Some response => mret response
  | None =>
      _ ← require_current_conversation task_id;
      turn ← gets (turn_by_id turn_id);
      turn ← require_some turn (DomainNotFoundError turn_id);
      require (eqs (tn_task_id turn) task_id) (DomainNotFoundError turn_id);;
      require (turn_active turn) (ConversationContractError TURN_NOT_ACTIVE);;
      execution ← gets (active_runtime_execution turn_id);
      execution ← require_some execution (ConversationContractError RUNTIME_LOST);
      insert_control_request control_request_id task_id turn_id
        (ex_runtime_execution_id execution) (ex_runtime_generation execution) kind actor
        idempotency_key digest payload created_at created_at;;
      let response := JObj [("control_request_id", JStr control_request_id);
        ("task_id", JStr task_id); ("expected_turn_id", JStr turn_id);
        ("kind", JStr (kind_value kind)); ("status", JStr "requested")] in
      store actor scope idempotency_key digest response created_at;;
      mret response
  end.

Definition request_steer (task_id turn_id : string) (u : user) (payload : dict)
    (idempotency_key : string) :=
  request_control task_id turn_id u Control_STEER payload idempotency_key.

Definition request_interrupt (task_id turn_id : string) (u : user) (idempotency_key : string) :=
  request_control task_id turn_id u Control_INTERRUPT [] idempotency_key.
End service.
