(* ===== verification/Acceptance.v ===== *)
(** * Provider acceptance and turn completion
    ([ConversationApplicationService.accept_submission], [finish_turn] and the
    read methods of [src/ainrf/domain/conversation_service.py])

    The methods that the trusted worker calls back: materializing the canonical
    Turn of a delivered submission with its engine binding lineage, and finishing
    a Turn with the promotion of a deferred next Turn.  The optional
    [_post_accept_side_effect] and [_terminal_side_effect] callbacks run inside
    the same transaction and are arguments here as there. *)

From stdpp Require Import base tactics list strings.
From Stdlib Require Import ZArith Lia.
From S2P Require Import Prelude PyText Tables Contracts RegistryRows Schema Repository Service.

Local Open Scope string_scope.
Local Open Scope tx_scope.

(** ** Evidence sanitization *)

Definition FORBIDDEN_EVIDENCE_KEYS : list string :=
  ["api_key"; "apikey"; "authorization"; "auth_token"; "access_token"; "refresh_token";
   "credential"; "secret"; "cookie"; "provider_header"].

Definition forbidden_key (key : string) : bool :=
  existsb (λ fragment, contains fragment (normalize_key key)) FORBIDDEN_EVIDENCE_KEYS.

(** [_require_sanitized] returns normally. *)
Fixpoint sanitized (v : json) : bool :=
  match v with
  | JObj fields => forallb (λ kv, negb (forbidden_key kv.1) && sanitized kv.2) fields
  | JList l => forallb sanitized l
  | JStr s => negb (is_bearer s)
  | _ => true
  end.

Definition require_sanitized (v : json) : txn unit :=
  require (sanitized v) (ConversationContractError PROVIDER_CONTRACT_MISMATCH).

(** ** Engine lineage *)

Definition engine_family_of_harness (harness_engine : option string) : option string :=
  match harness_engine with
  | Some h =>
      if eqs h "claude-code" then Some "claude"
      else if eqs h "agent-sdk" then Some "claude"
      else if eqs h "codex-app-server" then Some "codex"
      else None
  | None => None
  end.


Definition mismatch : error := ConversationContractError PROVIDER_CONTRACT_MISMATCH.

(** What the provider callback reports about its engine conversation. *)
Record lineage := mkLineage {
  ln_engine_family : string;
  ln_engine_driver : string;
  ln_contract_version : Z;
  ln_provider_profile_ref : option string;
  ln_provider_profile_version : option string;
  ln_provider_profile_fingerprint : option string }.

Definition binding_matches_acceptance (b : binding_row) (task_id : string) (ln : lineage)
    (native_conversation_kind native_conversation_ref : string) : bool :=
  eqs (bd_task_id b) task_id
  && eqs (bd_engine_family b) (ln_engine_family ln)
  && eqs (bd_engine_driver b) (ln_engine_driver ln)
  && eqs (bd_native_conversation_kind b) native_conversation_kind
  && eqs (bd_native_conversation_ref b) native_conversation_ref
  && Z.eqb (bd_contract_version b) (ln_contract_version ln)
  && eqo (bd_provider_profile_ref b) (ln_provider_profile_ref ln)
  && eqo (bd_provider_profile_version b) (ln_provider_profile_version ln)
  && eqo (bd_provider_profile_fingerprint b) (ln_provider_profile_fingerprint ln).

Definition resolve_acceptance_binding (task_id : string) (requested_binding_id : option string)
    (ln : lineage) (native_conversation_kind native_conversation_ref : string)
    (delivery_evidence : dict) (accepted_at : time) (binding_uuid : string) : txn string :=
  existing ← gets (binding_by_native_identity (ln_engine_family ln) (ln_engine_driver ln)
                     native_conversation_kind native_conversation_ref);
  active ← gets (active_binding task_id);
  match existing with
  | Some existing =>
      let existing_id := bd_binding_id existing in
      require (binding_active existing
        && match active with Some a => eqs (bd_binding_id a) existing_id | None => false end
        && binding_matches_acceptance existing task_id ln native_conversation_kind
             native_conversation_ref
        && match requested_binding_id with Some b => eqs b existing_id | None => true end)
        mismatch;;
      mret existing_id
  | None =>
      require (is_none requested_binding_id) mismatch;;
      (match active with
       | None => mret tt
       | Some a =>
           n ← supersede_binding (bd_binding_id a) accepted_at
                 [("reason", JStr "native_conversation_replaced");
                  ("replacement", JObj [("kind", JStr native_conversation_kind);
                                        ("ref", JStr native_conversation_ref)])];
           require (Z.eqb n 1) (DomainConflictError "")
       end);;
      seq ← gets (next_binding_seq task_id);
      insert_binding binding_uuid task_id seq (ln_engine_family ln) (ln_engine_driver ln)
        native_conversation_kind native_conversation_ref (ln_contract_version ln)
        (ln_provider_profile_ref ln) (ln_provider_profile_version ln)
        (ln_provider_profile_fingerprint ln)
        [("source", JStr "provider_acceptance"); ("delivery_evidence", JObj delivery_evidence)]
        [("source", JStr "runtime_adapter"); ("native_identity_observed", JBool true)]
        accepted_at (Some accepted_at);;
      mret binding_uuid
  end.

(** The branch of [accept_submission] without a native conversation identity. *)
Definition check_active_binding (task_id : string) (binding_id : option string) (ln : lineage) :
    txn (option string) :=
  active ← gets (active_binding task_id);
  (match active with
   | Some a =>
       require (eqo binding_id (Some (bd_binding_id a))
         && eqs (ln_engine_family ln) (bd_engine_family a)
         && eqs (ln_engine_driver ln) (bd_engine_driver a)
         && Z.eqb (ln_contract_version ln) (bd_contract_version a)) mismatch
   | None => require (is_none binding_id) mismatch
   end);;
  mret binding_id.

(** ** Acceptance *)

Definition CANCEL_FENCE : string := "task_cancelled_during_delivery".

Definition json_is (s : string) (o : option json) : bool :=
  match o with Some (JStr t) => eqs t s | _ => false end.

(** The submission was fenced by a cancellation while it was delivering. *)
Definition cancellation_fenced (s : submission_row) : bool :=
  eqo (sb_failure_code s) (Some CANCEL_FENCE)
  || existsb (λ key, json_is CANCEL_FENCE (dict_get key (sb_delivery_evidence s)))
       ["reason"; "failure_code"; "code"].

Definition accepted_response (submission_id turn_id : string) : json :=
  JObj [("submission_id", JStr submission_id); ("turn_id", JStr turn_id);
        ("status", JStr "delivered")].

(** [if _post_accept_side_effect is not None: ...] *)
Definition run_opt {X} (o : option (txn X)) : txn (option X) :=
  match o with
  | Some m => x ← m; mret (Some x)
  | None => mret None
  end.

(** The replay of a callback whose submission is already delivered. *)
Definition check_delivered_replay (submission : submission_row) (ln : lineage)
    (native_turn_kind native_turn_ref : string)
    (binding_id native_conversation_kind native_conversation_ref : option string) :
    txn (option string) :=
  turn ← gets (turn_by_id (sb_reserved_turn_id submission));
  turn ← require_some turn mismatch;
  let persisted_binding_id := tn_binding_id turn in
  require (eqs (str_of (tn_native_turn_kind turn)) native_turn_kind
    && eqs (str_of (tn_native_turn_ref turn)) native_turn_ref
    && eqs (tn_engine_family turn) (ln_engine_family ln)
    && eqs (tn_engine_driver turn) (ln_engine_driver ln)
    && Z.eqb (tn_contract_version turn) (ln_contract_version ln)
    && match binding_id with Some b => eqo (Some b) persisted_binding_id | None => true end)
    mismatch;;
  (match persisted_binding_id, native_conversation_kind, native_conversation_ref with
   | Some b, Some kind, Some ref =>
       binding ← gets (binding_by_id b);
       binding ← require_some binding mismatch;
       require (binding_matches_acceptance binding (sb_task_id submission) ln kind ref) mismatch
   | _, _, _ => mret tt
   end);;
  mret persisted_binding_id.

Section accept.
Context {X : Type}.
Variable side_effect : option (string → time → option string → txn X).

Definition run_side_effect (turn_id : string) (accepted_at : time) (binding_id : option string) :
    txn (option X) :=
  run_opt ((λ f, f turn_id accepted_at binding_id) <$> side_effect).

(** The part of [accept_submission] that materializes the Turn. *)
Definition materialize_turn (submission : submission_row) (intent : intent_row) (ln : lineage)
    (native_turn_kind native_turn_ref : string)
    (binding_id native_conversation_kind native_conversation_ref model : option string)
    (delivery_evidence : dict) (accepted_at : time) (binding_uuid item_uuid : string) :
    txn (json * option X) :=
  let submission_id := sb_submission_id submission in
  let task_id := sb_task_id submission in
  let turn_id := sb_reserved_turn_id submission in
  active ← gets (active_turn task_id);
  require (is_none active) (ConversationContractError ACTIVE_TURN_EXISTS);;
  resolved ←
    (match native_conversation_kind, native_conversation_ref with
     | Some kind, Some ref =>
         b ← resolve_acceptance_binding task_id binding_id ln kind ref delivery_evidence
               accepted_at binding_uuid;
         mret (Some b)
     | _, _ => check_active_binding task_id binding_id ln
     end);
  turn_seq ← gets (next_turn_seq task_id);
  insert_turn turn_id task_id turn_seq Turn_IN_PROGRESS (in_retry_of_turn_id intent)
    (sb_context_snapshot_ref submission) resolved (ln_engine_family ln) (ln_engine_driver ln)
    (ln_contract_version ln) (ln_provider_profile_ref ln) (ln_provider_profile_version ln)
    (ln_provider_profile_fingerprint ln) model (Some native_turn_kind) (Some native_turn_ref)
    accepted_at (Some accepted_at) accepted_at;;
  task_item_seq ← gets (next_task_item_seq task_id);
  insert_turn_item (mkItem item_uuid task_id turn_id task_item_seq 1 "conversation.item" 1
    Item_USER_MESSAGE Actor_USER (sb_input submission) delivery_evidence false
    (Some ("submission:" ++ submission_id)) (Some submission_id) None None (Some accepted_at)
    accepted_at accepted_at);;
  n ← transition_submission submission_id (sb_status submission) Sub_DELIVERED accepted_at
        None None (Some accepted_at) (Some accepted_at) (Some native_turn_kind)
        (Some native_turn_ref) delivery_evidence None;
  require (Z.eqb n 1) (DomainConflictError "");;
  x ← run_side_effect turn_id accepted_at resolved;
  mret (accepted_response submission_id turn_id, x).

Definition conversation_identity_ok (kind ref : option string) : bool :=
  match kind, ref with
  | None, None => true
  | Some k, Some r => negb (blank k) && negb (blank r)
  | _, _ => false
  end.

Definition accept_submission (submission_id native_turn_kind native_turn_ref : string)
    (ln : lineage) (delivery_evidence : dict)
    (binding_id native_conversation_kind native_conversation_ref model : option string)
    (accepted_at : time) (binding_uuid item_uuid : string) : txn (json * option X) :=
  require_sanitized (JObj delivery_evidence);;
  require (conversation_identity_ok native_conversation_kind native_conversation_ref) mismatch;;
  begin_write;;
  submission ← gets (submission_by_id submission_id);
  intent ← gets (submission_intent submission_id);
  submission ← require_some submission (DomainNotFoundError submission_id);
  intent ← require_some intent (DomainNotFoundError submission_id);
  let task_id := sb_task_id submission in
  let status := sb_status submission in
  state ← require_current_conversation task_id;
  (if bool_decide (status = Sub_DELIVERED) then mret tt else require_open state);;
  require (negb (bool_decide (status = Sub_DELIVERY_UNKNOWN) && cancellation_fenced submission))
    (ConversationContractError DELIVERY_UNKNOWN);;
  let delivery_evidence :=
    if bool_decide (status = Sub_DELIVERY_UNKNOWN) then sb_delivery_evidence submission
    else delivery_evidence in
  harness_engine ← gets (task_harness_engine task_id);
  persisted_family ← require_some (engine_family_of_harness harness_engine) mismatch;
  require (eqs (ln_engine_family ln) persisted_family
           && eqo (Some (ln_engine_driver ln)) harness_engine) mismatch;;
  if bool_decide (status = Sub_DELIVERED) then
    persisted_binding_id ← check_delivered_replay submission ln native_turn_kind
      native_turn_ref binding_id native_conversation_kind native_conversation_ref;
    (match side_effect with Some _ => require_open state | None => mret tt end);;
    x ← run_side_effect (sb_reserved_turn_id submission) accepted_at persisted_binding_id;
    mret (accepted_response submission_id (sb_reserved_turn_id submission), x)
  else
    require (bool_decide (status = Sub_DELIVERING) || bool_decide (status = Sub_DELIVERY_UNKNOWN))
      (ConversationContractError INVALID_STATE_TRANSITION);;
    materialize_turn submission intent ln native_turn_kind native_turn_ref binding_id
      native_conversation_kind native_conversation_ref model delivery_evidence accepted_at
      binding_uuid item_uuid.
End accept.

(** ** Completion *)

Definition turn_status_value (s : TurnStatus) : string :=
  match s with
  | Turn_IN_PROGRESS => "in_progress"
  | Turn_COMPLETED => "completed"
  | Turn_INTERRUPTED => "interrupted"
  | Turn_FAILED => "failed"
  end.

(** The argument checks of [finish_turn]. *)
Definition terminal_request_ok (status : TurnStatus) (failure_code : option string) : bool :=
  match status with
  | Turn_IN_PROGRESS => false
  | Turn_FAILED => match failure_code with Some c => negb (blank c) | None => false end
  | _ => is_none failure_code
  end.

(** Promotion (or, on a closed Task, cancellation) of the next Turn that waits
    for [turn_id]: the submission to announce. *)
Definition release_next_turn (task_id turn_id : string) (finished_at : time) :
    txn (option string) :=
  waiting ← gets (waiting_next_turn task_id);
  match waiting with
  | None => mret None
  | Some w =>
      if negb (eqs (nt_blocking_turn_id w) turn_id) then mret None
      else
        let promoted := nt_submission_id w in
        state ← gets (task_state task_id);
        state ← require_some state (ConversationContractError MIGRATION_REQUIRED);
        if bool_decide (st_work_status state = Work_OPEN) then
          n ← promote_next_turn promoted finished_at finished_at;
          require (Z.eqb n 1) (DomainConflictError "");;
          mret (Some promoted)
        else
          n ← cancel_next_turn promoted finished_at;
          require (Z.eqb n 1) (DomainConflictError "");;
          m ← transition_submission promoted Sub_QUEUED Sub_CANCELLED finished_at
                None None None (Some finished_at) None None []
                (Some "task_closed_before_promotion");
          require (Z.eqb m 1) (DomainConflictError "");;
          mret None
  end.

Definition finish_response (task_id turn_id : string) (status : TurnStatus)
    (promoted : option string) : json :=
  JObj [("task_id", JStr task_id); ("turn_id", JStr turn_id);
        ("status", JStr (turn_status_value status));
        ("promoted_submission_id", json_of_option promoted)].

(** The response and the submission announced to the dispatcher. *)
Definition finish_turn (task_id turn_id : string) (status : TurnStatus)
    (failure_code : option string) (side_effect : option (time → txn unit))
    (finished_at : time) : txn (json * option string) :=
  require (terminal_request_ok status failure_code)
    (ConversationContractError INVALID_STATE_TRANSITION);;
  begin_write;;
  _ ← require_current_conversation task_id;
  turn ← gets (turn_by_id turn_id);
  turn ← require_some turn (DomainNotFoundError turn_id);
  require (eqs (tn_task_id turn) task_id) (DomainNotFoundError turn_id);;
  if negb (turn_active turn) then
    require (bool_decide (tn_status turn = status) && eqo (tn_failure_code turn) failure_code)
      (ConversationContractError TURN_NOT_ACTIVE);;
    _ ← run_opt ((λ f, f finished_at) <$> side_effect);
    mret (finish_response task_id turn_id status None, None)
  else
    n ← repo_finish_turn turn_id status finished_at finished_at failure_code;
    require (Z.eqb n 1) (ConversationContractError TURN_NOT_ACTIVE);;
    promoted ← release_next_turn task_id turn_id finished_at;
    _ ← run_opt ((λ f, f finished_at) <$> side_effect);
    mret (finish_response task_id turn_id status promoted, promoted).

(** ** Reads *)

Record task_view := mkTaskView {
  tv_task : task_row;
  tv_work_status : TaskWorkStatus;
  tv_conversation_revision : Z;
  tv_runtime_active : bool;
  tv_active_turn_id : option string;
  tv_turn_count : nat;
  tv_item_count : nat;
  tv_binding : option binding_row }.

Definition read_task (task_id : string) (u : user) : txn task_view :=
  require_task_viewer task_id u;;
  state ← require_current_conversation task_id;
  task ← gets (task_by_id task_id);
  task ← require_some task (DomainNotFoundError task_id);
  active ← gets (active_turn task_id);
  binding ← gets (active_binding task_id);
  turn_count ← gets (λ d, length (select (λ t, eqs (tn_task_id t) task_id) (task_turns d)));
  item_count ← gets (λ d, length (select (λ i, eqs (it_task_id i) task_id) (turn_items d)));
  mret (mkTaskView task (st_work_status state) (st_revision state) (not_none active)
          (tn_turn_id <$> active) turn_count item_count binding).

Definition list_turns (task_id : string) (u : user) : txn (list turn_row) :=
  require_task_viewer task_id u;;
  _ ← require_current_conversation task_id;
  gets (repo_list_turns task_id).
