(* ===== verification/Execution.v ===== *)
(** * The worker's execution interface
    ([src/ainrf/domain/conversation_execution.py])

    Claiming submissions, arming and fencing deliveries, materializing runtime
    executions on provider acceptance, appending canonical items, consuming
    control requests and finishing executions.  Every method that writes is one
    transaction; [accept_and_open_execution] resolves its runtime identity on a
    separate connection first, so the database it read then is an argument. *)

From stdpp Require Import base tactics list strings.
From Stdlib Require Import ZArith Lia.
From S2P Require Import Prelude PyText PyTime Tables Contracts RegistryRows Schema Repository Service Acceptance.

Local Open Scope string_scope.
Local Open Scope tx_scope.

Record RuntimeExecutionIdentity := mkIdentity {
  ri_submission_id : string;
  ri_runtime_execution_id : string }.

Record SubmissionClaim := mkSubmissionClaim {
  sc_submission_id : string;
  sc_task_id : string;
  sc_reserved_turn_id : string;
  sc_input : dict;
  sc_context_snapshot_ref : option string }.

Record RuntimeExecutionClaim := mkExecutionClaim {
  xc_runtime_execution_id : string;
  xc_task_id : string;
  xc_turn_id : string;
  xc_runtime_generation : Z }.

(** [column < ?] on a nullable column. *)
Definition lt_sql (o : option time) (t : time) : bool :=
  match o with Some x => Z.ltb x t | None => false end.

(** [ORDER BY column, submission_id]; the column is never [NULL] here. *)
Definition by_column (col : submission_row → option time) (a b : submission_row) : bool :=
  let x := default 0%Z (col a) in
  let y := default 0%Z (col b) in
  Z.ltb x y || (Z.eqb x y && String.leb (sb_submission_id a) (sb_submission_id b)).

(** ** Claiming *)

Definition stale_delivering (stale_before : time) (d : db) : list submission_row :=
  order_by (by_column sb_delivering_at)
    (select (λ s, bool_decide (sb_status s = Sub_DELIVERING)
               && lt_sql (sb_delivering_at s) stale_before) (submissions d)).

Definition recovery_evidence : dict :=
  [("source", JStr "worker_recovery"); ("replay_forbidden", JBool true)].

Definition fence_stale (claimed_at : time) (s : submission_row) : txn unit :=
  _ ← transition_submission (sb_submission_id s) Sub_DELIVERING Sub_DELIVERY_UNKNOWN claimed_at
        None None None None None None recovery_evidence (Some "worker_lost_during_delivery");
  mret tt.

Definition stale_claim (stale_before : time) (d : db) : option submission_row :=
  head (order_by (by_column sb_claimed_at)
    (select (λ s, bool_decide (sb_status s = Sub_CLAIMED) && lt_sql (sb_claimed_at s) stale_before
               && task_is_open (sb_task_id s) d
               && next_turn_released d (sb_submission_id s)) (submissions d))).

Definition set_reclaimed (claimed_at : time) (s : submission_row) : submission_row :=
  mkSubmission (sb_submission_id s) (sb_task_id s) (sb_reserved_turn_id s) (sb_actor_user_id s)
    (sb_idempotency_key s) (sb_request_hash s) (sb_status s) (sb_input s)
    (sb_context_snapshot_ref s) (sb_context_snapshot_source s) (sb_native_turn_kind s)
    (sb_native_turn_ref s) (sb_delivery_evidence s) (sb_failure_code s) (sb_created_at s)
    (Some claimed_at) (sb_delivering_at s) (sb_accepted_at s) (sb_finished_at s) claimed_at.

Definition reclaim (s : submission_row) (claimed_at : time) : txn Z := λ d,
  update_rows submissions with_submissions
    (λ x, eqs (sb_submission_id x) (sb_submission_id s)
       && bool_decide (sb_status x = Sub_CLAIMED)
       && bool_decide (sb_claimed_at x = sb_claimed_at s)
       && task_is_open (sb_task_id x) d)
    (λ _, submission_touch_guard) (set_reclaimed claimed_at) d.

Definition claim_of (s : submission_row) : SubmissionClaim :=
  mkSubmissionClaim (sb_submission_id s) (sb_task_id s) (sb_reserved_turn_id s) (sb_input s)
    (sb_context_snapshot_ref s).

(** [stale_after] is [stale_after_seconds] in microseconds; [claimed_at] and
    [now] are the two clock readings. *)
Definition claim_next_submission (stale_after : Z) (claimed_at now : time) :
    txn (option SubmissionClaim) :=
  require (Z.ltb 0 stale_after) ValueError;;
  let stale_before := (now - stale_after)%Z in
  begin_write;;
  stale ← gets (stale_delivering stale_before);
  for_each stale (fence_stale claimed_at);;
  ready ← gets next_ready_submission;
  match ready with
  | Some row =>
      n ← transition_submission (sb_submission_id row) Sub_QUEUED Sub_CLAIMED claimed_at
            (Some claimed_at) None None None None None [] None;
      require (Z.eqb n 1) (DomainConflictError "");;
      mret (Some (claim_of row))
  | None =>
      old ← gets (stale_claim stale_before);
      match old with
      | Some row =>
          n ← reclaim row claimed_at;
          require (Z.eqb n 1) (DomainConflictError "");;
          mret (Some (claim_of row))
      | None => mret None
      end
  end.

(** ** Runtime identity *)

Section execution.
Context `{Host}.

Definition identity_for_submission (submission_id : string) : txn RuntimeExecutionIdentity :=
  require (negb (blank submission_id)) ValueError;;
  mret (mkIdentity submission_id
          (uuid5_hex ("openscience-runtime-execution:" ++ submission_id))).

Definition execution_belongs (task_id turn_id : string) (e : execution_row) : bool :=
  let raw := ex_runtime_execution_id e in
  eqs (ex_task_id e) task_id && eqs (ex_turn_id e) turn_id
  && truthy (strip raw) && eqs (strip raw) raw.

Definition validated_runtime_identity_inputs (claim : SubmissionClaim) :
    txn (TurnSubmissionStatus * RuntimeExecutionIdentity * list execution_row) :=
  submission ← gets (submission_by_id (sc_submission_id claim));
  submission ← require_some submission (DomainConflictError "");
  let task_id := sb_task_id submission in
  let turn_id := sb_reserved_turn_id submission in
  require (eqs task_id (sc_task_id claim) && eqs turn_id (sc_reserved_turn_id claim))
    (DomainConflictError "");;
  let status := sb_status submission in
  require (negb (bool_decide (status = Sub_CANCELLED)
                 || bool_decide (status = Sub_FAILED_DELIVERY)))
    (ConversationContractError INVALID_STATE_TRANSITION);;
  deterministic ← identity_for_submission (sc_submission_id claim);
  rows ← gets (runtime_executions_for_turn turn_id);
  persisted ← gets (runtime_execution_by_id (ri_runtime_execution_id deterministic));
  let rows :=
    match persisted with
    | Some p =>
        if forallb (λ e, negb (eqs (ex_runtime_execution_id e)
                                 (ri_runtime_execution_id deterministic))) rows
        then (rows ++ [p])%list else rows
    | None => rows
    end in
  for_each rows (λ e, require (execution_belongs task_id turn_id e) (DomainConflictError ""));;
  mret (status, deterministic, rows).

Definition partition_runtime_rows (rows : list execution_row) :
    list execution_row * list execution_row :=
  (List.filter exec_active rows, List.filter (λ e, negb (exec_active e)) rows).

Definition invalid_transition : error := ConversationContractError INVALID_STATE_TRANSITION.

Definition runtime_identity_for_launch_context (claim : SubmissionClaim) :
    txn RuntimeExecutionIdentity :=
  '(status, deterministic, rows) ← validated_runtime_identity_inputs claim;
  let (active, terminal) := partition_runtime_rows rows in
  require (Nat.eqb (length terminal) 0) invalid_transition;;
  require (Nat.leb (length active) 1) (DomainConflictError "");;
  match status, active with
  | (Sub_CLAIMED | Sub_DELIVERING), [] => mret deterministic
  | (Sub_CLAIMED | Sub_DELIVERING), _ :: _ => raise invalid_transition
  | (Sub_DELIVERED | Sub_DELIVERY_UNKNOWN), e :: _ =>
      mret (mkIdentity (sc_submission_id claim) (ex_runtime_execution_id e))
  | _, _ => raise invalid_transition
  end.

Definition runtime_identity_for_acceptance (claim : SubmissionClaim) :
    txn RuntimeExecutionIdentity :=
  '(status, deterministic, rows) ← validated_runtime_identity_inputs claim;
  require (match status with
           | Sub_DELIVERING | Sub_DELIVERED | Sub_DELIVERY_UNKNOWN => true
           | _ => false
           end) invalid_transition;;
  let (active, terminal) := partition_runtime_rows rows in
  require (Nat.eqb (length terminal) 0) invalid_transition;;
  require (Nat.leb (length active) 1) (DomainConflictError "");;
  match active with
  | [] => mret deterministic
  | e :: _ =>
      require (match status with Sub_DELIVERED | Sub_DELIVERY_UNKNOWN => true | _ => false end)
        invalid_transition;;
      mret (mkIdentity (sc_submission_id claim) (ex_runtime_execution_id e))
  end.

(** ** Delivery *)

Definition mark_delivery_unknown (submission_id failure_code : string) (evidence : dict)
    (updated_at : time) : txn unit :=
  begin_write;;
  row ← gets (submission_by_id submission_id);
  row ← require_some row (DomainNotFoundError submission_id);
  if bool_decide (sb_status row = Sub_DELIVERY_UNKNOWN) then mret tt
  else
    n ← transition_submission submission_id Sub_DELIVERING Sub_DELIVERY_UNKNOWN updated_at
          None None None None None None evidence (Some failure_code);
    require (Z.eqb n 1) (DomainConflictError "").

Definition begin_delivery (submission_id : string) (max_concurrent_tasks : option Z)
    (delivered_at : time) : txn unit :=
  require (match max_concurrent_tasks with Some n => Z.leb 0 n | None => true end) ValueError;;
  begin_write;;
  submission ← gets (submission_by_id submission_id);
  submission ← require_some submission (DomainNotFoundError submission_id);
  let task_id := sb_task_id submission in
  state ← gets (task_state task_id);
  require (match state with
           | Some s => bool_decide (st_work_status s = Work_OPEN)
           | None => false
           end) (ConversationContractError TASK_NOT_OPEN);;
  task ← gets (task_by_id task_id);
  task ← require_some task (DomainNotFoundError task_id);
  active ← gets (externally_active_task_ids (tk_owner_user_id task) (tk_environment_id task));
  require (negb (bool_decide (task_id ∈ active)))
    (DomainConflictError "task_execution_slot_held");;
  require (match max_concurrent_tasks with
           | Some n => Z.ltb (Z.of_nat (length active)) n
           | None => true
           end) (DomainConflictError "environment_capacity_exhausted");;
  n ← transition_submission submission_id Sub_CLAIMED Sub_DELIVERING delivered_at
        None (Some delivered_at) None None None None [] None;
  require (Z.eqb n 1) (DomainConflictError "").

(** ** Acceptance *)

(** [except sqlite3.IntegrityError: raise DomainConflictError]; the failed
    statement has no effect. *)
Definition integrity_as_conflict {A} (m : txn A) : txn A := λ d,
  match m d with
  | Err (IntegrityError _) => Err (DomainConflictError "")
  | r => r
  end.

Definition execution_contradicts (task_id : string) (binding_id : option string)
    (native_turn_kind native_turn_ref : string)
    (native_runtime_kind native_runtime_ref : option string) (e : execution_row) : bool :=
  negb (eqs (ex_task_id e) task_id && eqo (ex_binding_id e) binding_id
    && eqs (str_of (ex_native_turn_kind e)) native_turn_kind
    && eqs (str_of (ex_native_turn_ref e)) native_turn_ref
    && eqs (str_of (ex_native_runtime_kind e)) (str_of native_runtime_kind)
    && eqs (str_of (ex_native_runtime_ref e)) (str_of native_runtime_ref)).

Definition persist_runtime (claim : SubmissionClaim) (runtime_execution_id : string)
    (native_turn_kind native_turn_ref : string)
    (native_runtime_kind native_runtime_ref : option string) (evidence : dict)
    (turn_id : string) (accepted_at : time) (binding_id : option string) :
    txn RuntimeExecutionClaim :=
  (match native_runtime_kind, native_runtime_ref with
   | Some kind, Some ref =>
       global ← gets (runtime_execution_by_native_identity kind ref);
       require (match global with Some e => eqs (ex_turn_id e) turn_id | None => true end)
         (DomainConflictError "")
   | _, _ => mret tt
   end);;
  existing ← gets (runtime_executions_for_turn turn_id);
  require (negb (existsb (execution_contradicts (sc_task_id claim) binding_id native_turn_kind
             native_turn_ref native_runtime_kind native_runtime_ref) existing))
    (DomainConflictError "");;
  let (active, terminal) := partition_runtime_rows existing in
  require (Nat.eqb (length terminal) 0) (DomainConflictError "");;
  require (Nat.leb (length active) 1) (DomainConflictError "");;
  match active with
  | row :: _ =>
      (if bool_decide (ex_status row = Exec_STARTING) then
         n ← transition_runtime_execution (ex_runtime_execution_id row) Exec_STARTING
               Exec_RUNNING (ex_evidence row) accepted_at None None;
         require (Z.eqb n 1) (DomainConflictError "")
       else mret tt);;
      mret (mkExecutionClaim (ex_runtime_execution_id row) (sc_task_id claim) turn_id
              (ex_runtime_generation row))
  | [] =>
      generation ← gets (next_runtime_generation turn_id);
      execution_seq ← gets (next_execution_seq turn_id);
      integrity_as_conflict
        (insert_runtime_execution runtime_execution_id (sc_task_id claim) turn_id execution_seq
           generation binding_id native_runtime_kind native_runtime_ref (Some native_turn_kind)
           (Some native_turn_ref) evidence accepted_at (Some accepted_at) accepted_at);;
      n ← transition_runtime_execution runtime_execution_id Exec_STARTING Exec_RUNNING evidence
            accepted_at None None;
      require (Z.eqb n 1) (DomainConflictError "");;
      mret (mkExecutionClaim runtime_execution_id (sc_task_id claim) turn_id generation)
  end.

(** [snapshot] is the database at the identity lookup. *)
Definition accept_and_open_execution (snapshot : db) (claim : SubmissionClaim)
    (engine_family engine_driver native_conversation_kind native_conversation_ref
     native_turn_kind native_turn_ref : string)
    (native_runtime_kind native_runtime_ref : option string) (evidence : dict)
    (accepted_at : time) (binding_uuid item_uuid : string) : txn RuntimeExecutionClaim :=
  match runtime_identity_for_acceptance claim snapshot with
  | Err e => raise e
  | Ok (identity, _) =>
      '(_, runtime_claim) ← accept_submission
        (Some (persist_runtime claim (ri_runtime_execution_id identity) native_turn_kind
                 native_turn_ref native_runtime_kind native_runtime_ref evidence))
        (sc_submission_id claim) native_turn_kind native_turn_ref
        (mkLineage engine_family engine_driver 1 None None None) evidence None
        (Some native_conversation_kind) (Some native_conversation_ref) None accepted_at
        binding_uuid item_uuid;
      require_some runtime_claim (DomainConflictError "")
  end.

(** ** Items *)

Definition append_item (execution : RuntimeExecutionClaim) (item_type : TurnItemType)
    (actor : TurnItemActor) (payload native_provenance : dict) (native_item_id : option string)
    (occurred_at : option time) (persisted_at : time) (item_id : string) : txn json :=
  begin_write;;
  runtime ← gets (runtime_execution_by_id (xc_runtime_execution_id execution));
  require (match runtime with
           | Some e => bool_decide (ex_status e = Exec_RUNNING)
           | None => false
           end) (DomainConflictError "");;
  task_item_seq ← gets (next_task_item_seq (xc_task_id execution));
  turn_item_seq ← gets (next_turn_item_seq (xc_turn_id execution));
  insert_turn_item (mkItem item_id (xc_task_id execution) (xc_turn_id execution) task_item_seq
    turn_item_seq "canonical_item" 1 item_type actor payload native_provenance true
    (match native_item_id with
     | None => None
     | Some _ => Some ("execution:" ++ xc_runtime_execution_id execution)
     end) native_item_id None None occurred_at persisted_at persisted_at);;
  mret (JObj [("item_id", JStr item_id); ("task_item_seq", JInt task_item_seq);
              ("turn_item_seq", JInt turn_item_seq)]).

(** ** Controls *)

Definition read_requested_controls (execution : RuntimeExecutionClaim) : txn (list control_row) :=
  gets (requested_controls (xc_runtime_execution_id execution)).

Definition claim_evidence (claim_id : string) (claimed_at : time) : dict :=
  [("delivery_claim_id", JStr claim_id); ("delivery_claimed_at", JStr (isoformat claimed_at))].

Definition claim_interrupt (control_request_id claim_id : string) (claimed_at : time) :
    txn bool :=
  require (negb (blank claim_id)) ValueError;;
  begin_write;;
  row ← gets (control_request_by_id control_request_id);
  row ← require_some row (DomainNotFoundError control_request_id);
  if negb (bool_decide (ct_kind row = Control_INTERRUPT))
     || negb (bool_decide (ct_status row = Ctl_REQUESTED))
  then mret false
  else
    claimed ← claim_interrupt_request control_request_id (claim_evidence claim_id claimed_at)
                claimed_at;
    mret (Z.eqb claimed 1).

(** A requested control whose adapter call was never claimed. *)
Definition control_not_in_flight (c : control_row) : bool :=
  bool_decide (ct_status c = Ctl_REQUESTED)
  && (negb (bool_decide (ct_kind c = Control_INTERRUPT))
      || negb (dict_truthy "delivery_claim_id" (ct_evidence c))).

Definition recover_stale_control (recovered_at : time) (c : control_row) : txn bool :=
  if control_not_in_flight c then mret false
  else
    let evidence := dict_update
      [("source", JStr "worker_recovery"); ("failure", JStr "control_delivery_stale");
       ("replay_forbidden", JBool true)] (ct_evidence c) in
    n ← transition_control_request (ct_control_request_id c) (ct_status c)
          Ctl_DELIVERY_UNKNOWN evidence recovered_at None (Some recovered_at)
          (Some "worker_lost_during_control_delivery");
    mret (Z.eqb n 1).

Definition recover_stale_control_delivery (stale_after : Z) (now recovered_at : time) : txn Z :=
  require (Z.ltb 0 stale_after) ValueError;;
  begin_write;;
  rows ← gets (stale_control_requests (now - stale_after)%Z);
  recovered ← for_collect rows (recover_stale_control recovered_at);
  mret (Z.of_nat (length (List.filter id recovered))).

Definition transition_control (control_request_id : string)
    (expected_status status : ControlRequestStatus) (evidence : dict)
    (failure_code : option string) (updated_at : time) : txn unit :=
  begin_write;;
  n ← transition_control_request control_request_id expected_status status evidence updated_at
        (match status with Ctl_ACCEPTED | Ctl_COMPLETED => Some updated_at | _ => None end)
        (match status with
         | Ctl_COMPLETED | Ctl_REJECTED | Ctl_DELIVERY_UNKNOWN => Some updated_at
         | _ => None
         end) failure_code;
  require (Z.eqb n 1) (DomainConflictError "").

(** ** Completion *)

Definition control_delivery_unknown (c : control_row) : bool :=
  bool_decide (ct_status c = Ctl_DELIVERING)
  || (bool_decide (ct_kind c = Control_INTERRUPT)
      && dict_truthy "delivery_claim_id" (ct_evidence c)).

Definition reconcile_control (terminal_status : string) (finished_at : time)
    (terminal_evidence : dict) (c : control_row) : txn unit :=
  let unknown := control_delivery_unknown c in
  let evidence := dict_update
    [("source", JStr "runtime_terminal_reconciliation");
     ("runtime_status", JStr terminal_status); ("replay_forbidden", JBool unknown);
     ("terminal_evidence", JObj terminal_evidence)] (ct_evidence c) in
  n ← transition_control_request (ct_control_request_id c) (ct_status c)
        (if unknown then Ctl_DELIVERY_UNKNOWN else Ctl_REJECTED) evidence finished_at None
        (Some finished_at)
        (Some (if unknown then "control_delivery_unknown_runtime_terminal"
               else "runtime_terminal_before_control_delivery"));
  require (Z.eqb n 1) (DomainConflictError "").

Definition reconcile_terminal_controls (execution : RuntimeExecutionClaim)
    (terminal_status : string) (finished_at : time) (terminal_evidence : dict) : txn unit :=
  rows ← gets (pending_controls (xc_runtime_execution_id execution));
  for_each rows (reconcile_control terminal_status finished_at terminal_evidence).

Definition execution_status_of (status : TurnStatus) : option RuntimeExecutionStatus :=
  match status with
  | Turn_COMPLETED => Some Exec_COMPLETED
  | Turn_INTERRUPTED => Some Exec_INTERRUPTED
  | Turn_FAILED => Some Exec_FAILED
  | Turn_IN_PROGRESS => None
  end.

Definition finish_runtime (execution : RuntimeExecutionClaim) (status : TurnStatus)
    (execution_status : RuntimeExecutionStatus) (evidence : dict)
    (failure_code : option string) (finished_at : time) : txn unit :=
  let runtime_execution_id := xc_runtime_execution_id execution in
  row ← gets (runtime_execution_by_id runtime_execution_id);
  row ← require_some row (DomainNotFoundError runtime_execution_id);
  (if bool_decide (ex_status row = execution_status) then mret tt
   else
     n ← transition_runtime_execution runtime_execution_id (ex_status row) execution_status
           evidence finished_at (Some finished_at) failure_code;
     require (Z.eqb n 1) (DomainConflictError ""));;
  (if bool_decide (execution_status = Exec_INTERRUPTED) then
     _ ← complete_accepted_interrupts runtime_execution_id finished_at finished_at;
     mret tt
   else mret tt);;
  reconcile_terminal_controls execution (turn_status_value status) finished_at evidence.

Definition finish_execution (execution : RuntimeExecutionClaim) (status : TurnStatus)
    (evidence : dict) (failure_code : option string) (finished_at : time) :
    txn (json * option string) :=
  execution_status ← require_some (execution_status_of status) KeyError;
  finish_turn (xc_task_id execution) (xc_turn_id execution) status failure_code
    (Some (finish_runtime execution status execution_status evidence failure_code)) finished_at.
End execution.
