(* ===== verification/Evolution.v ===== *)
(** * How the database may change

    A relational specification that every operation satisfies: rows are never
    deleted, the identity columns of a row never change, a status moves only
    along its contract table, and a row in a terminal state is frozen.  Items,
    intents, idempotency records and audit events are append-only. *)

From stdpp Require Import base tactics list strings relations.
From Stdlib Require Import ZArith Lia.
From S2P Require Import Prelude PyText Tables Contracts RegistryRows Schema Repository Service Acceptance.
From S2P Require Import Execution.

Local Open Scope Z_scope.

(** ** Tables *)

Section evolves.
Context {R : Type} (E : relation R).

(** The old rows in order, each related to its successor by [E]; new rows after. *)
Definition Evolves (t t' : list R) : Prop := ∃ u v, t' = u ++ v ∧ Forall2 E t u.

Context `{!PreOrder E}.

#[export] Instance Evolves_preorder : PreOrder Evolves.
Proof.
  split.
  - intros t. exists t, []. split; [by rewrite app_nil_r | reflexivity].
  - intros t1 t2 t3 (u & v & -> & H1) (u' & v' & -> & H2).
    apply Forall2_app_inv_l in H2 as (w & w' & Hw & Hw' & ->).
    exists w, (w' ++ v'). rewrite assoc_L by apply _. split; [done|]. by etrans.
Qed.

Lemma evolves_insert t r : Evolves t (t ++ [r]).
Proof. exists t, [r]. split; [done | reflexivity]. Qed.

Lemma evolves_update p f t :
  (∀ r, r ∈ t → p r = true → E r (f r)) → Evolves t (on_rows p f t).
Proof.
  intros Hf. exists (on_rows p f t), []. split; [by rewrite app_nil_r|].
  unfold on_rows. induction t as [|r t IH]; csimpl; constructor.
  - destruct (p r) eqn:Hp; [|reflexivity]. apply Hf; [constructor | done].
  - apply IH. intros x Hx. apply Hf. by constructor.
Qed.

(** Nothing was inserted. *)
Lemma evolves_same_length t t' : Evolves t t' → length t' = length t → Forall2 E t t'.
Proof.
  intros (u & v & -> & H2) Hlen. rewrite length_app, (Forall2_length _ _ _ H2) in Hlen.
  assert (v = []) as -> by (apply nil_length_inv; lia). by rewrite app_nil_r.
Qed.

Lemma evolves_elem t t' r : Evolves t t' → r ∈ t → ∃ r', r' ∈ t' ∧ E r r'.
Proof.
  intros (u & v & -> & H2) [i Hi]%list_elem_of_lookup.
  eapply Forall2_lookup_l in H2 as (r' & Hr' & HE); [|done].
  exists r'. split; [|done]. apply elem_of_app. left. by eapply list_elem_of_lookup_2.
Qed.

Lemma evolves_row_exists p q t t' :
  (∀ r r', E r r' → p r = true → q r' = true) →
  Evolves t t' → row_exists p t = true → row_exists q t' = true.
Proof.
  intros Hpq He (r & Hr & Hp)%row_exists_true. apply row_exists_true.
  destruct (evolves_elem _ _ _ He Hr) as (r' & Hr' & HE). eauto.
Qed.
End evolves.

(** A table that only grows. *)
Abbreviation Appends := (Evolves eq).

Lemma appends_prefix {R} (t t' : list R) : Appends t t' ↔ t `prefix_of` t'.
Proof.
  unfold Evolves, prefix. split.
  - intros (u & v & -> & H). assert (t = u) as ->.
    { induction H; congruence. }
    by eexists.
  - intros (v & ->). exists t, v. split; [done|]. apply Forall2_same_length_lookup_2; [done|].
    intros i x y ??. congruence.
Qed.

(** ** Rows *)

Definition turn_identity (t : turn_row) :=
  (tn_turn_id t, tn_task_id t, tn_turn_seq t, tn_retry_of_turn_id t, tn_context_snapshot_ref t,
   tn_binding_id t, tn_engine_family t, tn_engine_driver t, tn_contract_version t,
   tn_provider_profile_ref t, tn_provider_profile_version t, tn_provider_profile_fingerprint t,
   tn_model t, tn_native_turn_kind t, tn_native_turn_ref t, tn_accepted_at t).

Definition turn_evolves (t t' : turn_row) : Prop :=
  turn_identity t' = turn_identity t ∧ rtc turn_step (tn_status t) (tn_status t') ∧
  (turn_active t = false → t' = t).

Definition submission_identity (s : submission_row) :=
  (sb_submission_id s, sb_task_id s, sb_reserved_turn_id s, sb_actor_user_id s,
   sb_idempotency_key s, sb_request_hash s, sb_input s, sb_context_snapshot_source s,
   sb_created_at s).

Definition submission_evolves (s s' : submission_row) : Prop :=
  submission_identity s' = submission_identity s ∧
  rtc submission_step (sb_status s) (sb_status s') ∧
  (submission_terminal (sb_status s) = true → s' = s).

Definition execution_identity (e : execution_row) :=
  (ex_runtime_execution_id e, ex_task_id e, ex_turn_id e, ex_execution_seq e,
   ex_runtime_generation e, ex_binding_id e, ex_native_runtime_kind e, ex_native_runtime_ref e,
   ex_native_turn_kind e, ex_native_turn_ref e, ex_created_at e).

Definition execution_evolves (e e' : execution_row) : Prop :=
  execution_identity e' = execution_identity e ∧
  rtc execution_step (ex_status e) (ex_status e') ∧
  (exec_active e = false → e' = e).

Definition control_identity (c : control_row) :=
  (ct_control_request_id c, ct_task_id c, ct_expected_turn_id c, ct_runtime_execution_id c,
   ct_runtime_generation c, ct_kind c, ct_actor_user_id c, ct_idempotency_key c,
   ct_request_hash c, ct_payload c, ct_created_at c).

Definition control_evolves (c c' : control_row) : Prop :=
  control_identity c' = control_identity c ∧
  rtc (control_step (ct_kind c)) (ct_status c) (ct_status c') ∧
  (CONTROL_TRANSITIONS (ct_kind c) (ct_status c) = [] → c' = c).

Definition binding_identity (b : binding_row) :=
  (bd_binding_id b, bd_task_id b, bd_binding_seq b, bd_engine_family b, bd_engine_driver b,
   bd_native_conversation_kind b, bd_native_conversation_ref b, bd_contract_version b,
   bd_provider_profile_ref b, bd_provider_profile_version b, bd_provider_profile_fingerprint b,
   bd_provenance b, bd_created_at b).

Definition binding_evolves (b b' : binding_row) : Prop :=
  binding_identity b' = binding_identity b ∧
  (bd_status b = Binding_SUPERSEDED → b' = b).

Definition next_step (s s' : NextTurnStatus) : Prop := next_turn_trigger s s' = true.

Definition next_turn_identity (n : next_turn_row) :=
  (nt_submission_id n, nt_task_id n, nt_blocking_turn_id n, nt_created_at n).

Definition next_turn_evolves (n n' : next_turn_row) : Prop :=
  next_turn_identity n' = next_turn_identity n ∧
  rtc next_step (nt_status n) (nt_status n') ∧
  (nt_status n = Next_CANCELLED → n' = n).

Definition work_step (s s' : TaskWorkStatus) : Prop := work_trigger s s' = true.

(** Each step of the work status raises the revision by one, and nothing else does. *)
Definition state_evolves (s s' : state_row) : Prop :=
  st_task_id s' = st_task_id s ∧ st_created_at s' = st_created_at s ∧
  (∃ n, nsteps work_step n (st_work_status s) (st_work_status s') ∧
        st_revision s' = st_revision s + Z.of_nat n) ∧
  (st_revision s' = st_revision s → s' = s).

Definition task_identity (t : task_row) :=
  (tk_task_id t, tk_workspace_id t, tk_environment_id t, tk_harness_engine t,
   tk_owner_user_id t).

(** Everything of a Task but its title, its archival and the time of its last change. *)
Definition task_frame (t : task_row) :=
  (task_identity t, tk_project_id t, tk_researcher_type t, tk_user_skills t,
   tk_user_mcp_servers t, tk_prompt t, tk_created_at t, tk_project_context_version_id t,
   tk_project_context_snapshot_id t).

Definition task_evolves (t t' : task_row) : Prop := task_identity t' = task_identity t.

#[export] Instance turn_evolves_preorder : PreOrder turn_evolves.
Proof.
  split; [by intros t|]. intros t1 t2 t3 (Hi1 & Hs1 & Ht1) (Hi2 & Hs2 & Ht2).
  split_and!; [congruence | by etrans |]. intros Ha. specialize (Ht1 Ha). subst. auto.
Qed.
#[export] Instance submission_evolves_preorder : PreOrder submission_evolves.
Proof.
  split; [by intros t|]. intros t1 t2 t3 (Hi1 & Hs1 & Ht1) (Hi2 & Hs2 & Ht2).
  split_and!; [congruence | by etrans |]. intros Ha. specialize (Ht1 Ha). subst. auto.
Qed.
#[export] Instance execution_evolves_preorder : PreOrder execution_evolves.
Proof.
  split; [by intros t|]. intros t1 t2 t3 (Hi1 & Hs1 & Ht1) (Hi2 & Hs2 & Ht2).
  split_and!; [congruence | by etrans |]. intros Ha. specialize (Ht1 Ha). subst. auto.
Qed.
#[export] Instance control_evolves_preorder : PreOrder control_evolves.
Proof.
  split; [by intros t|]. intros t1 t2 t3 (Hi1 & Hs1 & Ht1) (Hi2 & Hs2 & Ht2).
  assert (ct_kind t2 = ct_kind t1) as Hk by (unfold control_identity in Hi1; congruence).
  rewrite Hk in Hs2.
  split_and!; [congruence | by etrans |]. intros Ha. specialize (Ht1 Ha). subst. auto.
Qed.
#[export] Instance binding_evolves_preorder : PreOrder binding_evolves.
Proof.
  split; [by intros t|]. intros t1 t2 t3 (Hi1 & Ht1) (Hi2 & Ht2).
  split; [congruence|]. intros Ha. specialize (Ht1 Ha). subst. auto.
Qed.
#[export] Instance next_turn_evolves_preorder : PreOrder next_turn_evolves.
Proof.
  split; [by intros t|]. intros t1 t2 t3 (Hi1 & Hs1 & Ht1) (Hi2 & Hs2 & Ht2).
  split_and!; [congruence | by etrans |]. intros Ha. specialize (Ht1 Ha). subst. auto.
Qed.
#[export] Instance state_evolves_preorder : PreOrder state_evolves.
Proof.
  split; [intros t; split_and!; try done; exists 0%nat; split; [constructor | lia]|].
  intros t1 t2 t3 (H1 & Hc1 & (n & Hn & Hr1) & He1) (H2 & Hc2 & (m & Hm & Hr2) & He2).
  split_and!; [congruence.. | |].
  - exists (n + m)%nat. split; [by eapply nsteps_trans | lia].
  - intros Ha. assert (st_revision t2 = st_revision t1) by lia. rewrite He2 by lia. auto.
Qed.
#[export] Instance task_evolves_preorder : PreOrder task_evolves.
Proof. split; unfold task_evolves; red; congruence. Qed.

(** ** Databases *)

Record db_evolves (d d' : db) : Prop := mkEvolves {
  ev_tasks : Evolves task_evolves (tasks d) (tasks d');
  ev_authorities : Appends (task_authorities d) (task_authorities d');
  ev_states : Evolves state_evolves (task_states d) (task_states d');
  ev_turns : Evolves turn_evolves (task_turns d) (task_turns d');
  ev_items : Appends (turn_items d) (turn_items d');
  ev_bindings : Evolves binding_evolves (bindings d) (bindings d');
  ev_submissions : Evolves submission_evolves (submissions d) (submissions d');
  ev_intents : Appends (intents d) (intents d');
  ev_next_turns : Evolves next_turn_evolves (next_turns d) (next_turns d');
  ev_executions : Evolves execution_evolves (executions d) (executions d');
  ev_controls : Evolves control_evolves (controls d) (controls d');
  ev_idempotency : Appends (idempotency d) (idempotency d');
  ev_audit : Appends (audit_events d) (audit_events d') }.

#[export] Instance db_evolves_preorder : PreOrder db_evolves.
Proof.
  split; [by intros d; constructor|].
  intros d1 d2 d3 H1 H2. destruct H1, H2. constructor; by etrans.
Qed.

(** ** Statements *)

Lemma insert_row_inv {R} guard put (row : R) d u d' :
  insert_row guard put row d = Ok (u, d') →
  guard d row = None ∧ d' = put (λ t, t ++ [row]) d.
Proof. unfold insert_row. destruct (guard d row); naive_solver. Qed.

Lemma update_rows_inv {R} table put p guard (f : R → R) d n d' :
  update_rows table put p guard f d = Ok (n, d') →
  d' = put (λ _, on_rows p f (table d)) d ∧ n = Z.of_nat (length (select p (table d))) ∧
  ∀ r, r ∈ table d → p r = true → guard d r (f r) = None.
Proof.
  unfold update_rows. intros H.
  destruct (update_where p (guard d) f (table d)) as [[m u]|] eqn:Hu; [|done].
  apply update_where_Ok in Hu as (-> & -> & Hg). simplify_eq. auto.
Qed.

Lemma update_rows_runs {R} table put p guard (f : R → R) d :
  (∀ r, r ∈ table d → p r = true → guard d r (f r) = None) →
  update_rows table put p guard f d
    = Ok (Z.of_nat (length (select p (table d))), put (λ _, on_rows p f (table d)) d).
Proof. intros Hg. unfold update_rows. by rewrite update_where_runs. Qed.

(** [rowcount = 1]: some row was updated. *)
Lemma update_rows_hit {R} table put p guard (f : R → R) d d' :
  update_rows table put p guard f d = Ok (1, d') → ∃ r, r ∈ table d ∧ p r = true.
Proof.
  intros (_ & Hn & _)%update_rows_inv.
  destruct (select p (table d)) as [|r l] eqn:Hs; [done|]. exists r.
  apply elem_of_select. rewrite Hs. constructor.
Qed.

Ltac split_bools :=
  repeat match goal with
  | H : _ && _ = true |- _ => apply andb_true_iff in H as [? ?]
  | H : negb _ = true |- _ => apply negb_true_iff in H
  | H : bool_decide _ = true |- _ => apply bool_decide_eq_true in H
  | H : bool_decide _ = false |- _ => apply bool_decide_eq_false in H
  | H : eqs _ _ = true |- _ => apply String.eqb_eq in H
  | H : eqs _ _ = false |- _ => apply String.eqb_neq in H
  | H : Z.eqb _ _ = true |- _ => apply Z.eqb_eq in H
  | H : Z.ltb _ _ = true |- _ => apply Z.ltb_lt in H
  end.

(** [guard_facts H]: the conditions that an accepted statement satisfied. *)
Ltac guard_facts H :=
  apply violation_None in H;
  repeat (apply Forall_cons in H as [? H]); clear H; simpl in *.

Lemma respects_insert_row (Rel : relation db) {R} guard put (row : R) :
  (∀ d, guard d row = None → Rel d (put (λ t, t ++ [row]) d)) →
  Respects Rel (insert_row guard put row).
Proof. intros HR d u d' [Hg ->]%insert_row_inv. auto. Qed.

Lemma respects_update_rows (Rel : relation db) {R} table put p guard (f : R → R) :
  (∀ d, (∀ r, r ∈ table d → p r = true → guard d r (f r) = None) →
        Rel d (put (λ _, on_rows p f (table d)) d)) →
  Respects Rel (update_rows table put p guard f).
Proof. intros HR d u d' (-> & _ & Hg)%update_rows_inv. auto. Qed.

(** An insertion into one table. *)
Ltac evolves_by_insert :=
  apply respects_insert_row; intros ? _; constructor; simpl;
  first [reflexivity | apply evolves_insert, _].

(** An update of one table: the row relation is left to prove. *)
Ltac evolves_by_update :=
  apply respects_update_rows; intros ? Hguard; constructor; simpl in *;
  try reflexivity; apply evolves_update; [apply _|]; intros r Hr Hp; specialize (Hguard r Hr Hp).

Section repository.
#[export] Instance insert_task_authority_evolves t c : Respects db_evolves (insert_task_authority t c).
Proof. evolves_by_insert. Qed.
#[export] Instance insert_task_state_evolves t c : Respects db_evolves (insert_task_state t c).
Proof. evolves_by_insert. Qed.
#[export] Instance insert_turn_evolves a b c d e f g h i j k l m n o p q r s :
  Respects db_evolves (insert_turn a b c d e f g h i j k l m n o p q r s).
Proof. evolves_by_insert. Qed.
#[export] Instance insert_turn_item_evolves i : Respects db_evolves (insert_turn_item i).
Proof. evolves_by_insert. Qed.
#[export] Instance insert_binding_evolves a b c d e f g h i j k l m n o :
  Respects db_evolves (insert_binding a b c d e f g h i j k l m n o).
Proof. evolves_by_insert. Qed.
#[export] Instance insert_submission_evolves a b c d e f g h i j k :
  Respects db_evolves (insert_submission a b c d e f g h i j k).
Proof. evolves_by_insert. Qed.
#[export] Instance insert_submission_intent_evolves a b c d e :
  Respects db_evolves (insert_submission_intent a b c d e).
Proof. evolves_by_insert. Qed.
#[export] Instance insert_runtime_execution_evolves a b c d e f g h i j k l m n :
  Respects db_evolves (insert_runtime_execution a b c d e f g h i j k l m n).
Proof. evolves_by_insert. Qed.
#[export] Instance insert_next_turn_evolves a b c d : Respects db_evolves (insert_next_turn a b c d).
Proof. evolves_by_insert. Qed.
#[export] Instance insert_control_request_evolves a b c d e f g h i j k l :
  Respects db_evolves (insert_control_request a b c d e f g h i j k l).
Proof. evolves_by_insert. Qed.
#[export] Instance insert_idempotency_record_evolves a b c d e f :
  Respects db_evolves (insert_idempotency_record a b c d e f).
Proof. evolves_by_insert. Qed.
#[export] Instance insert_audit_event_evolves a b c d e f g :
  Respects db_evolves (insert_audit_event a b c d e f g).
Proof. evolves_by_insert. Qed.

#[export] Instance repo_update_work_status_evolves a b c d :
  Respects db_evolves (repo_update_work_status a b c d).
Proof.
  evolves_by_update. guard_facts Hguard. split_bools.
  split_and!; simpl in *; [done..| |lia].
  exists 1%nat. split; [by apply nsteps_once | lia].
Qed.

#[export] Instance repo_finish_turn_evolves a b c d e :
  Respects db_evolves (repo_finish_turn a b c d e).
Proof.
  evolves_by_update. guard_facts Hguard. split_bools.
  split_and!; [done | by apply rtc_once, turn_trigger_spec | congruence].
Qed.

#[export] Instance supersede_binding_evolves a b c : Respects db_evolves (supersede_binding a b c).
Proof. evolves_by_update. guard_facts Hguard. split_bools. split; [done | congruence]. Qed.

#[export] Instance transition_submission_evolves a b c d e f g h i j k l :
  Respects db_evolves (transition_submission a b c d e f g h i j k l).
Proof.
  evolves_by_update. guard_facts Hguard. split_bools.
  split_and!; [done | by apply rtc_once, submission_trigger_spec | congruence].
Qed.

#[export] Instance reclaim_evolves s c : Respects db_evolves (reclaim s c).
Proof.
  intros d n d' (-> & _ & Hguard)%update_rows_inv.
  constructor; simpl in *; try reflexivity. apply evolves_update; [apply _|].
  intros r Hr Hp. specialize (Hguard r Hr Hp). guard_facts Hguard. split_bools.
  split_and!; [done | done | congruence].
Qed.

#[export] Instance repin_submissions_evolves a b c :
  Respects db_evolves (repin_submissions a b c).
Proof.
  intros d n d' (-> & _ & Hguard)%update_rows_inv.
  constructor; simpl in *; try reflexivity. apply evolves_update; [apply _|].
  intros r Hr Hp. specialize (Hguard r Hr Hp). guard_facts Hguard. split_bools.
  split_and!; [done | done | congruence].
Qed.

#[export] Instance transition_runtime_execution_evolves a b c d e f g :
  Respects db_evolves (transition_runtime_execution a b c d e f g).
Proof.
  evolves_by_update. guard_facts Hguard. split_bools.
  split_and!; [done | by apply rtc_once, execution_trigger_spec | congruence].
Qed.

#[export] Instance promote_next_turn_evolves a b c : Respects db_evolves (promote_next_turn a b c).
Proof.
  evolves_by_update. guard_facts Hguard. split_bools.
  split_and!; [done | by apply rtc_once | congruence].
Qed.
#[export] Instance cancel_next_turn_evolves a b : Respects db_evolves (cancel_next_turn a b).
Proof.
  evolves_by_update. guard_facts Hguard. split_bools.
  split_and!; [done | by apply rtc_once |]. intros Hc.
  match goal with H : next_pending _ = true |- _ => unfold next_pending in H; by rewrite Hc in H end.
Qed.

Lemma control_trigger_nonterminal k s s' :
  control_trigger k s s' = true → CONTROL_TRANSITIONS k s ≠ [].
Proof. intros H%control_trigger_spec Hn. unfold control_step in H. rewrite Hn in H. set_solver. Qed.

#[export] Instance claim_interrupt_request_evolves a b c :
  Respects db_evolves (claim_interrupt_request a b c).
Proof.
  evolves_by_update. guard_facts Hguard. split_bools. split_and!; [done | done |].
  intros Hn. match goal with
  | H1 : ct_kind r = _, H2 : ct_status r = _ |- _ => by rewrite H1, H2 in Hn end.
Qed.
#[export] Instance transition_control_request_evolves a b c d e f g h :
  Respects db_evolves (transition_control_request a b c d e f g h).
Proof.
  evolves_by_update. guard_facts Hguard. split_bools.
  split_and!; [done | by apply rtc_once, control_trigger_spec |].
  intros Hn. exfalso. by eapply control_trigger_nonterminal.
Qed.
#[export] Instance complete_accepted_interrupts_evolves a b c :
  Respects db_evolves (complete_accepted_interrupts a b c).
Proof.
  evolves_by_update. guard_facts Hguard. split_bools.
  split_and!; [done | by apply rtc_once, control_trigger_spec |].
  intros Hn. exfalso. by eapply control_trigger_nonterminal.
Qed.

(** The statements on [tasks] never touch an identity column. *)
Lemma update_tasks_evolves p f :
  (∀ t, task_frame (f t) = task_frame t) →
  Respects db_evolves (update_rows tasks with_tasks p (λ _ _ _, None) f).
Proof. intros Hf. evolves_by_update. specialize (Hf r). unfold task_frame, task_evolves in *. congruence. Qed.
End repository.

(** The row that a successful submission transition wrote. *)
Lemma transition_submission_hit a b c d e f g h i j k l d0 d1 :
  transition_submission a b c d e f g h i j k l d0 = Ok (1, d1) →
  ∃ s, s ∈ submissions d0 ∧ sb_submission_id s = a ∧ sb_status s = b ∧
       set_submission_status c d e f g h i j k l s ∈ submissions d1.
Proof.
  intros Hrun. pose proof (update_rows_hit _ _ _ _ _ _ _ Hrun) as (s & Hs & Hp).
  apply update_rows_inv in Hrun as (-> & _ & _). exists s. simpl.
  assert (set_submission_status c d e f g h i j k l s ∈ on_rows
    (λ s, eqs (sb_submission_id s) a && bool_decide (sb_status s = b))
    (set_submission_status c d e f g h i j k l) (submissions d0)) as Hin.
  { apply elem_of_on_rows. exists s. by rewrite Hp. }
  by split_bools.
Qed.
