(* ===== verification/Methods.v ===== *)
(** * Every method from its statements

    [StatementSpec R] is the interface between the repositories and their
    clients: the relation [R] on databases holds across each SQL statement the
    methods issue.  Every method of the application service and of the
    execution service then respects [R], whatever path it takes; the relations
    of interest discharge the interface statement by statement. *)

From stdpp Require Import base tactics list strings relations.
From Stdlib Require Import ZArith Lia.
From S2P Require Import Prelude PyText Tables Contracts RegistryRows Schema Repository Service Acceptance.
From S2P Require Import Execution Evolution.

(** A method is looked up by its name; instance search must not unfold it. *)
#[local] Hint Constants Opaque : typeclass_instances.
#[local] Hint Transparent dict time relation : typeclass_instances.

Class StatementSpec (R : relation db) : Prop := {
  ss_preorder :: PreOrder R;
  ss_insert_task_authority t c :: Respects R (insert_task_authority t c);
  ss_insert_task_state t c :: Respects R (insert_task_state t c);
  ss_insert_turn a b c d e f g h i j k l m n o p q r s ::
    Respects R (insert_turn a b c d e f g h i j k l m n o p q r s);
  ss_insert_turn_item i :: Respects R (insert_turn_item i);
  ss_insert_binding a b c d e f g h i j k l m n o ::
    Respects R (insert_binding a b c d e f g h i j k l m n o);
  ss_insert_submission a b c d e f g h i j k ::
    Respects R (insert_submission a b c d e f g h i j k);
  ss_insert_submission_intent a b c d e :: Respects R (insert_submission_intent a b c d e);
  ss_insert_runtime_execution a b c d e f g h i j k l m n ::
    Respects R (insert_runtime_execution a b c d e f g h i j k l m n);
  ss_insert_next_turn a b c d :: Respects R (insert_next_turn a b c d);
  ss_insert_control_request a b c d e f g h i j k l ::
    Respects R (insert_control_request a b c d e f g h i j k l);
  ss_insert_idempotency_record a b c d e f ::
    Respects R (insert_idempotency_record a b c d e f);
  ss_insert_audit_event a b c d e f g :: Respects R (insert_audit_event a b c d e f g);
  ss_repo_update_work_status a b c d :: Respects R (repo_update_work_status a b c d);
  ss_repo_finish_turn a b c d e :: Respects R (repo_finish_turn a b c d e);
  ss_supersede_binding a b c :: Respects R (supersede_binding a b c);
  ss_transition_submission a b c d e f g h i j k l ::
    Respects R (transition_submission a b c d e f g h i j k l);
  ss_reclaim s c :: Respects R (reclaim s c);
  ss_transition_runtime_execution a b c d e f g ::
    Respects R (transition_runtime_execution a b c d e f g);
  ss_promote_next_turn a b c :: Respects R (promote_next_turn a b c);
  ss_cancel_next_turn a b :: Respects R (cancel_next_turn a b);
  ss_claim_interrupt_request a b c :: Respects R (claim_interrupt_request a b c);
  ss_transition_control_request a b c d e f g h ::
    Respects R (transition_control_request a b c d e f g h);
  ss_complete_accepted_interrupts a b c :: Respects R (complete_accepted_interrupts a b c);
  ss_update_tasks p f :
    (∀ t, task_frame (f t) = task_frame t) →
    Respects R (update_rows tasks with_tasks p (λ _ _ _, None) f);
}.

(** The statements that keep every invariant of the development by themselves:
    all but the insertion of Turns, items and executions, the completion of a
    Turn or of an execution, the cancellation of a queued submission and the
    acceptance of a delivery-unknown one, which keep the invariants only together
    with the statements around them. *)
Definition safe_submission_move (b c : TurnSubmissionStatus) : bool :=
  negb (bool_decide (c = Sub_CANCELLED) && bool_decide (b = Sub_QUEUED))
  && negb (bool_decide (b = Sub_DELIVERY_UNKNOWN)).

Class SafeStatements (R : relation db) : Prop := {
  sf_preorder :: PreOrder R;
  sf_insert_task_authority t c :: Respects R (insert_task_authority t c);
  sf_insert_task_state t c :: Respects R (insert_task_state t c);
  sf_insert_binding a b c d e f g h i j k l m n o ::
    Respects R (insert_binding a b c d e f g h i j k l m n o);
  sf_insert_submission a b c d e f g h i j k ::
    Respects R (insert_submission a b c d e f g h i j k);
  sf_insert_submission_intent a b c d e :: Respects R (insert_submission_intent a b c d e);
  sf_insert_next_turn a b c d :: Respects R (insert_next_turn a b c d);
  sf_insert_control_request a b c d e f g h i j k l ::
    Respects R (insert_control_request a b c d e f g h i j k l);
  sf_insert_idempotency_record a b c d e f ::
    Respects R (insert_idempotency_record a b c d e f);
  sf_insert_audit_event a b c d e f g :: Respects R (insert_audit_event a b c d e f g);
  sf_repo_update_work_status a b c d :: Respects R (repo_update_work_status a b c d);
  sf_supersede_binding a b c :: Respects R (supersede_binding a b c);
  sf_transition_submission a b c d e f g h i j k l :
    safe_submission_move b c = true →
    Respects R (transition_submission a b c d e f g h i j k l);
  sf_reclaim s c :: Respects R (reclaim s c);
  sf_transition_runtime_execution a b c d e f g :
    c = Exec_RUNNING →
    Respects R (transition_runtime_execution a b c d e f g);
  sf_promote_next_turn a b c :: Respects R (promote_next_turn a b c);
  sf_cancel_next_turn a b :: Respects R (cancel_next_turn a b);
  sf_claim_interrupt_request a b c :: Respects R (claim_interrupt_request a b c);
  sf_transition_control_request a b c d e f g h ::
    Respects R (transition_control_request a b c d e f g h);
  sf_complete_accepted_interrupts a b c :: Respects R (complete_accepted_interrupts a b c);
  sf_update_tasks p f :
    (∀ t, task_frame (f t) = task_frame t) →
    Respects R (update_rows tasks with_tasks p (λ _ _ _, None) f);
}.

#[export] Instance statements_safe R : StatementSpec R → SafeStatements R | 10.
Proof. intros Hs. constructor; intros; try apply _. by apply ss_update_tasks. Qed.

#[export] Hint Extern 1 (Respects _ (transition_submission _ _ _ _ _ _ _ _ _ _ _ _)) =>
  apply sf_transition_submission; reflexivity : respects.
#[export] Hint Extern 1 (Respects _ (transition_runtime_execution _ _ _ _ _ _ _)) =>
  apply sf_transition_runtime_execution; reflexivity : respects.

#[export] Instance db_evolves_statements : StatementSpec db_evolves.
Proof. constructor; try apply _. apply update_tasks_evolves. Qed.

Lemma integrity_as_conflict_Ok {A} (m : txn A) d r :
  integrity_as_conflict m d = Ok r ↔ m d = Ok r.
Proof. unfold integrity_as_conflict. destruct (m d) as [|[]]; naive_solver. Qed.

(** Unfold the method and walk over its body. *)
Ltac head_of t := lazymatch t with ?f _ => head_of f | _ => t end.
Ltac method :=
  intros;
  lazymatch goal with |- Respects _ ?m => let h := head_of m in unfold h end;
  solve_respects.

(** ** Reads and guards

    These write nothing: they respect every preorder, equality included. *)
Section reads.
Context `{Host} (R : relation db) `{!PreOrder R}.

#[export] Instance actor_of_respects u : Respects R (actor_of u).
Proof. method. Qed.
#[export] Instance begin_write_respects : Respects R begin_write.
Proof. method. Qed.
#[export] Instance require_current_conversation_respects t :
  Respects R (require_current_conversation t).
Proof. method. Qed.
#[export] Instance require_open_respects s : Respects R (require_open s).
Proof. method. Qed.
#[export] Instance require_task_viewer_respects t u : Respects R (require_task_viewer t u).
Proof. method. Qed.
#[export] Instance require_task_owner_respects t u : Respects R (require_task_owner t u).
Proof. method. Qed.
#[export] Instance replay_respects a s k r : Respects R (replay a s k r).
Proof. method. Qed.
#[export] Instance grant_respects a t u :
  Respects R (require_task_environment_execution_grant a t u).
Proof. method. Qed.
#[export] Instance resolve_context_snapshot_ref_respects t r :
  Respects R (resolve_context_snapshot_ref t r).
Proof. method. Qed.
#[export] Instance lift_contract_respects {A} (r : result contract_error A) :
  Respects R (lift_contract r).
Proof. method. Qed.
#[export] Instance check_retry_source_respects t r : Respects R (check_retry_source t r).
Proof. method. Qed.
#[export] Instance require_sanitized_respects v : Respects R (require_sanitized v).
Proof. method. Qed.
#[export] Instance check_active_binding_respects a b c : Respects R (check_active_binding a b c).
Proof. method. Qed.
#[export] Instance check_delivered_replay_respects a b c d e f g :
  Respects R (check_delivered_replay a b c d e f g).
Proof. method. Qed.
#[export] Instance run_opt_respects {X} (o : option (txn X)) :
  (∀ m, o = Some m → Respects R m) → Respects R (run_opt o).
Proof. intros Ho. destruct o; simpl; [|apply _]. solve_respects; by apply Ho. Qed.
#[export] Instance integrity_as_conflict_respects {A} (m : txn A) :
  Respects R m → Respects R (integrity_as_conflict m).
Proof. intros Hm d a d' Hok. rewrite integrity_as_conflict_Ok in Hok. by eapply Hm. Qed.
End reads.

(** [reads_only H]: the block of [H] left the database as it was. *)
Ltac reads_only H :=
  match type of H with
  | ?m ?d = Ok (_, ?d') =>
      let E := fresh in
      assert (d = d') as E by exact (respects (R:=eq) (m:=m) _ _ _ H); subst d'
  end.

(** ** Methods made of safe statements *)
Section methods.
Context `{Host} (R : relation db) `{!SafeStatements R}.

#[export] Instance store_respects a s k g r c : Respects R (store a s k g r c).
Proof. method. Qed.
#[export] Instance audit_respects a b c d e f : Respects R (audit a b c d e f).
Proof. method. Qed.
#[export] Instance touch_task_respects t c : Respects R (touch_task t c).
Proof. by apply sf_update_tasks. Qed.
#[export] Instance open_conversation_respects t p a k g s i n c :
  Respects R (open_conversation t p a k g s i n c).
Proof. method. Qed.
(** The application service *)
#[export] Instance initialize_task_respects t u c e : Respects R (initialize_task t u c e).
Proof. method. Qed.
#[export] Instance update_work_status_respects t u s k c e :
  Respects R (update_work_status t u s k c e).
Proof. method. Qed.
#[export] Instance transition_work_status_respects t u g k s v c e :
  Respects R (transition_work_status t u g k s v c e).
Proof. method. Qed.
#[export] Instance complete_task_respects t u k c e : Respects R (complete_task t u k c e).
Proof. method. Qed.
#[export] Instance reopen_task_respects t u k c e : Respects R (reopen_task t u k c e).
Proof. method. Qed.
Lemma cancel_task_respects t u k c i :
  (∀ a b, Respects R (cancel_pending_submissions a b)) → Respects R (cancel_task t u k c i).
Proof. intros Hc. method. Qed.
#[export] Instance admit_respects a t u i k x s r n c b e f :
  Respects R (admit_turn a t u i k x s r n c b e f).
Proof. method. Qed.
#[export] Instance create_turn_respects a t u i k x n c b e f :
  Respects R (create_turn a t u i k x n c b e f).
Proof. method. Qed.
#[export] Instance retry_turn_respects a t r u i k x c b e f :
  Respects R (retry_turn a t r u i k x c b e f).
Proof. method. Qed.
Lemma update_task_metadata_respects t u s k q i (f : time → txn Z) c :
  (∀ x, Respects R (f x)) → Respects R (update_task_metadata t u s k q i f c).
Proof. intros Hf. method. Qed.
#[export] Instance archive_task_respects t u k c : Respects R (archive_task t u k c).
Proof. apply update_task_metadata_respects. intros. by apply sf_update_tasks. Qed.
#[export] Instance unarchive_task_respects t u k c : Respects R (unarchive_task t u k c).
Proof. apply update_task_metadata_respects. intros. by apply sf_update_tasks. Qed.
#[export] Instance update_task_title_respects t u l k c : Respects R (update_task_title t u l k c).
Proof.
  unfold update_task_title. solve_respects. apply update_task_metadata_respects.
  intros. by apply sf_update_tasks.
Qed.
#[export] Instance request_control_respects t n u d p k c i :
  Respects R (request_control t n u d p k c i).
Proof. method. Qed.
#[export] Instance request_steer_respects t n u p k c i : Respects R (request_steer t n u p k c i).
Proof. method. Qed.
#[export] Instance request_interrupt_respects t n u k c i :
  Respects R (request_interrupt t n u k c i).
Proof. method. Qed.

(** Acceptance and completion *)
#[export] Instance resolve_acceptance_binding_respects a b c d e f g h :
  Respects R (resolve_acceptance_binding a b c d e f g h).
Proof. method. Qed.

(** Acceptance, up to the block that materializes the Turn. *)
Lemma run_side_effect_respects {X} (side : option (string → time → option string → txn X)) a b c :
  (∀ f a b c, side = Some f → Respects R (f a b c)) → Respects R (run_side_effect side a b c).
Proof. intros Hside. apply run_opt_respects; [apply _|]. intros m. destruct side; naive_solver. Qed.
Lemma accept_submission_by_blocks {X} (side : option (string → time → option string → txn X))
    a b c d e f g h i j k l :
  (∀ f a b c, side = Some f → Respects R (f a b c)) →
  (∀ a b c d e f g h i j k l m,
     Respects R (materialize_turn side a b c d e f g h i j k l m)) →
  Respects R (accept_submission side a b c d e f g h i j k l).
Proof. intros Hside Hmat. pose proof (run_side_effect_respects side) as Hrun. method. Qed.

(** The execution service *)
#[export] Instance fence_stale_respects c s : Respects R (fence_stale c s).
Proof. method. Qed.
#[export] Instance claim_next_submission_respects a b c : Respects R (claim_next_submission a b c).
Proof. method. Qed.
#[export] Instance mark_delivery_unknown_respects a b c d :
  Respects R (mark_delivery_unknown a b c d).
Proof. method. Qed.
#[export] Instance begin_delivery_respects a b c : Respects R (begin_delivery a b c).
Proof. method. Qed.
#[export] Instance claim_interrupt_respects a b c : Respects R (claim_interrupt a b c).
Proof. method. Qed.
#[export] Instance recover_stale_control_respects a c : Respects R (recover_stale_control a c).
Proof. method. Qed.
#[export] Instance recover_stale_control_delivery_respects a b c :
  Respects R (recover_stale_control_delivery a b c).
Proof. method. Qed.
#[export] Instance transition_control_respects a b c d e f : Respects R (transition_control a b c d e f).
Proof. method. Qed.
#[export] Instance reconcile_control_respects a b c d : Respects R (reconcile_control a b c d).
Proof. method. Qed.
#[export] Instance reconcile_terminal_controls_respects a b c d :
  Respects R (reconcile_terminal_controls a b c d).
Proof. method. Qed.
End methods.

(** ** Methods that need every statement *)
Section all_methods.
Context `{Host} (R : relation db) `{!StatementSpec R}.

#[export] Instance cancel_pending_respects t c r : Respects R (cancel_pending t c r).
Proof. method. Qed.
#[export] Instance cancel_pending_submissions_respects t c :
  Respects R (cancel_pending_submissions t c).
Proof. method. Qed.

#[export] Instance persist_runtime_respects a b c d e f g h i j :
  Respects R (persist_runtime a b c d e f g h i j).
Proof. method. Qed.

Section accept.
Context {X} (side : option (string → time → option string → txn X)).
Context (Hside : ∀ f a b c, side = Some f → Respects R (f a b c)).

Lemma materialize_turn_respects a b c d e f g h i j k l m :
  Respects R (materialize_turn side a b c d e f g h i j k l m).
Proof using Type*. pose proof (run_side_effect_respects R side). method. Qed.
Lemma accept_submission_respects a b c d e f g h i j k l :
  Respects R (accept_submission side a b c d e f g h i j k l).
Proof using Type*.
  apply accept_submission_by_blocks; [apply _ | done | apply materialize_turn_respects].
Qed.
End accept.

#[export] Instance accept_and_open_execution_respects a b c d e f g h i j k l m n :
  Respects R (accept_and_open_execution a b c d e f g h i j k l m n).
Proof.
  unfold accept_and_open_execution. solve_respects.
  apply accept_submission_respects. intros. simplify_eq. apply _.
Qed.

#[export] Instance release_next_turn_respects a b c : Respects R (release_next_turn a b c).
Proof. method. Qed.
Lemma finish_turn_respects a b c d (side : option (time → txn unit)) e :
  (∀ f x, side = Some f → Respects R (f x)) → Respects R (finish_turn a b c d side e).
Proof.
  intros Hside. method; (apply run_opt_respects; [apply _|]; intros m; destruct side; naive_solver).
Qed.
#[export] Instance append_item_respects a b c d e f g h i : Respects R (append_item a b c d e f g h i).
Proof. method. Qed.
#[export] Instance finish_runtime_respects a b c d e f : Respects R (finish_runtime a b c d e f).
Proof. method. Qed.
#[export] Instance finish_execution_respects a b c d e : Respects R (finish_execution a b c d e).
Proof.
  unfold finish_execution. solve_respects. apply finish_turn_respects.
  intros. simplify_eq. apply _.
Qed.
End all_methods.

(** ** The shape of a successful completion *)
Section finish.
Context `{Host}.

Lemma run_opt_Some {X} (m : txn X) d o d' :
  run_opt (Some m) d = Ok (o, d') → ∃ x, m d = Ok (x, d').
Proof. simpl. intros (x & d1 & Hm & [_ ->]%ret_Ok)%bind_Ok. eauto. Qed.

Lemma finish_execution_inv x s e f c d r d' :
  finish_execution x s e f c d = Ok (r, d') →
  ∃ es t,
    execution_status_of s = Some es ∧ turn_by_id (xc_turn_id x) d = Some t ∧
    tn_task_id t = xc_task_id x ∧
    ((turn_active t = false ∧ tn_status t = s ∧
      finish_runtime x s es e f c d = Ok (tt, d')) ∨
     (turn_active t = true ∧ ∃ d1 d2 p,
        repo_finish_turn (xc_turn_id x) s c c f d = Ok (1%Z, d1) ∧
        release_next_turn (xc_task_id x) (xc_turn_id x) c d1 = Ok (p, d2) ∧
        finish_runtime x s es e f c d2 = Ok (tt, d'))).
Proof.
  unfold finish_execution, finish_turn. intros Hrun.
  apply bind_Ok in Hrun as (es & ? & [Hes ->]%require_some_Ok & Hrun).
  apply bind_Ok in Hrun as (? & ? & [_ ->]%require_Ok & Hrun).
  apply bind_Ok in Hrun as (? & ? & Hb & Hrun). reads_only Hb.
  apply bind_Ok in Hrun as (? & ? & Hc & Hrun). reads_only Hc.
  apply bind_Ok in Hrun as (? & ? & [-> ->]%gets_Ok & Hrun).
  apply bind_Ok in Hrun as (t & ? & [Ht ->]%require_some_Ok & Hrun).
  apply bind_Ok in Hrun as (? & ? & [Htask%String.eqb_eq ->]%require_Ok & Hrun).
  exists es, t. split_and!; [done..|]. destruct (turn_active t) eqn:Ha; simpl in Hrun.
  - right. split; [done|].
    apply bind_Ok in Hrun as (n & d1 & Hn & Hrun).
    apply bind_Ok in Hrun as (? & ? & [Hone%Z.eqb_eq ->]%require_Ok & Hrun). subst n.
    apply bind_Ok in Hrun as (p & d2 & Hp & Hrun).
    apply bind_Ok in Hrun as (? & d3 & [[] Hf]%run_opt_Some & [_ ->]%ret_Ok).
    exists d1, d2, p. done.
  - left. apply bind_Ok in Hrun as (? & ? & [Hst ->]%require_Ok & Hrun).
    apply bind_Ok in Hrun as (? & d3 & [[] Hf]%run_opt_Some & [_ ->]%ret_Ok).
    apply andb_true_iff in Hst as [Hst%bool_decide_eq_true _]. done.
Qed.
End finish.

(** ** The shape of the shared prologue *)
Section prologue.
Context `{Host}.

Lemma actor_of_inv u d a d' :
  actor_of u d = Ok (a, d') → u_id u = Some a ∧ truthy a = true ∧ d' = d.
Proof.
  unfold actor_of. destruct (u_id u) as [x|]; [|by intros ?%raise_Ok].
  destruct (truthy x) eqn:Hx; [|by intros ?%raise_Ok]. by intros [-> ->]%ret_Ok.
Qed.

Lemma begin_write_inv d u d' :
  begin_write d = Ok (u, d') → maintenance_is_active d = Some false ∧ d' = d.
Proof.
  unfold begin_write. intros (? & ? & [-> ->]%gets_Ok & Hm)%bind_Ok.
  destruct (maintenance_is_active d) as [[]|]; [by apply raise_Ok in Hm | | by apply raise_Ok in Hm].
  by apply ret_Ok in Hm as [_ ->].
Qed.

(** The caller administers the installation or owns the Task. *)
Definition may_write (u : user) (task_id : string) (d : db) : Prop :=
  ∃ t, task_by_id task_id d = Some t ∧ (is_admin u = true ∨ u_id u = Some (tk_owner_user_id t)).

Lemma require_task_owner_inv t u d x d' :
  require_task_owner t u d = Ok (x, d') → may_write u t d ∧ d' = d.
Proof.
  unfold require_task_owner. intros (? & ? & [-> ->]%gets_Ok & Hrun)%bind_Ok.
  apply bind_Ok in Hrun as (row & ? & [Hrow ->]%require_some_Ok & Hrun).
  destruct (is_admin u || owner_is u (tk_owner_user_id row)) eqn:Ho.
  - apply ret_Ok in Hrun as [_ ->]. split; [|done]. exists row. split; [done|].
    apply orb_true_iff in Ho as [Ho|Ho%bool_decide_eq_true]; auto.
  - apply bind_Ok in Hrun as (? & ? & [-> ->]%gets_Ok & Hrun).
    apply bind_Ok in Hrun as (? & ? & [_ ->]%require_Ok & Hrun). by apply raise_Ok in Hrun.
Qed.

Lemma replay_inv a s k q d g o d' :
  replay a s k q d = Ok ((g, o), d') →
  d' = d ∧ g = request_hash q ∧ truthy k = true ∧
  match idempotency_record a s k d with
  | None => o = None
  | Some row => id_request_hash row = g ∧ o = Some (id_response row) ∧
      ∃ fields, id_response row = JObj fields
  end.
Proof.
  unfold replay. intros (? & ? & [Hk ->]%require_Ok & Hrun)%bind_Ok.
  apply bind_Ok in Hrun as (? & ? & [-> ->]%gets_Ok & Hrun).
  destruct (idempotency_record a s k d) as [row|].
  - apply bind_Ok in Hrun as (? & ? & [Hh%String.eqb_eq ->]%require_Ok & Hrun).
    destruct (id_response row) as [| | | | | |fields] eqn:Hj; try by apply raise_Ok in Hrun.
    apply ret_Ok in Hrun as [[= -> ->] ->]. split_and!; [done..|]. by exists fields.
  - by apply ret_Ok in Hrun as [[= -> ->] ->].
Qed.
End prologue.
