(* ===== verification/Integrity.v ===== *)
(** * Relational integrity

    [integrity d]: the unique indexes and checks of every conversation table
    hold, and every reference between the tables is met.  SQLite checks each
    statement only against the row it writes; here the global invariant is
    derived, and every statement keeps it ([integrity_statements]). *)

From stdpp Require Import base tactics list strings relations.
From Stdlib Require Import ZArith Lia.
From S2P Require Import Prelude PyText Tables Contracts RegistryRows Schema Repository Service Acceptance.
From S2P Require Import Execution Evolution Methods.

Local Open Scope Z_scope.

(** ** Indexes and checks, table by table *)

Record turns_ok (t : list turn_row) : Prop := {
  turns_pk : Unique always tn_turn_id t;
  turns_seq : Unique always (λ x, (tn_task_id x, tn_turn_seq x)) t;
  turns_one_active : Unique turn_active tn_task_id t;
  turns_native : Unique has_native_turn native_turn_key t;
  turns_check : Forall (λ x, turn_check x = true) t }.

Record items_ok (t : list item_row) : Prop := {
  items_pk : Unique always it_item_id t;
  items_task_seq : Unique always (λ x, (it_task_id x, it_task_item_seq x)) t;
  items_turn_seq : Unique always (λ x, (it_turn_id x, it_turn_item_seq x)) t;
  items_dedupe : Unique has_dedupe item_dedupe_key t;
  items_check : Forall (λ x, item_check x = true) t }.

Record bindings_ok (t : list binding_row) : Prop := {
  bindings_pk : Unique always bd_binding_id t;
  bindings_seq : Unique always (λ x, (bd_task_id x, bd_binding_seq x)) t;
  bindings_one_active : Unique binding_active bd_task_id t;
  bindings_native : Unique always binding_native_key t;
  bindings_check : Forall (λ x, binding_check x = true) t }.

Record submissions_ok (t : list submission_row) : Prop := {
  submissions_pk : Unique always sb_submission_id t;
  submissions_reserved : Unique always sb_reserved_turn_id t;
  submissions_key :
    Unique always (λ x, (sb_actor_user_id x, sb_task_id x, sb_idempotency_key x)) t;
  submissions_native : Unique has_submission_native submission_native_key t;
  submissions_check : Forall (λ x, submission_check x = true) t }.

Record intents_ok (t : list intent_row) : Prop := {
  intents_pk : Unique always in_submission_id t;
  intents_check : Forall (λ x, intent_check x = true) t }.

Record next_turns_ok (t : list next_turn_row) : Prop := {
  next_turns_pk : Unique always nt_submission_id t;
  next_turns_one_pending : Unique next_pending nt_task_id t;
  next_turns_check : Forall (λ x, next_turn_check x = true) t }.

Record executions_ok (t : list execution_row) : Prop := {
  executions_pk : Unique always ex_runtime_execution_id t;
  executions_seq : Unique always (λ x, (ex_turn_id x, ex_execution_seq x)) t;
  executions_generation : Unique always (λ x, (ex_turn_id x, ex_runtime_generation x)) t;
  executions_one_active : Unique exec_active ex_turn_id t;
  executions_native : Unique has_execution_native execution_native_key t;
  executions_check : Forall (λ x, execution_check x = true) t }.

Record controls_ok (t : list control_row) : Prop := {
  controls_pk : Unique always ct_control_request_id t;
  controls_key : Unique always (λ x, (ct_actor_user_id x, ct_kind x, ct_idempotency_key x)) t;
  controls_check : Forall (λ x, control_check x = true) t }.

Record states_ok (t : list state_row) : Prop := {
  states_pk : Unique always st_task_id t;
  states_check : Forall (λ x, state_check x = true) t }.

(** ** References *)

Definition turn_ref (d : db) (t : turn_row) : bool :=
  authority_exists d (tn_task_id t) && task_exists d (tn_task_id t)
  && fk_opt (tn_retry_of_turn_id t) (λ r,
       row_exists (λ p, turn_in r (tn_task_id t) p && Z.ltb (tn_turn_seq p) (tn_turn_seq t))
         (task_turns d))
  && fk_opt (tn_binding_id t) (λ b,
       row_exists (λ x, eqs (bd_binding_id x) b && eqs (bd_task_id x) (tn_task_id t)
         && eqs (bd_engine_family x) (tn_engine_family t)
         && eqs (bd_engine_driver x) (tn_engine_driver t)) (bindings d)).

Definition item_ref (d : db) (i : item_row) : bool :=
  row_exists (turn_in (it_turn_id i) (it_task_id i)) (task_turns d)
  && fk_opt (it_call_item_id i) (λ c,
       row_exists (λ x, eqs (it_item_id x) c && eqs (it_turn_id x) (it_turn_id i)
         && Z.ltb (it_turn_item_seq x) (it_turn_item_seq i)
         && bool_decide (it_item_type x = Item_TOOL_CALL)) (turn_items d))
  && implb (bool_decide (it_item_type i = Item_TOOL_RESULT)) (not_none (it_call_item_id i)).

Definition submission_ref (d : db) (s : submission_row) : bool :=
  authority_exists d (sb_task_id s) && task_exists d (sb_task_id s)
  && implb (bool_decide (sb_status s = Sub_DELIVERED))
       (row_exists (λ t, turn_in (sb_reserved_turn_id s) (sb_task_id s) t
          && eq_sql (tn_native_turn_kind t) (sb_native_turn_kind s)
          && eq_sql (tn_native_turn_ref t) (sb_native_turn_ref s)) (task_turns d)).

Definition intent_ref (d : db) (i : intent_row) : bool :=
  row_exists (λ s, eqs (sb_submission_id s) (in_submission_id i)
    && eqs (sb_task_id s) (in_task_id i)) (submissions d)
  && fk_opt (in_retry_of_turn_id i) (λ r,
       row_exists (turn_in r (in_task_id i)) (task_turns d)).

Definition next_turn_ref (d : db) (n : next_turn_row) : bool :=
  row_exists (turn_in (nt_blocking_turn_id n) (nt_task_id n)) (task_turns d)
  && row_exists (λ s, eqs (sb_submission_id s) (nt_submission_id n)
       && eqs (sb_task_id s) (nt_task_id n)) (submissions d).

Definition execution_ref (d : db) (e : execution_row) : bool :=
  row_exists (λ t, turn_in (ex_turn_id e) (ex_task_id e) t
    && eq_sql (tn_native_turn_kind t) (ex_native_turn_kind e)
    && eq_sql (tn_native_turn_ref t) (ex_native_turn_ref e)) (task_turns d)
  && fk_opt (ex_binding_id e) (λ b,
       row_exists (λ t, turn_in (ex_turn_id e) (ex_task_id e) t
         && eq_sql (tn_binding_id t) (Some b)) (task_turns d)).

Definition control_ref (d : db) (c : control_row) : bool :=
  row_exists (turn_in (ct_expected_turn_id c) (ct_task_id c)) (task_turns d)
  && row_exists (λ e, eqs (ex_runtime_execution_id e) (ct_runtime_execution_id c)
       && eqs (ex_turn_id e) (ct_expected_turn_id c)
       && Z.eqb (ex_runtime_generation e) (ct_runtime_generation c)) (executions d).

Definition state_ref (d : db) (s : state_row) : bool := authority_exists d (st_task_id s).

Definition binding_ref (d : db) (b : binding_row) : bool :=
  authority_exists d (bd_task_id b) && task_exists d (bd_task_id b).

(** Every row of a table has its references met. *)
Definition met {R} (ref : db → R → bool) (table : db → list R) (d : db) : Prop :=
  Forall (λ r, ref d r = true) (table d).

Record integrity (d : db) : Prop := mkIntegrity {
  ok_turns : turns_ok (task_turns d);
  ok_items : items_ok (turn_items d);
  ok_bindings : bindings_ok (bindings d);
  ok_submissions : submissions_ok (submissions d);
  ok_intents : intents_ok (intents d);
  ok_next_turns : next_turns_ok (next_turns d);
  ok_executions : executions_ok (executions d);
  ok_controls : controls_ok (controls d);
  ok_states : states_ok (task_states d);
  ok_authorities : NoDup (task_authorities d);
  ok_idempotency :
    Unique always (λ x, (id_actor_user_id x, id_scope x, id_key x)) (idempotency d);
  ok_audit : Unique always au_event_id (audit_events d);
  met_turns : met turn_ref task_turns d;
  met_items : met item_ref turn_items d;
  met_bindings : met binding_ref bindings d;
  met_submissions : met submission_ref submissions d;
  met_intents : met intent_ref intents d;
  met_next_turns : met next_turn_ref next_turns d;
  met_executions : met execution_ref executions d;
  met_controls : met control_ref controls d;
  met_states : met state_ref task_states d }.

(** ** References survive evolution *)

Lemma andb_mono a b a' b' :
  (a = true → a' = true) → (b = true → b' = true) → a && b = true → a' && b' = true.
Proof. destruct a, b; naive_solver. Qed.

Lemma implb_mono a b b' : (b = true → b' = true) → implb a b = true → implb a b' = true.
Proof. destruct a, b; naive_solver. Qed.

Lemma fk_opt_mono o p q :
  (∀ x, p x = true → q x = true) → fk_opt o p = true → fk_opt o q = true.
Proof. destruct o; simpl; auto. Qed.

Section mono.
Context (d d' : db) (Hev : db_evolves d d').

Lemma authority_mono t : authority_exists d t = true → authority_exists d' t = true.
Proof using Hev.
  unfold authority_exists. rewrite !existsb_exists.
  pose proof (ev_authorities _ _ Hev) as [v ->]%appends_prefix.
  intros (x & ? & ?). exists x. rewrite in_app_iff. auto.
Qed.

Lemma task_exists_mono t : task_exists d t = true → task_exists d' t = true.
Proof using Hev.
  eapply evolves_row_exists, ev_tasks, Hev. unfold task_evolves, task_identity.
  intros r r' [= ->]. done.
Qed.

Lemma turn_exists_mono p q :
  (∀ r r', turn_identity r' = turn_identity r → p r = true → q r' = true) →
  row_exists p (task_turns d) = true → row_exists q (task_turns d') = true.
Proof using Hev.
  intros Hpq. eapply evolves_row_exists, ev_turns, Hev. intros r r' (? & _). by apply Hpq.
Qed.

Lemma submission_exists_mono p q :
  (∀ r r', submission_identity r' = submission_identity r → p r = true → q r' = true) →
  row_exists p (submissions d) = true → row_exists q (submissions d') = true.
Proof using Hev.
  intros Hpq. eapply evolves_row_exists, ev_submissions, Hev. intros r r' (? & _). by apply Hpq.
Qed.

Lemma execution_exists_mono p q :
  (∀ r r', execution_identity r' = execution_identity r → p r = true → q r' = true) →
  row_exists p (executions d) = true → row_exists q (executions d') = true.
Proof using Hev.
  intros Hpq. eapply evolves_row_exists, ev_executions, Hev. intros r r' (? & _). by apply Hpq.
Qed.

Lemma binding_exists_mono p q :
  (∀ r r', binding_identity r' = binding_identity r → p r = true → q r' = true) →
  row_exists p (bindings d) = true → row_exists q (bindings d') = true.
Proof using Hev.
  intros Hpq. eapply evolves_row_exists, ev_bindings, Hev. intros r r' (? & _). by apply Hpq.
Qed.

Lemma item_exists_mono p :
  row_exists p (turn_items d) = true → row_exists p (turn_items d') = true.
Proof using Hev. eapply evolves_row_exists, ev_items, Hev. by intros ?? ->. Qed.

(** Break a reference into its atoms and apply the lemma of each table. *)
Ltac mono :=
  repeat first
    [ apply andb_mono | apply implb_mono | apply fk_opt_mono; intros ?
    | apply authority_mono | apply task_exists_mono | apply item_exists_mono
    | apply turn_exists_mono; intros ?? Hid | apply submission_exists_mono; intros ?? Hid
    | apply execution_exists_mono; intros ?? Hid | apply binding_exists_mono; intros ?? Hid ];
  try done;
  unfold turn_in, turn_identity, submission_identity, execution_identity, binding_identity in *;
  simplify_eq/=; repeat match goal with H : ?a = ?b |- _ => rewrite H; clear H end; try done.

Lemma turn_ref_mono t : turn_ref d t = true → turn_ref d' t = true.
Proof using Hev. unfold turn_ref. mono. Qed.
Lemma item_ref_mono t : item_ref d t = true → item_ref d' t = true.
Proof using Hev. unfold item_ref. mono. Qed.
Lemma binding_ref_mono t : binding_ref d t = true → binding_ref d' t = true.
Proof using Hev. unfold binding_ref. mono. Qed.
Lemma submission_ref_mono t : submission_ref d t = true → submission_ref d' t = true.
Proof using Hev. unfold submission_ref. mono. Qed.
Lemma intent_ref_mono t : intent_ref d t = true → intent_ref d' t = true.
Proof using Hev. unfold intent_ref. mono. Qed.
Lemma next_turn_ref_mono t : next_turn_ref d t = true → next_turn_ref d' t = true.
Proof using Hev. unfold next_turn_ref. mono. Qed.
Lemma execution_ref_mono t : execution_ref d t = true → execution_ref d' t = true.
Proof using Hev. unfold execution_ref. mono. Qed.
Lemma control_ref_mono t : control_ref d t = true → control_ref d' t = true.
Proof using Hev. unfold control_ref. mono. Qed.
Lemma state_ref_mono t : state_ref d t = true → state_ref d' t = true.
Proof using Hev. unfold state_ref. mono. Qed.
End mono.

(** ** Statements keep integrity *)

Definition integral : relation db := λ d d', db_evolves d d' ∧ (integrity d → integrity d').

#[export] Instance integral_preorder : PreOrder integral.
Proof.
  split; [by intros d|]. intros d1 d2 d3 [He1 Hi1] [He2 Hi2].
  split; [by etrans | auto].
Qed.

Section met.
Context {R : Type} (ref : db → R → bool) (table : db → list R) (d d' : db).
Context (Hmono : ∀ r, ref d r = true → ref d' r = true).

Lemma met_same : table d' = table d → met ref table d → met ref table d'.
Proof using Hmono. unfold met. intros -> Hm. by eapply Forall_impl. Qed.

Lemma met_insert r :
  table d' = table d ++ [r] → ref d r = true → met ref table d → met ref table d'.
Proof using Hmono.
  unfold met. intros -> Hr Hm. apply forall_insert; [|auto]. by eapply Forall_impl.
Qed.

Lemma met_update p f :
  table d' = on_rows p f (table d) →
  (∀ r, r ∈ table d → p r = true → ref d r = true → ref d' (f r) = true) →
  met ref table d → met ref table d'.
Proof using Hmono.
  unfold met. rewrite !Forall_forall. intros -> Hf Hm r (x & Hx & ->)%elem_of_on_rows.
  destruct (p x) eqn:Hp; eauto.
Qed.
End met.

Ltac met_mono :=
  first [ by apply turn_ref_mono | by apply item_ref_mono | by apply binding_ref_mono
        | by apply submission_ref_mono | by apply intent_ref_mono | by apply next_turn_ref_mono
        | by apply execution_ref_mono | by apply control_ref_mono | by apply state_ref_mono ].

Ltac rebool :=
  repeat match goal with |- _ && _ = true => apply andb_true_iff; split end; try done; eauto.

Lemma row_exists_impl {R} (p q : R → bool) t :
  (∀ r, p r = true → q r = true) → row_exists p t = true → row_exists q t = true.
Proof. rewrite !row_exists_true. naive_solver. Qed.

Ltac split_ands :=
  repeat match goal with H : _ && _ = true |- _ => apply andb_true_iff in H as [? ?] end.

(** A row that satisfies more than the goal asks for. *)
Ltac weaken_row :=
  match goal with
  | H : row_exists ?p ?t = true |- row_exists ?q ?t = true =>
      solve [apply (row_exists_impl p q t); [intros ? ?; split_ands; rebool | exact H]]
  end.

(** The constraints of one table after an insertion. *)
Ltac table_by_insert :=
  match goal with H : _ ?t |- _ (?t ++ [_]) => destruct H end;
  constructor; first [by apply unique_insert | by apply forall_insert].

(** The frame of a statement: tables and references it does not write. *)
Ltac integrity_frame d :=
  let Hok := fresh in
  intros Hok; destruct Hok; constructor; simpl in *; try assumption;
  try (eapply met_same; [intros ?; met_mono | reflexivity | eassumption]).

Ltac integrity_by_insert :=
  let d := fresh "d" in let u := fresh "u" in let d' := fresh "d'" in
  let Hrun := fresh "Hrun" in let Hev := fresh "Hev" in let Hg := fresh "Hg" in
  intros d u d' Hrun;
  match type of Hrun with ?m _ = _ => pose proof (respects (R:=db_evolves) (m:=m) _ _ _ Hrun) as Hev end;
  split; [exact Hev|]; apply insert_row_inv in Hrun as [Hg ->];
  guard_facts Hg; split_bools; integrity_frame d;
  [ try table_by_insert
  | try (eapply met_insert; [intros ?; met_mono | reflexivity | | eassumption]) .. ].

(** The constraints of one table after an update; partial indexes whose
    predicate the update changes are left to prove. *)
Ltac table_by_update Hguard :=
  match goal with H : _ ?t |- _ (on_rows _ _ ?t) => destruct H end;
  constructor;
  first
    [ apply forall_update; [done|]; intros ? Hr Hp _; specialize (Hguard _ Hr Hp);
      guard_facts Hguard; done
    | apply unique_update; [done|]; intros ? Hr Hp Hidx; try (by split);
      specialize (Hguard _ Hr Hp); guard_facts Hguard; split_bools; simpl in * ].

Ltac integrity_by_update :=
  let d := fresh "d" in let n := fresh "n" in let d' := fresh "d'" in
  let Hrun := fresh "Hrun" in let Hev := fresh "Hev" in let Hguard := fresh "Hguard" in
  intros d n d' Hrun;
  match type of Hrun with ?m _ = _ => pose proof (respects (R:=db_evolves) (m:=m) _ _ _ Hrun) as Hev end;
  split; [exact Hev|]; apply update_rows_inv in Hrun as (-> & _ & Hguard);
  integrity_frame d; simpl in *; [ | eapply met_update; [intros ?; met_mono | reflexivity | | eassumption] ].

(** The references of an updated row only read identity columns. *)
Ltac row_ref_kept Hev :=
  intros ? _ _ Href;
  first [ exact (turn_ref_mono _ _ Hev _ Href) | exact (binding_ref_mono _ _ Hev _ Href)
        | exact (submission_ref_mono _ _ Hev _ Href) | exact (next_turn_ref_mono _ _ Hev _ Href)
        | exact (execution_ref_mono _ _ Hev _ Href) | exact (control_ref_mono _ _ Hev _ Href)
        | exact (state_ref_mono _ _ Hev _ Href) ].

Section statements.
#[export] Instance insert_task_authority_integral t c :
  Respects integral (insert_task_authority t c).
Proof.
  integrity_by_insert.
  apply NoDup_app. split_and!; [done | | apply NoDup_singleton].
  intros x Hx ->%list_elem_of_singleton.
  match goal with H : authority_exists _ _ = false |- _ => revert H end.
  unfold authority_exists; simpl. rewrite <-not_true_iff_false, existsb_exists.
  intros Hn. apply Hn. exists t. split; [by apply list_elem_of_In | apply String.eqb_refl].
Qed.

#[export] Instance insert_task_state_integral t c : Respects integral (insert_task_state t c).
Proof. integrity_by_insert. done. Qed.

#[export] Instance insert_turn_integral a b c d e f g h i j k l m n o p q r s :
  Respects integral (insert_turn a b c d e f g h i j k l m n o p q r s).
Proof. integrity_by_insert. unfold turn_ref; simpl. rebool. Qed.

#[export] Instance insert_turn_item_integral i : Respects integral (insert_turn_item i).
Proof. integrity_by_insert. unfold item_ref; simpl. rebool. Qed.

#[export] Instance insert_binding_integral a b c d e f g h i j k l m n o :
  Respects integral (insert_binding a b c d e f g h i j k l m n o).
Proof. integrity_by_insert. unfold binding_ref; simpl. rebool. Qed.

#[export] Instance insert_submission_integral a b c d e f g h i j k :
  Respects integral (insert_submission a b c d e f g h i j k).
Proof. integrity_by_insert. unfold submission_ref; simpl. rebool. Qed.

#[export] Instance insert_submission_intent_integral a b c d e :
  Respects integral (insert_submission_intent a b c d e).
Proof. integrity_by_insert. unfold intent_ref; simpl. rebool. Qed.

#[export] Instance insert_runtime_execution_integral a b c d e f g h i j k l m n :
  Respects integral (insert_runtime_execution a b c d e f g h i j k l m n).
Proof.
  integrity_by_insert. unfold execution_ref; simpl. rebool; weaken_row.
Qed.

#[export] Instance insert_next_turn_integral a b c d :
  Respects integral (insert_next_turn a b c d).
Proof.
  integrity_by_insert. unfold next_turn_ref; simpl. rebool; weaken_row.
Qed.

#[export] Instance insert_control_request_integral a b c d e f g h i j k l :
  Respects integral (insert_control_request a b c d e f g h i j k l).
Proof.
  integrity_by_insert. unfold control_ref; simpl. rebool; weaken_row.
Qed.

#[export] Instance insert_idempotency_record_integral a b c d e f :
  Respects integral (insert_idempotency_record a b c d e f).
Proof. integrity_by_insert. by apply unique_insert. Qed.

#[export] Instance insert_audit_event_integral a b c d e f g :
  Respects integral (insert_audit_event a b c d e f g).
Proof. integrity_by_insert. by apply unique_insert. Qed.

#[export] Instance repo_update_work_status_integral a b c d :
  Respects integral (repo_update_work_status a b c d).
Proof. integrity_by_update; [by table_by_update Hguard | by intros]. Qed.

#[export] Instance repo_finish_turn_integral a b c d e :
  Respects integral (repo_finish_turn a b c d e).
Proof.
  integrity_by_update.
  - table_by_update Hguard. exfalso. unfold turn_active in Hidx; simpl in Hidx.
    split_bools. subst. by destruct (tn_status _).
  - row_ref_kept Hev.
Qed.

#[export] Instance supersede_binding_integral a b c : Respects integral (supersede_binding a b c).
Proof.
  integrity_by_update; [|row_ref_kept Hev]. by table_by_update Hguard.
Qed.

#[export] Instance reclaim_integral s c : Respects integral (reclaim s c).
Proof. integrity_by_update; [by table_by_update Hguard | row_ref_kept Hev]. Qed.

#[export] Instance repin_submissions_integral a b c : Respects integral (repin_submissions a b c).
Proof. integrity_by_update; [by table_by_update Hguard | row_ref_kept Hev]. Qed.

#[export] Instance transition_runtime_execution_integral a b c d e f g :
  Respects integral (transition_runtime_execution a b c d e f g).
Proof. integrity_by_update; [by table_by_update Hguard | row_ref_kept Hev]. Qed.

#[export] Instance promote_next_turn_integral a b c : Respects integral (promote_next_turn a b c).
Proof.
  integrity_by_update; [|row_ref_kept Hev]. table_by_update Hguard.
  unfold next_pending. split; [|done].
  by match goal with H : nt_status _ = _ |- _ => rewrite H end.
Qed.

#[export] Instance cancel_next_turn_integral a b : Respects integral (cancel_next_turn a b).
Proof. integrity_by_update; [by table_by_update Hguard | row_ref_kept Hev]. Qed.

#[export] Instance claim_interrupt_request_integral a b c :
  Respects integral (claim_interrupt_request a b c).
Proof. integrity_by_update; [by table_by_update Hguard | row_ref_kept Hev]. Qed.

#[export] Instance transition_control_request_integral a b c d e f g h :
  Respects integral (transition_control_request a b c d e f g h).
Proof. integrity_by_update; [by table_by_update Hguard | row_ref_kept Hev]. Qed.

#[export] Instance complete_accepted_interrupts_integral a b c :
  Respects integral (complete_accepted_interrupts a b c).
Proof. integrity_by_update; [by table_by_update Hguard | row_ref_kept Hev]. Qed.

(** The native identity of a delivered submission is new to its Task. *)
#[export] Instance transition_submission_integral a b c d e f g h i j k l :
  Respects integral (transition_submission a b c d e f g h i j k l).
Proof.
  integrity_by_update.
  - destruct ok_submissions0. constructor;
      [by apply unique_update; [done | by split] .. | |].
    + apply (unique_update_one _ _ sb_submission_id _ _ _ a); [done.. | |].
      { intros r ?. by split_bools. }
      intros r x Hr Hp Hx Hne Hi Hix. specialize (Hguard r Hr Hp). guard_facts Hguard.
      intros Hk. match goal with H : index_free _ _ _ _ = true |- _ => revert H end.
      unfold index_free. rewrite Hi. simpl. rewrite negb_true_iff, row_exists_false.
      intros Hfree. specialize (Hfree x). rewrite Hix, bool_decide_eq_true_2 in Hfree by done.
      enough (true && true = false) by done. apply Hfree, elem_of_select. split; [done|].
      split_bools. apply negb_true_iff, String.eqb_neq. congruence.
    + apply forall_update; [done|]. intros r Hr Hp _. specialize (Hguard r Hr Hp).
      by guard_facts Hguard.
  - intros r Hr Hp Href. specialize (Hguard r Hr Hp). guard_facts Hguard.
    pose proof (submission_ref_mono _ _ Hev _ Href) as Href'.
    unfold submission_ref in *; simpl in *. split_ands. rebool.
Qed.
End statements.

#[export] Instance integrity_statements : StatementSpec integral.
Proof.
  constructor; try apply _. intros p f Hf d n d' Hrun.
  pose proof (update_tasks_evolves p f Hf d n d' Hrun) as Hev. split; [done|].
  apply update_rows_inv in Hrun as (-> & _ & _). by integrity_frame d.
Qed.
