(* ===== verification/System.v ===== *)
(** * The control plane as a transition system

    One step is one committed transaction of a public method (a failed one
    leaves the database as it was), the part of the creation of a Task that
    opens its conversation, the statement with which the Context of a Task reaches
    its queued submissions, or a change of the tables the conversation
    domain only reads (projects, grants, maintenance flag, new Task rows).
    Methods of the worker that take a [RuntimeExecutionClaim] take one that
    [accept_and_open_execution] returned, i.e. one that names an execution row
    ([genuine]).  [BlockSpec] collects what a relation must satisfy for every
    step to satisfy it. *)

From stdpp Require Import base tactics list strings relations.
From Stdlib Require Import ZArith Lia.
From S2P Require Import Prelude PyText Tables Contracts RegistryRows Schema Repository Service Acceptance.
From S2P Require Import Execution Evolution Methods Integrity.

#[local] Hint Constants Opaque : typeclass_instances.
#[local] Hint Transparent dict time relation : typeclass_instances.

(** The claim names a persisted execution. *)
Definition names (x : RuntimeExecutionClaim) (e : execution_row) : Prop :=
  ex_runtime_execution_id e = xc_runtime_execution_id x ∧ ex_task_id e = xc_task_id x ∧
  ex_turn_id e = xc_turn_id x ∧ ex_runtime_generation e = xc_runtime_generation x.

Definition genuine (d : db) (x : RuntimeExecutionClaim) : Prop :=
  ∃ e, e ∈ executions d ∧ names x e.

(** Changes made by the rest of the program. *)
Record control_plane (d d' : db) : Prop := mkControlPlane {
  cp_tasks : Evolves task_evolves (tasks d) (tasks d');
  cp_tasks_pk : Unique always tk_task_id (tasks d) → Unique always tk_task_id (tasks d');
  cp_authorities : task_authorities d' = task_authorities d;
  cp_states : task_states d' = task_states d;
  cp_turns : task_turns d' = task_turns d;
  cp_items : turn_items d' = turn_items d;
  cp_bindings : bindings d' = bindings d;
  cp_submissions : submissions d' = submissions d;
  cp_intents : intents d' = intents d;
  cp_next_turns : next_turns d' = next_turns d;
  cp_executions : executions d' = executions d;
  cp_controls : controls d' = controls d;
  cp_idempotency : Appends (idempotency d) (idempotency d');
  cp_idempotency_pk :
    Unique always (λ x, (id_actor_user_id x, id_scope x, id_key x)) (idempotency d) →
    Unique always (λ x, (id_actor_user_id x, id_scope x, id_key x)) (idempotency d');
  cp_audit : Appends (audit_events d) (audit_events d');
  cp_audit_pk : Unique always au_event_id (audit_events d) →
    Unique always au_event_id (audit_events d') }.

Section system.
Context `{Host}.

(** One committed transaction of a method of the conversation domain. *)
Inductive conversation_step : db → db → Prop :=
| step_initialize_task t u c e r d d' :
    initialize_task t u c e d = Ok (r, d') → conversation_step d d'
| step_update_work_status t u s k c e r d d' :
    update_work_status t u s k c e d = Ok (r, d') → conversation_step d d'
| step_complete_task t u k c e r d d' : complete_task t u k c e d = Ok (r, d') → conversation_step d d'
| step_reopen_task t u k c e r d d' : reopen_task t u k c e d = Ok (r, d') → conversation_step d d'
| step_cancel_task t u k c i r d d' : cancel_task t u k c i d = Ok (r, d') → conversation_step d d'
| step_create_turn auth t u i k x n c b e f r d d' :
    create_turn auth t u i k x n c b e f d = Ok (r, d') → conversation_step d d'
| step_retry_turn auth t n u i k x c b e f r d d' :
    retry_turn auth t n u i k x c b e f d = Ok (r, d') → conversation_step d d'
| step_archive_task t u k c r d d' : archive_task t u k c d = Ok (r, d') → conversation_step d d'
| step_unarchive_task t u k c r d d' : unarchive_task t u k c d = Ok (r, d') → conversation_step d d'
| step_update_task_title t u l k c r d d' :
    update_task_title t u l k c d = Ok (r, d') → conversation_step d d'
| step_request_steer t n u p k c i r d d' :
    request_steer t n u p k c i d = Ok (r, d') → conversation_step d d'
| step_request_interrupt t n u k c i r d d' :
    request_interrupt t n u k c i d = Ok (r, d') → conversation_step d d'
| step_claim_next_submission a c n r d d' :
    claim_next_submission a c n d = Ok (r, d') → conversation_step d d'
| step_mark_delivery_unknown s f e c r d d' :
    mark_delivery_unknown s f e c d = Ok (r, d') → conversation_step d d'
| step_begin_delivery s m c r d d' : begin_delivery s m c d = Ok (r, d') → conversation_step d d'
| step_accept snapshot claim ef ed ck cr tk tr rk rr ev c bu iu r d d' :
    db_evolves snapshot d →
    accept_and_open_execution snapshot claim ef ed ck cr tk tr rk rr ev c bu iu d = Ok (r, d') →
    conversation_step d d'
| step_append_item x ty ac p pr ni o c i r d d' :
    genuine d x → append_item x ty ac p pr ni o c i d = Ok (r, d') → conversation_step d d'
| step_claim_interrupt i k c r d d' : claim_interrupt i k c d = Ok (r, d') → conversation_step d d'
| step_recover_controls a n c r d d' :
    recover_stale_control_delivery a n c d = Ok (r, d') → conversation_step d d'
| step_transition_control i e s v f c r d d' :
    transition_control i e s v f c d = Ok (r, d') → conversation_step d d'
| step_finish_execution x s e f c r d d' :
    genuine d x → finish_execution x s e f c d = Ok (r, d') → conversation_step d d'.

Inductive step : db → db → Prop :=
| step_control_plane d d' : control_plane d d' → step d d'
| step_conversation d d' : conversation_step d d' → step d d'
| step_open t p a k g s i n c r d d' :
    maintenance_is_active d = Some false → open_conversation t p a k g s i n c d = Ok (r, d') →
    step d d'
| step_repin t s c n d d' :
    maintenance_is_active d = Some false → repin_submissions t s c d = Ok (n, d') → step d d'.

Record initial (d : db) : Prop := mkInitial {
  init_tasks : Unique always tk_task_id (tasks d);
  init_authorities : task_authorities d = [];
  init_states : task_states d = [];
  init_turns : task_turns d = [];
  init_items : turn_items d = [];
  init_bindings : bindings d = [];
  init_submissions : submissions d = [];
  init_intents : intents d = [];
  init_next_turns : next_turns d = [];
  init_executions : executions d = [];
  init_controls : controls d = [];
  init_idempotency : idempotency d = [];
  init_audit : audit_events d = [] }.

Definition reachable (d : db) : Prop := ∃ d0, initial d0 ∧ rtc step d0 d.

(** What a relation must satisfy for every step to satisfy it. *)
Class BlockSpec (R : relation db) : Prop := {
  bs_safe :: SafeStatements R;
  bs_control_plane d d' : control_plane d d' → R d d';
  bs_repin a b c :: Respects R (repin_submissions a b c);
  bs_cancel t c :: Respects R (cancel_pending_submissions t c);
  bs_accept snapshot claim ef ed ck cr tk tr rk rr ev c bu iu d r d' :
    db_evolves snapshot d →
    accept_and_open_execution snapshot claim ef ed ck cr tk tr rk rr ev c bu iu d = Ok (r, d') →
    R d d';
  bs_append x ty ac p pr ni o c i d r d' :
    genuine d x → append_item x ty ac p pr ni o c i d = Ok (r, d') → R d d';
  bs_finish x s e f c d r d' :
    genuine d x → finish_execution x s e f c d = Ok (r, d') → R d d' }.

Lemma conversation_step_spec R `{!BlockSpec R} d d' : conversation_step d d' → R d d'.
Proof.
  destruct 1;
    try match goal with
    | Hm : ?m _ = Ok _ |- _ => exact (respects (R:=R) (m:=m) _ _ _ Hm)
    end.
  - eapply (cancel_task_respects R); [apply _ | eassumption].
  - by eapply bs_accept.
  - by eapply bs_append.
  - by eapply bs_finish.
Qed.

Lemma step_spec R `{!BlockSpec R} d d' : step d d' → R d d'.
Proof.
  destruct 1.
  - by apply bs_control_plane.
  - by apply conversation_step_spec.
  - by eapply (respects (R:=R) (m:=open_conversation _ _ _ _ _ _ _ _ _)).
  - by eapply (respects (R:=R) (m:=repin_submissions _ _ _)).
Qed.

Lemma steps_spec R `{!BlockSpec R} d d' : rtc step d d' → R d d'.
Proof. induction 1; [reflexivity|]. etrans; [by eapply step_spec | done]. Qed.

Lemma control_plane_evolves d d' : control_plane d d' → db_evolves d d'.
Proof.
  intros Hc. destruct Hc.
  constructor; try assumption;
    match goal with E : ?x = ?y |- _ ?y ?x => rewrite E end; reflexivity.
Qed.

(** A relation that every single statement respects. *)
Lemma statement_blocks R `{!StatementSpec R} :
  (∀ d d', control_plane d d' → R d d') → (∀ a b c, Respects R (repin_submissions a b c)) →
  BlockSpec R.
Proof.
  intros Hc Hr. constructor; try apply _; [done|..].
  - intros snapshot claim ef ed ck cr tk tr rk rr ev c bu iu d r d' _. apply respects_apply, _.
  - intros x ty ac p pr ni o c i d r d' _. apply respects_apply, _.
  - intros x s e f c d r d' _. apply respects_apply, _.
Qed.

#[export] Instance db_evolves_blocks : BlockSpec db_evolves.
Proof. apply (statement_blocks db_evolves); [apply control_plane_evolves | apply _]. Qed.

#[export] Instance integral_blocks : BlockSpec integral.
Proof.
  apply (statement_blocks integral); [|apply _].
  intros d d' Hc. pose proof (control_plane_evolves _ _ Hc) as Hev. split; [done|].
  destruct Hc. intros Hok. destruct Hok.
  constructor; try (match goal with E : ?x = ?y |- _ ?x => rewrite E; assumption end).
  all: try (eapply met_same; [intros ?; met_mono | by eassumption | eassumption]).
  all: try match goal with E : ?x = ?y |- _ ?x => rewrite E; assumption end.
  all: auto.
Qed.

Lemma initial_integrity d : initial d → integrity d.
Proof.
  intros Hi. destruct Hi.
  constructor; unfold met; first
    [ match goal with E : ?x = [] |- _ ?x => rewrite E end
    | match goal with E : ?x = [] |- context [?x] => rewrite E end ];
    repeat constructor.
Qed.

Lemma reachable_step d d' : reachable d → step d d' → reachable d'.
Proof. intros (d0 & Hi & Hs) Hst. exists d0. split; [done|]. by eapply rtc_r. Qed.

Lemma reachable_steps d d' : reachable d → rtc step d d' → reachable d'.
Proof. intros (d0 & Hi & Hs) Hst. exists d0. split; [done|]. by etrans. Qed.

Lemma reachable_integrity d : reachable d → integrity d.
Proof.
  intros (d0 & Hi & Hs). apply (steps_spec integral _ _ Hs), initial_integrity, Hi.
Qed.

(** The only row with a submission identifier, after any number of steps. *)
Lemma submission_later d d' s :
  integrity d → rtc step d d' → s ∈ submissions d →
  ∃ s', s' ∈ submissions d' ∧ submission_evolves s s' ∧
    ∀ x, x ∈ submissions d' → sb_submission_id x = sb_submission_id s → x = s'.
Proof.
  intros Hok Hs Hin. destruct (steps_spec integral _ _ Hs) as [Hev Hok'].
  destruct (evolves_elem _ _ _ _ (ev_submissions _ _ Hev) Hin) as (s' & Hs' & He).
  exists s'. split_and!; [done..|]. intros x Hx Hid.
  eapply unique_eq; [apply (submissions_pk _ (ok_submissions _ (Hok' Hok))) | done..|].
  destruct He as [He _]. unfold submission_identity in He. congruence.
Qed.
End system.

(** ** Invariants that rest on integrity *)

Definition under (I : db → Prop) : relation db :=
  λ d d', integral d d' ∧ (integrity d → I d → I d').

#[export] Instance under_preorder I : PreOrder (under I).
Proof.
  split; [by intros d; split|]. intros d1 d2 d3 [[He1 Hk1] H1] [[He2 Hk2] H2].
  split; [split; [by etrans | auto] | auto].
Qed.

Lemma under_run {A} (I : db → Prop) (m : txn A) d a d' :
  Respects integral m → m d = Ok (a, d') → (integrity d → I d → I d') → under I d d'.
Proof. intros Hm Hrun HI. split; [by eapply Hm | done]. Qed.

Lemma under_intro {A} (I : db → Prop) (m : txn A) :
  Respects integral m →
  (∀ d a d', m d = Ok (a, d') → integrity d → I d → I d') → Respects (under I) m.
Proof. intros Hm HI d a d' Hrun. by eapply under_run; [|by exact Hrun|eapply HI]. Qed.

(** The statement writes no table that the invariant reads. *)
Ltac frame_statement :=
  apply under_intro; [apply _|]; intros ? ? ? Hrun _ HI;
  first [ apply insert_row_inv in Hrun as [_ ->]
        | apply update_rows_inv in Hrun as (-> & _ & _) ];
  first [exact HI | destruct HI; constructor; assumption].

(** ** Relations that hold across a step because an invariant holds before it *)

Definition resting (I : db → Prop) (R : relation db) : relation db :=
  λ d d', under I d d' ∧ (integrity d → I d → R d d').

#[export] Instance resting_preorder I R : PreOrder R → PreOrder (resting I R).
Proof.
  intros HR. split; [by intros d; split|]. intros d1 d2 d3 [H1 HR1] [H2 HR2].
  split; [by etrans|]. intros Hok HI. destruct H1 as [[_ Hok1] HI1]. etrans; eauto.
Qed.

Lemma resting_intro {A} I R (m : txn A) :
  Respects (under I) m → Respects R m → Respects (resting I R) m.
Proof. intros Hm HR d a d' Hrun. split; [by eapply Hm|]. intros _ _. by eapply HR. Qed.

#[export] Instance resting_safe I R :
  SafeStatements (under I) → SafeStatements R → SafeStatements (resting I R).
Proof.
  intros HI HR. constructor; intros; try apply _; apply resting_intro; try apply _;
    first [ by apply sf_transition_submission | by apply sf_transition_runtime_execution
          | by apply sf_update_tasks ].
Qed.

Lemma reachable_under `{Host} (I : db → Prop) `{!BlockSpec (under I)} d :
  (∀ d0, initial d0 → I d0) → reachable d → I d.
Proof.
  intros Hinit (d0 & Hi & Hs). destruct (steps_spec (under I) _ _ Hs) as [_ HI].
  apply HI; [by apply initial_integrity | auto].
Qed.

Lemma steps_resting `{Host} (I : db → Prop) R `{!BlockSpec (resting I R)} d d' :
  integrity d → I d → rtc step d d' → R d d'.
Proof. intros Hok HI Hs. destruct (steps_spec (resting I R) _ _ Hs) as [_ HR]. auto. Qed.
