(* ===== verification/History.v ===== *)
(** * Gap-free histories

    Turns of a Task, items of a Task and items of a Turn are numbered [1..n] in
    the order they were inserted; the numbers are computed with
    [COALESCE(MAX(seq), 0) + 1] inside the inserting transaction. *)

From stdpp Require Import base tactics list strings relations.
From Stdlib Require Import ZArith Lia.
From S2P Require Import Prelude PyText Tables Contracts RegistryRows Schema Repository Service Acceptance.
From S2P Require Import Execution Evolution Methods Integrity System.

Local Open Scope Z_scope.
#[local] Hint Constants Opaque : typeclass_instances.
#[local] Hint Transparent dict time relation : typeclass_instances.

Definition of_task_turn (task_id : string) (t : turn_row) : bool := eqs (tn_task_id t) task_id.
Definition of_task_item (task_id : string) (i : item_row) : bool := eqs (it_task_id i) task_id.
Definition of_turn_item (turn_id : string) (i : item_row) : bool := eqs (it_turn_id i) turn_id.

Record gap_free (d : db) : Prop := {
  gf_turns task_id : Dense (of_task_turn task_id) tn_turn_seq (task_turns d);
  gf_task_items task_id : Dense (of_task_item task_id) it_task_item_seq (turn_items d);
  gf_turn_items turn_id : Dense (of_turn_item turn_id) it_turn_item_seq (turn_items d) }.

Lemma gap_free_same d d' :
  task_turns d' = task_turns d → turn_items d' = turn_items d → gap_free d → gap_free d'.
Proof. intros Ht Hi []. constructor; intros; rewrite ?Ht, ?Hi; auto. Qed.

Lemma insert_item_gap_free i d u d' :
  insert_turn_item i d = Ok (u, d') →
  it_task_item_seq i = next_task_item_seq (it_task_id i) d →
  it_turn_item_seq i = next_turn_item_seq (it_turn_id i) d →
  gap_free d → gap_free d'.
Proof.
  intros [_ ->]%insert_row_inv Ht Hn []. constructor; simpl; [done|..].
  - intros t. apply dense_insert; [done|]. unfold of_task_item.
    intros E. split_bools. by subst t.
  - intros t. apply dense_insert; [done|]. unfold of_turn_item.
    intros E. split_bools. by subst t.
Qed.

(** A Turn that does not exist has no items. *)
Lemma new_turn_item_seq d turn_id :
  integrity d → row_exists (λ t, eqs (tn_turn_id t) turn_id) (task_turns d) = false →
  next_turn_item_seq turn_id d = 1.
Proof.
  intros Hok Hnone. unfold next_turn_item_seq, next_seq.
  rewrite (proj2 (select_nil_iff _ _)); [done|].
  intros i Hi. apply not_true_iff_false. intros Hti. split_bools.
  pose proof (met_items _ Hok) as Hm. unfold met in Hm. rewrite Forall_forall in Hm.
  specialize (Hm i Hi). unfold item_ref in Hm. split_ands.
  match goal with H : row_exists _ (task_turns d) = true |- _ =>
    apply row_exists_true in H as (t & Ht & Hin) end.
  unfold turn_in in Hin. split_bools.
  apply row_exists_false with (r:=t) in Hnone; [|done].
  apply String.eqb_neq in Hnone. congruence.
Qed.

Section history.
Context `{Host}.
Abbreviation R := (under gap_free).

#[local] Instance transition_submission_gf a b c d e f g h i j k l :
  Respects R (transition_submission a b c d e f g h i j k l).
Proof. frame_statement. Qed.
#[local] Instance insert_runtime_execution_gf a b c d e f g h i j k l m n :
  Respects R (insert_runtime_execution a b c d e f g h i j k l m n).
Proof. frame_statement. Qed.
#[local] Instance transition_runtime_execution_gf a b c d e f g :
  Respects R (transition_runtime_execution a b c d e f g).
Proof. frame_statement. Qed.

#[local] Instance repin_gf a b c : Respects R (repin_submissions a b c).
Proof. frame_statement. Qed.

#[export] Instance gap_free_safe : SafeStatements R.
Proof.
  constructor; intros; try apply _; try frame_statement.
  apply under_intro; [by apply ss_update_tasks|].
  intros ? ? ? (-> & _ & _)%update_rows_inv _ []. by constructor.
Qed.

#[local] Instance repo_finish_turn_gf a b c d e : Respects R (repo_finish_turn a b c d e).
Proof.
  apply under_intro; [apply _|]. intros d0 n d' (-> & _ & _)%update_rows_inv _ [].
  constructor; simpl; [|done..]. intros t. by apply dense_update.
Qed.
#[local] Instance release_next_turn_gf a b c : Respects R (release_next_turn a b c).
Proof. method. Qed.

#[local] Instance cancel_pending_gf t c r : Respects R (cancel_pending t c r).
Proof. method. Qed.

#[local] Instance persist_runtime_gf a b c d e f g h i j :
  Respects R (persist_runtime a b c d e f g h i j).
Proof. method. Qed.

Lemma insert_turn_and_item_gap_free id task seq st rt cx bi ef ed cv pr pv pf mo nk nr at_ sa ua
    item d1 u1 d2 u2 d3 :
  insert_turn id task seq st rt cx bi ef ed cv pr pv pf mo nk nr at_ sa ua d1 = Ok (u1, d2) →
  insert_turn_item item d2 = Ok (u2, d3) →
  seq = next_turn_seq task d1 →
  it_task_item_seq item = next_task_item_seq (it_task_id item) d2 →
  it_turn_id item = id → it_turn_item_seq item = 1 →
  R d1 d3.
Proof.
  intros Hturn Hitem -> Hts <- Hone.
  split; [etrans; [by eapply (insert_turn_integral) | by eapply (insert_turn_item_integral)]|].
  intros Hok HI. pose proof Hturn as [Hg ->]%insert_row_inv. guard_facts Hg.
  eapply insert_item_gap_free; [exact Hitem | done | |].
  - rewrite Hone. symmetry. apply (new_turn_item_seq d1); [done|].
    match goal with H : index_free always tn_turn_id _ _ = true |- _ => rename H into Hf end.
    unfold index_free in Hf. simpl in Hf. apply negb_true_iff in Hf.
    rewrite row_exists_false in Hf |- *. intros t Ht. specialize (Hf t Ht). simpl in Hf.
    apply bool_decide_eq_false in Hf. by apply String.eqb_neq.
  - destruct HI. constructor; simpl; [|done..]. intros t. apply dense_insert; [done|].
    unfold of_task_turn; simpl. intros E. split_bools. by subst.
Qed.

(** The Turn takes the next number of its Task, its first item number 1. *)
Lemma materialize_turn_gap_free {X} (side : option (string → time → option string → txn X))
    a b c d e f g h i j k l m :
  (∀ f a b c, side = Some f → Respects R (f a b c)) →
  Respects R (materialize_turn side a b c d e f g h i j k l m).
Proof.
  intros Hside d0 r d' Hrun. unfold materialize_turn in Hrun.
  apply bind_Ok in Hrun as (? & ? & Hq & Hrun). apply gets_Ok in Hq as [-> ->].
  apply bind_Ok in Hrun as (? & ? & Hq & Hrun). apply require_Ok in Hq as [_ ->].
  apply bind_Ok in Hrun as (resolved & d1 & Hbind & Hrun).
  apply bind_Ok in Hrun as (? & ? & Hq & Hrun). apply gets_Ok in Hq as [-> ->].
  apply bind_Ok in Hrun as (? & d2 & Hturn & Hrun).
  apply bind_Ok in Hrun as (? & ? & Hq & Hrun). apply gets_Ok in Hq as [-> ->].
  apply bind_Ok in Hrun as (? & d3 & Hitem & Hrun).
  trans d1; [|trans d3].
  - revert Hbind. apply respects_apply. solve_respects.
  - eapply insert_turn_and_item_gap_free; [exact Hturn | exact Hitem | done..].
  - revert Hrun. apply respects_apply. pose proof (run_side_effect_respects R side). solve_respects.
Qed.

#[export] Instance gap_free_blocks : BlockSpec R.
Proof.
  constructor; try apply _.
  - intros d d' Hc. split; [by apply bs_control_plane|]. intros _. by apply gap_free_same; destruct Hc.
  - intros t c. method.
  - intros snapshot claim ef ed ck cr tk tr rk rr ev c bu iu d r d' _. apply respects_apply.
    unfold accept_and_open_execution. solve_respects.
    apply (accept_submission_by_blocks R); [intros; simplify_eq; apply _ |].
    intros. apply materialize_turn_gap_free. intros; simplify_eq; apply _.
  - intros x ty ac p pr ni o c i d r d' _. apply respects_apply, under_intro; [apply _|].
    clear. intros d r d' Hrun Hok HI. unfold append_item in Hrun. tx_inv_all.
    match goal with Hb : begin_write _ = Ok _ |- _ => reads_only Hb end. eapply insert_item_gap_free; [eassumption | done..].
  - intros x s e f c d r d' _ Hf. revert Hf. apply respects_apply. unfold finish_execution.
    solve_respects. unfold finish_turn. solve_respects;
      apply run_opt_respects; try apply _; intros m ?; simplify_eq/=; method.
Qed.
End history.

(** What the ordered reads return. *)
Lemma list_turns_in_order d task_id :
  gap_free d → repo_list_turns task_id d = select (of_task_turn task_id) (task_turns d).
Proof. intros []. apply dense_order_by, gf_turns0. Qed.

Lemma initial_gap_free d : initial d → gap_free d.
Proof. intros []. constructor; intros; unfold Dense; by rewrite ?init_turns, ?init_items. Qed.

Lemma reachable_gap_free `{Host} d : reachable d → gap_free d.
Proof. apply reachable_under; [apply _|]. apply initial_gap_free. Qed.
