(* ===== verification/Waiting.v ===== *)
(** * Deferred next Turns

    A next-Turn reservation waits exactly as long as the Turn that blocks it is
    in progress, and its submission stays queued meanwhile: completing the
    blocking Turn releases it in the same transaction. *)

From stdpp Require Import base tactics list strings relations.
From Stdlib Require Import ZArith Lia.
From S2P Require Import Prelude PyText Tables Contracts RegistryRows Schema Repository Service Acceptance.
From S2P Require Import Execution Evolution Methods Integrity System.

Local Open Scope Z_scope.
#[local] Hint Constants Opaque : typeclass_instances.
#[local] Hint Transparent dict time relation : typeclass_instances.

Definition blocked_by (d : db) (n : next_turn_row) (t : turn_row) : Prop :=
  t ∈ task_turns d ∧ turn_in (nt_blocking_turn_id n) (nt_task_id n) t = true ∧
  turn_active t = true.

Definition queued_for (d : db) (n : next_turn_row) (s : submission_row) : Prop :=
  s ∈ submissions d ∧ sb_submission_id s = nt_submission_id n ∧
  sb_task_id s = nt_task_id n ∧ sb_status s = Sub_QUEUED.

Definition waiting_blocked (d : db) : Prop :=
  ∀ n, n ∈ next_turns d → nt_status n = Next_WAITING →
    (∃ t, blocked_by d n t) ∧ (∃ s, queued_for d n s).

(** Active Turns and queued submissions of [d] are still there in [d']. *)
Lemma blocked_kept d d' n :
  (∀ t, t ∈ task_turns d → turn_active t = true → t ∈ task_turns d') →
  (∀ s, s ∈ submissions d → sb_submission_id s = nt_submission_id n →
        sb_task_id s = nt_task_id n → sb_status s = Sub_QUEUED → s ∈ submissions d') →
  (∃ t, blocked_by d n t) ∧ (∃ s, queued_for d n s) →
  (∃ t, blocked_by d' n t) ∧ (∃ s, queued_for d' n s).
Proof.
  intros Ht Hs [(t & ? & ? & ?) (s & ? & ? & ? & ?)].
  split; [exists t | exists s]; split_and!; auto.
Qed.

(** A waiting row of the later database was waiting before, unless inserted. *)
Lemma waiting_before n n' : next_turn_evolves n n' → nt_status n' = Next_WAITING → nt_status n = Next_WAITING.
Proof.
  intros (_ & Hs & _) Hw. rewrite Hw in Hs. clear Hw.
  remember Next_WAITING as w eqn:Hw. induction Hs as [|a b c Hab _ IH]; [done|].
  specialize (IH Hw). subst. unfold next_step in Hab. destruct a; simpl in *; congruence.
Qed.

Section waiting.
Context `{Host}.
Abbreviation R := (under waiting_blocked).

#[local] Instance insert_submission_wt a b c d e f g h i j k :
  Respects R (insert_submission a b c d e f g h i j k).
Proof.
  apply under_intro; [apply _|]. intros d0 u d' [_ ->]%insert_row_inv _ HI n Hn Hw.
  eapply blocked_kept; [| |by apply HI]; simpl; [done|].
  intros s Hs _ _ _. apply elem_of_app. by left.
Qed.

#[local] Instance insert_next_turn_wt a b c d : Respects R (insert_next_turn a b c d).
Proof.
  apply under_intro; [apply _|]. intros d0 u d' [Hg ->]%insert_row_inv _ HI n Hn Hw.
  simpl in Hn. apply elem_of_app in Hn as [Hn| ->%list_elem_of_singleton].
  { by apply HI. }
  guard_facts Hg. split_ands. clear Hw.
  repeat match goal with Hx : row_exists _ _ = true |- _ =>
    apply row_exists_true in Hx as (? & ? & ?) end.
  split_bools. split; eexists; split_and!; done.
Qed.

(** An update of [next_turns] that leaves no row waiting that was not. *)
#[local] Instance promote_next_turn_wt a b c : Respects R (promote_next_turn a b c).
Proof.
  apply under_intro; [apply _|]. intros d0 u d' (-> & _ & _)%update_rows_inv _ HI n Hn Hw.
  simpl in Hn. apply elem_of_on_rows in Hn as (x & Hx & ->).
  destruct (_ && _) eqn:Hp; [done|]. by apply HI.
Qed.
#[local] Instance cancel_next_turn_wt a b : Respects R (cancel_next_turn a b).
Proof.
  apply under_intro; [apply _|]. intros d0 u d' (-> & _ & _)%update_rows_inv _ HI n Hn Hw.
  simpl in Hn. apply elem_of_on_rows in Hn as (x & Hx & ->).
  destruct (_ && _) eqn:Hp; [done|]. by apply HI.
Qed.

#[local] Instance reclaim_wt s c : Respects R (reclaim s c).
Proof.
  apply under_intro; [apply _|]. intros d0 u d' (-> & _ & _)%update_rows_inv _ HI n Hn Hw.
  eapply blocked_kept; [| |by apply HI]; simpl; [done|].
  intros x Hx _ _ Hq. apply on_rows_kept; [done|]. rewrite Hq.
  by rewrite bool_decide_eq_false_2, andb_false_r.
Qed.

(** A new Context leaves a submission queued. *)
#[local] Instance repin_wt a b c : Respects R (repin_submissions a b c).
Proof.
  apply under_intro; [apply _|]. intros d0 u d' (-> & _ & _)%update_rows_inv _ HI n Hn Hw.
  destruct (HI n Hn Hw) as [Hb (s & Hs & ? & ? & ?)]. split; [done|].
  eexists. split; [apply elem_of_on_rows; exists s; split; [exact Hs | reflexivity]|].
  by destruct (_ && _).
Qed.

(** A waiting submission is not claimed: the claim guard of the schema. *)
Lemma safe_transition_wt a b c d e f g h i j k l :
  bool_decide (c = Sub_CANCELLED) && bool_decide (b = Sub_QUEUED) = false →
  Respects R (transition_submission a b c d e f g h i j k l).
Proof.
  intros Hsafe. apply under_intro; [apply _|].
  intros d0 u d' (-> & _ & Hguard)%update_rows_inv _ HI n Hn Hw.
  eapply blocked_kept; [| |by apply HI]; simpl; [done|].
  intros x Hx Hid Htask Hq. apply on_rows_kept; [done|].
  apply not_true_iff_false. intros Hp.
  specialize (Hguard x Hx Hp). guard_facts Hguard. split_bools. subst b.
  rewrite Hq in *. simpl in *.
  destruct c; try done. simpl in *. split_bools.
  match goal with Hf : row_exists _ (next_turns d0) = false |- _ =>
    apply row_exists_false with (r:=n) in Hf; [|done] end.
  simpl in *. apply andb_false_iff in H3 as [Hf|Hf].
  - apply andb_false_iff in Hf as [Hf|Hf]; apply String.eqb_neq in Hf; congruence.
  - by apply bool_decide_eq_false in Hf.
Qed.

#[export] Instance waiting_safe : SafeStatements R.
Proof.
  constructor; intros; try apply _; try frame_statement.
  - apply safe_transition_wt. unfold safe_submission_move in *. by split_bools.
  - apply under_intro; [by apply ss_update_tasks|].
    intros ? ? ? (-> & _ & _)%update_rows_inv _ HI. exact HI.
Qed.

(** ** Cancelling the pending submissions of a Task *)

(** The loop writes no Turn and inserts no reservation. *)
Definition reservations_only (d d' : db) : Prop :=
  task_turns d' = task_turns d ∧
  Forall2 next_turn_evolves (next_turns d) (next_turns d').

#[local] Instance reservations_only_preorder : PreOrder reservations_only.
Proof.
  split; [by intros d; split|]. intros d1 d2 d3 [H1 H2] [H3 H4].
  split; [congruence | by etrans].
Qed.

#[local] Instance cancel_next_turn_ro a b : Respects reservations_only (cancel_next_turn a b).
Proof.
  intros d n d' Hrun. pose proof (cancel_next_turn_evolves _ _ _ _ _ Hrun) as Hev.
  apply update_rows_inv in Hrun as (-> & _ & _). split; [done|].
  apply evolves_same_length; [apply (ev_next_turns _ _ Hev) | apply length_fmap].
Qed.
#[local] Instance transition_submission_ro a b c d e f g h i j k l :
  Respects reservations_only (transition_submission a b c d e f g h i j k l).
Proof. intros d0 n d' (-> & _ & _)%update_rows_inv. split; [done | simpl; reflexivity]. Qed.
#[local] Instance cancel_pending_ro t c r : Respects reservations_only (cancel_pending t c r).
Proof. method. Qed.

(** A submission that a statement does not name stays as it is. *)
Definition keeps_submission (s : submission_row) : relation db :=
  λ d d', s ∈ submissions d → s ∈ submissions d'.
#[local] Instance keeps_submission_preorder s : PreOrder (keeps_submission s).
Proof. split; unfold keeps_submission; red; auto. Qed.
#[local] Instance cancel_next_turn_ks s a b : Respects (keeps_submission s) (cancel_next_turn a b).
Proof. by intros d n d' (-> & _ & _)%update_rows_inv Hs. Qed.
Lemma transition_submission_ks s a b c d e f g h i j k l :
  sb_submission_id s ≠ a →
  Respects (keeps_submission s) (transition_submission a b c d e f g h i j k l).
Proof.
  intros Hne d0 n d' (-> & _ & _)%update_rows_inv Hs. simpl. apply on_rows_kept; [done|].
  by rewrite eqs_ne.
Qed.
Lemma cancel_pending_ks s t c r :
  sb_submission_id s ≠ sb_submission_id r.1 →
  Respects (keeps_submission s) (cancel_pending t c r).
Proof. intros Hne. method; by apply transition_submission_ks. Qed.

(** A successful cancellation leaves the reservation cancelled. *)
Lemma cancel_next_turn_cancels sid c d d' :
  cancel_next_turn sid c d = Ok (1, d') →
  ∃ m, m ∈ next_turns d' ∧ nt_submission_id m = sid ∧ nt_status m = Next_CANCELLED.
Proof.
  intros Hrun. pose proof (update_rows_hit _ _ _ _ _ _ _ Hrun) as (r & Hr & Hp).
  apply update_rows_inv in Hrun as (-> & _ & _). simpl.
  exists (set_next_turn Next_CANCELLED None c r). split; [|by split_bools].
  apply elem_of_on_rows. exists r. by rewrite Hp.
Qed.

Lemma cancelled_stays d d' m :
  db_evolves d d' → m ∈ next_turns d → nt_status m = Next_CANCELLED → m ∈ next_turns d'.
Proof.
  intros Hev Hm Hc. destruct (evolves_elem _ _ _ _ (ev_next_turns _ _ Hev) Hm) as (m' & Hm' & E).
  destruct E as (_ & _ & E). by rewrite <-(E Hc).
Qed.

Lemma cancel_pending_cancels t c s d d' :
  cancel_pending t c (s, Some Next_WAITING) d = Ok (tt, d') →
  ∃ m, m ∈ next_turns d' ∧ nt_submission_id m = sb_submission_id s ∧
       nt_status m = Next_CANCELLED.
Proof.
  intros Hrun. unfold cancel_pending in Hrun; simpl in Hrun.
  apply bind_Ok in Hrun as ([] & d1 & Hc & Hrun).
  apply bind_Ok in Hc as (n & ? & Hc & Hn). apply require_Ok in Hn as [Hn ->]. split_bools.
  subst n. destruct (cancel_next_turn_cancels _ _ _ _ Hc) as (m & Hm & ? & ?).
  exists m. split_and!; [|done..]. eapply cancelled_stays; [|done..].
  revert Hrun. apply respects_apply. solve_respects.
Qed.

(** A row of a pending listing, with the reservation it was joined to. *)
Lemma pending_row_of d n s :
  integrity d → n ∈ next_turns d → queued_for d n s →
  (s, Some (nt_status n)) ∈ pending_submission_rows (nt_task_id n) d.
Proof.
  intros Hok Hn (Hs & Hid & Htask & Hq). unfold pending_submission_rows.
  apply list_elem_of_fmap. exists s. split.
  - f_equal. destruct (select_one _ _) as [m|] eqn:Hm.
    + apply select_one_Some in Hm as [Hm Hp]. split_bools.
      assert (m = n) as -> by (eapply unique_eq;
        [apply (next_turns_pk _ (ok_next_turns _ Hok)) | done..| congruence]). done.
    + exfalso. rewrite select_one_None in Hm. specialize (Hm n Hn). simpl in Hm.
      by rewrite Hid, Htask, !eqs_refl in Hm.
  - apply elem_of_order_by, elem_of_select. split; [done|].
    unfold sub_pending. by rewrite Hq, Htask, eqs_refl.
Qed.

#[local] Instance cancel_pending_submissions_wt t c : Respects R (cancel_pending_submissions t c).
Proof.
  apply under_intro; [apply _|]. intros d rows d' Hrun Hok HI n' Hn' Hw'.
  pose proof (respects (R:=integral) _ _ _ Hrun) as [_ Hok'%(λ f, f Hok)].
  unfold cancel_pending_submissions in Hrun.
  apply bind_Ok in Hrun as (? & ? & Hq & Hrun). apply gets_Ok in Hq as [-> ->].
  apply bind_Ok in Hrun as ([] & ? & Hloop & Hq). apply ret_Ok in Hq as [-> <-].
  assert (reservations_only d d') as [Ht Hnt].
  { revert Hloop. apply respects_apply. apply respects_for_each; apply _. }
  apply list_elem_of_lookup in Hn' as [i Hi].
  destruct (Forall2_lookup_r _ _ _ _ _ Hnt Hi) as (n & Hin & Hev).
  pose proof (waiting_before _ _ Hev Hw') as Hw. destruct Hev as (Hid & _ & _).
  assert (n ∈ next_turns d) as Hn by (by eapply list_elem_of_lookup_2).
  unfold next_turn_identity in Hid. injection Hid as Hsub Htask Hblock _.
  destruct (HI n Hn Hw) as [(tn & Htn) (s & Hs)].
  split; [exists tn; unfold blocked_by; by rewrite Ht, Hblock, Htask|].
  destruct (decide (nt_task_id n = t)) as [<-|Hne].
  - exfalso. pose proof (pending_row_of d n s Hok Hn Hs) as Hrow. rewrite Hw in Hrow.
    destruct (for_each_elem db_evolves _ _ _ _ _ _ _ Hloop Hrow) as (d1 & d2 & _ & Hit & Hev2).
    destruct (cancel_pending_cancels _ _ _ _ _ Hit) as (m & Hm & Hmid & Hmc).
    pose proof (cancelled_stays _ _ _ Hev2 Hm Hmc) as Hm'.
    assert (m = n') as ->; [|congruence].
    eapply unique_eq; [apply (next_turns_pk _ (ok_next_turns _ Hok')) | done
      | by eapply list_elem_of_lookup_2 | done..|].
    destruct Hs as (_ & ? & _). congruence.
  - exists s. destruct Hs as (Hs & ? & ? & ?). split_and!; try congruence.
    enough (keeps_submission s d d') as Hk by auto.
    revert Hloop. apply respects_apply.
    apply respects_for_each_in; [apply _|]. intros row Hrow. apply cancel_pending_ks.
    intros Heq. unfold pending_submission_rows in Hrow.
    apply list_elem_of_fmap in Hrow as (x & -> & Hx%elem_of_order_by%elem_of_select).
    destruct Hx as [Hx Hxp]. simpl in Heq. split_bools.
    assert (s = x) as -> by (eapply unique_eq;
      [apply (submissions_pk _ (ok_submissions _ Hok)) | done..]). congruence.
Qed.

(** ** Completing the blocking Turn *)

(** The reservation that the release looks at is the one that waits for the
    finished Turn, if there is one. *)
Lemma waiting_next_turn_is d d1 n t :
  integrity d → next_turns d1 = next_turns d → submissions d1 = submissions d →
  n ∈ next_turns d → nt_status n = Next_WAITING → nt_task_id n = t →
  (∃ s, queued_for d n s) → waiting_next_turn t d1 = Some n.
Proof.
  intros Hok Hnt Hsub Hn Hw Ht (s & Hs & Hid & _ & _). unfold waiting_next_turn.
  rewrite Hnt, Hsub.
  assert (row_exists (λ x, eqs (sb_submission_id x) (nt_submission_id n)) (submissions d) = true)
    as Hex by (apply row_exists_true; exists s; by rewrite Hid, eqs_refl).
  destruct (head _) as [w|] eqn:Hh.
  - apply head_order_by_Some, elem_of_select in Hh as [Hw' Hp]. split_bools. f_equal.
    eapply unique_eq; [apply (next_turns_one_pending _ (ok_next_turns _ Hok)) | done | done | | |].
    + unfold next_pending. by rewrite H2.
    + unfold next_pending. by rewrite Hw.
    + congruence.
  - exfalso. rewrite head_order_by_None, select_nil_iff in Hh. specialize (Hh n Hn).
    simpl in Hh. by rewrite Ht, eqs_refl, Hw, Hex in Hh.
Qed.

(** What the release leaves of a waiting row. *)
Lemma release_next_turn_wt task turn c d p d' :
  release_next_turn task turn c d = Ok (p, d') →
  ∀ n, n ∈ next_turns d' → nt_status n = Next_WAITING →
    n ∈ next_turns d ∧ task_turns d' = task_turns d ∧
    (∀ s, s ∈ submissions d → sb_submission_id s = nt_submission_id n → s ∈ submissions d') ∧
    ¬ (waiting_next_turn task d = Some n ∧ nt_blocking_turn_id n = turn).
Proof.
  unfold release_next_turn. intros Hrel.
  apply bind_Ok in Hrel as (w & ? & [-> ->]%gets_Ok & Hrel).
  destruct (waiting_next_turn task d) as [w|].
  2:{ apply ret_Ok in Hrel as [_ ->]. intros n Hn Hw. split_and!; auto. by intros [? _]. }
  destruct (eqs (nt_blocking_turn_id w) turn) eqn:Hb; simpl in Hrel.
  2:{ apply ret_Ok in Hrel as [_ ->]. intros n Hn Hw. split_and!; auto.
      intros [[= ->] <-]. by rewrite eqs_refl in Hb. }
  apply bind_Ok in Hrel as (? & ? & [-> ->]%gets_Ok & Hrel).
  apply bind_Ok in Hrel as (st & ? & [_ ->]%require_some_Ok & Hrel).
  case_bool_decide.
  - apply bind_Ok in Hrel as (k & d1 & (-> & _ & _)%update_rows_inv & Hrel).
    apply bind_Ok in Hrel as (? & ? & [_ ->]%require_Ok & [_ ->]%ret_Ok).
    intros n (m & Hx & ->)%elem_of_on_rows Hw. simpl.
    destruct (_ && _) eqn:Hp; [done|]. split_and!; auto.
    intros [[= ->] _]. by rewrite eqs_refl, bool_decide_eq_true_2 in Hp.
  - apply bind_Ok in Hrel as (k & d1 & (-> & _ & _)%update_rows_inv & Hrel).
    apply bind_Ok in Hrel as (? & ? & [_ ->]%require_Ok & Hrel).
    apply bind_Ok in Hrel as (k' & d2 & (-> & _ & _)%update_rows_inv & Hrel).
    apply bind_Ok in Hrel as (? & ? & [_ ->]%require_Ok & [_ ->]%ret_Ok).
    intros n (m & Hx & ->)%elem_of_on_rows Hw. simpl.
    destruct (_ && _) eqn:Hp; [done|].
    assert (nt_submission_id m ≠ nt_submission_id w) as Hne.
    { intros Heq. unfold next_pending in Hp. by rewrite Heq, eqs_refl, Hw in Hp. }
    split_and!; auto.
    + intros s Hs Hid. apply on_rows_kept; [done|]. by rewrite eqs_ne by congruence.
    + intros [[= ->] _]. done.
Qed.

Lemma finish_and_release_wt turn task s f c d d1 p d2 t :
  turn_by_id turn d = Some t → tn_task_id t = task →
  repo_finish_turn turn s c c f d = Ok (1, d1) →
  release_next_turn task turn c d1 = Ok (p, d2) → R d d2.
Proof.
  intros Hturn Htask Hfin Hrel.
  split; [etrans; [by eapply repo_finish_turn_integral | by eapply (release_next_turn_respects integral)]|].
  intros Hok HI. pose proof Hfin as (Hd1 & _ & _)%update_rows_inv.
  assert (next_turns d1 = next_turns d) as Hnt by (by subst).
  assert (submissions d1 = submissions d) as Hsub by (by subst).
  (* Turns other than the finished one are still there. *)
  assert (∀ x, x ∈ task_turns d → tn_turn_id x ≠ turn → x ∈ task_turns d1) as Hkeep.
  { intros x Hx Hne. subst d1. simpl. apply on_rows_kept; [done|]. by rewrite eqs_ne. }
  (* Every waiting row but the one that waits for [turn] keeps its blocker. *)
  assert (∀ n, n ∈ next_turns d → nt_status n = Next_WAITING →
            waiting_next_turn task d1 = Some n ∧ nt_blocking_turn_id n = turn ∨
            (∃ x, blocked_by d1 n x)) as Hcase.
  { intros n Hn Hw. destruct (HI n Hn Hw) as [(x & Hx & Hin & Hact) Hq].
    destruct (decide (tn_turn_id x = turn)) as [Heq|Hne]; [left | right; exists x; split_and!; auto].
    unfold turn_in in Hin. split_bools.
    apply select_one_Some in Hturn as [Ht Htid]. split_bools.
    assert (x = t) as -> by (eapply unique_eq; [apply (turns_pk _ (ok_turns _ Hok)) | done..| congruence]).
    split; [|congruence]. eapply waiting_next_turn_is; eauto. congruence. }
  intros n Hn Hw.
  destruct (release_next_turn_wt _ _ _ _ _ _ Hrel n Hn Hw) as (Hn1 & Ht2 & Hq2 & Hsel).
  rewrite Hnt in Hn1. destruct (HI n Hn1 Hw) as [_ (x & Hx & Hid & ? & ?)].
  split.
  - destruct (Hcase n Hn1 Hw) as [[Hwt Hbl]|(y & Hy)]; [by destruct Hsel|].
    exists y. unfold blocked_by. by rewrite Ht2.
  - exists x. split_and!; try done. apply Hq2; congruence.
Qed.

#[local] Instance insert_turn_wt a b c d e f g h i j k l m n o p q r s :
  Respects R (insert_turn a b c d e f g h i j k l m n o p q r s).
Proof.
  apply under_intro; [apply _|]. intros d0 u d' [_ ->]%insert_row_inv _ HI x Hx Hw.
  eapply blocked_kept; [| |by apply HI]; simpl; [|done].
  intros y Hy _. apply elem_of_app. by left.
Qed.
#[local] Instance deliver_wt a b d e f g h i j k l :
  Respects R (transition_submission a b Sub_DELIVERED d e f g h i j k l).
Proof. by apply safe_transition_wt. Qed.
#[local] Instance insert_turn_item_wt i : Respects R (insert_turn_item i).
Proof. frame_statement. Qed.
#[local] Instance insert_runtime_execution_wt a b c d e f g h i j k l m n :
  Respects R (insert_runtime_execution a b c d e f g h i j k l m n).
Proof. frame_statement. Qed.
#[local] Instance transition_runtime_execution_wt a b c d e f g :
  Respects R (transition_runtime_execution a b c d e f g).
Proof. frame_statement. Qed.
#[local] Instance persist_runtime_wt a b c d e f g h i j :
  Respects R (persist_runtime a b c d e f g h i j).
Proof. method. Qed.
#[local] Instance finish_runtime_wt a b c d e f : Respects R (finish_runtime a b c d e f).
Proof. method. Qed.

#[export] Instance waiting_blocks : BlockSpec R.
Proof.
  constructor; try apply _.
  - intros d d' Hc. split; [by apply bs_control_plane|]. intros _ HI n Hn Hw.
    unfold blocked_by, queued_for. destruct Hc. rewrite cp_next_turns in Hn.
    rewrite cp_turns, cp_submissions. by apply HI.
  - intros snapshot claim ef ed ck cr tk tr rk rr ev c bu iu d r d' _. apply respects_apply.
    unfold accept_and_open_execution. solve_respects.
    apply (accept_submission_by_blocks R); [intros; simplify_eq; apply _ |].
    intros. unfold materialize_turn. solve_respects.
    apply (run_side_effect_respects R). intros; simplify_eq; apply _.
  - intros x ty ac p pr ni o c i d r d' _. apply respects_apply. method.
  - intros x s e f c d r d' _ (es & t & _ & Ht & Htask & [(_ & _ & Hf)|(_ & d1 & d2 & p & H1 & H2 & Hf)])%finish_execution_inv.
    + by eapply finish_runtime_wt.
    + etrans; [by eapply finish_and_release_wt | by eapply finish_runtime_wt].
Qed.
End waiting.

Lemma reachable_waiting `{Host} d : reachable d → waiting_blocked d.
Proof.
  apply reachable_under; [apply _|]. intros d0 [] n Hn. rewrite init_next_turns in Hn. set_solver.
Qed.
