(* ===== verification/Running.v ===== *)
(** * Active Turns and running executions

    A Turn in progress has exactly one execution, and that execution is running;
    an execution is active only while its Turn is in progress; a control request
    is pending only while its execution is active. *)

From stdpp Require Import base tactics list strings relations.
From Stdlib Require Import ZArith Lia.
From S2P Require Import Prelude PyText Tables Contracts RegistryRows Schema Repository Service Acceptance.
From S2P Require Import Execution Evolution Methods Integrity System.

Local Open Scope Z_scope.
#[local] Hint Constants Opaque : typeclass_instances.
#[local] Hint Transparent dict time relation : typeclass_instances.

(** [exempt] names the Turn, if any, whose execution is about to be opened. *)
Record running_but (exempt : option string) (d : db) : Prop := {
  rn_one : Unique always ex_turn_id (executions d);
  rn_active e :
    e ∈ executions d → exec_active e = true →
    ex_status e = Exec_RUNNING ∧
    ∃ t, t ∈ task_turns d ∧ tn_turn_id t = ex_turn_id e ∧ turn_active t = true;
  rn_turn t :
    t ∈ task_turns d → turn_active t = true → Some (tn_turn_id t) ≠ exempt →
    ∃ e, e ∈ executions d ∧ ex_turn_id e = tn_turn_id t ∧ exec_active e = true;
  rn_controls c :
    c ∈ controls d → ctl_pending c = true →
    ∃ e, e ∈ executions d ∧ ex_runtime_execution_id e = ct_runtime_execution_id c ∧
         exec_active e = true }.

Abbreviation running_ok := (running_but None).

(** A pending control was pending before the transition. *)
Lemma pending_step k s s' :
  control_step k s s' → s' = Ctl_REQUESTED ∨ s' = Ctl_DELIVERING → s = Ctl_REQUESTED.
Proof. intros Hs%control_trigger_spec. destruct k, s, s'; naive_solver. Qed.

Lemma pending_before c c' : control_evolves c c' → ctl_pending c' = true → ctl_pending c = true.
Proof.
  intros (_ & Hs & _). unfold ctl_pending. induction Hs as [|a b c0 Hab Hbc IH]; [done|].
  intros Hp. specialize (IH Hp).
  assert (a = Ctl_REQUESTED) as ->; [|done].
  eapply pending_step; [done|]. destruct b; naive_solver.
Qed.

Section running.
Context `{Host} (exempt : option string).
Abbreviation R := (under (running_but exempt)).

(** Executions keep their activity, controls their pendency. *)
#[local] Instance insert_control_request_rn a b c d e f g h i j k l :
  Respects R (insert_control_request a b c d e f g h i j k l).
Proof.
  apply under_intro; [apply _|]. intros d0 u d' [Hg ->]%insert_row_inv _ [].
  constructor; simpl; try done.
  intros x [Hx| ->%list_elem_of_singleton]%elem_of_app Hp; [auto|].
  guard_facts Hg. match goal with Hx : row_exists _ (executions d0) = true |- _ =>
    apply row_exists_true in Hx as (y & Hy & Hyp) end.
  split_bools. exists y. done.
Qed.

Lemma update_controls_rn p guard f :
  Respects integral (update_rows controls with_controls p guard f) →
  (∀ d c, p c = true → guard d c (f c) = None → ct_runtime_execution_id (f c) = ct_runtime_execution_id c ∧
            (ctl_pending (f c) = true → ctl_pending c = true)) →
  Respects R (update_rows controls with_controls p guard f).
Proof.
  intros Hint Hf. apply under_intro; [done|].
  intros d0 u d' (-> & _ & Hg)%update_rows_inv _ []. constructor; simpl; try done.
  intros x (y & Hy & ->)%elem_of_on_rows Hp. destruct (p y) eqn:Hpy; [|auto].
  destruct (Hf _ _ Hpy (Hg _ Hy Hpy)) as [-> Hpend]. auto.
Qed.

#[local] Instance claim_interrupt_request_rn a b c : Respects R (claim_interrupt_request a b c).
Proof. apply update_controls_rn; [apply claim_interrupt_request_integral|]. by intros. Qed.
#[local] Instance transition_control_request_rn a b c d e f g h :
  Respects R (transition_control_request a b c d e f g h).
Proof.
  apply update_controls_rn; [apply transition_control_request_integral|].
  intros d0 x _ Hg. split; [done|]. guard_facts Hg. intros Hp. unfold ctl_pending in *.
  erewrite (pending_step _ (ct_status x)); [done | by apply control_trigger_spec |].
  simpl in *. destruct c; naive_solver.
Qed.
#[local] Instance complete_accepted_interrupts_rn a b c :
  Respects R (complete_accepted_interrupts a b c).
Proof. apply update_controls_rn; [apply complete_accepted_interrupts_integral|]. by intros. Qed.

Lemma to_running_rn a b d e f g :
  Respects R (transition_runtime_execution a b Exec_RUNNING d e f g).
Proof.
  apply under_intro; [apply _|]. intros d0 u d' (-> & _ & Hg)%update_rows_inv _ [].
  set (p := λ x, eqs (ex_runtime_execution_id x) a && bool_decide (ex_status x = b)) in *.
  set (s := set_execution_status Exec_RUNNING d e f g).
  assert (∀ x, x ∈ executions d0 → exec_active x = true →
    ∃ y, y ∈ on_rows p s (executions d0) ∧ ex_turn_id y = ex_turn_id x ∧
         ex_runtime_execution_id y = ex_runtime_execution_id x ∧ exec_active y = true) as Hkeep.
  { intros x Hx Ha. exists (if p x then s x else x).
    split; [apply elem_of_on_rows; eauto | by destruct (p x)]. }
  constructor; simpl; fold p s.
  - by apply unique_update.
  - intros x (y & Hy & ->)%elem_of_on_rows Ha. destruct (p y) eqn:Hp; [|auto].
    split; [done|]. specialize (Hg y Hy Hp). guard_facts Hg.
    by apply rn_active0.
  - intros t Ht Ha Hne. destruct (rn_turn0 t Ht Ha Hne) as (x & Hx & Hxt & Hxa).
    destruct (Hkeep x Hx Hxa) as (y & ? & ? & ? & ?). exists y. split_and!; congruence.
  - intros c Hc Hp. destruct (rn_controls0 c Hc Hp) as (x & Hx & Hxt & Hxa).
    destruct (Hkeep x Hx Hxa) as (y & ? & ? & ? & ?). exists y. split_and!; congruence.
Qed.

#[export] Instance transition_submission_rn a b c d e f g h i j k l :
  Respects R (transition_submission a b c d e f g h i j k l).
Proof. frame_statement. Qed.
#[export] Instance insert_turn_item_rn i : Respects R (insert_turn_item i).
Proof. frame_statement. Qed.

#[export] Instance repin_rn a b c : Respects R (repin_submissions a b c).
Proof. frame_statement. Qed.

#[export] Instance running_safe : SafeStatements R.
Proof.
  constructor; intros; try apply _; try frame_statement.
  - subst. apply to_running_rn.
  - apply under_intro; [by apply ss_update_tasks|].
    intros ? ? ? (-> & _ & _)%update_rows_inv _ []. by constructor.
Qed.
End running.

(** ** Opening an execution *)

Lemma exempt_weaken d turn : running_but None d → running_but (Some turn) d.
Proof. intros []. constructor; auto. Qed.

Lemma select_both_nil {A} (p : A → bool) l :
  List.filter p l = [] → List.filter (λ x, negb (p x)) l = [] → l = [].
Proof. destruct l as [|x l]; simpl; [done|]. by destruct (p x). Qed.

(** The insertion and the move to [running] that follows it. *)
Lemma open_execution_rn rid task turn seq gen bi rk rr tk tr ev c st c' ev' c'' fa fc d d1 u d2 :
  insert_runtime_execution rid task turn seq gen bi rk rr tk tr ev c st c' d = Ok (u, d1) →
  transition_runtime_execution rid Exec_STARTING Exec_RUNNING ev' c'' fa fc d1 = Ok (1, d2) →
  (∀ e, e ∈ executions d → ex_turn_id e ≠ turn) →
  running_but (Some turn) d → running_but None d2.
Proof.
  intros [Hg ->]%insert_row_inv (-> & _ & _)%update_rows_inv Hnone [].
  guard_facts Hg. split_ands.
  match goal with Hx : row_exists _ (task_turns d) = true |- _ =>
    apply row_exists_true in Hx as (t0 & Ht0 & Ht0p) end.
  unfold turn_in in Ht0p. split_bools.
  match goal with Hx : index_free always ex_runtime_execution_id _ _ = true |- _ => rename Hx into Hfresh end.
  unfold index_free in Hfresh; simpl in Hfresh. rewrite negb_true_iff, row_exists_false in Hfresh.
  set (new := mkExecution rid task turn seq gen bi Exec_STARTING rk rr tk tr ev None c st None c') in *.
  set (p := λ x, eqs (ex_runtime_execution_id x) rid && bool_decide (ex_status x = Exec_STARTING)).
  set (s := set_execution_status Exec_RUNNING ev' c'' fa fc).
  assert (∀ e, e ∈ executions d → p e = false) as Hold.
  { intros e He. specialize (Hfresh e He). simpl in Hfresh. apply bool_decide_eq_false in Hfresh.
    unfold p. by rewrite eqs_ne. }
  assert (p new = true) as Hnew by (unfold p; simpl; by rewrite eqs_refl).
  assert (∀ e, e ∈ executions d → e ∈ on_rows p s (executions d ++ [new])) as Hkeep.
  { intros e He. apply on_rows_kept; [apply elem_of_app; by left | auto]. }
  assert (s new ∈ on_rows p s (executions d ++ [new])) as Hin.
  { apply elem_of_on_rows. exists new. rewrite Hnew. split; [|done].
    apply elem_of_app. right. constructor. }
  constructor; simpl; fold p s.
  - apply unique_update; [|done]. apply unique_insert; [done|].
    unfold index_free. simpl. apply negb_true_iff, row_exists_false. intros e He. simpl.
    apply bool_decide_eq_false. auto.
  - intros e (x & [Hx| ->%list_elem_of_singleton]%elem_of_app & ->)%elem_of_on_rows Ha.
    + rewrite (Hold _ Hx) in *. auto.
    + rewrite Hnew. split; [done|]. exists t0. done.
  - intros t Ht Ha _. destruct (decide (tn_turn_id t = turn)) as [Heq|Hne].
    + exists (s new). done.
    + destruct (rn_turn0 t Ht Ha) as (e & He & ? & ?); [congruence|]. exists e. auto.
  - intros x Hx Hp. destruct (rn_controls0 x Hx Hp) as (e & He & ? & ?). exists e. auto.
Qed.

(** The two ways to open an execution: find the active one of the Turn, or insert
    the first one of the Turn and move it to [running]. *)
Lemma persist_runtime_inv `{Host} claim rid tk tr rk rr ev turn c bi d r d' :
  persist_runtime claim rid tk tr rk rr ev turn c bi d = Ok (r, d') →
  (∀ e, e ∈ executions d → ex_turn_id e = turn →
     ex_task_id e = sc_task_id claim ∧ exec_active e = true) ∧
  ((∃ row, row ∈ executions d ∧ ex_turn_id row = turn ∧
      r = mkExecutionClaim (ex_runtime_execution_id row) (sc_task_id claim) turn
            (ex_runtime_generation row) ∧
      (d' = d ∨ ex_status row = Exec_STARTING ∧
         transition_runtime_execution (ex_runtime_execution_id row) Exec_STARTING Exec_RUNNING
           (ex_evidence row) c None None d = Ok (1, d'))) ∨
   ((∀ e, e ∈ executions d → ex_turn_id e ≠ turn) ∧ ∃ seq gen d1,
      insert_runtime_execution rid (sc_task_id claim) turn seq gen bi rk rr (Some tk) (Some tr) ev
        c (Some c) c d = Ok (tt, d1) ∧
      transition_runtime_execution rid Exec_STARTING Exec_RUNNING ev c None None d1 = Ok (1, d') ∧
      r = mkExecutionClaim rid (sc_task_id claim) turn gen)).
Proof.
  unfold persist_runtime. intros Hrun.
  apply bind_Ok in Hrun as (? & d0 & Hg & Hrun).
  assert (d = d0) as <- by (revert Hg; apply respects_apply; solve_respects).
  apply bind_Ok in Hrun as (? & ? & [-> ->]%gets_Ok & Hrun).
  apply bind_Ok in Hrun as (? & ? & [Hcon ->]%require_Ok & Hrun).
  unfold partition_runtime_rows in Hrun.
  apply bind_Ok in Hrun as (? & ? & [Hterm%Nat.eqb_eq ->]%require_Ok & Hrun).
  apply bind_Ok in Hrun as (? & ? & [_ ->]%require_Ok & Hrun).
  apply nil_length_inv in Hterm.
  assert (∀ e, e ∈ executions d ∧ ex_turn_id e = turn ↔ e ∈ runtime_executions_for_turn turn d) as Hrows.
  { intros e. unfold runtime_executions_for_turn. rewrite elem_of_order_by, elem_of_select.
    unfold eqs. by rewrite String.eqb_eq. }
  split.
  - intros e He Ht. assert (e ∈ runtime_executions_for_turn turn d) as Hin by (by apply Hrows).
    split.
    + apply negb_true_iff in Hcon. apply row_exists_false with (r:=e) in Hcon; [|done].
      unfold execution_contradicts in Hcon. apply negb_false_iff in Hcon. by split_bools.
    + apply not_false_iff_true. intros Hna. apply (not_elem_of_nil e). rewrite <-Hterm.
      apply elem_of_select. by rewrite Hna.
  - destruct (List.filter exec_active _) as [|row rest] eqn:Hact.
    + right. pose proof (select_both_nil _ _ Hact Hterm) as Hnil.
      apply bind_Ok in Hrun as (? & ? & [-> ->]%gets_Ok & Hrun).
      apply bind_Ok in Hrun as (? & ? & [-> ->]%gets_Ok & Hrun).
      apply bind_Ok in Hrun as ([] & d1 & Hins & Hrun). rewrite integrity_as_conflict_Ok in Hins.
      apply bind_Ok in Hrun as (n & d2 & Hto & Hrun).
      apply bind_Ok in Hrun as (? & ? & [Hn%Z.eqb_eq ->]%require_Ok & [-> ->]%ret_Ok). subst n.
      split; [|by eexists _, _, d1].
      intros e He Heq. apply (not_elem_of_nil e). rewrite <-Hnil. by apply Hrows.
    + left. assert (row ∈ select exec_active (runtime_executions_for_turn turn d)) as [Hr _]%elem_of_select
        by (unfold select; rewrite Hact; constructor).
      apply Hrows in Hr as [Hr Ht]. exists row.
      apply bind_Ok in Hrun as (? & d1 & Hst & [-> ->]%ret_Ok). split_and!; [done..|].
      destruct (bool_decide _) eqn:Hs; split_bools; [right | left; by apply ret_Ok in Hst as [_ ->]].
      apply bind_Ok in Hst as (n & d2 & Hto & [Hn%Z.eqb_eq ->]%require_Ok). by subst n.
Qed.

Lemma persist_runtime_rn `{Host} claim rid tk tr rk rr ev turn c bi d r d' :
  persist_runtime claim rid tk tr rk rr ev turn c bi d = Ok (r, d') →
  running_but (Some turn) d → running_but None d'.
Proof.
  intros [Hact [(row & Hrow & Ht & _ & Hd)|(Hnone & seq & gen & d1 & Hins & Hto & _)]]%persist_runtime_inv HI.
  - destruct (Hact row Hrow Ht) as [_ Ha].
    destruct HI. destruct (rn_active0 row Hrow Ha) as [Hs _].
    destruct Hd as [-> |[Hd _]]; [|congruence]. constructor; try done.
    intros t Hin Hta _. destruct (decide (tn_turn_id t = turn)) as [Heq|Hne].
    + exists row. split_and!; congruence.
    + apply rn_turn0; congruence.
  - by eapply open_execution_rn.
Qed.

Lemma insert_turn_rn id b c d e f g h i j k l m n o p q r s d0 u d1 :
  insert_turn id b c d e f g h i j k l m n o p q r s d0 = Ok (u, d1) →
  running_but None d0 → running_but (Some id) d1.
Proof.
  intros [_ ->]%insert_row_inv []. constructor; simpl; try done.
  - intros x Hx Ha. destruct (rn_active0 x Hx Ha) as [? (t & ? & ?)]. split; [done|].
    exists t. split; [|done]. apply elem_of_app. by left.
  - intros t [Ht| ->%list_elem_of_singleton]%elem_of_app Ha Hne; [|by destruct Hne]. auto.
Qed.

Section accept.
Context `{Host}.
Abbreviation R := (under running_ok).

#[local] Instance persist_runtime_keeps_rn a b c d e f g h i j :
  Respects R (persist_runtime a b c d e f g h i j).
Proof.
  apply under_intro; [apply _|]. intros d0 r d' Hrun _ HI.
  eapply persist_runtime_rn; [done|]. by apply exempt_weaken.
Qed.

Lemma materialize_turn_rn claim rid rk rr ev a b c d e f g h i j k l m :
  Respects R (materialize_turn (Some (persist_runtime claim rid d e rk rr ev))
                a b c d e f g h i j k l m).
Proof.
  apply under_intro.
  { apply materialize_turn_respects; [apply _|]. intros; simplify_eq; apply _. }
  intros d0 r d' Hrun Hok HI. unfold materialize_turn in Hrun.
  apply bind_Ok in Hrun as (? & ? & [-> ->]%gets_Ok & Hrun).
  apply bind_Ok in Hrun as (? & ? & [_ ->]%require_Ok & Hrun).
  apply bind_Ok in Hrun as (resolved & d1 & Hbind & Hrun).
  assert (R d0 d1) as [[_ Hok1] HI1].
  { revert Hbind. apply respects_apply. solve_respects. }
  specialize (Hok1 Hok). specialize (HI1 Hok HI).
  apply bind_Ok in Hrun as (? & ? & [-> ->]%gets_Ok & Hrun).
  apply bind_Ok in Hrun as (? & d2 & Hturn & Hrun).
  pose proof (insert_turn_integral _ _ _ _ _ _ _ _ _ _ _ _ _ _ _ _ _ _ _ _ _ _ Hturn) as [_ Hok2].
  specialize (Hok2 Hok1). apply insert_turn_rn in Hturn; [|done].
  apply bind_Ok in Hrun as (? & ? & [-> ->]%gets_Ok & Hrun).
  apply bind_Ok in Hrun as (? & d3 & Hitem & Hrun).
  pose proof (insert_turn_item_rn (Some (sb_reserved_turn_id a)) _ _ _ _ Hitem) as [[_ Hok3] HI3].
  specialize (Hok3 Hok2). specialize (HI3 Hok2 Hturn).
  apply bind_Ok in Hrun as (n & d4 & Hsub & Hrun).
  pose proof (transition_submission_rn (Some (sb_reserved_turn_id a))
    _ _ _ _ _ _ _ _ _ _ _ _ _ _ _ Hsub) as [_ HI4].
  specialize (HI4 Hok3 HI3).
  apply bind_Ok in Hrun as (? & ? & [_ ->]%require_Ok & Hrun).
  apply bind_Ok in Hrun as (? & d5 & [y Hside]%run_opt_Some & [_ ->]%ret_Ok).
  by eapply persist_runtime_rn.
Qed.

#[export] Instance accept_rn snapshot claim ef ed ck cr tk tr rk rr ev c bu iu :
  Respects R (accept_and_open_execution snapshot claim ef ed ck cr tk tr rk rr ev c bu iu).
Proof.
  unfold accept_and_open_execution. solve_respects.
  unfold accept_submission. solve_respects.
  - apply (run_side_effect_respects R). intros; simplify_eq; apply _.
  - apply materialize_turn_rn.
Qed.
End accept.

(** ** Finishing an execution *)

(** Only control rows change, and none is inserted. *)
Definition controls_only (d d' : db) : Prop :=
  executions d' = executions d ∧ task_turns d' = task_turns d ∧
  Forall2 control_evolves (controls d) (controls d').

#[local] Instance controls_only_preorder : PreOrder controls_only.
Proof.
  split; [by intros d; split_and!|]. intros d1 d2 d3 (H1 & H2 & H3) (H4 & H5 & H6).
  split_and!; [congruence | congruence | by etrans].
Qed.

Lemma update_controls_only p guard f :
  Respects db_evolves (update_rows controls with_controls p guard f) →
  Respects controls_only (update_rows controls with_controls p guard f).
Proof.
  intros Hev d n d' Hrun. pose proof (Hev _ _ _ Hrun) as He.
  apply update_rows_inv in Hrun as (-> & _ & _). split_and!; [done..|].
  apply evolves_same_length; [apply (ev_controls _ _ He) | apply length_fmap].
Qed.
#[local] Instance transition_control_request_co a b c d e f g h :
  Respects controls_only (transition_control_request a b c d e f g h).
Proof. apply update_controls_only, transition_control_request_evolves. Qed.
#[local] Instance complete_accepted_interrupts_co a b c :
  Respects controls_only (complete_accepted_interrupts a b c).
Proof. apply update_controls_only, complete_accepted_interrupts_evolves. Qed.

Definition settled (c : control_row) : Prop :=
  ctl_pending c = false ∧ CONTROL_TRANSITIONS (ct_kind c) (ct_status c) = [].

Lemma settled_stays d d' c : db_evolves d d' → c ∈ controls d → settled c → c ∈ controls d'.
Proof.
  intros Hev Hc [_ Hs]. destruct (evolves_elem _ _ _ _ (ev_controls _ _ Hev) Hc) as (c' & Hc' & E).
  destruct E as (_ & _ & E). by rewrite <-(E Hs).
Qed.

Section finish.
Context `{Host}.
Abbreviation R := (under running_ok).

#[local] Instance reconcile_control_co a b c d : Respects controls_only (reconcile_control a b c d).
Proof. method. Qed.
#[local] Instance reconcile_terminal_controls_co a b c d :
  Respects controls_only (reconcile_terminal_controls a b c d).
Proof. method. Qed.

Lemma reconcile_control_settles ts fa te c d d' :
  reconcile_control ts fa te c d = Ok (tt, d') →
  ∃ c', c' ∈ controls d' ∧ ct_control_request_id c' = ct_control_request_id c ∧ settled c' ∧
    ct_status c' = if control_delivery_unknown c then Ctl_DELIVERY_UNKNOWN else Ctl_REJECTED.
Proof.
  unfold reconcile_control. intros (n & d1 & Hrun & [Hn%Z.eqb_eq ->]%require_Ok)%bind_Ok.
  subst n. pose proof (update_rows_hit _ _ _ _ _ _ _ Hrun) as (r & Hr & Hp).
  apply update_rows_inv in Hrun as (-> & _ & _). simpl.
  eexists. split; [apply elem_of_on_rows; exists r; rewrite Hp; split; [done | reflexivity]|].
  split_bools. split; [done|]. split; [|done]. unfold settled, ctl_pending; simpl.
  by destruct (control_delivery_unknown c), (ct_kind r).
Qed.

(** No control of the execution is left pending. *)
Lemma reconcile_terminal_controls_settles x ts fa te d d' :
  integrity d → reconcile_terminal_controls x ts fa te d = Ok (tt, d') →
  ∀ c, c ∈ controls d' → ct_runtime_execution_id c = xc_runtime_execution_id x →
    ctl_pending c = false.
Proof.
  intros Hok Hrun c' Hc' Hx. apply not_true_iff_false. intros Hp.
  pose proof (reconcile_terminal_controls_co _ _ _ _ _ _ _ Hrun) as (_ & _ & H2).
  pose proof (respects (R:=integral) _ _ _ Hrun) as [_ Hok'%(λ f, f Hok)].
  pose proof Hc' as [i Hi]%list_elem_of_lookup.
  destruct (Forall2_lookup_r _ _ _ _ _ H2 Hi) as (c & Hci & Hev).
  pose proof (pending_before _ _ Hev Hp) as Hpc. destruct Hev as (Hid & _).
  unfold control_identity in Hid. injection Hid as Hid _ _ Hrx _ _ _ _ _ _ _.
  unfold reconcile_terminal_controls in Hrun.
  apply bind_Ok in Hrun as (? & ? & [-> ->]%gets_Ok & Hrun).
  assert (c ∈ pending_controls (xc_runtime_execution_id x) d) as Hin.
  { unfold pending_controls. apply elem_of_order_by, elem_of_select.
    split; [by eapply list_elem_of_lookup_2|]. by rewrite <-Hrx, Hx, eqs_refl. }
  destruct (for_each_elem db_evolves _ _ _ _ _ _ _ Hrun Hin) as (d1 & d2 & _ & Hit & Hev2).
  destruct (reconcile_control_settles _ _ _ _ _ _ Hit) as (m & Hm & Hmid & Hms & _).
  pose proof (settled_stays _ _ _ Hev2 Hm Hms) as Hm'.
  assert (m = c') as -> by (eapply unique_eq;
    [apply (controls_pk _ (ok_controls _ Hok')) | done..| congruence]).
  destruct Hms. congruence.
Qed.

Lemma finish_runtime_inv x s es ev f c d d' :
  finish_runtime x s es ev f c d = Ok (tt, d') →
  ∃ row d1 d2,
    runtime_execution_by_id (xc_runtime_execution_id x) d = Some row ∧
    ((ex_status row = es ∧ d1 = d) ∨
     transition_runtime_execution (xc_runtime_execution_id x) (ex_status row) es ev c (Some c) f d
       = Ok (1, d1)) ∧
    controls_only d1 d2 ∧ (integrity d1 → integrity d2) ∧
    reconcile_terminal_controls x (turn_status_value s) c ev d2 = Ok (tt, d').
Proof.
  unfold finish_runtime. intros Hrun.
  apply bind_Ok in Hrun as (? & ? & [-> ->]%gets_Ok & Hrun).
  apply bind_Ok in Hrun as (row & ? & [Hrow ->]%require_some_Ok & Hrun).
  apply bind_Ok in Hrun as (? & d1 & Ht & Hrun).
  apply bind_Ok in Hrun as (? & d2 & Hi & Hrun).
  exists row, d1, d2. split_and!; [done | | | | done].
  - destruct (bool_decide (ex_status row = es)) eqn:He; split_bools;
      [left; by apply ret_Ok in Ht as [_ ->]|right].
    apply bind_Ok in Ht as (n & ? & Ht & [Hn%Z.eqb_eq ->]%require_Ok). by subst n.
  - revert Hi. apply respects_apply. solve_respects.
  - enough (integral d1 d2) as [_ ?] by done. revert Hi. apply respects_apply. solve_respects.
Qed.

Lemma terminal_target s es : execution_status_of s = Some es → exec_active_status es = false.
Proof. by destruct s; intros [= <-]. Qed.

(** Completing the named execution: it alone changes, and it is not active any more. *)
Lemma execution_completed x ex es ev f c d d1 :
  integrity d → exec_active_status es = false → Unique always ex_turn_id (executions d) →
  ex ∈ executions d → ex_runtime_execution_id ex = xc_runtime_execution_id x →
  ((ex_status ex = es ∧ d1 = d) ∨
   transition_runtime_execution (xc_runtime_execution_id x) (ex_status ex) es ev c (Some c) f d
     = Ok (1, d1)) →
  integrity d1 ∧ task_turns d1 = task_turns d ∧ controls d1 = controls d ∧
  Unique always ex_turn_id (executions d1) ∧
  (∀ e, e ∈ executions d → ex_runtime_execution_id e ≠ xc_runtime_execution_id x →
     e ∈ executions d1) ∧
  (∀ e, e ∈ executions d1 → exec_active e = true →
     e ∈ executions d ∧ ex_runtime_execution_id e ≠ xc_runtime_execution_id x).
Proof.
  intros Hok Hes Hu Hex Hid Htr. pose proof (executions_pk _ (ok_executions _ Hok)) as Hpk.
  destruct Htr as [[Hst ->]|Htr].
  - split_and!; try done. intros e He Ha. split; [done|]. intros Heq.
    assert (e = ex) as -> by (eapply unique_eq; [exact Hpk | done..| congruence]).
    unfold exec_active in Ha. congruence.
  - pose proof (transition_runtime_execution_integral _ _ _ _ _ _ _ _ _ _ Htr) as [_ Hok1].
    apply update_rows_inv in Htr as (-> & _ & _). simpl in *. split_and!; auto.
    + by apply unique_update.
    + intros e He Hne. apply on_rows_kept; [done|]. by rewrite eqs_ne.
    + intros e (y & Hy & ->)%elem_of_on_rows Ha. destruct (_ && _) eqn:Hp.
      { unfold exec_active in Ha; simpl in Ha. congruence. }
      split; [done|]. intros Heq.
      assert (y = ex) as -> by (eapply unique_eq; [exact Hpk | done..| congruence]).
      by rewrite Heq, eqs_refl, bool_decide_eq_true_2 in Hp.
Qed.

(** [finish_runtime] on a database [d] whose Turn [x.turn] is no longer active,
    where everything else was in order before that Turn was finished. *)
Lemma finish_runtime_rn x s es ev f c d0 d d' :
  execution_status_of s = Some es → genuine d0 x → integrity d → running_ok d0 →
  executions d = executions d0 → controls d = controls d0 →
  (∀ t, t ∈ task_turns d0 → tn_turn_id t ≠ xc_turn_id x → t ∈ task_turns d) →
  (∀ t, t ∈ task_turns d → turn_active t = true →
     t ∈ task_turns d0 ∧ tn_turn_id t ≠ xc_turn_id x) →
  finish_runtime x s es ev f c d = Ok (tt, d') → running_ok d'.
Proof.
  intros Hes (ex & Hex & Hid & _ & Hturn & _) Hok HI Hexe Hctl Hkeep Hback Hrun.
  apply terminal_target in Hes. apply finish_runtime_inv in Hrun
    as (row & d1 & d2 & Hrow & Htr & (Hx12 & Ht12 & Hc12) & Hok12 & Hrec).
  pose proof (executions_pk _ (ok_executions _ Hok)) as Hpk.
  apply select_one_Some in Hrow as [Hrow Hrowid]. split_bools.
  assert (row = ex) as ->
    by (eapply unique_eq; [exact Hpk | done | by rewrite Hexe | done | done | congruence]).
  apply execution_completed in Htr as (Hok1 & Ht1 & Hc1 & Hu1 & Hk1 & Hb1);
    [|done|done|rewrite Hexe; apply (rn_one _ _ HI)|done|done].
  rewrite Hexe in Hpk, Hk1, Hb1.
  pose proof (reconcile_terminal_controls_settles _ _ _ _ _ _ (Hok12 Hok1) Hrec) as Hsettled.
  pose proof (reconcile_terminal_controls_co _ _ _ _ _ _ _ Hrec) as (Hx2 & Ht2 & Hc2).
  destruct HI. constructor; rewrite ?Hx2, ?Hx12, ?Ht2, ?Ht12, ?Ht1; [done|..].
  - intros e He Ha. destruct (Hb1 e He Ha) as [He0 Hne].
    destruct (rn_active0 e He0 Ha) as [? (t & Ht & Hte & Hta)]. split; [done|].
    exists t. split_and!; try done. apply Hkeep; [done|]. intros Heq. apply Hne.
    rewrite <-Hid. f_equal. eapply unique_eq; [exact rn_one0 | done..|]. congruence.
  - intros t Ht Ha _. destruct (Hback t Ht Ha) as [Ht0 Hne].
    destruct (rn_turn0 t Ht0 Ha) as (e & He & Het & Hea); [done|]. exists e. split_and!; try done.
    apply Hk1; [done|]. intros Heq. apply Hne.
    assert (e = ex) as -> by (eapply unique_eq; [exact Hpk | done..| congruence]).
    congruence.
  - intros c' Hc' Hp.
    assert (Forall2 control_evolves (controls d0) (controls d')) as H2
      by (rewrite <-Hctl, <-Hc1; by etrans).
    pose proof Hc' as [i Hi]%list_elem_of_lookup.
    destruct (Forall2_lookup_r _ _ _ _ _ H2 Hi) as (c0 & Hci & Hev).
    pose proof (pending_before _ _ Hev Hp) as Hpc. destruct Hev as (Hcid & _).
    unfold control_identity in Hcid. injection Hcid as _ _ _ Hrx _ _ _ _ _ _ _.
    destruct (rn_controls0 c0) as (e & He & Hee & Hea); [by eapply list_elem_of_lookup_2 | done|].
    exists e. split_and!; [|congruence|done]. apply Hk1; [done|]. intros Heq.
    rewrite (Hsettled c') in Hp; [done..|congruence].
Qed.

(** Releasing the next Turn writes reservations and submissions only. *)
Definition core_same (d d' : db) : Prop :=
  executions d' = executions d ∧ controls d' = controls d ∧ task_turns d' = task_turns d.
#[local] Instance core_same_preorder : PreOrder core_same.
Proof. split; unfold core_same; red; naive_solver congruence. Qed.
#[local] Instance promote_next_turn_cs a b c : Respects core_same (promote_next_turn a b c).
Proof. by intros d n d' (-> & _ & _)%update_rows_inv. Qed.
#[local] Instance cancel_next_turn_cs a b : Respects core_same (cancel_next_turn a b).
Proof. by intros d n d' (-> & _ & _)%update_rows_inv. Qed.
#[local] Instance transition_submission_cs a b c d e f g h i j k l :
  Respects core_same (transition_submission a b c d e f g h i j k l).
Proof. by intros d0 n d' (-> & _ & _)%update_rows_inv. Qed.
#[local] Instance release_next_turn_cs a b c : Respects core_same (release_next_turn a b c).
Proof. method. Qed.

Lemma finish_execution_rn x s e f c d r d' :
  genuine d x → finish_execution x s e f c d = Ok (r, d') → R d d'.
Proof.
  intros Hgen Hrun. split; [by eapply (finish_execution_respects integral)|]. intros Hok HI.
  apply finish_execution_inv in Hrun as (es & t & Hes & Ht & Htask & Hcase).
  apply select_one_Some in Ht as [Ht Htid]. split_bools.
  destruct Hcase as [(Hina & _ & Hf)|(Hact & d1 & d2 & p & Hfin & Hrel & Hf)].
  - eapply finish_runtime_rn; [done..| |exact Hf]. intros y Hy Ha. split; [done|]. intros Heq.
    assert (y = t) as -> by (eapply unique_eq; [apply (turns_pk _ (ok_turns _ Hok)) | done..| congruence]).
    congruence.
  - pose proof (repo_finish_turn_integral _ _ _ _ _ _ _ _ Hfin) as [_ Hok1].
    pose proof (release_next_turn_respects integral _ _ _ _ _ _ Hrel) as [_ Hok2].
    pose proof (release_next_turn_cs _ _ _ _ _ _ Hrel) as (Hx & Hc & Hturns).
    apply update_rows_inv in Hfin as (-> & _ & Hg). simpl in *.
    eapply finish_runtime_rn; [done | done | auto | done | done | done | | | exact Hf];
      rewrite Hturns.
    + intros y Hy Hne. apply on_rows_kept; [done|]. by rewrite eqs_ne.
    + intros y (z & Hz & ->)%elem_of_on_rows Ha. destruct (_ && _) eqn:Hp.
      { specialize (Hg z Hz Hp). guard_facts Hg. exfalso. revert Ha. unfold turn_active. simpl.
        rewrite bool_decide_eq_true. intros ->.
        by destruct (tn_status z). }
      split; [done|]. intros Heq. by rewrite Heq, eqs_refl, Ha in Hp.
Qed.

#[local] Instance cancel_pending_rn t c r : Respects R (cancel_pending t c r).
Proof. method. Qed.

#[export] Instance running_blocks : BlockSpec R.
Proof.
  constructor; try apply _.
  - intros d d' Hc. split; [by apply bs_control_plane|]. intros _ [].
    destruct Hc. constructor; rewrite ?cp_executions, ?cp_turns, ?cp_controls; done.
  - intros. method.
  - intros snapshot claim ef ed ck cr tk tr rk rr ev c bu iu d r d' _. apply respects_apply, _.
  - intros x ty ac p pr ni o c i d r d' _. apply respects_apply. method.
  - apply finish_execution_rn.
Qed.
End finish.

Lemma initial_running d : initial d → running_ok d.
Proof.
  intros []. constructor; rewrite ?init_executions, ?init_turns, ?init_controls; try set_solver.
  constructor.
Qed.

Lemma reachable_running `{Host} d : reachable d → running_ok d.
Proof. apply reachable_under; [apply _|]. apply initial_running. Qed.
