(* ===== verification/Origin.v ===== *)
(** * Where Turns come from

    The shape of a successful acceptance, and the invariant that every canonical
    Turn was materialized by exactly one delivered submission that had reserved
    its identifier; a submission fenced by a cancellation stays fenced, and what
    [begin_delivery] checks before it arms a delivery. *)

From stdpp Require Import base tactics list strings relations.
From Stdlib Require Import ZArith Lia.
From S2P Require Import Prelude PyText Tables Contracts RegistryRows Schema Repository Service Acceptance.
From S2P Require Import Execution Evolution Methods Integrity System.

Local Open Scope Z_scope.
#[local] Hint Constants Opaque : typeclass_instances.
#[local] Hint Transparent dict time relation : typeclass_instances.

(** The evidence an acceptance records: what the provider reports, or for a
    delivery-unknown submission what was stored when it was fenced. *)
Definition recorded_evidence (s : submission_row) (reported : dict) : dict :=
  if bool_decide (sb_status s = Sub_DELIVERY_UNKNOWN) then sb_delivery_evidence s else reported.

Lemma accept_submission_inv {X} (side : option (string → time → option string → txn X))
    sid tk tr ln ev bi ck cr mo c bu iu d r d' :
  accept_submission side sid tk tr ln ev bi ck cr mo c bu iu d = Ok (r, d') →
  sanitized (JObj ev) = true ∧ conversation_identity_ok ck cr = true ∧
  maintenance_is_active d = Some false ∧
  ∃ s i st,
    submission_by_id sid d = Some s ∧ submission_intent sid d = Some i ∧
    task_state (sb_task_id s) d = Some st ∧
    (∃ h, task_harness_engine (sb_task_id s) d = Some h ∧ h = ln_engine_driver ln ∧
          engine_family_of_harness (Some h) = Some (ln_engine_family ln)) ∧
    ((sb_status s = Sub_DELIVERED ∧ (side ≠ None → st_work_status st = Work_OPEN) ∧
      ∃ b xo, check_delivered_replay s ln tk tr bi ck cr d = Ok (b, d) ∧
        run_side_effect side (sb_reserved_turn_id s) c b d = Ok (xo, d') ∧
        r = (accepted_response sid (sb_reserved_turn_id s), xo)) ∨
     ((sb_status s = Sub_DELIVERING ∨
       sb_status s = Sub_DELIVERY_UNKNOWN ∧ cancellation_fenced s = false) ∧
      st_work_status st = Work_OPEN ∧
      materialize_turn side s i ln tk tr bi ck cr mo (recorded_evidence s ev) c bu iu d
        = Ok (r, d'))).
Proof.
  unfold accept_submission. intros Hrun.
  apply bind_Ok in Hrun as (? & ? & [Hsan ->]%require_Ok & Hrun).
  apply bind_Ok in Hrun as (? & ? & [Hci ->]%require_Ok & Hrun).
  apply bind_Ok in Hrun as (? & ? & Hb & Hrun).
  assert (maintenance_is_active d = Some false) as Hm.
  { unfold begin_write in Hb. apply bind_Ok in Hb as (? & ? & [-> ->]%gets_Ok & Hb).
    by destruct (maintenance_is_active d) as [[]|]. }
  reads_only Hb.
  apply bind_Ok in Hrun as (? & ? & [-> ->]%gets_Ok & Hrun).
  apply bind_Ok in Hrun as (? & ? & [-> ->]%gets_Ok & Hrun).
  apply bind_Ok in Hrun as (s & ? & [Hs ->]%require_some_Ok & Hrun).
  apply bind_Ok in Hrun as (i & ? & [Hi ->]%require_some_Ok & Hrun).
  apply bind_Ok in Hrun as (st & ? & Hst & Hrun).
  assert (task_state (sb_task_id s) d = Some st) as Hstate.
  { unfold require_current_conversation in Hst. by tx_inv_all. }
  reads_only Hst.
  apply bind_Ok in Hrun as (? & e & Hopen & Hrun).
  assert (d = e) as <- by (revert Hopen; apply respects_apply; solve_respects).
  apply bind_Ok in Hrun as (? & ? & [Hfence ->]%require_Ok & Hrun).
  apply bind_Ok in Hrun as (? & ? & [-> ->]%gets_Ok & Hrun).
  apply bind_Ok in Hrun as (fam & ? & [Hfam ->]%require_some_Ok & Hrun).
  apply bind_Ok in Hrun as (? & ? & [Hln ->]%require_Ok & Hrun).
  split_bools. unfold eqo in *. split_bools. subst fam.
  split_and!; [done..|]. exists s, i, st. split_and!; [done..| |].
  { destruct (task_harness_engine (sb_task_id s) _) as [h|] eqn:Hh; [|done]. simplify_eq. eauto. }
  destruct (bool_decide (sb_status s = Sub_DELIVERED)) eqn:Hdel.
  - left. split_bools. split; [done|].
    apply bind_Ok in Hrun as (b & ? & Hrep & Hrun).
    pose proof Hrep as Hrep'. reads_only Hrep.
    apply bind_Ok in Hrun as (? & ? & Hop & Hrun).
    assert (side ≠ None → st_work_status st = Work_OPEN) as Hside.
    { destruct side; [|done]. intros _. unfold require_open in Hop. by tx_inv_all; split_bools. }
    split; [done|].
    assert (∃ e, d = e ∧ run_side_effect side (sb_reserved_turn_id s) c b e = Ok (r.2, d')
              ∧ r.1 = accepted_response sid (sb_reserved_turn_id s)) as (? & <- & Hrs & Hr1).
    { apply bind_Ok in Hrun as (xo & ? & Hx & [-> ->]%ret_Ok). eexists. split; [|by split].
      revert Hop. apply respects_apply. destruct side; solve_respects. }
    exists b, r.2. split_and!; [done..|]. destruct r; simpl in *; by subst.
  - right. unfold require_open in Hopen. tx_inv_all. split_bools.
    split_and!; [|done|].
    + destruct (sb_status s); simpl in *; naive_solver.
    + unfold recorded_evidence. done.
Qed.

(** ** Every Turn has its delivered submission *)

Definition delivered_as (d : db) (t : turn_row) (s : submission_row) : Prop :=
  s ∈ submissions d ∧ sb_reserved_turn_id s = tn_turn_id t ∧ sb_task_id s = tn_task_id t ∧
  sb_status s = Sub_DELIVERED.

Definition turns_delivered_but (exempt : option string) (d : db) : Prop :=
  ∀ t, t ∈ task_turns d → Some (tn_turn_id t) ≠ exempt → ∃ s, delivered_as d t s.

Abbreviation turns_delivered := (turns_delivered_but None).

Section origin.
Context (exempt : option string).
Abbreviation R := (under (turns_delivered_but exempt)).

#[local] Instance insert_submission_or a b c d e f g h i j k :
  Respects R (insert_submission a b c d e f g h i j k).
Proof.
  apply under_intro; [apply _|]. intros d0 u d' [_ ->]%insert_row_inv _ HI t Ht Hne.
  destruct (HI t Ht Hne) as (s & Hs & ?). exists s. split; [|done]. apply elem_of_app. by left.
Qed.

(** A delivered submission is terminal. *)
Lemma update_submissions_or p guard f d n d' :
  update_rows submissions with_submissions p guard f d = Ok (n, d') →
  (∀ s, p s = true → guard d s (f s) = None → sb_status s ≠ Sub_DELIVERED) →
  turns_delivered_but exempt d → turns_delivered_but exempt d'.
Proof.
  intros (-> & _ & Hg)%update_rows_inv Hp HI t Ht Hne.
  destruct (HI t Ht Hne) as (s & Hs & Hr & Htask & Hst). exists s. split_and!; try done.
  simpl. apply on_rows_kept; [done|]. apply not_true_iff_false. intros Hps.
  by destruct (Hp _ Hps (Hg s Hs Hps)).
Qed.
#[export] Instance transition_submission_or a b c d e f g h i j k l :
  Respects R (transition_submission a b c d e f g h i j k l).
Proof.
  apply under_intro; [apply _|]. intros d0 n d' Hrun _ HI.
  eapply update_submissions_or; [exact Hrun | | done].
  intros s _ Hg Hst. guard_facts Hg. by rewrite Hst in *.
Qed.
#[local] Instance reclaim_or s c : Respects R (reclaim s c).
Proof.
  apply under_intro; [apply _|]. intros d n d' Hrun _ HI.
  eapply update_submissions_or; [exact Hrun | | done].
  intros x Hp _ Hst. simpl in Hp. split_bools. congruence.
Qed.
#[export] Instance repin_or a b c : Respects R (repin_submissions a b c).
Proof.
  apply under_intro; [apply _|]. intros d n d' Hrun _ HI.
  eapply update_submissions_or; [exact Hrun | | done].
  intros x Hp _ Hst. simpl in Hp. split_bools. congruence.
Qed.
#[export] Instance insert_turn_item_or i : Respects R (insert_turn_item i).
Proof. frame_statement. Qed.
#[export] Instance insert_runtime_execution_or a b c d e f g h i j k l m n :
  Respects R (insert_runtime_execution a b c d e f g h i j k l m n).
Proof. frame_statement. Qed.
#[export] Instance transition_runtime_execution_or a b c d e f g :
  Respects R (transition_runtime_execution a b c d e f g).
Proof. frame_statement. Qed.

(** Finishing a Turn keeps its identity. *)
#[export] Instance repo_finish_turn_or a b c d e : Respects R (repo_finish_turn a b c d e).
Proof.
  apply under_intro; [apply _|]. intros d0 n d' (-> & _ & _)%update_rows_inv _ HI t Ht Hne.
  simpl in Ht. apply elem_of_on_rows in Ht as (y & Hy & ->). destruct (_ && _).
  - destruct (HI y Hy Hne) as (s & ?). by exists s.
  - by apply HI.
Qed.

#[export] Instance origin_safe : SafeStatements R.
Proof.
  constructor; intros; try apply _; try frame_statement.
  apply under_intro; [by apply ss_update_tasks|].
  by intros ? ? ? (-> & _ & _)%update_rows_inv _ HI.
Qed.
End origin.

Lemma insert_turn_or id b c d e f g h i j k l m n o p q r s d0 u d1 :
  insert_turn id b c d e f g h i j k l m n o p q r s d0 = Ok (u, d1) →
  turns_delivered d0 → turns_delivered_but (Some id) d1.
Proof.
  intros [_ ->]%insert_row_inv HI t Ht Hne. simpl in Ht.
  apply elem_of_app in Ht as [Ht| ->%list_elem_of_singleton]; [|by destruct Hne].
  by apply (HI t Ht).
Qed.

(** Statements that leave [submissions] alone. *)
Definition same_submissions (d d' : db) : Prop := submissions d' = submissions d.
#[local] Instance same_submissions_preorder : PreOrder same_submissions.
Proof. split; unfold same_submissions; red; congruence. Qed.
#[local] Instance supersede_binding_ss a b c : Respects same_submissions (supersede_binding a b c).
Proof. by intros d n d' (-> & _ & _)%update_rows_inv. Qed.
#[local] Instance insert_binding_ss a b c d e f g h i j k l m n o :
  Respects same_submissions (insert_binding a b c d e f g h i j k l m n o).
Proof. by intros d0 u d' [_ ->]%insert_row_inv. Qed.
#[local] Instance resolve_acceptance_binding_ss a b c d e f g h :
  Respects same_submissions (resolve_acceptance_binding a b c d e f g h).
Proof. method. Qed.

Section accept.
Context `{Host}.
Abbreviation R := (under turns_delivered).

(** The submission that materializes a Turn is delivered with it. *)
Lemma materialize_turn_delivers {X} (side : option (string → time → option string → txn X))
    s i ln tk tr bi ck cr mo ev c bu iu d r d' :
  (∀ f a b c, side = Some f → Respects R (f a b c)) →
  Respects integral (materialize_turn side s i ln tk tr bi ck cr mo ev c bu iu) →
  s ∈ submissions d → materialize_turn side s i ln tk tr bi ck cr mo ev c bu iu d = Ok (r, d') →
  R d d'.
Proof.
  intros Hside Hint Hs Hrun. split; [by eapply Hint|]. intros Hok HI.
  unfold materialize_turn in Hrun.
  apply bind_Ok in Hrun as (? & ? & [-> ->]%gets_Ok & Hrun).
  apply bind_Ok in Hrun as (? & ? & [_ ->]%require_Ok & Hrun).
  apply bind_Ok in Hrun as (resolved & d1 & Hbind & Hrun).
  assert (same_submissions d d1) as Hs1
    by (revert Hbind; apply respects_apply; solve_respects).
  assert (R d d1) as [[_ Hok1] HI1] by (revert Hbind; apply respects_apply; solve_respects).
  specialize (Hok1 Hok). specialize (HI1 Hok HI).
  apply bind_Ok in Hrun as (? & ? & [-> ->]%gets_Ok & Hrun).
  apply bind_Ok in Hrun as (? & d2 & Hturn & Hrun).
  pose proof (insert_turn_integral _ _ _ _ _ _ _ _ _ _ _ _ _ _ _ _ _ _ _ _ _ _ Hturn) as [_ Hok2].
  specialize (Hok2 Hok1). pose proof (insert_turn_or _ _ _ _ _ _ _ _ _ _ _ _ _ _ _ _ _ _ _ _ _ _ Hturn HI1) as HI2.
  assert (submissions d2 = submissions d1 ∧
          ∀ t, t ∈ task_turns d2 → tn_turn_id t = sb_reserved_turn_id s →
            tn_task_id t = sb_task_id s) as [Hs2 Ht2].
  { apply insert_row_inv in Hturn as [Hg ->]. guard_facts Hg. split; [done|]. simpl.
    intros t [Ht| ->%list_elem_of_singleton]%elem_of_app Heq; [|done]. exfalso.
    match goal with Hf : index_free always tn_turn_id _ _ = true |- _ =>
      unfold index_free in Hf; simpl in Hf; rewrite negb_true_iff, row_exists_false in Hf;
      specialize (Hf t Ht); simpl in Hf; by rewrite bool_decide_eq_true_2 in Hf end. }
  apply bind_Ok in Hrun as (? & ? & [-> ->]%gets_Ok & Hrun).
  apply bind_Ok in Hrun as (? & d3 & Hitem & Hrun).
  pose proof (insert_turn_item_or (Some (sb_reserved_turn_id s)) _ _ _ _ Hitem) as [[_ Hok3] HI3].
  specialize (Hok3 Hok2). specialize (HI3 Hok2 HI2).
  assert (submissions d3 = submissions d2 ∧ task_turns d3 = task_turns d2) as [Hs3 Ht3]
    by (by apply insert_row_inv in Hitem as [_ ->]).
  apply bind_Ok in Hrun as (n & d4 & Hsub & Hrun).
  apply bind_Ok in Hrun as (? & ? & [Hn%Z.eqb_eq ->]%require_Ok & Hrun). subst n.
  pose proof (transition_submission_or (Some (sb_reserved_turn_id s))
    _ _ _ _ _ _ _ _ _ _ _ _ _ _ _ Hsub) as [[_ Hok4] HI4].
  specialize (HI4 Hok3 HI3). specialize (Hok4 Hok3).
  assert (∃ x, x ∈ submissions d4 ∧ sb_reserved_turn_id x = sb_reserved_turn_id s ∧
            sb_task_id x = sb_task_id s ∧ sb_status x = Sub_DELIVERED) as (w & Hx).
  { pose proof (update_rows_hit _ _ _ _ _ _ _ Hsub) as (y & Hy & Hp).
    apply update_rows_inv in Hsub as (-> & _ & _). simpl.
    eexists. split; [apply elem_of_on_rows; exists y; rewrite Hp; split; [done|reflexivity]|].
    split_bools. rewrite Hs3, Hs2, Hs1 in Hy.
    assert (y = s) as -> by (eapply unique_eq; [apply (submissions_pk _ (ok_submissions _ Hok)) | done..]).
    done. }
  assert (turns_delivered d4) as HI4'.
  { intros t Ht _. destruct (decide (tn_turn_id t = sb_reserved_turn_id s)) as [Heq|Hne];
      [|apply HI4; [done|congruence]].
    exists w. destruct Hx as (? & ? & Htask & ?). split_and!; try congruence.
    rewrite Htask. symmetry. apply Ht2; [|done]. rewrite <-Ht3.
    by apply update_rows_inv in Hsub as (-> & _ & _). }
  apply bind_Ok in Hrun as (? & d5 & Hrun & [_ ->]%ret_Ok).
  assert (R d4 d5) as [_ HI5].
  { revert Hrun. apply respects_apply. by apply (run_side_effect_respects R). }
  auto.
Qed.

#[local] Instance persist_runtime_or a b c d e f g h i j :
  Respects R (persist_runtime a b c d e f g h i j).
Proof. method. Qed.
#[local] Instance cancel_pending_or t c r : Respects R (cancel_pending t c r).
Proof. method. Qed.
#[local] Instance release_next_turn_or a b c : Respects R (release_next_turn a b c).
Proof. method. Qed.
#[local] Instance finish_runtime_or a b c d e f : Respects R (finish_runtime a b c d e f).
Proof. method. Qed.

#[local] Instance accept_or snapshot claim ef ed ck cr tk tr rk rr ev c bu iu :
  Respects R (accept_and_open_execution snapshot claim ef ed ck cr tk tr rk rr ev c bu iu).
Proof.
  intros d r d' Hrun. unfold accept_and_open_execution in Hrun.
  destruct (runtime_identity_for_acceptance claim snapshot) as [[identity ?]|]; [|by tx_inv_all].
  apply bind_Ok in Hrun as ([j xo] & d1 & Hacc & [_ ->]%require_some_Ok).
  apply accept_submission_inv in Hacc as (_ & _ & _ & s & i & st & Hs & _ & _ & _ & Hcase).
  apply select_one_Some in Hs as [Hs _].
  destruct Hcase as [(_ & _ & b & xo' & _ & Hrun & _)|(_ & _ & Hrun)].
  - revert Hrun. apply respects_apply, (run_side_effect_respects R).
    intros; simplify_eq; apply _.
  - eapply materialize_turn_delivers; [| |exact Hs|exact Hrun].
    + intros; simplify_eq; apply _.
    + apply materialize_turn_respects; [apply _|]. intros; simplify_eq; apply _.
Qed.

#[export] Instance origin_blocks : BlockSpec R.
Proof.
  constructor; try apply _.
  - intros d d' Hc. split; [by apply bs_control_plane|]. intros _ HI t Ht Hne.
    destruct Hc. rewrite cp_turns in Ht. unfold delivered_as. rewrite cp_submissions. by apply HI.
  - intros. method.
  - intros snapshot claim ef ed ck cr tk tr rk rr ev c bu iu d r d' _. apply respects_apply, _.
  - intros x ty ac p pr ni o c i d r d' _. apply respects_apply. method.
  - intros x s e f c d r d' _ (es & t & _ & _ & _ & [(_ & _ & Hf)|(_ & d1 & d2 & p & H1 & H2 & Hf)])%finish_execution_inv.
    + by eapply finish_runtime_or.
    + etrans; [by eapply repo_finish_turn_or|].
      etrans; [by eapply release_next_turn_or | by eapply finish_runtime_or].
Qed.
End accept.

(** * Delivery to the engine *)

(** ** The cancellation fence *)

Definition fenced (s : submission_row) : Prop :=
  sb_status s = Sub_DELIVERY_UNKNOWN ∧ cancellation_fenced s = true.

Definition holds (s : submission_row) (d : db) : Prop := s ∈ submissions d.

Section fence.
Context `{Host} (s : submission_row) (Hfence : fenced s).
Abbreviation R := (under (holds s)).

#[local] Instance insert_submission_fn a b c d e f g h i j k :
  Respects R (insert_submission a b c d e f g h i j k).
Proof.
  apply under_intro; [apply _|]. intros d0 u d' [_ ->]%insert_row_inv _ HI.
  apply elem_of_app. by left.
Qed.

Lemma update_submissions_fn p guard f d n d' :
  update_rows submissions with_submissions p guard f d = Ok (n, d') →
  p s = false → holds s d → holds s d'.
Proof. intros (-> & _ & _)%update_rows_inv Hp HI. by apply on_rows_kept. Qed.

Lemma transition_submission_fn a b c d e f g h i j k l :
  b ≠ Sub_DELIVERY_UNKNOWN ∨ a ≠ sb_submission_id s →
  Respects R (transition_submission a b c d e f g h i j k l).
Proof using Hfence.
  intros Hor. apply under_intro; [apply _|]. intros d0 n d' Hrun _ HI.
  eapply update_submissions_fn; [exact Hrun | | done]. apply andb_false_iff.
  destruct Hor as [Hb|Ha]; [right | left; by apply eqs_ne].
  apply bool_decide_eq_false. destruct Hfence as [-> _]. congruence.
Qed.
#[local] Instance reclaim_fn x c : Respects R (reclaim x c).
Proof using Hfence.
  apply under_intro; [apply _|]. intros d n d' Hrun _ HI.
  eapply update_submissions_fn; [exact Hrun | | done]. simpl.
  destruct Hfence as [-> _]. by rewrite bool_decide_eq_false_2, andb_false_r.
Qed.

#[local] Instance repin_fn a b c : Respects R (repin_submissions a b c).
Proof using Hfence.
  apply under_intro; [apply _|]. intros d n d' Hrun _ HI.
  eapply update_submissions_fn; [exact Hrun | | done]. simpl.
  destruct Hfence as [-> _]. by rewrite (bool_decide_eq_false_2 (_ = Sub_QUEUED)), andb_false_r.
Qed.

#[local] Instance insert_turn_fn a b c d e f g h i j k l m n o p q r t :
  Respects R (insert_turn a b c d e f g h i j k l m n o p q r t).
Proof. frame_statement. Qed.
#[local] Instance insert_turn_item_fn i : Respects R (insert_turn_item i).
Proof. frame_statement. Qed.
#[local] Instance insert_runtime_execution_fn a b c d e f g h i j k l m n :
  Respects R (insert_runtime_execution a b c d e f g h i j k l m n).
Proof. frame_statement. Qed.
#[local] Instance transition_runtime_execution_fn a b c d e f g :
  Respects R (transition_runtime_execution a b c d e f g).
Proof. frame_statement. Qed.
#[local] Instance repo_finish_turn_fn a b c d e : Respects R (repo_finish_turn a b c d e).
Proof. frame_statement. Qed.

#[local] Instance fence_safe : SafeStatements R.
Proof using Hfence.
  constructor; intros; try apply _; try frame_statement.
  - apply transition_submission_fn. unfold safe_submission_move in *. split_bools. by left.
  - apply under_intro; [by apply ss_update_tasks|].
    by intros ? ? ? (-> & _ & _)%update_rows_inv _ HI.
Qed.

#[local] Instance persist_runtime_fn a b c d e f g h i j :
  Respects R (persist_runtime a b c d e f g h i j).
Proof using Hfence. method. Qed.
#[local] Instance finish_runtime_fn a b c d e f : Respects R (finish_runtime a b c d e f).
Proof using Hfence. method. Qed.
#[local] Instance release_next_turn_fn a b c : Respects R (release_next_turn a b c).
Proof using Hfence. method. apply transition_submission_fn. by left. Qed.

(** Only pending submissions are cancelled. *)
#[local] Instance cancel_pending_submissions_fn t c : Respects R (cancel_pending_submissions t c).
Proof using Hfence.
  intros d rows d' Hrun. unfold cancel_pending_submissions in Hrun.
  apply bind_Ok in Hrun as (? & ? & [-> ->]%gets_Ok & Hrun).
  apply bind_Ok in Hrun as (? & ? & Hloop & [_ ->]%ret_Ok). revert Hloop.
  apply respects_apply, respects_for_each_in; [apply _|]. intros row Hrow.
  apply list_elem_of_fmap in Hrow as (y & -> & [_ Hp]%elem_of_order_by%elem_of_select).
  assert (sb_status y ≠ Sub_DELIVERY_UNKNOWN) as Hne.
  { split_bools. unfold sub_pending in *. by destruct (sb_status y). }
  method; apply transition_submission_fn; by left.
Qed.

(** A fenced submission is not the one that an acceptance delivers. *)
#[local] Instance accept_fn snapshot claim ef ed ck cr tk tr rk rr ev c bu iu :
  Respects R (accept_and_open_execution snapshot claim ef ed ck cr tk tr rk rr ev c bu iu).
Proof using Hfence.
  intros d r d' Hrun.
  split; [by eapply (accept_and_open_execution_respects integral)|]. intros Hok HI.
  unfold accept_and_open_execution in Hrun.
  destruct (runtime_identity_for_acceptance claim snapshot) as [[identity ?]|]; [|by tx_inv_all].
  apply bind_Ok in Hrun as ([j xo] & d1 & Hacc & [_ ->]%require_some_Ok).
  apply accept_submission_inv in Hacc as (_ & _ & _ & x & i & st & Hx & _ & _ & _ & Hcase).
  apply select_one_Some in Hx as [Hx _].
  enough (R d d1) as [_ HR] by auto.
  destruct Hcase as [(_ & _ & b & xo' & _ & Hrun & _)|(Hst & _ & Hrun)].
  - revert Hrun. apply respects_apply, (run_side_effect_respects R).
    intros; simplify_eq; apply _.
  - revert Hrun. apply respects_apply. unfold materialize_turn. solve_respects.
    + apply transition_submission_fn.
      destruct Hst as [->|[_ Hnf]]; [by left|]. right. intros Heq.
      assert (x = s) as -> by (eapply unique_eq;
        [apply (submissions_pk _ (ok_submissions _ Hok)) | done..]).
      destruct Hfence. congruence.
    + apply (run_side_effect_respects R). intros; simplify_eq; apply _.
Qed.

#[local] Instance fence_blocks : BlockSpec R.
Proof using Hfence.
  constructor; try apply _.
  - intros d d' Hc. split; [by apply bs_control_plane|]. intros _ HI.
    unfold holds. by rewrite (cp_submissions _ _ Hc).
  - intros snapshot claim ef ed ck cr tk tr rk rr ev c bu iu d r d' _. apply respects_apply, _.
  - intros x ty ac p pr ni o c i d r d' _. apply respects_apply. method.
  - intros x s' e f c d r d' _ (es & t & _ & _ & _ & [(_ & _ & Hf)|(_ & d1 & d2 & p & H1 & H2 & Hf)])%finish_execution_inv.
    + by eapply finish_runtime_fn.
    + etrans; [by eapply repo_finish_turn_fn|].
      etrans; [by eapply release_next_turn_fn | by eapply finish_runtime_fn].
Qed.

Lemma fenced_stays d d' : integrity d → holds s d → rtc step d d' → holds s d'.
Proof using Hfence. intros Hok HI Hs. destruct (steps_spec R _ _ Hs) as [_ HR]. auto. Qed.
End fence.
