(* ===== verification/Scenario.v ===== *)
(** * A run of the system

    One conversation from an empty domain: a Task is initialized, a Turn is
    admitted, claimed, delivered and accepted, items are appended, a next Turn is
    deferred, controls are requested, and the Turn is completed.  The databases
    of the run are the concrete inputs of the witnesses. *)

From stdpp Require Import base tactics list strings relations.
From Stdlib Require Import ZArith.
From S2P Require Import Prelude PyText Tables Contracts RegistryRows Schema Repository Service Acceptance.
From S2P Require Import Execution Evolution Methods Integrity System.

Local Open Scope string_scope.
Local Open Scope Z_scope.

(** Digests that are readable in the run. *)
#[export] Instance demo_host : Host := {| sha256_hex s := "#" ++ s; uuid5_hex s := s |}.

Definition alice : user := mkUser (Some "alice") (Some "user").
Definition grants : option (list access_row) := Some [mkAccess "env" "alice" true JNull].

Definition demo0 : db :=
  mkDb (Some false)
    [mkProject "proj" "alice" "Project" None Project_ACTIVE false None None 0 0] []
    [mkEnvironment "env" "host" (Some "root") "Host" None [] None false Env_ACTIVE 0 0 (Some "fp")
       None None]
    [mkWorkspace "ws" "alice" "env" "/home/alice" "ws" None [] Workspace_ACTIVE None 0 0 None
       None None None None]
    [mkLink "proj" "ws" Link_ACTIVE true "alice" 0 0] [] [] [] [] [] [] [] [] [] []
    [mkTask "task" "proj" "ws" "env" "vanilla" "codex-app-server" None None "title" "hello" 0 0
       "alice" None None None None]
    [] [] [] [] [] [] [] [] [] [] [] [].

(** The database a transaction leaves behind. *)
Definition after {A} (m : txn A) (d : db) : db := (transaction m d).2.

Definition demo1 : db := Eval vm_compute in after (initialize_task "task" alice 1 "ev1") demo0.
Definition demo2 : db := Eval vm_compute in
  after (create_turn grants "task" alice [("text", JStr "hello")] "key1" None false 2 "sub1" "turn1"
           "ev2") demo1.
Definition demo3 : db := Eval vm_compute in after (claim_next_submission 30 3 3) demo2.
Definition demo4 : db := Eval vm_compute in after (begin_delivery "sub1" (Some 1) 4) demo3.
Definition claim1 : SubmissionClaim :=
  mkSubmissionClaim "sub1" "task" "turn1" [("text", JStr "hello")] None.
Definition execution1 : string := "openscience-runtime-execution:sub1".
Definition demo5 : db := Eval vm_compute in
  after (accept_and_open_execution demo4 claim1 "codex" "codex-app-server" "thread" "th1" "turn"
           "nt1" (Some "process") (Some "pid1") [("source", JStr "engine")] 5 "bind1" "item1") demo4.
Definition running1 : RuntimeExecutionClaim := mkExecutionClaim execution1 "task" "turn1" 1.
Definition demo6 : db := Eval vm_compute in
  after (append_item running1 Item_AGENT_MESSAGE Actor_AGENT [("text", JStr "hi")] [] None None 6
           "item2") demo5.
Definition demo7 : db := Eval vm_compute in
  after (create_turn grants "task" alice [("text", JStr "next")] "key2" None true 7 "sub2" "turn2"
           "ev7") demo6.
Definition demo8 : db := Eval vm_compute in
  after (request_interrupt "task" "turn1" alice "key3" 8 "ctl1") demo7.
Definition demo9 : db := Eval vm_compute in
  after (finish_execution running1 Turn_COMPLETED [("source", JStr "engine")] None 9) demo8.

(** The next Turn is claimed, delivered and accepted in the same conversation. *)
Definition demo10 : db := Eval vm_compute in after (claim_next_submission 30 10 10) demo9.
Definition demo11 : db := Eval vm_compute in after (begin_delivery "sub2" (Some 1) 11) demo10.
Definition claim2 : SubmissionClaim :=
  mkSubmissionClaim "sub2" "task" "turn2" [("text", JStr "next")] None.
Definition demo12 : db := Eval vm_compute in
  after (accept_and_open_execution demo11 claim2 "codex" "codex-app-server" "thread" "th1" "turn"
           "nt2" (Some "process") (Some "pid2") [("source", JStr "engine")] 12 "bind2" "item3")
    demo11.

(** The Task is cancelled while its submission is being delivered, and reopened. *)
Definition demo_cancelled : db := Eval vm_compute in
  after (cancel_task "task" alice "key9" 5 "ctl9") demo4.
Definition demo_reopened : db := Eval vm_compute in
  after (reopen_task "task" alice "key10" 6 "ev10") demo_cancelled.

(** The Task is completed before its first Turn. *)
Definition demo_completed : db := Eval vm_compute in
  after (complete_task "task" alice "key20" 20 "ev20") demo1.

(** The worker lost track of the delivery. *)
Definition demo_unknown : db := Eval vm_compute in
  after (mark_delivery_unknown "sub1" "worker_lost" [("source", JStr "worker")] 5) demo4.

Lemma demo0_initial : initial demo0.
Proof. constructor; try reflexivity. vm_compute. repeat constructor. set_solver. Qed.

(** The steps of the run. *)
Lemma demo_step01 : step demo0 demo1.
Proof. eapply step_conversation, (step_initialize_task "task" alice 1 "ev1"). vm_compute. reflexivity. Qed.
Lemma demo_step12 : step demo1 demo2.
Proof.
  eapply step_conversation, (step_create_turn grants "task" alice [("text", JStr "hello")] "key1" None false 2 "sub1"
    "turn1" "ev2"). vm_compute. reflexivity.
Qed.
Lemma demo_step23 : step demo2 demo3.
Proof. eapply step_conversation, (step_claim_next_submission 30 3 3). vm_compute. reflexivity. Qed.
Lemma demo_step34 : step demo3 demo4.
Proof. eapply step_conversation, (step_begin_delivery "sub1" (Some 1) 4). vm_compute. reflexivity. Qed.
Lemma demo_step45 : step demo4 demo5.
Proof.
  eapply step_conversation, (step_accept demo4 claim1 "codex" "codex-app-server" "thread" "th1" "turn" "nt1"
    (Some "process") (Some "pid1") [("source", JStr "engine")] 5 "bind1" "item1");
    [reflexivity|]. vm_compute. reflexivity.
Qed.

Lemma genuine_by_lookup d x :
  (∃ i e, executions d !! i = Some e ∧ names x e) → genuine d x.
Proof. intros (i & e & Hi & Hn). exists e. split; [by eapply list_elem_of_lookup_2 | done]. Qed.

Lemma demo5_genuine : genuine demo5 running1.
Proof. apply genuine_by_lookup. exists 0%nat. eexists. split; [reflexivity|]. by split_and!. Qed.
Lemma demo8_genuine : genuine demo8 running1.
Proof. apply genuine_by_lookup. exists 0%nat. eexists. split; [reflexivity|]. by split_and!. Qed.

Lemma demo_step56 : step demo5 demo6.
Proof.
  eapply step_conversation, (step_append_item running1 Item_AGENT_MESSAGE Actor_AGENT [("text", JStr "hi")] [] None
    None 6 "item2"); [apply demo5_genuine|]. vm_compute. reflexivity.
Qed.
Lemma demo_step67 : step demo6 demo7.
Proof.
  eapply step_conversation, (step_create_turn grants "task" alice [("text", JStr "next")] "key2" None true 7 "sub2"
    "turn2" "ev7"). vm_compute. reflexivity.
Qed.
Lemma demo_step78 : step demo7 demo8.
Proof. eapply step_conversation, (step_request_interrupt "task" "turn1" alice "key3" 8 "ctl1"). vm_compute. reflexivity. Qed.
Lemma demo_step89 : step demo8 demo9.
Proof.
  eapply step_conversation, (step_finish_execution running1 Turn_COMPLETED [("source", JStr "engine")] None 9);
    [apply demo8_genuine|]. vm_compute. reflexivity.
Qed.

Lemma demo1_reachable : reachable demo1.
Proof. eapply reachable_step, demo_step01. exists demo0. split; [apply demo0_initial | done]. Qed.
Lemma demo2_reachable : reachable demo2.
Proof. eapply reachable_step, demo_step12. apply demo1_reachable. Qed.
Lemma demo3_reachable : reachable demo3.
Proof. eapply reachable_step, demo_step23. apply demo2_reachable. Qed.
Lemma demo4_reachable : reachable demo4.
Proof. eapply reachable_step, demo_step34. apply demo3_reachable. Qed.
Lemma demo5_reachable : reachable demo5.
Proof. eapply reachable_step, demo_step45. apply demo4_reachable. Qed.
Lemma demo8_reachable : reachable demo8.
Proof.
  eapply reachable_step, demo_step78. eapply reachable_step, demo_step67.
  eapply reachable_step, demo_step56. apply demo5_reachable.
Qed.
Lemma demo9_reachable : reachable demo9.
Proof. eapply reachable_step, demo_step89. apply demo8_reachable. Qed.

Lemma demo_steps59 : rtc step demo5 demo9.
Proof.
  eapply rtc_l; [apply demo_step56|]. eapply rtc_l; [apply demo_step67|].
  eapply rtc_l; [apply demo_step78|]. apply rtc_once, demo_step89.
Qed.

Lemma demo_step_cancel : step demo4 demo_cancelled.
Proof. eapply step_conversation, (step_cancel_task "task" alice "key9" 5 "ctl9"). vm_compute. reflexivity. Qed.
Lemma demo_step_reopen : step demo_cancelled demo_reopened.
Proof. eapply step_conversation, (step_reopen_task "task" alice "key10" 6 "ev10"). vm_compute. reflexivity. Qed.
Lemma demo_cancelled_reachable : reachable demo_cancelled.
Proof. eapply reachable_step, demo_step_cancel. apply demo4_reachable. Qed.

Lemma demo_step9_10 : step demo9 demo10.
Proof. eapply step_conversation, (step_claim_next_submission 30 10 10). vm_compute. reflexivity. Qed.
Lemma demo_step10_11 : step demo10 demo11.
Proof. eapply step_conversation, (step_begin_delivery "sub2" (Some 1) 11). vm_compute. reflexivity. Qed.
Lemma demo_step11_12 : step demo11 demo12.
Proof.
  eapply step_conversation, (step_accept demo11 claim2 "codex" "codex-app-server" "thread" "th1" "turn" "nt2"
    (Some "process") (Some "pid2") [("source", JStr "engine")] 12 "bind2" "item3");
    [reflexivity|]. vm_compute. reflexivity.
Qed.
Lemma demo_steps9_12 : rtc step demo9 demo12.
Proof.
  eapply rtc_l; [apply demo_step9_10|]. eapply rtc_l; [apply demo_step10_11|].
  apply rtc_once, demo_step11_12.
Qed.
Lemma demo12_reachable : reachable demo12.
Proof. eapply reachable_steps, demo_steps9_12. apply demo9_reachable. Qed.

Lemma demo_completed_reachable : reachable demo_completed.
Proof.
  eapply reachable_step; [apply demo1_reachable|].
  eapply step_conversation, (step_complete_task "task" alice "key20" 20 "ev20"). vm_compute. reflexivity.
Qed.
