(* ===== verification/Guarantees.v ===== *)
(** * What the conversation control plane guarantees

    Theorems about every reachable database and every run of the transition
    system of [System], each with a witness on the run of [Scenario]. *)

From stdpp Require Import base tactics list strings relations.
From Stdlib Require Import ZArith Lia.
From S2P Require Import Prelude PyText Tables Contracts RegistryRows Schema Repository Service Acceptance.
From S2P Require Import Execution Evolution Methods Integrity System History Waiting Running.
From S2P Require Import Origin Scenario.

Local Open Scope string_scope.
Local Open Scope Z_scope.

(** ** Invariants *)

(** C2: in every reachable database all unique indexes, row checks and references
    between the conversation tables hold: one active Turn per Task, one active
    execution per Turn, one active binding per Task, one pending next Turn per
    Task, every item in an existing Turn, every control on an existing execution
    of its generation, every delivered submission with its Turn. *)
Theorem reachable_is_integral `{Host} d : reachable d → integrity d.
Proof. apply reachable_integrity. Qed.

Lemma reachable_is_integral_witness : integrity demo8.
Proof. apply (reachable_is_integral demo8). apply demo8_reachable. Defined.

(** C36: along every run nothing is deleted or rewritten: rows keep their identity
    columns, statuses move only along the transition tables of the contracts,
    rows in a terminal state are frozen, and items, intents, idempotency records
    and audit events are append-only. *)
Theorem history_is_preserved `{Host} d d' : rtc step d d' → db_evolves d d'.
Proof. apply steps_spec, _. Qed.

Lemma history_is_preserved_witness : db_evolves demo5 demo9.
Proof. apply (history_is_preserved demo5 demo9). apply demo_steps59. Defined.

(** The contract check [require_single_active_turn] accepts the Turns of every
    Task of every reachable database. *)
Theorem single_active_turn `{Host} d task_id :
  reachable d →
  require_single_active_turn (tn_status <$> repo_list_turns task_id d) = Ok tt.
Proof.
  intros Hd. rewrite (list_turns_in_order _ _ (reachable_gap_free _ Hd)).
  apply reachable_integrity in Hd. unfold require_single_active_turn.
  pose proof (unique_count turn_active (of_task_turn task_id) tn_task_id (task_turns d) task_id
    (turns_one_active _ (ok_turns _ Hd))) as Hle.
  replace (length (List.filter _ _))
    with (length (select turn_active (select (of_task_turn task_id) (task_turns d)))).
  - destruct (Nat.ltb_spec 1 (length (select turn_active
      (select (of_task_turn task_id) (task_turns d))))) as [Hlt|]; [|done].
    assert (∀ t, of_task_turn task_id t = true → tn_task_id t = task_id) as Ht
      by (intros t Ht; unfold of_task_turn in Ht; by split_bools).
    specialize (Hle Ht). lia.
  - generalize (select (of_task_turn task_id) (task_turns d)). clear.
    intros l. unfold select. induction l as [|t l IH]; csimpl; [done|].
    unfold turn_active at 1. case_bool_decide; simpl; by rewrite IH.
Qed.

Lemma single_active_turn_witness :
  require_single_active_turn (tn_status <$> repo_list_turns "task" demo8) = Ok tt.
Proof. apply (single_active_turn demo8 "task"). apply demo8_reachable. Defined.

(** [list_turns] returns the Turns of a Task in the order they were accepted,
    numbered [1..n] without gap or repetition. *)
Theorem turns_are_numbered `{Host} d task_id :
  reachable d →
  repo_list_turns task_id d = select (of_task_turn task_id) (task_turns d) ∧
  tn_turn_seq <$> repo_list_turns task_id d
    = seqZ 1 (Z.of_nat (length (repo_list_turns task_id d))).
Proof.
  intros Hd%reachable_gap_free. rewrite (list_turns_in_order _ _ Hd). split; [done|].
  apply (gf_turns _ Hd).
Qed.

Lemma turns_are_numbered_witness : tn_turn_seq <$> repo_list_turns "task" demo8 = [1].
Proof. rewrite (proj2 (turns_are_numbered demo8 "task" demo8_reachable)). reflexivity. Defined.

(** [list_items] returns the items of a Task, and of one Turn, in the order they
    were persisted, numbered [1..n] without gap or repetition. *)
Theorem items_are_numbered `{Host} d task_id turn_id :
  reachable d →
  list_task_items task_id d = select (of_task_item task_id) (turn_items d) ∧
  it_task_item_seq <$> list_task_items task_id d
    = seqZ 1 (Z.of_nat (length (list_task_items task_id d))) ∧
  list_turn_items turn_id d = select (of_turn_item turn_id) (turn_items d) ∧
  it_turn_item_seq <$> list_turn_items turn_id d
    = seqZ 1 (Z.of_nat (length (list_turn_items turn_id d))).
Proof.
  intros Hd%reachable_gap_free.
  pose proof (gf_task_items _ Hd task_id) as H1. pose proof (gf_turn_items _ Hd turn_id) as H2.
  assert (list_task_items task_id d = select (of_task_item task_id) (turn_items d)) as ->
    by (by apply dense_order_by).
  assert (list_turn_items turn_id d = select (of_turn_item turn_id) (turn_items d)) as ->
    by (by apply dense_order_by).
  done.
Qed.

Lemma items_are_numbered_witness :
  it_task_item_seq <$> list_task_items "task" demo8 = [1; 2].
Proof.
  rewrite (proj1 (proj2 (items_are_numbered demo8 "task" "turn1" demo8_reachable))). reflexivity.
Defined.

(** In every reachable database a Turn is in progress exactly when it has a
    running execution, a Turn has at most one execution ever, and an execution that
    is not terminal is running. *)
Theorem active_turn_is_running `{Host} d t :
  reachable d → t ∈ task_turns d →
  (turn_active t = true ↔
   ∃ e, e ∈ executions d ∧ ex_turn_id e = tn_turn_id t ∧ ex_status e = Exec_RUNNING) ∧
  (∀ e1 e2, e1 ∈ executions d → e2 ∈ executions d → ex_turn_id e1 = ex_turn_id e2 → e1 = e2) ∧
  (∀ e, e ∈ executions d → exec_active e = true → ex_status e = Exec_RUNNING).
Proof.
  intros Hd Ht. pose proof (reachable_integrity _ Hd) as Hok.
  destruct (reachable_running _ Hd). split_and!.
  - split.
    + intros Ha. destruct (rn_turn t Ht Ha) as (e & He & Het & Hea); [done|].
      exists e. destruct (rn_active e He Hea). done.
    + intros (e & He & Het & Hst).
      destruct (rn_active e He) as [_ (t' & Ht' & Hid & Ha)]; [unfold exec_active; by rewrite Hst|].
      assert (t' = t) as <-; [|done].
      eapply unique_eq; [apply (turns_pk _ (ok_turns _ Hok)) | done..| congruence].
  - intros e1 e2 H1 H2 Heq. by eapply unique_eq.
  - intros e He Hea. by apply rn_active.
Qed.

Lemma active_turn_is_running_witness :
  ∃ t, t ∈ task_turns demo8 ∧
    ∃ e, e ∈ executions demo8 ∧ ex_turn_id e = tn_turn_id t ∧ ex_status e = Exec_RUNNING.
Proof.
  eexists. split; [constructor|].
  apply (proj1 (proj1 (active_turn_is_running demo8 _ demo8_reachable
           ltac:(constructor)))). reflexivity.
Defined.

(** In every reachable database a control request that is still requested or
    delivering belongs to a running execution: the completion of an execution leaves
    no control request dangling. *)
Theorem pending_controls_are_live `{Host} d c :
  reachable d → c ∈ controls d → ctl_pending c = true →
  ∃ e, e ∈ executions d ∧ ex_runtime_execution_id e = ct_runtime_execution_id c ∧
       ex_status e = Exec_RUNNING.
Proof.
  intros Hd Hc Hp. destruct (reachable_running _ Hd).
  destruct (rn_controls c Hc Hp) as (e & He & Hid & Hea). exists e.
  destruct (rn_active e He Hea). done.
Qed.

Lemma pending_controls_are_live_witness :
  ∃ c, c ∈ controls demo8 ∧
    ∃ e, e ∈ executions demo8 ∧ ex_runtime_execution_id e = ct_runtime_execution_id c ∧
         ex_status e = Exec_RUNNING.
Proof.
  eexists. split; [constructor|].
  apply (pending_controls_are_live demo8 _ demo8_reachable); [constructor | reflexivity].
Defined.

(** In every reachable database a next-Turn reservation that waits is blocked by a
    Turn of its Task that is in progress, and its submission is queued. *)
Theorem waiting_next_turn_is_blocked `{Host} d n :
  reachable d → n ∈ next_turns d → nt_status n = Next_WAITING →
  (∃ t, blocked_by d n t) ∧ (∃ s, queued_for d n s).
Proof.
  intros Hd. by apply reachable_waiting.
Qed.

Lemma waiting_next_turn_is_blocked_witness :
  ∃ n, n ∈ next_turns demo8 ∧ ∃ t, blocked_by demo8 n t.
Proof.
  eexists. split; [constructor|].
  apply (waiting_next_turn_is_blocked demo8 _ demo8_reachable); [constructor | reflexivity].
Defined.

(** In every reachable database each Turn was materialized by exactly one
    submission: the one that reserved its identifier, of the same Task, delivered,
    with the native identity the Turn records. *)
Theorem turn_has_one_delivered_submission `{Host} d t :
  reachable d → t ∈ task_turns d →
  ∃ s, delivered_as d t s ∧
    tn_native_turn_kind t = sb_native_turn_kind s ∧ tn_native_turn_ref t = sb_native_turn_ref s ∧
    ∀ s', s' ∈ submissions d → sb_reserved_turn_id s' = tn_turn_id t → s' = s.
Proof.
  intros Hd Ht. pose proof (reachable_integrity _ Hd) as Hok.
  assert (turns_delivered d) as HI.
  { revert Hd. apply reachable_under; [apply _|]. intros d0 [] x Hx. rewrite init_turns in Hx.
    set_solver. }
  destruct (HI t Ht) as (s & Hs); [done|]. exists s. pose proof Hs as (Hin & Hres & Htask & Hst).
  pose proof (met_submissions _ Hok) as Hm. unfold met in Hm. rewrite Forall_forall in Hm.
  specialize (Hm s Hin). unfold submission_ref in Hm. rewrite Hst in Hm. split_ands. simpl in *.
  match goal with Hx : row_exists _ (task_turns d) = true |- _ =>
    apply row_exists_true in Hx as (t' & Ht' & Hp) end.
  unfold turn_in in Hp. split_bools.
  assert (t' = t) as -> by (eapply unique_eq;
    [apply (turns_pk _ (ok_turns _ Hok)) | done..| congruence]).
  assert (∀ a b, eq_sql a b = true → a = b) as Hsql.
  { intros [a|] [b|]; simpl; intros; split_bools; congruence. }
  split_and!; auto. intros s' Hs' Hres'. eapply unique_eq;
    [apply (submissions_reserved _ (ok_submissions _ Hok)) | done..| congruence].
Qed.

Lemma turn_has_one_delivered_submission_witness :
  ∃ t s, t ∈ task_turns demo9 ∧ delivered_as demo9 t s.
Proof.
  destruct (turn_has_one_delivered_submission demo9 _ demo9_reachable ltac:(constructor))
    as (s & Hs & _).
  eexists _, s. split; [constructor | exact Hs].
Defined.
