(* ===== verification/Deliveries.v ===== *)
(** * Claims and deliveries

    Theorems about the path of a submission from the queue to the engine. *)

From stdpp Require Import base tactics list strings relations.
From Stdlib Require Import ZArith Lia.
From S2P Require Import Prelude PyText Tables Contracts RegistryRows Schema Repository Service Acceptance.
From S2P Require Import Execution Evolution Methods Integrity System Origin Scenario.

Local Open Scope string_scope.
Local Open Scope Z_scope.

(** What a successful [begin_delivery] saw and did. *)
Lemma begin_delivery_inv sid cap c d u d' :
  begin_delivery sid cap c d = Ok (u, d') →
  ∃ s st t,
    submission_by_id sid d = Some s ∧ task_state (sb_task_id s) d = Some st ∧
    st_work_status st = Work_OPEN ∧ task_by_id (sb_task_id s) d = Some t ∧
    (sb_task_id s ∉ externally_active_task_ids (tk_owner_user_id t) (tk_environment_id t) d) ∧
    (∀ n, cap = Some n →
       Z.of_nat (length (externally_active_task_ids (tk_owner_user_id t) (tk_environment_id t) d)) < n) ∧
    transition_submission sid Sub_CLAIMED Sub_DELIVERING c None (Some c) None None None None [] None d
      = Ok (1, d').
Proof.
  unfold begin_delivery. intros Hrun.
  apply bind_Ok in Hrun as (? & ? & [_ ->]%require_Ok & Hrun).
  apply bind_Ok in Hrun as (? & ? & Hb & Hrun). reads_only Hb.
  apply bind_Ok in Hrun as (? & ? & [-> ->]%gets_Ok & Hrun).
  apply bind_Ok in Hrun as (s & ? & [Hs ->]%require_some_Ok & Hrun).
  apply bind_Ok in Hrun as (? & ? & [-> ->]%gets_Ok & Hrun).
  apply bind_Ok in Hrun as (? & ? & [Hst ->]%require_Ok & Hrun).
  apply bind_Ok in Hrun as (? & ? & [-> ->]%gets_Ok & Hrun).
  apply bind_Ok in Hrun as (t & ? & [Ht ->]%require_some_Ok & Hrun).
  apply bind_Ok in Hrun as (? & ? & [-> ->]%gets_Ok & Hrun).
  apply bind_Ok in Hrun as (? & ? & [Hslot ->]%require_Ok & Hrun).
  apply bind_Ok in Hrun as (? & ? & [Hcap ->]%require_Ok & Hrun).
  apply bind_Ok in Hrun as (n & ? & Hn & [Hone ->]%require_Ok). split_bools. subst n.
  destruct (task_state (sb_task_id s) _) as [st|] eqn:Hstate; [|done]. split_bools.
  exists s, st, t. split_and!; try done. intros n ->. by apply Z.ltb_lt.
Qed.

(** C3: a submission is handed to an engine at most once: after a successful
    [begin_delivery] no later [begin_delivery] of the same submission succeeds,
    whatever happens in between and whatever capacity is passed. *)
Theorem delivery_at_most_once `{Host} d d1 d2 sid cap c u cap' c' :
  reachable d → begin_delivery sid cap c d = Ok (u, d1) → rtc step d1 d2 →
  ∃ e, begin_delivery sid cap' c' d2 = Err e.
Proof.
  intros Hd Hrun Hsteps.
  assert (integrity d1) as Hok1.
  { apply reachable_integrity. eapply reachable_step; [exact Hd|]. by eapply step_conversation, step_begin_delivery. }
  destruct (begin_delivery sid cap' c' d2) as [[u' d3]|e] eqn:Hagain; [exfalso|by exists e].
  apply begin_delivery_inv in Hrun as (? & ? & ? & _ & _ & _ & _ & _ & _ & Htr).
  apply transition_submission_hit in Htr as (s & _ & Hid & _ & Hs1).
  destruct (submission_later _ _ _ Hok1 Hsteps Hs1) as (s2 & _ & (_ & Hrank & _) & Huniq).
  apply begin_delivery_inv in Hagain as (? & ? & ? & _ & _ & _ & _ & _ & _ & Htr).
  apply transition_submission_hit in Htr as (y & Hx & Hxid & Hxst & _).
  rewrite (Huniq y Hx) in Hxst by (simpl; congruence).
  apply submission_rtc_rank in Hrank. rewrite Hxst in Hrank. simpl in Hrank. lia.
Qed.

Lemma delivery_at_most_once_witness : ∃ e, begin_delivery "sub1" None 99 demo9 = Err e.
Proof.
  apply (delivery_at_most_once demo3 demo4 demo9 "sub1" (Some 1) 4 tt None 99 demo3_reachable).
  - vm_compute. reflexivity.
  - eapply rtc_l; [apply demo_step45 | apply demo_steps59].
Defined.

(** C37: a submission that a cancellation fenced while it was being delivered stays
    exactly as it is forever: no late provider callback can turn it into a Turn. *)
Theorem cancelled_delivery_stays_fenced `{Host} d d' s :
  reachable d → s ∈ submissions d → fenced s → rtc step d d' →
  s ∈ submissions d' ∧
  ∀ snapshot claim ef ed ck cr tk tr rk rr ev c bu iu,
    sc_submission_id claim = sb_submission_id s →
    ∃ e, accept_and_open_execution snapshot claim ef ed ck cr tk tr rk rr ev c bu iu d' = Err e.
Proof.
  intros Hd Hs Hf Hsteps. pose proof (reachable_integrity _ Hd) as Hok.
  pose proof (fenced_stays s Hf _ _ Hok Hs Hsteps) as Hs'. split; [done|].
  intros snapshot claim ef ed ck cr tk tr rk rr ev c bu iu Hid.
  destruct (accept_and_open_execution _ _ _ _ _ _ _ _ _ _ _ _ _ _ _) as [[r d2]|e] eqn:Hacc;
    [exfalso|by exists e].
  unfold accept_and_open_execution in Hacc.
  destruct (runtime_identity_for_acceptance claim snapshot) as [[identity ?]|]; [|by tx_inv_all].
  apply bind_Ok in Hacc as ([j xo] & ? & Hacc & _).
  apply accept_submission_inv in Hacc as (_ & _ & _ & y & i & st & Hx & _ & _ & _ & Hcase).
  apply select_one_Some in Hx as [Hx Hxid]. split_bools.
  pose proof (reachable_integrity _ (reachable_steps _ _ Hd Hsteps)) as Hok'.
  assert (y = s) as -> by (eapply unique_eq;
    [apply (submissions_pk _ (ok_submissions _ Hok')) | done..| congruence]).
  destruct Hf as [Hst Hfence].
  destruct Hcase as [(? & _)|([?|[_ ?]] & _)]; congruence.
Qed.

Lemma cancelled_delivery_stays_fenced_witness :
  ∃ s, s ∈ submissions demo_reopened ∧ fenced s.
Proof.
  assert (∃ s, s ∈ submissions demo_cancelled ∧ fenced s) as (s & Hs & Hf).
  { eexists. split; [constructor|]. split; reflexivity. }
  exists s. split; [|exact Hf].
  apply (cancelled_delivery_stays_fenced demo_cancelled demo_reopened s demo_cancelled_reachable
           Hs Hf). apply rtc_once, demo_step_reopen.
Defined.

Lemma elem_of_externally_active owner env d x :
  x ∈ externally_active_task_ids owner env d ↔
  owned_in owner env d x = true ∧
  ((∃ s, s ∈ submissions d ∧ sub_external s = true ∧ sb_task_id s = x) ∨
   (∃ e, e ∈ executions d ∧ exec_active e = true ∧ ex_task_id e = x)).
Proof.
  unfold externally_active_task_ids.
  rewrite elem_of_remove_dups, elem_of_app, !list_elem_of_fmap. split.
  - intros [(s & -> & [Hs Hp]%elem_of_select)|(e & -> & [He Hp]%elem_of_select)];
      split_bools; split; eauto 6.
  - intros [Ho [(s & Hs & Hx & <-)|(e & He & Hx & <-)]]; [left; exists s | right; exists e];
      (split; [done|]); apply elem_of_select; by rewrite Hx, Ho.
Qed.

(** Arming a delivery adds its Task to the externally active ones. *)
Lemma arming_adds_task owner env sid c d d' s :
  integrity d → s ∈ submissions d → sb_submission_id s = sid →
  owned_in owner env d (sb_task_id s) = true →
  transition_submission sid Sub_CLAIMED Sub_DELIVERING c None (Some c) None None None None [] None d
    = Ok (1, d') →
  ∀ x, x ∈ externally_active_task_ids owner env d' ↔
       x = sb_task_id s ∨ x ∈ externally_active_task_ids owner env d.
Proof.
  intros Hok Hs Hid Hown Htr x. pose proof (transition_submission_hit _ _ _ _ _ _ _ _ _ _ _ _ _ _ Htr)
    as (s0 & Hs0 & Hid0 & Hst0 & Hin).
  assert (s0 = s) as -> by (eapply unique_eq;
    [apply (submissions_pk _ (ok_submissions _ Hok)) | done..| congruence]).
  apply update_rows_inv in Htr as (-> & _ & _). rewrite !elem_of_externally_active.
  change (owned_in owner env (with_submissions _ d) x) with (owned_in owner env d x). simpl in *.
  split.
  - intros [Ho [(y & (z & Hz & ->)%elem_of_on_rows & Hy & <-)|?]]; [|right; split; auto].
    destruct (_ && _) eqn:Hp; [left | right; split; [done|]; left; eauto]. split_bools.
    assert (z = s) as -> by (eapply unique_eq;
      [apply (submissions_pk _ (ok_submissions _ Hok)) | done..| congruence]). done.
  - intros [->|[Ho [(y & Hy & Hex & <-)|?]]]; [| |split; auto].
    + split; [done|]. left. eexists. split; [exact Hin|]. done.
    + split; [done|]. left. exists y. split; [|done]. apply on_rows_kept; [done|].
      unfold sub_external in Hex. apply not_true_iff_false. intros Hp. split_bools.
      by destruct (sb_status y).
Qed.

(** C39: the capacity fence of [begin_delivery]: it arms a delivery only for an open
    Task that holds no external slot, only while fewer than [cap] Tasks of the same
    owner and environment are externally active, and afterwards that set has grown by
    exactly this Task, so that it never exceeds [cap]. *)
Theorem begin_delivery_respects_capacity `{Host} d sid n c u d' s t :
  reachable d → begin_delivery sid (Some n) c d = Ok (u, d') →
  submission_by_id sid d = Some s → task_by_id (sb_task_id s) d = Some t →
  let active := externally_active_task_ids (tk_owner_user_id t) (tk_environment_id t) in
  task_is_open (sb_task_id s) d = true ∧ (sb_task_id s ∉ active d) ∧
  (∀ x, x ∈ active d' ↔ x = sb_task_id s ∨ x ∈ active d) ∧
  Z.of_nat (length (active d')) ≤ n.
Proof.
  intros Hd Hrun Hs Ht active. pose proof (reachable_integrity _ Hd) as Hok.
  apply begin_delivery_inv in Hrun as (s0 & st & t0 & Hs0 & Hst & Hopen & Ht0 & Hslot & Hcap & Htr).
  rewrite Hs in Hs0. injection Hs0 as <-. rewrite Ht in Ht0. injection Ht0 as <-.
  pose proof Hs as [Hin Hid]%select_one_Some. split_bools.
  pose proof Ht as [Htin Htid]%select_one_Some. split_bools.
  assert (owned_in (tk_owner_user_id t) (tk_environment_id t) d (sb_task_id s) = true) as Hown.
  { apply row_exists_true. exists t. by rewrite Htid, !eqs_refl. }
  pose proof (arming_adds_task _ _ _ _ _ _ s Hok Hin Hid Hown Htr) as Hadds.
  split_and!; [| done | done |].
  - apply row_exists_true. apply select_one_Some in Hst as [Hst Hstid]. exists st.
    by rewrite Hopen, andb_true_r.
  - assert (active d' ≡ₚ sb_task_id s :: active d) as Hperm.
    { apply NoDup_Permutation; [apply NoDup_remove_dups | |].
      - constructor; [done | apply NoDup_remove_dups].
      - intros x. rewrite elem_of_cons. apply Hadds. }
    rewrite Hperm. simpl. specialize (Hcap n eq_refl). unfold active in *. lia.
Qed.

Lemma begin_delivery_respects_capacity_witness :
  externally_active_task_ids "alice" "env" demo3 = [] ∧
  Z.of_nat (length (externally_active_task_ids "alice" "env" demo4)) ≤ 1.
Proof.
  split; [reflexivity|].
  assert (∃ s t, submission_by_id "sub1" demo3 = Some s ∧ task_by_id (sb_task_id s) demo3 = Some t ∧
            tk_owner_user_id t = "alice" ∧ tk_environment_id t = "env")
    as (s & t & Hs & Ht & <- & <-).
  { eexists _, _. split_and!; vm_compute; reflexivity. }
  refine (proj2 (proj2 (proj2 (begin_delivery_respects_capacity demo3 "sub1" 1 4 tt demo4 s t
    demo3_reachable _ Hs Ht)))). vm_compute. reflexivity.
Defined.

(** * Claiming submissions

    [claim_next_submission] fences every stale delivery and hands out the oldest
    submission that is ready, and it cannot fail to do so. *)

#[local] Hint Constants Opaque : typeclass_instances.
#[local] Hint Transparent dict time relation : typeclass_instances.

(** A queued submission of an open Task that waits for no Turn. *)
Definition ready (d : db) (s : submission_row) : bool :=
  bool_decide (sb_status s = Sub_QUEUED) && task_is_open (sb_task_id s) d
  && next_turn_released d (sb_submission_id s).

(** ** The update guards of a submission that keeps its native identity *)

Lemma native_index_kept d s s' :
  integrity d → s ∈ submissions d → sb_submission_id s' = sb_submission_id s →
  sb_task_id s' = sb_task_id s → sb_native_turn_kind s' = sb_native_turn_kind s →
  sb_native_turn_ref s' = sb_native_turn_ref s →
  index_free has_submission_native submission_native_key s'
    (select (λ x, negb (eqs (sb_submission_id x) (sb_submission_id s'))) (submissions d)) = true.
Proof.
  intros Hok Hs Hid Ht Hk Hr. unfold index_free.
  destruct (has_submission_native s') eqn:Hn; [|done]. simpl.
  apply negb_true_iff, row_exists_false. intros x [Hx Hne]%elem_of_select.
  apply not_true_iff_false. intros Hp. split_bools. apply Hne. rewrite Hid. f_equal.
  eapply unique_eq; [apply (submissions_native _ (ok_submissions _ Hok)) | done..| |].
  - unfold has_submission_native in *. by rewrite <-Hr.
  - unfold submission_native_key in *. congruence.
Qed.

Lemma submission_checked d s : integrity d → s ∈ submissions d → submission_check s = true.
Proof.
  intros Hok. pose proof (submissions_check _ (ok_submissions _ Hok)) as Hc.
  rewrite Forall_forall in Hc. auto.
Qed.

(** The statements of [claim_next_submission] are accepted by the schema. *)
Lemma fence_stale_runs c x d : integrity d → ∃ d', fence_stale c x d = Ok (tt, d').
Proof.
  intros Hok. unfold fence_stale, transition_submission.
  eexists. apply bind_Ok. eexists _, _. split; [apply update_rows_runs | reflexivity].
  intros s Hs Hp. split_bools. pose proof (submission_checked _ _ Hok Hs) as Hc.
  apply violation_None. repeat constructor; simpl.
  - by rewrite H0.
  - by rewrite H0.
  - by rewrite H0.
  - unfold submission_check in *. simpl. rewrite H0 in Hc. split_bools.
    repeat (apply andb_true_iff; split); auto; by apply negb_true_iff.
  - match goal with |- index_free _ _ ?s' _ = true => by apply (native_index_kept d s s') end.
Qed.

(** A released submission has no waiting reservation. *)
Lemma released_not_waiting d s :
  integrity d → next_turn_released d (sb_submission_id s) = true →
  row_exists (λ n, eqs (nt_submission_id n) (sb_submission_id s)
    && eqs (nt_task_id n) (sb_task_id s) && bool_decide (nt_status n = Next_WAITING))
    (next_turns d) = false.
Proof.
  intros Hok Hrel. apply row_exists_false. intros n Hn. apply not_true_iff_false. intros Hp.
  split_bools. unfold next_turn_released, next_turn_of in Hrel.
  destruct (select_one _ (next_turns d)) as [m|] eqn:Hm.
  - apply select_one_Some in Hm as [Hm Hmid]. split_bools.
    assert (m = n) as -> by (eapply unique_eq;
      [apply (next_turns_pk _ (ok_next_turns _ Hok)) | done..| congruence]).
    congruence.
  - rewrite select_one_None in Hm. specialize (Hm n Hn). simpl in Hm.
    apply String.eqb_neq in Hm. congruence.
Qed.

(** A statement that names a submission and its status meets that row only. *)
Lemma matching_once d s st :
  integrity d → s ∈ submissions d → sb_status s = st →
  length (select (λ x, eqs (sb_submission_id x) (sb_submission_id s)
            && bool_decide (sb_status x = st)) (submissions d)) = 1%nat.
Proof.
  intros Hok Hs Hst. set (p := λ x, _ && _).
  assert (s ∈ select p (submissions d)) as Hin.
  { apply elem_of_select. split; [done|]. unfold p. rewrite eqs_refl. by apply bool_decide_eq_true. }
  pose proof (unique_count (always (R:=submission_row)) p sb_submission_id (submissions d)
    (sb_submission_id s) (submissions_pk _ (ok_submissions _ Hok))) as Hle.
  rewrite select_always in Hle.
  destruct (select p (submissions d)) as [|y [|z l]]; [by apply not_elem_of_nil in Hin | done |].
  assert (length (y :: z :: l) ≤ 1)%nat; [|simpl in *; lia].
  apply Hle. intros r Hr. unfold p in Hr. by split_bools.
Qed.

Lemma claim_runs c d s :
  integrity d → s ∈ submissions d → ready d s = true →
  ∃ d', transition_submission (sb_submission_id s) Sub_QUEUED Sub_CLAIMED c (Some c) None None None
          None None [] None d = Ok (1, d').
Proof.
  intros Hok Hs Hready. unfold ready in Hready. split_bools. unfold transition_submission.
  rewrite update_rows_runs; [by rewrite matching_once; [eexists|..]|].
  intros x Hx Hp. split_bools. assert (x = s) as ->.
  { eapply unique_eq; [apply (submissions_pk _ (ok_submissions _ Hok)) | done..]. }
  pose proof (submission_checked _ _ Hok Hs) as Hc. assert (sb_status s = Sub_QUEUED) as Hq by done.
  apply violation_None. repeat constructor; simpl; rewrite ?Hq; try done.
  - simpl. apply negb_true_iff. by apply released_not_waiting.
  - unfold submission_check in *. simpl. rewrite Hq in Hc. split_bools.
    repeat (apply andb_true_iff; split); auto; by apply negb_true_iff.
  - match goal with |- index_free _ _ ?s' _ = true => by apply (native_index_kept d s s') end.
Qed.

(** ** The loop over stale deliveries *)

Definition fences (d d' : db) : Prop :=
  integral d d' ∧ task_states d' = task_states d ∧ next_turns d' = next_turns d ∧
  (∀ g, (∀ s, g s = true → sb_status s = Sub_QUEUED) →
     select g (submissions d') = select g (submissions d)) ∧
  (∀ s, s ∈ submissions d' → sb_status s = Sub_DELIVERING → s ∈ submissions d).

#[local] Instance fences_preorder : PreOrder fences.
Proof.
  split; [by intros d; split_and!|].
  intros d1 d2 d3 (H1 & H2 & H3 & H4 & H5) (H1' & H2' & H3' & H4' & H5').
  split_and!; [by etrans | congruence.. | | auto].
  intros g Hg. by rewrite H4', H4.
Qed.

#[local] Instance fence_stale_fences c x : Respects fences (fence_stale c x).
Proof.
  intros d [] d' Hrun. pose proof (respects (R:=integral) _ _ _ Hrun) as Hint.
  unfold fence_stale in Hrun. apply bind_Ok in Hrun as (n & d1 & Hrun & [_ ->]%ret_Ok).
  apply update_rows_inv in Hrun as (-> & _ & _). split_and!; [done..| |]; simpl.
  - intros g Hg. apply select_on_rows_skip. intros r _ Hp. split_bools.
    split; apply not_true_iff_false; intros Hq; apply Hg in Hq; simpl in Hq; congruence.
  - intros s (y & Hy & ->)%elem_of_on_rows Hst. by destruct (_ && _).
Qed.

(** After the iteration for [x] its row is no longer delivering. *)
Lemma fence_stale_fenced c x d d' s :
  fence_stale c x d = Ok (tt, d') → s ∈ submissions d' →
  sb_submission_id s = sb_submission_id x → sb_status s ≠ Sub_DELIVERING.
Proof.
  unfold fence_stale. intros (n & d1 & Hrun & [_ ->]%ret_Ok)%bind_Ok.
  apply update_rows_inv in Hrun as (-> & _ & _).
  intros (y & Hy & ->)%elem_of_on_rows Hid. destruct (_ && _) eqn:Hp; [done|].
  intros Hst. by rewrite Hid, eqs_refl, bool_decide_eq_true_2 in Hp.
Qed.

Lemma fence_loop_runs c l d : integrity d → ∃ d', for_each l (fence_stale c) d = Ok (tt, d').
Proof.
  revert d. induction l as [|x l IH]; intros d Hok; [by exists d|].
  destruct (fence_stale_runs c x d Hok) as (d1 & H1).
  destruct (fence_stale_fences _ _ _ _ _ H1) as ([_ Hok1] & _).
  destruct (IH d1 (Hok1 Hok)) as (d2 & H2). exists d2. simpl. apply bind_Ok. eauto.
Qed.

Lemma by_created_total a b : by_created a b = true ∨ by_created b a = true.
Proof.
  unfold by_created. destruct (Z.lt_total (sb_created_at a) (sb_created_at b)) as [Hl|[He|Hl]].
  - left. by rewrite (proj2 (Z.ltb_lt _ _) Hl).
  - rewrite He, Z.ltb_irrefl, Z.eqb_refl. simpl.
    destruct (String.leb_total (sb_submission_id a) (sb_submission_id b)); auto.
  - right. by rewrite (proj2 (Z.ltb_lt _ _) Hl).
Qed.

Lemma by_created_trans a b c :
  by_created a b = true → by_created b c = true → by_created a c = true.
Proof.
  unfold by_created. rewrite !orb_true_iff, !andb_true_iff, !Z.ltb_lt, !Z.eqb_eq.
  intros [?|[? ?]] [?|[? ?]]; [left; lia..|]. right. split; [congruence|].
  by eapply string_leb_trans.
Qed.

(** The oldest ready submission. *)
Lemma next_ready_spec d s :
  next_ready_submission d = Some s →
  s ∈ submissions d ∧ ready d s = true ∧
  ∀ x, x ∈ submissions d → ready d x = true → by_created s x = true.
Proof.
  unfold next_ready_submission. intros Hh.
  apply order_by_head_least in Hh as [[Hs Hr]%elem_of_select Hleast];
    [|apply by_created_total | apply by_created_trans].
  split_and!; [done..|]. intros x Hx Hrx. apply Hleast, elem_of_select. done.
Qed.

Lemma next_ready_None d :
  next_ready_submission d = None ↔ ∀ x, x ∈ submissions d → ready d x = false.
Proof. unfold next_ready_submission. rewrite head_order_by_None. apply select_nil_iff. Qed.

(** No delivery older than [before] is still open. *)
Definition no_stale_delivery (before : time) (d : db) : Prop :=
  ∀ s, s ∈ submissions d → sb_status s = Sub_DELIVERING →
    lt_sql (sb_delivering_at s) before = false.

Lemma fence_loop_clears c before d d' :
  for_each (stale_delivering before d) (fence_stale c) d = Ok (tt, d') →
  no_stale_delivery before d'.
Proof.
  intros Hrun s Hs Hst. apply not_true_iff_false. intros Hlt.
  assert (fences d d') as Hf.
  { revert Hrun. apply respects_apply, respects_for_each; apply _. }
  destruct Hf as (_ & _ & _ & _ & Hback).
  assert (s ∈ stale_delivering before d) as Hin.
  { unfold stale_delivering. apply elem_of_order_by, elem_of_select. split; [auto|].
    by rewrite Hst, Hlt. }
  destruct (for_each_elem fences _ _ _ _ _ _ _ Hrun Hin) as (d1 & d2 & _ & Hit & (_ & _ & _ & _ & Hb2)).
  by eapply fence_stale_fenced; [exact Hit | by apply Hb2 | done |].
Qed.

(** The claimed row, and what the claim leaves alone. *)
Lemma claimed_row c s d d' :
  integrity d → s ∈ submissions d →
  transition_submission (sb_submission_id s) Sub_QUEUED Sub_CLAIMED c (Some c) None None None None
    None [] None d = Ok (1, d') →
  ∃ s', s' ∈ submissions d' ∧ sb_submission_id s' = sb_submission_id s ∧
        sb_status s' = Sub_CLAIMED ∧ sb_claimed_at s' = Some c.
Proof.
  intros Hok Hs (s0 & _ & Hid & _ & Hin)%transition_submission_hit.
  eexists. split; [exact Hin|]. done.
Qed.

Lemma claim_keeps_clear before sid c d n d' :
  transition_submission sid Sub_QUEUED Sub_CLAIMED c (Some c) None None None None None [] None d
    = Ok (n, d') →
  no_stale_delivery before d → no_stale_delivery before d'.
Proof.
  intros (-> & _ & _)%update_rows_inv Hc s (y & Hy & ->)%elem_of_on_rows Hst.
  destruct (_ && _); [done|]. by apply Hc.
Qed.

Lemma begin_write_open d : maintenance_is_active d = Some false → begin_write d = Ok (tt, d).
Proof. intros Hm. unfold begin_write, mbind, tx_bind, gets. by rewrite Hm. Qed.

(** C38: [claim_next_submission] makes progress and is fair: whenever a submission is
    ready (queued, its Task open, not waiting for a Turn) and writes are not paused, it
    succeeds, returns the ready submission that is oldest by creation time and
    identifier, marks it claimed at that instant, and leaves no delivery that is older
    than the staleness bound open. *)
Theorem claim_takes_oldest_ready `{Host} d stale_after claimed_at now x :
  reachable d → maintenance_is_active d = Some false → 0 < stale_after →
  x ∈ submissions d → ready d x = true →
  ∃ s s' d',
    claim_next_submission stale_after claimed_at now d = Ok (Some (claim_of s), d') ∧
    s ∈ submissions d ∧ ready d s = true ∧
    (∀ y, y ∈ submissions d → ready d y = true → by_created s y = true) ∧
    s' ∈ submissions d' ∧ sb_submission_id s' = sb_submission_id s ∧
    sb_status s' = Sub_CLAIMED ∧ sb_claimed_at s' = Some claimed_at ∧
    no_stale_delivery (now - stale_after) d'.
Proof.
  intros Hd Hm Hpos Hx Hrx. pose proof (reachable_integrity _ Hd) as Hok.
  destruct (fence_loop_runs claimed_at (stale_delivering (now - stale_after) d) d Hok) as (d1 & Hloop).
  pose proof (fence_loop_clears _ _ _ _ Hloop) as Hclear.
  assert (fences d d1) as ([_ Hok1] & Hst & Hnt & Hsel & _).
  { revert Hloop. apply respects_apply, respects_for_each; apply _. }
  assert (∀ s, ready d1 s = ready d s) as Hready.
  { intros s. unfold ready, task_is_open, next_turn_released, next_turn_of. by rewrite Hst, Hnt. }
  assert (select (ready d1) (submissions d1) = select (ready d) (submissions d)) as Hsame.
  { rewrite <-(Hsel (ready d)); [|intros s Hs; unfold ready in Hs; by split_bools].
    unfold select. apply filter_ext. done. }
  assert (next_ready_submission d1 = next_ready_submission d) as Hnext.
  { unfold next_ready_submission. do 2 f_equal. exact Hsame. }
  destruct (next_ready_submission d) as [s|] eqn:Hs.
  2:{ rewrite next_ready_None in Hs. rewrite (Hs x Hx) in Hrx. done. }
  destruct (next_ready_spec _ _ Hnext) as (Hin1 & Hr1 & _).
  destruct (next_ready_spec _ _ Hs) as (Hin & Hr & Hleast).
  destruct (claim_runs claimed_at d1 s (Hok1 Hok) Hin1 Hr1) as (d2 & Htr).
  destruct (claimed_row _ _ _ _ (Hok1 Hok) Hin1 Htr) as (s' & Hs' & Hid & Hcl & Hat).
  exists s, s', d2. split_and!; try done.
  - unfold claim_next_submission. rewrite (proj2 (Z.ltb_lt _ _) Hpos).
    apply bind_Ok. exists tt, d. split; [done|].
    apply bind_Ok. exists tt, d. split; [by apply begin_write_open|].
    apply bind_Ok. eexists _, d. split; [reflexivity|]. apply bind_Ok. exists tt, d1. split; [done|].
    apply bind_Ok. eexists _, d1. split; [reflexivity|]. rewrite Hnext.
    apply bind_Ok. exists 1, d2. split; [done|]. reflexivity.
  - by eapply claim_keeps_clear.
Qed.

Lemma claim_takes_oldest_ready_witness :
  ∃ s d', claim_next_submission 30 3 3 demo2 = Ok (Some (claim_of s), d').
Proof.
  destruct (claim_takes_oldest_ready demo2 30 3 3
    (mkSubmission "sub1" "task" "turn1" "alice" "key1" _ Sub_QUEUED _ None Source_TASK_PIN None None
       [] None 2 None None None None 2)
    demo2_reachable eq_refl eq_refl ltac:(constructor) eq_refl) as (s & _ & d' & Hrun & _).
  exists s, d'. exact Hrun.
Defined.
