(* ===== verification/Outcomes.v ===== *)
(** * Outcomes of the transactions

    What a committed cancellation, acceptance, completion or interrupt claim
    leaves in the database. *)

From stdpp Require Import base tactics list strings relations.
From Stdlib Require Import ZArith Lia.
From S2P Require Import Prelude PyText Tables Contracts RegistryRows Schema Repository Service Acceptance.
From S2P Require Import Execution Evolution Methods Integrity System Running Origin.
From S2P Require Import Scenario.

Local Open Scope string_scope.
Local Open Scope Z_scope.
#[local] Hint Constants Opaque : typeclass_instances.
#[local] Hint Transparent dict time relation : typeclass_instances.

(** ** Cancelling the pending submissions *)

Lemma pending_rank s : sub_pending s = true ↔ (2 ≤ submission_rank (sb_status s))%nat.
Proof. unfold sub_pending. destruct (sb_status s); simpl; split; intros; done || lia. Qed.

(** The loop inserts no submission. *)
Definition submissions_evolve (d d' : db) : Prop :=
  Forall2 submission_evolves (submissions d) (submissions d').
#[local] Instance submissions_evolve_preorder : PreOrder submissions_evolve.
Proof. split; unfold submissions_evolve; red; [done|]. intros. by etrans. Qed.
#[local] Instance transition_submission_se a b c d e f g h i j k l :
  Respects submissions_evolve (transition_submission a b c d e f g h i j k l).
Proof.
  intros d0 n d' Hrun. pose proof (respects (R:=db_evolves) _ _ _ Hrun) as Hev.
  apply update_rows_inv in Hrun as (-> & _ & _).
  apply evolves_same_length; [apply (ev_submissions _ _ Hev) | apply length_fmap].
Qed.
#[local] Instance cancel_next_turn_se a b : Respects submissions_evolve (cancel_next_turn a b).
Proof. intros d n d' (-> & _ & _)%update_rows_inv. unfold submissions_evolve. simpl. done. Qed.
#[local] Instance cancel_pending_se t c r : Respects submissions_evolve (cancel_pending t c r).
Proof. method. Qed.

(** Fenced rows survive statements that expect another status. *)
Definition keeps_fenced (d d' : db) : Prop := ∀ s, fenced s → s ∈ submissions d → s ∈ submissions d'.
#[local] Instance keeps_fenced_preorder : PreOrder keeps_fenced.
Proof. split; unfold keeps_fenced; red; auto. Qed.
#[local] Instance cancel_next_turn_kf a b : Respects keeps_fenced (cancel_next_turn a b).
Proof. by intros d n d' (-> & _ & _)%update_rows_inv s. Qed.
Lemma transition_submission_kf a b c d e f g h i j k l :
  b ≠ Sub_DELIVERY_UNKNOWN →
  Respects keeps_fenced (transition_submission a b c d e f g h i j k l).
Proof.
  intros Hb d0 n d' (-> & _ & _)%update_rows_inv s [Hst _] Hs. apply on_rows_kept; [done|].
  rewrite Hst, bool_decide_eq_false_2 by congruence. apply andb_false_r.
Qed.

(** One iteration settles its submission, and fences it when it was delivering. *)
Lemma cancel_pending_settles t c row d d' :
  cancel_pending t c row d = Ok (tt, d') →
  ∃ s, s ∈ submissions d' ∧ sb_submission_id s = sb_submission_id row.1 ∧
       sub_pending s = false ∧ (sb_status row.1 = Sub_DELIVERING → fenced s).
Proof.
  unfold cancel_pending. intros (? & d1 & _ & Hrun)%bind_Ok.
  apply bind_Ok in Hrun as (n & ? & Htr & [Hn%Z.eqb_eq ->]%require_Ok). subst n.
  unfold is_delivering in Htr.
  destruct (bool_decide (sb_status row.1 = Sub_DELIVERING)) eqn:Hdel;
    apply transition_submission_hit in Htr as (s0 & _ & Hid & _ & Hin);
    eexists; (split; [exact Hin|]); split_bools; split_and!; try done.
Qed.

Lemma pending_rows_pending t d row :
  row ∈ pending_submission_rows t d →
  row.1 ∈ submissions d ∧ sb_task_id row.1 = t ∧ sub_pending row.1 = true.
Proof.
  unfold pending_submission_rows.
  intros (y & -> & [Hy Hp]%elem_of_order_by%elem_of_select)%list_elem_of_fmap. by split_bools.
Qed.

Lemma pending_rows_complete t d s :
  s ∈ submissions d → sb_task_id s = t → sub_pending s = true →
  ∃ row, row ∈ pending_submission_rows t d ∧ row.1 = s.
Proof.
  intros Hs Ht Hp. unfold pending_submission_rows. eexists. split.
  - apply list_elem_of_fmap. exists s. split; [reflexivity|].
    apply elem_of_order_by, elem_of_select. by rewrite Ht, eqs_refl, Hp.
  - done.
Qed.

Lemma cancel_pending_kf t c row :
  sub_pending row.1 = true → Respects keeps_fenced (cancel_pending t c row).
Proof.
  intros Hp. assert (sb_status row.1 ≠ Sub_DELIVERY_UNKNOWN) as Hne.
  { unfold sub_pending in Hp. by destruct (sb_status row.1). }
  method; by apply transition_submission_kf.
Qed.

(** After the loop the Task has no pending submission, and those that were
    delivering are fenced. *)
Lemma cancel_pending_submissions_settles t c d rows d' :
  integrity d → cancel_pending_submissions t c d = Ok (rows, d') →
  (∀ s, s ∈ submissions d' → sb_task_id s = t → sub_pending s = false) ∧
  (∀ s, s ∈ submissions d → sb_task_id s = t → sb_status s = Sub_DELIVERING →
     ∃ s', s' ∈ submissions d' ∧ sb_submission_id s' = sb_submission_id s ∧ fenced s').
Proof.
  intros Hok Hrun. pose proof (respects (R:=integral) _ _ _ Hrun) as [_ Hok'%(λ f, f Hok)].
  unfold cancel_pending_submissions in Hrun.
  apply bind_Ok in Hrun as (? & ? & [-> ->]%gets_Ok & Hrun).
  apply bind_Ok in Hrun as ([] & ? & Hloop & [_ <-]%ret_Ok). split.
  - intros s' Hs' Htask. apply not_true_iff_false. intros Hp.
    assert (submissions_evolve d d') as H2.
    { revert Hloop. apply respects_apply, respects_for_each; apply _. }
    pose proof Hs' as [i Hi]%list_elem_of_lookup.
    destruct (Forall2_lookup_r _ _ _ _ _ H2 Hi) as (s & Hsi & Hid & Hrank & _).
    apply submission_rtc_rank in Hrank. rewrite pending_rank in Hp.
    unfold submission_identity in Hid. injection Hid as Hsid Hst _ _ _ _ _ _ _.
    destruct (pending_rows_complete t d s) as (row & Hrow & <-);
      [by eapply list_elem_of_lookup_2 | congruence | apply pending_rank; lia|].
    destruct (for_each_elem db_evolves _ _ _ _ _ _ _ Hloop Hrow) as (d1 & d2 & _ & Hit & Hev).
    destruct (cancel_pending_settles _ _ _ _ _ Hit) as (m & Hm & Hmid & Hmp & _).
    destruct (evolves_elem _ _ _ _ (ev_submissions _ _ Hev) Hm) as (m' & Hm' & Hmi & Hmr & _).
    apply submission_rtc_rank in Hmr. unfold submission_identity in Hmi.
    assert (m' = s') as -> by (eapply unique_eq;
      [apply (submissions_pk _ (ok_submissions _ Hok')) | done..| congruence]).
    assert (¬ (2 ≤ submission_rank (sb_status m)))%nat; [|lia].
    rewrite <-pending_rank. congruence.
  - intros s Hs Htask Hst.
    destruct (pending_rows_complete t d s) as (row & Hrow & <-);
      [done..| unfold sub_pending; by rewrite Hst |].
    destruct (for_each_elem_in keeps_fenced _ _ _ _ _ _
      (λ y Hy, cancel_pending_kf _ _ _ (proj2 (proj2 (pending_rows_pending _ _ _ Hy)))) Hloop Hrow)
      as (d1 & d2 & _ & Hit & Hk).
    destruct (cancel_pending_settles _ _ _ _ _ Hit) as (m & Hm & Hmid & _ & Hf).
    exists m. split_and!; auto.
Qed.

(** Closing the work state of an open Task. *)
Lemma close_work_state t c st d d' :
  integrity d → task_state t d = Some st →
  (if bool_decide (st_work_status st = Work_OPEN) then
     lift_contract (require_task_work_transition Work_OPEN Work_CANCELLED) ≫= λ _,
     repo_update_work_status t Work_OPEN Work_CANCELLED c ≫= λ n,
     require (Z.eqb n 1) (DomainConflictError "")
   else mret tt) d = Ok (tt, d') →
  submissions d' = submissions d ∧ task_is_open t d' = false ∧ integral d d'.
Proof.
  intros Hok Hst Hrun. assert (integral d d') as Hint.
  { revert Hrun. apply respects_apply. solve_respects. }
  assert (submissions d' = submissions d ∧ task_is_open t d' = false) as [??]; [|done].
  destruct (bool_decide _) eqn:Ho; split_bools.
  - apply bind_Ok in Hrun as (? & ? & [_ ->]%ret_Ok & Hrun).
    apply bind_Ok in Hrun as (n & ? & (-> & _ & _)%update_rows_inv & [_ ->]%require_Ok).
    split; [done|]. apply row_exists_false. simpl. intros r (y & Hy & ->)%elem_of_on_rows.
    destruct (eqs (st_task_id y) t) eqn:Ht; simpl; [|by rewrite Ht].
    destruct (bool_decide (st_work_status y = Work_OPEN)) eqn:Hy'; simpl; [by rewrite Ht|].
    by rewrite Ht, Hy'.
  - apply ret_Ok in Hrun as [_ ->]. split; [done|]. apply row_exists_false. intros r Hr.
    apply not_true_iff_false. intros Hp. split_bools.
    apply select_one_Some in Hst as [Hst Hid]. split_bools.
    assert (r = st) as -> by (eapply unique_eq;
      [apply (states_pk _ (ok_states _ Hok)) | done..| congruence]). done.
Qed.

Section cancel.
Context `{Host}.

Lemma cancel_task_inv t u k c i d r d' :
  cancel_task t u k c i d = Ok (r, d') →
  maintenance_is_active d = Some false ∧ may_write u t d ∧
  ∃ actor, u_id u = Some actor ∧
    match idempotency_record actor CANCEL_TASK k d with
    | Some row => r = id_response row ∧ d' = d
    | None => ∃ st d1 d2 rows d3,
        task_state t d = Some st ∧ integral d d1 ∧ submissions d1 = submissions d ∧
        task_states d1 = task_states d ∧
        (if bool_decide (st_work_status st = Work_OPEN) then
           lift_contract (require_task_work_transition Work_OPEN Work_CANCELLED) ≫= λ _,
           repo_update_work_status t Work_OPEN Work_CANCELLED c ≫= λ n,
           require (Z.eqb n 1) (DomainConflictError "")
         else mret tt) d1 = Ok (tt, d2) ∧
        cancel_pending_submissions t c d2 = Ok (rows, d3) ∧
        submissions d' = submissions d3 ∧ task_states d' = task_states d3 ∧
        ∃ fields, r = JObj (("task_id", JStr t) :: ("work_status", JStr "cancelled") :: fields)
    end.
Proof.
  unfold cancel_task. intros (actor & ? & (Hact & _ & ->)%actor_of_inv & Hrun)%bind_Ok.
  apply bind_Ok in Hrun as (? & ? & [Hm ->]%begin_write_inv & Hrun).
  apply bind_Ok in Hrun as (? & ? & [Hown ->]%require_task_owner_inv & Hrun).
  apply bind_Ok in Hrun as ([g o] & ? & (-> & -> & _ & Hrep)%replay_inv & Hrun).
  split; [done|]. split; [done|]. exists actor. split; [done|].
  destruct (idempotency_record actor CANCEL_TASK k d) as [row|].
  { destruct Hrep as (_ & -> & _). by apply ret_Ok in Hrun as [-> ->]. }
  subst o. apply bind_Ok in Hrun as (st & ? & Hcur & Hrun).
  assert (task_state t d = Some st) as Hst
    by (unfold require_current_conversation in Hcur; by tx_inv_all).
  reads_only Hcur.
  apply bind_Ok in Hrun as (? & ? & [-> ->]%gets_Ok & Hrun).
  apply bind_Ok in Hrun as (ctl & d1 & Hctl & Hrun).
  apply bind_Ok in Hrun as ([] & d2 & Hclose & Hrun).
  apply bind_Ok in Hrun as (rows & d3 & Hloop & Hrun).
  apply bind_Ok in Hrun as (? & ? & (-> & _ & _)%update_rows_inv & Hrun).
  apply bind_Ok in Hrun as (? & ? & [_ ->]%insert_row_inv & [-> ->]%ret_Ok).
  exists st, d1, d2, rows, d3. split_and!; try done; [..|by eexists].
  - revert Hctl. apply respects_apply. solve_respects.
  - destruct (active_turn t d); [|by apply ret_Ok in Hctl as [_ ->]].
    tx_inv_all. by match goal with Hx : insert_control_request _ _ _ _ _ _ _ _ _ _ _ _ _ = _ |- _ =>
      apply insert_row_inv in Hx as [_ ->] end.
  - destruct (active_turn t d); [|by apply ret_Ok in Hctl as [_ ->]].
    tx_inv_all. by match goal with Hx : insert_control_request _ _ _ _ _ _ _ _ _ _ _ _ _ = _ |- _ =>
      apply insert_row_inv in Hx as [_ ->] end.
Qed.
End cancel.

(** Cancelling submissions does not touch work states. *)
Definition same_states (d d' : db) : Prop := task_states d' = task_states d.
#[local] Instance same_states_preorder : PreOrder same_states.
Proof. split; unfold same_states; red; congruence. Qed.
#[local] Instance cancel_next_turn_st a b : Respects same_states (cancel_next_turn a b).
Proof. by intros d n d' (-> & _ & _)%update_rows_inv. Qed.
#[local] Instance transition_submission_st a b c d e f g h i j k l :
  Respects same_states (transition_submission a b c d e f g h i j k l).
Proof. by intros d0 n d' (-> & _ & _)%update_rows_inv. Qed.
#[local] Instance cancel_pending_st t c r : Respects same_states (cancel_pending t c r).
Proof. method. Qed.
#[local] Instance cancel_pending_submissions_st t c :
  Respects same_states (cancel_pending_submissions t c).
Proof. method. Qed.

(** A first [cancel_task] leaves the Task closed and without any queued, claimed
    or delivering submission, and every submission that was being delivered is fenced
    as delivery-unknown with the cancellation on record. *)
Theorem cancel_task_settles_submissions `{Host} d t u k c i r d' actor :
  reachable d → cancel_task t u k c i d = Ok (r, d') →
  u_id u = Some actor → idempotency_record actor CANCEL_TASK k d = None →
  task_is_open t d' = false ∧
  (∀ s, s ∈ submissions d' → sb_task_id s = t → sub_pending s = false) ∧
  (∀ s, s ∈ submissions d → sb_task_id s = t → sb_status s = Sub_DELIVERING →
     ∃ s', s' ∈ submissions d' ∧ sb_submission_id s' = sb_submission_id s ∧ fenced s').
Proof.
  intros Hd Hrun Hact Hnew. pose proof (reachable_integrity _ Hd) as Hok.
  apply cancel_task_inv in Hrun as (_ & _ & a & Ha & Hcase). simplify_eq. rewrite Hnew in Hcase.
  destruct Hcase as (st & d1 & d2 & rows & d3 & Hst & [_ Hok1] & Hs1 & Ht1 & Hclose & Hloop & Hs3 & Ht3 & _).
  specialize (Hok1 Hok).
  destruct (close_work_state t c st d1 d2 Hok1) as (Hs2 & Hopen & [_ Hok2]);
    [unfold task_state; by rewrite Ht1 | exact Hclose |].
  pose proof (cancel_pending_submissions_st _ _ _ _ _ Hloop) as Hst3.
  apply cancel_pending_submissions_settles in Hloop as [Hnone Hfence]; [|auto].
  split_and!.
  - unfold task_is_open in *. by rewrite Ht3, Hst3.
  - by rewrite Hs3.
  - rewrite Hs3, <-Hs1, <-Hs2. auto.
Qed.

Lemma cancel_task_settles_submissions_witness :
  task_is_open "task" demo_cancelled = false ∧
  ∃ s', s' ∈ submissions demo_cancelled ∧ sb_submission_id s' = "sub1" ∧ fenced s'.
Proof.
  destruct (cancel_task_settles_submissions demo4 "task" alice "key9" 5 "ctl9"
    (JObj [("task_id", JStr "task"); ("work_status", JStr "cancelled");
           ("control_request_id", JNull); ("cancelled_submission_ids", JList []);
           ("delivery_unknown_submission_ids", JList [JStr "sub1"])])
    demo_cancelled "alice" demo4_reachable) as (Hopen & _ & Hf).
  - vm_compute. reflexivity.
  - reflexivity.
  - reflexivity.
  - split; [exact Hopen|].
    destruct (submissions demo4) as [|s l] eqn:Hs; [discriminate Hs|].
    destruct (Hf s) as (s' & ? & ? & ?); [constructor | by injection Hs as <- <- ..|].
    exists s'. split_and!; [done | by injection Hs as <- <- | done].
Defined.
