(* ===== verification/Requests.v ===== *)
(** * User requests

    The mutations of [ConversationApplicationService] that a user sends with an
    idempotency key, as data: [perform] runs the method of a request.  They all
    share one prologue (caller, maintenance barrier, ownership, replay of the
    stored response), and all of them store the response they return, so that
    a retried request is answered from the store. *)

From stdpp Require Import base tactics list strings relations.
From Stdlib Require Import ZArith Lia.
From S2P Require Import Prelude PyText Tables Contracts RegistryRows Schema Repository Service Acceptance.
From S2P Require Import Execution Evolution Methods Integrity System Scenario.

Local Open Scope string_scope.
Local Open Scope Z_scope.
#[local] Hint Constants Opaque : typeclass_instances.
#[local] Hint Transparent dict time relation : typeclass_instances.

Inductive request :=
| UpdateWorkStatus (status : TaskWorkStatus)
| CompleteTask
| ReopenTask
| CancelTask
| CreateTurn (input : dict) (context_snapshot_ref : option string) (allow_next_turn : bool)
| RetryTurn (turn_id : string) (input : dict) (context_snapshot_ref : option string)
| ArchiveTask
| UnarchiveTask
| UpdateTaskTitle (title : string)
| RequestSteer (turn_id : string) (payload : dict)
| RequestInterrupt (turn_id : string).

(** What a method reads from its surroundings: the grants of the auth database,
    the clock and fresh identifiers. *)
Record ambient := mkAmbient {
  am_auth : option (list access_row);
  am_now : time;
  am_id1 : string; am_id2 : string; am_id3 : string }.

Definition scope_of (q : request) : IdempotencyScope :=
  match q with
  | UpdateWorkStatus _ => UPDATE_WORK_STATUS
  | CompleteTask => COMPLETE_TASK
  | ReopenTask => REOPEN_TASK
  | CancelTask => CANCEL_TASK
  | CreateTurn _ _ _ => CREATE_TURN
  | RetryTurn _ _ _ => RETRY_TURN
  | ArchiveTask => ARCHIVE_TASK
  | UnarchiveTask => UNARCHIVE_TASK
  | UpdateTaskTitle _ => UPDATE_TASK_TITLE
  | RequestSteer _ _ => STEER_TURN
  | RequestInterrupt _ => INTERRUPT_TURN
  end.

(** The object whose hash identifies the request. *)
Definition body_of (q : request) (t : string) : json :=
  match q with
  | UpdateWorkStatus s => JObj [("task_id", JStr t); ("status", JStr (work_status_value s))]
  | CompleteTask | ReopenTask | CancelTask => JObj [("task_id", JStr t)]
  | CreateTurn i c n => admit_request t i c None n
  | RetryTurn r i c => admit_request t i c (Some r) false
  | ArchiveTask => JObj [("task_id", JStr t); ("archived", JBool true)]
  | UnarchiveTask => JObj [("task_id", JStr t); ("archived", JBool false)]
  | UpdateTaskTitle l => JObj [("task_id", JStr t); ("title", JStr (strip l))]
  | RequestSteer n p => JObj [("task_id", JStr t); ("turn_id", JStr n); ("payload", JObj p)]
  | RequestInterrupt n => JObj [("task_id", JStr t); ("turn_id", JStr n); ("payload", JObj [])]
  end.

(** The argument check that precedes the transaction. *)
Definition well_formed (q : request) : bool :=
  match q with UpdateTaskTitle l => truthy (strip l) | _ => true end.

Section requests.
Context `{Host}.

Definition perform (q : request) (t : string) (u : user) (k : string) (a : ambient) : txn json :=
  match q with
  | UpdateWorkStatus s => update_work_status t u s k (am_now a) (am_id1 a)
  | CompleteTask => complete_task t u k (am_now a) (am_id1 a)
  | ReopenTask => reopen_task t u k (am_now a) (am_id1 a)
  | CancelTask => cancel_task t u k (am_now a) (am_id1 a)
  | CreateTurn i c n =>
      r ← create_turn (am_auth a) t u i k c n (am_now a) (am_id1 a) (am_id2 a) (am_id3 a);
      mret r.1
  | RetryTurn n i c =>
      r ← retry_turn (am_auth a) t n u i k c (am_now a) (am_id1 a) (am_id2 a) (am_id3 a);
      mret r.1
  | ArchiveTask => archive_task t u k (am_now a)
  | UnarchiveTask => unarchive_task t u k (am_now a)
  | UpdateTaskTitle l => update_task_title t u l k (am_now a)
  | RequestSteer n p => request_steer t n u p k (am_now a) (am_id1 a)
  | RequestInterrupt n => request_interrupt t n u k (am_now a) (am_id1 a)
  end.

(** A request that commits is a step of the system. *)
Lemma perform_step q t u k a d r d' : perform q t u k a d = Ok (r, d') → step d d'.
Proof.
  destruct q; simpl; intros Hrun.
  - by eapply step_conversation, step_update_work_status.
  - by eapply step_conversation, step_complete_task.
  - by eapply step_conversation, step_reopen_task.
  - by eapply step_conversation, step_cancel_task.
  - apply bind_Ok in Hrun as (p & d1 & Hrun & [_ ->]%ret_Ok). by eapply step_conversation, step_create_turn.
  - apply bind_Ok in Hrun as (p & d1 & Hrun & [_ ->]%ret_Ok). by eapply step_conversation, step_retry_turn.
  - by eapply step_conversation, step_archive_task.
  - by eapply step_conversation, step_unarchive_task.
  - by eapply step_conversation, step_update_task_title.
  - by eapply step_conversation, step_request_steer.
  - by eapply step_conversation, step_request_interrupt.
Qed.

(** ** The shared prologue *)

Definition prologue {A} (q : request) (t : string) (u : user) (k : string)
    (answer : json → A) (rest : string → string → txn A) : txn A :=
  actor ← actor_of u;
  begin_write;;
  require_task_owner t u;;
  '(digest, replayed) ← replay actor (scope_of q) k (body_of q t);
  match replayed with
  | Some response => mret (answer response)
  | None => rest actor digest
  end.

(** The block stores the response it returns. *)
Definition Stores {A} (answer : A → json) (actor : string) (s : IdempotencyScope)
    (k digest : string) (m : txn A) : Prop :=
  ∀ d x d', m d = Ok (x, d') → ∃ fields now,
    answer x = JObj fields ∧
    mkIdempotency actor s k digest (JObj fields) now ∈ idempotency d'.

Lemma stores_bind {A B} (answer : B → json) actor s k g (m : txn A) (f : A → txn B) :
  (∀ x, Stores answer actor s k g (f x)) → Stores answer actor s k g (m ≫= f).
Proof. intros Hf d x d' (y & d1 & _ & Hrun)%bind_Ok. by eapply Hf. Qed.

Lemma stores_now {A} (answer : A → json) actor s k g fields now (m : txn unit) (x : A) :
  answer x = JObj fields → Respects db_evolves m →
  Stores answer actor s k g (store actor s k g (JObj fields) now;; m;; mret x).
Proof.
  intros Hx Hm d y d' (? & d1 & [_ ->]%insert_row_inv & Hrun)%bind_Ok.
  apply bind_Ok in Hrun as (? & d2 & Hrun & [-> ->]%ret_Ok). exists fields, now. split; [done|].
  pose proof (ev_idempotency _ _ (Hm _ _ _ Hrun)) as Hap.
  destruct (evolves_elem _ _ _ (mkIdempotency actor s k g (JObj fields) now) Hap)
    as (z & Hz & ->); [|done]. simpl. apply elem_of_app. right. constructor.
Qed.

Lemma stores_last {A} (answer : A → json) actor s k g fields now (x : A) :
  answer x = JObj fields →
  Stores answer actor s k g (store actor s k g (JObj fields) now;; mret x).
Proof.
  intros Hx d y d' Hrun. eapply (stores_now answer actor s k g fields now (mret tt) x Hx _ d).
  exact Hrun.
Qed.

Ltac stores :=
  cbv beta;
  repeat match goal with
  | |- Stores _ _ _ _ _ (let _ := _ in _) => cbv zeta
  | |- Stores _ _ _ _ _ (store _ _ _ _ _ _ ≫= λ _, mret _) => by eapply stores_last
  | |- Stores _ _ _ _ _ (store _ _ _ _ _ _ ≫= λ _, _ ≫= λ _, mret _) =>
      eapply stores_now; [reflexivity | apply _]
  | |- Stores _ _ _ _ _ (_ ≫= _) => apply stores_bind; intros ?
  end.

(** Every method of a request is the prologue followed by a block that stores its
    response. *)
Definition Prologued {A} (answer : A → json) (mk : json → A) (q : request) (t : string) (u : user)
    (k : string) (m : txn A) : Prop :=
  ∃ rest, m = prologue q t u k mk rest ∧
    ∀ actor digest, Stores answer actor (scope_of q) k digest (rest actor digest).

Lemma update_work_status_prologued t u s k c e :
  Prologued id id (UpdateWorkStatus s) t u k (update_work_status t u s k c e).
Proof. eexists. split; [reflexivity|]. intros actor digest. stores. Qed.
Lemma transition_work_status_prologued q t u g k v c e :
  body_of q t = JObj [("task_id", JStr t)] →
  Prologued id id q t u k (transition_work_status t u g k (scope_of q) v c e).
Proof.
  intros Hq. eexists. split; [unfold prologue; rewrite Hq; reflexivity|]. intros actor digest. stores.
Qed.
Lemma cancel_task_prologued t u k c i :
  Prologued id id CancelTask t u k (cancel_task t u k c i).
Proof. eexists. split; [reflexivity|]. intros actor digest. stores. Qed.
Lemma admit_prologued q a t u i k x r n c b e f :
  body_of q t = admit_request t i x r n →
  Prologued fst (λ j, (j, None)) q t u k (admit_turn a t u i k x (scope_of q) r n c b e f).
Proof.
  intros Hq. eexists. split; [unfold prologue; rewrite Hq; reflexivity|]. intros actor digest. stores.
Qed.
Lemma update_task_metadata_prologued q t u k j i (f : time → txn Z) c :
  body_of q t = j →
  Prologued id id q t u k (update_task_metadata t u (scope_of q) k j i f c).
Proof.
  intros <-. eexists. split; [reflexivity|]. intros actor digest. stores.
Qed.
Lemma request_control_prologued q t n u g p k c i :
  scope_of q = (match g with Control_STEER => STEER_TURN | _ => INTERRUPT_TURN end) →
  body_of q t = JObj [("task_id", JStr t); ("turn_id", JStr n); ("payload", JObj p)] →
  Prologued id id q t u k (request_control t n u g p k c i).
Proof.
  intros Hs Hq. eexists. split; [unfold prologue; rewrite Hs, Hq; reflexivity|].
  intros actor digest. rewrite Hs. stores.
Qed.

(** The result of a block, read with [answer]. *)
Definition answered {A} (answer : A → json) (m : txn A) : txn json := x ← m; mret (answer x).

Lemma answered_id (m : txn json) d : answered id m d = m d.
Proof. unfold answered, mbind, tx_bind. by destruct (m d) as [[]|]. Qed.

Definition Answers (q : request) (t : string) (u : user) (k : string) (m : txn json) : Prop :=
  ∃ A (answer : A → json) mk m', Prologued answer mk q t u k m' ∧ (∀ j, answer (mk j) = j) ∧
    ∀ d, m d = answered answer m' d.

Lemma answers_id q t u k m : Prologued id id q t u k m → Answers q t u k m.
Proof. intros Hm. exists json, id, id, m. split_and!; [done..|]. intros d. by rewrite answered_id. Qed.

Lemma perform_answers q t u k a : well_formed q = true → Answers q t u k (perform q t u k a).
Proof.
  intros Hw. destruct q; simpl.
  - apply answers_id, update_work_status_prologued.
  - by apply answers_id, (transition_work_status_prologued CompleteTask).
  - by apply answers_id, (transition_work_status_prologued ReopenTask).
  - apply answers_id, cancel_task_prologued.
  - eexists _, fst, _, _. split_and!; [by apply (admit_prologued (CreateTurn _ _ _)) | done..].
  - eexists _, fst, _, _. split_and!; [by apply (admit_prologued (RetryTurn _ _ _)) | done..].
  - by apply answers_id, (update_task_metadata_prologued ArchiveTask).
  - by apply answers_id, (update_task_metadata_prologued UnarchiveTask).
  - exists json, id, id. eexists. split_and!;
      [by apply (update_task_metadata_prologued (UpdateTaskTitle title)) | done|].
    intros d. rewrite answered_id. unfold update_task_title. simpl in Hw. rewrite Hw. reflexivity.
  - by apply answers_id, (request_control_prologued (RequestSteer _ _)).
  - by apply answers_id, (request_control_prologued (RequestInterrupt _)).
Qed.

Lemma perform_ill_formed q t u k a d :
  well_formed q = false → perform q t u k a d = Err ValueError.
Proof.
  destruct q; try done. simpl. intros Hw. unfold update_task_title. by rewrite Hw.
Qed.

(** What a request that commits saw, and the record it leaves. *)
Lemma perform_inv q t u k a d r d' :
  perform q t u k a d = Ok (r, d') →
  well_formed q = true ∧ truthy k = true ∧ maintenance_is_active d = Some false ∧
  may_write u t d ∧
  ∃ actor fields, u_id u = Some actor ∧ truthy actor = true ∧ r = JObj fields ∧
    match idempotency_record actor (scope_of q) k d with
    | Some row => id_request_hash row = request_hash (body_of q t) ∧ id_response row = r ∧ d' = d
    | None => ∃ now, mkIdempotency actor (scope_of q) k (request_hash (body_of q t)) r now
                       ∈ idempotency d'
    end.
Proof.
  intros Hrun. destruct (well_formed q) eqn:Hw; [|by rewrite perform_ill_formed in Hrun].
  destruct (perform_answers q t u k a Hw) as (A & answer & mk & m & (rest & -> & Hst) & Hmk & Heq).
  rewrite Heq in Hrun. apply bind_Ok in Hrun as (x & d1 & Hrun & [-> ->]%ret_Ok).
  unfold prologue in Hrun.
  apply bind_Ok in Hrun as (actor & ? & (Hact & Htr & ->)%actor_of_inv & Hrun).
  apply bind_Ok in Hrun as (? & ? & [Hm ->]%begin_write_inv & Hrun).
  apply bind_Ok in Hrun as (? & ? & [Hown ->]%require_task_owner_inv & Hrun).
  apply bind_Ok in Hrun as ([g o] & ? & (-> & -> & Hk & Hrep)%replay_inv & Hrun).
  split_and!; [done..|]. exists actor.
  destruct (idempotency_record actor (scope_of q) k d) as [row|] eqn:Hrow.
  - destruct Hrep as (Hh & -> & fields & Hj). apply ret_Ok in Hrun as [-> ->]. rewrite Hmk.
    exists fields. split_and!; done.
  - subst o. destruct (Hst _ _ _ _ _ Hrun) as (fields & now & Hans & Hin). rewrite Hans.
    exists fields. split_and!; [done..|]. by exists now.
Qed.

(** Conversely, how the prologue decides a request. *)
Section decided.
Context (q : request) (t : string) (u : user) (k : string) (a : ambient) (d : db) (actor : string).
Context (Hw : well_formed q = true) (Hm : maintenance_is_active d = Some false).
Context (Hact : u_id u = Some actor) (Htr : truthy actor = true).

Lemma actor_of_open : actor_of u d = Ok (actor, d).
Proof using Hact Htr. unfold actor_of. by rewrite Hact, Htr. Qed.
Lemma begin_write_allowed : begin_write d = Ok (tt, d).
Proof using Hm. unfold begin_write, mbind, tx_bind, gets. by rewrite Hm. Qed.

Lemma perform_denied e : require_task_owner t u d = Err e → perform q t u k a d = Err e.
Proof using Hw Hm Hact Htr.
  intros Howner.
  destruct (perform_answers q t u k a Hw) as (A & answer & mk & m & (rest & -> & _) & _ & ->).
  apply bind_Err. left. apply bind_Err. right. eexists _, _. split; [apply actor_of_open|].
  apply bind_Err. right. eexists _, _. split; [apply begin_write_allowed|].
  apply bind_Err. by left.
Qed.

Lemma perform_stored row fields :
  truthy k = true → may_write u t d →
  idempotency_record actor (scope_of q) k d = Some row → id_response row = JObj fields →
  perform q t u k a d =
    if eqs (id_request_hash row) (request_hash (body_of q t)) then Ok (JObj fields, d)
    else Err (DomainConflictError "idempotency_key_conflict").
Proof using Hw Hm Hact Htr.
  intros Hk (task & Htask & Hown) Hrow Hresp.
  destruct (perform_answers q t u k a Hw) as (A & answer & mk & m & (rest & -> & _) & Hmk & ->).
  assert (is_admin u || owner_is u (tk_owner_user_id task) = true) as Ho.
  { apply orb_true_iff. destruct Hown; [by left | right; by apply bool_decide_eq_true]. }
  assert (require_task_owner t u d = Ok (tt, d)) as Howner.
  { unfold require_task_owner, mbind, tx_bind, gets. rewrite Htask. simpl.
    unfold mret, tx_ret. by rewrite Ho. }
  unfold answered, prologue, mbind, tx_bind at 1. cbn. unfold tx_bind at 1.
  rewrite actor_of_open. unfold tx_bind at 1. rewrite begin_write_allowed.
  unfold tx_bind at 1. rewrite Howner. unfold tx_bind at 1.
  unfold replay, mbind, tx_bind, gets, require, mret, tx_ret, raise. rewrite Hk, Hrow, Hresp.
  destruct (eqs _ _); [|done]. by rewrite Hmk.
Qed.
End decided.

(** The record of a request, at any later time. *)
Lemma recorded_later d d' row :
  integrity d → row ∈ idempotency d → rtc step d d' →
  idempotency_record (id_actor_user_id row) (id_scope row) (id_key row) d' = Some row.
Proof.
  intros Hok Hin Hs. destruct (steps_spec integral _ _ Hs) as [Hev Hok'].
  destruct (evolves_elem _ _ _ row (ev_idempotency _ _ Hev) Hin) as (z & Hz & <-).
  apply select_one_the; [done | by rewrite !eqs_refl |].
  intros x Hx Hp. split_bools. eapply unique_eq; [apply (ok_idempotency _ (Hok' Hok)) | done..|].
  congruence.
Qed.

(** What a committed request left, at any later time. *)
Lemma performed_later d q t u k a r d1 d2 :
  reachable d → perform q t u k a d = Ok (r, d1) → rtc step d1 d2 →
  well_formed q = true ∧ truthy k = true ∧ ∃ actor row fields,
    u_id u = Some actor ∧ truthy actor = true ∧ r = JObj fields ∧
    idempotency_record actor (scope_of q) k d2 = Some row ∧
    id_request_hash row = request_hash (body_of q t) ∧ id_response row = r.
Proof.
  intros Hd Hrun Hs. assert (integrity d1) as Hok1.
  { apply reachable_integrity. eapply reachable_step; [done | by eapply perform_step]. }
  apply perform_inv in Hrun as (Hw & Hk & _ & _ & actor & fields & Hact & Htr & -> & Hrec).
  split_and!; [done..|]. exists actor.
  destruct (idempotency_record actor (scope_of q) k d) as [row|] eqn:Hrow.
  - destruct Hrec as (Hh & Hresp & ->). apply select_one_Some in Hrow as [Hin Hp]. split_bools.
    exists row, fields. split_and!; try done.
    etrans; [|by apply (recorded_later d d2 row)]. congruence.
  - destruct Hrec as [now Hin]. eexists _, fields. split_and!; try done.
    + by apply (recorded_later d1 d2 _ Hok1 Hin).
    + done.
    + done.
Qed.
End requests.

(** ** Guarantees *)

(** C28: a request that was committed once is answered from the store ever after: the
    same caller repeating it with the same idempotency key, at any later time and with
    whatever clock, grants and fresh identifiers, gets the same response and changes
    nothing (as long as the barrier is open and the caller may still write). *)
Theorem retried_request_is_replayed `{Host} d q t u k a r d1 d2 a' :
  reachable d → perform q t u k a d = Ok (r, d1) → rtc step d1 d2 →
  maintenance_is_active d2 = Some false → may_write u t d2 →
  perform q t u k a' d2 = Ok (r, d2).
Proof.
  intros Hd Hrun Hs Hm Hown.
  destruct (performed_later _ _ _ _ _ _ _ _ _ Hd Hrun Hs)
    as (Hw & Hk & actor & row & fields & Hact & Htr & -> & Hrow & Hh & Hresp).
  rewrite (perform_stored q t u k a' d2 actor Hw Hm Hact Htr row fields) by done.
  by rewrite Hh, eqs_refl.
Qed.

Lemma retried_request_is_replayed_witness :
  perform (CreateTurn [("text", JStr "hello")] None false) "task" alice "key1"
    (mkAmbient None 99 "x" "y" "z") demo5
  = Ok (JObj [("submission_id", JStr "sub1"); ("task_id", JStr "task");
              ("reserved_turn_id", JStr "turn1"); ("status", JStr "queued");
              ("intent", JStr "create")], demo5).
Proof.
  apply (retried_request_is_replayed demo1
    (CreateTurn [("text", JStr "hello")] None false) "task" alice "key1"
    (mkAmbient grants 2 "sub1" "turn1" "ev2") _ demo2 demo5 _ demo1_reachable).
  - vm_compute. reflexivity.
  - eapply rtc_l; [apply demo_step23|]. eapply rtc_l; [apply demo_step34|].
    apply rtc_once, demo_step45.
  - reflexivity.
  - eexists. split; [reflexivity | by right].
Defined.

(** An idempotency key cannot be reused for something else: once a request was
    committed under a key, a different request of the same kind by the same caller
    under that key is refused, at any later time. *)
Theorem reused_key_is_refused `{Host} d q t u k a r d1 d2 q' t' a' :
  reachable d → perform q t u k a d = Ok (r, d1) → rtc step d1 d2 →
  scope_of q' = scope_of q → well_formed q' = true →
  request_hash (body_of q' t') ≠ request_hash (body_of q t) →
  maintenance_is_active d2 = Some false → may_write u t' d2 →
  perform q' t' u k a' d2 = Err (DomainConflictError "idempotency_key_conflict").
Proof.
  intros Hd Hrun Hs Hscope Hw' Hne Hm Hown.
  destruct (performed_later _ _ _ _ _ _ _ _ _ Hd Hrun Hs)
    as (_ & Hk & actor & row & fields & Hact & Htr & -> & Hrow & Hh & Hresp).
  rewrite <-Hscope in Hrow.
  rewrite (perform_stored q' t' u k a' d2 actor Hw' Hm Hact Htr row fields) by done.
  rewrite eqs_ne; [done | congruence].
Qed.

Lemma reused_key_is_refused_witness :
  perform (CreateTurn [("text", JStr "other")] None false) "task" alice "key1"
    (mkAmbient grants 3 "x" "y" "z") demo3
  = Err (DomainConflictError "idempotency_key_conflict").
Proof.
  apply (reused_key_is_refused demo1
    (CreateTurn [("text", JStr "hello")] None false) "task" alice "key1"
    (mkAmbient grants 2 "sub1" "turn1" "ev2")
    (JObj [("submission_id", JStr "sub1"); ("task_id", JStr "task");
           ("reserved_turn_id", JStr "turn1"); ("status", JStr "queued");
           ("intent", JStr "create")]) demo2 demo3 _ _ _ demo1_reachable).
  - vm_compute. reflexivity.
  - apply rtc_once, demo_step23.
  - reflexivity.
  - reflexivity.
  - vm_compute. discriminate.
  - reflexivity.
  - eexists. split; [reflexivity | by right].
Defined.

(** A request is committed only for an administrator or the owner of the Task,
    and only while the maintenance barrier is open. *)
Theorem requests_are_authorized `{Host} d q t u k a r d' :
  perform q t u k a d = Ok (r, d') → maintenance_is_active d = Some false ∧ may_write u t d.
Proof. by intros (_ & _ & ? & ? & _)%perform_inv. Qed.

Lemma requests_are_authorized_witness :
  maintenance_is_active demo1 = Some false ∧ may_write alice "task" demo1.
Proof.
  eapply (requests_are_authorized demo1 (CreateTurn [("text", JStr "hello")] None false) "task"
    alice "key1" (mkAmbient grants 2 "sub1" "turn1" "ev2") _ demo2).
  vm_compute. reflexivity.
Defined.

(** To a caller without any role in its project a Task does not exist: every
    request on it fails exactly as a request on a missing Task does, whatever the
    Task's state. *)
Theorem outsider_sees_no_task `{Host} d q t u k a actor :
  well_formed q = true → maintenance_is_active d = Some false →
  u_id u = Some actor → truthy actor = true →
  (∀ task, task_by_id t d = Some task →
     is_admin u = false ∧ actor ≠ tk_owner_user_id task ∧
     project_role (tk_project_id task) u d = None) →
  perform q t u k a d = Err (DomainNotFoundError t).
Proof.
  intros Hw Hm Hact Htr Hout. eapply perform_denied; [done..|].
  unfold require_task_owner, mbind, tx_bind, gets. destruct (task_by_id t d) as [task|]; [|done].
  destruct (Hout task eq_refl) as (Ha & Hne & Hrole). simpl. unfold mret, tx_ret.
  unfold owner_is, eqo. rewrite Ha, Hact, bool_decide_eq_false_2 by congruence. simpl.
  by rewrite Hrole.
Qed.

Lemma outsider_sees_no_task_witness :
  perform CancelTask "task" (mkUser (Some "mallory") (Some "user")) "key"
    (mkAmbient None 9 "x" "y" "z") demo5 = Err (DomainNotFoundError "task").
Proof.
  apply (outsider_sees_no_task demo5 CancelTask "task" (mkUser (Some "mallory") (Some "user"))
    "key" (mkAmbient None 9 "x" "y" "z") "mallory"); [reflexivity..|].
  intros task Htask. injection Htask as <-. split_and!; [reflexivity | discriminate | reflexivity].
Defined.

(** * The maintenance barrier

    Every writing transaction passes the barrier before its first statement. *)

(** The block commits only when the barrier is open at its start. *)
Class Barred {A} (m : txn A) : Prop :=
  barred d a d' : m d = Ok (a, d') → maintenance_is_active d = Some false.

Lemma barred_begin {A} (f : unit → txn A) : Barred (begin_write ≫= f).
Proof. by intros d a d' (? & ? & [Hm _]%begin_write_inv & _)%bind_Ok. Qed.
Lemma barred_raise {A} e : Barred (raise e : txn A).
Proof. by intros d a d' ?%raise_Ok. Qed.
Lemma barred_left {A B} (m : txn A) (f : A → txn B) : Barred m → Barred (m ≫= f).
Proof. intros Hm d b d' (a & d1 & Hrun & _)%bind_Ok. by eapply Hm. Qed.
Lemma barred_right {A B} (m : txn A) (f : A → txn B) :
  Respects eq m → (∀ a, Barred (f a)) → Barred (m ≫= f).
Proof.
  intros Hm Hf d b d' (a & d1 & Hrun & Hrest)%bind_Ok. apply Hm in Hrun as ->. by eapply Hf.
Qed.

Ltac bar :=
  intros; lazymatch goal with |- Barred ?m => let h := head_of m in unfold h end;
  repeat match goal with
  | |- Barred (let _ := _ in _) => cbv zeta
  | |- Barred (begin_write ≫= _) => apply barred_begin
  | |- Barred (raise _) => apply barred_raise
  | |- Barred (match ?x with _ => _ end) => destruct x
  | |- Barred (_ ≫= _) => first [ apply barred_left; solve [apply _]
                                 | apply barred_right; [solve [apply _] | intros ?] ]
  | |- Barred _ => solve [apply _]
  end.

Section barrier.
Context `{Host}.

#[local] Instance initialize_task_barred t u c e : Barred (initialize_task t u c e).
Proof. bar. Qed.
#[local] Instance update_work_status_barred t u s k c e : Barred (update_work_status t u s k c e).
Proof. bar. Qed.
#[local] Instance transition_work_status_barred t u g k s v c e :
  Barred (transition_work_status t u g k s v c e).
Proof. bar. Qed.
#[local] Instance cancel_task_barred t u k c i : Barred (cancel_task t u k c i).
Proof. bar. Qed.
#[local] Instance admit_barred a t u i k x s r n c b e f : Barred (admit_turn a t u i k x s r n c b e f).
Proof. bar. Qed.
#[local] Instance update_task_metadata_barred t u s k q i f c :
  Barred (update_task_metadata t u s k q i f c).
Proof. bar. Qed.
#[local] Instance request_control_barred t n u g p k c i : Barred (request_control t n u g p k c i).
Proof. bar. Qed.
#[local] Instance claim_next_submission_barred a c n : Barred (claim_next_submission a c n).
Proof. bar. Qed.
#[local] Instance mark_delivery_unknown_barred s f e c : Barred (mark_delivery_unknown s f e c).
Proof. bar. Qed.
#[local] Instance begin_delivery_barred s m c : Barred (begin_delivery s m c).
Proof. bar. Qed.
#[local] Instance accept_submission_barred {X} (side : option (string → time → option string → txn X))
    a b c d e f g h i j k l : Barred (accept_submission side a b c d e f g h i j k l).
Proof. bar. Qed.
#[local] Instance accept_barred snapshot claim ef ed ck cr tk tr rk rr ev c bu iu :
  Barred (accept_and_open_execution snapshot claim ef ed ck cr tk tr rk rr ev c bu iu).
Proof. bar. Qed.
#[local] Instance append_item_barred x ty ac p pr ni o c i : Barred (append_item x ty ac p pr ni o c i).
Proof. bar. Qed.
#[local] Instance claim_interrupt_barred i k c : Barred (claim_interrupt i k c).
Proof. bar. Qed.
#[local] Instance recover_controls_barred a n c : Barred (recover_stale_control_delivery a n c).
Proof. bar. Qed.
#[local] Instance transition_control_barred i e s v f c : Barred (transition_control i e s v f c).
Proof. bar. Qed.
#[local] Instance finish_turn_barred a b c d side e : Barred (finish_turn a b c d side e).
Proof. bar. Qed.
#[local] Instance finish_execution_barred x s e f c : Barred (finish_execution x s e f c).
Proof. bar. Qed.
#[local] Instance update_task_title_barred t u l k c : Barred (update_task_title t u l k c).
Proof. bar. Qed.

Lemma step_barred d d' : step d d' → control_plane d d' ∨ maintenance_is_active d = Some false.
Proof.
  intros [d1 d2 Hc|d1 d2 Hs|? ? ? ? ? ? ? ? ? ? d1 d2 Hm _|? ? ? ? d1 d2 Hm _];
    [by left | | by right..]. right. destruct Hs;
    match goal with Hm : ?m _ = Ok _ |- _ =>
      first [ exact (barred (m:=m) _ _ _ Hm)
            | let h := head_of m in unfold h in Hm; exact (barred _ _ _ Hm) ] end.
Qed.
End barrier.

(** While the maintenance barrier is up (or its record is missing) no method of the
    control plane commits: the conversation tables stay as they are. *)
Theorem maintenance_stops_writes `{Host} d d' :
  step d d' → maintenance_is_active d ≠ Some false →
  control_plane d d' ∧ task_turns d' = task_turns d ∧ turn_items d' = turn_items d ∧
  submissions d' = submissions d ∧ executions d' = executions d ∧ controls d' = controls d.
Proof. intros [Hc|]%step_barred Hne; [|done]. by destruct Hc. Qed.

Definition demo_maintenance : db := Eval vm_compute in
  with_maintenance (λ _, Some true) demo5.

Lemma maintenance_stops_writes_witness :
  maintenance_is_active demo_maintenance = Some true ∧ task_turns demo5 = task_turns demo_maintenance.
Proof.
  split; [reflexivity|].
  apply (maintenance_stops_writes demo_maintenance demo5); [|discriminate].
  apply step_control_plane. constructor; try reflexivity; done.
Defined.
