(* ===== verification/Acceptances.v ===== *)
(** * What an acceptance commits

    [accept_and_open_execution] turns the delivered submission into a Turn in
    progress with its user message and its running execution, once: a repeated
    callback finds the same execution and changes nothing. *)

From stdpp Require Import base tactics list strings relations.
From Stdlib Require Import ZArith Lia.
From S2P Require Import Prelude PyText Tables Contracts RegistryRows Schema Repository Service Acceptance.
From S2P Require Import Execution Evolution Methods Integrity System History Running Origin.
From S2P Require Import Scenario.

Local Open Scope string_scope.
Local Open Scope Z_scope.
#[local] Hint Constants Opaque : typeclass_instances.
#[local] Hint Transparent dict time relation : typeclass_instances.

(** ** The execution of the Turn *)

(** An active execution row is named by the claim and belongs to the Turn. *)
Definition opened (d : db) (turn : string) (x : RuntimeExecutionClaim) : Prop :=
  ∃ e, e ∈ executions d ∧ names x e ∧ ex_turn_id e = turn ∧ exec_active e = true.

(** Only executions are written. *)
Definition same_conversation (d d' : db) : Prop :=
  task_turns d' = task_turns d ∧ turn_items d' = turn_items d ∧ submissions d' = submissions d.
#[local] Instance same_conversation_preorder : PreOrder same_conversation.
Proof.
  split; unfold same_conversation; red; [done|].
  intros ? ? ? (?&?&?) (?&?&?). split_and!; congruence.
Qed.
#[local] Instance insert_runtime_execution_sc a b c d e f g h i j k l m n :
  Respects same_conversation (insert_runtime_execution a b c d e f g h i j k l m n).
Proof. by intros d0 u d' [_ ->]%insert_row_inv. Qed.
#[local] Instance supersede_binding_sc a b c : Respects same_conversation (supersede_binding a b c).
Proof. by intros d0 u d' (-> & _ & _)%update_rows_inv. Qed.
#[local] Instance insert_binding_sc a b c d e f g h i j k l m n o :
  Respects same_conversation (insert_binding a b c d e f g h i j k l m n o).
Proof. by intros d0 u d' [_ ->]%insert_row_inv. Qed.
#[local] Instance transition_runtime_execution_sc a b c d e f g :
  Respects same_conversation (transition_runtime_execution a b c d e f g).
Proof. by intros d0 u d' (-> & _ & _)%update_rows_inv. Qed.

(** No execution is written. *)
Definition same_executions (d d' : db) : Prop := executions d' = executions d.
#[local] Instance same_executions_preorder : PreOrder same_executions.
Proof. split; unfold same_executions; red; congruence. Qed.
#[local] Instance supersede_binding_se a b c : Respects same_executions (supersede_binding a b c).
Proof. by intros d0 u d' (-> & _ & _)%update_rows_inv. Qed.
#[local] Instance insert_binding_se a b c d e f g h i j k l m n o :
  Respects same_executions (insert_binding a b c d e f g h i j k l m n o).
Proof. by intros d0 u d' [_ ->]%insert_row_inv. Qed.

(** From [d] to [d']: submission [s] became [s'], and Turn [t] with its first item was
    appended. *)
Record materialized (d d' : db) (s : submission_row) (i : intent_row) (t : turn_row)
    (item : item_row) (s' : submission_row) : Prop := {
  mt_turns : task_turns d' = (task_turns d ++ [t])%list;
  mt_turn_id : tn_turn_id t = sb_reserved_turn_id s;
  mt_task : tn_task_id t = sb_task_id s;
  mt_seq : tn_turn_seq t = next_turn_seq (sb_task_id s) d;
  mt_status : tn_status t = Turn_IN_PROGRESS;
  mt_retry : tn_retry_of_turn_id t = in_retry_of_turn_id i;
  mt_context : tn_context_snapshot_ref t = sb_context_snapshot_ref s;
  mt_items : turn_items d' = (turn_items d ++ [item])%list;
  mt_item_turn : it_turn_id item = sb_reserved_turn_id s;
  mt_item_seq : it_turn_item_seq item = 1;
  mt_item_type : it_item_type item = Item_USER_MESSAGE;
  mt_item_actor : it_actor item = Actor_USER;
  mt_item_payload : it_payload item = sb_input s;
  mt_submission : s' ∈ submissions d';
  mt_submission_id : sb_submission_id s' = sb_submission_id s;
  mt_delivered : sb_status s' = Sub_DELIVERED }.

Section accepted.
Context `{Host}.

#[local] Instance resolve_acceptance_binding_sc a b c d e f g h :
  Respects same_conversation (resolve_acceptance_binding a b c d e f g h).
Proof. method. Qed.

#[local] Instance resolve_acceptance_binding_se a b c d e f g h :
  Respects same_executions (resolve_acceptance_binding a b c d e f g h).
Proof. method. Qed.
#[local] Instance persist_runtime_sc a b c d e f g h i j :
  Respects same_conversation (persist_runtime a b c d e f g h i j).
Proof. method. Qed.

(** The row that a move to [running] leaves. *)
Lemma to_running_row rid ev c d d' e :
  e ∈ executions d → ex_runtime_execution_id e = rid → ex_status e = Exec_STARTING →
  transition_runtime_execution rid Exec_STARTING Exec_RUNNING ev c None None d = Ok (1, d') →
  set_execution_status Exec_RUNNING ev c None None e ∈ executions d'.
Proof.
  intros He Hid Hst (-> & _ & _)%update_rows_inv. apply elem_of_on_rows. exists e.
  by rewrite Hid, eqs_refl, bool_decide_true.
Qed.

Lemma persist_runtime_opens claim rid tk tr rk rr ev turn c bi d x d' :
  persist_runtime claim rid tk tr rk rr ev turn c bi d = Ok (x, d') →
  opened d' turn x ∧ xc_task_id x = sc_task_id claim ∧ xc_turn_id x = turn.
Proof.
  intros [Hact [(row & Hrow & Ht & -> & Hd)|(_ & seq & gen & d1 & Hins & Hto & ->)]]%persist_runtime_inv;
    (split; [|done]).
  - destruct (Hact row Hrow Ht) as [Htask Ha]. destruct Hd as [-> |[Hst Hto]].
    + exists row. unfold names. by split_and!.
    + eexists. split; [by eapply to_running_row|]. unfold names. by split_and!.
  - apply insert_row_inv in Hins as [_ ->]. eexists. split.
    + eapply to_running_row; [| | | exact Hto];
        [simpl; apply elem_of_app; right; constructor | reflexivity..].
    + unfold names. by split_and!.
Qed.

(** ** The block that materializes the Turn *)

Lemma materialize_turn_inv {X} (side : option (string → time → option string → txn X))
    s i ln tk tr bi ck cr mo ev c bu iu d r d' :
  materialize_turn side s i ln tk tr bi ck cr mo ev c bu iu d = Ok (r, d') →
  ∃ d2 resolved t item s',
    run_side_effect side (sb_reserved_turn_id s) c resolved d2 = Ok (r.2, d') ∧
    materialized d d2 s i t item s' ∧ executions d2 = executions d.
Proof.
  unfold materialize_turn. intros Hrun.
  apply bind_Ok in Hrun as (? & ? & [-> ->]%gets_Ok & Hrun).
  apply bind_Ok in Hrun as (? & ? & [_ ->]%require_Ok & Hrun).
  apply bind_Ok in Hrun as (resolved & d1 & Hbind & Hrun).
  assert (same_conversation d d1) as (Ht1 & Hi1 & _).
  { revert Hbind. apply respects_apply. solve_respects. }
  assert (same_executions d d1) as Hx1.
  { revert Hbind. apply respects_apply. solve_respects. }
  apply bind_Ok in Hrun as (? & ? & [-> ->]%gets_Ok & Hrun).
  apply bind_Ok in Hrun as (? & ? & [_ ->]%insert_row_inv & Hrun).
  apply bind_Ok in Hrun as (? & ? & [-> ->]%gets_Ok & Hrun).
  apply bind_Ok in Hrun as (? & ? & [_ ->]%insert_row_inv & Hrun).
  apply bind_Ok in Hrun as (n & d4 & Hsub & Hrun).
  apply bind_Ok in Hrun as (? & ? & [Hn%Z.eqb_eq ->]%require_Ok & Hrun). subst n.
  apply bind_Ok in Hrun as (xo & d5 & Hside & [-> ->]%ret_Ok).
  pose proof Hsub as (s0 & _ & Hid & _ & Hin)%transition_submission_hit.
  apply update_rows_inv in Hsub as (Hd4 & _ & _).
  eexists d4, resolved, _, _, _. split; [exact Hside|]. split; [|by rewrite Hd4; simpl].
  constructor; [rewrite Hd4; simpl; by rewrite Ht1|..|exact Hin|done|done].
  7: { rewrite Hd4. simpl. by rewrite Hi1. }
  all: try reflexivity. simpl. unfold next_turn_seq. by rewrite Ht1.
Qed.

Lemma materialized_frame d d1 d' s i t item s' :
  materialized d d1 s i t item s' → same_conversation d1 d' → materialized d d' s i t item s'.
Proof. intros [] (Ht & Hi & Hs). constructor; congruence. Qed.

(** The two ways to accept: a replay of a delivered submission, or the
    materialization of its Turn; the execution is opened at the end of both. *)
Lemma accept_and_open_execution_inv snapshot claim ef ed ck cr tk tr rk rr ev c bu iu d x d' :
  accept_and_open_execution snapshot claim ef ed ck cr tk tr rk rr ev c bu iu d = Ok (x, d') →
  ∃ s i identity d0 d1 bi,
    submission_by_id (sc_submission_id claim) d = Some s ∧
    submission_intent (sc_submission_id claim) d = Some i ∧
    runtime_identity_for_acceptance claim snapshot = Ok (identity, d0) ∧
    persist_runtime claim (ri_runtime_execution_id identity) tk tr rk rr ev
      (sb_reserved_turn_id s) c bi d1 = Ok (x, d') ∧ executions d1 = executions d ∧
    ((sb_status s = Sub_DELIVERED ∧ d1 = d) ∨
     (sb_status s ≠ Sub_DELIVERED ∧ ∃ t item s', materialized d d1 s i t item s')).
Proof.
  unfold accept_and_open_execution. intros Hrun.
  destruct (runtime_identity_for_acceptance claim snapshot) as [[identity d0]|]; [|by tx_inv_all].
  apply bind_Ok in Hrun as ([j xo] & da & Hacc & [-> <-]%require_some_Ok).
  apply accept_submission_inv in Hacc as (_ & _ & _ & s & i & st & Hs & Hi & _ & _ & Hcase).
  exists s, i, identity, d0.
  assert (∀ b d1, run_side_effect (Some (persist_runtime claim (ri_runtime_execution_id identity)
      tk tr rk rr ev)) (sb_reserved_turn_id s) c b d1 = Ok (Some x, d') →
      persist_runtime claim (ri_runtime_execution_id identity) tk tr rk rr ev
        (sb_reserved_turn_id s) c b d1 = Ok (x, d')) as Hside.
  { intros b d1. unfold run_side_effect. simpl.
    by intros (y & d2 & Hy & [[= ->] ->]%ret_Ok)%bind_Ok. }
  destruct Hcase as [(Hst & _ & b & xo & _ & Hrun & Heq)|(Hst & _ & Hrun)].
  - injection Heq as _ <-. exists d, b. split_and!; auto.
  - apply materialize_turn_inv in Hrun as (d2 & b & t & item & s' & Hrun & Hm & Hx).
    exists d2, b. split_and!; auto. right. split; [|by eauto]. naive_solver congruence.
Qed.

(** What is in the database after an acceptance. *)
Lemma accepted_state snapshot claim ef ed ck cr tk tr rk rr ev c bu iu d x d' :
  integrity d → step d d' →
  accept_and_open_execution snapshot claim ef ed ck cr tk tr rk rr ev c bu iu d = Ok (x, d') →
  opened d' (xc_turn_id x) x ∧ xc_task_id x = sc_task_id claim ∧
  ∃ s, s ∈ submissions d' ∧ sb_submission_id s = sc_submission_id claim ∧
       sb_reserved_turn_id s = xc_turn_id x ∧ sb_status s = Sub_DELIVERED.
Proof.
  intros Hok Hstep (s & i & id & d0 & d1 & bi & Hs & _ & _ & Hp & _ & Hcase)%accept_and_open_execution_inv.
  pose proof (persist_runtime_sc _ _ _ _ _ _ _ _ _ _ _ _ _ Hp) as (_ & _ & Hsame).
  apply persist_runtime_opens in Hp as (Hop & Htask & Hturn). rewrite Hturn. split_and!; [done..|].
  apply select_one_Some in Hs as [Hin Hid]. split_bools.
  destruct (submission_later d d' s Hok (rtc_once _ _ Hstep) Hin) as (s1 & Hs1 & [He _] & Huniq).
  unfold submission_identity in He. exists s1. split_and!; [done | congruence..|].
  destruct Hcase as [[Hst ->]|(_ & t & item & s' & Hm)].
  - rewrite <-(Huniq s); [done | by rewrite Hsame | done].
  - destruct Hm. rewrite <-(Huniq s'); [done | by rewrite Hsame | congruence].
Qed.
End accepted.

(** C25: an acceptance that commits on a submission not yet delivered appends exactly one
    Turn, in progress, with the reserved identifier and the next number of its Task,
    whose first item is the user's message; the submission is delivered, and the claim
    handed back names the running execution of that Turn. *)
Theorem acceptance_opens_the_turn `{Host} d snapshot claim ef ed ck cr tk tr rk rr ev c bu iu x d' s :
  reachable d → db_evolves snapshot d →
  accept_and_open_execution snapshot claim ef ed ck cr tk tr rk rr ev c bu iu d = Ok (x, d') →
  submission_by_id (sc_submission_id claim) d = Some s → sb_status s ≠ Sub_DELIVERED →
  ∃ i t item s', submission_intent (sc_submission_id claim) d = Some i ∧
    materialized d d' s i t item s' ∧
    ∃ e, e ∈ executions d' ∧ names x e ∧ ex_turn_id e = tn_turn_id t ∧ ex_status e = Exec_RUNNING.
Proof.
  intros Hd Hsnap Hrun Hs Hne.
  assert (running_ok d') as Hrn.
  { apply reachable_running. eapply reachable_step; [done | by eapply step_conversation, step_accept]. }
  apply accept_and_open_execution_inv in Hrun
    as (s0 & i & id & d0 & d1 & bi & Hs0 & Hi & _ & Hp & _ & Hcase). simplify_eq.
  destruct Hcase as [[? _]|(_ & t & item & s' & Hm)]; [done|].
  exists i, t, item, s'. split; [done|].
  split; [eapply materialized_frame; [done|]; by eapply persist_runtime_sc|].
  apply persist_runtime_opens in Hp as [(e & He & Hn & Ht & Ha) _]. exists e.
  rewrite (mt_turn_id _ _ _ _ _ _ _ Hm). split_and!; [done..|]. by apply (rn_active _ _ Hrn).
Qed.

Lemma acceptance_opens_the_turn_witness :
  ∃ t item e, task_turns demo5 = [t] ∧ it_payload item = [("text", JStr "hello")] ∧
    turn_items demo5 = [item] ∧ e ∈ executions demo5 ∧ ex_status e = Exec_RUNNING.
Proof.
  destruct (submission_by_id "sub1" demo4) as [s|] eqn:Hs; [|discriminate Hs].
  destruct (acceptance_opens_the_turn demo4 demo4 claim1 "codex" "codex-app-server" "thread" "th1"
    "turn" "nt1" (Some "process") (Some "pid1") [("source", JStr "engine")] 5 "bind1" "item1"
    running1 demo5 s demo4_reachable) as (i & t & item & s' & _ & Hm & e & He & _ & _ & Hst).
  - reflexivity.
  - vm_compute. reflexivity.
  - exact Hs.
  - injection Hs as <-. discriminate.
  - exists t, item, e. split_and!; [apply (mt_turns _ _ _ _ _ _ _ Hm) | | | done | done].
    + rewrite (mt_item_payload _ _ _ _ _ _ _ Hm). injection Hs as <-. reflexivity.
    + apply (mt_items _ _ _ _ _ _ _ Hm).
Defined.

(** C4: provider callbacks are idempotent: once an acceptance committed, a later callback
    for the same submission that commits returns the same execution claim and changes
    nothing, whatever happened in between and whatever the callback reports. *)
Theorem acceptance_is_idempotent `{Host} d snapshot claim ef ed ck cr tk tr rk rr ev c bu iu x d1
    d2 snapshot' claim' ef' ed' ck' cr' tk' tr' rk' rr' ev' c' bu' iu' x' d3 :
  reachable d → db_evolves snapshot d →
  accept_and_open_execution snapshot claim ef ed ck cr tk tr rk rr ev c bu iu d = Ok (x, d1) →
  rtc step d1 d2 →
  sc_submission_id claim' = sc_submission_id claim → sc_task_id claim' = sc_task_id claim →
  accept_and_open_execution snapshot' claim' ef' ed' ck' cr' tk' tr' rk' rr' ev' c' bu' iu' d2
    = Ok (x', d3) →
  x' = x ∧ d3 = d2.
Proof.
  intros Hd Hsnap Hrun Hsteps Hsid Htask Hagain.
  assert (step d d1) as Hstep by (by eapply step_conversation, step_accept).
  pose proof (reachable_integrity _ Hd) as Hok.
  assert (reachable d1) as Hd1 by (by eapply reachable_step).
  assert (reachable d2) as Hd2 by (by eapply reachable_steps).
  pose proof (reachable_running _ Hd2) as Hrn.
  destruct (accepted_state _ _ _ _ _ _ _ _ _ _ _ _ _ _ _ _ _ Hok Hstep Hrun)
    as ((e & He & (Hn1 & Hn2 & Hn3 & Hn4) & _ & _) & Hxt & s & Hs & Hsi & Hres & Hst).
  destruct (submission_later _ _ _ (reachable_integrity _ Hd1) Hsteps Hs)
    as (s2 & Hs2 & (_ & _ & Hfrozen) & Huniq).
  assert (s2 = s) as -> by (apply Hfrozen; by rewrite Hst).
  destruct (evolves_elem _ _ _ _ (ev_executions _ _ (steps_spec db_evolves _ _ Hsteps)) He) as (e2 & He2 & Hid & _).
  unfold execution_identity in Hid.
  apply accept_and_open_execution_inv in Hagain
    as (s3 & i & id & d0 & d4 & bi & Hs3 & _ & _ & Hp & _ & Hcase).
  apply select_one_Some in Hs3 as [Hin3 Hid3]. split_bools.
  rewrite (Huniq s3) in * by congruence.
  destruct Hcase as [[_ ->]|[Hne _]]; [|done].
  apply persist_runtime_inv in Hp as [Hact [(row & Hrow & Hrt & -> & Hd3)|[Hnone _]]].
  - assert (row = e2) as ->
      by (eapply unique_eq; [apply (rn_one _ _ Hrn) | done..| congruence]).
    destruct (rn_active _ _ Hrn e2 Hrow) as [Hrun2 _]; [by apply Hact|].
    split; [|destruct Hd3 as [?|[? _]]; congruence].
    destruct x; simpl in *. f_equal; congruence.
  - exfalso. apply (Hnone e2 He2). congruence.
Qed.

Lemma acceptance_is_idempotent_witness :
  accept_and_open_execution demo5 claim1 "codex" "codex-app-server" "thread" "th1" "turn" "nt1"
    (Some "process") (Some "pid1") [] 7 "bind7" "item7" demo6 = Ok (running1, demo6).
Proof.
  destruct (accept_and_open_execution demo5 claim1 "codex" "codex-app-server" "thread" "th1" "turn"
    "nt1" (Some "process") (Some "pid1") [] 7 "bind7" "item7" demo6) as [[x d]|] eqn:Hagain;
    [|vm_compute in Hagain; discriminate Hagain].
  destruct (acceptance_is_idempotent demo4 demo4 claim1 "codex" "codex-app-server" "thread" "th1"
    "turn" "nt1" (Some "process") (Some "pid1") [("source", JStr "engine")] 5 "bind1" "item1"
    running1 demo5 demo6 demo5 claim1 "codex" "codex-app-server" "thread" "th1" "turn" "nt1"
    (Some "process") (Some "pid1") [] 7 "bind7" "item7" x d demo4_reachable) as [-> ->].
  - reflexivity.
  - vm_compute. reflexivity.
  - apply rtc_once, demo_step56.
  - reflexivity.
  - reflexivity.
  - exact Hagain.
  - reflexivity.
Defined.
