(* ===== verification/Completions.v ===== *)
(** * What a completion commits

    A completed execution closes its Turn for good: the Turn and its transcript
    never change again, no control stays pending, no next Turn keeps waiting. *)

From stdpp Require Import base tactics list strings relations.
From Stdlib Require Import ZArith Lia.
From S2P Require Import Prelude PyText Tables Contracts RegistryRows Schema Repository Service Acceptance.
From S2P Require Import Execution Evolution Methods Integrity System History Waiting Running.
From S2P Require Import Scenario.

Local Open Scope string_scope.
Local Open Scope Z_scope.
#[local] Hint Constants Opaque : typeclass_instances.
#[local] Hint Transparent dict time relation : typeclass_instances.

(** ** Closed transcripts *)

Definition closed (turn_id : string) (d : db) : Prop :=
  ∃ t, t ∈ task_turns d ∧ tn_turn_id t = turn_id ∧ turn_active t = false.

Definition transcript (turn_id : string) (d : db) : list item_row :=
  select (of_turn_item turn_id) (turn_items d).

Definition transcript_kept (turn_id : string) (d d' : db) : Prop :=
  db_evolves d d' ∧ (closed turn_id d → transcript turn_id d' = transcript turn_id d).

Lemma closed_stays turn_id d d' : db_evolves d d' → closed turn_id d → closed turn_id d'.
Proof.
  intros Hev (t & Ht & Hid & Ha).
  destruct (evolves_elem _ _ _ _ (ev_turns _ _ Hev) Ht) as (t' & Ht' & _ & _ & Hf).
  exists t'. by rewrite (Hf Ha) in *.
Qed.

#[local] Instance transcript_kept_preorder turn_id : PreOrder (transcript_kept turn_id).
Proof.
  split; [by intros d; split|]. intros d1 d2 d3 [He1 H1] [He2 H2].
  split; [by etrans|]. intros Hc. rewrite H2, H1; [done..|]. by eapply closed_stays.
Qed.

Lemma transcript_kept_intro {A} turn_id (m : txn A) :
  Respects db_evolves m →
  (∀ d a d', m d = Ok (a, d') → turn_items d' = turn_items d) →
  Respects (transcript_kept turn_id) m.
Proof.
  intros Hm HI d a d' Hrun. split; [by eapply Hm|]. intros _. unfold transcript.
  by rewrite (HI _ _ _ Hrun).
Qed.

Ltac frame_items :=
  apply transcript_kept_intro; [apply _|]; intros ? ? ? Hrun;
  by first [ apply insert_row_inv in Hrun as [_ ->]
           | apply update_rows_inv in Hrun as (-> & _ & _) ].

Section transcripts.
Context `{Host} (turn_id : string).
Abbreviation R0 := (transcript_kept turn_id).
Abbreviation R := (resting running_ok R0).

#[local] Instance transition_submission_tk a b c d e f g h i j k l :
  Respects R0 (transition_submission a b c d e f g h i j k l).
Proof. frame_items. Qed.
#[local] Instance insert_runtime_execution_tk a b c d e f g h i j k l m n :
  Respects R0 (insert_runtime_execution a b c d e f g h i j k l m n).
Proof. frame_items. Qed.
#[local] Instance transition_runtime_execution_tk a b c d e f g :
  Respects R0 (transition_runtime_execution a b c d e f g).
Proof. frame_items. Qed.
#[local] Instance repo_finish_turn_tk a b c d e : Respects R0 (repo_finish_turn a b c d e).
Proof. frame_items. Qed.

#[local] Instance repin_tk a b c : Respects R0 (repin_submissions a b c).
Proof. frame_items. Qed.

#[local] Instance transcript_safe : SafeStatements R0.
Proof.
  constructor; intros; try apply _; try frame_items.
  apply transcript_kept_intro; [by apply ss_update_tasks|].
  by intros ? ? ? (-> & _ & _)%update_rows_inv.
Qed.

#[local] Instance persist_runtime_tk a b c d e f g h i j :
  Respects R0 (persist_runtime a b c d e f g h i j).
Proof. method. Qed.
#[local] Instance cancel_pending_tk t c r : Respects R0 (cancel_pending t c r).
Proof. method. Qed.
#[local] Instance cancel_pending_submissions_tk t c : Respects R0 (cancel_pending_submissions t c).
Proof. method. Qed.
#[local] Instance release_next_turn_tk a b c : Respects R0 (release_next_turn a b c).
Proof. method. Qed.
#[local] Instance finish_runtime_tk a b c d e f : Respects R0 (finish_runtime a b c d e f).
Proof. method. Qed.
#[local] Instance finish_execution_tk a b c d e : Respects R0 (finish_execution a b c d e).
Proof.
  intros d0 r d' (es & t & _ & _ & _ & [(_ & _ & Hf)|(_ & d1 & d2 & p & H1 & H2 & Hf)])%finish_execution_inv.
  - by eapply finish_runtime_tk.
  - etrans; [by eapply repo_finish_turn_tk|].
    etrans; [by eapply release_next_turn_tk | by eapply finish_runtime_tk].
Qed.

(** An item of another Turn. *)
Lemma insert_turn_item_tk i d u d' :
  insert_turn_item i d = Ok (u, d') → (closed turn_id d → it_turn_id i ≠ turn_id) →
  transcript_kept turn_id d d'.
Proof.
  intros Hrun Hne. split; [by eapply insert_turn_item_evolves|]. intros Hc.
  apply insert_row_inv in Hrun as [_ ->]. unfold transcript. simpl. rewrite select_app.
  simpl. unfold select at 2, of_turn_item. simpl. rewrite eqs_ne by auto. apply app_nil_r.
Qed.

(** The Turn that is being materialized did not exist. *)
#[local] Instance materialize_turn_tk {X} (side : option (string → time → option string → txn X))
    a b c d e f g h i j k l m :
  (∀ f a b c, side = Some f → Respects R0 (f a b c)) →
  Respects R0 (materialize_turn side a b c d e f g h i j k l m).
Proof.
  intros Hside d0 r d' Hrun. unfold materialize_turn in Hrun.
  apply bind_Ok in Hrun as (? & ? & [-> ->]%gets_Ok & Hrun).
  apply bind_Ok in Hrun as (? & ? & [_ ->]%require_Ok & Hrun).
  apply bind_Ok in Hrun as (resolved & d1 & Hbind & Hrun).
  trans d1; [revert Hbind; apply respects_apply; solve_respects|].
  apply bind_Ok in Hrun as (? & ? & [-> ->]%gets_Ok & Hrun).
  apply bind_Ok in Hrun as (? & d2 & Hturn & Hrun).
  apply bind_Ok in Hrun as (? & ? & [-> ->]%gets_Ok & Hrun).
  apply bind_Ok in Hrun as (? & d3 & Hitem & Hrun).
  trans d3.
  - split.
    { etrans; [by eapply insert_turn_evolves | by eapply insert_turn_item_evolves]. }
    intros (t & Ht & Hid & Ha). apply insert_row_inv in Hturn as [Hg ->].
    apply insert_row_inv in Hitem as [_ ->]. unfold transcript. simpl. rewrite select_app.
    guard_facts Hg. rename select (index_free always tn_turn_id _ _ = true) into Hf.
    unfold index_free in Hf. simpl in Hf. rewrite negb_true_iff, row_exists_false in Hf.
    specialize (Hf t Ht). simpl in Hf. apply bool_decide_eq_false in Hf.
    unfold select at 2, of_turn_item. simpl. rewrite eqs_ne by congruence. apply app_nil_r.
  - revert Hrun. apply respects_apply. pose proof (run_side_effect_respects R0 side). solve_respects.
Qed.

#[local] Instance accept_tk snapshot claim ef ed ck cr tk tr rk rr ev c bu iu :
  Respects R0 (accept_and_open_execution snapshot claim ef ed ck cr tk tr rk rr ev c bu iu).
Proof.
  unfold accept_and_open_execution. solve_respects.
  apply (accept_submission_by_blocks R0); [intros; simplify_eq; apply _ |].
  intros. apply materialize_turn_tk. intros; simplify_eq; apply _.
Qed.

(** Items are appended to running executions only, and those have an active Turn. *)
Lemma append_item_tk x ty ac p pr ni o c i d r d' :
  genuine d x → integrity d → running_ok d →
  append_item x ty ac p pr ni o c i d = Ok (r, d') → R0 d d'.
Proof.
  intros (e & He & Hid & _ & Hturn & _) Hok HI Hrun. unfold append_item in Hrun.
  apply bind_Ok in Hrun as (? & ? & [_ ->]%begin_write_inv & Hrun).
  apply bind_Ok in Hrun as (? & ? & [-> ->]%gets_Ok & Hrun).
  apply bind_Ok in Hrun as (? & ? & [Hst ->]%require_Ok & Hrun).
  apply bind_Ok in Hrun as (? & ? & [-> ->]%gets_Ok & Hrun).
  apply bind_Ok in Hrun as (? & ? & [-> ->]%gets_Ok & Hrun).
  apply bind_Ok in Hrun as (? & d1 & Hitem & [_ ->]%ret_Ok).
  eapply insert_turn_item_tk; [exact Hitem|]. intros (t & Ht & Htid & Ha). simpl. intros Heq.
  destruct (runtime_execution_by_id _ d) as [e'|] eqn:He'; [|done]. split_bools.
  apply select_one_Some in He' as [He' Hid']. split_bools.
  assert (e' = e) as -> by (eapply unique_eq;
    [apply (executions_pk _ (ok_executions _ Hok)) | done..| congruence]).
  destruct (rn_active _ _ HI e He) as [_ (t' & Ht' & Htid' & Ha')];
    [unfold exec_active; by rewrite Hst|].
  assert (t' = t) as -> by (eapply unique_eq;
    [apply (turns_pk _ (ok_turns _ Hok)) | done..| congruence]).
  congruence.
Qed.

#[local] Instance transcript_blocks : BlockSpec R.
Proof.
  constructor; try apply _.
  - intros d d' Hc. split; [by apply bs_control_plane|]. intros _ _.
    split; [by apply bs_control_plane|]. unfold transcript. by rewrite (cp_items _ _ Hc).
  - intros. apply resting_intro; apply _.
  - intros. apply resting_intro; apply _.
  - intros snapshot claim ef ed ck cr tk tr rk rr ev c bu iu d r d' Hs Hrun.
    split; [by eapply bs_accept|]. intros _ _. by eapply accept_tk.
  - intros x ty ac p pr ni o c i d r d' Hg Hrun. split; [by eapply bs_append|].
    intros Hok HI. by eapply append_item_tk.
  - intros x s e f c d r d' Hg Hrun. split; [by eapply bs_finish|]. intros _ _.
    by eapply finish_execution_tk.
Qed.

Lemma transcript_frozen d d' :
  reachable d → closed turn_id d → rtc step d d' → transcript turn_id d' = transcript turn_id d.
Proof.
  intros Hd Hc Hs.
  destruct (steps_resting running_ok R0 d d') as [_ HT]; [..|done|by apply HT].
  - by apply reachable_integrity.
  - by apply reachable_running.
Qed.
End transcripts.

(** ** The completion itself *)

Section completion.
Context `{Host}.

(** The Turn has the terminal status that was requested. *)
Lemma finished_turn x s ev f c d r d' :
  finish_execution x s ev f c d = Ok (r, d') →
  ∃ t, t ∈ task_turns d' ∧ tn_turn_id t = xc_turn_id x ∧ tn_task_id t = xc_task_id x ∧
       tn_status t = s ∧ turn_active t = false.
Proof.
  intros (es & t & Hes & Ht & Htask & Hcase)%finish_execution_inv.
  apply select_one_Some in Ht as [Ht Hid]. split_bools.
  assert (∀ d1 y, y ∈ task_turns d1 → turn_active y = false → db_evolves d1 d' → y ∈ task_turns d')
    as Hstay.
  { intros d1 y Hy Ha Hev.
    destruct (evolves_elem _ _ _ _ (ev_turns _ _ Hev) Hy) as (y' & Hy' & _ & _ & Hf).
    by rewrite (Hf Ha) in Hy'. }
  destruct Hcase as [(Hina & Hst & Hf)|(Hact & d1 & d2 & p & Hfin & Hrel & Hf)].
  - exists t. split_and!; try done. eapply Hstay; [done..|].
    by eapply (finish_runtime_respects db_evolves).
  - exists (set_turn_finished s c c f t). split_and!; try done.
    + apply (Hstay d1).
      * apply update_rows_inv in Hfin as (-> & _ & _). simpl. apply elem_of_on_rows. exists t.
        split; [done|]. by rewrite Hid, eqs_refl, Hact.
      * unfold turn_active. simpl. by destruct s.
      * etrans; [by eapply (release_next_turn_respects db_evolves)|].
        by eapply (finish_runtime_respects db_evolves).
    + unfold turn_active. simpl. by destruct s.
Qed.

(** The execution has the matching terminal status. *)
Lemma finished_execution x s ev f c d r d' :
  integrity d → finish_execution x s ev f c d = Ok (r, d') →
  ∃ e es, e ∈ executions d' ∧ ex_runtime_execution_id e = xc_runtime_execution_id x ∧
    execution_status_of s = Some es ∧ ex_status e = es.
Proof.
  intros Hok (es & t & Hes & _ & _ & Hcase)%finish_execution_inv.
  assert (∃ d2, finish_runtime x s es ev f c d2 = Ok (tt, d')) as [d2 Hf] by naive_solver.
  apply finish_runtime_inv in Hf as (row & d1 & d3 & Hrow & Htr & (Hx & _) & _ & Hrec).
  apply (reconcile_terminal_controls_co) in Hrec as (Hx' & _ & _).
  apply select_one_Some in Hrow as [Hrow Hid]. split_bools.
  destruct Htr as [[Hst ->]|Htr].
  - exists row, es. rewrite Hx', Hx. by split_and!.
  - apply update_rows_inv in Htr as (-> & _ & _).
    exists (set_execution_status es ev c (Some c) f row), es. rewrite Hx', Hx. split_and!; try done.
    simpl. apply elem_of_on_rows. exists row. by rewrite Hid, eqs_refl, bool_decide_true.
Qed.
End completion.

(** No control request of a finished execution is pending. *)
Lemma finished_controls `{Host} d x s ev f c r d' y :
  reachable d → genuine d x → finish_execution x s ev f c d = Ok (r, d') →
  y ∈ controls d' → ct_runtime_execution_id y = xc_runtime_execution_id x → ctl_pending y = false.
Proof.
  intros Hd Hg Hrun Hy Hyx.
  assert (reachable d') as Hd' by (eapply reachable_step; [done | by eapply step_conversation, step_finish_execution]).
  destruct (finished_execution _ _ _ _ _ _ _ _ (reachable_integrity _ Hd) Hrun)
    as (e & es & He & Hid & Hes & Hst).
  apply not_true_iff_false. intros Hp.
  destruct (rn_controls _ _ (reachable_running _ Hd') y Hy Hp) as (e' & He' & Hid' & Ha).
  assert (e' = e) as -> by (eapply unique_eq;
    [apply (executions_pk _ (ok_executions _ (reachable_integrity _ Hd'))) | done..| congruence]).
  apply terminal_target in Hes. unfold exec_active in Ha. congruence.
Qed.

(** C26: a completion that commits leaves its Turn and its execution with the requested
    terminal status, no control request of that execution pending, and no next Turn
    waiting for the Turn. *)
Theorem completion_settles_the_turn `{Host} d x s ev f c r d' :
  reachable d → genuine d x → finish_execution x s ev f c d = Ok (r, d') →
  (∃ t, t ∈ task_turns d' ∧ tn_turn_id t = xc_turn_id x ∧ tn_status t = s ∧ s ≠ Turn_IN_PROGRESS) ∧
  (∃ e, e ∈ executions d' ∧ ex_runtime_execution_id e = xc_runtime_execution_id x ∧
        execution_status_of s = Some (ex_status e)) ∧
  (∀ y, y ∈ controls d' → ct_runtime_execution_id y = xc_runtime_execution_id x →
     ctl_pending y = false) ∧
  (∀ n, n ∈ next_turns d' → nt_blocking_turn_id n = xc_turn_id x → nt_status n ≠ Next_WAITING).
Proof.
  intros Hd Hg Hrun.
  assert (reachable d') as Hd' by (eapply reachable_step; [done | by eapply step_conversation, step_finish_execution]).
  pose proof (reachable_integrity _ Hd') as Hok'.
  destruct (finished_turn _ _ _ _ _ _ _ _ Hrun) as (t & Ht & Htid & _ & Hts & Hta).
  destruct (finished_execution _ _ _ _ _ _ _ _ (reachable_integrity _ Hd) Hrun)
    as (e & es & He & Hid & Hes & Hst).
  split_and!.
  - exists t. split_and!; try done. intros ->. unfold turn_active in Hta. by rewrite Hts in Hta.
  - exists e. split_and!; try done. congruence.
  - intros y Hy Hyx. exact (finished_controls _ _ _ _ _ _ _ _ _ Hd Hg Hrun Hy Hyx).
  - intros n Hn Hb Hw. destruct (reachable_waiting _ Hd' n Hn Hw) as [(t' & Ht' & Hin & Ha) _].
    unfold turn_in in Hin. split_bools. assert (t' = t) as -> by (eapply unique_eq;
      [apply (turns_pk _ (ok_turns _ Hok')) | done..| congruence]).
    congruence.
Qed.

Lemma completion_settles_the_turn_witness :
  (∃ t, t ∈ task_turns demo9 ∧ tn_turn_id t = "turn1" ∧ tn_status t = Turn_COMPLETED) ∧
  (∀ n, n ∈ next_turns demo9 → nt_blocking_turn_id n = "turn1" → nt_status n ≠ Next_WAITING).
Proof.
  destruct (completion_settles_the_turn demo8 running1 Turn_COMPLETED [("source", JStr "engine")]
    None 9 (finish_response "task" "turn1" Turn_COMPLETED (Some "sub2"), Some "sub2") demo9
    demo8_reachable demo8_genuine) as ((t & Ht & Hid & Hst & _) & _ & _ & Hn).
  - vm_compute. reflexivity.
  - split; [exists t; split_and!; done | exact Hn].
Defined.

(** C27: the transcript of a finished Turn is final: whatever happens later, the Turn row
    and the list of its items stay exactly as they were. *)
Theorem finished_transcript_is_final `{Host} d d' t :
  reachable d → t ∈ task_turns d → tn_status t ≠ Turn_IN_PROGRESS → rtc step d d' →
  t ∈ task_turns d' ∧ list_turn_items (tn_turn_id t) d' = list_turn_items (tn_turn_id t) d.
Proof.
  intros Hd Ht Hst Hs. assert (turn_active t = false) as Ha by (by apply bool_decide_eq_false).
  split.
  - pose proof (steps_spec db_evolves _ _ Hs) as Hev.
    destruct (evolves_elem _ _ _ _ (ev_turns _ _ Hev) Ht) as (t' & Ht' & _ & _ & Hf).
    by rewrite (Hf Ha) in Ht'.
  - assert (transcript (tn_turn_id t) d' = transcript (tn_turn_id t) d) as HT
      by (apply transcript_frozen; [done | by exists t | done]).
    unfold transcript in HT. unfold list_turn_items. unfold of_turn_item in HT. by rewrite HT.
Qed.

Lemma finished_transcript_is_final_witness :
  ∃ t, t ∈ task_turns demo9 ∧ t ∈ task_turns demo12 ∧
    list_turn_items "turn1" demo12 = list_turn_items "turn1" demo9 ∧
    it_item_id <$> list_turn_items "turn1" demo9 = ["item1"; "item2"].
Proof.
  destruct (task_turns demo9) as [|t l] eqn:Ht; [discriminate Ht|]. exists t.
  assert (t ∈ task_turns demo9) as Hin by (rewrite Ht; constructor).
  injection Ht as Ht _.
  destruct (finished_transcript_is_final demo9 demo12 t demo9_reachable Hin) as [H1 H2].
  - subst t. discriminate.
  - apply demo_steps9_12.
  - split_and!; [constructor | exact H1 | subst t; exact H2 | reflexivity].
Defined.
