(* ===== verification/Controls.v ===== *)
(** * Control requests

    An interrupt reaches the adapter at most once, and when its execution ends
    every control request that is still pending gets the outcome that tells
    whether the adapter may have seen it. *)

From stdpp Require Import base tactics list strings relations.
From Stdlib Require Import ZArith Lia.
From S2P Require Import Prelude PyText Tables Contracts RegistryRows Schema Repository Service Acceptance.
From S2P Require Import Execution Evolution Methods Integrity System Running Scenario.

Local Open Scope string_scope.
Local Open Scope Z_scope.
#[local] Hint Constants Opaque : typeclass_instances.
#[local] Hint Transparent dict time relation : typeclass_instances.

(** ** Claims of interrupts *)

Definition claimable (c : control_row) : bool :=
  bool_decide (ct_status c = Ctl_REQUESTED) && empty_dict (ct_evidence c).

(** The control request exists and can not be claimed any more. *)
Definition spent (control_request_id : string) (d : db) : Prop :=
  ∃ c, c ∈ controls d ∧ ct_control_request_id c = control_request_id ∧ claimable c = false.

Section spent.
Context (i : string).
Abbreviation R := (keeps (spent i)).

Lemma spent_same d d' : controls d' = controls d → spent i d → spent i d'.
Proof. intros Hc. unfold spent. by rewrite Hc. Qed.

Lemma update_controls_sp p guard f :
  (∀ d c, p c = true → guard d c (f c) = None → claimable c = false →
     ct_control_request_id (f c) = ct_control_request_id c ∧ claimable (f c) = false) →
  Respects R (update_rows controls with_controls p guard f).
Proof.
  intros Hf d n d' (-> & _ & Hg)%update_rows_inv (c & Hc & Hid & Hcl).
  exists (if p c then f c else c). split; [apply elem_of_on_rows; eauto|].
  destruct (p c) eqn:Hp; [|done]. destruct (Hf _ _ Hp (Hg _ Hc Hp) Hcl) as [-> ?]. done.
Qed.

#[local] Instance claim_interrupt_request_sp a b c : Respects R (claim_interrupt_request a b c).
Proof.
  apply update_controls_sp. intros _ x Hp _ Hc. unfold claimable in Hc. split_bools.
  rewrite bool_decide_true in Hc by done. simpl in Hc. congruence.
Qed.
#[local] Instance transition_control_request_sp a b c d e f g h :
  Respects R (transition_control_request a b c d e f g h).
Proof.
  apply update_controls_sp. intros _ x _ Hg _. split; [done|]. guard_facts Hg. simpl in *.
  unfold claimable. simpl. by destruct (ct_kind x), (ct_status x), c.
Qed.
#[local] Instance complete_accepted_interrupts_sp a b c :
  Respects R (complete_accepted_interrupts a b c).
Proof. by apply update_controls_sp. Qed.
#[local] Instance insert_control_request_sp a b c d e f g h j k l m :
  Respects R (insert_control_request a b c d e f g h j k l m).
Proof.
  intros d0 u d' [_ ->]%insert_row_inv (x & Hx & ?). exists x. simpl. split; [|done].
  apply elem_of_app. by left.
Qed.

#[local] Instance spent_statements : StatementSpec R.
Proof.
  constructor; intros; try apply _;
    intros d0 u d' Hrun; refine (spent_same d0 d' _);
    by first [ apply insert_row_inv in Hrun as [_ ->]
             | apply update_rows_inv in Hrun as (-> & _ & _) ].
Qed.

Lemma spent_stays `{Host} d d' : rtc step d d' → spent i d → spent i d'.
Proof.
  assert (BlockSpec R) as Hb.
  { apply (statement_blocks R).
    - intros d0 d1 Hc. exact (spent_same d0 d1 (cp_controls _ _ Hc)).
    - intros a b c d0 u d1 Hrun. refine (spent_same d0 d1 _).
      by apply update_rows_inv in Hrun as (-> & _ & _). }
  intros Hs. by apply (steps_spec R _ _ Hs).
Qed.
End spent.

(** A statement that selects at most one row and hits none changes nothing. *)
Lemma update_controls_miss p guard f d n d' :
  update_rows controls with_controls p guard f d = Ok (n, d') →
  (length (select p (controls d)) ≤ 1)%nat → n ≠ 1 → d' = d.
Proof.
  intros (-> & -> & _)%update_rows_inv Hle Hne.
  assert (select p (controls d) = []) as Hnil by (apply nil_length_inv; lia).
  rewrite on_rows_none by (by apply select_nil_iff). by destruct d.
Qed.

Lemma claim_interrupt_inv `{Host} i k c d b d' :
  integrity d → claim_interrupt i k c d = Ok (b, d') →
  (b = true ∧ spent i d' ∧ ∃ x, x ∈ controls d ∧ ct_control_request_id x = i ∧ claimable x = true) ∨
  (b = false ∧ d' = d).
Proof.
  unfold claim_interrupt. intros Hok (? & ? & [_ ->]%require_Ok & Hrun)%bind_Ok.
  apply bind_Ok in Hrun as (? & ? & [_ ->]%begin_write_inv & Hrun).
  apply bind_Ok in Hrun as (? & ? & [-> ->]%gets_Ok & Hrun).
  apply bind_Ok in Hrun as (row & ? & [_ ->]%require_some_Ok & Hrun).
  destruct (_ || _); [right; by apply ret_Ok in Hrun as [-> ->]|].
  apply bind_Ok in Hrun as (n & d1 & Hn & [-> ->]%ret_Ok).
  destruct (Z.eqb_spec n 1) as [->|Hne]; [left|right].
  - split; [done|]. pose proof (update_rows_hit _ _ _ _ _ _ _ Hn) as (y & Hy & Hp).
    apply update_rows_inv in Hn as (-> & _ & _). split.
    + exists (set_control_claim (claim_evidence k c) c y). simpl. split_and!.
      * apply elem_of_on_rows. exists y. by rewrite Hp.
      * by split_bools.
      * unfold claimable. simpl. apply andb_false_r.
    + exists y. unfold claimable. split_bools. by rewrite bool_decide_true.
  - split; [done|]. eapply update_controls_miss; [exact Hn| |done].
    rewrite <-(select_always (select _ _)).
    eapply unique_count; [apply (controls_pk _ (ok_controls _ Hok))|].
    intros r Hp. by split_bools.
Qed.

(** An interrupt is handed to the adapter at most once: after one successful claim
    every later claim of the same control request is refused and changes nothing,
    whatever happened in between. *)
Theorem interrupt_is_claimed_once `{Host} d i k c d1 d2 k' c' b d3 :
  reachable d → claim_interrupt i k c d = Ok (true, d1) → rtc step d1 d2 →
  claim_interrupt i k' c' d2 = Ok (b, d3) → b = false ∧ d3 = d2.
Proof.
  intros Hd Hclaim Hs Hagain.
  assert (reachable d2) as Hd2.
  { eapply reachable_steps, Hs. eapply reachable_step; [done | by eapply step_conversation, step_claim_interrupt]. }
  apply claim_interrupt_inv in Hclaim as [(_ & Hsp & _)|[? _]]; [|done|by apply reachable_integrity].
  apply (spent_stays i _ _ Hs) in Hsp as (x & Hx & Hid & Hcl).
  pose proof (reachable_integrity _ Hd2) as Hok.
  apply claim_interrupt_inv in Hagain as [(_ & _ & y & Hy & Hyid & Hycl)|]; [|done|done].
  assert (y = x) as -> by (eapply unique_eq;
    [apply (controls_pk _ (ok_controls _ Hok)) | done..| congruence]). congruence.
Qed.

Definition demo_claimed : db := Eval vm_compute in after (claim_interrupt "ctl1" "w1" 9) demo8.

Lemma interrupt_is_claimed_once_witness :
  claim_interrupt "ctl1" "w2" 10 demo_claimed = Ok (false, demo_claimed).
Proof.
  destruct (claim_interrupt "ctl1" "w2" 10 demo_claimed) as [[b d]|] eqn:Hagain;
    [|vm_compute in Hagain; discriminate Hagain].
  destruct (interrupt_is_claimed_once demo8 "ctl1" "w1" 9 demo_claimed demo_claimed "w2" 10 b d
    demo8_reachable) as [-> ->]; [vm_compute; reflexivity | reflexivity | exact Hagain | reflexivity].
Defined.

(** ** Reconciliation at the end of an execution *)

Section reconcile.
Context `{Host}.

(** A control request that is requested or delivering is not touched before the loop. *)
Definition pending_kept (d d' : db) : Prop :=
  ∀ c, c ∈ controls d → ctl_pending c = true → c ∈ controls d'.
#[local] Instance pending_kept_preorder : PreOrder pending_kept.
Proof. split; unfold pending_kept; red; auto. Qed.
#[local] Instance complete_accepted_interrupts_pk a b c :
  Respects pending_kept (complete_accepted_interrupts a b c).
Proof.
  intros d n d' (-> & _ & _)%update_rows_inv x Hx Hp. apply on_rows_kept; [done|].
  unfold ctl_pending in Hp. destruct (ct_status x); try done; apply andb_false_r.
Qed.
#[local] Instance transition_runtime_execution_pk a b c d e f g :
  Respects pending_kept (transition_runtime_execution a b c d e f g).
Proof. by intros d0 n d' (-> & _ & _)%update_rows_inv x. Qed.

(** [finish_runtime], up to its last block. *)
Lemma finish_runtime_reconciles x s es ev f c d d' :
  finish_runtime x s es ev f c d = Ok (tt, d') →
  ∃ d1, pending_kept d d1 ∧
    reconcile_terminal_controls x (turn_status_value s) c ev d1 = Ok (tt, d').
Proof.
  unfold finish_runtime. intros (? & ? & [-> ->]%gets_Ok & Hrun)%bind_Ok.
  apply bind_Ok in Hrun as (row & ? & [_ ->]%require_some_Ok & Hrun).
  apply bind_Ok in Hrun as (? & d1 & Ht & Hrun).
  apply bind_Ok in Hrun as (? & d2 & Hi & Hrun). exists d2. split; [|done]. trans d1.
  - revert Ht. apply respects_apply. solve_respects.
  - revert Hi. apply respects_apply. solve_respects.
Qed.

Lemma reconciled x ts fa te d d' c :
  reconcile_terminal_controls x ts fa te d = Ok (tt, d') →
  c ∈ controls d → ct_runtime_execution_id c = xc_runtime_execution_id x → ctl_pending c = true →
  ∃ c', c' ∈ controls d' ∧ ct_control_request_id c' = ct_control_request_id c ∧
    ct_status c' = if control_delivery_unknown c then Ctl_DELIVERY_UNKNOWN else Ctl_REJECTED.
Proof.
  unfold reconcile_terminal_controls. intros Hrun Hc Hx Hp.
  apply bind_Ok in Hrun as (? & ? & [-> ->]%gets_Ok & Hrun).
  assert (c ∈ pending_controls (xc_runtime_execution_id x) d) as Hin.
  { unfold pending_controls. apply elem_of_order_by, elem_of_select. by rewrite Hx, eqs_refl. }
  destruct (for_each_elem db_evolves _ _ _ _ _ _ _ Hrun Hin) as (d1 & d2 & _ & Hit & Hev).
  destruct (reconcile_control_settles _ _ _ _ _ _ Hit) as (m & Hm & Hmid & Hms & Hst).
  exists m. split; [by eapply settled_stays | done].
Qed.
End reconcile.

(** When an execution completes, each control request that was pending on it is
    closed with the honest outcome: delivery-unknown, never to be replayed, exactly when
    the adapter may have seen it (it was delivering, or an interrupt whose adapter call
    was claimed), rejected otherwise. *)
Theorem completion_reconciles_controls `{Host} d x s ev f c r d' y :
  reachable d → finish_execution x s ev f c d = Ok (r, d') →
  y ∈ controls d → ct_runtime_execution_id y = xc_runtime_execution_id x → ctl_pending y = true →
  ∃ y', y' ∈ controls d' ∧ ct_control_request_id y' = ct_control_request_id y ∧
    ct_status y' = if control_delivery_unknown y then Ctl_DELIVERY_UNKNOWN else Ctl_REJECTED.
Proof.
  intros Hd (es & t & _ & _ & _ & Hcase)%finish_execution_inv Hy Hx Hp.
  assert (∃ d2, y ∈ controls d2 ∧ finish_runtime x s es ev f c d2 = Ok (tt, d')) as (d2 & Hy2 & Hf).
  { destruct Hcase as [(_ & _ & Hf)|(_ & d1 & d2 & p & H1 & H2 & Hf)]; [by exists d|].
    exists d2. split; [|done]. apply release_next_turn_cs in H2 as (_ & -> & _).
    by apply update_rows_inv in H1 as (-> & _ & _). }
  apply finish_runtime_reconciles in Hf as (d3 & Hk & Hrec). by eapply reconciled; [done|apply Hk|..].
Qed.

Lemma completion_reconciles_controls_witness :
  ∃ y, y ∈ controls demo9 ∧ ct_control_request_id y = "ctl1" ∧ ct_status y = Ctl_REJECTED.
Proof.
  destruct (controls demo8) as [|y l] eqn:Hc; [discriminate Hc|].
  assert (y ∈ controls demo8) as Hin by (rewrite Hc; constructor).
  injection Hc as Hy _.
  destruct (completion_reconciles_controls demo8 running1 Turn_COMPLETED
    [("source", JStr "engine")] None 9
    (finish_response "task" "turn1" Turn_COMPLETED (Some "sub2"), Some "sub2") demo9 y
    demo8_reachable) as (y' & Hy' & Hid & Hst).
  - vm_compute. reflexivity.
  - exact Hin.
  - subst y. reflexivity.
  - subst y. reflexivity.
  - exists y'. subst y. split_and!; [exact Hy' | exact Hid | exact Hst].
Defined.
