(* ===== verification/Identity.v ===== *)
(** * Runtime identities

    The identifier of an execution is a function of the submission that opened
    it, so a worker can compute it before the engine is launched: every
    execution row of a reachable database carries the identifier that
    [RuntimeExecutionIdentity.for_submission] derives from its submission. *)

From stdpp Require Import base tactics list strings relations.
From Stdlib Require Import ZArith Lia.
From S2P Require Import Prelude PyText Tables Contracts RegistryRows Schema Repository Service Acceptance.
From S2P Require Import Execution Evolution Methods Integrity System Running Origin Scenario.
From S2P Require Import Acceptances.

Local Open Scope string_scope.
Local Open Scope Z_scope.
#[local] Hint Constants Opaque : typeclass_instances.
#[local] Hint Transparent dict time relation : typeclass_instances.

Section identity.
Context `{Host}.

(** The execution was opened for the submission, under its derived identifier. *)
Definition opened_for (e : execution_row) (s : submission_row) : Prop :=
  sb_reserved_turn_id s = ex_turn_id e ∧
  ex_runtime_execution_id e =
    uuid5_hex ("openscience-runtime-execution:" ++ sb_submission_id s).

Definition named (d : db) : Prop :=
  ∀ e, e ∈ executions d → ∃ s, s ∈ submissions d ∧ opened_for e s.

Lemma opened_for_evolves e e' s s' :
  execution_evolves e e' → submission_evolves s s' → opened_for e s → opened_for e' s'.
Proof.
  intros [He _] [Hs _]. unfold execution_identity in He. unfold submission_identity in Hs.
  unfold opened_for. intros [??]. split; congruence.
Qed.

(** Without an insertion of executions the names stay. *)
Definition names_kept (d d' : db) : Prop :=
  db_evolves d d' ∧ length (executions d') = length (executions d).
#[local] Instance names_kept_preorder : PreOrder names_kept.
Proof.
  split; [by intros d; split|]. intros ? ? ? [??] [??]. split; [by etrans | congruence].
Qed.

Lemma named_kept d d' : names_kept d d' → named d → named d'.
Proof.
  intros [Hev Hlen] Hn e' [i Hi]%list_elem_of_lookup.
  pose proof (evolves_same_length _ _ _ (ev_executions _ _ Hev) Hlen) as H2.
  destruct (Forall2_lookup_r _ _ _ _ _ H2 Hi) as (e & He & Hee).
  destruct (Hn e) as (s & Hs & Hes); [by eapply list_elem_of_lookup_2|].
  destruct (evolves_elem _ _ _ _ (ev_submissions _ _ Hev) Hs) as (s' & Hs' & Hss).
  exists s'. split; [done | by eapply opened_for_evolves].
Qed.

Ltac frame_names :=
  let Hrun := fresh in
  intros ? ? ? Hrun; split; [revert Hrun; apply respects_apply, _|];
  first [ apply insert_row_inv in Hrun as [_ ->]; reflexivity
        | apply update_rows_inv in Hrun as (-> & _ & _); simpl; reflexivity || apply length_fmap ].

#[local] Instance transition_submission_nk a b c d e f g h i j k l :
  Respects names_kept (transition_submission a b c d e f g h i j k l).
Proof. frame_names. Qed.
#[local] Instance transition_runtime_execution_nk a b c d e f g :
  Respects names_kept (transition_runtime_execution a b c d e f g).
Proof. frame_names. Qed.
#[local] Instance repo_finish_turn_nk a b c d e : Respects names_kept (repo_finish_turn a b c d e).
Proof. frame_names. Qed.
#[local] Instance insert_turn_item_nk i : Respects names_kept (insert_turn_item i).
Proof. frame_names. Qed.
#[local] Instance repin_nk a b c : Respects names_kept (repin_submissions a b c).
Proof. frame_names. Qed.
#[local] Instance names_safe : SafeStatements names_kept.
Proof.
  constructor; intros; try apply _; try frame_names.
  intros d n d' Hrun. split; [by eapply update_tasks_evolves|].
  by apply update_rows_inv in Hrun as (-> & _ & _).
Qed.

#[local] Instance cancel_pending_nk t c r : Respects names_kept (cancel_pending t c r).
Proof. method. Qed.
#[local] Instance cancel_pending_submissions_nk t c :
  Respects names_kept (cancel_pending_submissions t c).
Proof. method. Qed.
#[local] Instance release_next_turn_nk a b c : Respects names_kept (release_next_turn a b c).
Proof. method. Qed.
#[local] Instance finish_runtime_nk a b c d e f : Respects names_kept (finish_runtime a b c d e f).
Proof. method. Qed.
#[local] Instance append_item_nk a b c d e f g h i : Respects names_kept (append_item a b c d e f g h i).
Proof. method. Qed.
Lemma finish_execution_nk a b c d e : Respects names_kept (finish_execution a b c d e).
Proof.
  intros d0 r d' (es & t & _ & _ & _ & [(_ & _ & Hf)|(_ & d1 & d2 & p & H1 & H2 & Hf)])%finish_execution_inv.
  - by eapply finish_runtime_nk.
  - etrans; [by eapply repo_finish_turn_nk|].
    etrans; [by eapply release_next_turn_nk | by eapply finish_runtime_nk].
Qed.

(** ** The identity an acceptance uses *)

(** The validated inputs: the derived identity, and rows of the reserved Turn only. *)
Lemma validated_inv claim d st det rows d' :
  validated_runtime_identity_inputs claim d = Ok ((st, det, rows), d') →
  ∃ s, s ∈ submissions d ∧ sb_submission_id s = sc_submission_id claim ∧ sb_status s = st ∧
    d' = d ∧
    det = mkIdentity (sc_submission_id claim)
            (uuid5_hex ("openscience-runtime-execution:" ++ sc_submission_id claim)) ∧
    ∀ e, e ∈ rows → e ∈ executions d ∧ ex_turn_id e = sb_reserved_turn_id s.
Proof.
  unfold validated_runtime_identity_inputs. intros (? & ? & [-> ->]%gets_Ok & Hv)%bind_Ok.
  apply bind_Ok in Hv as (s & ? & [Hs ->]%require_some_Ok & Hv).
  apply bind_Ok in Hv as (? & ? & [_ ->]%require_Ok & Hv).
  apply bind_Ok in Hv as (? & ? & [_ ->]%require_Ok & Hv).
  apply bind_Ok in Hv as (? & ? & Hdet & Hv). unfold identity_for_submission in Hdet.
  apply bind_Ok in Hdet as (? & ? & [_ ->]%require_Ok & [-> ->]%ret_Ok).
  apply bind_Ok in Hv as (? & ? & [-> ->]%gets_Ok & Hv).
  apply bind_Ok in Hv as (? & ? & [-> ->]%gets_Ok & Hv).
  apply bind_Ok in Hv as ([] & ? & Hloop & [[= -> -> ->] ->]%ret_Ok).
  apply select_one_Some in Hs as [Hin Hid]. split_bools. exists s.
  pose proof Hloop as Hread. reads_only Hread. split_and!; try done. intros e He.
  destruct (for_each_elem eq _ _ _ _ _ _ _ Hloop He) as (d1 & d2 & _ & [Hb _]%require_Ok & _).
  unfold execution_belongs in Hb. split_bools. split; [|done].
  assert (∀ y, y ∈ runtime_executions_for_turn (sb_reserved_turn_id s) d → y ∈ executions d) as Hrows.
  { unfold runtime_executions_for_turn. by intros y [Hy _]%elem_of_order_by%elem_of_select. }
  destruct (runtime_execution_by_id _ d) as [p|] eqn:Hp; [|auto].
  destruct (forallb _ _); [|auto]. apply elem_of_app in He as [He|He]; [auto|].
  apply list_elem_of_singleton in He as ->. by apply select_one_Some in Hp as [Hp _].
Qed.

(** Either the derived identifier, or the Turn already has an execution. *)
Lemma acceptance_identity claim d identity d' :
  runtime_identity_for_acceptance claim d = Ok (identity, d') →
  ∃ s, s ∈ submissions d ∧ sb_submission_id s = sc_submission_id claim ∧
    (ri_runtime_execution_id identity =
       uuid5_hex ("openscience-runtime-execution:" ++ sc_submission_id claim) ∨
     ∃ e, e ∈ executions d ∧ ex_turn_id e = sb_reserved_turn_id s).
Proof.
  unfold runtime_identity_for_acceptance.
  intros ([[st det] rows] & d1 & (s & Hs & Hid & _ & -> & -> & Hrows)%validated_inv & Hrun)%bind_Ok.
  exists s. split_and!; [done..|].
  apply bind_Ok in Hrun as (? & ? & [_ ->]%require_Ok & Hrun). unfold partition_runtime_rows in Hrun.
  apply bind_Ok in Hrun as (? & ? & [_ ->]%require_Ok & Hrun).
  apply bind_Ok in Hrun as (? & ? & [_ ->]%require_Ok & Hrun).
  destruct (List.filter exec_active rows) as [|e rest] eqn:Ha.
  - left. by apply ret_Ok in Hrun as [-> _].
  - right. exists e. apply Hrows. assert (e ∈ select exec_active rows) as [He _]%elem_of_select
      by (unfold select; rewrite Ha; constructor). done.
Qed.

Lemma accept_named snapshot claim ef ed ck cr tk tr rk rr ev c bu iu d x d' :
  db_evolves snapshot d → integrity d → named d →
  accept_and_open_execution snapshot claim ef ed ck cr tk tr rk rr ev c bu iu d = Ok (x, d') →
  named d'.
Proof.
  intros Hsnap Hok Hn Hrun.
  pose proof (respects (R:=db_evolves) _ _ _ Hrun) as Hev.
  apply accept_and_open_execution_inv in Hrun
    as (s & i & identity & d0 & d1 & bi & Hs & _ & Hident & Hp & Hx & _).
  apply select_one_Some in Hs as [Hs Hsid]. split_bools.
  apply persist_runtime_inv in Hp as [_ [(row & _ & _ & _ & Hd)|(Hnone & seq & gen & d2 & Hins & Hto & _)]].
  - eapply named_kept; [split; [exact Hev|]|done]. rewrite <-Hx.
    destruct Hd as [-> |[_ (-> & _ & _)%update_rows_inv]]; [done | apply length_fmap].
  - (* The new execution carries the derived identifier. *)
    destruct (acceptance_identity _ _ _ _ Hident) as (s0 & Hs0 & Hid0 & Hcase).
    destruct (evolves_elem _ _ _ _ (ev_submissions _ _ Hsnap) Hs0) as (s1 & Hs1 & Hss & _).
    unfold submission_identity in Hss.
    assert (s1 = s) as -> by (eapply unique_eq;
      [apply (submissions_pk _ (ok_submissions _ Hok)) | done..| congruence]).
    destruct Hcase as [Hident'|(e0 & He0 & Ht0)].
    2: { destruct (evolves_elem _ _ _ _ (ev_executions _ _ Hsnap) He0) as (e1 & He1 & Hee & _).
         unfold execution_identity in Hee. exfalso. apply (Hnone e1); [by rewrite Hx | congruence]. }
    assert (∀ e y z, z ∈ submissions d → ex_turn_id e = ex_turn_id y →
      ex_runtime_execution_id e = ex_runtime_execution_id y → opened_for y z →
      ∃ z', z' ∈ submissions d' ∧ opened_for e z') as Hkeep.
    { intros e y z Hz Ht Hi [Hr Hu].
      destruct (evolves_elem _ _ _ _ (ev_submissions _ _ Hev) Hz) as (z' & Hz' & He & _).
      unfold submission_identity in He. exists z'. split; [done|]. split; congruence. }
    apply update_rows_inv in Hto as (Hd' & _ & _). apply insert_row_inv in Hins as [_ ->].
    intros e He. rewrite Hd' in He. simpl in He.
    apply elem_of_on_rows in He as (y & [Hy| ->%list_elem_of_singleton]%elem_of_app & ->).
    + rewrite Hx in Hy. destruct (Hn y Hy) as (z & Hz & Hyz).
      eapply (Hkeep _ y z Hz); [by destruct (_ && _)..|done].
    + eapply (Hkeep _ _ s Hs); [by destruct (_ && _)..|].
      split; simpl; congruence.
Qed.

#[local] Instance named_safe : SafeStatements (under named).
Proof.
  constructor; intros; try apply _;
    (apply under_intro; [first [apply _ | by apply ss_update_tasks]|];
     intros d1 r d2 Hrun _; apply named_kept; revert Hrun; apply respects_apply;
     first [apply _ | by apply sf_update_tasks]).
Qed.

#[export] Instance named_blocks : BlockSpec (under named).
Proof.
  constructor; try apply _.
  - intros d d' Hc. split; [by apply bs_control_plane|]. intros _ Hn e.
    rewrite (cp_executions _ _ Hc), (cp_submissions _ _ Hc). apply Hn.
  - intros. apply under_intro; [apply _|]. intros d1 r d2 Hrun _. apply named_kept.
    by eapply repin_nk.
  - intros t c. apply under_intro; [apply _|]. intros d r d' Hrun _. apply named_kept.
    by eapply cancel_pending_submissions_nk.
  - intros snapshot claim ef ed ck cr tk tr rk rr ev c bu iu d r d' Hs Hrun.
    split; [by eapply bs_accept|]. intros Hok Hn. by eapply accept_named.
  - intros x ty ac p pr ni o c i d r d' Hg Hrun. split; [by eapply bs_append|]. intros _.
    apply named_kept. by eapply append_item_nk.
  - intros x s e f c d r d' Hg Hrun. split; [by eapply bs_finish|]. intros _.
    apply named_kept. by eapply finish_execution_nk.
Qed.
End identity.

Lemma reachable_named `{Host} d : reachable d → named d.
Proof.
  apply reachable_under; [apply _|]. intros d0 [] e He. rewrite init_executions in He. set_solver.
Qed.

(** The identifier under which a worker launches an engine is the identifier under
    which the execution is recorded: in every reachable database the execution of a Turn
    carries the identifier derived from the submission that reserved the Turn, and the
    launch identity of any claim for that submission, when one is granted, is that
    identifier. *)
Theorem execution_carries_launch_identity `{Host} d e s claim identity d' :
  reachable d → e ∈ executions d → s ∈ submissions d →
  sb_reserved_turn_id s = ex_turn_id e → sc_submission_id claim = sb_submission_id s →
  runtime_identity_for_launch_context claim d = Ok (identity, d') →
  ex_runtime_execution_id e =
    uuid5_hex ("openscience-runtime-execution:" ++ sb_submission_id s) ∧
  ri_runtime_execution_id identity = ex_runtime_execution_id e.
Proof.
  intros Hd He Hs Hres Hsc Hrun. pose proof (reachable_integrity _ Hd) as Hok.
  destruct (reachable_named _ Hd e He) as (s0 & Hs0 & Hr0 & Hid0).
  assert (s0 = s) as -> by (eapply unique_eq;
    [apply (submissions_reserved _ (ok_submissions _ Hok)) | done..| congruence]).
  split; [done|]. rewrite Hid0. unfold runtime_identity_for_launch_context in Hrun.
  apply bind_Ok in Hrun as ([[st det] rows] & d1 & (y & Hy & Hyid & _ & -> & -> & Hrows)%validated_inv & Hrun).
  unfold partition_runtime_rows in Hrun.
  apply bind_Ok in Hrun as (? & ? & [_ ->]%require_Ok & Hrun).
  apply bind_Ok in Hrun as (? & ? & [_ ->]%require_Ok & Hrun).
  assert (y = s) as -> by (eapply unique_eq;
    [apply (submissions_pk _ (ok_submissions _ Hok)) | done..| congruence]).
  destruct (List.filter exec_active rows) as [|a rest] eqn:Ha.
  - destruct st; apply ret_Ok in Hrun || apply raise_Ok in Hrun; try done;
      destruct Hrun as [-> _]; simpl; congruence.
  - assert (a ∈ select exec_active rows) as [Hin _]%elem_of_select
      by (unfold select; rewrite Ha; constructor).
    apply Hrows in Hin as [Hin Hat].
    assert (a = e) as -> by (eapply unique_eq;
      [apply (rn_one _ _ (reachable_running _ Hd)) | done..| congruence]).
    destruct st; apply ret_Ok in Hrun || apply raise_Ok in Hrun; try done;
      destruct Hrun as [-> _]; simpl; congruence.
Qed.

Lemma execution_carries_launch_identity_witness :
  runtime_identity_for_launch_context claim1 demo5 = Ok (mkIdentity "sub1" execution1, demo5) ∧
  ∃ e, e ∈ executions demo5 ∧ ex_runtime_execution_id e = execution1.
Proof.
  split; [vm_compute; reflexivity|].
  destruct (executions demo5) as [|e l] eqn:He; [discriminate He|].
  destruct (submissions demo5) as [|s ls] eqn:Hs; [discriminate Hs|].
  exists e. split; [constructor|].
  assert (e ∈ executions demo5) as Hin by (rewrite He; constructor).
  assert (s ∈ submissions demo5) as Hins by (rewrite Hs; constructor).
  injection He as He _. injection Hs as Hs _.
  destruct (execution_carries_launch_identity demo5 e s claim1 (mkIdentity "sub1" execution1) demo5
    demo5_reachable Hin Hins) as [Hd _].
  - subst e s. reflexivity.
  - subst s. reflexivity.
  - vm_compute. reflexivity.
  - rewrite Hd. subst s. reflexivity.
Defined.
