(* ===== verification/Log.v ===== *)
(** * The conversation as a log

    Abstract specification of a Task's conversation: a log of Turns, each with
    its status; a Turn is opened at the end of the log when every earlier one is
    closed, and the open Turn is closed in place.  The control plane, with its
    thirteen tables, refines it: seen through [list_turns], every step is a
    sequence of log steps (most often none). *)

From stdpp Require Import base tactics list strings relations.
From Stdlib Require Import ZArith Lia.
From S2P Require Import Prelude PyText Tables Contracts RegistryRows Schema Repository Service Acceptance.
From S2P Require Import Execution Evolution Methods Integrity System History Scenario.

Local Open Scope string_scope.
Local Open Scope list_scope.
#[local] Hint Constants Opaque : typeclass_instances.
#[local] Hint Transparent dict time relation : typeclass_instances.

(** ** The abstract log *)

Definition entry : Type := string * TurnStatus.
Definition entry_closed (e : entry) : Prop := e.2 ≠ Turn_IN_PROGRESS.

Inductive log_step : list entry → list entry → Prop :=
| log_open l turn_id :
    Forall entry_closed l → turn_id ∉ l.*1 →
    log_step l (l ++ [(turn_id, Turn_IN_PROGRESS)])
| log_close l turn_id status :
    Forall entry_closed l → status ≠ Turn_IN_PROGRESS →
    log_step (l ++ [(turn_id, Turn_IN_PROGRESS)]) (l ++ [(turn_id, status)]).

(** Only the last entry may be open. *)
Definition sequential (l : list entry) : Prop :=
  Forall entry_closed l ∨ ∃ l' turn_id, l = l' ++ [(turn_id, Turn_IN_PROGRESS)] ∧ Forall entry_closed l'.

Lemma log_step_sequential l l' : log_step l l' → sequential l'.
Proof.
  destruct 1; [right; eauto | left]. apply Forall_app. by repeat constructor.
Qed.

Lemma log_steps_sequential l l' : rtc log_step l l' → sequential l → sequential l'.
Proof. induction 1; eauto using log_step_sequential. Qed.

(** Closing an entry by its identifier. *)
Definition close_entry (turn_id : string) (status : TurnStatus) (e : entry) : entry :=
  if bool_decide (e.1 = turn_id ∧ e.2 = Turn_IN_PROGRESS) then (e.1, status) else e.

Lemma close_entry_closed turn_id status l :
  Forall entry_closed l → close_entry turn_id status <$> l = l.
Proof.
  induction 1 as [|e l He Hl IH]; csimpl; [done|]. rewrite IH. f_equal.
  unfold close_entry. case_bool_decide as Hd; [|done]. by destruct Hd.
Qed.

Lemma close_entry_steps turn_id status l :
  status ≠ Turn_IN_PROGRESS → sequential l → rtc log_step l (close_entry turn_id status <$> l).
Proof.
  intros Hs [Hl|(l' & t & -> & Hl)]; [by rewrite close_entry_closed|].
  rewrite fmap_app, close_entry_closed by done. csimpl. unfold close_entry. simpl.
  case_bool_decide; [|done]. by apply rtc_once, log_close.
Qed.

(** ** The concrete log *)

Definition entry_of (t : turn_row) : entry := (tn_turn_id t, tn_status t).

(** What [list_turns] shows of a Task. *)
Definition turn_log (task_id : string) (d : db) : list entry :=
  entry_of <$> repo_list_turns task_id d.

(** The same in insertion order. *)
Definition raw_log (task_id : string) (d : db) : list entry :=
  entry_of <$> select (of_task_turn task_id) (task_turns d).

Definition log_refined (task_id : string) (d d' : db) : Prop :=
  sequential (raw_log task_id d) → rtc log_step (raw_log task_id d) (raw_log task_id d').

#[local] Instance log_refined_preorder task_id : PreOrder (log_refined task_id).
Proof.
  split; unfold log_refined; [by intros d|]. intros d1 d2 d3 H1 H2 Hs.
  etrans; [auto|]. apply H2. by eapply log_steps_sequential; [apply H1|].
Qed.

Ltac frame_turns :=
  let Hrun := fresh in
  intros ? ? ? Hrun _; unfold raw_log;
  first [ apply insert_row_inv in Hrun as [_ ->]
        | apply update_rows_inv in Hrun as (-> & _ & _) ]; reflexivity.

Section refinement.
Context `{Host} (task_id : string).
Abbreviation R := (log_refined task_id).

#[local] Instance transition_submission_lg a b c d e f g h i j k l :
  Respects R (transition_submission a b c d e f g h i j k l).
Proof. frame_turns. Qed.
#[local] Instance insert_runtime_execution_lg a b c d e f g h i j k l m n :
  Respects R (insert_runtime_execution a b c d e f g h i j k l m n).
Proof. frame_turns. Qed.
#[local] Instance transition_runtime_execution_lg a b c d e f g :
  Respects R (transition_runtime_execution a b c d e f g).
Proof. frame_turns. Qed.
#[local] Instance insert_turn_item_lg i : Respects R (insert_turn_item i).
Proof. frame_turns. Qed.
#[local] Instance repin_lg a b c : Respects R (repin_submissions a b c).
Proof. frame_turns. Qed.
#[local] Instance log_safe : SafeStatements R.
Proof. constructor; intros; try apply _; frame_turns. Qed.

(** An inserted Turn opens the log of its Task: the unique indexes refuse it while
    another Turn of the Task is in progress. *)
Lemma insert_turn_lg a b c e f g h i j k l m n o p q r s :
  Respects R (insert_turn a b c Turn_IN_PROGRESS e f g h i j k l m n o p q r s).
Proof.
  intros d u d' [Hg ->]%insert_row_inv _. unfold raw_log. simpl.
  rewrite select_app. unfold select at 3. simpl. unfold of_task_turn at 3. simpl.
  destruct (eqs b task_id) eqn:Hb; [|by rewrite app_nil_r]. split_bools. subst b.
  rewrite fmap_app. csimpl. guard_facts Hg.
  rename select (index_free always tn_turn_id _ _ = true) into Hpk.
  rename select (index_free turn_active tn_task_id _ _ = true) into Hone.
  unfold index_free in Hpk, Hone. simpl in Hpk, Hone.
  rewrite negb_true_iff, row_exists_false in Hpk. rewrite negb_true_iff, row_exists_false in Hone.
  apply rtc_once, log_open.
  - apply Forall_fmap, Forall_forall. intros t [Ht Hp]%elem_of_select. specialize (Hone t Ht).
    unfold of_task_turn in Hp. split_bools. intros Ha. simpl in Ha. unfold turn_active in Hone.
    by rewrite Ha, Hp, !bool_decide_true in Hone.
  - rewrite <-list_fmap_compose. intros (t & Hid & [Ht _]%elem_of_select)%list_elem_of_fmap.
    specialize (Hpk t Ht). simpl in Hpk, Hid. by rewrite <-Hid, bool_decide_true in Hpk.
Qed.

(** A finished Turn is the open entry of its log. *)
#[local] Instance repo_finish_turn_lg a b c d e : Respects R (repo_finish_turn a b c d e).
Proof.
  intros d0 n d' (-> & _ & Hg)%update_rows_inv Hs. unfold raw_log in *. simpl.
  rewrite select_on_rows by done.
  set (p := λ t, eqs (tn_turn_id t) a && turn_active t) in *.
  set (f := set_turn_finished b c d e) in *.
  assert (∀ l, entry_of <$> on_rows p f l = close_entry a b <$> (entry_of <$> l)) as ->.
  { intros l. unfold on_rows. rewrite <-!list_fmap_compose. apply list_fmap_ext. intros _ t _.
    unfold compose, close_entry, p, turn_active. simpl. destruct (eqs (tn_turn_id t) a) eqn:Ht; simpl.
    - split_bools. do 2 case_bool_decide; try done; naive_solver.
    - split_bools. rewrite bool_decide_eq_false_2; [done | naive_solver]. }
  destruct (row_exists p (task_turns d0)) eqn:Hx.
  - apply row_exists_true in Hx as (t & Ht & Hp). specialize (Hg t Ht Hp). guard_facts Hg.
    apply close_entry_steps; [|done]. intros ->. simpl in *. by destruct (tn_status t).
  - replace (close_entry a b <$> (entry_of <$> select (of_task_turn task_id) (task_turns d0)))
      with (entry_of <$> select (of_task_turn task_id) (task_turns d0)); [done|].
    rewrite <-list_fmap_compose. apply list_fmap_ext. intros _ t Ht%list_elem_of_lookup_2.
    apply elem_of_select in Ht as [Ht _]. rewrite row_exists_false in Hx. specialize (Hx t Ht).
    unfold compose, close_entry. rewrite bool_decide_eq_false_2; [done|]. simpl. intros [Hid Hst].
    unfold p, turn_active in Hx. by rewrite Hid, eqs_refl, Hst in Hx.
Qed.

#[local] Instance persist_runtime_lg a b c d e f g h i j :
  Respects R (persist_runtime a b c d e f g h i j).
Proof. method. Qed.
#[local] Instance cancel_pending_lg t c r : Respects R (cancel_pending t c r).
Proof. method. Qed.
#[local] Instance release_next_turn_lg a b c : Respects R (release_next_turn a b c).
Proof. method. Qed.
#[local] Instance finish_runtime_lg a b c d e f : Respects R (finish_runtime a b c d e f).
Proof. method. Qed.

#[local] Instance log_blocks : BlockSpec R.
Proof.
  constructor; try apply _.
  - intros d d' Hc _. unfold raw_log. by rewrite (cp_turns _ _ Hc).
  - intros. method.
  - intros snapshot claim ef ed ck cr tk tr rk rr ev c bu iu d r d' _. apply respects_apply.
    unfold accept_and_open_execution. solve_respects.
    apply (accept_submission_by_blocks R); [intros; simplify_eq; apply _|].
    intros. unfold materialize_turn. solve_respects; [apply insert_turn_lg|].
    apply (run_side_effect_respects R). intros; simplify_eq; apply _.
  - intros x ty ac p pr ni o c i d r d' _. apply respects_apply. method.
  - intros x s e f c d r d' _ (es & t & _ & _ & _ & [(_ & _ & Hf)|(_ & d1 & d2 & p & H1 & H2 & Hf)])%finish_execution_inv.
    + by eapply finish_runtime_lg.
    + etrans; [by eapply repo_finish_turn_lg|].
      etrans; [by eapply release_next_turn_lg | by eapply finish_runtime_lg].
Qed.

Lemma raw_log_steps d d' : rtc step d d' → log_refined task_id d d'.
Proof. apply steps_spec, _. Qed.

Lemma raw_log_reachable d : reachable d → sequential (raw_log task_id d).
Proof.
  intros (d0 & [] & Hs). assert (raw_log task_id d0 = []) as H0
    by (unfold raw_log; by rewrite init_turns).
  eapply log_steps_sequential; [apply (raw_log_steps _ _ Hs)|]; rewrite H0; by left.
Qed.

Lemma turn_log_raw d : reachable d → turn_log task_id d = raw_log task_id d.
Proof.
  intros Hd. unfold turn_log. by rewrite (list_turns_in_order _ _ (reachable_gap_free _ Hd)).
Qed.
End refinement.

(** C1: the control plane refines the abstract log of Turns: seen through [list_turns],
    every run from a reachable database is a sequence of log steps (opening a Turn after
    all earlier ones are closed, closing the open Turn), and only the last Turn of a
    Task is ever open. *)
Theorem control_plane_refines_log `{Host} d d' task_id :
  reachable d → rtc step d d' →
  rtc log_step (turn_log task_id d) (turn_log task_id d') ∧ sequential (turn_log task_id d').
Proof.
  intros Hd Hs. assert (reachable d') as Hd' by (by eapply reachable_steps).
  rewrite !turn_log_raw by done. split; [|by apply raw_log_reachable].
  apply raw_log_steps; [done | by apply raw_log_reachable].
Qed.

Lemma control_plane_refines_log_witness :
  rtc log_step [("turn1", Turn_IN_PROGRESS)]
    [("turn1", Turn_COMPLETED); ("turn2", Turn_IN_PROGRESS)].
Proof.
  destruct (control_plane_refines_log demo5 demo12 "task" demo5_reachable) as [Hl _].
  - etrans; [apply demo_steps59 | apply demo_steps9_12].
  - exact Hl.
Defined.
