(* ===== verification/Admission.v ===== *)
(** * Admission of Turns

    What [create_turn] and [retry_turn] check before they queue a submission,
    and what exactly they write. *)

From stdpp Require Import base tactics list strings relations.
From Stdlib Require Import ZArith Lia.
From S2P Require Import Prelude PyText Tables Contracts RegistryRows Schema Repository Service Acceptance.
From S2P Require Import Execution Evolution Methods Integrity System Scenario.

Local Open Scope string_scope.
Local Open Scope Z_scope.
Local Open Scope list_scope.
#[local] Hint Constants Opaque : typeclass_instances.
#[local] Hint Transparent dict time relation : typeclass_instances.

Section admission.
Context `{Host}.

Lemma grant_inv auth t u d x d' :
  require_task_environment_execution_grant auth t u d = Ok (x, d') →
  ∃ task actor, task_by_id t d = Some task ∧ u_id u = Some actor ∧
    has_active_environment_execution_grant auth (tk_environment_id task) actor = true.
Proof.
  unfold require_task_environment_execution_grant. intros (? & ? & [-> ->]%gets_Ok & Hrun)%bind_Ok.
  apply bind_Ok in Hrun as (row & ? & [Hrow ->]%require_some_Ok & Hrun).
  apply bind_Ok in Hrun as (? & ? & [Heq ->]%require_Ok & Hrun).
  apply bind_Ok in Hrun as (actor & ? & (Hact & _ & ->)%actor_of_inv & [Hg ->]%require_Ok).
  destruct (task_by_id t d) as [task|]; [|done]. simpl in Hrow.
  destruct (workspace_by_id (tk_workspace_id task) d) as [ws|]; [|done]. simpl in Hrow.
  injection Hrow as <-. simpl in *. split_bools. exists task, actor. rewrite Heq. done.
Qed.

Lemma current_open_inv t d st d' x d'' :
  require_current_conversation t d = Ok (st, d') → require_open st d' = Ok (x, d'') →
  task_is_open t d = true ∧ d' = d ∧ d'' = d.
Proof.
  intros Hc Ho. assert (task_state t d = Some st) as Hst
    by (unfold require_current_conversation in Hc; by tx_inv_all).
  reads_only Hc. unfold require_open in Ho. apply require_Ok in Ho as [Ho ->]. split_bools.
  split; [|done]. apply select_one_Some in Hst as [Hin Hid]. apply row_exists_true.
  exists st. rewrite Hid. by rewrite bool_decide_true.
Qed.

(** The retried Turn exists in the Task and is finished. *)
Definition retry_source_ok (t : string) (retry : option string) (d : db) : Prop :=
  match retry with
  | None => True
  | Some r => ∃ turn, turn_by_id r d = Some turn ∧ tn_task_id turn = t ∧ turn_active turn = false
  end.

Lemma check_retry_source_inv t retry d x d' :
  check_retry_source t retry d = Ok (x, d') → retry_source_ok t retry d.
Proof.
  unfold check_retry_source, retry_source_ok. destruct retry as [r|]; [|done].
  intros (? & ? & [-> ->]%gets_Ok & Hrun)%bind_Ok.
  apply bind_Ok in Hrun as (turn & ? & [Ht ->]%require_some_Ok & Hrun).
  apply bind_Ok in Hrun as (? & ? & [Htask ->]%require_Ok & [Ha ->]%require_Ok).
  split_bools. by exists turn.
Qed.

(** The row that a first admission queues. *)
Definition queued_submission (t : string) (input : dict) (k : string) (ctx : option string)
    (retry : option string) (allow : bool) (c : time) (sid tid actor : string)
    (resolved : option string) : submission_row :=
  mkSubmission sid t tid actor k (request_hash (admit_request t input ctx retry allow)) Sub_QUEUED
    input resolved (if is_none ctx then Source_TASK_PIN else Source_SUBMISSION_OVERRIDE)
    None None [] None c None None None None c.

(** What a first admission saw and wrote. *)
Record admitted (auth : option (list access_row)) (t : string) (input : dict) (k : string)
    (ctx retry : option string) (allow : bool) (c : time) (sid tid actor : string)
    (notify : option string) (d d' : db) : Prop := {
  ad_grant : ∃ task, task_by_id t d = Some task ∧
    has_active_environment_execution_grant auth (tk_environment_id task) actor = true;
  ad_open : task_is_open t d = true;
  ad_no_pending : pending_next_turn t d = None;
  ad_retry : retry_source_ok t retry d;
  ad_submissions : ∃ resolved, submissions d' =
    submissions d ++ [queued_submission t input k ctx retry allow c sid tid actor resolved];
  ad_intents :
    intents d' = intents d ++ [mkIntent sid t (intent_of retry (active_turn t d)) retry c];
  ad_turns : task_turns d' = task_turns d;
  ad_next :
    match active_turn t d with
    | None => notify = Some sid ∧ next_turns d' = next_turns d
    | Some turn => allow = true ∧ retry = None ∧ notify = None ∧
        next_turns d' = next_turns d ++ [mkNextTurn sid t (tn_turn_id turn) Next_WAITING c None c] ∧
        ∀ n, n ∈ next_turns d → nt_task_id n = t → next_pending n = false
    end }.

Lemma admit_inv auth t u input k ctx scope retry allow c sid tid eid d r notify d' actor :
  admit_turn auth t u input k ctx scope retry allow c sid tid eid d = Ok ((r, notify), d') →
  u_id u = Some actor → idempotency_record actor scope k d = None →
  admitted auth t input k ctx retry allow c sid tid actor notify d d'.
Proof.
  intros Hrun Hactor Hnew. unfold admit_turn in Hrun.
  apply bind_Ok in Hrun as (a & ? & (Hact & _ & ->)%actor_of_inv & Hrun). simplify_eq.
  apply bind_Ok in Hrun as (? & ? & [_ ->]%begin_write_inv & Hrun).
  apply bind_Ok in Hrun as (? & ? & [_ ->]%require_task_owner_inv & Hrun).
  apply bind_Ok in Hrun as ([g o] & ? & (-> & -> & _ & Hrep)%replay_inv & Hrun).
  rewrite Hnew in Hrep. subst o.
  apply bind_Ok in Hrun as (? & ? & Hgrant & Hrun). pose proof Hgrant as Hgrant'.
  reads_only Hgrant'. apply grant_inv in Hgrant as (task & a' & Htask & Ha' & Hgr). simplify_eq.
  apply bind_Ok in Hrun as (st & ? & Hcur & Hrun). apply bind_Ok in Hrun as (? & ? & Hopen & Hrun).
  destruct (current_open_inv _ _ _ _ _ _ Hcur Hopen) as (Hop & -> & ->).
  apply bind_Ok in Hrun as (? & ? & [-> ->]%gets_Ok & Hrun).
  apply bind_Ok in Hrun as (? & ? & [_ ->]%require_Ok & Hrun).
  apply bind_Ok in Hrun as (? & ? & [-> ->]%gets_Ok & Hrun).
  apply bind_Ok in Hrun as (? & ? & [-> ->]%gets_Ok & Hrun).
  apply bind_Ok in Hrun as (? & ? & [Hpend ->]%require_Ok & Hrun).
  apply bind_Ok in Hrun as (? & ? & Hretry & Hrun). pose proof Hretry as Hretry'.
  reads_only Hretry'. apply check_retry_source_inv in Hretry.
  apply bind_Ok in Hrun as (? & ? & [Hallow ->]%require_Ok & Hrun).
  apply bind_Ok in Hrun as (? & ? & [Hnoretry ->]%require_Ok & Hrun).
  apply bind_Ok in Hrun as (resolved & ? & Hres & Hrun). reads_only Hres.
  apply bind_Ok in Hrun as (? & ? & [_ ->]%insert_row_inv & Hrun).
  apply bind_Ok in Hrun as (? & ? & [_ ->]%insert_row_inv & Hrun).
  apply bind_Ok in Hrun as (notify' & d4 & Hnext & Hrun).
  apply bind_Ok in Hrun as (? & ? & [_ ->]%insert_row_inv & Hrun).
  apply bind_Ok in Hrun as (? & ? & [_ ->]%insert_row_inv & [[= -> ->] ->]%ret_Ok).
  assert (pending_next_turn t d = None) as Hp by (by destruct (pending_next_turn t d)).
  destruct (active_turn t d) as [turn|] eqn:Hactive.
  - apply bind_Ok in Hnext as (? & ? & [Hg ->]%insert_row_inv & [-> ->]%ret_Ok).
    constructor; rewrite ?Hactive; eauto. split_and!; try done; [by destruct retry|].
    intros n Hn Ht. guard_facts Hg.
    rename select (index_free next_pending nt_task_id _ _ = true) into Hf.
    unfold index_free in Hf. simpl in Hf. rewrite negb_true_iff, row_exists_false in Hf.
    specialize (Hf n Hn). simpl in Hf. by rewrite Ht, bool_decide_true, andb_true_r in Hf.
  - apply ret_Ok in Hnext as [-> ->]. constructor; rewrite ?Hactive; eauto.
Qed.
End admission.

(** A first admission commits only with an execution grant for the Task's
    environment, on an open Task without a pending next Turn, for a retry only of a
    finished Turn of the Task; it queues exactly one submission with its intent, and
    while a Turn is in progress it reserves the next Turn behind it (only when the
    caller allows that) instead of announcing the submission to the dispatcher. *)
Theorem admission_queues_one_submission `{Host} auth t u input k ctx scope retry allow c sid tid eid
    d r notify d' actor :
  admit_turn auth t u input k ctx scope retry allow c sid tid eid d = Ok ((r, notify), d') →
  u_id u = Some actor → idempotency_record actor scope k d = None →
  admitted auth t input k ctx retry allow c sid tid actor notify d d'.
Proof. apply admit_inv. Qed.

Lemma admission_queues_one_submission_witness :
  next_turns demo7 = [mkNextTurn "sub2" "task" "turn1" Next_WAITING 7 None 7] ∧
  sb_submission_id <$> submissions demo7 = ["sub1"; "sub2"].
Proof.
  destruct (admission_queues_one_submission grants "task" alice [("text", JStr "next")] "key2" None
    CREATE_TURN None true 7 "sub2" "turn2" "ev7" demo6
    (JObj [("submission_id", JStr "sub2"); ("task_id", JStr "task");
           ("reserved_turn_id", JStr "turn2"); ("status", JStr "queued");
           ("intent", JStr "next_turn")]) None demo7 "alice")
    as [_ _ _ _ [resolved Hs] _ _ Hn].
  - vm_compute. reflexivity.
  - reflexivity.
  - reflexivity.
  - split; [exact (proj1 (proj2 (proj2 (proj2 Hn)))) | rewrite Hs; reflexivity].
Defined.
