(* ===== verification/ContractLaws.v ===== *)
(** * Laws of the contracts

    The transition tables of the contracts against the triggers of the schema,
    termination of the submission lifecycle, and what the two sanitizers of
    provider data accept. *)

From stdpp Require Import base tactics list strings relations.
From Stdlib Require Import ZArith Lia.
From S2P Require Import Prelude PyText Tables Contracts RegistryRows Schema Repository Service Acceptance.
From S2P Require Import Evolution.

Local Open Scope string_scope.

(** The database triggers accept exactly the status changes that the Python
    transition tables allow, for Tasks, Turns, submissions, executions and controls of
    either kind. *)
Theorem triggers_agree_with_contracts :
  (∀ s s', work_trigger s s' = true ↔ require_task_work_transition s s' = Ok tt) ∧
  (∀ s s', turn_trigger s s' = true ↔ require_turn_transition s s' = Ok tt) ∧
  (∀ s s', submission_trigger s s' = true ↔ require_submission_transition s s' = Ok tt) ∧
  (∀ s s', execution_trigger s s' = true ↔ require_runtime_execution_transition s s' = Ok tt) ∧
  (∀ k s s', control_trigger k s s' = true ↔ require_control_transition k s s' = Ok tt).
Proof.
  split_and!; intros.
  - by destruct s, s'.
  - by destruct s, s'.
  - by destruct s, s'.
  - by destruct s, s'.
  - by destruct k, s, s'.
Qed.

(** ** The submission lifecycle *)

Lemma submission_nsteps_rank n s s' :
  nsteps submission_step n s s' → (n + submission_rank s' ≤ submission_rank s)%nat.
Proof. induction 1 as [|n s1 s2 s3 H%submission_step_rank]; lia. Qed.

(** The lifecycle of a submission terminates: a path of accepted transitions has at
    most four, and a status is final exactly when no transition leaves it. *)
Theorem submission_lifecycle_terminates n s s' :
  nsteps submission_step n s s' →
  (n ≤ 4)%nat ∧
  (submission_terminal s' = true ↔ ∀ s'', require_submission_transition s' s'' ≠ Ok tt).
Proof.
  intros Hn%submission_nsteps_rank. split; [destruct s; simpl in Hn; lia|]. split.
  - by destruct s'; intros; destruct s''.
  - intros Hno. destruct s'; try reflexivity; exfalso.
    + by apply (Hno Sub_CLAIMED).
    + by apply (Hno Sub_DELIVERING).
    + by apply (Hno Sub_DELIVERED).
    + by apply (Hno Sub_DELIVERED).
Qed.

Lemma submission_lifecycle_terminates_witness :
  nsteps submission_step 4 Sub_QUEUED Sub_DELIVERED ∧ (4 ≤ 4)%nat.
Proof.
  assert (nsteps submission_step 4 Sub_QUEUED Sub_DELIVERED) as Hn.
  { apply nsteps_l with Sub_CLAIMED; [by apply submission_trigger_spec|].
    apply nsteps_l with Sub_DELIVERING; [by apply submission_trigger_spec|].
    apply nsteps_l with Sub_DELIVERY_UNKNOWN; [by apply submission_trigger_spec|].
    apply nsteps_l with Sub_DELIVERED; [by apply submission_trigger_spec|]. constructor. }
  split; [exact Hn|]. exact (proj1 (submission_lifecycle_terminates 4 _ _ Hn)).
Defined.

(** ** Receipt metadata *)

Definition metadata_entry_ok (kv : string * string) : Prop :=
  truthy (normalize_key kv.1) = true ∧
  (∀ fragment, fragment ∈ FORBIDDEN_METADATA_KEYS → contains fragment (normalize_key kv.1) = false) ∧
  is_bearer kv.2 = false.

Lemma check_metadata_spec seen attributes :
  check_metadata seen attributes = Ok tt ↔
  Forall metadata_entry_ok attributes ∧
  NoDup ((λ kv, normalize_key kv.1) <$> attributes) ∧
  (∀ kv, kv ∈ attributes → normalize_key kv.1 ∉ seen).
Proof.
  revert seen. induction attributes as [|[k v] l IH]; intros seen.
  { simpl. split; [|done]. intros _. split_and!; [constructor..|]. intros kv Hkv. by apply not_elem_of_nil in Hkv. }
  assert (existsb (λ f, contains f (normalize_key k)) FORBIDDEN_METADATA_KEYS = false ↔
    ∀ f, f ∈ FORBIDDEN_METADATA_KEYS → contains f (normalize_key k) = false) as Hforb
    by apply (row_exists_false (λ f, contains f (normalize_key k))).
  rewrite fmap_cons, Forall_cons, NoDup_cons. unfold metadata_entry_ok at 1.
  cbn [check_metadata fst snd].
  destruct (truthy (normalize_key k)) eqn:Hk; cbn [negb orb]; [|split; [done | naive_solver]].
  case_bool_decide as Hseen; [split; [done|]; intros (_ & _ & Hn); by destruct (Hn (k, v)); [constructor|]|].
  destruct (existsb _ _) eqn:Hf; [split; [done|]; intros (((_ & H1 & _) & _) & _); naive_solver|].
  destruct (is_bearer v) eqn:Hb; [split; [done | naive_solver]|].
  rewrite IH. split.
  - intros (Hok & Hnd & Hns). split_and!; auto; [naive_solver| |].
    + intros (kv & Heq & Hin)%list_elem_of_fmap. apply (Hns kv Hin). rewrite <-Heq. constructor.
    + intros kv [->|Hin]%elem_of_cons; [done|]. specialize (Hns kv Hin). set_solver.
  - intros ((_ & Hok) & (Hni & Hnd) & Hns). split_and!; auto. intros kv Hin [Heq|Hin']%elem_of_cons.
    + apply Hni, list_elem_of_fmap. by exists kv.
    + by apply (Hns kv); [constructor|].
Qed.

(** Receipt metadata is accepted, unchanged, exactly when its normalized keys are
    non-empty and pairwise different, none contains a forbidden fragment, and no value
    is a bearer credential. *)
Theorem receipt_metadata_accepts attributes :
  make_native_receipt_metadata attributes = Ok attributes ↔
  Forall metadata_entry_ok attributes ∧ NoDup ((λ kv, normalize_key kv.1) <$> attributes).
Proof.
  unfold make_native_receipt_metadata. pose proof (check_metadata_spec [] attributes) as Hs.
  destruct (check_metadata [] attributes) as [[]|e].
  - destruct Hs as [(? & ? & _) _]; done.
  - split; [done|]. intros [H1 H2]. destruct Hs as [_ Hs].
    discriminate Hs. split_and!; try done. intros kv _. apply not_elem_of_nil.
Qed.

(** ** Evidence sanitization *)

(** A secret-shaped place of a JSON value: a field with a forbidden key, or a string
    with a bearer credential, at any depth. *)
Inductive leaks : json → Prop :=
| leak_key k v fields : (k, v) ∈ fields → forbidden_key k = true → leaks (JObj fields)
| leak_field k v fields : (k, v) ∈ fields → leaks v → leaks (JObj fields)
| leak_element v l : v ∈ l → leaks v → leaks (JList l)
| leak_bearer s : is_bearer s = true → leaks (JStr s).

Lemma sanitized_spec v : sanitized v = false ↔ leaks v.
Proof.
  induction v as [| | | |s|l IH|fields IH] using json_nested_ind; simpl;
    try (split; [done | by inversion 1]).
  - split; [intros Hs%negb_false_iff; by constructor | inversion 1; by apply negb_false_iff].
  - rewrite Forall_forall in IH. rewrite <-not_true_iff_false, forallb_forall. split.
    + intros Hn. destruct (decide (Forall (λ x, sanitized x = true) l)) as [Hall|Hex].
      { exfalso. apply Hn. intros x Hx%list_elem_of_In. rewrite Forall_forall in Hall. auto. }
      apply not_Forall_Exists, Exists_exists in Hex as (x & Hx & Hs); [|apply _].
      eapply leak_element; [done|]. apply IH; [done|]. by apply not_true_iff_false.
    + inversion 1 as [| |x l' Hx Hl|]; subst. intros Hall. apply IH in Hl; [|done].
      rewrite Hall in Hl; [done|]. by apply list_elem_of_In.
  - rewrite Forall_forall in IH. rewrite <-not_true_iff_false, forallb_forall. split.
    + intros Hn. destruct (decide (Forall (λ kv, negb (forbidden_key kv.1) && sanitized kv.2 = true) fields))
        as [Hall|Hex].
      { exfalso. apply Hn. intros x Hx%list_elem_of_In. rewrite Forall_forall in Hall. auto. }
      apply not_Forall_Exists, Exists_exists in Hex as ([k x] & Hx & Hs); [|apply _].
      apply not_true_iff_false, andb_false_iff in Hs as [Hs|Hs]; simpl in Hs.
      * apply negb_false_iff in Hs. by eapply leak_key.
      * eapply leak_field; [done|]. by apply (IH (k, x)).
    + intros Hl Hall. inversion Hl as [k x ? Hx Hk|k x ? Hx Hv| |]; subst;
        apply list_elem_of_In in Hx as Hx'; specialize (Hall _ Hx'); split_bools; simpl in *.
      * congruence.
      * apply (IH (k, x) Hx) in Hv. simpl in Hv. congruence.
Qed.

(** Evidence is let through exactly when no field at any depth has a secret-shaped
    name and no string at any depth is a bearer credential; otherwise the caller gets the
    provider-contract error and nothing is written. *)
Theorem evidence_is_screened v d :
  (require_sanitized v d = Ok (tt, d) ↔ ¬ leaks v) ∧
  (require_sanitized v d = Err (ConversationContractError PROVIDER_CONTRACT_MISMATCH) ↔ leaks v).
Proof.
  rewrite <-sanitized_spec, not_false_iff_true. unfold require_sanitized.
  by destruct (sanitized v).
Qed.
