(* ===== verification/WorkStatus.v ===== *)
(** * Work status and metadata of a Task

    What [update_work_status], [complete_task], [reopen_task], [archive_task],
    [unarchive_task] and [update_task_title] do to the Task and state rows. *)

From stdpp Require Import base tactics list strings relations.
From Stdlib Require Import ZArith Lia.
From S2P Require Import Prelude PyText PyTime Tables Contracts RegistryRows Schema Repository Service Acceptance.
From S2P Require Import Execution Evolution Methods Integrity System Scenario.

Local Open Scope string_scope.
Local Open Scope Z_scope.
#[local] Hint Constants Opaque : typeclass_instances.
#[local] Hint Transparent dict time relation : typeclass_instances.

(** The state row after the compare-and-set of the repository. *)
Lemma repo_update_work_status_hit t a b c d d' st :
  integrity d → task_state t d = Some st → st_work_status st = a →
  repo_update_work_status t a b c d = Ok (1, d') →
  task_state t d' = Some (set_work_status b c st) ∧ work_trigger a b = true.
Proof.
  intros Hok Hst Ha (-> & _ & Hg)%update_rows_inv.
  apply select_one_Some in Hst as [Hin Hid]. simpl in *. split_bools.
  assert (eqs (st_task_id st) t && bool_decide (st_work_status st = a) = true) as Hp
    by (by rewrite Hid, eqs_refl, bool_decide_true).
  specialize (Hg st Hin Hp). guard_facts Hg. split; [|simpl in *; congruence].
  apply select_one_the.
  - simpl. apply elem_of_on_rows. exists st. by rewrite Hp.
  - simpl. by rewrite Hid, eqs_refl.
  - simpl. intros x (y & Hy & ->)%elem_of_on_rows Hx.
    assert (st_task_id y = t) as Hyt by (destruct (_ && _) in Hx; simpl in Hx; by split_bools).
    assert (y = st) as -> by (eapply unique_eq;
      [apply (states_pk _ (ok_states _ Hok)) | done..| congruence]). by rewrite Hp.
Qed.

Section work.
Context `{Host}.

(** The common tail of the work-status methods, on the branch without a replay. *)
Lemma work_transition_inv t st d d0 target c n d1 :
  integrity d → require_current_conversation t d = Ok (st, d0) →
  repo_update_work_status t (st_work_status st) target c d0 = Ok (n, d1) → n = 1 →
  task_state t d = Some st ∧ task_state t d1 = Some (set_work_status target c st) ∧
  require_task_work_transition (st_work_status st) target = Ok tt.
Proof.
  intros Hok Hc Hu ->. assert (task_state t d = Some st) as Hst
    by (unfold require_current_conversation in Hc; by tx_inv_all).
  reads_only Hc. destruct (repo_update_work_status_hit _ _ _ _ _ _ _ Hok Hst eq_refl Hu) as [H1 H2].
  split_and!; [done..|]. by destruct (st_work_status st), target.
Qed.
End work.

(** A first change of the work status commits only along the contract's transitions;
    it sets the new status, advances the revision of the Task by exactly one, and
    reports that revision. *)
Theorem work_status_change_is_counted `{Host} d t u target k scope v c e r d' actor :
  reachable d →
  (scope = UPDATE_WORK_STATUS ∧ update_work_status t u target k c e d = Ok (r, d')) ∨
  transition_work_status t u target k scope v c e d = Ok (r, d') →
  u_id u = Some actor → idempotency_record actor scope k d = None →
  ∃ st, task_state t d = Some st ∧
    require_task_work_transition (st_work_status st) target = Ok tt ∧
    task_state t d' = Some (mkState (st_task_id st) target (st_revision st + 1) (st_created_at st) c) ∧
    r = JObj [("task_id", JStr t); ("work_status", JStr (work_status_value target));
              ("revision", JInt (st_revision st + 1))].
Proof.
  intros Hd Hrun Hact Hnew. apply reachable_integrity in Hd as Hok.
  destruct Hrun as [[-> Hrun]|Hrun];
    [unfold update_work_status in Hrun | unfold transition_work_status in Hrun];
    apply bind_Ok in Hrun as (a & ? & (Ha & _ & ->)%actor_of_inv & Hrun); simplify_eq;
    apply bind_Ok in Hrun as (? & ? & [_ ->]%begin_write_inv & Hrun);
    apply bind_Ok in Hrun as (? & ? & [_ ->]%require_task_owner_inv & Hrun);
    apply bind_Ok in Hrun as ([g o] & ? & (-> & -> & _ & Hrep)%replay_inv & Hrun);
    rewrite Hnew in Hrep; subst o;
    apply bind_Ok in Hrun as (st & d0 & Hcur & Hrun);
    apply bind_Ok in Hrun as (? & d1 & Hlift & Hrun); reads_only Hlift;
    apply bind_Ok in Hrun as (n & d2 & Hu & Hrun);
    apply bind_Ok in Hrun as (? & ? & [Hn%Z.eqb_eq ->]%require_Ok & Hrun);
    destruct (work_transition_inv _ _ _ _ _ _ _ _ Hok Hcur Hu Hn) as (H1 & H2 & H3);
    exists st; (split; [done|]); (split; [done|]).
  - apply bind_Ok in Hrun as (? & ? & [_ ->]%insert_row_inv & Hrun).
    apply bind_Ok in Hrun as (? & ? & [_ ->]%insert_row_inv & [-> ->]%ret_Ok). by split.
  - apply bind_Ok in Hrun as (m & ? & (-> & _ & _)%update_rows_inv & Hrun).
    apply bind_Ok in Hrun as (? & ? & [_ ->]%require_Ok & Hrun).
    apply bind_Ok in Hrun as (? & ? & [_ ->]%insert_row_inv & Hrun).
    apply bind_Ok in Hrun as (? & ? & [_ ->]%insert_row_inv & [-> ->]%ret_Ok). by split.
Qed.

Lemma work_status_change_is_counted_witness :
  ∃ st, task_state "task" demo1 = Some st ∧
    task_state "task" demo_completed
      = Some (mkState (st_task_id st) Work_COMPLETED (st_revision st + 1) (st_created_at st) 20).
Proof.
  destruct (work_status_change_is_counted demo1 "task" alice Work_COMPLETED "key20" COMPLETE_TASK
    "conversation.task.completed" 20 "ev20"
    (JObj [("task_id", JStr "task"); ("work_status", JStr "completed"); ("revision", JInt 2)])
    demo_completed "alice" demo1_reachable) as (st & Hst & _ & Hst' & _).
  - right. vm_compute. reflexivity.
  - reflexivity.
  - reflexivity.
  - exists st. split; [exact Hst | exact Hst'].
Defined.

(** ** Archiving *)

Section archive.
Context `{Host}.

(** A first metadata change runs its statement and then stores the response. *)
Lemma update_task_metadata_inv t u scope k q idle (f : time → txn Z) c d r d' actor :
  update_task_metadata t u scope k q idle f c d = Ok (r, d') →
  u_id u = Some actor → idempotency_record actor scope k d = None →
  (idle = true → active_turn t d = None) ∧ may_write u t d ∧
  ∃ n d1, f c d = Ok (n, d1) ∧ tasks d' = tasks d1.
Proof.
  unfold update_task_metadata. intros Hrun Hact Hnew.
  apply bind_Ok in Hrun as (a & ? & (Ha & _ & ->)%actor_of_inv & Hrun). simplify_eq.
  apply bind_Ok in Hrun as (? & ? & [_ ->]%begin_write_inv & Hrun).
  apply bind_Ok in Hrun as (? & ? & [Hown ->]%require_task_owner_inv & Hrun).
  apply bind_Ok in Hrun as ([g o] & ? & (-> & -> & _ & Hrep)%replay_inv & Hrun).
  rewrite Hnew in Hrep. subst o.
  apply bind_Ok in Hrun as (? & ? & Hcur & Hrun). reads_only Hcur.
  apply bind_Ok in Hrun as (? & ? & [-> ->]%gets_Ok & Hrun).
  apply bind_Ok in Hrun as (? & ? & [Hidle ->]%require_Ok & Hrun).
  apply bind_Ok in Hrun as (n & d1 & Hf & Hrun).
  apply bind_Ok in Hrun as (? & ? & [_ ->]%insert_row_inv & [_ ->]%ret_Ok).
  split; [|split; [done | by exists n, d1]]. intros ->. by destruct (active_turn t d).
Qed.

Lemma update_tasks_one t p f d n d1 row :
  update_rows tasks with_tasks p (λ _ _ _, None) f d = Ok (n, d1) →
  (∀ r, tk_task_id (f r) = tk_task_id r) → task_by_id t d = Some row →
  task_by_id t d1 = Some (if p row then f row else row).
Proof.
  intros (-> & _ & _)%update_rows_inv Hf Hrow. unfold task_by_id in *. simpl.
  rewrite select_one_on_rows by (intros; by rewrite Hf). by rewrite Hrow.
Qed.
End archive.

(** Archiving marks an active, idle Task as archived by the user, and unarchiving it
    again, whenever no other change came in between, restores every column of the Task
    but the time of its last update. *)
Theorem unarchive_undoes_archive `{Host} d t u k c r d1 u' k' c' r' d2 actor actor' row :
  archive_task t u k c d = Ok (r, d1) → unarchive_task t u' k' c' d1 = Ok (r', d2) →
  u_id u = Some actor → idempotency_record actor ARCHIVE_TASK k d = None →
  u_id u' = Some actor' → idempotency_record actor' UNARCHIVE_TASK k' d1 = None →
  task_by_id t d = Some row → tk_archived_at row = None → tk_archive_reason row = None →
  active_turn t d = None ∧
  task_by_id t d1 = Some (set_task_archive (Some c) (Some "user_archived") c row) ∧
  task_by_id t d2 = Some (set_task_archive None None c' row) ∧
  set_task_archive None None (tk_updated_at row) row = row.
Proof.
  unfold archive_task, unarchive_task. intros Ha Hu Hact Hn Hact' Hn' Hrow Hno Hnr.
  destruct (update_task_metadata_inv _ _ _ _ _ _ _ _ _ _ _ _ Ha Hact Hn) as (Hidle & _ & n & e & He & Ht).
  destruct (update_task_metadata_inv _ _ _ _ _ _ _ _ _ _ _ _ Hu Hact' Hn')
    as (_ & _ & n' & e' & He' & Ht').
  assert (tk_task_id row = t) as Hid by (apply select_one_Some in Hrow as [_ Hp]; by split_bools).
  apply (update_tasks_one t _ _ _ _ _ row) in He; [|done..].
  cbv beta in He. rewrite Hid, eqs_refl, Hno in He. simpl in He.
  assert (task_by_id t d1 = Some (set_task_archive (Some c) (Some "user_archived") c row)) as H1
    by (unfold task_by_id in *; by rewrite Ht).
  eapply (update_tasks_one t) in He'; [|done|exact H1].
  simpl in He'. rewrite Hid, eqs_refl in He'. simpl in He'.
  split_and!; auto.
  - unfold task_by_id in *. by rewrite Ht', He'.
  - destruct row. simpl in *. by subst.
Qed.

Definition demo_archived : db := Eval vm_compute in after (archive_task "task" alice "key21" 21) demo1.
Definition demo_unarchived : db := Eval vm_compute in
  after (unarchive_task "task" alice "key22" 22) demo_archived.

Lemma unarchive_undoes_archive_witness :
  ∃ row, task_by_id "task" demo1 = Some row ∧
    task_by_id "task" demo_unarchived = Some (set_task_archive None None 22 row).
Proof.
  destruct (task_by_id "task" demo1) as [row|] eqn:Hrow; [|discriminate Hrow].
  exists row. split; [reflexivity|].
  apply (unarchive_undoes_archive demo1 "task" alice "key21" 21
    (JObj [("task_id", JStr "task"); ("updated_at", JStr (isoformat 21))]) demo_archived alice "key22" 22
    (JObj [("task_id", JStr "task"); ("updated_at", JStr (isoformat 22))]) demo_unarchived "alice" "alice" row).
  - vm_compute. reflexivity.
  - vm_compute. reflexivity.
  - reflexivity.
  - reflexivity.
  - reflexivity.
  - reflexivity.
  - exact Hrow.
  - injection Hrow as <-. reflexivity.
  - injection Hrow as <-. reflexivity.
Defined.
