(* ===== verification/Findings.v ===== *)
(** * Divergences

    Behaviours of the code that its callers or its own vocabulary do not expect,
    each as a theorem about the definitions that model it. *)

From stdpp Require Import base tactics list strings relations.
From Stdlib Require Import ZArith Lia.
From S2P Require Import Prelude PyText Tables Contracts RegistryRows Schema Repository Service Acceptance.
From S2P Require Import Execution Evolution Methods Integrity System Running Origin.
From S2P Require Import Scenario Outcomes Admission.

Local Open Scope string_scope.
Local Open Scope Z_scope.
#[local] Hint Constants Opaque : typeclass_instances.
#[local] Hint Transparent dict time relation : typeclass_instances.

(** C40: [append_item] can never persist a tool result: it always passes a null
    [call_item_id], and the schema refuses a tool result without its call. *)
Theorem tool_results_are_never_persisted `{Host} x ac p pr ni o c i d :
  ∃ e, append_item x Item_TOOL_RESULT ac p pr ni o c i d = Err e.
Proof.
  destruct (append_item x Item_TOOL_RESULT ac p pr ni o c i d) as [[r d']|e] eqn:Hrun; [|by exists e].
  exfalso. unfold append_item in Hrun. tx_inv_all.
  match goal with Hi : insert_turn_item _ _ = Ok _ |- _ => apply insert_row_inv in Hi as [Hg _] end.
  guard_facts Hg. done.
Qed.

(** Once a Task had a next Turn that was promoted, no next Turn can be reserved
    behind a Turn in progress again: the reservation stays [ready] after its submission
    was delivered and keeps the one-pending-reservation index of the Task occupied, so
    the admission fails although [pending_next_turn] reports none. *)
Theorem released_reservation_blocks_the_next `{Host} auth t u input k ctx
    (scope : IdempotencyScope) retry allow c sid tid eid d actor turn n :
  u_id u = Some actor → idempotency_record actor scope k d = None →
  active_turn t d = Some turn →
  n ∈ next_turns d → nt_task_id n = t → nt_status n = Next_READY →
  ∃ e, admit_turn auth t u input k ctx scope retry allow c sid tid eid d = Err e.
Proof.
  intros Hact Hnew Ha Hn Ht Hst.
  destruct (admit_turn auth t u input k ctx scope retry allow c sid tid eid d) as [[[r no] d']|e] eqn:Hrun;
    [exfalso|by exists e].
  apply (admit_inv _ _ _ _ _ _ _ _ _ _ _ _ _ _ _ _ _ _ Hrun Hact) in Hnew as [_ _ _ _ _ _ _ Hnext].
  rewrite Ha in Hnext. destruct Hnext as (_ & _ & _ & _ & Hno). specialize (Hno n Hn Ht).
  unfold next_pending in Hno. by rewrite Hst in Hno.
Qed.

Lemma released_reservation_blocks_the_next_witness :
  reachable demo12 ∧ pending_next_turn "task" demo12 = None ∧
  ∃ e, create_turn grants "task" alice [("text", JStr "third")] "key30" None true 30 "sub3" "turn3"
         "ev30" demo12 = Err e.
Proof.
  split; [apply demo12_reachable|]. split; [reflexivity|].
  destruct (active_turn "task" demo12) as [turn|] eqn:Ha; [|discriminate Ha].
  destruct (next_turns demo12) as [|n l] eqn:Hn; [discriminate Hn|].
  assert (n ∈ next_turns demo12) as Hin by (rewrite Hn; constructor). injection Hn as Hn _.
  apply (released_reservation_blocks_the_next grants "task" alice [("text", JStr "third")] "key30"
    None CREATE_TURN None true 30 "sub3" "turn3" "ev30" demo12 "alice" turn n);
    [reflexivity | reflexivity | exact Ha | exact Hin | subst n; reflexivity | subst n; reflexivity].
Defined.

(** Accepting a delivery-unknown submission ignores the evidence that the provider
    reports: whatever sanitized evidence is passed, the outcome is the same, because the
    stored evidence takes its place. *)
Theorem late_acceptance_ignores_reported_evidence `{Host} {X}
    (side : option (string → time → option string → txn X))
    sid tk tr ln ev ev' bi ck cr mo c bu iu d s :
  submission_by_id sid d = Some s → sb_status s = Sub_DELIVERY_UNKNOWN →
  sanitized (JObj ev) = true → sanitized (JObj ev') = true →
  accept_submission side sid tk tr ln ev bi ck cr mo c bu iu d =
  accept_submission side sid tk tr ln ev' bi ck cr mo c bu iu d.
Proof.
  intros Hs Hst Hev Hev'. unfold accept_submission, require_sanitized. rewrite Hev, Hev'.
  unfold mbind, tx_bind, require, gets, mret, tx_ret.
  destruct (conversation_identity_ok ck cr); [|done]. destruct (begin_write d) as [[? d0]|] eqn:Hb; [|done].
  apply begin_write_inv in Hb as [_ ->]. rewrite Hs. simpl. by rewrite Hst.
Qed.

Lemma late_acceptance_ignores_reported_evidence_witness :
  let accept ev := accept_submission (X:=unit) None "sub1" "turn" "nt1"
    (mkLineage "codex" "codex-app-server" 1 None None None) ev None (Some "thread") (Some "th1") None
    6 "bind1" "item1" demo_unknown in
  accept [("receipt", JStr "provider")] = accept [("receipt", JStr "other")].
Proof.
  destruct (submission_by_id "sub1" demo_unknown) as [s|] eqn:Hs; [|discriminate Hs].
  apply (late_acceptance_ignores_reported_evidence (X:=unit) None "sub1" "turn" "nt1"
    (mkLineage "codex" "codex-app-server" 1 None None None) _ _ None (Some "thread") (Some "th1") None
    6 "bind1" "item1" demo_unknown s Hs); [injection Hs as <-|..]; reflexivity.
Defined.

(** [cancel_task] answers that the Task is cancelled also when it was completed, and
    leaves it completed. *)
Theorem cancelling_a_completed_task_misreports `{Host} d t u k c i r d' actor st :
  reachable d → cancel_task t u k c i d = Ok (r, d') →
  u_id u = Some actor → idempotency_record actor CANCEL_TASK k d = None →
  task_state t d = Some st → st_work_status st = Work_COMPLETED →
  task_state t d' = Some st ∧
  ∃ fields, r = JObj (("task_id", JStr t) :: ("work_status", JStr "cancelled") :: fields).
Proof.
  intros Hd Hrun Hact Hnew Hst Hc.
  apply cancel_task_inv in Hrun as (_ & _ & a & Ha & Hcase). simplify_eq. rewrite Hnew in Hcase.
  destruct Hcase as (st' & d1 & d2 & rows & d3 & Hst' & _ & _ & Ht1 & Hclose & Hloop & _ & Ht3 & Hr).
  simplify_eq. rewrite Hc in Hclose. simpl in Hclose. apply ret_Ok in Hclose as [_ ->].
  pose proof (cancel_pending_submissions_st _ _ _ _ _ Hloop) as Hst3. split; [|done].
  unfold task_state in *. by rewrite Ht3, Hst3, Ht1.
Qed.

Lemma cancelling_a_completed_task_misreports_witness :
  ∃ r d', cancel_task "task" alice "key31" 31 "ctl31" demo_completed = Ok (r, d') ∧
    (st_work_status <$> task_state "task" d') = Some Work_COMPLETED ∧
    ∃ fields, r = JObj (("task_id", JStr "task") :: ("work_status", JStr "cancelled") :: fields).
Proof.
  destruct (cancel_task "task" alice "key31" 31 "ctl31" demo_completed) as [[r d']|] eqn:Hrun;
    [|vm_compute in Hrun; discriminate Hrun].
  exists r, d'. split; [reflexivity|].
  destruct (task_state "task" demo_completed) as [st|] eqn:Hst; [|discriminate Hst].
  destruct (cancelling_a_completed_task_misreports demo_completed "task" alice "key31" 31 "ctl31" r d'
    "alice" st demo_completed_reachable Hrun eq_refl eq_refl Hst) as [Hst' Hr].
  - injection Hst as <-. reflexivity.
  - split; [rewrite Hst'; injection Hst as <-; reflexivity | exact Hr].
Defined.
