(* ===== verification/Projection.v ===== *)
(** * Task projections ([src/ainrf/domain/conversation_projection.py])

    The summary of a Task that the Console and the registry read: a status
    derived from the work state, the latest Turn, the live executions and the
    pending submissions, together with its times.  Token usage and cost, which
    the source sums with floating point numbers, are left out. *)

From stdpp Require Import base tactics list strings.
From Stdlib Require Import ZArith Lia.
From S2P Require Import Prelude PyText Tables Contracts RegistryRows Schema Repository.

Local Open Scope string_scope.

Record ConversationTaskProjection := mkProjection {
  tp_work_status : TaskWorkStatus;
  tp_status : ConversationTaskStatus;
  tp_started_at : option time;
  tp_completed_at : option time;
  tp_latest_item_seq : Z;
  tp_error_summary : option string;
  tp_execution_alive : bool;
  tp_last_event_at : option time }.

Definition min_time (l : list time) : option time :=
  match l with [] => None | t :: l' => Some (foldl Z.min t l') end.
Definition max_time (l : list time) : option time :=
  match l with [] => None | t :: l' => Some (foldl Z.max t l') end.

(** [_PENDING_SUBMISSION] *)
Definition submission_pending (s : submission_row) : bool :=
  match sb_status s with
  | Sub_QUEUED | Sub_CLAIMED | Sub_DELIVERING | Sub_DELIVERY_UNKNOWN => true
  | _ => false
  end.

Definition project_task_status (work_status : TaskWorkStatus) (latest_turn : option turn_row)
    (execution_alive pending : bool) : ConversationTaskStatus :=
  if execution_alive then Task_RUNNING
  else if pending then Task_QUEUED
  else if bool_decide (work_status = Work_CANCELLED) then Task_CANCELLED
  else
    match tn_status <$> latest_turn with
    | Some Turn_FAILED => Task_FAILED
    | Some Turn_INTERRUPTED => Task_CANCELLED
    | Some Turn_COMPLETED => Task_SUCCEEDED
    | _ => if bool_decide (work_status = Work_COMPLETED) then Task_COMPLETED else Task_QUEUED
    end.

(** [tuple(dict.fromkeys(task_id for task_id in task_ids if task_id))]: the
    first occurrence of each non-empty identifier. *)
Fixpoint unique_ids (seen task_ids : list string) : list string :=
  match task_ids with
  | [] => []
  | t :: rest =>
      if truthy t && negb (bool_decide (t ∈ seen)) then t :: unique_ids (t :: seen) rest
      else unique_ids seen rest
  end.

Definition executions_by_turn (unique : list string) (turn_id : string) (d : db) :
    list execution_row :=
  order_by (λ a b, Z.leb (ex_execution_seq a) (ex_execution_seq b))
    (select (λ e, bool_decide (ex_task_id e ∈ unique) && eqs (ex_turn_id e) turn_id)
       (executions d)).

Definition items_by_turn (unique : list string) (turn_id : string) (d : db) : list item_row :=
  order_by (λ a b, Z.leb (it_turn_item_seq a) (it_turn_item_seq b))
    (select (λ i, bool_decide (it_task_id i ∈ unique) && eqs (it_turn_id i) turn_id)
       (turn_items d)).

(** One iteration of the loop over [unique]. *)
Definition task_projection (unique : list string) (d : db) (task_id : string) :
    option ConversationTaskProjection :=
  match task_state task_id d with
  | None => None
  | Some state =>
      let turns := repo_list_turns task_id d in
      let executions : list execution_row := turns ≫= λ t, executions_by_turn unique (tn_turn_id t) d in
      let items : list item_row := turns ≫= λ t, items_by_turn unique (tn_turn_id t) d in
      let alive := existsb exec_active executions in
      let pending := row_exists (λ s, eqs (sb_task_id s) task_id && submission_pending s)
                       (submissions d) in
      let latest_turn := last turns in
      Some (mkProjection (st_work_status state)
        (project_task_status (st_work_status state) latest_turn alive pending)
        (min_time (omap tn_started_at turns))
        (max_time (omap tn_finished_at turns))
        (foldr Z.max 0%Z (it_task_item_seq <$> items))
        (latest_turn ≫= tn_failure_code)
        alive
        (max_time ((ex_updated_at <$> executions) ++ (it_persisted_at <$> items))%list))
  end.

(** [projections_for_tasks]: the entries of the result, in order. *)
Definition projections_for_tasks (task_ids : list string) (d : db) :
    list (string * ConversationTaskProjection) :=
  let unique := unique_ids [] task_ids in
  omap (λ t, p ← task_projection unique d t; Some (t, p)) unique.

Definition projection_of (task_id : string)
    (projections : list (string * ConversationTaskProjection)) :
    option ConversationTaskProjection :=
  snd <$> select_one (λ p, eqs p.1 task_id) projections.

(** The status that the registry counts: a Task without projection is queued. *)
Definition status_among (task_ids : list string) (d : db) (task_id : string) :
    ConversationTaskStatus :=
  match projection_of task_id (projections_for_tasks task_ids d) with
  | Some p => tp_status p
  | None => Task_QUEUED
  end.
