(* ===== verification/RegistryRepository.v ===== *)
(** * The registry's tables and statements
    ([src/ainrf/domain/repositories.py] and the registry tables of
    [src/ainrf/db/baselines/agentic_researcher.sql])

    The constraints of the registry tables, as guards of inserts and updates,
    and one definition per method of [_SqliteDomainRepository]. *)

From stdpp Require Import base tactics list strings.
From Stdlib Require Import ZArith Lia.
From S2P Require Import Prelude PyText Tables Contracts RegistryRows Schema Repository Projection.

Local Open Scope string_scope.

(** ** Statements *)

(** [INSERT ... ON CONFLICT(key) DO UPDATE SET ...]: [merge new old]. *)
Definition upsert_row {R} (table : db → list R) (put : (list R → list R) → db → db)
    (same_key : R → R → bool) (insert_guard : db → R → option string)
    (update_guard : db → R → R → option string) (merge : R → R → R) (row : R) : txn unit := λ d,
  if row_exists (same_key row) (table d) then
    match update_where (same_key row) (update_guard d) (merge row) (table d) with
    | Ok (_, u) => Ok (tt, put (λ _, u) d)
    | Err c => Err (IntegrityError c)
    end
  else insert_row insert_guard put row d.

(** [INSERT ... ON CONFLICT(key) DO NOTHING] *)
Definition insert_or_ignore {R} (table : db → list R) (put : (list R → list R) → db → db)
    (same_key : R → R → bool) (insert_guard : db → R → option string) (row : R) : txn unit := λ d,
  if row_exists (same_key row) (table d) then Ok (tt, d)
  else insert_row insert_guard put row d.

(** [DELETE FROM table WHERE p]: returns [rowcount]. *)
Definition delete_rows {R} (table : db → list R) (put : (list R → list R) → db → db)
    (p : R → bool) : txn Z := λ d,
  Ok (Z.of_nat (length (select p (table d))), put (List.filter (λ r, negb (p r))) d).

(** ** Constraints *)

Definition project_active (p : project_row) : bool := bool_decide (pj_status p = Project_ACTIVE).
Definition environment_active (e : environment_row) : bool :=
  bool_decide (en_status e = Env_ACTIVE).
Definition workspace_active (w : workspace_row) : bool :=
  bool_decide (ws_status w = Workspace_ACTIVE).
Definition link_active (l : link_row) : bool := bool_decide (ln_status l = Link_ACTIVE).

Definition project_exists (d : db) (project_id : string) : bool :=
  row_exists (λ p, eqs (pj_project_id p) project_id) (projects d).
Definition environment_exists (d : db) (environment_id : string) : bool :=
  row_exists (λ e, eqs (en_environment_id e) environment_id) (environments d).
Definition workspace_exists (d : db) (workspace_id : string) : bool :=
  row_exists (λ w, eqs (ws_workspace_id w) workspace_id) (workspaces d).

(** The rows of an index other than the one that is updated. *)
Definition others {R} (key : R → string) (row : R) (t : list R) : list R :=
  select (λ x, negb (eqs (key x) (key row))) t.

Definition default_active (p : project_row) : bool := pj_is_default p && project_active p.

Definition project_insert_guard (d : db) (p : project_row) : option string :=
  violation
    [(index_free always pj_project_id p (projects d), "projects_pk");
     (index_free default_active pj_owner_user_id p (projects d),
      "idx_projects_one_default_per_owner")].

Definition project_update_guard (d : db) (old new : project_row) : option string :=
  violation
    [(index_free default_active pj_owner_user_id new (others pj_project_id new (projects d)),
      "idx_projects_one_default_per_owner")].

Definition member_insert_guard (d : db) (m : member_row) : option string :=
  violation
    [(project_exists d (mb_project_id m), "project_members_project_fk");
     (index_free always (λ x, (mb_project_id x, mb_user_id x)) m (project_members d),
      "project_members_pk")].

Definition environment_insert_guard (d : db) (e : environment_row) : option string :=
  violation
    [(index_free always en_environment_id e (environments d), "environments_pk");
     (index_free always en_alias e (environments d), "environments_alias_unique")].

Definition environment_update_guard (d : db) (old new : environment_row) : option string :=
  violation
    [(index_free always en_alias new (others en_environment_id new (environments d)),
      "environments_alias_unique")].

Definition workspace_path (w : workspace_row) :=
  (ws_owner_user_id w, ws_environment_id w, ws_canonical_path w).

Definition workspace_insert_guard (d : db) (w : workspace_row) : option string :=
  violation
    [(environment_exists d (ws_environment_id w), "workspaces_environment_fk");
     (index_free always ws_workspace_id w (workspaces d), "workspaces_pk");
     (index_free always workspace_path w (workspaces d), "workspaces_path_unique")].

Definition workspace_update_guard (d : db) (old new : workspace_row) : option string :=
  violation
    [(index_free always workspace_path new (others ws_workspace_id new (workspaces d)),
      "workspaces_path_unique")].

Definition same_link (a b : link_row) : bool :=
  eqs (ln_project_id b) (ln_project_id a) && eqs (ln_workspace_id b) (ln_workspace_id a).
Definition primary_active (l : link_row) : bool := ln_is_primary l && link_active l.

Definition link_insert_guard (d : db) (l : link_row) : option string :=
  violation
    [(implb (ln_is_primary l) (link_active l), "primary_link_must_be_active_insert");
     (project_exists d (ln_project_id l), "project_workspace_links_project_fk");
     (workspace_exists d (ln_workspace_id l), "project_workspace_links_workspace_fk");
     (index_free always (λ x, (ln_project_id x, ln_workspace_id x)) l (workspace_links d),
      "project_workspace_links_pk");
     (index_free primary_active ln_project_id l (workspace_links d),
      "idx_project_workspace_one_primary")].

Definition link_update_guard (d : db) (old new : link_row) : option string :=
  violation
    [(implb (ln_is_primary new) (link_active new), "primary_link_must_be_active_update");
     (index_free primary_active ln_project_id new
        (select (λ x, negb (same_link new x)) (workspace_links d)),
      "idx_project_workspace_one_primary")].

Definition relationship_key (r : relationship_row) :=
  (rl_source_task_id r, rl_target_task_id r, rl_relationship_type r).
Definition same_relationship (a b : relationship_row) : bool :=
  bool_decide (relationship_key b = relationship_key a).

Definition relationship_insert_guard (d : db) (r : relationship_row) : option string :=
  violation
    [(task_exists d (rl_source_task_id r), "task_relationships_source_fk");
     (task_exists d (rl_target_task_id r), "task_relationships_target_fk");
     (index_free (λ x, not_none (rl_relationship_id x)) rl_relationship_id r
        (task_relationships d), "idx_task_relationship_stable_id")].

Definition draft_insert_guard (d : db) (c : context_draft_row) : option string :=
  violation
    [(project_exists d (dr_project_id c), "project_context_drafts_project_fk");
     (index_free always dr_project_id c (context_drafts d), "project_context_drafts_pk")].

Definition version_insert_guard (d : db) (v : context_version_row) : option string :=
  violation
    [(project_exists d (cv_project_id v), "project_context_versions_project_fk");
     (index_free always cv_context_version_id v (context_versions d),
      "project_context_versions_pk");
     (index_free cv_is_active cv_project_id v (context_versions d),
      "idx_context_active_per_project")].

Definition provenance_insert_guard (d : db) (p : provenance_row) : option string :=
  violation
    [(row_exists (λ v, eqs (cv_context_version_id v) (pv_context_version_id p))
        (context_versions d), "project_context_version_provenance_version_fk");
     (index_free always pv_context_version_id p (context_provenance d),
      "project_context_version_provenance_pk")].

(** ** Projects and members *)

Definition project_by_id (project_id : string) (d : db) : option project_row :=
  select_one (λ p, eqs (pj_project_id p) project_id) (projects d).

(** [ORDER BY CASE status WHEN 'active' THEN 0 ELSE 1 END, created_at, project_id] *)
Definition by_default_order (a b : project_row) : bool :=
  let rank p := if project_active p then 0%Z else 1%Z in
  Z.ltb (rank a) (rank b)
  || (Z.eqb (rank a) (rank b)
      && (Z.ltb (pj_created_at a) (pj_created_at b)
          || (Z.eqb (pj_created_at a) (pj_created_at b)
              && String.leb (pj_project_id a) (pj_project_id b)))).

Definition default_projects_for_owner (owner_user_id : string) (d : db) : list project_row :=
  order_by by_default_order
    (select (λ p, eqs (pj_owner_user_id p) owner_user_id && pj_is_default p) (projects d)).

Definition insert_project (project_id owner_user_id name : string) (description : option string)
    (status : ProjectStatus) (is_default : bool) (created_at updated_at : time) : txn unit :=
  insert_row project_insert_guard with_projects
    (mkProject project_id owner_user_id name description status is_default None None created_at
       updated_at).

Definition repo_update_project (project_id : string) (f : project_row → project_row) : txn Z :=
  update_rows projects with_projects (λ p, eqs (pj_project_id p) project_id)
    project_update_guard f.

(** [ORDER BY updated_at DESC, project_id] *)
Definition by_recent {R} (updated_at : R → time) (key : R → string) (a b : R) : bool :=
  Z.ltb (updated_at b) (updated_at a)
  || (Z.eqb (updated_at a) (updated_at b) && String.leb (key a) (key b)).

(** [SELECT DISTINCT ... LEFT JOIN project_members]: a Project appears once. *)
Definition list_projects_visible (user_id : string) (admin include_archived : bool) (d : db) :
    list project_row :=
  order_by (by_recent pj_updated_at pj_project_id)
    (select (λ p,
       (admin || eqs (pj_owner_user_id p) user_id
        || row_exists (λ m, eqs (mb_project_id m) (pj_project_id p) && eqs (mb_user_id m) user_id)
             (project_members d))
       && (include_archived || project_active p)) (projects d)).

Definition same_member (a b : member_row) : bool :=
  eqs (mb_project_id b) (mb_project_id a) && eqs (mb_user_id b) (mb_user_id a).

(** [DO UPDATE SET role, can_publish, updated_at = excluded....] *)
Definition merge_member (new old : member_row) : member_row :=
  mkMember (mb_project_id old) (mb_user_id old) (mb_role new) (mb_can_publish new)
    (mb_created_at old) (mb_updated_at new).

Definition upsert_project_member (project_id user_id : string) (role : MemberRole)
    (can_publish : bool) (now : time) : txn unit :=
  upsert_row project_members with_members same_member member_insert_guard (λ _ _ _, None)
    merge_member (mkMember project_id user_id role can_publish now now).

Definition remove_project_member (project_id user_id : string) : txn Z :=
  delete_rows project_members with_members
    (λ m, eqs (mb_project_id m) project_id && eqs (mb_user_id m) user_id).

Definition list_project_members (project_id : string) (d : db) : list member_row :=
  order_by (λ a b, Z.ltb (mb_created_at a) (mb_created_at b)
              || (Z.eqb (mb_created_at a) (mb_created_at b)
                  && String.leb (mb_user_id a) (mb_user_id b)))
    (select (λ m, eqs (mb_project_id m) project_id) (project_members d)).

(** ** Activity of a Project or Workspace *)

Definition task_busy (s : ConversationTaskStatus) : bool :=
  match s with Task_QUEUED | Task_RUNNING => true | _ => false end.

Record activity_summary := mkActivity {
  act_task_count : Z;
  act_active_task_count : Z;
  act_running_task_count : Z;
  act_failed_task_count : Z;
  act_latest_task_activity_at : option time }.

Definition count {A} (p : A → bool) (l : list A) : Z := Z.of_nat (length (List.filter p l)).

(** The body that [project_activity_summary] and [workspace_activity_summary]
    share; a Workspace's summary reports no running and failed counts. *)
Definition activity_of (rows : list task_row) (d : db) : activity_summary :=
  let status t := status_among (tk_task_id <$> rows) d (tk_task_id t) in
  let unarchived := List.filter (λ t, is_none (tk_archived_at t)) rows in
  mkActivity (Z.of_nat (length rows))
    (count (λ t, task_busy (status t)) unarchived)
    (count (λ t, bool_decide (status t = Task_RUNNING)) unarchived)
    (count (λ t, bool_decide (status t = Task_FAILED)) unarchived)
    (max_time (tk_updated_at <$> rows)).

Definition project_activity_summary (project_id : string) (d : db) : activity_summary :=
  activity_of (select (λ t, eqs (tk_project_id t) project_id) (tasks d)) d.

Definition workspace_activity_summary (workspace_id : string) (d : db) : activity_summary :=
  activity_of (select (λ t, eqs (tk_workspace_id t) workspace_id) (tasks d)) d.

Definition workspace_active_task_count (workspace_id : string) (d : db) : Z :=
  let rows := select (λ t, eqs (tk_workspace_id t) workspace_id) (tasks d) in
  count (λ t, task_busy (status_among (tk_task_id <$> rows) d (tk_task_id t))) rows.

(** ** Task relationships *)

Definition project_tasks_exist (project_id source_task_id target_task_id : string) (d : db) : bool :=
  Z.eqb (count (λ t, eqs (tk_project_id t) project_id
                  && (eqs (tk_task_id t) source_task_id || eqs (tk_task_id t) target_task_id))
           (tasks d)) 2.

Definition in_project (project_id : string) (d : db) (task_id : string) : bool :=
  row_exists (λ t, eqs (tk_task_id t) task_id && eqs (tk_project_id t) project_id) (tasks d).

Definition list_related_task_relationships (project_id : string) (d : db) : list relationship_row :=
  order_by (λ a b, Z.ltb (rl_created_at a) (rl_created_at b)
              || (Z.eqb (rl_created_at a) (rl_created_at b)
                  && String.leb (default "" (rl_relationship_id a))
                       (default "" (rl_relationship_id b))))
    (select (λ r, in_project project_id d (rl_source_task_id r)
               && in_project project_id d (rl_target_task_id r)) (task_relationships d)).

Definition insert_task_relationship (source_task_id target_task_id : string)
    (relationship_type : RelationshipType) (relationship_id : string) (metadata : dict)
    (created_at : time) : txn unit :=
  insert_or_ignore task_relationships with_relationships same_relationship
    relationship_insert_guard
    (mkRelationship source_task_id target_task_id relationship_type created_at
       (Some relationship_id) metadata).

Definition task_relationship_for_pair (source_task_id target_task_id : string)
    (relationship_type : RelationshipType) (d : db) : option relationship_row :=
  select_one (λ r, bool_decide (relationship_key r
                     = (source_task_id, target_task_id, relationship_type)))
    (task_relationships d).

(** The source Task of the relationship and the Project it is in. *)
Definition related_task_relationship (relationship_id : string) (d : db) :
    option (string * string) :=
  r ← select_one (λ r, eqo (rl_relationship_id r) (Some relationship_id)
                    && bool_decide (rl_relationship_type r = Rel_RELATED_TO)
                    && task_exists d (rl_source_task_id r)) (task_relationships d);
  source ← task_by_id (rl_source_task_id r) d;
  Some (rl_source_task_id r, tk_project_id source).

Definition repo_delete_task_relationship (relationship_id : string) : txn Z :=
  delete_rows task_relationships with_relationships
    (λ r, eqo (rl_relationship_id r) (Some relationship_id)).

(** ** Environments *)

Definition environment_by_id (environment_id : string) (d : db) : option environment_row :=
  select_one (λ e, eqs (en_environment_id e) environment_id) (environments d).

Definition insert_environment (environment_id alias owner_user_id display_name : string)
    (description : option string) (connection : dict) (connection_fingerprint : string)
    (credential_ref : option string) (created_at updated_at : time) : txn unit :=
  insert_row environment_insert_guard with_environments
    (mkEnvironment environment_id alias (Some owner_user_id) display_name description connection
       credential_ref false Env_ACTIVE created_at updated_at (Some connection_fingerprint) None
       None).

Definition repo_update_environment (environment_id : string)
    (f : environment_row → environment_row) : txn Z :=
  update_rows environments with_environments (λ e, eqs (en_environment_id e) environment_id)
    environment_update_guard f.

Definition environment_is_referenced (environment_id : string) (d : db) : bool :=
  row_exists (λ w, eqs (ws_environment_id w) environment_id) (workspaces d)
  || row_exists (λ t, eqs (tk_environment_id t) environment_id) (tasks d).

Definition repo_list_environments (include_disabled : bool) (d : db) : list environment_row :=
  order_by (λ a b, match String.compare (en_alias a) (en_alias b) with
                   | Lt => true
                   | Eq => String.leb (en_environment_id a) (en_environment_id b)
                   | Gt => false
                   end)
    (select (λ e, include_disabled || environment_active e) (environments d)).

(** ** Workspaces and links *)

Definition workspace_owner (workspace_id : string) (d : db) : option string :=
  ws_owner_user_id <$> workspace_by_id workspace_id d.

Definition insert_workspace (workspace_id owner_user_id environment_id canonical_path label : string)
    (description : option string) (context_metadata : dict)
    (workspace_context legacy_project_id : option string) (created_at updated_at : time) :
    txn unit :=
  insert_row workspace_insert_guard with_workspaces
    (mkWorkspace workspace_id owner_user_id environment_id canonical_path label description
       context_metadata Workspace_ACTIVE legacy_project_id created_at updated_at
       workspace_context None None None None).

Definition repo_update_workspace (workspace_id : string) (f : workspace_row → workspace_row) :
    txn Z :=
  update_rows workspaces with_workspaces (λ w, eqs (ws_workspace_id w) workspace_id)
    workspace_update_guard f.

Definition list_workspaces_owned (user_id : option string) (include_unregistered : bool) (d : db) :
    list workspace_row :=
  order_by (by_recent ws_updated_at ws_workspace_id)
    (select (λ w, match user_id with Some u => eqs (ws_owner_user_id w) u | None => true end
               && (include_unregistered || workspace_active w)) (workspaces d)).

(** A join, row by row: links in table order, each with its Workspace. *)
Definition linked_workspaces (p : link_row → bool) (d : db) : list (link_row * workspace_row) :=
  omap (λ l, w ← workspace_by_id (ln_workspace_id l) d; Some (l, w))
    (select p (workspace_links d)).

Definition bool_desc (a b : bool) : bool := a && negb b.

Definition list_workspaces_linked_to_project (project_id : string) (owner_user_id : option string)
    (include_unregistered : bool) (d : db) : list workspace_row :=
  snd <$> order_by (λ a b, bool_desc (ln_is_primary a.1) (ln_is_primary b.1)
                     || (Bool.eqb (ln_is_primary a.1) (ln_is_primary b.1)
                         && by_recent ws_updated_at ws_workspace_id a.2 b.2))
    (List.filter (λ lw,
       match owner_user_id with Some u => eqs (ws_owner_user_id lw.2) u | None => true end
       && (include_unregistered || workspace_active lw.2))
      (linked_workspaces (λ l, eqs (ln_project_id l) project_id && link_active l) d)).

Definition project_workspace_link (project_id workspace_id : string) (d : db) : option link_row :=
  select_one (λ l, eqs (ln_project_id l) project_id && eqs (ln_workspace_id l) workspace_id)
    (workspace_links d).

Definition active_primary_for_workspace (workspace_id : string) (d : db) : option link_row :=
  select_one (λ l, eqs (ln_workspace_id l) workspace_id && primary_active l) (workspace_links d).

Definition active_primary_for_project (project_id : string) (d : db) : option link_row :=
  select_one (λ l, eqs (ln_project_id l) project_id && primary_active l) (workspace_links d).

(** Links of a Project with their Workspace and its Environment. *)
Definition list_workspace_links (project_id : string) (d : db) :
    list (link_row * workspace_row * environment_row) :=
  order_by (λ a b,
      bool_desc (ln_is_primary a.1.1) (ln_is_primary b.1.1)
      || (Bool.eqb (ln_is_primary a.1.1) (ln_is_primary b.1.1)
          && (Z.ltb (ln_created_at a.1.1) (ln_created_at b.1.1)
              || (Z.eqb (ln_created_at a.1.1) (ln_created_at b.1.1)
                  && String.leb (ln_workspace_id a.1.1) (ln_workspace_id b.1.1)))))
    (omap (λ lw, e ← environment_by_id (ws_environment_id lw.2) d; Some (lw, e))
       (linked_workspaces (λ l, eqs (ln_project_id l) project_id) d)).

(** Links of a Workspace with their Project. *)
Definition list_project_links_for_workspace (workspace_id : string) (d : db) :
    list (link_row * project_row) :=
  order_by (λ a b,
      bool_desc (ln_is_primary a.1) (ln_is_primary b.1)
      || (Bool.eqb (ln_is_primary a.1) (ln_is_primary b.1)
          && match String.compare (pj_name a.2) (pj_name b.2) with
             | Lt => true
             | Eq => String.leb (ln_project_id a.1) (ln_project_id b.1)
             | Gt => false
             end))
    (omap (λ l, p ← project_by_id (ln_project_id l) d; Some (l, p))
       (select (λ l, eqs (ln_workspace_id l) workspace_id) (workspace_links d))).

Definition linked_workspace_state (workspace_id : string) (d : db) :
    option (workspace_row * environment_row) :=
  w ← workspace_by_id workspace_id d;
  e ← environment_by_id (ws_environment_id w) d;
  Some (w, e).

Definition set_link (status : LinkStatus) (is_primary : bool) (actor_id : string)
    (updated_at : time) (l : link_row) : link_row :=
  mkLink (ln_project_id l) (ln_workspace_id l) status is_primary actor_id (ln_created_at l)
    updated_at.

Definition clear_active_primary (project_id : string) (now : time) : txn Z :=
  update_rows workspace_links with_links
    (λ l, eqs (ln_project_id l) project_id && link_active l) link_update_guard
    (λ l, set_link (ln_status l) false (ln_actor_id l) now l).

Definition upsert_project_workspace_link (project_id workspace_id : string) (is_primary : bool)
    (actor_id : string) (now : time) : txn unit :=
  upsert_row workspace_links with_links same_link link_insert_guard link_update_guard
    (λ new, set_link Link_ACTIVE (ln_is_primary new) (ln_actor_id new) (ln_updated_at new))
    (mkLink project_id workspace_id Link_ACTIVE is_primary actor_id now now).

Definition retire (now : time) (l : link_row) : link_row :=
  set_link Link_RETIRED false (ln_actor_id l) now l.

Definition retire_project_workspace_link (project_id workspace_id : string) (now : time) : txn Z :=
  update_rows workspace_links with_links
    (λ l, eqs (ln_project_id l) project_id && eqs (ln_workspace_id l) workspace_id)
    link_update_guard (retire now).

Definition set_workspace_status (status : WorkspaceStatus) (updated_at : time)
    (w : workspace_row) : workspace_row :=
  mkWorkspace (ws_workspace_id w) (ws_owner_user_id w) (ws_environment_id w)
    (ws_canonical_path w) (ws_label w) (ws_description w) (ws_context_metadata w) status
    (ws_legacy_project_id w) (ws_created_at w) updated_at (ws_workspace_context w)
    (ws_canonical_path_fingerprint w) (ws_unregistered_at w) (ws_unregistered_reason w)
    (ws_last_seen_at w).

Definition unregister_workspace_and_retire_links (workspace_id : string) (now : time) : txn unit :=
  update_rows workspaces with_workspaces (λ w, eqs (ws_workspace_id w) workspace_id)
    workspace_update_guard (set_workspace_status Workspace_UNREGISTERED now) ≫= λ _,
  update_rows workspace_links with_links (λ l, eqs (ln_workspace_id l) workspace_id)
    link_update_guard (retire now) ≫= λ _, mret tt.

(** ** Context rows of a new Project *)

Definition insert_context_draft (project_id content updated_by_user_id : string)
    (updated_at : time) : txn unit :=
  insert_row draft_insert_guard with_drafts
    (mkContextDraft project_id content updated_by_user_id updated_at).

Definition insert_context_version (context_version_id project_id content fingerprint : string)
    (fragment_manifest : list json) (is_active : bool) (created_by_user_id : string)
    (created_at : time) : txn unit :=
  insert_row version_insert_guard with_versions
    (mkContextVersion context_version_id project_id content fingerprint is_active
       created_by_user_id created_at fragment_manifest).

Definition insert_context_provenance (context_version_id : string) (status : ProvenanceStatus)
    (evidence : dict) (recorded_at : time) : txn unit :=
  insert_row provenance_insert_guard with_provenance
    (mkProvenance context_version_id status evidence recorded_at).
