(* ===== verification/EnvironmentIdentity.v ===== *)
(** * Identity of an Environment's endpoint
    ([src/ainrf/domain/environment_identity.py])

    The canonical copy of a connection object and the fingerprint of the fields
    that say which endpoint it reaches. *)

From stdpp Require Import base tactics list strings.
From Stdlib Require Import ZArith Lia.
From S2P Require Import Prelude PyText PyJson Tables Contracts RegistryRows Schema Repository.
From S2P Require Import Service.

Local Open Scope string_scope.
Local Open Scope tx_scope.

(** What the domain services take from their process: the release it runs as, the
    resolution of paths on its file system ([str(Path(p).expanduser().resolve())]),
    Python's [str(value)] of a decoded JSON value, the parameters of
    [ProjectContextService], whose constructor refuses a negative budget,
    [difflib.unified_diff] over the lines of two texts, and
    [tenant_identity.is_container_environment()]. *)
Class Kernel := {
  artifact_sha : option string;
  canonical_workspace_path : string → string;
  py_str : json → string;
  context_byte_budget : Z;
  platform_constraints : string;
  unified_diff : string → string → string;
  container_environment : bool;
  context_byte_budget_nonneg : (0 ≤ context_byte_budget)%Z;
}.

Section identity.
Context `{Host, Kernel}.

Definition canonical_fields (connection : dict) : dict :=
  match sort_keys (JObj connection) with JObj d => d | _ => [] end.

Definition canonical_connection_object (connection : dict) : txn dict :=
  require (json_finite (JObj connection)) ValueError;;
  mret (canonical_fields connection).

Definition canonical_connection_json (connection : dict) : txn string :=
  c ← canonical_connection_object connection;
  mret (compact_json (JObj c)).

Definition text_or_default (value : option json) (default : string) : string :=
  match value with
  | Some (JStr s) => if truthy s then s else default
  | _ => default
  end.

Definition optional_text (value : option json) : option string :=
  match value with
  | Some (JStr s) => if truthy s then Some s else None
  | _ => None
  end.

Definition port_in_range (n : Z) : bool := Z.leb 1 n && Z.leb n 65535.

Definition port_or_default (value : option json) (default : Z) : Z :=
  match value with
  | Some (JInt n) => if port_in_range n then n else default
  | Some (JStr s) =>
      match py_int s with
      | Some n => if port_in_range n then n else default
      | None => default
      end
  | _ => default
  end.

Definition string_mapping (value : option json) : dict :=
  match value with
  | Some (JObj d) => map (λ kv, (kv.1, JStr (py_str kv.2))) (foldr insert_sorted [] d)
  | _ => []
  end.

(** The fields that establish an endpoint, of a canonical connection object. *)
Definition endpoint (c : dict) : dict :=
  [("auth_kind", JStr (text_or_default (dict_get "auth_kind" c) "ssh_key"));
   ("host", JStr (text_or_default (dict_get "host" c) ""));
   ("identity_file", json_of_option (optional_text (dict_get "identity_file" c)));
   ("port", JInt (port_or_default (dict_get "port" c) 22));
   ("proxy_command", json_of_option (optional_text (dict_get "proxy_command" c)));
   ("proxy_jump", json_of_option (optional_text (dict_get "proxy_jump" c)));
   ("ssh_options", JObj (string_mapping (dict_get "ssh_options" c)));
   ("user", JStr (text_or_default (dict_get "user" c) "root"))].

Definition environment_connection_fingerprint (connection : dict) : txn string :=
  normalized ← canonical_connection_object connection;
  mret (sha256_hex (compact_json (JObj (endpoint normalized)))).
End identity.
