(* ===== verification/Authorization.v ===== *)
(** * Authorization of Projects, Workspaces and Environments
    ([DomainAuthorizationService] and the Environment checks of
    [_DomainWriteKernel] in [src/ainrf/domain/service.py])

    A caller who may not see a resource gets [DomainNotFoundError], as for one
    that does not exist; a caller who sees it but lacks the capability gets
    [DomainPermissionError].  The telemetry that each denial also records is not
    part of the database. *)

From stdpp Require Import base tactics list strings.
From Stdlib Require Import ZArith Lia.
From S2P Require Import Prelude PyText Tables Contracts RegistryRows Schema Repository Projection.
From S2P Require Import RegistryRepository Service.

Local Open Scope string_scope.
Local Open Scope tx_scope.

(** [role in {...}] *)
Definition is_editor (role : string) : bool :=
  eqs role "admin" || eqs role "owner" || eqs role "editor".
Definition is_manager (role : string) : bool := eqs role "admin" || eqs role "owner".

Definition require_project_editor (project_id : string) (u : user) : txn unit :=
  role ← gets (project_role project_id u);
  role ← require_some role (DomainNotFoundError project_id);
  require (is_editor role) (DomainPermissionError "project_editor_required").

Definition require_project_owner (project_id : string) (u : user) : txn unit :=
  role ← gets (project_role project_id u);
  role ← require_some role (DomainNotFoundError project_id);
  require (is_manager role) (DomainPermissionError "project_owner_required").

Definition require_project_viewer (project_id : string) (u : user) : txn string :=
  role ← gets (project_role project_id u);
  require_some role (DomainNotFoundError project_id).

Definition require_project_publisher (project_id : string) (u : user) : txn unit :=
  _ ← require_project_viewer project_id u;
  owner ← gets (project_owner project_id);
  if eqo owner (u_id u) then mret tt
  else
    member ← gets (λ d, uid ← u_id u; project_member project_id uid d);
    require (match member with
             | Some m => bool_decide (mb_role m = Role_EDITOR) && mb_can_publish m
             | None => false
             end) (DomainPermissionError "project_publish_required").

Definition require_workspace_viewer (workspace_id : string) (u : user) : txn unit :=
  owner ← gets (workspace_owner workspace_id);
  owner ← require_some owner (DomainNotFoundError workspace_id);
  require (is_admin u || owner_is u owner) (DomainNotFoundError workspace_id).

Definition require_workspace_owner (workspace_id : string) (u : user) (resource_visible : bool) :
    txn unit :=
  owner ← gets (workspace_owner workspace_id);
  owner ← require_some owner (DomainNotFoundError workspace_id);
  if owner_is u owner then mret tt
  else if is_admin u || resource_visible then
    raise (DomainPermissionError "workspace_owner_required")
  else raise (DomainNotFoundError workspace_id).

Definition require_workspace_registry_manager (workspace_id : string) (u : user)
    (resource_visible : bool) : txn unit :=
  owner ← gets (workspace_owner workspace_id);
  owner ← require_some owner (DomainNotFoundError workspace_id);
  if owner_is u owner || is_admin u then mret tt
  else if resource_visible then raise (DomainPermissionError "workspace_owner_required")
  else raise (DomainNotFoundError workspace_id).

(** ** Environments *)

Definition has_environment_access (auth : option (list access_row)) (environment_id : string)
    (u : user) (owner_user_id : option string) : txn bool :=
  user_id ← actor_of u;
  mret (is_admin u || eqo owner_user_id (Some user_id)
        || has_active_environment_execution_grant auth environment_id user_id).

Definition has_environment_execution_access (auth : option (list access_row))
    (environment_id : string) (u : user) : txn bool :=
  user_id ← actor_of u;
  mret (has_active_environment_execution_grant auth environment_id user_id).

Definition require_environment_execution_access (auth : option (list access_row))
    (environment_id : string) (owner_user_id : option string) (u : user) : txn unit :=
  can_execute ← has_environment_execution_access auth environment_id u;
  if (can_execute : bool) then mret tt
  else
    visible ← has_environment_access auth environment_id u owner_user_id;
    if (visible : bool) then raise (DomainPermissionError "")
    else raise (DomainNotFoundError environment_id).

(** [users] are the identifiers of the auth database, [None] if it is missing. *)
Definition require_known_auth_user (users : option (list string)) (user_id : string)
    (allow_api_key_principal : bool) : txn unit :=
  if allow_api_key_principal && eqs user_id "api-key-user" then mret tt
  else
    users ← require_some users (DomainConflictError "auth_user_required");
    require (bool_decide (user_id ∈ users)) (DomainConflictError "auth_user_required").
