(* ===== verification/Registry.v ===== *)
(** * Projects and their members
    ([_DomainWriteKernel] in [src/ainrf/domain/service.py] and
    [src/ainrf/domain/project_initialization.py])

    Every mutation is one transaction: write barrier, authorization, replay of
    the stored response, the statements, the idempotency record, and the audit
    event behind the release fence.  Clock readings and [uuid4] values are
    arguments in the order in which the code draws them. *)

From stdpp Require Import base tactics list strings pretty.
From Stdlib Require Import ZArith Lia.
From Stdlib Require String.
From S2P Require Import Prelude PyText PyTime PyJson Tables Contracts RegistryRows Schema Repository.
From S2P Require Import Projection RegistryRepository Service EnvironmentIdentity Authorization.

Local Open Scope string_scope.
Local Open Scope tx_scope.

(** ** Rows as JSON objects: [dict(row)] *)

Definition json_of_bool (b : bool) : json := JInt (if b then 1 else 0).
Definition json_of_time (o : option time) : json :=
  match o with Some t => JInt t | None => JNull end.

Definition project_status_value (s : ProjectStatus) : string :=
  match s with Project_ACTIVE => "active" | Project_ARCHIVED => "archived" end.
Definition environment_status_value (s : EnvironmentStatus) : string :=
  match s with Env_ACTIVE => "active" | Env_DISABLED => "disabled" end.
Definition workspace_status_value (s : WorkspaceStatus) : string :=
  match s with Workspace_ACTIVE => "active" | Workspace_UNREGISTERED => "unregistered" end.
Definition link_status_value (s : LinkStatus) : string :=
  match s with Link_ACTIVE => "active" | Link_RETIRED => "retired" end.

Definition project_dict (p : project_row) : dict :=
  [("project_id", JStr (pj_project_id p)); ("owner_user_id", JStr (pj_owner_user_id p));
   ("name", JStr (pj_name p)); ("description", json_of_option (pj_description p));
   ("status", JStr (project_status_value (pj_status p)));
   ("is_default", json_of_bool (pj_is_default p));
   ("archived_at", json_of_time (pj_archived_at p));
   ("archive_reason", json_of_option (pj_archive_reason p));
   ("created_at", JStr (isoformat (pj_created_at p))); ("updated_at", JStr (isoformat (pj_updated_at p)))].

(** ** Write fence, replay and audit *)

Section kernel.
Context `{Host, Kernel}.

(** [DomainWriteFence.ready] and [validate_write] *)
Definition fence_ready : bool :=
  match artifact_sha with Some sha => truthy sha | None => false end.
Definition validate_write : txn unit := require fence_ready DomainWriteFenceError.

Definition registry_request_hash (request : dict) : string :=
  sha256_hex (compact_json (JObj request)).

Definition idempotent_result (actor_user_id scope key : string) (request : dict) :
    txn (option json) :=
  require (truthy key) (DomainConflictError "idempotency_key_required");;
  row ← gets (idempotency_record actor_user_id scope key);
  match row with
  | None => mret None
  | Some row =>
      require (eqs (id_request_hash row) (registry_request_hash request))
        (DomainConflictError "idempotency_key_conflict");;
      match id_response row with
      | JObj fields => mret (Some (JObj fields))
      | _ => raise (DomainConflictError "idempotency_response_invalid")
      end
  end.

Definition store_idempotency (actor_user_id scope key : string) (request result : dict)
    (now : time) : txn unit :=
  insert_idempotency_record actor_user_id scope key (registry_request_hash request) (JObj result)
    now.

Definition kernel_audit (event_id actor_id event_type subject_type subject_id : string)
    (metadata : dict) (now : time) : txn unit :=
  validate_write;;
  insert_audit_event event_id actor_id event_type subject_type subject_id metadata now.

(** [if idempotency_key is not None: ...] *)
Definition replay_if (key : option string) (actor_user_id scope : string) (request : dict) :
    txn (option json) :=
  match key with
  | Some k => idempotent_result actor_user_id scope k request
  | None => mret None
  end.

Definition store_if (key : option string) (actor_user_id scope : string) (request result : dict)
    (now : time) : txn unit :=
  match key with
  | Some k => store_idempotency actor_user_id scope k request result now
  | None => mret tt
  end.

(** [except sqlite3.IntegrityError]: the failed statement has no effect. *)
Definition catch_integrity {A} (m handler : txn A) : txn A := λ d,
  match m d with
  | Err (IntegrityError _) => handler d
  | r => r
  end.

(** ** Projects *)

Definition initialize_project_context (project_id owner_user_id : string) (created_at : time)
    (context_uuid : string) : txn string :=
  let context_version_id := "context-" ++ context_uuid in
  let content := "" in
  let fingerprint := sha256_hex (canonical_json (JObj
    [("content", JStr content); ("fragment_manifest", JList []); ("version_format", JInt 1)])) in
  let evidence :=
    [("kind", JStr "published_fragment_manifest");
     ("manifest_sha256", JStr (sha256_hex (canonical_json (JList []))));
     ("fragment_count", JInt 0); ("source", JStr "project_context_publish_transaction")] in
  insert_context_draft project_id content owner_user_id created_at;;
  insert_context_version context_version_id project_id content fingerprint [] true owner_user_id
    created_at;;
  insert_context_provenance context_version_id Provenance_VERIFIED evidence created_at;;
  mret context_version_id.

Definition create_project_request (name : string) (description : option string)
    (is_default : bool) : dict :=
  [("name", JStr name); ("description", json_of_option description);
   ("is_default", JBool is_default)].

Definition create_project (u : user) (name : string) (description : option string)
    (is_default : bool) (idempotency_key : option string) (project_uuid : string) (now : time)
    (context_uuid : string) (stored_at : time) (event_id : string) (audited_at : time) :
    txn json :=
  owner_id ← actor_of u;
  let request := create_project_request name description is_default in
  begin_write;;
  cached ← replay_if idempotency_key owner_id "project.create" request;
  match cached with
  | Some response => mret response
  | None =>
      let project_id := "project-" ++ String.substring 0 12 project_uuid in
      insert_project project_id owner_id name description Project_ACTIVE is_default now now;;
      _ ← initialize_project_context project_id owner_id now context_uuid;
      created ← gets (project_by_id project_id);
      created ← require_some created (DomainConflictError "project_create_failed");
      let result := project_dict created in
      store_if idempotency_key owner_id "project.create" request result stored_at;;
      kernel_audit event_id owner_id "project.created" "project" project_id [] audited_at;;
      mret (JObj result)
  end.

Definition default_project_id (user_id : string) : string :=
  "project-default-" ++ String.substring 0 24 (sha256_hex user_id).

Definition active_default (user_id : string) (d : db) : option project_row :=
  List.find project_active (default_projects_for_owner user_id d).

Definition provision_default_project (users : option (list string)) (user_id username : string)
    (now : time) (context_uuid event_id : string) (audited_at : time) : txn json :=
  require (truthy user_id && truthy username) (DomainConflictError "");;
  require_known_auth_user users user_id false;;
  begin_write;;
  rows ← gets (default_projects_for_owner user_id);
  match List.find project_active rows with
  | Some active => mret (JObj (project_dict active))
  | None =>
      require (match rows with [] => true | _ => false end) (DomainConflictError "");;
      let project_id := default_project_id user_id in
      winner ← catch_integrity
        (insert_project project_id user_id (username ++ "'s Project") None Project_ACTIVE true
           now now;; mret None)
        (active ← gets (active_default user_id);
         active ← require_some active (DomainConflictError "project_default_conflict");
         mret (Some active));
      match winner with
      | Some active => mret (JObj (project_dict active))
      | None =>
          _ ← initialize_project_context project_id user_id now context_uuid;
          kernel_audit event_id user_id "project.default_provisioned" "project" project_id []
            audited_at;;
          created ← gets (project_by_id project_id);
          created ← require_some created (DomainConflictError "project_default_create_failed");
          mret (JObj (project_dict created))
      end
  end.

(** A field that the caller leaves alone ([_UNSET]) is [None]. *)
Definition set_project_metadata (name : option string) (description : option (option string))
    (updated_at : time) (p : project_row) : project_row :=
  mkProject (pj_project_id p) (pj_owner_user_id p) (default (pj_name p) name)
    (default (pj_description p) description) (pj_status p) (pj_is_default p) (pj_archived_at p)
    (pj_archive_reason p) (pj_created_at p) updated_at.

Definition field_if {A} (key : string) (to_json : A → json) (value : option A) : dict :=
  match value with Some v => [(key, to_json v)] | None => [] end.

Definition update_project (project_id : string) (u : user) (name : option string)
    (description : option (option string)) (idempotency_key : option string) (now stored_at : time)
    (event_id : string) (audited_at : time) : txn json :=
  begin_write;;
  require_project_editor project_id u;;
  actor ← actor_of u;
  let request := ([("project_id", JStr project_id); ("name", json_of_option name)]
    ++ field_if "description" json_of_option description)%list in
  cached ← replay_if idempotency_key actor "project.update" request;
  match cached with
  | Some response => mret response
  | None =>
      n ← repo_update_project project_id (set_project_metadata name description now);
      require (Z.eqb n 1) (DomainNotFoundError project_id);;
      updated ← gets (project_by_id project_id);
      updated ← require_some updated (DomainNotFoundError project_id);
      let result := project_dict updated in
      store_if idempotency_key actor "project.update" request result stored_at;;
      kernel_audit event_id actor "project.updated" "project" project_id [] audited_at;;
      mret (JObj result)
  end.

Definition set_project_archived (status : ProjectStatus) (archived_at : option time)
    (reason : option string) (updated_at : time) (p : project_row) : project_row :=
  mkProject (pj_project_id p) (pj_owner_user_id p) (pj_name p) (pj_description p) status
    (pj_is_default p) archived_at reason (pj_created_at p) updated_at.

Definition archive_project (project_id : string) (u : user) (reason idempotency_key : string)
    (now stored_at : time) (event_id : string) (audited_at : time) : txn json :=
  actor ← actor_of u;
  let request := [("project_id", JStr project_id); ("reason", JStr reason)] in
  begin_write;;
  cached ← idempotent_result actor "project.archive" idempotency_key request;
  match cached with
  | Some response => mret response
  | None =>
      require_project_owner project_id u;;
      project ← gets (project_by_id project_id);
      project ← require_some project (DomainNotFoundError project_id);
      require (negb (pj_is_default project))
        (DomainConflictError "project_default_archive_forbidden");;
      require (project_active project) (DomainConflictError "project_already_archived");;
      _ ← repo_update_project project_id
            (set_project_archived Project_ARCHIVED (Some now) (Some reason) now);
      let result := [("project_id", JStr project_id); ("archived", JBool true)] in
      store_idempotency actor "project.archive" idempotency_key request result stored_at;;
      kernel_audit event_id actor "project.archived" "project" project_id [] audited_at;;
      mret (JObj result)
  end.

Definition unarchive_project (project_id : string) (u : user) (idempotency_key : string)
    (now stored_at : time) (event_id : string) (audited_at : time) : txn json :=
  actor ← actor_of u;
  let request := [("project_id", JStr project_id)] in
  begin_write;;
  cached ← idempotent_result actor "project.unarchive" idempotency_key request;
  match cached with
  | Some response => mret response
  | None =>
      require_project_owner project_id u;;
      n ← update_rows projects with_projects
            (λ p, eqs (pj_project_id p) project_id && negb (project_active p))
            project_update_guard (set_project_archived Project_ACTIVE None None now);
      require (Z.eqb n 1) (DomainConflictError "project_not_archived");;
      let result := [("project_id", JStr project_id); ("unarchived", JBool true)] in
      store_idempotency actor "project.unarchive" idempotency_key request result stored_at;;
      kernel_audit event_id actor "project.unarchived" "project" project_id [] audited_at;;
      mret (JObj result)
  end.

(** ** Members *)

Definition member_role (role : string) : option MemberRole :=
  if eqs role "viewer" then Some Role_VIEWER
  else if eqs role "editor" then Some Role_EDITOR else None.

Definition add_member (users : option (list string)) (project_id member_user_id role : string)
    (can_publish : bool) (u : user) (idempotency_key : option string) (now stored_at : time)
    (event_id : string) (audited_at : time) : txn json :=
  parsed ← require_some (member_role role) (DomainConflictError "member_role_invalid");
  require (negb (can_publish && negb (bool_decide (parsed = Role_EDITOR))))
    (DomainConflictError "member_publish_role_invalid");;
  require_known_auth_user users member_user_id true;;
  begin_write;;
  require_project_owner project_id u;;
  actor ← actor_of u;
  let result := [("project_id", JStr project_id); ("user_id", JStr member_user_id);
                 ("role", JStr role); ("can_publish", JBool can_publish)] in
  let request := [("project_id", JStr project_id); ("member_user_id", JStr member_user_id);
                  ("role", JStr role); ("can_publish", JBool can_publish)] in
  cached ← replay_if idempotency_key actor "project.member.upsert" request;
  match cached with
  | Some response => mret response
  | None =>
      project ← gets (project_by_id project_id);
      project ← require_some project (DomainNotFoundError project_id);
      require (negb (eqs (pj_owner_user_id project) member_user_id))
        (DomainConflictError "member_owner_missing");;
      upsert_project_member project_id member_user_id parsed can_publish now;;
      store_if idempotency_key actor "project.member.upsert" request result stored_at;;
      kernel_audit event_id actor "project.member.updated" "project" project_id [] audited_at;;
      mret (JObj result)
  end.

Definition remove_member (project_id member_user_id : string) (u : user)
    (idempotency_key : option string) (stored_at : time) (event_id : string) (audited_at : time) :
    txn json :=
  begin_write;;
  require_project_owner project_id u;;
  actor ← actor_of u;
  let request := [("project_id", JStr project_id); ("member_user_id", JStr member_user_id)] in
  cached ← replay_if idempotency_key actor "project.member.remove" request;
  match cached with
  | Some response => mret response
  | None =>
      owner ← gets (project_by_id project_id);
      owner ← require_some owner (DomainNotFoundError project_id);
      require (negb (eqs (pj_owner_user_id owner) member_user_id))
        (DomainConflictError "member_owner_immutable");;
      n ← remove_project_member project_id member_user_id;
      require (Z.eqb n 1) (DomainNotFoundError "project member");;
      let result := [("project_id", JStr project_id); ("user_id", JStr member_user_id);
                     ("removed", JBool true)] in
      store_if idempotency_key actor "project.member.remove" request result stored_at;;
      kernel_audit event_id actor "project.member.removed" "project" project_id [] audited_at;;
      mret (JObj result)
  end.

Definition set_project_owner (owner_user_id : string) (updated_at : time) (p : project_row) :
    project_row :=
  mkProject (pj_project_id p) owner_user_id (pj_name p) (pj_description p) (pj_status p)
    (pj_is_default p) (pj_archived_at p) (pj_archive_reason p) (pj_created_at p) updated_at.

Definition transfer_project_owner (users : option (list string))
    (project_id new_owner_user_id : string) (u : user) (idempotency_key : option string)
    (now stored_at : time) (event_id : string) (audited_at : time) : txn json :=
  require (truthy new_owner_user_id) (DomainConflictError "project_transfer_owner_required");;
  require_known_auth_user users new_owner_user_id false;;
  begin_write;;
  require_project_owner project_id u;;
  actor ← actor_of u;
  let request := [("project_id", JStr project_id);
                  ("new_owner_user_id", JStr new_owner_user_id)] in
  cached ← replay_if idempotency_key actor "project.owner.transfer" request;
  match cached with
  | Some response => mret response
  | None =>
      project ← gets (project_by_id project_id);
      project ← require_some project (DomainNotFoundError project_id);
      require (negb (pj_is_default project))
        (DomainConflictError "project_default_transfer_forbidden");;
      let old_owner_user_id := pj_owner_user_id project in
      let result transferred := [("project_id", JStr project_id);
        ("owner_user_id", JStr new_owner_user_id); ("transferred", JBool transferred)] in
      if eqs old_owner_user_id new_owner_user_id then
        store_if idempotency_key actor "project.owner.transfer" request (result false) stored_at;;
        mret (JObj (result false))
      else
        n ← repo_update_project project_id (set_project_owner new_owner_user_id now);
        require (Z.eqb n 1) (DomainNotFoundError project_id);;
        upsert_project_member project_id old_owner_user_id Role_EDITOR true now;;
        _ ← remove_project_member project_id new_owner_user_id;
        store_if idempotency_key actor "project.owner.transfer" request (result true) stored_at;;
        kernel_audit event_id actor "project.owner.transferred" "project" project_id []
          audited_at;;
        mret (JObj (result true))
  end.

(** ** Task relationships *)

(** [f"{len(text)}:{text}"] *)
Definition netstring (text : string) : string := pretty (py_len text) ++ ":" ++ text.

Definition relationship_id (source_task_id target_task_id relationship_type : string) : string :=
  netstring source_task_id ++ netstring target_task_id ++ netstring relationship_type.

Definition create_task_relationship (project_id : string) (u : user)
    (source_task_id target_task_id : string) (idempotency_key : option string)
    (now stored_at : time) (event_id : string) (audited_at : time) : txn json :=
  let relationship := relationship_id source_task_id target_task_id "related_to" in
  begin_write;;
  require_project_editor project_id u;;
  actor ← actor_of u;
  let request := [("project_id", JStr project_id); ("source_task_id", JStr source_task_id);
                  ("target_task_id", JStr target_task_id)] in
  cached ← replay_if idempotency_key actor "task.relationship.create" request;
  match cached with
  | Some response => mret response
  | None =>
      found ← gets (project_tasks_exist project_id source_task_id target_task_id);
      require found (DomainNotFoundError "project task");;
      insert_task_relationship source_task_id target_task_id Rel_RELATED_TO relationship [] now;;
      row ← gets (task_relationship_for_pair source_task_id target_task_id Rel_RELATED_TO);
      row ← require_some row (DomainConflictError "task_relationship_create_failed");
      let result := [("relationship_id", JStr (str_of (rl_relationship_id row)));
        ("project_id", JStr project_id); ("source_task_id", JStr source_task_id);
        ("target_task_id", JStr target_task_id); ("relationship_type", JStr "related_to");
        ("created_at", JStr (isoformat (rl_created_at row)))] in
      store_if idempotency_key actor "task.relationship.create" request result stored_at;;
      kernel_audit event_id actor "task.relationship.created" "task" source_task_id [] audited_at;;
      mret (JObj result)
  end.

Definition delete_task_relationship (relationship_id : string) (u : user)
    (idempotency_key : option string) (stored_at : time) (event_id : string) (audited_at : time) :
    txn unit :=
  begin_write;;
  row ← gets (related_task_relationship relationship_id);
  row ← require_some row (DomainNotFoundError relationship_id);
  let project_id := row.2 in
  require_project_editor project_id u;;
  actor ← actor_of u;
  let request := [("project_id", JStr project_id); ("relationship_id", JStr relationship_id)] in
  cached ← replay_if idempotency_key actor "task.relationship.delete" request;
  match cached with
  | Some _ => mret tt
  | None =>
      n ← repo_delete_task_relationship relationship_id;
      require (Z.eqb n 1) (DomainNotFoundError relationship_id);;
      store_if idempotency_key actor "task.relationship.delete" request
        [("relationship_id", JStr relationship_id); ("deleted", JBool true)] stored_at;;
      kernel_audit event_id actor "task.relationship.deleted" "task" row.1 [] audited_at
  end.
End kernel.
