(* ===== verification/RegistryWorkspaces.v ===== *)
(** * Environments, Workspaces and Project links
    ([_DomainWriteKernel] in [src/ainrf/domain/service.py])

    Registration of Environments and Workspaces and the links that make a
    Workspace available to a Project, one of them as its Primary. *)

From stdpp Require Import base tactics list strings.
From Stdlib Require Import ZArith Lia.
From Stdlib Require String.
From S2P Require Import Prelude PyText PyTime PyJson Tables Contracts RegistryRows Schema Repository.
From S2P Require Import Projection RegistryRepository Service EnvironmentIdentity Authorization.
From S2P Require Import Registry.

Local Open Scope string_scope.
Local Open Scope tx_scope.

(** [dict(row)] without [credential_ref]. *)
Definition environment_dict (e : environment_row) : dict :=
  [("environment_id", JStr (en_environment_id e)); ("alias", JStr (en_alias e));
   ("owner_user_id", json_of_option (en_owner_user_id e));
   ("display_name", JStr (en_display_name e));
   ("description", json_of_option (en_description e));
   ("connection_json", JStr (compact_json (JObj (en_connection e))));
   ("is_seed", json_of_bool (en_is_seed e));
   ("status", JStr (environment_status_value (en_status e)));
   ("created_at", JStr (isoformat (en_created_at e))); ("updated_at", JStr (isoformat (en_updated_at e)));
   ("connection_fingerprint", json_of_option (en_connection_fingerprint e));
   ("disabled_at", json_of_time (en_disabled_at e));
   ("disabled_reason", json_of_option (en_disabled_reason e))].

Definition workspace_dict (w : workspace_row) : dict :=
  [("workspace_id", JStr (ws_workspace_id w)); ("owner_user_id", JStr (ws_owner_user_id w));
   ("environment_id", JStr (ws_environment_id w));
   ("canonical_path", JStr (ws_canonical_path w)); ("label", JStr (ws_label w));
   ("description", json_of_option (ws_description w));
   ("context_metadata_json", JStr (spaced_json (JObj (ws_context_metadata w))));
   ("status", JStr (workspace_status_value (ws_status w)));
   ("legacy_project_id", json_of_option (ws_legacy_project_id w));
   ("created_at", JStr (isoformat (ws_created_at w))); ("updated_at", JStr (isoformat (ws_updated_at w)));
   ("workspace_context", json_of_option (ws_workspace_context w));
   ("canonical_path_fingerprint", json_of_option (ws_canonical_path_fingerprint w));
   ("unregistered_at", json_of_time (ws_unregistered_at w));
   ("unregistered_reason", json_of_option (ws_unregistered_reason w));
   ("last_seen_at", json_of_time (ws_last_seen_at w))].

Definition link_audit_value (link : option link_row) : json :=
  match link with
  | None => JNull
  | Some l => JObj [("project_id", JStr (ln_project_id l));
      ("workspace_id", JStr (ln_workspace_id l));
      ("status", JStr (link_status_value (ln_status l))); ("is_primary", JBool (ln_is_primary l))]
  end.

Section workspaces.
Context `{Host, Kernel}.

(** ** Environments *)

Definition create_environment (u : user) (alias display_name : string) (connection : dict)
    (description credential_ref idempotency_key : option string) (environment_uuid : string)
    (now stored_at : time) (event_id : string) (audited_at : time) : txn json :=
  require (is_admin u) (DomainPermissionError "environment_admin_required");;
  actor ← actor_of u;
  canonical ← canonical_connection_object connection;
  fingerprint ← environment_connection_fingerprint canonical;
  let request := [("alias", JStr alias); ("display_name", JStr display_name);
    ("description", json_of_option description); ("connection", JObj canonical);
    ("credential_ref", json_of_option credential_ref)] in
  begin_write;;
  cached ← replay_if idempotency_key actor "environment.create" request;
  match cached with
  | Some response => mret response
  | None =>
      let environment_id := "env-" ++ environment_uuid in
      catch_integrity
        (insert_environment environment_id alias actor display_name description canonical
           fingerprint credential_ref now now)
        (raise (DomainConflictError "environment_alias_exists"));;
      created ← gets (environment_by_id environment_id);
      created ← require_some created (DomainConflictError "environment_create_failed");
      let result := environment_dict created in
      store_if idempotency_key actor "environment.create" request result stored_at;;
      kernel_audit event_id actor "environment.created" "environment" environment_id []
        audited_at;;
      mret (JObj result)
  end.

(** The checks that [disable_environment] and [update_environment] share. *)
Definition managed_environment (auth : option (list access_row)) (environment_id : string)
    (u : user) : txn (string * environment_row) :=
  actor ← actor_of u;
  environment ← gets (environment_by_id environment_id);
  environment ← require_some environment (DomainNotFoundError environment_id);
  visible ← has_environment_access auth environment_id u (en_owner_user_id environment);
  require visible (DomainNotFoundError environment_id);;
  require (is_admin u) (DomainPermissionError "environment_admin_required");;
  mret (actor, environment).

Definition set_environment_disabled (now : time) (e : environment_row) : environment_row :=
  mkEnvironment (en_environment_id e) (en_alias e) (en_owner_user_id e) (en_display_name e)
    (en_description e) (en_connection e) (en_credential_ref e) (en_is_seed e) Env_DISABLED
    (en_created_at e) now (en_connection_fingerprint e) (Some now)
    (Some "disabled by administrator").

Definition disable_environment (auth : option (list access_row)) (environment_id : string)
    (u : user) (idempotency_key : option string) (now stored_at : time) (event_id : string)
    (audited_at : time) : txn unit :=
  begin_write;;
  '(actor, _) ← managed_environment auth environment_id u;
  let request := [("environment_id", JStr environment_id)] in
  cached ← replay_if idempotency_key actor "environment.disable" request;
  match cached with
  | Some _ => mret tt
  | None =>
      _ ← repo_update_environment environment_id (set_environment_disabled now);
      store_if idempotency_key actor "environment.disable" request
        [("environment_id", JStr environment_id); ("disabled", JBool true)] stored_at;;
      kernel_audit event_id actor "environment.disabled" "environment" environment_id []
        audited_at
  end.

Definition set_environment (alias display_name : option string)
    (description : option (option string)) (connection : option (dict * string))
    (credential_ref : option (option string)) (fingerprint : option string) (now : time)
    (e : environment_row) : environment_row :=
  mkEnvironment (en_environment_id e) (default (en_alias e) alias) (en_owner_user_id e)
    (default (en_display_name e) display_name) (default (en_description e) description)
    (default (en_connection e) (fst <$> connection))
    (default (en_credential_ref e) credential_ref) (en_is_seed e) (en_status e)
    (en_created_at e) now
    (match connection with
     | Some (_, fp) => Some fp
     | None => coalesce (en_connection_fingerprint e) fingerprint
     end) (en_disabled_at e) (en_disabled_reason e).

(** The endpoint the Environment has now: the stored fingerprint, or the one
    of the stored connection. *)
Definition current_fingerprint (e : environment_row) : txn string :=
  match en_connection_fingerprint e with
  | Some fp => mret fp
  | None => environment_connection_fingerprint (en_connection e)
  end.

(** The new connection and its fingerprint; a referenced Environment keeps its
    endpoint. *)
Definition repointed (environment_id : string) (existing : environment_row) (connection : dict) :
    txn (dict * string) :=
  proposed ← canonical_connection_object connection;
  current ← current_fingerprint existing;
  fingerprint ← environment_connection_fingerprint proposed;
  referenced ← gets (environment_is_referenced environment_id);
  require (eqs current fingerprint || negb referenced) (DomainConflictError "");;
  mret (proposed, fingerprint).

Definition option_map_tx {A B} (o : option A) (f : A → txn B) : txn (option B) :=
  match o with Some a => b ← f a; mret (Some b) | None => mret None end.

Definition update_environment (auth : option (list access_row)) (environment_id : string)
    (u : user) (alias display_name : option string) (description : option (option string))
    (connection : option dict) (credential_ref : option (option string))
    (idempotency_key : option string) (now stored_at : time) (event_id : string)
    (audited_at : time) : txn json :=
  begin_write;;
  '(actor, existing) ← managed_environment auth environment_id u;
  canonical ← option_map_tx connection canonical_connection_object;
  let request := ([("environment_id", JStr environment_id)]
    ++ field_if "alias" JStr alias ++ field_if "display_name" JStr display_name
    ++ field_if "description" json_of_option description ++ field_if "connection" JObj canonical
    ++ field_if "credential_ref" json_of_option credential_ref)%list in
  cached ← replay_if idempotency_key actor "environment.update" request;
  match cached with
  | Some response => mret response
  | None =>
      new_connection ← option_map_tx connection (repointed environment_id existing);
      backfill ←
        (match connection, en_connection_fingerprint existing with
         | None, None =>
             fp ← environment_connection_fingerprint (en_connection existing);
             mret (Some fp)
         | _, _ => mret None
         end);
      n ← catch_integrity
            (repo_update_environment environment_id
               (set_environment alias display_name description new_connection credential_ref
                  backfill now))
            (raise (DomainConflictError "environment_alias_exists"));
      require (Z.eqb n 1) (DomainNotFoundError environment_id);;
      updated ← gets (environment_by_id environment_id);
      updated ← require_some updated (DomainNotFoundError environment_id);
      let result := environment_dict updated in
      store_if idempotency_key actor "environment.update" request result stored_at;;
      kernel_audit event_id actor "environment.updated" "environment" environment_id []
        audited_at;;
      mret (JObj result)
  end.

(** ** Workspaces *)

Definition workspace_create_request (environment_id path label : string)
    (description workspace_prompt : option string) : dict :=
  [("environment_id", JStr environment_id); ("canonical_path", JStr path); ("label", JStr label);
   ("description", json_of_option description);
   ("workspace_prompt", json_of_option workspace_prompt)].

Definition workspace_create_replay (u : user) (environment_id canonical_path label : string)
    (description workspace_prompt : option string) (idempotency_key : string) :
    txn (option json) :=
  owner_id ← actor_of u;
  idempotent_result owner_id "workspace.create" idempotency_key
    (workspace_create_request environment_id (canonical_workspace_path canonical_path) label
       description workspace_prompt).

(** An Environment that exists, is active and that the caller may execute in. *)
Definition executable_environment (auth : option (list access_row)) (environment_id : string)
    (u : user) : txn unit :=
  environment ← gets (environment_by_id environment_id);
  environment ← require_some environment (DomainNotFoundError environment_id);
  require (environment_active environment) (DomainConflictError "workspace_environment_required");;
  require_environment_execution_access auth environment_id (en_owner_user_id environment) u.

Definition prompt_metadata (workspace_prompt : option string) : dict :=
  field_if "workspace_prompt" JStr workspace_prompt.

(** The insertion with its conflict, and the row that it persisted. *)
Definition register_workspace (workspace_id owner_id environment_id path label : string)
    (description workspace_prompt : option string) (now : time) : txn unit :=
  catch_integrity
    (insert_workspace workspace_id owner_id environment_id path label description
       (prompt_metadata workspace_prompt) workspace_prompt None now now)
    (raise (DomainConflictError "workspace_path_already_registered")).

Definition create_workspace (auth : option (list access_row)) (u : user)
    (environment_id canonical_path label : string)
    (description workspace_prompt idempotency_key : option string) (workspace_uuid : string)
    (now stored_at : time) (event_id : string) (audited_at : time) : txn json :=
  owner_id ← actor_of u;
  let path := canonical_workspace_path canonical_path in
  let request := workspace_create_request environment_id path label description
                   workspace_prompt in
  begin_write;;
  executable_environment auth environment_id u;;
  cached ← replay_if idempotency_key owner_id "workspace.create" request;
  match cached with
  | Some response => mret response
  | None =>
      let workspace_id := "workspace-" ++ String.substring 0 12 workspace_uuid in
      register_workspace workspace_id owner_id environment_id path label description
        workspace_prompt now;;
      created ← gets (workspace_by_id workspace_id);
      created ← require_some created (DomainConflictError "workspace_create_failed");
      let result := workspace_dict created in
      store_if idempotency_key owner_id "workspace.create" request result stored_at;;
      kernel_audit event_id owner_id "workspace.created" "workspace" workspace_id [] audited_at;;
      mret (JObj result)
  end.

Definition require_active_project (project_id : string) : txn unit :=
  project ← gets (project_by_id project_id);
  require (match project with Some p => project_active p | None => false end)
    (DomainConflictError "workspace_link_project_inactive").

Definition create_workspace_and_attach (auth : option (list access_row)) (project_id : string)
    (u : user) (environment_id canonical_path label : string)
    (description workspace_prompt : option string) (idempotency_key : string) (now : time)
    (workspace_uuid : string) (stored_at : time) (created_event : string) (created_at : time)
    (attached_event : string) (attached_at : time) : txn json :=
  owner_id ← actor_of u;
  let path := canonical_workspace_path canonical_path in
  let request := ("project_id", JStr project_id)
    :: workspace_create_request environment_id path label description workspace_prompt in
  begin_write;;
  require_project_editor project_id u;;
  require_active_project project_id;;
  executable_environment auth environment_id u;;
  cached ← idempotent_result owner_id "workspace.create_and_attach" idempotency_key request;
  match cached with
  | Some response => mret response
  | None =>
      let workspace_id := "workspace-" ++ String.substring 0 12 workspace_uuid in
      register_workspace workspace_id owner_id environment_id path label description
        workspace_prompt now;;
      upsert_project_workspace_link project_id workspace_id false owner_id now;;
      created ← gets (workspace_by_id workspace_id);
      created ← require_some created (DomainConflictError "workspace_create_failed");
      let result := workspace_dict created in
      store_idempotency owner_id "workspace.create_and_attach" idempotency_key request result
        stored_at;;
      kernel_audit created_event owner_id "workspace.created" "workspace" workspace_id []
        created_at;;
      kernel_audit attached_event owner_id "workspace.attached" "workspace" workspace_id
        [("project_id", JStr project_id); ("idempotency_key", JStr idempotency_key);
         ("old_link", JNull);
         ("new_link", JObj [("status", JStr "active"); ("is_primary", JBool false);
                            ("workspace_id", JStr workspace_id)])] attached_at;;
      mret (JObj result)
  end.

Definition workspace_update_request (workspace_id : string) (label : option string)
    (description : option (option string)) (canonical_path : option string)
    (workspace_prompt : option (option string)) : dict :=
  ([("workspace_id", JStr workspace_id)] ++ field_if "label" JStr label
   ++ field_if "description" json_of_option description
   ++ field_if "canonical_path" JStr (canonical_workspace_path <$> canonical_path)
   ++ field_if "workspace_prompt" json_of_option workspace_prompt)%list.

Definition workspace_update_replay (workspace_id : string) (u : user) (label : option string)
    (description : option (option string)) (canonical_path : option string)
    (workspace_prompt : option (option string)) (idempotency_key : string) : txn (option json) :=
  actor ← actor_of u;
  require_workspace_registry_manager workspace_id u false;;
  idempotent_result actor "workspace.update" idempotency_key
    (workspace_update_request workspace_id label description canonical_path workspace_prompt).

Definition set_workspace (label : option string) (description : option (option string))
    (path : option string) (workspace_prompt : option (option string)) (now : time)
    (w : workspace_row) : workspace_row :=
  mkWorkspace (ws_workspace_id w) (ws_owner_user_id w) (ws_environment_id w)
    (default (ws_canonical_path w) path) (default (ws_label w) label)
    (default (ws_description w) description)
    (match workspace_prompt with
     | Some p => dict_set "workspace_prompt" (json_of_option p) (ws_context_metadata w)
     | None => ws_context_metadata w
     end) (ws_status w) (ws_legacy_project_id w) (ws_created_at w) now
    (default (ws_workspace_context w) workspace_prompt) (ws_canonical_path_fingerprint w)
    (ws_unregistered_at w) (ws_unregistered_reason w) (ws_last_seen_at w).

Definition update_workspace (workspace_id : string) (u : user) (label : option string)
    (description : option (option string)) (canonical_path : option string)
    (workspace_prompt : option (option string)) (idempotency_key : option string)
    (now stored_at : time) (event_id : string) (audited_at : time) : txn json :=
  begin_write;;
  require_workspace_registry_manager workspace_id u false;;
  actor ← actor_of u;
  existing ← gets (workspace_by_id workspace_id);
  _ ← require_some existing (DomainNotFoundError workspace_id);
  let request := workspace_update_request workspace_id label description canonical_path
                   workspace_prompt in
  cached ← replay_if idempotency_key actor "workspace.update" request;
  match cached with
  | Some response => mret response
  | None =>
      n ← catch_integrity
            (repo_update_workspace workspace_id
               (set_workspace label description (canonical_workspace_path <$> canonical_path)
                  workspace_prompt now))
            (raise (DomainConflictError "workspace_path_already_registered"));
      require (Z.eqb n 1) (DomainNotFoundError workspace_id);;
      updated ← gets (workspace_by_id workspace_id);
      updated ← require_some updated (DomainNotFoundError workspace_id);
      let result := workspace_dict updated in
      store_if idempotency_key actor "workspace.update" request result stored_at;;
      kernel_audit event_id actor "workspace.updated" "workspace" workspace_id [] audited_at;;
      mret (JObj result)
  end.

(** ** Links *)

(** The Project, Workspace and Environment of a link are active and the caller
    may execute there: the Environment of the Workspace. *)
Definition linkable (auth : option (list access_row)) (project_id workspace_id : string) (u : user) :
    txn string :=
  workspace ← gets (linked_workspace_state workspace_id);
  require_active_project project_id;;
  workspace ← require_some workspace (DomainConflictError "workspace_link_workspace_inactive");
  require (workspace_active workspace.1) (DomainConflictError "workspace_link_workspace_inactive");;
  require (environment_active workspace.2)
    (DomainConflictError "workspace_link_environment_inactive");;
  let environment_id := ws_environment_id workspace.1 in
  can_execute ← has_environment_execution_access auth environment_id u;
  require can_execute (DomainPermissionError "");;
  mret environment_id.

Definition link_result (project_id workspace_id : string) (is_primary : bool)
    (environment_id : string) : dict :=
  [("project_id", JStr project_id); ("workspace_id", JStr workspace_id);
   ("is_primary", JBool is_primary); ("environment_id", JStr environment_id);
   ("can_execute", JBool true); ("cannot_execute_reason", JNull)].

Definition link_is_active (link : option link_row) : bool :=
  match link with Some l => link_active l | None => false end.

Definition link_operation (auth : option (list access_row)) (project_id workspace_id : string)
    (u : user) (idempotency_key : string) (make_primary : bool) (now stored_at : time)
    (event_id : string) (audited_at : time) : txn json :=
  let scope := if make_primary then "workspace.primary" else "workspace.attach" in
  begin_write;;
  require_project_editor project_id u;;
  require_workspace_registry_manager workspace_id u false;;
  actor ← actor_of u;
  let request := [("project_id", JStr project_id); ("workspace_id", JStr workspace_id);
                  ("make_primary", JBool make_primary)] in
  cached ← idempotent_result actor scope idempotency_key request;
  match cached with
  | Some response => mret response
  | None =>
      environment_id ← linkable auth project_id workspace_id u;
      existing_link ← gets (project_workspace_link project_id workspace_id);
      require (negb make_primary || link_is_active existing_link) (DomainConflictError "");;
      active_primary ← gets (active_primary_for_project project_id);
      require (negb make_primary
               || match active_primary with
                  | Some l => eqs (ln_workspace_id l) workspace_id
                  | None => true
                  end) (DomainConflictError "");;
      (if make_primary then _ ← clear_active_primary project_id now; mret tt else mret tt);;
      upsert_project_workspace_link project_id workspace_id make_primary actor now;;
      let result := link_result project_id workspace_id make_primary environment_id in
      store_idempotency actor scope idempotency_key request result stored_at;;
      new_link ← gets (project_workspace_link project_id workspace_id);
      kernel_audit event_id actor
        (if make_primary then "workspace.primary_set" else "workspace.attached") "workspace"
        workspace_id
        [("project_id", JStr project_id); ("idempotency_key", JStr idempotency_key);
         ("old_link", link_audit_value existing_link);
         ("old_primary", link_audit_value active_primary);
         ("new_link", link_audit_value new_link)] audited_at;;
      mret (JObj result)
  end.

Definition attach_workspace (auth : option (list access_row)) (project_id workspace_id : string)
    (u : user) (idempotency_key : string) :=
  link_operation auth project_id workspace_id u idempotency_key false.

Definition set_primary_workspace (auth : option (list access_row))
    (project_id workspace_id : string) (u : user) (idempotency_key : string) :=
  link_operation auth project_id workspace_id u idempotency_key true.

Definition link_operation_in_transaction (auth : option (list access_row))
    (project_id workspace_id : string) (u : user) (actor_user_id : string) (now : time) :
    txn dict :=
  environment_id ← linkable auth project_id workspace_id u;
  target_link ← gets (project_workspace_link project_id workspace_id);
  require (link_is_active target_link) (DomainConflictError "workspace_primary_not_linked");;
  _ ← clear_active_primary project_id now;
  upsert_project_workspace_link project_id workspace_id true actor_user_id now;;
  mret (link_result project_id workspace_id true environment_id).

Definition replace_primary_workspace (auth : option (list access_row))
    (project_id previous_workspace_id workspace_id : string) (u : user) (idempotency_key : string)
    (now stored_at : time) (event_id : string) (audited_at : time) : txn json :=
  begin_write;;
  require_project_editor project_id u;;
  require_workspace_registry_manager workspace_id u false;;
  actor ← actor_of u;
  let request := [("project_id", JStr project_id);
    ("previous_workspace_id", JStr previous_workspace_id); ("workspace_id", JStr workspace_id)] in
  cached ← idempotent_result actor "workspace.primary.replace" idempotency_key request;
  match cached with
  | Some response => mret response
  | None =>
      previous ← gets (project_workspace_link project_id previous_workspace_id);
      require (match previous with Some l => link_active l && ln_is_primary l | None => false end)
        (DomainConflictError "workspace_primary_compare_failed");;
      replacement ← link_operation_in_transaction auth project_id workspace_id u actor now;
      store_idempotency actor "workspace.primary.replace" idempotency_key request replacement
        stored_at;;
      new_link ← gets (project_workspace_link project_id workspace_id);
      kernel_audit event_id actor "workspace.primary.replaced" "workspace" workspace_id
        [("project_id", JStr project_id); ("idempotency_key", JStr idempotency_key);
         ("old_link", link_audit_value previous); ("new_link", link_audit_value new_link)]
        audited_at;;
      mret (JObj replacement)
  end.

Definition detach_workspace (project_id workspace_id : string) (u : user)
    (idempotency_key : string) (allow_no_primary : bool) (now stored_at : time)
    (event_id : string) (audited_at : time) : txn unit :=
  begin_write;;
  require_project_editor project_id u;;
  require_workspace_registry_manager workspace_id u false;;
  actor ← actor_of u;
  let request := [("project_id", JStr project_id); ("workspace_id", JStr workspace_id);
                  ("allow_no_primary", JBool allow_no_primary)] in
  cached ← idempotent_result actor "workspace.detach" idempotency_key request;
  match cached with
  | Some _ => mret tt
  | None =>
      link ← gets (project_workspace_link project_id workspace_id);
      require (link_is_active link) (DomainNotFoundError "project workspace link");;
      require (negb (match link with Some l => ln_is_primary l | None => false end)
               || allow_no_primary)
        (DomainConflictError "workspace_primary_detach_requires_replacement");;
      _ ← retire_project_workspace_link project_id workspace_id now;
      store_idempotency actor "workspace.detach" idempotency_key request
        [("detached", JBool true)] stored_at;;
      new_link ← gets (project_workspace_link project_id workspace_id);
      kernel_audit event_id actor "workspace.detached" "workspace" workspace_id
        [("project_id", JStr project_id); ("idempotency_key", JStr idempotency_key);
         ("old_link", link_audit_value link); ("new_link", link_audit_value new_link)] audited_at
  end.

Definition workspace_link_values (workspace_id : string) (d : db) : json :=
  JList (map (λ lp, link_audit_value (Some lp.1)) (list_project_links_for_workspace workspace_id d)).

Definition unregister_workspace (workspace_id : string) (u : user)
    (idempotency_key : option string) (allow_no_primary : bool) (now : time) (event_id : string)
    (audited_at stored_at : time) : txn unit :=
  begin_write;;
  require_workspace_registry_manager workspace_id u false;;
  actor ← actor_of u;
  let request := [("workspace_id", JStr workspace_id);
                  ("allow_no_primary", JBool allow_no_primary)] in
  cached ← replay_if idempotency_key actor "workspace.unregister" request;
  match cached with
  | Some _ => mret tt
  | None =>
      busy ← gets (workspace_active_task_count workspace_id);
      require (Z.leb busy 0) (DomainConflictError "");;
      primary ← gets (active_primary_for_workspace workspace_id);
      require (is_none primary || allow_no_primary)
        (DomainConflictError "workspace_primary_replacement_required");;
      previous_links ← gets (workspace_link_values workspace_id);
      unregister_workspace_and_retire_links workspace_id now;;
      new_links ← gets (workspace_link_values workspace_id);
      kernel_audit event_id actor "workspace.unregistered" "workspace" workspace_id
        [("idempotency_key", json_of_option idempotency_key); ("old_links", previous_links);
         ("new_links", new_links)] audited_at;;
      store_if idempotency_key actor "workspace.unregister" request
        [("unregistered", JBool true)] stored_at
  end.
End workspaces.
