(* ===== verification/RegistryViews.v ===== *)
(** * What the registry shows
    ([_DomainWriteKernel] in [src/ainrf/domain/service.py])

    The reads of the registry: lists that are filtered by what the caller may
    see, and the Console's summaries of Projects and Workspaces. *)

From stdpp Require Import base tactics list strings.
From Stdlib Require Import ZArith Lia.
From S2P Require Import Prelude PyText PyTime PyJson Tables Contracts RegistryRows Schema Repository.
From S2P Require Import Projection RegistryRepository Service EnvironmentIdentity Authorization.
From S2P Require Import Registry RegistryWorkspaces.

Local Open Scope string_scope.
Local Open Scope tx_scope.

(** ** Lists *)

Definition read_project (project_id : string) (u : user) : txn dict :=
  _ ← require_project_viewer project_id u;
  row ← gets (project_by_id project_id);
  mret (match row with Some p => project_dict p | None => [] end).

Definition list_projects (u : user) (include_archived : bool) : txn (list dict) :=
  user_id ← actor_of u;
  rows ← gets (list_projects_visible user_id (is_admin u) include_archived);
  mret (map project_dict rows).

Definition member_dict (m : member_row) : dict :=
  [("user_id", JStr (mb_user_id m)); ("role", JStr (role_value (mb_role m)));
   ("can_publish", json_of_bool (mb_can_publish m)); ("created_at", JStr (isoformat (mb_created_at m)));
   ("updated_at", JStr (isoformat (mb_updated_at m)))].

Definition read_project_members (project_id : string) (u : user) : txn (list dict) :=
  _ ← require_project_viewer project_id u;
  rows ← gets (list_project_members project_id);
  mret (map member_dict rows).

Definition relationship_type_value (t : RelationshipType) : string :=
  match t with
  | Rel_DERIVED_FROM => "derived_from"
  | Rel_DEPENDS_ON => "depends_on"
  | Rel_RELATED_TO => "related_to"
  end.

Definition list_task_relationships (project_id : string) (u : user) : txn (list dict) :=
  _ ← require_project_viewer project_id u;
  rows ← gets (list_related_task_relationships project_id);
  mret (map (λ r, [("relationship_id", JStr (str_of (rl_relationship_id r)));
                   ("project_id", JStr project_id);
                   ("source_task_id", JStr (rl_source_task_id r));
                   ("target_task_id", JStr (rl_target_task_id r));
                   ("relationship_type", JStr (relationship_type_value (rl_relationship_type r)));
                   ("created_at", JStr (isoformat (rl_created_at r)))]) rows).

Definition read_workspace (workspace_id : string) (u : user) : txn dict :=
  require_workspace_viewer workspace_id u;;
  row ← gets (workspace_by_id workspace_id);
  mret (match row with Some w => workspace_dict w | None => [] end).

(** [None if user.get("role") == "admin" else self._user_id(user)] *)
Definition owner_filter (u : user) : txn (option string) :=
  if is_admin u then mret None else user_id ← actor_of u; mret (Some user_id).

Definition list_workspaces (u : user) (include_unregistered : bool)
    (project_id : option string) : txn (list dict) :=
  match project_id with
  | Some project_id =>
      _ ← require_project_viewer project_id u;
      owner ← owner_filter u;
      rows ← gets (list_workspaces_linked_to_project project_id owner include_unregistered);
      mret (map workspace_dict rows)
  | None =>
      owner ← owner_filter u;
      rows ← gets (list_workspaces_owned owner include_unregistered);
      mret (map workspace_dict rows)
  end.

(** ** Environments *)

(** The rows that the caller may see, in order. *)
Definition list_environments (auth : option (list access_row)) (u : user)
    (include_disabled : bool) : txn (list dict) :=
  rows ← gets (repo_list_environments include_disabled);
  visible ← for_collect rows (λ e,
    shown ← has_environment_access auth (en_environment_id e) u (en_owner_user_id e);
    mret (if (shown : bool) then [environment_dict e] else []));
  mret (concat visible).

Definition read_environment (auth : option (list access_row)) (environment_id : string) (u : user)
    (include_disabled : bool) : txn dict :=
  row ← gets (environment_by_id environment_id);
  row ← require_some row (DomainNotFoundError environment_id);
  visible ← has_environment_access auth environment_id u (en_owner_user_id row);
  require visible (DomainNotFoundError environment_id);;
  require (include_disabled || environment_active row) (DomainNotFoundError environment_id);;
  mret (environment_dict row).

(** ** Whether a Workspace can execute, and why not *)

Definition workspace_execution_status (auth : option (list access_row))
    (workspace_status : WorkspaceStatus) (environment_status : EnvironmentStatus)
    (environment_id : string) (u : user) : txn (bool * option string) :=
  if negb (bool_decide (workspace_status = Workspace_ACTIVE)) then
    mret (false, Some "workspace_unregistered")
  else if negb (bool_decide (environment_status = Env_ACTIVE)) then
    mret (false, Some "environment_disabled")
  else
    granted ← has_environment_execution_access auth environment_id u;
    if (granted : bool) then mret (true, None)
    else mret (false, Some "environment_grant_required").

Definition workspace_link_execution_status (auth : option (list access_row))
    (link : link_row * workspace_row * environment_row) (u : user) : txn (bool * option string) :=
  let '(l, w, e) := link in
  if negb (link_active l) then mret (false, Some "workspace_link_inactive")
  else workspace_execution_status auth (ws_status w) (en_status e) (ws_environment_id w) u.

(** ** Console summaries of Projects *)

Record project_permissions := mkPermissions {
  pm_can_edit : bool;
  pm_can_publish : bool;
  pm_can_manage_members : bool;
  pm_can_archive : bool;
  pm_can_unarchive : bool;
  pm_can_create_task : bool }.

Record projected_link := mkProjectedLink {
  pl_workspace_id : string;
  pl_label : string;
  pl_canonical_path : string;
  pl_environment_id : string;
  pl_environment_alias : string;
  pl_environment_display_name : string;
  pl_is_primary : bool;
  pl_can_execute : bool;
  pl_cannot_execute_reason : option string }.

Record project_summary := mkSummary {
  sm_project : project_row;
  sm_current_user_role : string;
  sm_recent_activity_at : time;
  sm_workspace_count : Z;
  sm_executable_workspace_count : Z;
  sm_activity : activity_summary;
  sm_primary_workspace : option projected_link;
  sm_attention_reasons : list string;
  sm_permissions : project_permissions }.

Definition project_link (auth : option (list access_row)) (u : user)
    (link : link_row * workspace_row * environment_row) : txn projected_link :=
  '(can_execute, reason) ← workspace_link_execution_status auth link u;
  let '(l, w, e) := link in
  mret (mkProjectedLink (ln_workspace_id l) (ws_label w) (ws_canonical_path w)
          (ws_environment_id w) (en_alias e) (en_display_name e) (ln_is_primary l) can_execute
          reason).

Definition permissions_for (role : string) (member : option member_row) (p : project_row)
    (executable_workspace_count : Z) : project_permissions :=
  let can_edit := is_editor role in
  let can_manage := is_manager role in
  mkPermissions can_edit
    (eqs role "owner"
     || (eqs role "editor" && match member with Some m => mb_can_publish m | None => false end))
    can_manage
    (can_manage && project_active p && negb (pj_is_default p))
    (can_manage && negb (project_active p))
    (can_edit && project_active p && Z.ltb 0 executable_workspace_count).

Definition attention_reasons (p : project_row) (workspace_count executable_count failed : Z) :
    list string :=
  ((if project_active p && Z.eqb workspace_count 0 then ["no_workspace"]
    else if project_active p && Z.eqb executable_count 0 then ["no_executable_workspace"] else [])
   ++ (if Z.ltb 0 failed then ["failed_tasks"] else []))%list.

(** One iteration of the loop over the visible Projects. *)
Definition summarize (auth : option (list access_row)) (u : user) (user_id : string)
    (p : project_row) : txn (list project_summary) :=
  let project_id := pj_project_id p in
  role ← gets (project_role project_id u);
  match role with
  | None => mret []
  | Some role =>
      member ← gets (project_member project_id user_id);
      links ← gets (list_workspace_links project_id);
      projected ← for_collect (List.filter (λ l, link_active l.1.1) links) (project_link auth u);
      activity ← gets (project_activity_summary project_id);
      let workspace_count := Z.of_nat (length projected) in
      let executable := count pl_can_execute projected in
      mret [mkSummary p role
        (match act_latest_task_activity_at activity with
         | Some t => Z.max (pj_updated_at p) t
         | None => pj_updated_at p
         end) workspace_count executable activity (List.find pl_is_primary projected)
        (attention_reasons p workspace_count executable (act_failed_task_count activity))
        (permissions_for role member p executable)]
  end.

Definition project_console_summaries (auth : option (list access_row)) (u : user)
    (include_archived : bool) : txn (list project_summary) :=
  user_id ← actor_of u;
  projects ← gets (list_projects_visible user_id (is_admin u) include_archived);
  summaries ← for_collect projects (summarize auth u user_id);
  mret (concat summaries).

Definition project_console_summary (auth : option (list access_row)) (project_id : string)
    (u : user) : txn project_summary :=
  summaries ← project_console_summaries auth u true;
  require_some (List.find (λ s, eqs (pj_project_id (sm_project s)) project_id) summaries)
    (DomainNotFoundError project_id).

(** ** Console entries of Workspaces *)

Record workspace_link_entry := mkLinkEntry {
  le_project : project_row;
  le_current_user_role : string;
  le_link_status : LinkStatus;
  le_is_primary : bool;
  le_can_execute : bool;
  le_cannot_execute_reason : option string }.

Record workspace_entry := mkEntry {
  we_workspace : workspace_row;
  we_recent_activity_at : time;
  we_environment : environment_row;
  we_project_links : list workspace_link_entry;
  we_task_count : Z;
  we_active_task_count : Z;
  we_can_execute : bool;
  we_cannot_execute_reason : option string;
  we_can_manage_registry : bool }.

Definition link_entry (u : user) (can_execute : bool) (reason : option string)
    (link : link_row * project_row) : txn (list workspace_link_entry) :=
  let '(l, p) := link in
  role ← gets (project_role (ln_project_id l) u);
  match role with
  | None => mret []
  | Some role =>
      let executes := can_execute && link_active l && project_active p in
      let why :=
        if negb (link_active l) then Some "workspace_link_inactive"
        else if negb (project_active p) then Some "project_archived" else reason in
      mret [mkLinkEntry p role (ln_status l) (ln_is_primary l) executes
              (if executes then None else why)]
  end.

Definition describe_workspace (auth : option (list access_row)) (u : user) (user_id : string)
    (w : workspace_row) : txn workspace_entry :=
  environment ← gets (environment_by_id (ws_environment_id w));
  environment ← require_some environment (DomainNotFoundError (ws_environment_id w));
  '(can_execute, reason) ← workspace_execution_status auth (ws_status w) (en_status environment)
                             (ws_environment_id w) u;
  links ← gets (list_project_links_for_workspace (ws_workspace_id w));
  entries ← for_collect links (link_entry u can_execute reason);
  activity ← gets (workspace_activity_summary (ws_workspace_id w));
  mret (mkEntry w
    (match act_latest_task_activity_at activity with
     | Some t => Z.max (ws_updated_at w) t
     | None => ws_updated_at w
     end) environment (concat entries) (act_task_count activity)
    (act_active_task_count activity) can_execute reason
    (is_admin u || eqs (ws_owner_user_id w) user_id)).

Definition workspace_console_entries (auth : option (list access_row)) (u : user)
    (include_unregistered : bool) : txn (list workspace_entry) :=
  user_id ← actor_of u;
  workspaces ← gets (list_workspaces_owned (if is_admin u then None else Some user_id)
                       include_unregistered);
  for_collect workspaces (describe_workspace auth u user_id).

Definition workspace_console_entry (auth : option (list access_row)) (workspace_id : string)
    (u : user) : txn workspace_entry :=
  entries ← workspace_console_entries auth u true;
  require_some (List.find (λ e, eqs (ws_workspace_id (we_workspace e)) workspace_id) entries)
    (DomainNotFoundError workspace_id).
