(* ===== verification/Assembler.v ===== *)
(** * The Context assembler
    ([ContextAssembler] and the fingerprints of [src/ainrf/domain/context.py])

    What a Task's engine is told: platform constraints, Project brief with its
    reviewed fragments, Workspace context and the Task request, in this order,
    within a byte budget.  [ValueError] is raised for wrong sources. *)

From stdpp Require Import base tactics list strings.
From Stdlib Require Import ZArith Lia.
From S2P Require Import Prelude PyText PyJson Utf8 PyTime Tables Contracts RegistryRows Schema.
From S2P Require Import Repository Service EnvironmentIdentity.

Local Open Scope string_scope.
Local Open Scope Z_scope.

Definition DEFAULT_CONTEXT_BYTE_BUDGET : Z := 32 * 1024.
Definition PREVIEW_TTL : Z := 30 * 60 * 1000000.
Definition PLATFORM_CONSTRAINTS_VERSION : string := "openscience-platform-v1".
Definition DEFAULT_PLATFORM_CONSTRAINTS : string :=
  "Operate within the selected OpenScience Project and Workspace. "
  ++ "Respect tenant isolation, do not expose credentials or private paths, "
  ++ "and report uncertainty instead of assuming unavailable state.".

Lemma default_budget_nonneg : 0 ≤ DEFAULT_CONTEXT_BYTE_BUDGET.
Proof. done. Qed.

Definition newline : string := String (Ascii.ascii_of_nat 10) "".

Definition json_of_Z (o : option Z) : json :=
  match o with Some n => JInt n | None => JNull end.

Record ContextFragment := mkFragment {
  cf_fragment_id : string;
  cf_source_type : string;
  cf_source_version : string;
  cf_content : string;
  cf_source_metadata : dict;
  cf_sort_order : Z;
  cf_byte_budget : option Z;
  cf_created_by_user_id : option string;
  cf_created_at : option string;
  cf_source_fingerprint : option string }.

Record ContextSource := mkSource {
  sr_source_type : string;
  sr_source_id : string;
  sr_source_version : string;
  sr_label : string;
  sr_content : string;
  sr_fragments : list ContextFragment }.

Record ContextAssembly := mkAssembly {
  as_content : string;
  as_fingerprint : string;
  as_source_manifest : list json;
  as_byte_budget : Z;
  as_truncated : bool }.

Section assembler.
Context `{Host}.

Definition fingerprint (content : string) : string := sha256_hex content.

Definition context_version_fingerprint (content : string) (fragment_manifest : list json) :
    string :=
  fingerprint (canonical_json (JObj
    [("content", JStr content); ("fragment_manifest", JList fragment_manifest);
     ("version_format", JInt 1)])).

Definition verified_fragment_provenance_evidence (fragment_manifest : list json) : dict :=
  [("kind", JStr "published_fragment_manifest");
   ("manifest_sha256", JStr (fingerprint (canonical_json (JList fragment_manifest))));
   ("fragment_count", JInt (Z.of_nat (length fragment_manifest)));
   ("source", JStr "project_context_publish_transaction")].

(** ** Fragments *)

(** One fragment of the assembled text and what the manifest says of it. *)
Record part := mkPart {
  pt_included : string;
  pt_rendered_bytes : Z;
  pt_included_bytes : Z;
  pt_truncated : bool;
  pt_entry : json }.

Definition locally_included (f : ContextFragment) : string :=
  match cf_byte_budget f with
  | Some n => utf8_prefix (cf_content f) n
  | None => cf_content f
  end.

Definition render_fragment (f : ContextFragment) (content : string) : string :=
  "### Context Fragment: " ++ cf_source_type f ++ newline ++ content ++ newline ++ newline.

Definition fragment_valid (f : ContextFragment) : bool :=
  match cf_byte_budget f with Some n => Z.leb 0 n | None => true end
  && match cf_source_fingerprint f with
     | Some fp => eqs fp (fingerprint (cf_content f))
     | None => true
     end.

Definition include_fragment (remaining : Z) (position : Z) (f : ContextFragment) : part :=
  let local := locally_included f in
  let input_bytes := byte_len (cf_content f) in
  let local_bytes := byte_len local in
  let locally_truncated := negb (Z.eqb local_bytes input_bytes) in
  let rendered := render_fragment f local in
  let rendered_bytes := byte_len rendered in
  let included := utf8_prefix rendered remaining in
  let included_bytes := byte_len included in
  let globally_truncated := negb (Z.eqb included_bytes rendered_bytes) in
  let truncated := locally_truncated || globally_truncated in
  mkPart included rendered_bytes included_bytes truncated
    (JObj [("position", JInt position); ("fragment_id", JStr (cf_fragment_id f));
       ("source_type", JStr (cf_source_type f)); ("source_id", JStr (cf_fragment_id f));
       ("source_version", JStr (cf_source_version f));
       ("fingerprint", JStr (fingerprint (cf_content f)));
       ("source_metadata", JObj (cf_source_metadata f)); ("sort_order", JInt (cf_sort_order f));
       ("byte_budget", json_of_Z (cf_byte_budget f));
       ("created_by_user_id", json_of_option (cf_created_by_user_id f));
       ("created_at", json_of_option (cf_created_at f)); ("input_bytes", JInt input_bytes);
       ("local_included_bytes", JInt local_bytes); ("rendered_bytes", JInt rendered_bytes);
       ("included_bytes", JInt included_bytes); ("locally_truncated", JBool locally_truncated);
       ("globally_truncated", JBool globally_truncated); ("truncated", JBool truncated)]).

(** [for fragment_position, fragment in enumerate(source.fragments)] *)
Fixpoint include_fragments (remaining position : Z) (fs : list ContextFragment) :
    result error (list part) :=
  match fs with
  | [] => Ok []
  | f :: fs' =>
      if fragment_valid f then
        let p := include_fragment remaining position f in
        match include_fragments (remaining - pt_included_bytes p) (position + 1) fs' with
        | Ok ps => Ok (p :: ps)
        | Err e => Err e
        end
      else Err ValueError
  end.

(** ** Sources *)

Definition render_header (s : ContextSource) : string :=
  "## " ++ sr_label s ++ newline ++ sr_content s ++ newline ++ newline.

Definition sum (l : list Z) : Z := foldr Z.add 0 l.

(** The texts of one source, the bytes they take and its manifest entry. *)
Record section := mkSection {
  se_chunks : list string;
  se_included_bytes : Z;
  se_truncated : bool;
  se_entry : json }.

Definition include_source (remaining position : Z) (s : ContextSource) : result error section :=
  let rendered := render_header s in
  let rendered_bytes := byte_len rendered in
  let included := utf8_prefix rendered remaining in
  let included_bytes := byte_len included in
  match include_fragments (remaining - included_bytes) 0 (sr_fragments s) with
  | Err e => Err e
  | Ok parts =>
      let source_truncated :=
        negb (Z.eqb included_bytes rendered_bytes) || existsb pt_truncated parts in
      let source_rendered := rendered_bytes + sum (map pt_rendered_bytes parts) in
      let source_included := included_bytes + sum (map pt_included_bytes parts) in
      Ok (mkSection (included :: map pt_included parts) source_included source_truncated
        (JObj [("position", JInt position); ("source_type", JStr (sr_source_type s));
           ("source_id", JStr (sr_source_id s)); ("source_version", JStr (sr_source_version s));
           ("fingerprint", JStr (fingerprint (sr_content s)));
           ("input_bytes", JInt (byte_len (sr_content s)));
           ("rendered_bytes", JInt source_rendered); ("included_bytes", JInt source_included);
           ("truncated", JBool source_truncated);
           ("fragments", JList (map pt_entry parts))]))
  end.

(** [for position, source in enumerate(sources)] *)
Fixpoint include_sources (remaining position : Z) (sources : list ContextSource) :
    result error (list section) :=
  match sources with
  | [] => Ok []
  | s :: sources' =>
      match include_source remaining position s with
      | Err e => Err e
      | Ok x =>
          match include_sources (remaining - se_included_bytes x) (position + 1) sources' with
          | Ok xs => Ok (x :: xs)
          | Err e => Err e
          end
      end
  end.

Definition required_order : list string :=
  ["platform_constraints"; "project_brief"; "workspace_context"; "task_request"].

Definition assemble (byte_budget : Z) (sources : list ContextSource) :
    result error ContextAssembly :=
  if bool_decide (map sr_source_type sources = required_order) then
    match include_sources byte_budget 0 sources with
    | Err e => Err e
    | Ok sections =>
        let content := String.concat "" (concat (map se_chunks sections)) in
        let manifest := map se_entry sections in
        let truncated := existsb se_truncated sections in
        Ok (mkAssembly content
          (fingerprint (canonical_json (JObj
             [("assembler_version", JInt 1); ("byte_budget", JInt byte_budget);
              ("truncated", JBool truncated); ("source_manifest", JList manifest);
              ("content", JStr content)])))
          manifest byte_budget truncated)
    end
  else Err ValueError.

Definition platform_source `{Kernel} : ContextSource :=
  mkSource "platform_constraints" PLATFORM_CONSTRAINTS_VERSION PLATFORM_CONSTRAINTS_VERSION
    "Platform Constraints" platform_constraints [].
End assembler.
