(* ===== verification/AssemblerLaws.v ===== *)
(** * Laws of the Context assembler

    The assembler is compared with two reference definitions: [fill], which cuts a
    flat list of texts to a running budget, and [full_text], the whole rendering. *)

From stdpp Require Import base tactics list strings.
From Stdlib Require Import ZArith Lia.
From S2P Require Import Prelude PyText Utf8 PyTime Tables Contracts RegistryRows Schema.
From S2P Require Import Repository Service Scenario Assembler.

Local Open Scope string_scope.
Local Open Scope Z_scope.

(** ** Concatenation *)

Definition concat_text (l : list string) : string := String.concat "" l.

Lemma concat_text_cons x l : concat_text (x :: l) = x ++ concat_text l.
Proof. unfold concat_text. destruct l as [|y l]; [by rewrite app_nil_text | done]. Qed.

Lemma concat_text_app k l : concat_text (k ++ l)%list = concat_text k ++ concat_text l.
Proof.
  induction k as [|x k IH]; [done|]. change ((x :: k) ++ l)%list with (x :: (k ++ l))%list.
  by rewrite !concat_text_cons, IH, app_assoc_text.
Qed.

Lemma byte_len_concat l : byte_len (concat_text l) = sum (map byte_len l).
Proof.
  induction l as [|x l IH]; [done|]. rewrite concat_text_cons, byte_len_app, IH. done.
Qed.

Lemma sum_app k l : sum (k ++ l)%list = sum k + sum l.
Proof. induction k as [|x k IH]; simpl; [done|]. rewrite IH. lia. Qed.

Lemma existsb_false {A} (p : A → bool) l : existsb p l = false ↔ Forall (λ x, p x = false) l.
Proof.
  induction l as [|x l IH]; simpl; [by split|]. rewrite orb_false_iff, IH.
  split; [by intros [? ?]; constructor | by inversion 1].
Qed.

(** ** Filling a budget *)

(** What is kept of each text when they are written one after the other. *)
Fixpoint fill (remaining : Z) (texts : list string) : list string :=
  match texts with
  | [] => []
  | t :: texts' =>
      let kept := utf8_prefix t remaining in kept :: fill (remaining - byte_len kept) texts'
  end.

Definition cut (kept text : string) : bool := negb (Z.eqb (byte_len kept) (byte_len text)).

(** Some text was cut. *)
Definition any_cut (kept texts : list string) : bool := existsb (λ kt, cut kt.1 kt.2) (zip kept texts).

Lemma utf8_prefix_prefix s n : ∃ t, s = utf8_prefix s n ++ t.
Proof.
  unfold utf8_prefix. destruct (Z.leb n 0); [by exists s|].
  destruct (Z.leb _ n); [exists ""; by rewrite app_nil_text|].
  destruct (decode_prefix (take_bytes (Z.to_nat n) s)) as (u & Hu & _).
  exists (u ++ drop_bytes (Z.to_nat n) s). by rewrite <-app_assoc_text, <-Hu, take_drop_bytes.
Qed.

Lemma utf8_prefix_bound s n : byte_len (utf8_prefix s n) ≤ Z.max 0 n.
Proof.
  unfold utf8_prefix. destruct (Z.leb_spec n 0); [unfold byte_len; simpl; lia|].
  destruct (Z.leb_spec (byte_len s) n); [lia|].
  destruct (decode_prefix (take_bytes (Z.to_nat n) s)) as (u & Hu & _).
  pose proof (f_equal byte_len Hu) as Hl. rewrite byte_len_app in Hl.
  pose proof (byte_len_nonneg u). unfold byte_len in *. rewrite length_take_bytes in Hl. lia.
Qed.

Lemma utf8_prefix_fits s n : byte_len s ≤ n → utf8_prefix s n = s.
Proof.
  intros Hs. unfold utf8_prefix. destruct (Z.leb_spec n 0).
  - symmetry. apply byte_len_zero. pose proof (byte_len_nonneg s). lia.
  - by destruct (Z.leb_spec (byte_len s) n); [|lia].
Qed.

Lemma cut_false s n : cut (utf8_prefix s n) s = false ↔ utf8_prefix s n = s.
Proof.
  unfold cut. rewrite negb_false_iff, Z.eqb_eq. split; [|by intros ->].
  destruct (utf8_prefix_prefix s n) as [t Ht]. intros Hl. rewrite Ht in Hl at 2.
  rewrite byte_len_app in Hl. assert (t = "") as -> by (apply byte_len_zero; lia).
  by rewrite app_nil_text in Ht.
Qed.

Lemma cut_complete s n : cut (utf8_prefix s n) s = false ↔ byte_len s ≤ n ∨ s = "".
Proof.
  rewrite cut_false. split.
  - intros E. pose proof (utf8_prefix_bound s n) as Hb. rewrite E in Hb.
    destruct (Z.le_gt_cases 0 n); [left; lia|]. right. apply byte_len_zero.
    pose proof (byte_len_nonneg s). lia.
  - intros [Hs| ->]; [by apply utf8_prefix_fits|].
    unfold utf8_prefix. destruct (Z.leb_spec n 0); [done|].
    by destruct (Z.leb_spec (byte_len "") n); [|unfold byte_len in *; simpl in *; lia].
Qed.

Lemma fill_bound texts b : sum (map byte_len (fill b texts)) ≤ Z.max 0 b.
Proof.
  revert b. induction texts as [|t texts IH]; intros b; [simpl; lia|].
  cbn [fill map]. simpl. pose proof (utf8_prefix_bound t b).
  pose proof (byte_len_nonneg (utf8_prefix t b)).
  specialize (IH (b - byte_len (utf8_prefix t b))). lia.
Qed.

(** Nothing is cut exactly when everything fits. *)
Lemma fill_complete texts b :
  0 ≤ b → any_cut (fill b texts) texts = false ↔ sum (map byte_len texts) ≤ b.
Proof.
  revert b. induction texts as [|t texts IH]; intros b Hb; [simpl; by split|].
  unfold any_cut in *. cbn [fill zip zip_with existsb map fst snd]. rewrite orb_false_iff, cut_complete.
  pose proof (byte_len_nonneg t). assert (0 ≤ sum (map byte_len texts)).
  { rewrite <-byte_len_concat. apply byte_len_nonneg. }
  simpl. split.
  - intros [Hfit Ht]. assert (byte_len t ≤ b) as Hle by (destruct Hfit as [| ->]; [done | unfold byte_len; simpl; lia]).
    rewrite utf8_prefix_fits in Ht by done. apply IH in Ht; lia.
  - intros Hs. assert (byte_len t ≤ b) by lia. split; [by left|].
    rewrite utf8_prefix_fits by done. apply IH; lia.
Qed.

Lemma fill_all texts b : sum (map byte_len texts) ≤ b → fill b texts = texts.
Proof.
  revert b. induction texts as [|t texts IH]; intros b Hs; [done|]. simpl in *.
  assert (0 ≤ sum (map byte_len texts)).
  { rewrite <-byte_len_concat. apply byte_len_nonneg. }
  rewrite utf8_prefix_fits by lia. rewrite IH by lia. done.
Qed.

Lemma fill_whole texts b : Forall whole texts → Forall whole (fill b texts).
Proof.
  intros Ht. revert b. induction Ht as [|t texts Ht _ IH]; intros b; [constructor|].
  constructor; [|apply IH]. by destruct (utf8_prefix_spec t b Ht) as (u & _ & ? & _).
Qed.

(** ASCII texts fill the budget to the last byte. *)
Lemma fill_ascii texts b :
  Forall (λ t, ascii_text t = true) texts →
  concat_text (fill b texts) = take_bytes (Z.to_nat b) (concat_text texts).
Proof.
  intros Ht. revert b. induction Ht as [|t texts Ht _ IH]; intros b; [by destruct (Z.to_nat b)|].
  cbn [fill]. rewrite !concat_text_cons, IH, (utf8_prefix_ascii t b Ht).
  destruct (Z.le_gt_cases (byte_len t) b) as [Hle|Hgt].
  - rewrite take_bytes_all by (unfold byte_len in *; lia).
    replace (Z.to_nat b) with (String.length t + Z.to_nat (b - byte_len t))%nat
      by (unfold byte_len in *; lia).
    by rewrite take_bytes_app_more.
  - rewrite take_bytes_app by (unfold byte_len in *; lia).
    assert (b - byte_len (take_bytes (Z.to_nat b) t) ≤ 0) as Hz
      by (unfold byte_len in *; rewrite length_take_bytes; lia).
    replace (Z.to_nat (b - byte_len (take_bytes (Z.to_nat b) t))) with 0%nat by lia.
    destruct (concat_text texts); by rewrite app_nil_text.
Qed.

Lemma fill_app k l b :
  fill b (k ++ l)%list = (fill b k ++ fill (b - sum (map byte_len (fill b k))) l)%list.
Proof.
  revert b. induction k as [|t k IH]; intros b; simpl; [by rewrite Z.sub_0_r|].
  rewrite IH. do 3 f_equal. lia.
Qed.

Lemma length_fill l b : length (fill b l) = length l.
Proof. revert b. induction l as [|t l IH]; intros b; simpl; [done|]. by rewrite IH. Qed.

Lemma any_cut_app k l k' l' :
  length k' = length k → any_cut (k' ++ l')%list (k ++ l)%list = any_cut k' k || any_cut l' l.
Proof. intros Hl. unfold any_cut. by rewrite zip_with_app, existsb_app. Qed.

(** ** The assembler fills its budget *)

Section laws.
Context `{Host}.

Definition rendered_fragment (f : ContextFragment) : string :=
  render_fragment f (locally_included f).
Definition locally_cut (f : ContextFragment) : bool := cut (locally_included f) (cf_content f).

Definition pieces_of (s : ContextSource) : list string :=
  render_header s :: map rendered_fragment (sr_fragments s).
Definition pieces (sources : list ContextSource) : list string := concat (map pieces_of sources).

Lemma include_fragments_fill r n fs ps :
  include_fragments r n fs = Ok ps →
  map pt_included ps = fill r (map rendered_fragment fs) ∧
  map pt_included_bytes ps = map byte_len (map pt_included ps) ∧
  existsb pt_truncated ps =
    existsb locally_cut fs || any_cut (map pt_included ps) (map rendered_fragment fs).
Proof.
  revert r n ps. induction fs as [|f fs IH]; intros r n ps; cbn [include_fragments].
  { intros [= <-]. done. }
  destruct (fragment_valid f); [|done].
  destruct (include_fragments _ _ fs) as [qs|] eqn:Hq; [|done]. intros [= <-].
  apply IH in Hq as (Hi & Hb & Ht). cbn [map existsb]. rewrite Hi, Ht.
  split_and!; [done | by rewrite Hb, Hi |].
  unfold any_cut. cbn [fill map zip zip_with existsb fst snd].
  change (pt_truncated (include_fragment r n f))
    with (locally_cut f || cut (utf8_prefix (rendered_fragment f) r) (rendered_fragment f)).
  rewrite <-!orb_assoc. f_equal. rewrite !orb_assoc. f_equal. rewrite orb_comm. f_equal.
  by rewrite Hi.
Qed.

Lemma include_source_fill r n s x :
  include_source r n s = Ok x →
  se_chunks x = fill r (pieces_of s) ∧
  se_included_bytes x = sum (map byte_len (se_chunks x)) ∧
  se_truncated x =
    existsb locally_cut (sr_fragments s) || any_cut (se_chunks x) (pieces_of s).
Proof.
  unfold include_source. destruct (include_fragments _ _ _) as [ps|] eqn:Hp; [|done].
  intros [= <-]. apply include_fragments_fill in Hp as (Hi & Hb & Ht).
  cbn [se_chunks se_included_bytes se_truncated]. unfold pieces_of. cbn [fill].
  rewrite Hi. split; [done|]. split; [by rewrite Hb, Hi|].
  rewrite Ht, Hi. unfold any_cut. cbn [zip zip_with existsb fst snd].
  rewrite orb_assoc, (orb_comm (negb _)), <-orb_assoc. done.
Qed.

Lemma include_sources_fill r n ss xs :
  include_sources r n ss = Ok xs →
  concat (map se_chunks xs) = fill r (pieces ss) ∧
  map se_included_bytes xs = map (λ x, sum (map byte_len (se_chunks x))) xs ∧
  existsb se_truncated xs =
    existsb (λ s, existsb locally_cut (sr_fragments s)) ss
    || any_cut (concat (map se_chunks xs)) (pieces ss).
Proof.
  revert r n xs. induction ss as [|s ss IH]; intros r n xs; cbn [include_sources].
  { intros [= <-]. done. }
  destruct (include_source r n s) as [x|] eqn:Hx; [|done].
  destruct (include_sources _ _ ss) as [ys|] eqn:Hy; [|done]. intros [= <-].
  apply include_source_fill in Hx as (Hc & Hb & Ht). apply IH in Hy as (Hc' & Hb' & Ht').
  unfold pieces in *. cbn [map concat existsb]. rewrite fill_app, Hc, Hc', Hb, Hc.
  split; [done|]. split; [by rewrite Hb'|].
  rewrite any_cut_app by apply length_fill. rewrite Ht, Ht', Hc, Hc', Hb, Hc.
  rewrite <-!orb_assoc. f_equal. rewrite !orb_assoc. f_equal. apply orb_comm.
Qed.

(** An assembly is the filled budget, and it is marked as truncated exactly when a
    text or a fragment was cut. *)
Lemma assemble_fill b ss a :
  assemble b ss = Ok a →
  map sr_source_type ss = required_order ∧
  as_content a = concat_text (fill b (pieces ss)) ∧ as_byte_budget a = b ∧
  as_truncated a =
    existsb (λ s, existsb locally_cut (sr_fragments s)) ss
    || any_cut (fill b (pieces ss)) (pieces ss).
Proof.
  unfold assemble. case_bool_decide as Ho; [|done].
  destruct (include_sources b 0 ss) as [xs|] eqn:Hx; [|done]. intros [= <-].
  apply include_sources_fill in Hx as (Hc & _ & Ht). simpl. rewrite Ht, Hc. done.
Qed.

(** ** Reference rendering *)

(** Everything, as if there were no budget. *)
Definition full_text (ss : list ContextSource) : string :=
  concat_text (concat (map
    (λ s, render_header s :: map (λ f, render_fragment f (cf_content f)) (sr_fragments s)) ss)).

Definition fragments_of (ss : list ContextSource) : list ContextFragment :=
  concat (map sr_fragments ss).

(** A fragment whose own budget covers its content. *)
Definition within_budget (f : ContextFragment) : Prop :=
  match cf_byte_budget f with
  | Some n => byte_len (cf_content f) ≤ n ∨ cf_content f = ""
  | None => True
  end.

Lemma locally_cut_false f : locally_cut f = false ↔ within_budget f.
Proof.
  unfold locally_cut, locally_included, within_budget.
  destruct (cf_byte_budget f); [apply cut_complete|].
  unfold cut. by rewrite Z.eqb_refl.
Qed.

Lemma locally_cut_sources ss :
  existsb (λ s, existsb locally_cut (sr_fragments s)) ss = existsb locally_cut (fragments_of ss).
Proof.
  unfold fragments_of. induction ss as [|s ss IH]; [done|]. simpl. by rewrite existsb_app, IH.
Qed.

Lemma pieces_full ss :
  Forall within_budget (fragments_of ss) → concat_text (pieces ss) = full_text ss.
Proof.
  intros Hw. unfold pieces, full_text. f_equal. f_equal. apply map_ext_in. intros s Hs.
  unfold pieces_of. f_equal. apply map_ext_in. intros f Hf.
  unfold rendered_fragment. f_equal. rewrite Forall_forall in Hw. specialize (Hw f).
  unfold within_budget, locally_included in *. destruct (cf_byte_budget f) as [n|]; [|done].
  apply cut_false, cut_complete, Hw. apply list_elem_of_In, in_concat.
  exists (sr_fragments s). split; [by apply in_map | done].
Qed.

(** The texts that go into an assembly. *)
Definition texts_of (ss : list ContextSource) : list string :=
  concat (map (λ s, sr_label s :: sr_content s ::
    concat (map (λ f, [cf_source_type f; cf_content f]) (sr_fragments s))) ss).

Lemma texts_of_cons s ss :
  texts_of (s :: ss) = (sr_label s :: sr_content s ::
    concat (map (λ f, [cf_source_type f; cf_content f]) (sr_fragments s)) ++ texts_of ss)%list.
Proof. done. Qed.

(** A property that texts keep when they are cut, joined and put under headers. *)
Lemma pieces_closed (P : string → Prop) ss :
  (∀ a b, P a → P b → P (a ++ b)) → (∀ s n, P s → P (utf8_prefix s n)) →
  P newline → P "## " → P "### Context Fragment: " →
  Forall P (texts_of ss) → Forall P (pieces ss).
Proof.
  intros Happ Hcut Hnl Hh Hf Ht. unfold pieces. apply Forall_concat, Forall_map.
  induction ss as [|s ss IH]; [constructor|]. rewrite texts_of_cons in Ht.
  apply Forall_cons in Ht as [Hl [Hc [Hfs Hr]%Forall_app]%Forall_cons]. constructor; [|by apply IH].
  unfold pieces_of. constructor.
  { unfold render_header. by repeat (apply Happ; [done|]). }
  apply Forall_map. clear IH Hr. induction (sr_fragments s) as [|f fs IHf]; [constructor|].
  simpl in Hfs. apply Forall_cons in Hfs as [Hty [Hco Hfs]%Forall_cons]. constructor; [|by apply IHf].
  unfold rendered_fragment, render_fragment, locally_included.
  do 2 (apply Happ; [done|]). apply Happ; [done|]. apply Happ; [|by apply Happ].
  destruct (cf_byte_budget f); [by apply Hcut | done].
Qed.

Lemma whole_prefix s n : whole s → whole (utf8_prefix s n).
Proof. intros Hs. by destruct (utf8_prefix_spec s n Hs) as (t & _ & ? & _). Qed.

Lemma concat_whole l : Forall whole l → whole (concat_text l).
Proof.
  induction 1 as [|x l Hx _ IH]; [done|]. rewrite concat_text_cons. by apply whole_app.
Qed.

Lemma assemble_bound b ss a :
  0 ≤ b → assemble b ss = Ok a → byte_len (as_content a) ≤ b.
Proof.
  intros Hb (_ & -> & _ & _)%assemble_fill. rewrite byte_len_concat.
  pose proof (fill_bound (pieces ss) b). lia.
Qed.

(** C30: an assembled Context never exceeds its byte budget, and if the texts that go into it are
    well-formed UTF-8 then it is, too: no character is cut in half. *)
Theorem assembly_fits_budget b ss a :
  0 ≤ b → assemble b ss = Ok a →
  byte_len (as_content a) ≤ b ∧ (Forall whole (texts_of ss) → whole (as_content a)).
Proof.
  intros Hb Ha. split; [by eapply assemble_bound|]. intros Ht.
  apply assemble_fill in Ha as (_ & -> & _ & _). apply concat_whole, fill_whole, pieces_closed; try done.
  - apply whole_app.
  - intros; by apply whole_prefix.
Qed.

(** C29: the assembler reports a truncation exactly when something is missing: an assembly is
    unmarked if and only if every fragment fits its own budget and the whole rendering fits the
    budget, and then the content is the whole rendering; and while all texts are ASCII the content
    is that rendering, with fragments cut to their own budgets, cut at the budget to the byte. *)
Theorem truncation_is_reported b ss a :
  0 ≤ b → assemble b ss = Ok a →
  (as_truncated a = false ↔
     Forall within_budget (fragments_of ss) ∧ byte_len (full_text ss) ≤ b) ∧
  (as_truncated a = false → as_content a = full_text ss) ∧
  (Forall (λ t, ascii_text t = true) (texts_of ss) →
     as_content a = take_bytes (Z.to_nat b) (concat_text (pieces ss))).
Proof.
  intros Hb (_ & Hc & _ & Ht)%assemble_fill. rewrite locally_cut_sources in Ht.
  assert (as_truncated a = false ↔
    Forall within_budget (fragments_of ss) ∧ byte_len (full_text ss) ≤ b) as Hiff.
  { rewrite Ht, orb_false_iff, existsb_false, fill_complete, <-byte_len_concat by done.
    rewrite Forall_forall. setoid_rewrite locally_cut_false. rewrite <-Forall_forall.
    split; intros [Hw Hl]; (split; [done|]); by rewrite pieces_full in * by done. }
  split; [done|]. split.
  - intros [Hw Hl]%Hiff. rewrite Hc, <-pieces_full by done. rewrite fill_all; [done|].
    by rewrite <-byte_len_concat, pieces_full.
  - intros Ha. rewrite Hc. apply fill_ascii, pieces_closed; try done.
    + intros x y Hx Hy. by rewrite ascii_app, Hx, Hy.
    + intros x n Hx. rewrite utf8_prefix_ascii by done. by apply ascii_take.
Qed.

(** ** The manifest *)

Definition manifest_field (key : string) (v : json) : json :=
  match v with JObj d => default JNull (dict_get key d) | _ => JNull end.
Definition entry_int (key : string) (v : json) : Z :=
  match manifest_field key v with JInt n => n | _ => 0 end.
Definition entry_list (key : string) (v : json) : list json :=
  match manifest_field key v with JList l => l | _ => [] end.

(** What the manifest says of a fragment and of a source. *)
Definition fragment_described (f : ContextFragment) (v : json) : Prop :=
  manifest_field "fragment_id" v = JStr (cf_fragment_id f) ∧
  manifest_field "source_version" v = JStr (cf_source_version f) ∧
  manifest_field "fingerprint" v = JStr (fingerprint (cf_content f)).
Definition source_described (s : ContextSource) (v : json) : Prop :=
  manifest_field "source_type" v = JStr (sr_source_type s) ∧ manifest_field "source_id" v = JStr (sr_source_id s) ∧
  manifest_field "source_version" v = JStr (sr_source_version s) ∧
  manifest_field "fingerprint" v = JStr (fingerprint (sr_content s)) ∧
  Forall2 fragment_described (sr_fragments s) (entry_list "fragments" v).

Lemma include_fragments_described r n fs ps :
  include_fragments r n fs = Ok ps → Forall2 fragment_described fs (map pt_entry ps).
Proof.
  revert r n ps. induction fs as [|f fs IH]; intros r n ps; cbn [include_fragments].
  { intros [= <-]. constructor. }
  destruct (fragment_valid f); [|done].
  destruct (include_fragments _ _ fs) as [qs|] eqn:Hq; [|done]. intros [= <-].
  constructor; [done | by eapply IH].
Qed.

Lemma include_sources_described r n ss xs :
  include_sources r n ss = Ok xs →
  Forall2 source_described ss (map se_entry xs) ∧
  map (entry_int "included_bytes") (map se_entry xs) = map se_included_bytes xs.
Proof.
  revert r n xs. induction ss as [|s ss IH]; intros r n xs; cbn [include_sources].
  { intros [= <-]. split; [constructor | done]. }
  destruct (include_source r n s) as [x|] eqn:Hx; [|done].
  destruct (include_sources _ _ ss) as [ys|] eqn:Hy; [|done]. intros [= <-].
  apply IH in Hy as [Hd Hb]. unfold include_source in Hx.
  destruct (include_fragments _ _ _) as [ps|] eqn:Hp; [|done]. injection Hx as <-.
  apply include_fragments_described in Hp. cbn [map]. rewrite Hb.
  split; [constructor; [|done]|]; done.
Qed.

(** The source manifest of an assembly accounts for its content: it lists the sources in their
    fixed order and below them every fragment, each with its version and the fingerprint of its
    content, and the bytes it reports as included add up to the bytes of the content. *)
Theorem manifest_accounts_for_content b ss a :
  assemble b ss = Ok a →
  map (manifest_field "source_type") (as_source_manifest a) = map JStr required_order ∧
  Forall2 source_described ss (as_source_manifest a) ∧
  sum (map (entry_int "included_bytes") (as_source_manifest a)) = byte_len (as_content a).
Proof.
  intros Ha. pose proof (assemble_fill _ _ _ Ha) as (Ho & Hc & _ & _). unfold assemble in Ha.
  case_bool_decide; [|done]. destruct (include_sources b 0 ss) as [xs|] eqn:Hx; [|done].
  injection Ha as <-. cbn [as_source_manifest as_content] in *.
  pose proof (include_sources_described _ _ _ _ Hx) as [Hd Hb].
  apply include_sources_fill in Hx as (Hf & Hs & _). split.
  { rewrite <-Ho. clear -Hd. revert Hd. generalize (map se_entry xs). intros vs Hd.
    induction Hd as [|s v ss vs Hv _ IH]; [done|]. cbn [map]. destruct Hv as (-> & _).
    by rewrite IH. }
  split; [done|]. rewrite Hb, Hs, byte_len_concat. clear.
  induction xs as [|x xs IH]; [done|]. simpl. by rewrite map_app, sum_app, IH.
Qed.

Lemma include_fragments_total r n fs :
  if forallb fragment_valid fs then ∃ ps, include_fragments r n fs = Ok ps
  else include_fragments r n fs = Err ValueError.
Proof.
  revert r n. induction fs as [|f fs IH]; intros r n; cbn [forallb include_fragments]; [by eexists|].
  destruct (fragment_valid f); [|done]. cbn [andb]. cbv zeta.
  specialize (IH (r - pt_included_bytes (include_fragment r n f)) (n + 1)).
  destruct (forallb fragment_valid fs); [destruct IH as [ps ->]; by eexists | by rewrite IH].
Qed.

Lemma include_sources_total r n ss :
  if forallb fragment_valid (fragments_of ss) then ∃ xs, include_sources r n ss = Ok xs
  else include_sources r n ss = Err ValueError.
Proof.
  unfold fragments_of. revert r n. induction ss as [|s ss' IH]; intros r n; [by eexists|].
  cbn [map concat include_sources]. rewrite forallb_app. unfold include_source.
  pose proof (include_fragments_total (r - byte_len (utf8_prefix (render_header s) r)) 0
    (sr_fragments s)) as Hfs.
  cbv zeta. destruct (forallb fragment_valid (sr_fragments s)); cbn [andb]; [|by rewrite Hfs].
  destruct Hfs as [ps ->]. cbn [se_included_bytes].
  match goal with |- context [include_sources ?x ?y ss'] => specialize (IH x y) end.
  destruct (forallb _ (concat _)); [destruct IH as [xs ->]; by eexists | by rewrite IH].
Qed.

Lemma assemble_total b ss :
  map sr_source_type ss = required_order → forallb fragment_valid (fragments_of ss) = true →
  ∃ a, assemble b ss = Ok a.
Proof.
  intros Ho Hv. unfold assemble. rewrite bool_decide_eq_true_2 by done.
  pose proof (include_sources_total b 0 ss) as Hss. rewrite Hv in Hss. destruct Hss as [xs ->].
  by eexists.
Qed.

(** The assembler succeeds exactly on the four sources in their required order with fragments
    that have a budget of at least zero and the fingerprint of their content; anything else is
    refused with a [ValueError], whatever the budget. *)
Theorem assembler_refuses_wrong_sources b ss :
  (∃ a, assemble b ss = Ok a) ∧
    map sr_source_type ss = required_order ∧ forallb fragment_valid (fragments_of ss) = true ∨
  assemble b ss = Err ValueError ∧
    ¬ (map sr_source_type ss = required_order ∧ forallb fragment_valid (fragments_of ss) = true).
Proof.
  destruct (decide (map sr_source_type ss = required_order)) as [Ho|Ho].
  - pose proof (include_sources_total b 0 ss) as Hss.
    destruct (forallb fragment_valid (fragments_of ss)) eqn:Hv.
    + left. split; [by apply assemble_total | done].
    + right. unfold assemble. rewrite bool_decide_eq_true_2, Hss by done. naive_solver.
  - right. unfold assemble. rewrite bool_decide_eq_false_2 by done. naive_solver.
Qed.
End laws.

(** ** A small assembly *)

Definition demo_fragment : ContextFragment :=
  mkFragment "f1" "note" "v1" "abcdef" [] 0 (Some 4) None None (Some "#abcdef").
Definition demo_sources : list ContextSource :=
  [mkSource "platform_constraints" "p" "p" "P" "x" []; mkSource "project_brief" "b" "b" "B" "y" [demo_fragment];
   mkSource "workspace_context" "w" "w" "W" "z" []; mkSource "task_request" "t" "t" "T" "hi" []].
Definition demo_assembly (b : Z) : ContextAssembly :=
  match assemble b demo_sources with Ok a => a | Err _ => mkAssembly "" "" [] 0 false end.

Lemma assembly_fits_budget_witness :
  assemble 60 demo_sources = Ok (demo_assembly 60) ∧ byte_len (as_content (demo_assembly 60)) ≤ 60.
Proof.
  split; [by vm_compute|].
  by apply (assembly_fits_budget 60 demo_sources (demo_assembly 60)); [lia | vm_compute].
Defined.

Lemma truncation_is_reported_witness :
  as_truncated (demo_assembly 60) = true ∧
  as_content (demo_assembly 60) = take_bytes 60 (concat_text (pieces demo_sources)).
Proof.
  split; [by vm_compute|].
  apply (truncation_is_reported 60 demo_sources (demo_assembly 60));
    [lia | by vm_compute | by repeat constructor].
Defined.

Lemma manifest_accounts_for_content_witness :
  sum (map (entry_int "included_bytes") (as_source_manifest (demo_assembly 60)))
    = byte_len (as_content (demo_assembly 60)).
Proof.
  apply (manifest_accounts_for_content 60 demo_sources (demo_assembly 60)). by vm_compute.
Defined.
