(* ===== verification/ContextRepository.v ===== *)
(** * Tables of the Project Context
    ([src/ainrf/db/baselines/agentic_researcher.sql] and the statements of
    [src/ainrf/domain/context.py])

    Drafts, published versions with their provenance, candidates, fragments,
    snapshots and previews: constraints and one definition per statement.  The
    triggers that forbid any update or deletion of snapshots, fragments and
    provenance have no statement to stop here. *)

From stdpp Require Import base tactics list strings.
From Stdlib Require Import ZArith Lia.
From S2P Require Import Prelude PyText Tables Contracts RegistryRows Schema Repository.
From S2P Require Import Projection RegistryRepository.

Local Open Scope string_scope.

(** ** Constraints *)

Definition version_exists (d : db) (context_version_id : string) : bool :=
  row_exists (λ v, eqs (cv_context_version_id v) context_version_id) (context_versions d).
Definition snapshot_exists (d : db) (snapshot_id : string) : bool :=
  row_exists (λ s, eqs (cs_context_snapshot_id s) snapshot_id) (context_snapshots d).

(** Both ends or none, and not backwards. *)
Definition range_ok (start stop : option Z) : bool :=
  match start, stop with
  | None, None => true
  | Some a, Some b => Z.leb 0 a && Z.leb a b
  | _, _ => false
  end.

Definition candidate_insert_guard (d : db) (c : candidate_row) : option string :=
  violation
    [(project_exists d (cd_project_id c), "project_context_candidates_project_fk");
     (match cd_source_task_id c with Some t => task_exists d t | None => true end,
      "project_context_candidates_task_fk");
     (match cd_created_by_user_id c, cd_source_task_id c with
      | Some a, Some t => negb (sql_blank a) && negb (sql_blank t)
      | _, _ => false
      end
      && (not_none (cd_source_message_start_seq c) || not_none (cd_source_output_start_seq c))
      && range_ok (cd_source_message_start_seq c) (cd_source_message_end_seq c)
      && range_ok (cd_source_output_start_seq c) (cd_source_output_end_seq c),
      "context_candidate_source_required_insert");
     (row_exists (λ t, eqo (Some (tk_task_id t)) (cd_source_task_id c)
                    && eqs (tk_project_id t) (cd_project_id c)) (tasks d),
      "context_candidate_source_task_project_insert");
     (index_free always cd_candidate_id c (context_candidates d), "project_context_candidates_pk")].

Definition fragment_insert_guard (d : db) (f : fragment_row) : option string :=
  violation
    [(project_exists d (fr_project_id f), "project_context_fragments_project_fk");
     (index_free always fr_fragment_id f (context_fragments d), "project_context_fragments_pk")].

Definition snapshot_insert_guard (d : db) (s : context_snapshot_row) : option string :=
  violation
    [(match cs_context_version_id s with Some v => version_exists d v | None => true end,
      "context_snapshots_version_fk");
     (index_free always cs_context_snapshot_id s (context_snapshots d), "context_snapshots_pk")].

Definition preview_insert_guard (d : db) (p : context_preview_row) : option string :=
  violation
    [(task_exists d (pw_task_id p), "task_context_update_previews_task_fk");
     (project_exists d (pw_project_id p), "task_context_update_previews_project_fk");
     (version_exists d (pw_context_version_id p), "task_context_update_previews_version_fk");
     (Z.leb 0 (pw_byte_budget p), "task_context_update_previews_byte_budget");
     (index_free always pw_preview_id p (context_previews d), "task_context_update_previews_pk")].

Definition preview_update_guard (d : db) (_ new : context_preview_row) : option string :=
  violation
    [(match pw_confirmed_snapshot_id new with Some s => snapshot_exists d s | None => true end,
      "task_context_update_previews_snapshot_fk")].

(** The reference of a Task to its snapshot is checked when it is written. *)
Definition task_pin_guard (d : db) (_ new : task_row) : option string :=
  violation
    [(match tk_project_context_snapshot_id new with Some s => snapshot_exists d s | None => true end,
      "tasks_project_context_snapshot_fk")].

(** ** Drafts *)

Definition same_draft (a b : context_draft_row) : bool := eqs (dr_project_id b) (dr_project_id a).

Definition upsert_context_draft (project_id content updated_by_user_id : string)
    (updated_at : time) : txn unit :=
  upsert_row context_drafts with_drafts same_draft draft_insert_guard (λ _ _ _, None)
    (λ new old, mkContextDraft (dr_project_id old) (dr_content new) (dr_updated_by_user_id new)
       (dr_updated_at new))
    (mkContextDraft project_id content updated_by_user_id updated_at).

Definition context_draft (project_id : string) (d : db) : option context_draft_row :=
  select_one (λ c, eqs (dr_project_id c) project_id) (context_drafts d).

(** ** Versions *)

Definition deactivate (v : context_version_row) : context_version_row :=
  mkContextVersion (cv_context_version_id v) (cv_project_id v) (cv_content v) (cv_fingerprint v)
    false (cv_created_by_user_id v) (cv_created_at v) (cv_fragment_manifest v).

(** [UPDATE project_context_versions SET is_active = 0 WHERE project_id = ?] *)
Definition deactivate_context_versions (project_id : string) : txn Z :=
  update_rows context_versions with_versions (λ v, eqs (cv_project_id v) project_id)
    (λ _ _ _, None) deactivate.

(** A version [LEFT JOIN] its provenance. *)
Record version_view := mkView {
  vw_row : context_version_row;
  vw_status : ProvenanceStatus;
  vw_evidence : dict }.

Definition view_of (d : db) (v : context_version_row) : version_view :=
  match select_one (λ p, eqs (pv_context_version_id p) (cv_context_version_id v))
          (context_provenance d) with
  | Some p => mkView v (pv_status p) (pv_evidence p)
  | None => mkView v Provenance_ATTENTION_NEEDED []
  end.

Definition active_version_or_none (project_id : string) (d : db) : option version_view :=
  view_of d <$> select_one (λ v, eqs (cv_project_id v) project_id && cv_is_active v)
                  (context_versions d).

Definition version_or_none (project_id context_version_id : string) (d : db) :
    option version_view :=
  view_of d <$> select_one (λ v, eqs (cv_project_id v) project_id
                                 && eqs (cv_context_version_id v) context_version_id)
                  (context_versions d).

(** [ORDER BY created_at DESC, key DESC] *)
Definition by_newest {R} (created_at : R → time) (key : R → string) (a b : R) : bool :=
  Z.ltb (created_at b) (created_at a)
  || (Z.eqb (created_at a) (created_at b) && String.leb (key b) (key a)).

Definition versions_for_project (project_id : string) (d : db) : list version_view :=
  map (view_of d) (order_by (by_newest cv_created_at cv_context_version_id)
    (select (λ v, eqs (cv_project_id v) project_id) (context_versions d))).

(** ** Candidates *)

Definition insert_candidate (c : candidate_row) : txn unit :=
  insert_row candidate_insert_guard with_candidates c.

Definition candidate_by_id (project_id candidate_id : string) (d : db) : option candidate_row :=
  select_one (λ c, eqs (cd_candidate_id c) candidate_id && eqs (cd_project_id c) project_id)
    (context_candidates d).

Definition set_candidate_accepted (user_id : string) (now : time) (c : candidate_row) :
    candidate_row :=
  mkCandidate (cd_candidate_id c) (cd_project_id c) (cd_content c) Candidate_ACCEPTED
    (cd_created_at c) (cd_created_by_user_id c) (cd_source_metadata c) (Some user_id) (Some now)
    (cd_rejected_by_user_id c) (cd_rejected_at c) (cd_rejection_reason c) (cd_source_task_id c)
    (cd_source_message_start_seq c) (cd_source_message_end_seq c) (cd_source_output_start_seq c)
    (cd_source_output_end_seq c).

Definition set_candidate_rejected (user_id : string) (now : time) (reason : option string)
    (c : candidate_row) : candidate_row :=
  mkCandidate (cd_candidate_id c) (cd_project_id c) (cd_content c) Candidate_REJECTED
    (cd_created_at c) (cd_created_by_user_id c) (cd_source_metadata c) (cd_accepted_by_user_id c)
    (cd_accepted_at c) (Some user_id) (Some now) reason (cd_source_task_id c)
    (cd_source_message_start_seq c) (cd_source_message_end_seq c) (cd_source_output_start_seq c)
    (cd_source_output_end_seq c).

(** [UPDATE project_context_candidates SET status = ... WHERE candidate_id = ?] *)
Definition update_candidate (candidate_id : string) (f : candidate_row → candidate_row) : txn Z :=
  update_rows context_candidates with_candidates (λ c, eqs (cd_candidate_id c) candidate_id)
    (λ _ _ _, None) f.

Definition candidates_for_project (project_id : string) (d : db) : list candidate_row :=
  order_by (by_newest cd_created_at cd_candidate_id)
    (select (λ c, eqs (cd_project_id c) project_id) (context_candidates d)).

(** ** Fragments *)

Definition insert_fragment (f : fragment_row) : txn unit :=
  insert_row fragment_insert_guard with_fragments f.

Definition fragment_by_id (fragment_id : string) (d : db) : option fragment_row :=
  select_one (λ f, eqs (fr_fragment_id f) fragment_id) (context_fragments d).

(** [ORDER BY sort_order, created_at, fragment_id] *)
Definition by_fragment_order (a b : fragment_row) : bool :=
  Z.ltb (fr_sort_order a) (fr_sort_order b)
  || (Z.eqb (fr_sort_order a) (fr_sort_order b)
      && (Z.ltb (fr_created_at a) (fr_created_at b)
          || (Z.eqb (fr_created_at a) (fr_created_at b)
              && String.leb (fr_fragment_id a) (fr_fragment_id b)))).

Definition fragments_for_project (project_id : string) (d : db) : list fragment_row :=
  order_by by_fragment_order (select (λ f, eqs (fr_project_id f) project_id) (context_fragments d)).

(** ** Snapshots, previews and pins *)

Definition insert_snapshot_row (s : context_snapshot_row) : txn unit :=
  insert_row snapshot_insert_guard with_snapshots s.

Definition snapshot_by_id (snapshot_id : string) (d : db) : option context_snapshot_row :=
  select_one (λ s, eqs (cs_context_snapshot_id s) snapshot_id) (context_snapshots d).

Definition insert_preview (p : context_preview_row) : txn unit :=
  insert_row preview_insert_guard with_previews p.

Definition preview_for (preview_id task_id project_id created_by_user_id : string) (d : db) :
    option context_preview_row :=
  select_one (λ p, eqs (pw_preview_id p) preview_id && eqs (pw_task_id p) task_id
                && eqs (pw_project_id p) project_id
                && eqs (pw_created_by_user_id p) created_by_user_id) (context_previews d).

Definition set_preview_confirmed (snapshot_id : string) (now : time) (p : context_preview_row) :
    context_preview_row :=
  mkContextPreview (pw_preview_id p) (pw_task_id p) (pw_project_id p) (pw_context_version_id p)
    (pw_created_by_user_id p) (pw_proposed_fingerprint p) (pw_proposed_content p)
    (pw_source_manifest p) (pw_byte_budget p) (pw_truncated p) (pw_created_at p)
    (pw_expires_at p) (Some snapshot_id) (Some now).

Definition confirm_preview (preview_id snapshot_id : string) (now : time) : txn Z :=
  update_rows context_previews with_previews (λ p, eqs (pw_preview_id p) preview_id)
    preview_update_guard (set_preview_confirmed snapshot_id now).

(** [UPDATE tasks SET project_context_version_id = ?, project_context_snapshot_id = ?,
    updated_at = ?] *)
Definition set_task_pin (version_id snapshot_id : string) (now : time) (t : task_row) : task_row :=
  mkTask (tk_task_id t) (tk_project_id t) (tk_workspace_id t) (tk_environment_id t)
    (tk_researcher_type t) (tk_harness_engine t) (tk_user_skills t) (tk_user_mcp_servers t)
    (tk_title t) (tk_prompt t) (tk_created_at t) now (tk_owner_user_id t) (tk_archived_at t)
    (tk_archive_reason t) (Some version_id) (Some snapshot_id).

Definition pin_task (task_id version_id snapshot_id : string) (now : time) : txn Z :=
  update_rows tasks with_tasks (λ t, eqs (tk_task_id t) task_id) task_pin_guard
    (set_task_pin version_id snapshot_id now).
