(* ===== verification/Context.v ===== *)
(** * The Project Context service
    ([ProjectContextService] in [src/ainrf/domain/context.py])

    The brief of a Project is edited as a draft, published as immutable versions
    that freeze the reviewed fragments, and assembled into snapshots that Tasks are
    pinned to.  Clock readings and [uuid4] values are arguments in the order in
    which the code draws them. *)

From stdpp Require Import base tactics list strings.
From Stdlib Require Import ZArith Lia.
From S2P Require Import Prelude PyText PyJson Utf8 PyTime Tables Contracts RegistryRows Schema.
From S2P Require Import Repository Projection RegistryRepository Service EnvironmentIdentity.
From S2P Require Import Authorization Registry Assembler ContextRepository.

Local Open Scope string_scope.
Local Open Scope tx_scope.

(** A computation that may raise but touches no table. *)
Definition lift {A} (r : result error A) : txn A :=
  match r with Ok a => mret a | Err e => raise e end.

Definition time_text (t : time) : json := JStr (isoformat t).
Definition time_or_null (o : option time) : json :=
  match o with Some t => time_text t | None => JNull end.

(** ** Payloads *)

Definition candidate_status_value (s : CandidateStatus) : string :=
  match s with
  | Candidate_PROPOSED => "proposed"
  | Candidate_ACCEPTED => "accepted"
  | Candidate_REJECTED => "rejected"
  end.
Definition provenance_value (s : ProvenanceStatus) : string :=
  match s with Provenance_VERIFIED => "verified" | Provenance_ATTENTION_NEEDED => "attention_needed" end.

(** [[entry for entry in decoded if isinstance(entry, dict)]] *)
Definition load_json_list (l : list json) : list json :=
  List.filter (λ v, match v with JObj _ => true | _ => false end) l.

Definition candidate_payload (c : candidate_row) : dict :=
  [("candidate_id", JStr (cd_candidate_id c)); ("project_id", JStr (cd_project_id c));
   ("content", JStr (cd_content c)); ("status", JStr (candidate_status_value (cd_status c)));
   ("created_at", time_text (cd_created_at c));
   ("created_by_user_id", json_of_option (cd_created_by_user_id c));
   ("source_metadata", JObj (cd_source_metadata c));
   ("source_task_id", json_of_option (cd_source_task_id c));
   ("source_message_start_seq", json_of_Z (cd_source_message_start_seq c));
   ("source_message_end_seq", json_of_Z (cd_source_message_end_seq c));
   ("source_output_start_seq", json_of_Z (cd_source_output_start_seq c));
   ("source_output_end_seq", json_of_Z (cd_source_output_end_seq c));
   ("accepted_by_user_id", json_of_option (cd_accepted_by_user_id c));
   ("accepted_at", time_or_null (cd_accepted_at c));
   ("rejected_by_user_id", json_of_option (cd_rejected_by_user_id c));
   ("rejected_at", time_or_null (cd_rejected_at c));
   ("rejection_reason", json_of_option (cd_rejection_reason c))].

Definition fragment_payload (f : fragment_row) : dict :=
  [("fragment_id", JStr (fr_fragment_id f)); ("project_id", JStr (fr_project_id f));
   ("source_type", JStr (fr_source_type f));
   ("source_version", json_of_option (fr_source_version f));
   ("source_fingerprint", json_of_option (fr_source_fingerprint f));
   ("source_metadata", JObj (fr_source_metadata f)); ("content", JStr (fr_content f));
   ("sort_order", JInt (fr_sort_order f)); ("byte_budget", json_of_Z (fr_byte_budget f));
   ("created_by_user_id", json_of_option (fr_created_by_user_id f));
   ("created_at", time_text (fr_created_at f))].

Definition version_payload (v : version_view) : dict :=
  let row := vw_row v in
  [("context_version_id", JStr (cv_context_version_id row));
   ("project_id", JStr (cv_project_id row)); ("content", JStr (cv_content row));
   ("fingerprint", JStr (cv_fingerprint row));
   ("fragment_manifest", JList (load_json_list (cv_fragment_manifest row)));
   ("fragment_provenance_status", JStr (provenance_value (vw_status v)));
   ("fragment_provenance_evidence", JObj (vw_evidence v));
   ("assembly_eligible", JBool (bool_decide (vw_status v = Provenance_VERIFIED)));
   ("is_active", JBool (cv_is_active row));
   ("created_by_user_id", JStr (cv_created_by_user_id row));
   ("created_at", time_text (cv_created_at row))].

Definition snapshot_payload (s : context_snapshot_row) : dict :=
  [("context_snapshot_id", JStr (cs_context_snapshot_id s));
   ("context_version_id", JStr (str_of (cs_context_version_id s)));
   ("fingerprint", JStr (cs_fingerprint s)); ("content", JStr (cs_content s));
   ("source_manifest", JList (load_json_list (cs_source_manifest s)));
   ("byte_budget", json_of_Z (cs_byte_budget s)); ("truncated", JBool (cs_truncated s));
   ("created_at", time_text (cs_created_at s))].

Definition assembly_payload (context_version_id : string) (a : ContextAssembly) : dict :=
  [("context_snapshot_id", JNull); ("context_version_id", JStr context_version_id);
   ("fingerprint", JStr (as_fingerprint a)); ("content", JStr (as_content a));
   ("source_manifest", JList (as_source_manifest a)); ("byte_budget", JInt (as_byte_budget a));
   ("truncated", JBool (as_truncated a))].

(** [_append_candidate] *)
Definition append_candidate (draft candidate : string) : string :=
  if negb (truthy draft) then candidate
  else if negb (truthy candidate) then draft
  else rstrip draft ++ newline ++ newline ++ lstrip candidate.

Section context.
Context `{Host, Kernel}.

Definition draft_fields (c : context_draft_row) : dict :=
  [("content", JStr (dr_content c)); ("fingerprint", JStr (fingerprint (dr_content c)));
   ("updated_by_user_id", JStr (dr_updated_by_user_id c));
   ("updated_at", time_text (dr_updated_at c))].
Definition draft_payload (project_id : string) (d : db) : json :=
  match context_draft project_id d with Some c => JObj (draft_fields c) | None => JNull end.

(** ** Replay *)

Definition context_request_hash (request : dict) : string :=
  fingerprint (canonical_json (JObj request)).

Definition idempotency_response_project_id (actor_user_id scope key : string) :
    txn (option string) :=
  row ← gets (idempotency_record actor_user_id scope key);
  match row with
  | None => mret None
  | Some row =>
      match id_response row with
      | JObj fields =>
          match dict_get "project_id" fields with
          | Some (JStr p) =>
              if truthy p then mret (Some p)
              else raise (DomainConflictError "idempotency_response_invalid")
          | _ => raise (DomainConflictError "idempotency_response_invalid")
          end
      | _ => raise (DomainConflictError "idempotency_response_invalid")
      end
  end.

Definition context_idempotent_result (actor_user_id scope key : string) (request : dict) :
    txn (option json) :=
  require (truthy key) (DomainConflictError "idempotency_key_required");;
  row ← gets (idempotency_record actor_user_id scope key);
  match row with
  | None => mret None
  | Some row =>
      require (eqs (id_request_hash row) (context_request_hash request))
        (DomainConflictError "idempotency_key_conflict");;
      match id_response row with
      | JObj (field :: fields) => mret (Some (JObj (field :: fields)))
      | _ => raise (DomainConflictError "idempotency_response_invalid")
      end
  end.

Definition context_store (actor_user_id scope key : string) (request result : dict)
    (now : time) : txn unit :=
  require (truthy key) (DomainConflictError "idempotency_key_required");;
  insert_idempotency_record actor_user_id scope key (context_request_hash request) (JObj result)
    now.

(** [if idempotency_key is not None: ...] *)
Definition context_replay_if (key : option string) (actor_user_id scope : string)
    (request : dict) : txn (option json) :=
  match key with
  | Some k => context_idempotent_result actor_user_id scope k request
  | None => mret None
  end.
Definition context_store_if (key : option string) (actor_user_id scope : string)
    (request result : dict) (now : time) : txn unit :=
  match key with
  | Some k => context_store actor_user_id scope k request result now
  | None => mret tt
  end.

Definition context_audit (event_id actor_id event_type subject_type subject_id : string)
    (now : time) : txn unit :=
  kernel_audit event_id actor_id event_type subject_type subject_id [] now.

(** ** Drafts and versions *)

Definition save_draft (project_id content : string) (u : user) (idempotency_key : option string)
    (now stored_at : time) (event_id : string) (audited_at : time) : txn json :=
  begin_write;;
  actor ← actor_of u;
  let request := [("project_id", JStr project_id); ("content", JStr content)] in
  cached ← context_replay_if idempotency_key actor "project.context.draft.save" request;
  match cached with
  | Some response => mret response
  | None =>
      require_project_editor project_id u;;
      upsert_context_draft project_id content actor now;;
      let result := [("project_id", JStr project_id); ("content", JStr content);
        ("fingerprint", JStr (fingerprint content)); ("updated_by_user_id", JStr actor);
        ("updated_at", time_text now)] in
      context_store_if idempotency_key actor "project.context.draft.save" request result stored_at;;
      context_audit event_id actor "project_context.draft_saved" "project" project_id audited_at;;
      mret (JObj result)
  end.

Definition get_context (project_id : string) (u : user) : txn json :=
  role ← require_project_viewer project_id u;
  active ← gets (active_version_or_none project_id);
  draft ← (if is_editor role then gets (draft_payload project_id) else mret JNull);
  mret (JObj [("project_id", JStr project_id);
    ("active_version", match active with Some v => JObj (version_payload v) | None => JNull end);
    ("draft", draft)]).

(** ... [row["source_fingerprint"]] or the fingerprint of the content *)
Definition frozen_fingerprint (f : fragment_row) : string :=
  match fr_source_fingerprint f with
  | Some s => if truthy s then s else fingerprint (fr_content f)
  | None => fingerprint (fr_content f)
  end.

Definition freeze_fragment (f : fragment_row) : json :=
  JObj [("fragment_id", JStr (fr_fragment_id f)); ("source_type", JStr (fr_source_type f));
    ("source_version", JStr (match fr_source_version f with
       | Some s => if truthy s then s else frozen_fingerprint f
       | None => frozen_fingerprint f
       end));
    ("content", JStr (fr_content f)); ("source_metadata", JObj (fr_source_metadata f));
    ("sort_order", JInt (fr_sort_order f)); ("byte_budget", json_of_Z (fr_byte_budget f));
    ("created_by_user_id", json_of_option (fr_created_by_user_id f));
    ("created_at", time_text (fr_created_at f));
    ("source_fingerprint", JStr (frozen_fingerprint f))].

Definition freeze_project_fragments (project_id : string) (d : db) : list json :=
  map freeze_fragment (fragments_for_project project_id d).

Definition publish_verified_version_in_transaction (project_id actor_user_id : string)
    (audit_event_type version_uuid : string) (now : time) (event_id : string) (audited_at : time) :
    txn dict :=
  draft ← gets (context_draft project_id);
  draft ← require_some draft (DomainNotFoundError "project context draft");
  let content := dr_content draft in
  fragment_manifest ← gets (freeze_project_fragments project_id);
  let version_fingerprint := context_version_fingerprint content fragment_manifest in
  let evidence := verified_fragment_provenance_evidence fragment_manifest in
  let version_id := "context-" ++ version_uuid in
  _ ← deactivate_context_versions project_id;
  insert_context_version version_id project_id content version_fingerprint fragment_manifest true
    actor_user_id now;;
  insert_context_provenance version_id Provenance_VERIFIED evidence now;;
  context_audit event_id actor_user_id audit_event_type "project" project_id audited_at;;
  mret [("context_version_id", JStr version_id); ("content", JStr content);
    ("fingerprint", JStr version_fingerprint); ("fragment_manifest", JList fragment_manifest);
    ("fragment_provenance_evidence", JObj evidence); ("created_by_user_id", JStr actor_user_id);
    ("created_at", time_text now)].

Definition publish (project_id : string) (u : user) (idempotency_key : option string)
    (version_uuid : string) (now : time) (event_id : string) (audited_at stored_at : time)
    (second_event_id : string) (second_audited_at : time) : txn json :=
  begin_write;;
  actor ← actor_of u;
  let scope := "project.context.publish" in
  let request := [("project_id", JStr project_id)] in
  existing ← match idempotency_key with
             | Some key => idempotency_response_project_id actor scope key
             | None => mret None
             end;
  early ← match existing, idempotency_key with
          | Some existing_project_id, Some key =>
              if negb (eqs existing_project_id project_id) then
                require_project_publisher project_id u;;
                _ ← context_idempotent_result actor scope key request;
                raise AssertionError
              else context_idempotent_result actor scope key request
          | _, _ => mret None
          end;
  match early with
  | Some response => mret response
  | None =>
      require_project_publisher project_id u;;
      cached ← context_replay_if idempotency_key actor scope request;
      match cached with
      | Some response => mret response
      | None =>
          published ← publish_verified_version_in_transaction project_id actor
            "project_context.published" version_uuid now event_id audited_at;
          let result := (published ++ [("project_id", JStr project_id);
            ("fragment_provenance_status", JStr "verified"); ("is_active", JBool true)])%list in
          context_store_if idempotency_key actor scope request result stored_at;;
          context_audit second_event_id actor "project_context.published" "project" project_id
            second_audited_at;;
          mret (JObj result)
      end
  end.

Definition active_version (project_id : string) : txn version_view :=
  v ← gets (active_version_or_none project_id);
  require_some v (DomainNotFoundError "active project context version").

Definition version (project_id context_version_id : string) : txn version_view :=
  v ← gets (version_or_none project_id context_version_id);
  require_some v (DomainNotFoundError "project context version").

Definition list_versions (project_id : string) (u : user) : txn (list dict) :=
  _ ← require_project_viewer project_id u;
  rows ← gets (versions_for_project project_id);
  mret (map version_payload rows).

Definition get_version (project_id context_version_id : string) (u : user) : txn dict :=
  _ ← require_project_viewer project_id u;
  v ← version project_id context_version_id;
  mret (version_payload v).

Definition diff_versions (project_id before_version_id after_version_id : string) (u : user) :
    txn dict :=
  _ ← require_project_viewer project_id u;
  before ← version project_id before_version_id;
  after ← version project_id after_version_id;
  mret [("project_id", JStr project_id); ("before_context_version_id", JStr before_version_id);
    ("after_context_version_id", JStr after_version_id);
    ("diff", JStr (unified_diff (cv_content (vw_row before)) (cv_content (vw_row after))))].
End context.
