(* ===== verification/ContextCandidates.v ===== *)
(** * Context candidates and fragments
    ([ProjectContextService] in [src/ainrf/domain/context.py])

    A candidate proposes text from a Task's transcript for the draft; an editor
    accepts or rejects it.  A fragment is reviewed material that the next published
    version freezes. *)

From stdpp Require Import base tactics list strings.
From Stdlib Require Import ZArith Lia.
From S2P Require Import Prelude PyText PyJson Utf8 PyTime Tables Contracts RegistryRows Schema.
From S2P Require Import Repository Projection RegistryRepository Service EnvironmentIdentity.
From S2P Require Import Authorization Registry Assembler ContextRepository Context.

Local Open Scope string_scope.
Local Open Scope tx_scope.

(** [_validate_ranges] *)
Definition validate_ranges (message_start message_end output_start output_end : option Z) :
    txn unit :=
  require (range_ok message_start message_end) (DomainConflictError "");;
  require (range_ok output_start output_end) (DomainConflictError "").

Definition validate_candidate_provenance (project_id source_task_id : string) : txn unit :=
  task ← gets (task_by_id source_task_id);
  require (match task with Some t => eqs (tk_project_id t) project_id | None => false end)
    (DomainNotFoundError "source Task").

(** [SELECT COUNT(...) ... WHERE task_id = ? AND task_item_seq BETWEEN ? AND ?] *)
Definition items_between (task_id : string) (start stop : Z) (d : db) : Z :=
  count (λ i, eqs (it_task_id i) task_id && Z.leb start (it_task_item_seq i)
              && Z.leb (it_task_item_seq i) stop) (turn_items d).

Definition validate_source_range (task_id : string) (start stop : option Z) : txn unit :=
  match start, stop with
  | Some a, Some b =>
      selected_count ← gets (items_between task_id a b);
      require (Z.eqb selected_count (b - a + 1)) (DomainConflictError "")
  | _, _ => mret tt
  end.

Section candidates.
Context `{Host, Kernel}.

Definition candidate_request (project_id content : string) (source_metadata : dict)
    (source_task_id : option string)
    (message_start message_end output_start output_end : option Z) : dict :=
  [("project_id", JStr project_id); ("content", JStr content);
   ("source_metadata", JObj source_metadata); ("source_task_id", json_of_option source_task_id);
   ("source_message_start_seq", json_of_Z message_start);
   ("source_message_end_seq", json_of_Z message_end);
   ("source_output_start_seq", json_of_Z output_start);
   ("source_output_end_seq", json_of_Z output_end)].

Definition create_candidate (project_id content : string) (u : user) (source_metadata : dict)
    (source_task_id : option string)
    (message_start message_end output_start output_end : option Z)
    (idempotency_key : option string) (candidate_uuid : string) (now : time) (event_id : string)
    (audited_at stored_at : time) : txn json :=
  validate_ranges message_start message_end output_start output_end;;
  task_id ← require_some source_task_id (DomainConflictError "context_candidate_source_required");
  require (not_none message_start || not_none output_start)
    (DomainConflictError "context_candidate_source_required");;
  begin_write;;
  validate_candidate_provenance project_id task_id;;
  require_task_owner task_id u;;
  validate_source_range task_id message_start message_end;;
  validate_source_range task_id output_start output_end;;
  actor ← actor_of u;
  let scope := "project.context.candidate.create" in
  let request := candidate_request project_id content source_metadata (Some task_id) message_start
                   message_end output_start output_end in
  cached ← context_replay_if idempotency_key actor scope request;
  match cached with
  | Some response => mret response
  | None =>
      let candidate_id := "candidate-" ++ candidate_uuid in
      insert_candidate (mkCandidate candidate_id project_id content Candidate_PROPOSED now
        (Some actor) source_metadata None None None None None (Some task_id) message_start
        message_end output_start output_end);;
      context_audit event_id actor "project_context.candidate_created" "candidate" candidate_id
        audited_at;;
      row ← gets (λ d, select_one (λ c, eqs (cd_candidate_id c) candidate_id)
                         (context_candidates d));
      row ← require_some row (DomainNotFoundError "project context candidate");
      let result := candidate_payload row in
      context_store_if idempotency_key actor scope request result stored_at;;
      mret (JObj result)
  end.

Definition list_candidates (project_id : string) (u : user) : txn (list dict) :=
  _ ← require_project_viewer project_id u;
  rows ← gets (candidates_for_project project_id);
  mret (map candidate_payload rows).

Definition candidate (project_id candidate_id : string) : txn candidate_row :=
  row ← gets (candidate_by_id project_id candidate_id);
  require_some row (DomainNotFoundError "project context candidate").

(** A decision that was taken before keys were required is stored for replay. *)
Definition store_decided (idempotency_key : option string) (actor scope : string)
    (request result : dict) (stored_at : time) : txn json :=
  match idempotency_key with
  | Some key =>
      context_store actor scope key request result stored_at;;
      validate_write;;
      mret (JObj result)
  | None => mret (JObj result)
  end.

Definition accept_candidate (project_id candidate_id : string) (u : user)
    (idempotency_key : option string) (now : time) (event_id : string)
    (audited_at stored_at : time) : txn json :=
  begin_write;;
  require_project_editor project_id u;;
  actor ← actor_of u;
  let scope := "project.context.candidate.accept" in
  let request := [("project_id", JStr project_id); ("candidate_id", JStr candidate_id)] in
  cached ← context_replay_if idempotency_key actor scope request;
  match cached with
  | Some response => mret response
  | None =>
      row ← candidate project_id candidate_id;
      require (negb (bool_decide (cd_status row = Candidate_REJECTED)))
        (DomainConflictError "context_candidate_rejected");;
      draft ← gets (context_draft project_id);
      let current := match draft with Some c => dr_content c | None => "" end in
      if bool_decide (cd_status row = Candidate_ACCEPTED) then
        draft ← gets (draft_payload project_id);
        store_decided idempotency_key actor scope request
          [("candidate", JObj (candidate_payload row)); ("draft", draft)] stored_at
      else
        let proposed := append_candidate current (cd_content row) in
        upsert_context_draft project_id proposed actor now;;
        _ ← update_candidate candidate_id (set_candidate_accepted actor now);
        context_audit event_id actor "project_context.candidate_accepted" "candidate" candidate_id
          audited_at;;
        updated ← candidate project_id candidate_id;
        draft ← gets (draft_payload project_id);
        let result := [("candidate", JObj (candidate_payload updated)); ("draft", draft)] in
        context_store_if idempotency_key actor scope request result stored_at;;
        mret (JObj result)
  end.

Definition reject_candidate (project_id candidate_id : string) (u : user)
    (reason idempotency_key : option string) (now : time) (event_id : string)
    (audited_at stored_at : time) : txn json :=
  begin_write;;
  require_project_editor project_id u;;
  actor ← actor_of u;
  let scope := "project.context.candidate.reject" in
  let request := [("project_id", JStr project_id); ("candidate_id", JStr candidate_id);
                  ("reason", json_of_option reason)] in
  cached ← context_replay_if idempotency_key actor scope request;
  match cached with
  | Some response => mret response
  | None =>
      row ← candidate project_id candidate_id;
      require (negb (bool_decide (cd_status row = Candidate_ACCEPTED)))
        (DomainConflictError "context_candidate_accepted");;
      if bool_decide (cd_status row = Candidate_REJECTED) then
        store_decided idempotency_key actor scope request (candidate_payload row) stored_at
      else
        _ ← update_candidate candidate_id (set_candidate_rejected actor now reason);
        context_audit event_id actor "project_context.candidate_rejected" "candidate" candidate_id
          audited_at;;
        updated ← candidate project_id candidate_id;
        let result := candidate_payload updated in
        context_store_if idempotency_key actor scope request result stored_at;;
        mret (JObj result)
  end.

(** ** Fragments *)

Definition fragment_request (project_id content source_type : string) (source_metadata : dict)
    (source_version : option string) (sort_order : Z) (byte_budget : option Z) : dict :=
  [("project_id", JStr project_id); ("content", JStr content); ("source_type", JStr source_type);
   ("source_metadata", JObj source_metadata); ("source_version", json_of_option source_version);
   ("sort_order", JInt sort_order); ("byte_budget", json_of_Z byte_budget)].

Definition create_fragment (project_id content : string) (u : user) (source_type : string)
    (source_metadata : dict) (source_version : option string) (sort_order : Z)
    (byte_budget : option Z) (idempotency_key : option string) (fragment_uuid : string)
    (now : time) (event_id : string) (audited_at stored_at : time) : txn json :=
  require (truthy source_type) (DomainConflictError "context_fragment_source_required");;
  require (match byte_budget with Some n => negb (Z.ltb n 0) | None => true end)
    (DomainConflictError "context_fragment_budget_invalid");;
  begin_write;;
  require_project_publisher project_id u;;
  actor ← actor_of u;
  let scope := "project.context.fragment.create" in
  let request := fragment_request project_id content source_type source_metadata source_version
                   sort_order byte_budget in
  cached ← context_replay_if idempotency_key actor scope request;
  match cached with
  | Some response => mret response
  | None =>
      let fragment_id := "fragment-" ++ fragment_uuid in
      let content_fingerprint := fingerprint content in
      let effective_source_version :=
        match source_version with
        | Some v => if truthy v then v else content_fingerprint
        | None => content_fingerprint
        end in
      insert_fragment (mkFragmentRow fragment_id project_id source_type content now
        (Some effective_source_version) (Some content_fingerprint) sort_order byte_budget
        (Some actor) source_metadata);;
      context_audit event_id actor "project_context.fragment_created" "fragment" fragment_id
        audited_at;;
      row ← gets (fragment_by_id fragment_id);
      row ← require_some row (DomainNotFoundError "project context fragment");
      let result := fragment_payload row in
      context_store_if idempotency_key actor scope request result stored_at;;
      mret (JObj result)
  end.

Definition list_fragments (project_id : string) (u : user) : txn (list dict) :=
  _ ← require_project_viewer project_id u;
  rows ← gets (fragments_for_project project_id);
  mret (map fragment_payload rows).
End candidates.
