(* ===== verification/ContextSnapshots.v ===== *)
(** * Context snapshots of Tasks
    ([ProjectContextService] in [src/ainrf/domain/context.py])

    The Context that a Task's engine gets is assembled from a published version and
    stored as a snapshot; the Task is pinned to it.  A later version reaches the
    Task through a preview that its owner confirms. *)

From stdpp Require Import base tactics list strings.
From Stdlib Require Import ZArith Lia.
From S2P Require Import Prelude PyText PyJson Utf8 PyTime Tables Contracts RegistryRows Schema.
From S2P Require Import Repository Projection RegistryRepository Service EnvironmentIdentity.
From S2P Require Import Authorization Registry Assembler ContextRepository Context.

Local Open Scope string_scope.
Local Open Scope tx_scope.

(** ** The frozen fragments of a version *)

Definition manifest_invalid : error := DomainConflictError "context_manifest_invalid".

(** [isinstance(value, str) and value] *)
Definition text_of (key : string) (entry : dict) : option string :=
  match dict_get key entry with
  | Some (JStr s) => if truthy s then Some s else None
  | _ => None
  end.

Definition metadata_of (entry : dict) : option dict :=
  match dict_get "source_metadata" entry with
  | None => Some []
  | Some (JObj m) => Some m
  | _ => None
  end.
Definition sort_order_of (entry : dict) : option Z :=
  match dict_get "sort_order" entry with
  | None => Some 0%Z
  | Some (JInt n) => Some n
  | _ => None
  end.
Definition byte_budget_of (entry : dict) : option (option Z) :=
  match dict_get "byte_budget" entry with
  | None | Some JNull => Some None
  | Some (JInt n) => Some (Some n)
  | _ => None
  end.
Definition creator_of (entry : dict) : option (option string) :=
  match dict_get "created_by_user_id" entry with
  | None | Some JNull => Some None
  | Some (JStr s) => Some (Some s)
  | _ => None
  end.

Section snapshots.
Context `{Host, Kernel}.

Definition decode_fragment (v : json) : result error ContextFragment :=
  match v with
  | JObj entry =>
      match text_of "content" entry, text_of "fragment_id" entry, text_of "source_type" entry,
            text_of "source_version" entry, text_of "source_fingerprint" entry,
            text_of "created_at" entry with
      | Some content, Some fragment_id, Some source_type, Some source_version,
        Some source_fingerprint, Some created_at =>
          match metadata_of entry, sort_order_of entry, byte_budget_of entry, creator_of entry with
          | Some metadata, Some sort_order, Some byte_budget, Some created_by =>
              if eqs source_fingerprint (fingerprint content) then
                Ok (mkFragment fragment_id source_type source_version content metadata sort_order
                  byte_budget created_by (Some created_at) (Some source_fingerprint))
              else Err (DomainConflictError "")
          | _, _, _, _ => Err manifest_invalid
          end
      | _, _, _, _, _, _ => Err manifest_invalid
      end
  | _ => Err manifest_invalid
  end.

Fixpoint decode_fragments (l : list json) : result error (list ContextFragment) :=
  match l with
  | [] => Ok []
  | v :: l' =>
      match decode_fragment v with
      | Err e => Err e
      | Ok f => match decode_fragments l' with Ok fs => Ok (f :: fs) | Err e => Err e end
      end
  end.

Definition fragments_for_version (v : version_view) : result error (list ContextFragment) :=
  if bool_decide (vw_status v = Provenance_VERIFIED) then
    decode_fragments (cv_fragment_manifest (vw_row v))
  else Err (DomainConflictError "context_version_unreviewed").

(** ** Assembly and snapshots *)

Definition task_sources (v : version_view) (workspace : option workspace_row)
    (workspace_id task_id task_prompt : string) (fragments : list ContextFragment) :
    list ContextSource :=
  let row := vw_row v in
  let workspace_content :=
    match workspace with Some w => default "" (ws_workspace_context w) | None => "" end in
  let workspace_version :=
    match workspace with Some w => isoformat (ws_updated_at w) | None => "missing-workspace-v1" end in
  [platform_source;
   mkSource "project_brief" (cv_context_version_id row) (cv_fingerprint row) "Project Brief"
     (cv_content row) fragments;
   mkSource "workspace_context" workspace_id workspace_version "Workspace Context"
     workspace_content [];
   mkSource "task_request" task_id (fingerprint task_prompt) "Task Request" task_prompt []].

Definition assemble_for_task (project_id workspace_id task_id task_prompt : string)
    (context_version_id : option string) : txn ContextAssembly :=
  v ← match context_version_id with
      | Some id => version project_id id
      | None => active_version project_id
      end;
  workspace ← gets (workspace_by_id workspace_id);
  fragments ← lift (fragments_for_version v);
  lift (assemble context_byte_budget
          (task_sources v workspace workspace_id task_id task_prompt fragments)).

Definition insert_snapshot (context_version_id : string) (a : ContextAssembly)
    (snapshot_uuid : string) (now : time) : txn string :=
  let snapshot_id := "snapshot-" ++ snapshot_uuid in
  insert_snapshot_row (mkContextSnapshot snapshot_id (Some context_version_id) (as_fingerprint a)
    (as_content a) now (as_source_manifest a) (Some (as_byte_budget a)) (as_truncated a));;
  mret snapshot_id.

Definition create_snapshot_for_task_context_version
    (project_id workspace_id task_id task_prompt context_version_id : string)
    (snapshot_uuid : string) (now : time) : txn string :=
  a ← assemble_for_task project_id workspace_id task_id task_prompt (Some context_version_id);
  insert_snapshot context_version_id a snapshot_uuid now.

(** The values drawn if a verified successor has to be published first. *)
Record successor := mkSuccessor {
  su_version_uuid : string;
  su_now : time;
  su_event_id : string;
  su_audited_at : time }.

Definition create_active_snapshot_for_task
    (project_id workspace_id task_id task_prompt actor_user_id : string) (su : successor)
    (snapshot_uuid : string) (now : time) : txn (string * string) :=
  active ← active_version project_id;
  version_id ← (if bool_decide (vw_status active = Provenance_VERIFIED) then
                  mret (cv_context_version_id (vw_row active))
                else
                  _ ← publish_verified_version_in_transaction project_id actor_user_id
                        "project_context.auto_published" (su_version_uuid su) (su_now su)
                        (su_event_id su) (su_audited_at su);
                  mret ("context-" ++ su_version_uuid su));
  a ← assemble_for_task project_id workspace_id task_id task_prompt (Some version_id);
  snapshot_id ← insert_snapshot version_id a snapshot_uuid now;
  mret (snapshot_id, version_id).

(** ** Previews *)

Definition task_for_project (task_id project_id : string) : txn task_row :=
  row ← gets (λ d, select_one (λ t, eqs (tk_task_id t) task_id && eqs (tk_project_id t) project_id)
                     (tasks d));
  require_some row (DomainNotFoundError task_id).

Definition authorize_task_context_update (task_id project_id : string) (u : user) : txn task_row :=
  require_project_editor project_id u;;
  task ← task_for_project task_id project_id;
  require_task_owner task_id u;;
  mret task.

Definition empty_snapshot_payload (version_id version_fingerprint : option string)
    (content : string) : dict :=
  [("context_snapshot_id", JNull); ("context_version_id", json_of_option version_id);
   ("fingerprint", json_of_option version_fingerprint); ("content", JStr content);
   ("source_manifest", JList []); ("byte_budget", JNull); ("truncated", JBool false)].

Definition nonempty (o : option string) : option string :=
  match o with Some s => if truthy s then Some s else None | None => None end.

Definition task_snapshot_payload (t : task_row) : txn dict :=
  snapshot ← gets (λ d, id ← nonempty (tk_project_context_snapshot_id t); snapshot_by_id id d);
  match snapshot with
  | Some s => mret (snapshot_payload s)
  | None =>
      match nonempty (tk_project_context_version_id t) with
      | Some version_id =>
          v ← version (tk_project_id t) version_id;
          mret (empty_snapshot_payload (Some (cv_context_version_id (vw_row v)))
            (Some (cv_fingerprint (vw_row v))) (cv_content (vw_row v)))
      | None => mret (empty_snapshot_payload None None "")
      end
  end.

Definition content_of (payload : dict) : string :=
  match dict_get "content" payload with Some (JStr s) => s | _ => "" end.

Definition preview_task_context_update (task_id project_id : string) (u : user)
    (preview_uuid : string) (now future_from : time) : txn json :=
  begin_write;;
  task ← authorize_task_context_update task_id project_id u;
  a ← assemble_for_task project_id (tk_workspace_id task) task_id (tk_prompt task) None;
  active ← active_version project_id;
  let preview_id := "context-preview-" ++ preview_uuid in
  let version_id := cv_context_version_id (vw_row active) in
  actor ← actor_of u;
  insert_preview (mkContextPreview preview_id task_id project_id version_id actor
    (as_fingerprint a) (as_content a) (as_source_manifest a) (as_byte_budget a) (as_truncated a)
    now (future_from + PREVIEW_TTL)%Z None None);;
  validate_write;;
  current ← task_snapshot_payload task;
  mret (JObj [("preview_id", JStr preview_id); ("task_id", JStr task_id);
    ("project_id", JStr project_id); ("created_at", time_text now); ("current", JObj current);
    ("proposed", JObj (assembly_payload version_id a));
    ("diff", JStr (unified_diff (content_of current) (as_content a)))]).

Definition confirm_task_context_update (task_id project_id preview_id : string) (u : user)
    (idempotency_key : string) (checked_at : time) (snapshot_uuid : string) (snapshot_at now : time)
    (stored_at : time) (event_id : string) (audited_at : time) : txn json :=
  begin_write;;
  actor ← actor_of u;
  let scope := "task.context.confirm" in
  let request := [("task_id", JStr task_id); ("project_id", JStr project_id);
                  ("preview_id", JStr preview_id)] in
  cached ← context_idempotent_result actor scope idempotency_key request;
  match cached with
  | Some response => mret response
  | None =>
      _ ← authorize_task_context_update task_id project_id u;
      preview ← gets (preview_for preview_id task_id project_id actor);
      preview ← require_some preview (DomainNotFoundError "task context update preview");
      require (negb (Z.ltb (pw_expires_at preview) checked_at))
        (DomainConflictError "context_preview_expired");;
      require (is_none (pw_confirmed_snapshot_id preview))
        (DomainConflictError "context_preview_already_confirmed");;
      let a := mkAssembly (pw_proposed_content preview) (pw_proposed_fingerprint preview)
                 (load_json_list (pw_source_manifest preview)) (pw_byte_budget preview)
                 (pw_truncated preview) in
      let version_id := pw_context_version_id preview in
      snapshot_id ← insert_snapshot version_id a snapshot_uuid snapshot_at;
      _ ← pin_task task_id version_id snapshot_id now;
      _ ← repin_submissions task_id snapshot_id now;
      _ ← confirm_preview preview_id snapshot_id now;
      let result := [("task_id", JStr task_id); ("project_id", JStr project_id);
        ("context_version_id", JStr version_id); ("context_snapshot_id", JStr snapshot_id);
        ("fingerprint", JStr (as_fingerprint a)); ("confirmed_at", time_text now)] in
      context_store actor scope idempotency_key request result stored_at;;
      context_audit event_id actor "task_context.confirmed" "task" task_id audited_at;;
      mret (JObj result)
  end.

Definition task_context (task_id : string) (u : user) : txn dict :=
  require_task_viewer task_id u;;
  task ← gets (task_by_id task_id);
  task ← require_some task (DomainNotFoundError task_id);
  task_snapshot_payload task.

(** ** Retired entry points (no caller is left) *)

Definition pin_active_context (task_id project_id : string) (su : successor)
    (snapshot_uuid : string) (snapshot_at now : time) : txn string :=
  begin_write;;
  task ← task_for_project task_id project_id;
  pin ← create_active_snapshot_for_task project_id (tk_workspace_id task) task_id (tk_prompt task)
          (tk_owner_user_id task) su snapshot_uuid snapshot_at;
  _ ← pin_task task_id pin.2 pin.1 now;
  validate_write;;
  mret pin.1.

Definition ensure_task_snapshot (task_id snapshot_uuid : string) (snapshot_at now : time) :
    txn string :=
  begin_write;;
  task ← gets (task_by_id task_id);
  task ← require_some task (DomainNotFoundError task_id);
  match nonempty (tk_project_context_snapshot_id task) with
  | Some existing => mret existing
  | None =>
      pin ← match nonempty (tk_project_context_version_id task) with
            | Some version_id =>
                a ← assemble_for_task (tk_project_id task) (tk_workspace_id task) task_id
                      (tk_prompt task) (Some version_id);
                mret (version_id, a)
            | None =>
                a ← assemble_for_task (tk_project_id task) (tk_workspace_id task) task_id
                      (tk_prompt task) None;
                active ← active_version (tk_project_id task);
                mret (cv_context_version_id (vw_row active), a)
            end;
      snapshot_id ← insert_snapshot pin.1 pin.2 snapshot_uuid snapshot_at;
      _ ← pin_task task_id pin.1 snapshot_id now;
      validate_write;;
      mret snapshot_id
  end.
End snapshots.
