(* ===== verification/TaskLifecycle.v ===== *)
(** * Creating and moving Tasks
    ([create_task] and [move_task] in [src/ainrf/domain/conversation_service.py])

    A Task is created together with its Context snapshot, its conversation and its
    first submission; it is moved to another Project with a snapshot of an explicitly
    chosen version of that Project's Context. *)

From stdpp Require Import base tactics list strings.
From Stdlib Require Import ZArith Lia.
From S2P Require Import Prelude PyText PyJson Utf8 PyTime Tables Contracts RegistryRows Schema.
From S2P Require Import Repository Projection RegistryRepository Service EnvironmentIdentity.
From S2P Require Import Authorization Registry Assembler ContextRepository Context.
From S2P Require Import ContextSnapshots.

Local Open Scope string_scope.
Local Open Scope tx_scope.

(** ** The table of Tasks *)

Definition task_insert_guard (d : db) (t : task_row) : option string :=
  violation
    [(eqs (tk_researcher_type t) "vanilla" || eqs (tk_researcher_type t) "aris-researcher",
      "tasks_researcher_type_check");
     (eqs (tk_harness_engine t) "claude-code" || eqs (tk_harness_engine t) "agent-sdk"
        || eqs (tk_harness_engine t) "codex-app-server", "tasks_harness_engine_check");
     (match tk_project_context_snapshot_id t with Some s => snapshot_exists d s | None => true end,
      "tasks_project_context_snapshot_fk");
     (index_free always tk_task_id t (tasks d), "tasks_pk")].

Definition insert_task (t : task_row) : txn unit := insert_row task_insert_guard with_tasks t.

Definition set_task_project (project_id version_id snapshot_id : string) (now : time)
    (t : task_row) : task_row :=
  mkTask (tk_task_id t) project_id (tk_workspace_id t) (tk_environment_id t)
    (tk_researcher_type t) (tk_harness_engine t) (tk_user_skills t) (tk_user_mcp_servers t)
    (tk_title t) (tk_prompt t) (tk_created_at t) now (tk_owner_user_id t) (tk_archived_at t)
    (tk_archive_reason t) (Some version_id) (Some snapshot_id).

Definition rehome_task (task_id project_id version_id snapshot_id : string) (now : time) : txn Z :=
  update_rows tasks with_tasks (λ t, eqs (tk_task_id t) task_id) task_pin_guard
    (set_task_project project_id version_id snapshot_id now).

(** ** Guards *)

Definition linked_active (project_id workspace_id : string) (d : db) : bool :=
  row_exists (λ l, eqs (ln_project_id l) project_id && eqs (ln_workspace_id l) workspace_id
                && link_active l) (workspace_links d).

(** [_writable_workspace]: the Environment of the Workspace. *)
Definition writable_workspace (project_id workspace_id : string)
    (expected_environment_id : option string) : txn string :=
  project ← gets (project_by_id project_id);
  project ← require_some project (DomainNotFoundError project_id);
  require (project_active project) (DomainConflictError "project_already_archived");;
  row ← gets (λ d,
    workspace ← workspace_by_id workspace_id d;
    environment ← environment_by_id (ws_environment_id workspace) d;
    if linked_active project_id workspace_id d then Some (workspace, environment) else None);
  row ← require_some row (DomainConflictError "task_workspace_not_linked");
  require (workspace_active row.1 && environment_active row.2)
    (DomainConflictError "task_workspace_environment_inactive");;
  let environment_id := ws_environment_id row.1 in
  require (match expected_environment_id with Some e => eqs environment_id e | None => true end)
    (DomainConflictError "task_environment_mismatch");;
  mret environment_id.

Definition require_environment_execution_grant (auth : option (list access_row))
    (environment_id : string) (u : user) : txn unit :=
  actor ← actor_of u;
  require (has_active_environment_execution_grant auth environment_id actor)
    (DomainPermissionError "").

Definition require_deployable_engine `{Kernel} (harness_engine : string) : txn unit :=
  require (negb (eqs harness_engine "agent-sdk" && container_environment))
    (DomainConflictError "engine_tenant_ineligible").

Section lifecycle.
Context `{Host, Kernel}.

(** A replay is authorized before the outcome of the key is disclosed. *)
Definition replay_create_task (actor : string) (u : user) (key : string) (request : json) :
    txn (string * option json) :=
  require (truthy key) (DomainConflictError "idempotency_key_required");;
  let digest := request_hash request in
  row ← gets (idempotency_record actor CREATE_TASK key);
  match row with
  | None => mret (digest, None)
  | Some row =>
      match id_response row with
      | JObj fields =>
          match text_of "task_id" fields with
          | Some task_id =>
              require_task_owner task_id u;;
              require (eqs (id_request_hash row) digest)
                (DomainConflictError "idempotency_key_conflict");;
              mret (digest, Some (JObj fields))
          | None => raise (DomainConflictError "idempotency_response_invalid")
          end
      | _ => raise (DomainConflictError "idempotency_response_invalid")
      end
  end.

(** The parameters of [create_task]. *)
Record task_spec := mkSpec {
  ts_project_id : string;
  ts_workspace_id : string;
  ts_title : string;
  ts_prompt : string;
  ts_researcher_type : string;
  ts_harness_engine : string;
  ts_environment_id : option string;
  ts_user_skills : list string;
  ts_user_mcp_servers : list string }.

Definition texts (l : list string) : json := JList (map JStr l).

Definition create_task_request (s : task_spec) : json :=
  JObj [("project_id", JStr (ts_project_id s)); ("workspace_id", JStr (ts_workspace_id s));
    ("title", JStr (ts_title s)); ("prompt", JStr (ts_prompt s));
    ("researcher_type", JStr (ts_researcher_type s));
    ("harness_engine", JStr (ts_harness_engine s));
    ("environment_id", json_of_option (ts_environment_id s));
    ("user_skills", texts (ts_user_skills s)); ("user_mcp_servers", texts (ts_user_mcp_servers s))].

(** A Task row with its conversation and its first submission. *)
Definition open_task (t : task_row) (actor key digest snapshot_id submission_id reserved_turn_id : string)
    (created_at : time) : txn unit :=
  insert_task t;;
  open_conversation (tk_task_id t) (tk_prompt t) actor key digest snapshot_id submission_id
    reserved_turn_id created_at.

Definition create_task (auth : option (list access_row)) (u : user) (s : task_spec)
    (idempotency_key : string) (created_at : time) (task_uuid : string) (su : successor)
    (snapshot_uuid : string) (snapshot_at : time)
    (submission_id reserved_turn_id event_id : string) : txn json :=
  actor ← actor_of u;
  begin_write;;
  replayed ← replay_create_task actor u idempotency_key (create_task_request s);
  match replayed.2 with
  | Some response => mret response
  | None =>
      let digest := replayed.1 in
      require_project_editor (ts_project_id s) u;;
      require_workspace_owner (ts_workspace_id s) u false;;
      require_deployable_engine (ts_harness_engine s);;
      environment_id ← writable_workspace (ts_project_id s) (ts_workspace_id s)
                         (ts_environment_id s);
      require_environment_execution_grant auth environment_id u;;
      let task_id := "task-" ++ task_uuid in
      pin ← create_active_snapshot_for_task (ts_project_id s) (ts_workspace_id s) task_id
              (ts_prompt s) actor su snapshot_uuid snapshot_at;
      open_task
        (mkTask task_id (ts_project_id s) (ts_workspace_id s) environment_id
           (ts_researcher_type s) (ts_harness_engine s) (Some (texts (ts_user_skills s)))
           (Some (texts (ts_user_mcp_servers s))) (ts_title s) (ts_prompt s) created_at created_at
           actor None None (Some pin.2) (Some pin.1))
        actor idempotency_key digest pin.1 submission_id reserved_turn_id created_at;;
      let result := JObj [("task_id", JStr task_id); ("submission_id", JStr submission_id);
        ("reserved_turn_id", JStr reserved_turn_id); ("status", JStr "queued");
        ("intent", JStr "create")] in
      store actor CREATE_TASK idempotency_key digest result created_at;;
      audit event_id actor "conversation.task.created" "task" task_id created_at;;
      mret result
  end.

Definition move_task_request (task_id project_id context_version_id : string) : json :=
  JObj [("task_id", JStr task_id); ("project_id", JStr project_id);
        ("context_version_id", JStr context_version_id)].

Definition move_task (task_id : string) (u : user) (project_id context_version_id : string)
    (idempotency_key : string) (created_at : time) (snapshot_uuid : string) (snapshot_at : time)
    (event_id : string) : txn json :=
  actor ← actor_of u;
  begin_write;;
  replayed ← replay actor MOVE_TASK idempotency_key
               (move_task_request task_id project_id context_version_id);
  match replayed.2 with
  | Some response => require_task_owner task_id u;; mret response
  | None =>
      require_task_owner task_id u;;
      require_project_editor project_id u;;
      task ← gets (task_by_id task_id);
      task ← require_some task (DomainNotFoundError task_id);
      _ ← require_current_conversation task_id;
      active ← gets (active_turn task_id);
      require (is_none active) (DomainConflictError "task_move_turn_active");;
      require (negb (eqs (tk_project_id task) project_id))
        (DomainConflictError "task_move_same_project");;
      require_workspace_owner (tk_workspace_id task) u true;;
      _ ← writable_workspace project_id (tk_workspace_id task) (Some (tk_environment_id task));
      snapshot_id ← create_snapshot_for_task_context_version project_id (tk_workspace_id task)
                      task_id (tk_prompt task) context_version_id snapshot_uuid snapshot_at;
      _ ← rehome_task task_id project_id context_version_id snapshot_id created_at;
      _ ← repin_submissions task_id snapshot_id created_at;
      let result := JObj [("task_id", JStr task_id); ("project_id", JStr project_id);
        ("workspace_id", JStr (tk_workspace_id task));
        ("context_version_id", JStr context_version_id);
        ("context_snapshot_id", JStr snapshot_id)] in
      store actor MOVE_TASK idempotency_key replayed.1 result created_at;;
      audit event_id actor "conversation.task.moved" "task" task_id created_at;;
      mret result
  end.
End lifecycle.
