(* ===== verification/ForkRepository.v ===== *)
(** * Receipts of conversation forks
    ([src/ainrf/db/baselines/agentic_researcher.sql] and the fork statements of
    [src/ainrf/domain/conversation_execution_repository.py])

    A preview receipt is written once and never changes; a transfer receipt is
    confirmed, then transferred or failed, and final from then on.  The triggers that
    forbid deletions, changes of a preview and changes of a transfer's identity have no
    statement to stop here.  The revision of a transcript, which a confirmation is
    checked against, is the digest of all its rows. *)

From stdpp Require Import base tactics list strings pretty.
From Stdlib Require Import ZArith Lia Ascii.
From S2P Require Import Prelude PyText PyJson PyTime Tables Contracts RegistryRows Schema.
From S2P Require Import Repository Acceptance Service RegistryRepository.

Local Open Scope string_scope.
Local Open Scope tx_scope.

(** ** SQLite numbers *)

(** The value [m * 10 ^ e] that the [repr] of a finite float without its sign denotes. *)
Fixpoint float_digits (m scale : Z) (after_point : bool) (s : string) : option (Z * Z) :=
  match s with
  | EmptyString => Some (m, -scale)%Z
  | String c s' =>
      match digit_value c with
      | Some k => float_digits (m * 10 + k) (if after_point then scale + 1 else scale)%Z
                    after_point s'
      | None =>
          if Ascii.eqb c "." then float_digits m scale true s'
          else if Ascii.eqb c "e" then (λ e, (m, e - scale)%Z) <$> py_int s'
          else None
      end
  end.

(** [0 <= x <= 100]; [-0.0] is not negative, and an infinity has no digits. *)
Definition percentage (r : string) : bool :=
  match (match r with String "-" r' => float_digits 0 0 false r' | _ => float_digits 0 0 false r end) with
  | Some (m, e) =>
      Z.eqb m 0 ||
      (negb (startswith "-" r) &&
       (if Z.leb 0 e then Z.leb (m * 10 ^ e) 100 else Z.leb m (100 * 10 ^ (-e))))
  | None => false
  end.

(** SQLite has no NaN: it is stored as [NULL]. *)
Definition sql_real (o : option string) : option string :=
  match o with
  | Some r => if String.eqb r "NaN" then None else Some r
  | None => None
  end.

(** A bound Python [int] has to fit a signed 64-bit integer. *)
Definition sql_integer (n : Z) : bool := Z.leb (- 2 ^ 63) n && Z.ltb n (2 ^ 63).

(** [julianday(t)] counts milliseconds. *)
Definition julianday (t : time) : Z := ((t + 500) / 1000)%Z.

Example percentage_examples :
  map percentage ["0.0"; "-0.0"; "100.0"; "1e-05"; "100.00000000000001"; "1e+16"; "Infinity"; "-1.5"]
  = [true; true; true; true; false; false; false; false].
Proof. reflexivity. Qed.

(** ** Constraints *)

Definition engine_family_ok (family : string) : bool := eqs family "codex" || eqs family "claude".

Definition json_object (v : json) : bool := match v with JObj _ => json_finite v | _ => false end.

Definition fork_preview_check (p : fork_preview_row) : bool :=
  negb (sql_blank (fp_preview_hash p))
  && negb (sql_blank (fp_source_revision p))
  && engine_family_ok (fp_source_engine_family p)
  && engine_family_ok (fp_target_engine_family p)
  && json_object (JObj (fp_transfer_range p))
  && forallb (Z.leb 0)
       [fp_message_count p; fp_turn_count p; fp_item_count p; fp_character_count p;
        fp_utf8_byte_count p; fp_estimated_token_count p; fp_tool_result_count p;
        fp_reasoning_count p; fp_binary_count p; fp_image_reference_count p]
  && negb (sql_blank (fp_token_estimator p))
  && match fp_context_window_percent p with Some r => percentage r | None => true end
  && match fp_cost_estimate p with Some v => json_object v | None => true end
  && json_object (JObj (fp_disclosure p))
  && negb (eqs (fp_source_engine_family p) (fp_target_engine_family p))
  && Bool.eqb (fp_cost_unknown p) (is_none (fp_cost_estimate p))
  && Z.ltb (fp_created_at p) (fp_expires_at p).

Definition fork_preview_insert_guard (d : db) (p : fork_preview_row) : option string :=
  violation
    [(authority_exists d (fp_source_task_id p), "fork_preview_v3_authority_guard_insert");
     (fork_preview_check p, "fork_preview_receipts_check");
     (task_exists d (fp_source_task_id p), "fork_preview_receipts_task_fk");
     (index_free always fp_preview_id p (fork_previews d), "fork_preview_receipts_pk");
     (index_free always fp_preview_hash p (fork_previews d), "fork_preview_receipts_hash")].

Definition fork_transfer_check (t : fork_transfer_row) : bool :=
  negb (sql_blank (ft_actor_user_id t))
  && negb (sql_blank (ft_idempotency_key t))
  && negb (sql_blank (ft_request_hash t))
  && Bool.eqb (bool_decide (ft_transfer_mode t = FULL_TRANSCRIPT)) (ft_full_transcript_confirmed t)
  && match ft_status t with
     | Fork_CONFIRMED => is_none (ft_target_task_id t) && is_none (ft_completed_at t)
                           && is_none (ft_failure_code t)
     | Fork_TRANSFERRED => not_none (ft_target_task_id t) && not_none (ft_completed_at t)
                             && is_none (ft_failure_code t)
     | Fork_FAILED => not_none (ft_completed_at t) && nonblank_opt (ft_failure_code t)
     end
  && json_object (JObj (ft_evidence t)).

(** What the triggers compare of a confirmation with its preview. *)
Definition fork_confirms (t : fork_transfer_row) (p : fork_preview_row) : bool :=
  eqs (fp_preview_id p) (ft_preview_id t)
  && eqs (fp_preview_hash p) (ft_preview_hash t)
  && eqs (fp_source_task_id p) (ft_source_task_id t)
  && eqs (fp_source_revision p) (ft_source_revision t)
  && bool_decide (fp_transfer_mode p = ft_transfer_mode t)
  && Z.leb (julianday (ft_confirmed_at t)) (julianday (fp_expires_at p))
  && (negb (fp_truncated p) || ft_truncation_acknowledged t).

Definition fork_confirmed_in_time (t : fork_transfer_row) (p : fork_preview_row) : bool :=
  eqs (fp_preview_id p) (ft_preview_id t)
  && Z.leb (julianday (fp_created_at p)) (julianday (ft_confirmed_at t))
  && Z.leb (julianday (ft_confirmed_at t)) (julianday (fp_expires_at p)).

Definition fork_transfer_insert_guard (d : db) (t : fork_transfer_row) : option string :=
  violation
    [(row_exists (fork_confirms t) (fork_previews d), "fork_transfer_preview_guard_insert");
     (authority_exists d (ft_source_task_id t), "fork_transfer_v3_authority_guard_insert");
     (row_exists (fork_confirmed_in_time t) (fork_previews d),
      "fork_transfer_confirmation_time_guard_insert");
     (fork_transfer_check t, "fork_transfer_receipts_check");
     (task_exists d (ft_source_task_id t), "fork_transfer_receipts_task_fk");
     (match ft_target_task_id t with Some k => task_exists d k | None => true end,
      "fork_transfer_receipts_target_fk");
     (index_free always ft_transfer_id t (fork_transfers d), "fork_transfer_receipts_pk");
     (index_free always ft_preview_id t (fork_transfers d), "fork_transfer_receipts_preview");
     (index_free always (λ x, (ft_actor_user_id x, ft_idempotency_key x)) t (fork_transfers d),
      "fork_transfer_receipts_key")].

Definition fork_transfer_update_guard (d : db) (old new : fork_transfer_row) : option string :=
  violation
    [(bool_decide (ft_status old = Fork_CONFIRMED) && bool_decide (ft_status new ≠ Fork_CONFIRMED),
      "fork_transfer_transition_guard");
     (bool_decide (ft_status old = Fork_CONFIRMED), "fork_transfer_terminal_immutable");
     (negb (bool_decide (ft_status new = Fork_TRANSFERRED))
      || match ft_target_task_id new with Some k => authority_exists d k | None => false end,
      "fork_transfer_target_v3_authority_guard");
     (fork_transfer_check new, "fork_transfer_receipts_check");
     (match ft_target_task_id new with Some k => task_exists d k | None => true end,
      "fork_transfer_receipts_target_fk")].

(** ** Statements *)

Definition fork_preview_by_id (preview_id : string) (d : db) : option fork_preview_row :=
  select_one (λ p, eqs (fp_preview_id p) preview_id) (fork_previews d).

Definition insert_fork_preview (p : fork_preview_row) : txn unit :=
  require (forallb sql_integer
             [fp_message_count p; fp_turn_count p; fp_item_count p; fp_character_count p;
              fp_utf8_byte_count p; fp_estimated_token_count p; fp_tool_result_count p;
              fp_reasoning_count p; fp_binary_count p; fp_image_reference_count p]) OverflowError;;
  insert_row fork_preview_insert_guard with_fork_previews p.

Definition insert_fork_transfer (transfer_id preview_id preview_hash source_task_id
    source_revision : string) (transfer_mode : ForkTransferMode)
    (truncation_acknowledged full_transcript_confirmed : bool)
    (actor_user_id idempotency_key request_hash : string) (confirmed_at updated_at : time) :
    txn unit :=
  insert_row fork_transfer_insert_guard with_fork_transfers
    (mkForkTransfer transfer_id preview_id preview_hash source_task_id source_revision
       transfer_mode truncation_acknowledged full_transcript_confirmed actor_user_id
       idempotency_key request_hash Fork_CONFIRMED None [] None confirmed_at None updated_at).

Definition set_fork_finished (status : ForkTransferStatus) (target_task_id : option string)
    (evidence : dict) (failure_code : option string) (completed_at updated_at : time)
    (t : fork_transfer_row) : fork_transfer_row :=
  mkForkTransfer (ft_transfer_id t) (ft_preview_id t) (ft_preview_hash t) (ft_source_task_id t)
    (ft_source_revision t) (ft_transfer_mode t) (ft_truncation_acknowledged t)
    (ft_full_transcript_confirmed t) (ft_actor_user_id t) (ft_idempotency_key t)
    (ft_request_hash t) status target_task_id evidence failure_code (ft_confirmed_at t)
    (Some completed_at) updated_at.

Definition finish_fork_transfer (transfer_id : string) (status : ForkTransferStatus)
    (target_task_id : option string) (evidence : dict) (failure_code : option string)
    (completed_at updated_at : time) : txn Z :=
  update_rows fork_transfers with_fork_transfers
    (λ t, eqs (ft_transfer_id t) transfer_id && bool_decide (ft_status t = Fork_CONFIRMED))
    fork_transfer_update_guard
    (set_fork_finished status target_task_id evidence failure_code completed_at updated_at).

(** A plain [INSERT INTO task_relationships]. *)
Definition derived_insert_guard (d : db) (r : relationship_row) : option string :=
  violation
    [(task_exists d (rl_source_task_id r), "task_relationships_source_fk");
     (task_exists d (rl_target_task_id r), "task_relationships_target_fk");
     (index_free always relationship_key r (task_relationships d), "task_relationships_pk");
     (index_free (λ x, not_none (rl_relationship_id x)) rl_relationship_id r
        (task_relationships d), "idx_task_relationship_stable_id")].
Definition insert_derived_relationship (source_task_id target_task_id : string) (created_at : time)
    (relationship_id : string) (metadata : dict) : txn unit :=
  insert_row derived_insert_guard with_relationships
    (mkRelationship source_task_id target_task_id Rel_DERIVED_FROM created_at (Some relationship_id)
       metadata).

(** ** The revision of a transcript *)

Definition json_of_time (o : option time) : json :=
  match o with Some t => JStr (isoformat t) | None => JNull end.

(** [dict(row)]: JSON columns hold their text. *)
Definition turn_dict (t : turn_row) : dict :=
  [("turn_id", JStr (tn_turn_id t)); ("task_id", JStr (tn_task_id t));
   ("turn_seq", JInt (tn_turn_seq t)); ("status", JStr (turn_status_value (tn_status t)));
   ("retry_of_turn_id", json_of_option (tn_retry_of_turn_id t));
   ("context_snapshot_ref", json_of_option (tn_context_snapshot_ref t));
   ("binding_id", json_of_option (tn_binding_id t));
   ("engine_family", JStr (tn_engine_family t)); ("engine_driver", JStr (tn_engine_driver t));
   ("contract_version", JInt (tn_contract_version t));
   ("provider_profile_ref", json_of_option (tn_provider_profile_ref t));
   ("provider_profile_version", json_of_option (tn_provider_profile_version t));
   ("provider_profile_fingerprint", json_of_option (tn_provider_profile_fingerprint t));
   ("model", json_of_option (tn_model t));
   ("native_turn_kind", json_of_option (tn_native_turn_kind t));
   ("native_turn_ref", json_of_option (tn_native_turn_ref t));
   ("accepted_at", JStr (isoformat (tn_accepted_at t)));
   ("started_at", json_of_time (tn_started_at t));
   ("finished_at", json_of_time (tn_finished_at t));
   ("updated_at", JStr (isoformat (tn_updated_at t)));
   ("failure_code", json_of_option (tn_failure_code t)); ("failure_metadata_json", JStr "{}")].

(** The text of a JSON column of an item: the item of an accepted submission is written with
    [ensure_ascii=False] (conversation_service.py), the items of a run with [ensure_ascii=True]
    (conversation_execution.py). *)
Definition item_json (i : item_row) (v : dict) : string :=
  if it_ensure_ascii i then compact_json (JObj v) else canonical_json (JObj v).

Definition item_dict (i : item_row) : dict :=
  [("item_id", JStr (it_item_id i)); ("task_id", JStr (it_task_id i));
   ("turn_id", JStr (it_turn_id i)); ("task_item_seq", JInt (it_task_item_seq i));
   ("turn_item_seq", JInt (it_turn_item_seq i)); ("envelope_type", JStr (it_envelope_type i));
   ("envelope_version", JInt (it_envelope_version i));
   ("item_type", JStr (item_type_value (it_item_type i)));
   ("actor", JStr (item_actor_value (it_actor i)));
   ("payload_json", JStr (item_json i (it_payload i)));
   ("native_provenance_json", JStr (item_json i (it_native_provenance i)));
   ("native_dedupe_scope", json_of_option (it_native_dedupe_scope i));
   ("native_item_id", json_of_option (it_native_item_id i));
   ("parent_item_id", json_of_option (it_parent_item_id i));
   ("call_item_id", json_of_option (it_call_item_id i));
   ("occurred_at", json_of_time (it_occurred_at i));
   ("ingested_at", JStr (isoformat (it_ingested_at i)));
   ("persisted_at", JStr (isoformat (it_persisted_at i)))].

Definition transcript (task_id : string) (d : db) : json :=
  JObj [("turns", JList (map (λ t, JObj (turn_dict t)) (repo_list_turns task_id d)));
        ("items", JList (map (λ i, JObj (item_dict i)) (list_task_items task_id d)))].

Definition transcript_revision `{Host} (task_id : string) (d : db) : string :=
  sha256_hex (canonical_json (transcript task_id d)).
