(* ===== verification/Fork.v ===== *)
(** * Forking a conversation to another engine
    ([preview_fork] and [confirm_fork] in
    [src/ainrf/domain/conversation_service.py])

    A preview records what part of the transcript a fork would hand to the other engine
    and how large it is; a confirmation of an unchanged transcript opens a new Task whose
    first submission carries that part as its prompt. *)

From stdpp Require Import base tactics list strings pretty.
From Stdlib Require Import ZArith Lia.
From S2P Require Import Prelude PyText PyJson Utf8 PyTime Tables Contracts RegistryRows Schema.
From S2P Require Import Repository Acceptance Projection RegistryRepository Service EnvironmentIdentity.
From S2P Require Import Authorization Registry ContextSnapshots TaskLifecycle ForkRepository.

Local Open Scope string_scope.
Local Open Scope tx_scope.

(** ** Metrics *)

Definition metric_int (metrics : dict) (key : string) : txn Z :=
  match dict_get key metrics with
  | None => mret 0%Z
  | Some (JInt n) => require (Z.leb 0 n) ValueError;; mret n
  | Some _ => raise ValueError
  end.

(** [float(n)] of an [int]: a percentage is the only one that is stored. *)
Definition metric_float (metrics : dict) (key : string) : txn (option string) :=
  match dict_get key metrics with
  | None | Some JNull => mret None
  | Some (JInt n) => mret (Some (pretty n ++ ".0"))
  | Some (JFloat r) => mret (Some r)
  | Some _ => raise ValueError
  end.

Definition sizes (l : list (Z * Z)) : Z * Z :=
  foldr (λ a b, (a.1 + b.1, a.2 + b.2)%Z) (0, 0)%Z l.

(** The characters and the UTF-8 bytes of the strings in a value. *)
Fixpoint text_size (v : json) : Z * Z :=
  match v with
  | JStr s => (Z.of_nat (py_len s), byte_len s)
  | JObj d => sizes (map (λ kv, text_size kv.2) d)
  | JList l => sizes (map text_size l)
  | _ => (0, 0)%Z
  end.

Definition is_message (i : item_row) : bool :=
  let t := item_type_value (it_item_type i) in eqs t "user_message" || eqs t "assistant_message".

(** [canonical_metrics], in the order of the code. *)
Definition canonical_metrics (turns : list turn_row) (items : list item_row) : list (string * Z) :=
  let size := sizes (map (λ i, text_size (JObj (it_payload i))) items) in
  [("message_count", Z.of_nat (length (select is_message items)));
   ("turn_count", Z.of_nat (length turns)); ("item_count", Z.of_nat (length items));
   ("character_count", size.1); ("utf8_byte_count", size.2)].

(** A metric that the caller states has to agree. *)
Definition check_metrics (metrics : dict) (canonical : list (string * Z)) : txn unit :=
  for_each canonical (λ kv,
    match dict_get kv.1 metrics with
    | None => mret tt
    | Some _ =>
        n ← metric_int metrics kv.1;
        require (Z.eqb n kv.2) (ConversationContractError PROVIDER_CONTRACT_MISMATCH)
    end).

(** ** Selection *)

Definition range_mismatch : error := ConversationContractError PROVIDER_CONTRACT_MISMATCH.

(** The Turns up to the given one; [None] when it is not among them. *)
Fixpoint through (turn_id : string) (turns : list turn_row) : option (list turn_row) :=
  match turns with
  | [] => None
  | t :: rest =>
      if eqs (tn_turn_id t) turn_id then Some [t] else cons t <$> through turn_id rest
  end.

Definition known_turn (turns : list turn_row) (v : json) : option string :=
  match v with
  | JStr s => if row_exists (λ t, eqs (tn_turn_id t) s) turns then Some s else None
  | _ => None
  end.

(** [turns[-count:]] *)
Definition last_turns (count : Z) (turns : list turn_row) : list turn_row :=
  drop (length turns - Z.to_nat count) turns.

Definition fork_selection (turns : list turn_row) (transfer_mode : ForkTransferMode)
    (transfer_range : dict) : txn (list turn_row) :=
  match transfer_mode with
  | CONTEXT_ONLY =>
      require (match transfer_range with [] => true | _ => false end) range_mismatch;;
      mret []
  | FULL_TRANSCRIPT =>
      match dict_get "through_turn" transfer_range with
      | None | Some JNull => mret turns
      | Some (JStr s) => require_some (through s turns) range_mismatch
      | Some _ => raise range_mismatch
      end
  | SELECTED_TURNS =>
      match dict_get "turn_ids" transfer_range with
      | Some (JList (x :: l)) =>
          turn_ids ← require_some (mapM (known_turn turns) (x :: l)) range_mismatch;
          require (bool_decide (NoDup turn_ids)) range_mismatch;;
          let selected := select (λ t, bool_decide (tn_turn_id t ∈ turn_ids)) turns in
          require (bool_decide (tn_turn_id <$> selected = turn_ids)) range_mismatch;;
          mret selected
      | _ => raise range_mismatch
      end
  | RECENT_TURNS =>
      match dict_get "count" transfer_range with
      | Some (JInt count) =>
          require (Z.ltb 0 count) range_mismatch;;
          mret (last_turns count turns)
      | _ => raise range_mismatch
      end
  end.

Definition items_of_turns (turns : list turn_row) (items : list item_row) : list item_row :=
  select (λ i, bool_decide (it_turn_id i ∈ (tn_turn_id <$> turns))) items.

(** ** Targets *)

Definition engine_family_by_harness (harness_engine : string) : option string :=
  if eqs harness_engine "claude-code" || eqs harness_engine "agent-sdk" then Some "claude"
  else if eqs harness_engine "codex-app-server" then Some "codex"
  else None.

(** [value or fallback] *)
Definition or_else (o : option string) (fallback : string) : string :=
  match o with Some s => if truthy s then s else fallback | None => fallback end.

Record fork_request := mkForkRequest {
  fq_target_engine_family : string;
  fq_target_project_id : option string;
  fq_target_workspace_id : option string;
  fq_target_harness_engine : option string;
  fq_target_title : option string;
  fq_transfer_mode : ForkTransferMode;
  fq_transfer_range : dict;
  fq_metrics : dict;
  fq_disclosure : dict;
  fq_validity_seconds : Z }.

Definition fork_request_fields (task_id : string) (q : fork_request) : dict :=
  [("task_id", JStr task_id); ("target_engine_family", JStr (fq_target_engine_family q));
   ("target_project_id", json_of_option (fq_target_project_id q));
   ("target_workspace_id", json_of_option (fq_target_workspace_id q));
   ("target_harness_engine", json_of_option (fq_target_harness_engine q));
   ("target_title", json_of_option (fq_target_title q));
   ("transfer_mode", JStr (fork_mode_value (fq_transfer_mode q)));
   ("transfer_range", JObj (fq_transfer_range q)); ("metrics", JObj (fq_metrics q));
   ("disclosure", JObj (fq_disclosure q)); ("validity_seconds", JInt (fq_validity_seconds q))].

Section fork.
Context `{Host, Kernel}.

(** The caller may run the fork where it would go: the Environment of the target. *)
Definition fork_target (source : task_row) (project_id workspace_id : string) (u : user) :
    txn string :=
  (if eqs project_id (tk_project_id source) then mret tt else require_project_editor project_id u);;
  (if eqs workspace_id (tk_workspace_id source) then mret tt
   else require_workspace_owner workspace_id u false);;
  writable_workspace project_id workspace_id None.

Definition source_engine_family (task_id : string) (turns : list turn_row) : txn string :=
  match last turns with
  | Some t => mret (tn_engine_family t)
  | None =>
      harness_engine ← gets (task_harness_engine task_id);
      require_some (harness_engine ≫= engine_family_by_harness) range_mismatch
  end.

Definition preview_fork (task_id : string) (u : user) (q : fork_request)
    (idempotency_key : string) (created_at : time) (preview_id : string) : txn json :=
  require_sanitized (JObj (fq_transfer_range q));;
  require_sanitized (JObj (fq_metrics q));;
  require_sanitized (JObj (fq_disclosure q));;
  require (Z.ltb 0 (fq_validity_seconds q)) ValueError;;
  actor ← actor_of u;
  let request := fork_request_fields task_id q in
  let metrics := fq_metrics q in
  let expires_at := (created_at + fq_validity_seconds q * 1000000)%Z in
  begin_write;;
  require_task_owner task_id u;;
  replayed ← replay actor FORK_PREVIEW idempotency_key (JObj request);
  match replayed.2 with
  | Some response => mret response
  | None =>
      _ ← require_current_conversation task_id;
      source ← gets (task_by_id task_id);
      source ← require_some source (DomainNotFoundError task_id);
      let project_id := or_else (fq_target_project_id q) (tk_project_id source) in
      let workspace_id := or_else (fq_target_workspace_id q) (tk_workspace_id source) in
      let harness_engine := or_else (fq_target_harness_engine q)
        (if eqs (fq_target_engine_family q) "codex" then "codex-app-server" else "claude-code") in
      require_deployable_engine harness_engine;;
      family ← require_some (engine_family_by_harness harness_engine) ValueError;
      require (eqs family (fq_target_engine_family q)) range_mismatch;;
      _ ← fork_target source project_id workspace_id u;
      let title := or_else (fq_target_title q) ("Fork of " ++ tk_title source) in
      turns ← gets (repo_list_turns task_id);
      selected_turns ← fork_selection turns (fq_transfer_mode q) (fq_transfer_range q);
      items ← gets (list_task_items task_id);
      let selected_items := items_of_turns selected_turns items in
      let canonical := canonical_metrics selected_turns selected_items in
      check_metrics metrics canonical;;
      source_engine ← source_engine_family task_id turns;
      require (negb (eqs source_engine (fq_target_engine_family q)))
        (ConversationContractError FORK_CONFIRMATION_REQUIRED);;
      source_revision ← gets (transcript_revision task_id);
      let preview_hash := request_hash (JObj (request ++
        [("source_revision", JStr source_revision); ("preview_id", JStr preview_id)])%list) in
      estimated_token_count ← metric_int metrics "estimated_token_count";
      let token_estimator :=
        match dict_get "token_estimator" metrics with Some v => py_str v | None => "unknown-v1" end in
      context_window_percent ← metric_float metrics "context_window_percent";
      tool_result_count ← metric_int metrics "tool_result_count";
      reasoning_count ← metric_int metrics "reasoning_count";
      binary_count ← metric_int metrics "binary_count";
      image_reference_count ← metric_int metrics "image_reference_count";
      let cost_estimate :=
        match dict_get "cost_estimate" metrics with Some JNull | None => None | Some v => Some v end in
      let size := sizes (map (λ i, text_size (JObj (it_payload i))) selected_items) in
      insert_fork_preview
        (mkForkPreview preview_id preview_hash task_id source_revision source_engine
           (fq_target_engine_family q) project_id workspace_id harness_engine title
           (fq_transfer_mode q) (fq_transfer_range q)
           (Z.of_nat (length (select is_message selected_items)))
           (Z.of_nat (length selected_turns)) (Z.of_nat (length selected_items)) size.1 size.2
           estimated_token_count token_estimator (sql_real context_window_percent)
           tool_result_count reasoning_count binary_count image_reference_count cost_estimate
           (is_none cost_estimate) (dict_truthy "truncated" metrics) (fq_disclosure q) created_at
           expires_at);;
      let result := JObj [("preview_id", JStr preview_id); ("preview_hash", JStr preview_hash);
        ("source_task_id", JStr task_id); ("source_revision", JStr source_revision);
        ("source_engine_family", JStr source_engine);
        ("target_engine_family", JStr (fq_target_engine_family q));
        ("target_project_id", JStr project_id); ("target_workspace_id", JStr workspace_id);
        ("target_harness_engine", JStr harness_engine); ("target_title", JStr title);
        ("transfer_mode", JStr (fork_mode_value (fq_transfer_mode q)));
        ("truncated", JBool (dict_truthy "truncated" metrics));
        ("expires_at", JStr (isoformat expires_at))] in
      store actor FORK_PREVIEW idempotency_key replayed.1 result created_at;;
      mret result
  end.

(** ** Confirmation *)

Record fork_confirmation := mkForkConfirmation {
  fc_preview_hash : string;
  fc_source_revision : string;
  fc_transfer_mode : ForkTransferMode;
  fc_truncation_acknowledged : bool;
  fc_full_transcript_confirmed : bool }.

Definition fork_confirmation_request (task_id preview_id : string) (c : fork_confirmation) : json :=
  JObj [("task_id", JStr task_id); ("preview_id", JStr preview_id);
        ("preview_hash", JStr (fc_preview_hash c));
        ("source_revision", JStr (fc_source_revision c));
        ("transfer_mode", JStr (fork_mode_value (fc_transfer_mode c)));
        ("truncation_acknowledged", JBool (fc_truncation_acknowledged c));
        ("full_transcript_confirmed", JBool (fc_full_transcript_confirmed c))].

Definition confirmation_matches (c : fork_confirmation) (p : fork_preview_row) (revision : string)
    (confirmed_at : time) : bool :=
  eqs (fp_preview_hash p) (fc_preview_hash c)
  && eqs (fp_source_revision p) (fc_source_revision c)
  && bool_decide (fp_transfer_mode p = fc_transfer_mode c)
  && eqs revision (fc_source_revision c)
  && Z.leb confirmed_at (fp_expires_at p)
  && (negb (fp_truncated p) || fc_truncation_acknowledged c)
  && Bool.eqb (bool_decide (fc_transfer_mode c = FULL_TRANSCRIPT)) (fc_full_transcript_confirmed c).

Definition transfer_item (i : item_row) : json :=
  JObj [("item_type", JStr (item_type_value (it_item_type i)));
        ("actor", JStr (item_actor_value (it_actor i))); ("payload", JObj (it_payload i))].

Definition transfer_payload (task_id source_revision : string) (mode : ForkTransferMode)
    (items : list item_row) : json :=
  JObj [("source_task_id", JStr task_id); ("source_revision", JStr source_revision);
        ("transfer_mode", JStr (fork_mode_value mode)); ("items", JList (map transfer_item items))].

Definition transfer_prompt (payload : json) : string :=
  "Continue from this explicitly confirmed OpenScience Conversation Fork."
    ++ String (Ascii.ascii_of_nat 10) (canonical_json payload).

(** The uuids and clock readings of one confirmation. *)
Record fork_call := mkForkCall {
  fk_transfer_id : string;
  fk_task_uuid : string;
  fk_successor : successor;
  fk_snapshot_uuid : string;
  fk_snapshot_at : time;
  fk_submission_id : string;
  fk_reserved_turn_id : string;
  fk_relationship_uuid : string }.

(** The new Task, with the snapshot it is pinned to and its first submission. *)
Definition open_fork (source : task_row) (p : fork_preview_row) (environment_id prompt actor key
    digest : string) (confirmed_at : time) (k : fork_call) : txn string :=
  let task_id := "task-" ++ fk_task_uuid k in
  pin ← create_active_snapshot_for_task (fp_target_project_id p) (fp_target_workspace_id p) task_id
          prompt actor (fk_successor k) (fk_snapshot_uuid k) (fk_snapshot_at k);
  open_task
    (mkTask task_id (fp_target_project_id p) (fp_target_workspace_id p) environment_id
       (tk_researcher_type source) (fp_target_harness_engine p)
       (Some (default (JList []) (tk_user_skills source)))
       (Some (default (JList []) (tk_user_mcp_servers source)))
       (fp_target_title p) prompt confirmed_at confirmed_at actor None None (Some pin.2) (Some pin.1))
    actor key digest pin.1 (fk_submission_id k) (fk_reserved_turn_id k) confirmed_at;;
  mret task_id.

(** The receipt of the transfer, from its confirmation to its end. *)
Definition record_transfer (task_id new_task_id actor key digest : string) (p : fork_preview_row)
    (c : fork_confirmation) (confirmed_at : time) (k : fork_call) : txn unit :=
  insert_fork_transfer (fk_transfer_id k) (fp_preview_id p) (fc_preview_hash c) task_id
    (fc_source_revision c) (fc_transfer_mode c) (fc_truncation_acknowledged c)
    (fc_full_transcript_confirmed c) actor key digest confirmed_at confirmed_at;;
  insert_derived_relationship new_task_id task_id confirmed_at
    ("relationship-" ++ fk_relationship_uuid k)
    [("kind", JStr "conversation_fork"); ("transfer_id", JStr (fk_transfer_id k));
     ("preview_id", JStr (fp_preview_id p))];;
  n ← finish_fork_transfer (fk_transfer_id k) Fork_TRANSFERRED (Some new_task_id)
        [("submission_id", JStr (fk_submission_id k));
         ("source_revision", JStr (fc_source_revision c))] None confirmed_at confirmed_at;
  require (Z.eqb n 1) (DomainConflictError "").

Definition confirm_fork (auth : option (list access_row)) (task_id preview_id : string) (u : user)
    (c : fork_confirmation) (idempotency_key : string) (confirmed_at : time) (k : fork_call) :
    txn json :=
  actor ← actor_of u;
  begin_write;;
  require_task_owner task_id u;;
  replayed ← replay actor FORK_CONFIRM idempotency_key
               (fork_confirmation_request task_id preview_id c);
  match replayed.2 with
  | Some response => mret response
  | None =>
      let digest := replayed.1 in
      _ ← require_current_conversation task_id;
      preview ← gets (fork_preview_by_id preview_id);
      preview ← require_some preview (DomainNotFoundError preview_id);
      require (eqs (fp_source_task_id preview) task_id) (DomainNotFoundError preview_id);;
      revision ← gets (transcript_revision task_id);
      require (confirmation_matches c preview revision confirmed_at)
        (ConversationContractError FORK_CONFIRMATION_REQUIRED);;
      source ← gets (task_by_id task_id);
      source ← require_some source (DomainNotFoundError task_id);
      environment_id ← fork_target source (fp_target_project_id preview)
                         (fp_target_workspace_id preview) u;
      require_environment_execution_grant auth environment_id u;;
      turns ← gets (repo_list_turns task_id);
      selected_turns ← fork_selection turns (fc_transfer_mode c) (fp_transfer_range preview);
      items ← gets (list_task_items task_id);
      let selected_items := items_of_turns selected_turns items in
      let prompt := transfer_prompt
        (transfer_payload task_id (fc_source_revision c) (fc_transfer_mode c) selected_items) in
      new_task_id ← open_fork source preview environment_id prompt actor idempotency_key digest
                      confirmed_at k;
      record_transfer task_id new_task_id actor idempotency_key digest preview c confirmed_at k;;
      let result := JObj [("transfer_id", JStr (fk_transfer_id k)); ("preview_id", JStr preview_id);
        ("source_task_id", JStr task_id); ("status", JStr "transferred");
        ("target_task_id", JStr new_task_id); ("submission_id", JStr (fk_submission_id k));
        ("reserved_turn_id", JStr (fk_reserved_turn_id k))] in
      store actor FORK_CONFIRM idempotency_key digest result confirmed_at;;
      mret result
  end.
End fork.
