(* ===== verification/Redaction.v ===== *)
(** * What a viewer may read

    [domain/output_redaction.py]: the redaction of the items that a collaborator reads, with
    the part of Python's [re] that its patterns use, and [list_items], which applies it.  A
    text is the list of its characters, each the string of its UTF-8 bytes; which characters
    outside ASCII are alphanumeric is a parameter. *)

From stdpp Require Import base tactics list strings pretty.
From Stdlib Require Import ZArith Lia Ascii.
From Stdlib Require String.
From S2P Require Import Prelude PyText PyJson Tables JsonParser Contracts Schema Repository.
From S2P Require Import Service ForkRepository.

Local Open Scope string_scope.

(** ** Characters *)

(** A continuation byte belongs to the character before it. *)
Fixpoint chars (s : string) : list string :=
  match s with
  | EmptyString => []
  | String c s' =>
      match chars s' with
      | String c1 w :: l =>
          if continuation c1 then String c (String c1 w) :: l else String c "" :: String c1 w :: l
      | l => String c "" :: l
      end
  end.

Definition text (l : list string) : string := join "" l.

Definition ascii_code (ch : string) : option nat :=
  match ch with
  | String c EmptyString => if Nat.ltb (code c) 128 then Some (code c) else None
  | _ => None
  end.

Definition between (a b : nat) (ch : string) : bool :=
  match ascii_code ch with Some n => Nat.leb a n && Nat.leb n b | None => false end.
Definition digit : string → bool := between 48 57.
Definition newline_char (ch : string) : bool := between 10 10 ch.

(** [\s] *)
Definition space (ch : string) : bool :=
  match ch with
  | String c EmptyString => is_space c
  | String c (String c1 EmptyString) => is_space2 c c1
  | String c (String c1 (String c2 EmptyString)) => is_space3 c c1 c2
  | _ => false
  end.

(** One of the ASCII characters of [set]. *)
Definition one_of (set : string) (ch : string) : bool :=
  match ch with
  | String c EmptyString => contains ch set
  | _ => false
  end.
Definition single_quote : string := String (ascii_of_nat 39) "".
Definition quotes : string := quote ++ single_quote.

Definition bytes (l : list nat) : string :=
  foldr (λ n s, String (ascii_of_nat n) s) "" l.
Definition kelvin : string := bytes [226; 132; 170].
Definition long_s : string := bytes [197; 191].
Definition dotted_I : string := bytes [196; 176].
Definition dotless_i : string := bytes [196; 177].

(** What a character is compared as under [IGNORECASE]: four characters outside ASCII match
    an ASCII letter. *)
Definition fold_case (ch : string) : string :=
  if eqs ch kelvin then "k"
  else if eqs ch long_s then "s"
  else if eqs ch dotted_I || eqs ch dotless_i then "i"
  else map_string lower_ascii ch.

Definition letter (ch : string) : bool := between 97 122 (fold_case ch).

(** The characters outside ASCII for which [str.isalnum] holds. *)
Class Unicode := { alphanumeric : string → bool }.

Definition word_char `{Unicode} (ch : string) : bool :=
  match ascii_code ch with
  | Some n => between 97 122 (map_string lower_ascii ch) || digit ch || one_of "_" ch
  | None => alphanumeric ch
  end.

(** ** Regular expressions *)

Inductive regex : Type :=
| Empty
| Char (p : string → bool)
| Cat (r1 r2 : regex)
| Or (r1 r2 : regex)
| Star (greedy : bool) (r : regex)
| Boundary
| NotAfter (p : string → bool)
| Group (name : string) (r : regex).

Record position := mkPosition {
  ps_before : option string;
  ps_rest : list string;
  ps_groups : list (string * string) }.

Definition consumed (a b : position) : list string :=
  take (length (ps_rest a) - length (ps_rest b)) (ps_rest a).

Section regex.
Context `{Unicode}.

Definition at_boundary (p : position) : bool :=
  let is_word o := match o with Some ch => word_char ch | None => false end in
  xorb (is_word (ps_before p)) (is_word (head (ps_rest p))).

(** The positions at which a match that starts here may end, in the order in which the
    backtracking matcher tries them. *)
Fixpoint ends (r : regex) (p : position) : list position :=
  match r with
  | Empty => [p]
  | Char q =>
      match ps_rest p with
      | ch :: l => if q ch then [mkPosition (Some ch) l (ps_groups p)] else []
      | [] => []
      end
  | Cat r1 r2 => flat_map (ends r2) (ends r1 p)
  | Or r1 r2 => (ends r1 p ++ ends r2 p)%list
  | Star greedy r1 =>
      (fix iterate (n : nat) (p : position) : list position :=
         let more :=
           match n with
           | O => []
           | S n' =>
               flat_map (λ p', if Nat.ltb (length (ps_rest p')) (length (ps_rest p))
                               then iterate n' p' else []) (ends r1 p)
           end in
         if greedy then (more ++ [p])%list else p :: more) (length (ps_rest p)) p
  | Boundary => if at_boundary p then [p] else []
  | NotAfter q =>
      match ps_before p with Some ch => if q ch then [] else [p] | None => [p] end
  | Group name r1 =>
      map (λ p', mkPosition (ps_before p') (ps_rest p')
                   (ps_groups p' ++ [(name, text (consumed p p'))])%list) (ends r1 p)
  end.

(** A [re.Match] object: [group(0)] and the named groups. *)
Record match_object := mkMatch { m_text : string; m_groups : list (string * string) }.

Definition group (name : string) (m : match_object) : string :=
  default "" (snd <$> List.find (λ g, eqs g.1 name) (m_groups m)).

(** [pattern.match] here, and the number of its characters. *)
Definition match_here (r : regex) (before : option string) (l : list string) :
    option (match_object * nat) :=
  let p := mkPosition before l [] in
  match ends r p with
  | p' :: _ => Some (mkMatch (text (consumed p p')) (ps_groups p'), length (consumed p p'))
  | [] => None
  end.

(** [pattern.sub]; [skip] characters belong to the match before.  No pattern here matches
    the empty text. *)
Fixpoint sub_from (r : regex) (repl : match_object → string) (skip : nat) (before : option string)
    (l : list string) : list string :=
  match l with
  | [] => []
  | ch :: l' =>
      match skip with
      | S n => sub_from r repl n (Some ch) l'
      | O =>
          match match_here r before l with
          | Some (m, S n) => (chars (repl m) ++ sub_from r repl n (Some ch) l')%list
          | _ => ch :: sub_from r repl 0 (Some ch) l'
          end
      end
  end.

Definition sub (r : regex) (repl : match_object → string) (l : list string) : list string :=
  sub_from r repl 0 None l.
End regex.

(** ** Notation of the patterns *)

Definition optional (r : regex) : regex := Or r Empty.
Definition many (p : string → bool) : regex := Star true (Char p).
Definition some_of (p : string → bool) : regex := Cat (Char p) (many p).
Fixpoint at_least (n : nat) (p : string → bool) : regex :=
  match n with O => many p | S n' => Cat (Char p) (at_least n' p) end.
Fixpoint at_most (n : nat) (p : string → bool) : regex :=
  match n with O => Empty | S n' => optional (Cat (Char p) (at_most n' p)) end.
Definition outside (set : string) (ch : string) : bool := negb (space ch || one_of set ch).

Fixpoint alternatives (l : list regex) : regex :=
  match l with [] => Char (λ _, false) | [r] => r | r :: l' => Or r (alternatives l') end.
Definition sequence (l : list regex) : regex := foldr Cat Empty l.

(** A word under [IGNORECASE]. *)
Fixpoint word (s : string) : regex :=
  match s with
  | EmptyString => Empty
  | String c s' => Cat (Char (λ ch, eqs (fold_case ch) (String c ""))) (word s')
  end.
(** Two words, with an optional separator between them. *)
Definition words (separators a b : string) : regex :=
  sequence [word a; optional (Char (one_of separators)); word b].

(** [(?:\\.|[^x])*], between [x] and its closing character *)
Definition delimited_by (opening closing : string) : regex :=
  sequence [Char (one_of opening);
    Star true (Or (Cat (Char (one_of backslash)) (Char (λ ch, negb (newline_char ch))))
                  (Char (λ ch, negb (one_of closing ch))));
    Char (one_of closing)].

Definition spaces : regex := many space.
Definition assignment_value : regex :=
  Group "value" (alternatives [delimited_by quote quote; delimited_by single_quote single_quote;
    delimited_by "[" "]"; some_of (outside ",;}]")]).
Definition assignment_separator : regex :=
  Group "separator" (sequence [spaces; Char (one_of "=:"); spaces]).
Definition optional_quote : regex := optional (Char (one_of quotes)).

(** ** Patterns *)

Definition ABSOLUTE_PATH : regex :=
  sequence [NotAfter (one_of ":/"); Char (one_of "/"); some_of (outside (quotes ++ "`<>()[]{},;"))].

Definition AUTHORIZATION_VALUE : regex :=
  sequence [Boundary; optional (word "proxy-"); word "authorization"; Boundary; spaces;
    Char (one_of ":="); spaces; optional (Cat (word "bearer") (some_of space));
    alternatives [delimited_by "[" "]"; some_of (outside (",;]}" ++ quotes))]].

Definition SENSITIVE_ASSIGNMENT : regex :=
  sequence
    [Group "key" (sequence [optional_quote;
       alternatives
         [sequence [Char letter; Star false (Char (λ ch, letter ch || digit ch || one_of "_" ch));
            alternatives (map word ["api_key"; "access_key"; "auth_token"; "access_token";
              "refresh_token"; "password"; "private_key"; "secret"; "ssh_key"])];
          words " _-" "api" "key"; words " _-" "access" "token"; words " _-" "refresh" "token";
          word "password"; word "secret"; word "credential"; words " _-" "private" "key";
          words " _-" "ssh" "key"; word "token"];
       optional_quote]);
     assignment_separator; assignment_value].

Definition FIELD_ASSIGNMENT : regex :=
  sequence
    [Group "key" (sequence [optional_quote; Char letter;
       at_most 127 (λ ch, letter ch || digit ch || one_of "_. -" ch); optional_quote]);
     assignment_separator; assignment_value].

Definition SENSITIVE_FLAG : regex :=
  sequence
    [Group "key" (sequence [Char (one_of "-"); optional (Char (one_of "-"));
       alternatives [words " _-" "api" "key"; words " _-" "access" "token";
         words " _-" "refresh" "token"; word "password"; word "secret"; word "credential";
         words " _-" "private" "key"; words " _-" "ssh" "key"; word "token"]]);
     Group "separator" (Or (some_of space) (Char (one_of "="))); assignment_value].

Definition BEARER_TOKEN : regex :=
  sequence [Boundary; word "bearer"; some_of space;
    at_least 8 (λ ch, letter ch || digit ch || one_of "._~+/=-" ch)].

Definition KNOWN_TOKEN_LITERAL : regex :=
  sequence [Boundary;
    alternatives [word "sk"; word "rk"; word "ghp"; word "gho"; word "ghu"; word "ghs";
      word "github_pat"; Cat (word "xox") (Char (λ ch, one_of "baprs" (fold_case ch)))];
    Char (one_of "-_"); at_least 8 (λ ch, letter ch || digit ch || one_of "._=-" ch); Boundary].

Definition SENSITIVE_QUERY_VALUE : regex :=
  sequence
    [Group "key" (Cat (alternatives [words "_-" "api" "key"; words "_-" "access" "token";
       words "_-" "refresh" "token"; word "token"; word "password"; word "secret"])
       (Char (one_of "=")));
     Group "value" (some_of (outside "&#"))].

(** ** Sensitive names *)

Definition REDACTED_SECRET : string := "[REDACTED]".
Definition REDACTED_PATH : string := "[REDACTED_PATH]".

Definition SENSITIVE_FIELD_PARTS : list string :=
  ["authorization"; "credential"; "password"; "private_key"; "secret"; "ssh_key"; "cookie"].
Definition SENSITIVE_FIELD_NAMES : list string :=
  ["api_key"; "apikey"; "auth"; "auth_token"; "access_token"; "refresh_token"; "token"; "x_api_key";
   "key"].
Definition SENSITIVE_FIELD_SUFFIXES : list string :=
  ["_api_key"; "_access_key"; "_auth_token"; "_access_token"; "_refresh_token"; "_password";
   "_private_key"; "_secret"; "_ssh_key"].
Definition SENSITIVE_FIELD_TOKENS : list string :=
  ["api"; "apikey"; "auth"; "authorization"; "bearer"; "cookie"; "credential"; "key"; "password";
   "private"; "secret"; "ssh"; "token"; "tokens"].

(** An underscore between a lower-case letter or a digit and an upper-case letter. *)
Fixpoint camel_split (s : string) : string :=
  match s with
  | EmptyString => ""
  | String c s' =>
      match s' with
      | String c' _ =>
          let ch := String c "" in
          if (between 97 122 ch || digit ch) && between 65 90 (String c' "")
          then String c (String "_" (camel_split s'))
          else String c (camel_split s')
      | EmptyString => String c ""
      end
  end.

Definition normalize_field_name (field_name : string) : string :=
  lower (map_string (λ c, if Ascii.eqb c " " then "_"%char else c)
           (dash_to_underscore (camel_split field_name))).

Fixpoint endswith (suffix s : string) : bool :=
  eqs s suffix || match s with String _ s' => endswith suffix s' | EmptyString => false end.

(** [s.split("_")] *)
Fixpoint split_underscores (s : string) : list string :=
  match s with
  | EmptyString => [""]
  | String c s' =>
      if Ascii.eqb c "_" then "" :: split_underscores s'
      else
        match split_underscores s' with
        | w :: l => String c w :: l
        | [] => [String c ""]
        end
  end.

Definition is_sensitive_field_name (field_name : string) : bool :=
  let normalized := normalize_field_name field_name in
  let tokens := List.filter truthy (split_underscores normalized) in
  existsb (eqs normalized) SENSITIVE_FIELD_NAMES
  || existsb (λ suffix, endswith suffix normalized) SENSITIVE_FIELD_SUFFIXES
  || existsb (λ part, contains part normalized) SENSITIVE_FIELD_PARTS
  || existsb (λ token, existsb (eqs token) SENSITIVE_FIELD_TOKENS) tokens.

(** ** Text *)

Definition redact_assignment (m : match_object) : string :=
  let value := group "value" m in
  let replacement :=
    if startswith quote value then quoted REDACTED_SECRET
    else if startswith single_quote value then single_quote ++ REDACTED_SECRET ++ single_quote
    else REDACTED_SECRET in
  group "key" m ++ group "separator" m ++ replacement.

(** [s.strip(set)] *)
Fixpoint lstrip_of (set : string) (s : string) : string :=
  match s with
  | String c s' => if one_of set (String c "") then lstrip_of set s' else s
  | EmptyString => ""
  end.
Fixpoint rstrip_of (set : string) (s : string) : string :=
  match s with
  | String c s' => if eqs (lstrip_of set s) "" then "" else String c (rstrip_of set s')
  | EmptyString => ""
  end.
Definition strip_of (set s : string) : string := rstrip_of set (lstrip_of set s).

Definition redact_sensitive_field_assignment (m : match_object) : string :=
  let field_name := strip_of quotes (group "key" m) in
  if is_sensitive_field_name field_name then redact_assignment m else m_text m.

Section redact.
Context `{Unicode, Floats}.

(** The passes over the characters of a text, in the order of the code. *)
Definition redact_chars (value : list string) : list string :=
  let redacted := sub AUTHORIZATION_VALUE (λ _, "Authorization: " ++ REDACTED_SECRET) value in
  let redacted := sub SENSITIVE_ASSIGNMENT redact_assignment redacted in
  let redacted := sub FIELD_ASSIGNMENT redact_sensitive_field_assignment redacted in
  let redacted :=
    sub SENSITIVE_FLAG (λ m, group "key" m ++ group "separator" m ++ REDACTED_SECRET) redacted in
  let redacted := sub BEARER_TOKEN (λ _, "Bearer " ++ REDACTED_SECRET) redacted in
  let redacted := sub KNOWN_TOKEN_LITERAL (λ _, REDACTED_SECRET) redacted in
  let redacted := sub SENSITIVE_QUERY_VALUE (λ m, group "key" m ++ REDACTED_SECRET) redacted in
  sub ABSOLUTE_PATH (λ _, REDACTED_PATH) redacted.

Definition redact_text (value : string) : string := text (redact_chars (chars value)).

(** ** Values *)

(** [json.dumps(value, ensure_ascii=False, separators=(",", ":"))] *)
Fixpoint unsorted_json (v : json) : string :=
  match v with
  | JNull => "null"
  | JBool true => "true"
  | JBool false => "false"
  | JInt n => pretty n
  | JFloat r => r
  | JStr s => quoted s
  | JList l => "[" ++ join "," (map unsorted_json l) ++ "]"
  | JObj d =>
      "{" ++ join "," (map (λ kv, quoted kv.1 ++ ":" ++ unsorted_json kv.2) d) ++ "}"
  end.

(** Equality of decoded values; a redaction keeps the keys and their order. *)
Fixpoint json_eqb (a b : json) {struct a} : bool :=
  match a, b with
  | JNull, JNull => true
  | JBool x, JBool y => Bool.eqb x y
  | JInt x, JInt y => Z.eqb x y
  | JFloat x, JFloat y | JStr x, JStr y => String.eqb x y
  | JList l, JList l' =>
      (fix all (l l' : list json) : bool :=
         match l, l' with
         | [], [] => true
         | x :: l, y :: l' => json_eqb x y && all l l'
         | _, _ => false
         end) l l'
  | JObj d, JObj d' =>
      (fix all (d d' : dict) : bool :=
         match d, d' with
         | [], [] => true
         | x :: d, y :: d' => String.eqb x.1 y.1 && json_eqb x.2 y.2 && all d d'
         | _, _ => false
         end) d d'
  | _, _ => false
  end.

(** The spaces around a text: [value[: len(value) - len(value.lstrip())]] and
    [value[len(value.rstrip()) :]]. *)
Definition leading (s : string) : string :=
  String.substring 0 (String.length s - String.length (lstrip s)) s.
Definition trailing (s : string) : string :=
  let n := String.length (rstrip s) in String.substring n (String.length s - n) s.

Definition embedded_depth : nat := 8.

(** A text, whose JSON container is redacted by [redact]. *)
Definition redact_embedded_json (redact : nat → json → json) (value : string) (depth : nat) :
    string :=
  let redacted_text := redact_text value in
  let candidate := strip redacted_text in
  if negb (startswith "{" candidate || startswith "[" candidate) then redacted_text
  else if Nat.leb embedded_depth depth then REDACTED_SECRET
  else
    match json_loads candidate with
    | Some (JObj _ as decoded) | Some (JList _ as decoded) =>
        let redacted := redact (S depth) decoded in
        if json_eqb redacted decoded then redacted_text
        else leading value ++ unsorted_json redacted ++ trailing value
    | _ => redacted_text
    end.

(** [_redact_json_value], where [embedded] redacts a text. *)
Definition redact_value (embedded : string → nat → string) : string → nat → json → json :=
  fix go (field_name : string) (depth : nat) (value : json) {struct value} : json :=
    if is_sensitive_field_name field_name then JStr REDACTED_SECRET
    else
      match value with
      | JObj fields => JObj (map (λ kv, (kv.1, go kv.1 (S depth) kv.2)) fields)
      | JList l => JList (map (go field_name (S depth)) l)
      | JStr s => JStr (embedded s depth)
      | _ => value
      end.

(** [fuel] bounds the texts in texts that are decoded; the depth does so too. *)
Fixpoint redact_json_value (fuel : nat) : string → nat → json → json :=
  redact_value (redact_embedded_json (λ depth decoded,
    match fuel with
    | O => decoded
    | S n => redact_json_value n "" depth decoded
    end)).

Definition redact_task_item_payload_for_viewer (payload : json) : json :=
  redact_json_value embedded_depth "" 0 payload.

Definition redact_task_output_for_viewer (content : string) : string :=
  match json_loads content with
  | None => redact_text content
  | Some decoded =>
      let redacted := redact_task_item_payload_for_viewer decoded in
      if json_eqb redacted decoded then content else unsorted_json redacted
  end.

(** ** Items *)

Definition remove_json_suffix (key : string) : string :=
  String.substring 0 (String.length key - 5) key.

(** [_row_dict]: a column of JSON text is there as text and decoded. *)
Definition row_dict (row : dict) : dict :=
  foldl (λ result kv,
    if endswith "_json" kv.1 then
      match kv.2 with
      | JStr value =>
          dict_set (remove_json_suffix kv.1) (default (JStr value) (json_loads value)) result
      | _ => result
      end
    else result) row row.

Definition list_items (task_id : string) (u : user) (turn_id : option string) : txn (list dict) :=
  require_task_viewer task_id u;;
  _ ← require_current_conversation task_id;
  task ← gets (task_by_id task_id);
  task ← require_some task (DomainNotFoundError task_id);
  rows ← match turn_id with
         | None => gets (list_task_items task_id)
         | Some k =>
             turn ← gets (turn_by_id k);
             turn ← require_some turn (DomainNotFoundError k);
             require (eqs (tn_task_id turn) task_id) (DomainNotFoundError k);;
             gets (list_turn_items k)
         end;
  let items := map (λ i, row_dict (item_dict i)) rows in
  if is_admin u || owner_is u (tk_owner_user_id task) then mret items
  else
    mret (map (λ item, dict_set "payload" (redact_task_item_payload_for_viewer
                         (default JNull (dict_get "payload" item))) item) items).
End redact.
