(* ===== verification/RegistryMethods.v ===== *)
(** * The registry as a set of mutations

    Every mutating method of the registry as data, and the interfaces between
    its statements and its methods: a relation that holds across each statement
    ([RegistryStatements], [RegistryUpdates]) holds across each method; a relation that holds only
    across the statements that keep the registry's rules by themselves
    ([RegistrySafe]) and across the methods that combine the others
    ([RegistryBlocks]) holds across each method, too. *)

From stdpp Require Import base tactics list strings relations.
From Stdlib Require Import ZArith Lia.
From S2P Require Import Prelude PyText PyJson Tables Contracts RegistryRows Schema Repository.
From S2P Require Import Projection RegistryRepository Service EnvironmentIdentity Authorization.
From S2P Require Import Registry RegistryWorkspaces Acceptance Execution Evolution Methods.

Local Open Scope string_scope.

#[local] Hint Constants Opaque : typeclass_instances.
#[local] Hint Transparent dict time relation : typeclass_instances.

(** ** Mutations *)

Inductive mutation :=
| CreateProject (name : string) (description : option string) (is_default : bool)
| UpdateProject (project_id : string) (name : option string)
    (description : option (option string))
| ArchiveProject (project_id reason : string)
| UnarchiveProject (project_id : string)
| AddMember (project_id member_user_id role : string) (can_publish : bool)
| RemoveMember (project_id member_user_id : string)
| TransferProjectOwner (project_id new_owner_user_id : string)
| CreateTaskRelationship (project_id source_task_id target_task_id : string)
| DeleteTaskRelationship (relationship_id : string)
| CreateEnvironment (alias display_name : string) (connection : dict)
    (description credential_ref : option string)
| DisableEnvironment (environment_id : string)
| UpdateEnvironment (environment_id : string) (alias display_name : option string)
    (description : option (option string)) (connection : option dict)
    (credential_ref : option (option string))
| CreateWorkspace (environment_id canonical_path label : string)
    (description workspace_prompt : option string)
| CreateWorkspaceAndAttach (project_id environment_id canonical_path label : string)
    (description workspace_prompt : option string)
| UpdateWorkspace (workspace_id : string) (label : option string)
    (description : option (option string)) (canonical_path : option string)
    (workspace_prompt : option (option string))
| AttachWorkspace (project_id workspace_id : string)
| SetPrimaryWorkspace (project_id workspace_id : string)
| ReplacePrimaryWorkspace (project_id previous_workspace_id workspace_id : string)
| DetachWorkspace (project_id workspace_id : string) (allow_no_primary : bool)
| UnregisterWorkspace (workspace_id : string) (allow_no_primary : bool).

(** The clock readings and random identifiers of one call, and the contents of
    the auth database that it read. *)
Record call := mkCall {
  cl_auth : option (list access_row);
  cl_users : option (list string);
  cl_now : time;
  cl_uuid : string;
  cl_context_uuid : string;
  cl_stored_at : time;
  cl_event_id : string;
  cl_audited_at : time;
  cl_second_event_id : string;
  cl_second_audited_at : time }.

Section mutate.
Context `{Host, Kernel}.

Definition no_result (m : txn unit) : txn json := m ≫= λ _, mret JNull.

(** A method whose key is mandatory refuses the empty one. *)
Definition mutate (m : mutation) (u : user) (key : option string) (c : call) : txn json :=
  let required := default "" key in
  let now := cl_now c in
  let stored := cl_stored_at c in
  let event := cl_event_id c in
  let audited := cl_audited_at c in
  match m with
  | CreateProject n de df =>
      create_project u n de df key (cl_uuid c) now (cl_context_uuid c) stored event audited
  | UpdateProject p n de => update_project p u n de key now stored event audited
  | ArchiveProject p r => archive_project p u r required now stored event audited
  | UnarchiveProject p => unarchive_project p u required now stored event audited
  | AddMember p m r cp => add_member (cl_users c) p m r cp u key now stored event audited
  | RemoveMember p m => remove_member p m u key stored event audited
  | TransferProjectOwner p n =>
      transfer_project_owner (cl_users c) p n u key now stored event audited
  | CreateTaskRelationship p s t => create_task_relationship p u s t key now stored event audited
  | DeleteTaskRelationship r =>
      no_result (delete_task_relationship r u key stored event audited)
  | CreateEnvironment a n co de cr =>
      create_environment u a n co de cr key (cl_uuid c) now stored event audited
  | DisableEnvironment e =>
      no_result (disable_environment (cl_auth c) e u key now stored event audited)
  | UpdateEnvironment e a n de co cr =>
      update_environment (cl_auth c) e u a n de co cr key now stored event audited
  | CreateWorkspace e p l de pr =>
      create_workspace (cl_auth c) u e p l de pr key (cl_uuid c) now stored event audited
  | CreateWorkspaceAndAttach pj e p l de pr =>
      create_workspace_and_attach (cl_auth c) pj u e p l de pr required now (cl_uuid c) stored
        event audited (cl_second_event_id c) (cl_second_audited_at c)
  | UpdateWorkspace w l de p pr => update_workspace w u l de p pr key now stored event audited
  | AttachWorkspace p w => attach_workspace (cl_auth c) p w u required now stored event audited
  | SetPrimaryWorkspace p w =>
      set_primary_workspace (cl_auth c) p w u required now stored event audited
  | ReplacePrimaryWorkspace p v w =>
      replace_primary_workspace (cl_auth c) p v w u required now stored event audited
  | DetachWorkspace p w a => no_result (detach_workspace p w u required a now stored event audited)
  | UnregisterWorkspace w a =>
      no_result (unregister_workspace w u key a now event audited stored)
  end.

Definition provision (user_id username : string) (c : call) : txn json :=
  provision_default_project (cl_users c) user_id username (cl_now c) (cl_context_uuid c)
    (cl_event_id c) (cl_audited_at c).

(** One committed transaction of the registry. *)
Inductive registry_step : db → db → Prop :=
| registry_mutates m u key c r d d' : mutate m u key c d = Ok (r, d') → registry_step d d'
| registry_provisions user_id username c r d d' :
    provision user_id username c d = Ok (r, d') → registry_step d d'.
End mutate.

(** ** From statements to methods *)

(** An update of the row with one key, which keeps the key. *)
Definition updates_one {R K} (key : R → K) (p : R → bool) (f : R → R) : Prop :=
  (∃ k, ∀ r, p r = true → key r = k) ∧ ∀ r, key (f r) = key r.

(** An update of links that makes none Primary and activates none. *)
Definition link_key (l : link_row) := (ln_project_id l, ln_workspace_id l).
Definition demotes (f : link_row → link_row) : Prop :=
  ∀ l, link_key (f l) = link_key l ∧ ln_is_primary (f l) = false ∧
    (link_active (f l) = true → link_active l = true).

(** The columns of a row that no update changes, and the states it never leaves. *)
Definition project_lasts (p p' : project_row) : Prop :=
  (pj_project_id p', pj_is_default p', pj_created_at p')
    = (pj_project_id p, pj_is_default p, pj_created_at p).
Definition environment_lasts (e e' : environment_row) : Prop :=
  (en_environment_id e', en_owner_user_id e', en_is_seed e', en_created_at e')
    = (en_environment_id e, en_owner_user_id e, en_is_seed e, en_created_at e) ∧
  (environment_active e = false → environment_active e' = false).
Definition workspace_lasts (w w' : workspace_row) : Prop :=
  (ws_workspace_id w', ws_owner_user_id w', ws_environment_id w', ws_created_at w')
    = (ws_workspace_id w, ws_owner_user_id w, ws_environment_id w, ws_created_at w) ∧
  (workspace_active w = false → workspace_active w' = false).

(** An update that never archives a Project and keeps who owns it. *)
Definition project_kept (f : project_row → project_row) : Prop :=
  ∀ p, project_lasts p (f p) ∧ pj_owner_user_id (f p) = pj_owner_user_id p ∧
    (project_active p = true → project_active (f p) = true).
Definition workspace_kept (f : workspace_row → workspace_row) : Prop :=
  ∀ w, workspace_lasts w (f w) ∧ ws_status (f w) = ws_status w.
(** An update that keeps the endpoint of an Environment. *)
Definition environment_kept (f : environment_row → environment_row) : Prop :=
  ∀ e, environment_lasts e (f e) ∧ en_connection (f e) = en_connection e ∧
    en_connection_fingerprint (f e) = en_connection_fingerprint e.

Class RegistryPlain (R : relation db) : Prop := {
  rs_preorder :: PreOrder R;
  rs_insert_project a b c d e f g h :: Respects R (insert_project a b c d e f g h);
  rs_update_projects p f : updates_one pj_project_id p f → (∀ r, project_lasts r (f r)) →
    Respects R (update_rows projects with_projects p project_update_guard f);
  rs_upsert_project_member a b c d e :: Respects R (upsert_project_member a b c d e);
  rs_remove_project_member a b :: Respects R (remove_project_member a b);
  rs_insert_task_relationship a b c d e f :: Respects R (insert_task_relationship a b c d e f);
  rs_repo_delete_task_relationship a :: Respects R (repo_delete_task_relationship a);
  rs_insert_environment a b c d e f g h i j ::
    Respects R (insert_environment a b c d e f g h i j);
  rs_keep_environments p f : updates_one en_environment_id p f → environment_kept f →
    Respects R (update_rows environments with_environments p environment_update_guard f);
  rs_insert_workspace a b c d e f g h i j k ::
    Respects R (insert_workspace a b c d e f g h i j k);
  rs_update_workspaces p f : updates_one ws_workspace_id p f → (∀ r, workspace_lasts r (f r)) →
    Respects R (update_rows workspaces with_workspaces p workspace_update_guard f);
  rs_update_links p f : demotes f →
    Respects R (update_rows workspace_links with_links p link_update_guard f);
  rs_upsert_link a b c d e :: Respects R (upsert_project_workspace_link a b c d e);
  rs_insert_idempotency_record a b c d e f ::
    Respects R (insert_idempotency_record a b c d e f);
  rs_insert_audit_event a b c d e f g :: Respects R (insert_audit_event a b c d e f g) }.

(** ... and the first Context of a Project may be written ... *)
Class RegistryUpdates (R : relation db) : Prop := {
  rs_plain :: RegistryPlain R;
  rs_insert_context_draft a b c d :: Respects R (insert_context_draft a b c d);
  rs_insert_context_version a b c d e f g h ::
    Respects R (insert_context_version a b c d e f g h);
  rs_insert_context_provenance a b c d :: Respects R (insert_context_provenance a b c d) }.

(** ... and an update may move an Environment to another endpoint, too. *)
Class RegistryStatements (R : relation db) : Prop := {
  rs_updates :: RegistryUpdates R;
  rs_update_environments p f : updates_one en_environment_id p f → (∀ r, environment_lasts r (f r)) →
    Respects R (update_rows environments with_environments p environment_update_guard f) }.

Class RegistrySafe (R : relation db) : Prop := {
  sr_preorder :: PreOrder R;
  sr_update_projects p f : updates_one pj_project_id p f → project_kept f →
    Respects R (update_rows projects with_projects p project_update_guard f);
  sr_remove_project_member a b :: Respects R (remove_project_member a b);
  sr_insert_task_relationship a b c d e f :: Respects R (insert_task_relationship a b c d e f);
  sr_repo_delete_task_relationship a :: Respects R (repo_delete_task_relationship a);
  sr_insert_environment a b c d e f g h i j ::
    Respects R (insert_environment a b c d e f g h i j);
  sr_update_environments p f : updates_one en_environment_id p f → environment_kept f →
    Respects R (update_rows environments with_environments p environment_update_guard f);
  sr_insert_workspace a b c d e f g h i j k ::
    Respects R (insert_workspace a b c d e f g h i j k);
  sr_update_workspaces p f : updates_one ws_workspace_id p f → workspace_kept f →
    Respects R (update_rows workspaces with_workspaces p workspace_update_guard f);
  sr_update_links p f : demotes f →
    Respects R (update_rows workspace_links with_links p link_update_guard f);
  sr_insert_idempotency_record a b c d e f ::
    Respects R (insert_idempotency_record a b c d e f);
  sr_insert_audit_event a b c d e f g :: Respects R (insert_audit_event a b c d e f g) }.

(** The updates of the registry are of one row, chosen by its key. *)
Ltac one_row :=
  split; [eexists; intros ? ?; split_bools; eassumption | intros ?; reflexivity].

#[export] Instance registry_plain_safe R : RegistryPlain R → RegistrySafe R | 10.
Proof.
  intros Hs. constructor; intros; try apply _;
    first [ apply rs_update_projects; [done|] | by apply rs_keep_environments
          | apply rs_update_workspaces; [done|] | by apply rs_update_links ];
    match goal with Hk : _ ?f |- ∀ r, _ r (?f r) => intros r; apply Hk end.
Qed.

Section links.
Context (R : relation db) `{!RegistrySafe R}.

#[export] Instance clear_active_primary_respects a b : Respects R (clear_active_primary a b).
Proof. by apply sr_update_links. Qed.
#[export] Instance retire_links_respects p b :
  Respects R (update_rows workspace_links with_links p link_update_guard (retire b)).
Proof. by apply sr_update_links. Qed.
#[export] Instance retire_link_respects a b c : Respects R (retire_project_workspace_link a b c).
Proof. method. Qed.
End links.

Section statements.
Context (R : relation db) `{!RegistryPlain R}.

#[export] Instance unregister_and_retire_respects a b :
  Respects R (unregister_workspace_and_retire_links a b).
Proof. method. by apply rs_update_workspaces; [one_row|]; intros ?. Qed.
End statements.

(** ** Guards and the epilogue *)

Section guards.
Context `{Host, Kernel} (R : relation db) `{!PreOrder R}.

#[export] Instance require_project_editor_respects p u : Respects R (require_project_editor p u).
Proof. method. Qed.
#[export] Instance require_project_owner_respects p u : Respects R (require_project_owner p u).
Proof. method. Qed.
#[export] Instance require_project_viewer_respects p u : Respects R (require_project_viewer p u).
Proof. method. Qed.
#[export] Instance require_workspace_owner_respects w u v :
  Respects R (require_workspace_owner w u v).
Proof. method. Qed.
#[export] Instance require_manager_respects w u v :
  Respects R (require_workspace_registry_manager w u v).
Proof. method. Qed.
#[export] Instance has_environment_access_respects a e u o :
  Respects R (has_environment_access a e u o).
Proof. method. Qed.
#[export] Instance has_environment_execution_access_respects a e u :
  Respects R (has_environment_execution_access a e u).
Proof. method. Qed.
#[export] Instance require_environment_execution_access_respects a e o u :
  Respects R (require_environment_execution_access a e o u).
Proof. method. Qed.
#[export] Instance require_known_auth_user_respects us u a :
  Respects R (require_known_auth_user us u a).
Proof. method. Qed.
#[export] Instance idempotent_result_respects a s k q : Respects R (idempotent_result a s k q).
Proof. method. Qed.
#[export] Instance replay_if_respects k a s q : Respects R (replay_if k a s q).
Proof. method. Qed.
#[export] Instance validate_write_respects : Respects R validate_write.
Proof. method. Qed.
#[export] Instance canonical_connection_object_respects c :
  Respects R (canonical_connection_object c).
Proof. method. Qed.
#[export] Instance fingerprint_respects c : Respects R (environment_connection_fingerprint c).
Proof. method. Qed.
#[export] Instance managed_environment_respects a e u : Respects R (managed_environment a e u).
Proof. method. Qed.
#[export] Instance current_fingerprint_respects e : Respects R (current_fingerprint e).
Proof. method. Qed.
#[export] Instance repointed_respects i e c : Respects R (repointed i e c).
Proof. method. Qed.
#[export] Instance option_map_tx_respects {A B} (o : option A) (f : A → txn B) :
  (∀ a, Respects R (f a)) → Respects R (option_map_tx o f).
Proof. method. Qed.
#[export] Instance executable_environment_respects a e u :
  Respects R (executable_environment a e u).
Proof. method. Qed.
#[export] Instance require_active_project_respects p : Respects R (require_active_project p).
Proof. method. Qed.
#[export] Instance linkable_respects a p w u : Respects R (linkable a p w u).
Proof. method. Qed.
#[export] Instance catch_integrity_respects {A} (m h : txn A) :
  Respects R m → Respects R h → Respects R (catch_integrity m h).
Proof.
  intros Hm Hh d r d' Hrun. unfold catch_integrity in Hrun.
  destruct (m d) as [[x y]|[]] eqn:Hd; simplify_eq; [by eapply Hm | by eapply Hh].
Qed.
End guards.

Section epilogue.
Context `{Host, Kernel} (R : relation db) `{!RegistrySafe R}.

#[export] Instance store_idempotency_respects a s k q r c :
  Respects R (store_idempotency a s k q r c).
Proof. method. Qed.
#[export] Instance store_if_respects k a s q r c : Respects R (store_if k a s q r c).
Proof. method. Qed.
#[export] Instance kernel_audit_respects a b c d e f g : Respects R (kernel_audit a b c d e f g).
Proof. method. Qed.
#[export] Instance register_workspace_respects a b c d e f g h :
  Respects R (register_workspace a b c d e f g h).
Proof. method. Qed.
End epilogue.

(** ** Methods *)

(** The methods whose statements keep the registry's rules one by one. *)
Section safe_methods.
Context `{Host, Kernel} (R : relation db) `{!RegistrySafe R}.

#[local] Hint Extern 1 (Respects _ (repo_update_project _ _)) =>
  apply sr_update_projects; [one_row | intros ?; done] : respects.
#[local] Hint Extern 1 (Respects _ (update_rows projects _ _ _ _)) =>
  apply sr_update_projects; [one_row | intros ?; done] : respects.
#[local] Hint Extern 1 (Respects _ (repo_update_environment _ _)) =>
  apply sr_update_environments; [one_row | intros ?; done] : respects.
#[local] Instance set_workspace_respects a b c d e f :
  Respects R (repo_update_workspace a (set_workspace b c d e f)).
Proof. apply sr_update_workspaces; [one_row | intros ?; done]. Qed.

#[export] Instance update_project_respects a b c d e f g h i :
  Respects R (update_project a b c d e f g h i).
Proof. method. Qed.
#[export] Instance unarchive_project_respects a b c d e f g :
  Respects R (unarchive_project a b c d e f g).
Proof. method. Qed.
#[export] Instance remove_member_respects a b c d e f g :
  Respects R (remove_member a b c d e f g).
Proof. method. Qed.
#[export] Instance create_task_relationship_respects a b c d e f g h i :
  Respects R (create_task_relationship a b c d e f g h i).
Proof. method. Qed.
#[export] Instance delete_task_relationship_respects a b c d e f :
  Respects R (delete_task_relationship a b c d e f).
Proof. method. Qed.
#[export] Instance create_environment_respects a b c d e f g h i j k l :
  Respects R (create_environment a b c d e f g h i j k l).
Proof. method. Qed.
#[export] Instance disable_environment_respects a b c d e f g h :
  Respects R (disable_environment a b c d e f g h).
Proof. method. Qed.
#[export] Instance create_workspace_respects a b c d e f g h i j k l m :
  Respects R (create_workspace a b c d e f g h i j k l m).
Proof. method. Qed.
#[export] Instance update_workspace_respects a b c d e f g h i j k :
  Respects R (update_workspace a b c d e f g h i j k).
Proof. method. Qed.
#[export] Instance detach_workspace_respects a b c d e f g h i :
  Respects R (detach_workspace a b c d e f g h i).
Proof. method. Qed.
End safe_methods.

(** The methods that keep the registry's rules as a whole. *)
Class RegistryBlocks `{Host, Kernel} (R : relation db) : Prop := {
  rb_safe :: RegistrySafe R;
  rb_create_project a b c d e f g h i j k :: Respects R (create_project a b c d e f g h i j k);
  rb_provision a b c d e f g :: Respects R (provision_default_project a b c d e f g);
  rb_archive_project a b c d e f g h :: Respects R (archive_project a b c d e f g h);
  rb_add_member a b c d e f g h i j k :: Respects R (add_member a b c d e f g h i j k);
  rb_transfer a b c d e f g h i :: Respects R (transfer_project_owner a b c d e f g h i);
  rb_update_environment a b c d e f g h i j k l m ::
    Respects R (update_environment a b c d e f g h i j k l m);
  rb_create_and_attach a b c d e f g h i j k l m n o p ::
    Respects R (create_workspace_and_attach a b c d e f g h i j k l m n o p);
  rb_link_operation a b c d e f g h i j :: Respects R (link_operation a b c d e f g h i j);
  rb_replace_primary a b c d e f g h i j ::
    Respects R (replace_primary_workspace a b c d e f g h i j);
  rb_unregister a b c d e f g h :: Respects R (unregister_workspace a b c d e f g h) }.

Lemma registry_step_spec `{Host, Kernel} R `{!RegistryBlocks R} d d' :
  registry_step d d' → R d d'.
Proof.
  assert (∀ m, Respects R m → Respects R (no_result m)) as Hno
    by (intros; unfold no_result; solve_respects).
  intros [m u key c r s s' Hrun | x y c r s s' Hrun].
  - revert Hrun. apply respects_apply. unfold mutate, attach_workspace, set_primary_workspace.
    destruct m; first [apply _ | apply Hno, _].
  - revert Hrun. unfold provision. apply respects_apply, _.
Qed.

#[local] Hint Extern 1 (Respects _ (repo_update_project _ _)) =>
  apply rs_update_projects; [one_row | intros ?; done] : respects.
Lemma registry_plain_blocks `{Host, Kernel} R :
  RegistryPlain R → (∀ a b c e, Respects R (initialize_project_context a b c e)) →
  (∀ a b c d e f g h i j k l m, Respects R (update_environment a b c d e f g h i j k l m)) →
  RegistryBlocks R.
Proof.
  intros Hs Hini. assert (∀ a b c d e f, Respects R (link_operation_in_transaction a b c d e f)) by method.
  constructor; [apply _|..]; first [done | method].
Qed.
Lemma registry_updates_blocks `{Host, Kernel} R :
  RegistryUpdates R →
  (∀ a b c d e f g h i j k l m, Respects R (update_environment a b c d e f g h i j k l m)) →
  RegistryBlocks R.
Proof. intros Hs. apply registry_plain_blocks; [apply _|]. method. Qed.

#[local] Instance set_environment_respects R `{!RegistryStatements R} a b c d e f g h :
  Respects R (repo_update_environment a (set_environment b c d e f g h)).
Proof. apply rs_update_environments; [one_row | intros ?; done]. Qed.

#[export] Instance registry_statements_blocks `{Host, Kernel} R :
  RegistryStatements R → RegistryBlocks R.
Proof. intros Hs. apply registry_updates_blocks; [apply _|]. method. Qed.
