(* ===== verification/ContextMethods.v ===== *)
(** * The Context service and the Task lifecycle as a set of mutations

    Every mutating method of [ProjectContextService], [create_task], [move_task] and the forks
    as data, and the interfaces between their statements and the methods: a relation
    that holds across each statement ([ContextStatements]) holds across each method;
    a relation that holds across the statements that keep the rules by themselves
    ([ContextSafe]) and across the methods that combine the others ([ContextBlocks])
    holds across each method, too. *)

From stdpp Require Import base tactics list strings relations.
From Stdlib Require Import ZArith Lia.
From S2P Require Import Prelude PyText PyJson Utf8 PyTime Tables Contracts RegistryRows Schema.
From S2P Require Import Repository Projection RegistryRepository Service EnvironmentIdentity.
From S2P Require Import Authorization Registry RegistryWorkspaces Assembler ContextRepository.
From S2P Require Import Context ContextCandidates ContextSnapshots TaskLifecycle ForkRepository Fork.
From S2P Require Import Acceptance Execution Evolution Methods RegistryMethods.

Local Open Scope string_scope.

#[local] Hint Constants Opaque : typeclass_instances.
#[local] Hint Transparent dict time relation : typeclass_instances.

(** ** Mutations *)

Inductive context_mutation :=
| SaveDraft (project_id content : string)
| Publish (project_id : string)
| CreateCandidate (project_id content : string) (source_metadata : dict)
    (source_task_id : option string) (message_start message_end output_start output_end : option Z)
| AcceptCandidate (project_id candidate_id : string)
| RejectCandidate (project_id candidate_id : string) (reason : option string)
| CreateFragment (project_id content source_type : string) (source_metadata : dict)
    (source_version : option string) (sort_order : Z) (byte_budget : option Z)
| PreviewTaskContext (task_id project_id : string)
| ConfirmTaskContext (task_id project_id preview_id : string)
| CreateTask (s : task_spec)
| MoveTask (task_id project_id context_version_id : string)
| PreviewFork (task_id : string) (q : fork_request)
| ConfirmFork (task_id preview_id : string) (c : fork_confirmation).

(** The clock readings and random identifiers of one call, and the contents of
    the auth database that it read. *)
Record context_call := mkContextCall {
  cc_auth : option (list access_row);
  cc_now : time;
  cc_uuid : string;
  cc_successor : successor;
  cc_snapshot_uuid : string;
  cc_snapshot_at : time;
  cc_checked_at : time;
  cc_stored_at : time;
  cc_event_id : string;
  cc_audited_at : time;
  cc_second_event_id : string;
  cc_second_audited_at : time;
  cc_submission_id : string;
  cc_reserved_turn_id : string;
  cc_transfer_id : string;
  cc_relationship_uuid : string }.

Section mutate.
Context `{Host, Kernel}.

(** A method whose key is mandatory refuses the empty one. *)
Definition context_mutate (m : context_mutation) (u : user) (key : option string)
    (c : context_call) : txn json :=
  let required := default "" key in
  let now := cc_now c in
  let stored := cc_stored_at c in
  let event := cc_event_id c in
  let audited := cc_audited_at c in
  match m with
  | SaveDraft p t => save_draft p t u key now stored event audited
  | Publish p =>
      publish p u key (cc_uuid c) now event audited stored (cc_second_event_id c)
        (cc_second_audited_at c)
  | CreateCandidate p t md k ms me os oe =>
      create_candidate p t u md k ms me os oe key (cc_uuid c) now event audited stored
  | AcceptCandidate p k => accept_candidate p k u key now event audited stored
  | RejectCandidate p k r => reject_candidate p k u r key now event audited stored
  | CreateFragment p t ty md v o b =>
      create_fragment p t u ty md v o b key (cc_uuid c) now event audited stored
  | PreviewTaskContext t p =>
      preview_task_context_update t p u (cc_uuid c) now (cc_checked_at c)
  | ConfirmTaskContext t p w =>
      confirm_task_context_update t p w u required (cc_checked_at c) (cc_snapshot_uuid c)
        (cc_snapshot_at c) now stored event audited
  | CreateTask s =>
      create_task (cc_auth c) u s required now (cc_uuid c) (cc_successor c) (cc_snapshot_uuid c)
        (cc_snapshot_at c) (cc_submission_id c) (cc_reserved_turn_id c) event
  | MoveTask t p v =>
      move_task t u p v required now (cc_snapshot_uuid c) (cc_snapshot_at c) event
  | PreviewFork t q => preview_fork t u q required now (cc_uuid c)
  | ConfirmFork t p confirmation =>
      confirm_fork (cc_auth c) t p u confirmation required now
        (mkForkCall (cc_transfer_id c) (cc_uuid c) (cc_successor c) (cc_snapshot_uuid c)
           (cc_snapshot_at c) (cc_submission_id c) (cc_reserved_turn_id c)
           (cc_relationship_uuid c))
  end.

(** One committed transaction. *)
Definition context_step (d d' : db) : Prop :=
  ∃ m u key c r, context_mutate m u key c d = Ok (r, d').
End mutate.

(** ** From statements to methods *)

Class ContextSafe (R : relation db) : Prop := {
  xs_preorder :: PreOrder R;
  xs_upsert_context_draft a b c d :: Respects R (upsert_context_draft a b c d);
  xs_insert_candidate c : cd_status c = Candidate_PROPOSED → Respects R (insert_candidate c);
  xs_insert_fragment f :: Respects R (insert_fragment f);
  xs_insert_snapshot_row s :: Respects R (insert_snapshot_row s);
  xs_insert_preview p : pw_confirmed_snapshot_id p = None → Respects R (insert_preview p);
  xs_insert_idempotency_record a b c d e f ::
    Respects R (insert_idempotency_record a b c d e f);
  xs_insert_audit_event a b c d e f g :: Respects R (insert_audit_event a b c d e f g) }.

Class ContextUpdates (R : relation db) : Prop := {
  xu_safe :: ContextSafe R;
  xu_accept a b c :: Respects R (update_candidate a (set_candidate_accepted b c));
  xu_reject a b c d :: Respects R (update_candidate a (set_candidate_rejected b c d));
  xu_confirm_preview a b c :: Respects R (confirm_preview a b c);
  xu_pin_task a b c d :: Respects R (pin_task a b c d);
  xu_rehome_task a b c d e :: Respects R (rehome_task a b c d e);
  xu_repin a b c :: Respects R (repin_submissions a b c);
  xu_insert_task t :: Respects R (insert_task t);
  xu_open a b c d e f g h i :: Respects R (open_conversation a b c d e f g h i) }.

Class ContextStatements (R : relation db) : Prop := {
  xt_updates :: ContextUpdates R;
  xt_deactivate p :: Respects R (deactivate_context_versions p);
  xt_insert_context_version a b c d e f g h ::
    Respects R (insert_context_version a b c d e f g h);
  xt_insert_context_provenance a b c d :: Respects R (insert_context_provenance a b c d) }.

#[local] Hint Extern 1 (Respects _ (insert_candidate _)) =>
  apply xs_insert_candidate; reflexivity : respects.
#[local] Hint Extern 1 (Respects _ (insert_preview _)) =>
  apply xs_insert_preview; reflexivity : respects.

Section guards.
Context `{Host, Kernel} (R : relation db) `{!PreOrder R}.

#[export] Instance lift_respects {A} (r : result error A) : Respects R (lift r).
Proof. method. Qed.
#[export] Instance require_project_publisher_respects p u :
  Respects R (require_project_publisher p u).
Proof. method. Qed.
#[export] Instance response_project_respects a s k :
  Respects R (idempotency_response_project_id a s k).
Proof. method. Qed.
#[export] Instance context_idempotent_result_respects a s k q :
  Respects R (context_idempotent_result a s k q).
Proof. method. Qed.
#[export] Instance context_replay_if_respects k a s q : Respects R (context_replay_if k a s q).
Proof. method. Qed.
#[export] Instance active_version_respects p : Respects R (active_version p).
Proof. method. Qed.
#[export] Instance version_respects p v : Respects R (version p v).
Proof. method. Qed.
#[export] Instance validate_ranges_respects a b c d : Respects R (validate_ranges a b c d).
Proof. method. Qed.
#[export] Instance validate_candidate_provenance_respects p t :
  Respects R (validate_candidate_provenance p t).
Proof. method. Qed.
#[export] Instance validate_source_range_respects t a b : Respects R (validate_source_range t a b).
Proof. method. Qed.
#[export] Instance candidate_respects p c : Respects R (candidate p c).
Proof. method. Qed.
#[export] Instance assemble_for_task_respects a b c d e : Respects R (assemble_for_task a b c d e).
Proof. method. Qed.
#[export] Instance task_for_project_respects t p : Respects R (task_for_project t p).
Proof. method. Qed.
#[export] Instance authorize_task_context_update_respects t p u :
  Respects R (authorize_task_context_update t p u).
Proof. method. Qed.
#[export] Instance task_snapshot_payload_respects t : Respects R (task_snapshot_payload t).
Proof. method. Qed.
#[export] Instance replay_create_task_respects a u k q : Respects R (replay_create_task a u k q).
Proof. method. Qed.
#[export] Instance writable_workspace_respects p w e : Respects R (writable_workspace p w e).
Proof. method. Qed.
#[export] Instance require_environment_execution_grant_respects a e u :
  Respects R (require_environment_execution_grant a e u).
Proof. method. Qed.
#[export] Instance require_deployable_engine_respects e :
  Respects R (require_deployable_engine e).
Proof. method. Qed.
#[export] Instance metric_int_respects m k : Respects R (metric_int m k).
Proof. method. Qed.
#[export] Instance metric_float_respects m k : Respects R (metric_float m k).
Proof. method. Qed.
#[export] Instance check_metrics_respects m l : Respects R (check_metrics m l).
Proof. method. Qed.
#[export] Instance fork_selection_respects t m r : Respects R (fork_selection t m r).
Proof. method. Qed.
#[export] Instance fork_target_respects t p w u : Respects R (fork_target t p w u).
Proof. method. Qed.
#[export] Instance source_engine_family_respects k t : Respects R (source_engine_family k t).
Proof. method. Qed.
End guards.

(** The tables that every mutation ends with. *)
Class Ledger (R : relation db) : Prop := {
  lg_preorder :: PreOrder R;
  lg_insert_idempotency_record a b c d e f ::
    Respects R (insert_idempotency_record a b c d e f);
  lg_insert_audit_event a b c d e f g :: Respects R (insert_audit_event a b c d e f g) }.

#[export] Instance context_safe_ledger R : ContextSafe R → Ledger R.
Proof. constructor; apply _. Qed.
#[export] Instance registry_safe_ledger R : RegistrySafe R → Ledger R.
Proof. constructor; apply _. Qed.

Section ledger.
Context `{Host, Kernel} (R : relation db) `{!Ledger R}.

#[export] Instance context_store_respects a s k q r c : Respects R (context_store a s k q r c).
Proof. method. Qed.
#[export] Instance context_store_if_respects k a s q r c :
  Respects R (context_store_if k a s q r c).
Proof. method. Qed.
#[export] Instance context_audit_respects a b c d e f : Respects R (context_audit a b c d e f).
Proof. unfold context_audit, kernel_audit. solve_respects. Qed.
#[export] Instance task_store_respects a s k g r c : Respects R (store a s k g r c) | 5.
Proof. method. Qed.
#[export] Instance task_audit_respects a b c d e f : Respects R (audit a b c d e f) | 5.
Proof. method. Qed.
#[export] Instance store_decided_respects k a s q r c : Respects R (store_decided k a s q r c).
Proof. method. Qed.
End ledger.

(** The statements of a fork beside the Task that it opens. *)
Class ForkReceipts (R : relation db) : Prop := {
  fr_ledger :: Ledger R;
  fr_insert_fork_preview p :: Respects R (insert_fork_preview p);
  fr_insert_fork_transfer a b c d e f g h i j k l m ::
    Respects R (insert_fork_transfer a b c d e f g h i j k l m);
  fr_finish_fork_transfer a b c d e f g :: Respects R (finish_fork_transfer a b c d e f g);
  fr_insert_derived_relationship a b c d e :: Respects R (insert_derived_relationship a b c d e) }.

Section receipts.
Context `{Host, Kernel} (R : relation db) `{!ForkReceipts R}.

#[export] Instance preview_fork_respects a b c d e f : Respects R (preview_fork a b c d e f).
Proof. method. Qed.
#[export] Instance record_transfer_respects a b c d e f g h i :
  Respects R (record_transfer a b c d e f g h i).
Proof. method. Qed.
End receipts.

Section safe_methods.
Context `{Host, Kernel} (R : relation db) `{!ContextSafe R}.

#[export] Instance insert_snapshot_respects v a i c : Respects R (insert_snapshot v a i c).
Proof. method. Qed.
#[export] Instance create_snapshot_respects a b c d e f g :
  Respects R (create_snapshot_for_task_context_version a b c d e f g).
Proof. method. Qed.

#[export] Instance save_draft_respects a b c d e f g h : Respects R (save_draft a b c d e f g h).
Proof. method. Qed.
#[export] Instance create_candidate_respects a b c d e f g h i j k l m n o :
  Respects R (create_candidate a b c d e f g h i j k l m n o).
Proof. method. Qed.
#[export] Instance create_fragment_respects a b c d e f g h i j k l m n :
  Respects R (create_fragment a b c d e f g h i j k l m n).
Proof. method. Qed.
#[export] Instance preview_respects a b c d e f :
  Respects R (preview_task_context_update a b c d e f).
Proof. method. Qed.
End safe_methods.

(** The methods that keep the rules as a whole. *)
Class ContextBlocks `{Host, Kernel} (R : relation db) : Prop := {
  xb_safe :: ContextSafe R;
  xb_publish_version a b c d e f g ::
    Respects R (publish_verified_version_in_transaction a b c d e f g);
  xb_accept a b c d e f g h :: Respects R (accept_candidate a b c d e f g h);
  xb_reject a b c d e f g h i :: Respects R (reject_candidate a b c d e f g h i);
  xb_confirm a b c d e f g h i j k l ::
    Respects R (confirm_task_context_update a b c d e f g h i j k l);
  xb_create_task a b c d e f g h i j k l :: Respects R (create_task a b c d e f g h i j k l);
  xb_move_task a b c d e f g h i :: Respects R (move_task a b c d e f g h i) }.

Class ForkBlocks `{Host, Kernel} (R : relation db) : Prop := {
  fb_preview_fork a b c d e f :: Respects R (preview_fork a b c d e f);
  fb_confirm_fork a b c d e f g h :: Respects R (confirm_fork a b c d e f g h) }.

Section blocks.
Context `{Host, Kernel} (R : relation db).

#[export] Instance publish_respects `{!ContextBlocks R} a b c d e f g h i j :
  Respects R (publish a b c d e f g h i j).
Proof. method. Qed.

Lemma context_step_spec `{!ContextBlocks R, !ForkBlocks R} d d' : context_step d d' → R d d'.
Proof.
  intros (m & u & key & c & r & Hrun). revert Hrun. apply respects_apply.
  unfold context_mutate. destruct m; apply _.
Qed.

#[export] Instance create_active_snapshot_respects `{!ContextSafe R} a b c d e f g h :
  (∀ a b c d e f g, Respects R (publish_verified_version_in_transaction a b c d e f g)) →
  Respects R (create_active_snapshot_for_task a b c d e f g h).
Proof. method. Qed.

(** A relation that a publication and every other statement keep. *)
Lemma context_updates_blocks :
  ContextUpdates R →
  (∀ a b c d e f g, Respects R (publish_verified_version_in_transaction a b c d e f g)) →
  ContextBlocks R.
Proof.
  intros Hs Hp. assert (∀ a b c d e f g h, Respects R (open_task a b c d e f g h)) by method.
  constructor; [apply _ | done | method..].
Qed.
Lemma fork_updates_blocks :
  ContextUpdates R → ForkReceipts R →
  (∀ a b c d e f g, Respects R (publish_verified_version_in_transaction a b c d e f g)) →
  ForkBlocks R.
Proof.
  intros Hs Hr Hp. assert (∀ a b c d e f g h, Respects R (open_task a b c d e f g h)) by method.
  assert (∀ a b c d e f g h i, Respects R (open_fork a b c d e f g h i)) by method.
  constructor; method.
Qed.

#[export] Instance context_statements_blocks : ContextStatements R → ContextBlocks R.
Proof. intros Hs. apply context_updates_blocks; [apply _|]. method. Qed.
#[export] Instance fork_statements_blocks : ContextStatements R → ForkReceipts R → ForkBlocks R.
Proof. intros Hs Hr. apply fork_updates_blocks; [apply _..|]. method. Qed.
End blocks.
