(* ===== verification/RegistryFrame.v ===== *)
(** * The registry beside the conversations

    The registry, the Context service and the conversation domain share one
    database.  The theorems of the conversation domain hold whatever [control_plane]
    changes the rest of the program makes; here the registry is shown to make only
    such changes, the Context service and the Task lifecycle to make these and to
    open conversations and repin submissions, and the conversation methods to leave
    the tables of the registry and the Context alone.  [domain_step] is a step of
    any of them, or a switch of the maintenance flag. *)

From stdpp Require Import base tactics list strings relations.
From Stdlib Require Import ZArith Lia.
From S2P Require Import Prelude PyText PyJson Tables Contracts RegistryRows Schema Repository.
From S2P Require Import Projection RegistryRepository Service EnvironmentIdentity Authorization.
From S2P Require Import Registry RegistryWorkspaces Acceptance Execution Evolution Methods.
From S2P Require Import Integrity System Requests Assembler ContextRepository Context ContextCandidates.
From S2P Require Import ContextSnapshots TaskLifecycle ForkRepository Fork RegistryMethods.
From S2P Require Import ContextMethods.

#[local] Hint Constants Opaque : typeclass_instances.
#[local] Hint Transparent dict time relation : typeclass_instances.

(** ** Statements of the registry, inverted *)

Lemma upsert_row_inv {R} table put same ig ug merge (row : R) d u d' :
  upsert_row table put same ig ug merge row d = Ok (u, d') →
  (row_exists (same row) (table d) = true ∧
   d' = put (λ _, on_rows (same row) (merge row) (table d)) d ∧
   ∀ r, r ∈ table d → same row r = true → ug d r (merge row r) = None) ∨
  (row_exists (same row) (table d) = false ∧ ig d row = None ∧
   d' = put (λ t, t ++ [row]) d).
Proof.
  unfold upsert_row. destruct (row_exists (same row) (table d)) eqn:He.
  - destruct (update_where _ _ _ _) as [[n v]|] eqn:Hu; [|done].
    apply update_where_Ok in Hu as (-> & _ & Hg). intros [= _ <-]. auto.
  - intros [Hg ->]%insert_row_inv. auto.
Qed.

Lemma insert_or_ignore_inv {R} table put same ig (row : R) d u d' :
  insert_or_ignore table put same ig row d = Ok (u, d') →
  (row_exists (same row) (table d) = true ∧ d' = d) ∨
  (row_exists (same row) (table d) = false ∧ ig d row = None ∧ d' = put (λ t, t ++ [row]) d).
Proof.
  unfold insert_or_ignore. destruct (row_exists (same row) (table d)) eqn:He.
  - intros [= _ <-]. auto.
  - intros [Hg ->]%insert_row_inv. auto.
Qed.

Lemma delete_rows_inv {R} (table : db → list R) put p d n d' :
  delete_rows table put p d = Ok (n, d') →
  d' = put (List.filter (λ r, negb (p r))) d ∧ n = Z.of_nat (length (select p (table d))).
Proof. unfold delete_rows. naive_solver. Qed.

Lemma insert_fork_preview_inv p d u d' :
  insert_fork_preview p d = Ok (u, d') →
  fork_preview_insert_guard d p = None ∧ d' = with_fork_previews (λ t, t ++ [p]) d.
Proof. unfold insert_fork_preview. intros Hrun. tx_inv_all. by eapply insert_row_inv. Qed.

(** The database after one statement, whichever it is. *)
Ltac statement_inv H :=
  first
    [ apply insert_row_inv in H as [? ->]
    | apply update_rows_inv in H as (-> & ? & ?)
    | apply upsert_row_inv in H as [(? & -> & ?)|(? & ? & ->)]
    | apply insert_or_ignore_inv in H as [(? & ->)|(? & ? & ->)]
    | apply delete_rows_inv in H as [-> ?]
    | apply insert_fork_preview_inv in H as [? ->] ].

(** ** The registry makes control-plane changes only *)

#[export] Instance control_plane_preorder : PreOrder control_plane.
Proof.
  split.
  - intros d. constructor; try reflexivity; done.
  - intros d1 d2 d3 H1 H2. destruct H1, H2. constructor; try congruence; try (by etrans); auto.
Qed.

#[export] Instance registry_statements_control_plane : RegistryStatements control_plane.
Proof.
  constructor; [constructor; [constructor; [apply _|..]|..]|]; intros; intros ?s ?x ?s Hrun; statement_inv Hrun;
    try (constructor; try reflexivity; done).
  - constructor; simpl; try reflexivity; try done.
    + apply appends_prefix. by eexists.
    + intros Hu. apply unique_insert; [done|].
      by match goal with G : idempotency_insert_guard _ _ = None |- _ =>
        apply violation_None, Forall_inv in G end.
  - constructor; simpl; try reflexivity; try done.
    + apply appends_prefix. by eexists.
    + intros Hu. apply unique_insert; [done|].
      by match goal with G : audit_insert_guard _ _ = None |- _ =>
        apply violation_None, Forall_inv in G end.
Qed.

Lemma registry_step_control_plane `{Host, Kernel} d d' :
  registry_step d d' → control_plane d d'.
Proof. apply (registry_step_spec control_plane). Qed.

(** ** The conversation methods leave the registry and the Context alone *)

Record registry_same (d d' : db) : Prop := mkSame {
  same_projects : projects d' = projects d;
  same_members : project_members d' = project_members d;
  same_environments : environments d' = environments d;
  same_workspaces : workspaces d' = workspaces d;
  same_links : workspace_links d' = workspace_links d;
  same_relationships : task_relationships d' = task_relationships d;
  same_drafts : context_drafts d' = context_drafts d;
  same_versions : context_versions d' = context_versions d;
  same_provenance : context_provenance d' = context_provenance d;
  same_candidates : context_candidates d' = context_candidates d;
  same_fragments : context_fragments d' = context_fragments d;
  same_snapshots : context_snapshots d' = context_snapshots d;
  same_previews : context_previews d' = context_previews d;
  same_fork_previews : fork_previews d' = fork_previews d;
  same_fork_transfers : fork_transfers d' = fork_transfers d;
  same_tasks : task_frame <$> tasks d' = task_frame <$> tasks d }.

#[export] Instance registry_same_preorder : PreOrder registry_same.
Proof.
  split; [by intros d; constructor|]. intros d1 d2 d3 H1 H2. destruct H1, H2.
  constructor; congruence.
Qed.

#[export] Instance registry_same_statements : StatementSpec registry_same.
Proof.
  constructor; [apply _|..]; intros; intros ?s ?x ?s Hrun;
    first [ statement_inv Hrun | unfold reclaim in Hrun; statement_inv Hrun ];
    constructor; try done. by apply fmap_on_rows; intros.
Qed.

Lemma conversation_frame `{Host} d d' : conversation_step d d' → registry_same d d'.
Proof.
  destruct 1;
    match goal with
    | Hm : ?m _ = Ok _ |- _ => exact (respects (R:=registry_same) (m:=m) _ _ _ Hm)
    | Hm : ?m _ = Ok _ |- _ => eapply (cancel_task_respects registry_same); [apply _ | exact Hm]
    end.
Qed.

(** ** The Context and the Task lifecycle are conversation steps *)

(** A run of conversation steps that starts behind the barrier. *)
Definition conversation_run `{Host} (d d' : db) : Prop :=
  maintenance_is_active d' = maintenance_is_active d ∧
  (maintenance_is_active d = Some false → rtc step d d').

#[export] Instance conversation_run_preorder `{Host} : PreOrder conversation_run.
Proof.
  split; [by intros d|]. intros d1 d2 d3 [E1 H1] [E2 H2]. split; [congruence|].
  intros Hm. etrans; [by apply H1 | apply H2; congruence].
Qed.

Lemma control_plane_run `{Host} d d' :
  control_plane d d' → maintenance_is_active d' = maintenance_is_active d → conversation_run d d'.
Proof. intros Hc Hm. split; [done|]. intros _. by apply rtc_once, step_control_plane. Qed.

(** A change of the Tasks that keeps their identity. *)
Lemma tasks_control_plane p f d :
  (∀ t, task_identity (f t) = task_identity t) →
  control_plane d (with_tasks (λ _, on_rows p f (tasks d)) d).
Proof.
  intros Hf. constructor; try reflexivity; simpl; try done.
  - apply evolves_update; [apply _|]. intros r _ _. apply Hf.
  - intros Hu. apply unique_update; [done|]. intros r _ _ _. specialize (Hf r).
    unfold task_identity in Hf. split; [done | congruence].
Qed.

Lemma insert_task_control_plane t d u d' :
  insert_task t d = Ok (u, d') → control_plane d d'.
Proof.
  intros [Hg ->]%insert_row_inv. constructor; try reflexivity; simpl; try done.
  - apply evolves_insert, _.
  - intros Hu. apply unique_insert; [done|]. by guard_facts Hg.
Qed.

#[export] Instance context_statements_run `{Host} : ContextStatements conversation_run.
Proof.
  constructor; [constructor; [constructor; [apply _|..]|..]|..]; intros; intros ?s ?x ?s Hrun;
    try (statement_inv Hrun; apply control_plane_run; [|reflexivity];
         first [ apply tasks_control_plane; done | constructor; try reflexivity; done ]).
  - unfold upsert_context_draft in Hrun. statement_inv Hrun; apply control_plane_run;
      try reflexivity; constructor; try reflexivity; done.
  - apply control_plane_run; [exact (respects (R:=control_plane) _ _ _ Hrun)|]. by statement_inv Hrun.
  - apply control_plane_run; [exact (respects (R:=control_plane) _ _ _ Hrun)|]. by statement_inv Hrun.
  - pose proof Hrun as Hst. statement_inv Hst. split; [done|]. intros Hm.
    by eapply rtc_once, step_repin.
  - apply control_plane_run; [by eapply insert_task_control_plane|]. by statement_inv Hrun.
  - split; [|intros Hm; by eapply rtc_once, step_open].
    unfold open_conversation in Hrun. tx_inv_all.
    repeat match goal with H : ?m _ = Ok _ |- _ => statement_inv H end. done.
Qed.

#[export] Instance fork_receipts_run `{Host} : ForkReceipts conversation_run.
Proof.
  constructor; [apply _|..]; intros; intros ?s ?x ?s Hrun; statement_inv Hrun;
    (apply control_plane_run; [constructor; try reflexivity; done | reflexivity]).
Qed.

(** A method commits only behind the barrier. *)
Lemma context_step_barred `{Host, Kernel} d d' :
  context_step d d' → maintenance_is_active d = Some false.
Proof.
  intros (m & u & key & c & r & Hrun).
  enough (Barred (context_mutate m u key c)) as Hb by exact (Hb _ _ _ Hrun). clear Hrun.
  unfold context_mutate. destruct m; cbv zeta; bar.
Qed.

Lemma context_step_steps `{Host, Kernel} d d' : context_step d d' → rtc step d d'.
Proof.
  intros Hs. pose proof (context_step_barred _ _ Hs).
  by apply (context_step_spec conversation_run _ _ Hs).
Qed.

(** ** Steps of the whole domain *)

Inductive domain_step `{Host, Kernel} (d : db) : db → Prop :=
| domain_registry d' : registry_step d d' → domain_step d d'
| domain_context d' : context_step d d' → domain_step d d'
| domain_conversation d' : conversation_step d d' → domain_step d d'
| domain_maintenance active : domain_step d (with_maintenance (λ _, active) d).

Lemma domain_step_steps `{Host, Kernel} d d' : domain_step d d' → rtc step d d'.
Proof.
  destruct 1 as [d' Hs|d' Hs|d' Hs|active].
  - by apply rtc_once, step_control_plane, registry_step_control_plane.
  - by apply context_step_steps.
  - by apply rtc_once, step_conversation.
  - apply rtc_once, step_control_plane. constructor; try reflexivity; done.
Qed.

Lemma domain_steps_steps `{Host, Kernel} d d' : rtc domain_step d d' → rtc step d d'.
Proof. induction 1; [done|]. etrans; [by apply domain_step_steps | done]. Qed.

(** A relation of the registry and the Context that the conversation methods keep as
    long as they leave those tables alone, across a run of the whole domain. *)
Lemma domain_steps_cases `{Host, Kernel} R `{!PreOrder R} d d' :
  (∀ d d', registry_step d d' → R d d') → (∀ d d', context_step d d' → R d d') →
  (∀ d d', registry_same d d' → db_evolves d d' → R d d') → rtc domain_step d d' → R d d'.
Proof.
  intros Hreg Hctx Hsame. induction 1 as [|d1 d2 d3 Hs _ IH]; [reflexivity|]. etrans; [|exact IH].
  destruct Hs as [d2 Hs|d2 Hs|d2 Hs|active]; [by apply Hreg | by apply Hctx |..].
  - apply Hsame; [by apply conversation_frame | by apply (conversation_step_spec db_evolves)].
  - apply Hsame; [by constructor|]. by constructor.
Qed.

Lemma domain_steps_spec `{Host, Kernel} R `{!RegistryBlocks R, !ContextBlocks R, !ForkBlocks R} d d' :
  (∀ d d', registry_same d d' → db_evolves d d' → R d d') → rtc domain_step d d' → R d d'.
Proof.
  apply (domain_steps_cases R); [apply (registry_step_spec R) | apply (context_step_spec R)].
Qed.
