(* ===== verification/RegistryIntegrity.v ===== *)
(** * Relational integrity of the registry and the Context

    The unique indexes of the registry's tables hold and every reference is met,
    whatever the registry and the conversation domain do.  SQLite checks each
    statement against the rows that are there; here the global invariant is
    derived ([registry_integrity]) and every statement keeps it. *)

From stdpp Require Import base tactics list strings relations.
From Stdlib Require Import ZArith Lia.
From S2P Require Import Prelude PyText PyJson Tables Contracts RegistryRows Schema Repository.
From S2P Require Import Projection RegistryRepository Service EnvironmentIdentity Authorization.
From S2P Require Import Registry RegistryWorkspaces Acceptance Execution Evolution Methods.
From S2P Require Import Integrity System Assembler ContextRepository Context ContextCandidates.
From S2P Require Import ContextSnapshots TaskLifecycle ForkRepository Fork RegistryMethods ContextMethods.
From S2P Require Import RegistryFrame.

#[local] Hint Constants Opaque : typeclass_instances.
#[local] Hint Transparent dict time relation : typeclass_instances.

(** ** Indexes and checks, table by table *)

Record projects_ok (t : list project_row) : Prop := {
  projects_pk : Unique always pj_project_id t;
  projects_one_default : Unique default_active pj_owner_user_id t }.

Record environments_ok (t : list environment_row) : Prop := {
  environments_pk : Unique always en_environment_id t;
  environments_alias : Unique always en_alias t }.

Record workspaces_ok (t : list workspace_row) : Prop := {
  workspaces_pk : Unique always ws_workspace_id t;
  workspaces_path : Unique always workspace_path t }.

Record links_ok (t : list link_row) : Prop := {
  links_pk : Unique always link_key t;
  links_one_primary : Unique primary_active ln_project_id t;
  links_primary_active : Forall (λ l, implb (ln_is_primary l) (link_active l) = true) t }.

Record relationships_ok (t : list relationship_row) : Prop := {
  relationships_pk : Unique always relationship_key t;
  relationships_id : Unique (λ x, not_none (rl_relationship_id x)) rl_relationship_id t }.

Record versions_ok (t : list context_version_row) : Prop := {
  versions_pk : Unique always cv_context_version_id t;
  versions_one_active : Unique cv_is_active cv_project_id t }.

Definition member_key (m : member_row) := (mb_project_id m, mb_user_id m).

(** ** References *)

Definition member_ref (d : db) (m : member_row) : bool := project_exists d (mb_project_id m).
Definition workspace_ref (d : db) (w : workspace_row) : bool :=
  environment_exists d (ws_environment_id w).
Definition link_ref (d : db) (l : link_row) : bool :=
  project_exists d (ln_project_id l) && workspace_exists d (ln_workspace_id l).
Definition relationship_ref (d : db) (r : relationship_row) : bool :=
  task_exists d (rl_source_task_id r) && task_exists d (rl_target_task_id r).
Definition draft_ref (d : db) (c : context_draft_row) : bool := project_exists d (dr_project_id c).
Definition version_ref (d : db) (v : context_version_row) : bool :=
  project_exists d (cv_project_id v).
Definition provenance_ref (d : db) (p : provenance_row) : bool :=
  version_exists d (pv_context_version_id p).

Definition referred {A} (exists_ : db → A → bool) (d : db) (o : option A) : bool :=
  match o with Some a => exists_ d a | None => true end.
Definition candidate_ref (d : db) (c : candidate_row) : bool :=
  project_exists d (cd_project_id c) && referred task_exists d (cd_source_task_id c).
Definition fragment_ref (d : db) (f : fragment_row) : bool := project_exists d (fr_project_id f).
Definition snapshot_ref (d : db) (s : context_snapshot_row) : bool :=
  referred version_exists d (cs_context_version_id s).
Definition preview_ref (d : db) (p : context_preview_row) : bool :=
  task_exists d (pw_task_id p) && project_exists d (pw_project_id p)
  && version_exists d (pw_context_version_id p)
  && referred snapshot_exists d (pw_confirmed_snapshot_id p).
Definition pin_ref (d : db) (t : task_row) : bool :=
  referred snapshot_exists d (tk_project_context_snapshot_id t).

Record registry_integrity (d : db) : Prop := mkRegistryIntegrity {
  ok_projects : projects_ok (projects d);
  ok_members : Unique always member_key (project_members d);
  ok_environments : environments_ok (environments d);
  ok_workspaces : workspaces_ok (workspaces d);
  ok_links : links_ok (workspace_links d);
  ok_relationships : relationships_ok (task_relationships d);
  ok_drafts : Unique always dr_project_id (context_drafts d);
  ok_versions : versions_ok (context_versions d);
  ok_provenance : Unique always pv_context_version_id (context_provenance d);
  ok_candidates : Unique always cd_candidate_id (context_candidates d);
  ok_fragments : Unique always fr_fragment_id (context_fragments d);
  ok_snapshots : Unique always cs_context_snapshot_id (context_snapshots d);
  ok_previews : Unique always pw_preview_id (context_previews d);
  ok_tasks : Unique always tk_task_id (tasks d);
  met_members : met member_ref project_members d;
  met_workspaces : met workspace_ref workspaces d;
  met_links : met link_ref workspace_links d;
  met_relationships : met relationship_ref task_relationships d;
  met_drafts : met draft_ref context_drafts d;
  met_versions : met version_ref context_versions d;
  met_provenance : met provenance_ref context_provenance d;
  met_candidates : met candidate_ref context_candidates d;
  met_fragments : met fragment_ref context_fragments d;
  met_snapshots : met snapshot_ref context_snapshots d;
  met_previews : met preview_ref context_previews d;
  met_pins : met pin_ref tasks d }.

(** ** No Project, Environment, Workspace, Task or row of the Context is deleted

    What a row keeps: a version everything but its activity, which it can only lose; a
    candidate everything but the decision; a preview everything but its confirmation.
    Fragments, snapshots and provenance are append-only. *)

Definition version_lasts (v v' : context_version_row) : Prop :=
  (cv_context_version_id v', cv_project_id v', cv_content v', cv_fingerprint v',
   cv_created_by_user_id v', cv_created_at v', cv_fragment_manifest v')
  = (cv_context_version_id v, cv_project_id v, cv_content v, cv_fingerprint v,
     cv_created_by_user_id v, cv_created_at v, cv_fragment_manifest v) ∧
  (cv_is_active v = false → cv_is_active v' = false).
Definition candidate_lasts (c c' : candidate_row) : Prop :=
  (cd_candidate_id c', cd_project_id c', cd_content c', cd_created_at c', cd_created_by_user_id c',
   cd_source_metadata c', cd_source_task_id c', cd_source_message_start_seq c',
   cd_source_message_end_seq c', cd_source_output_start_seq c', cd_source_output_end_seq c')
  = (cd_candidate_id c, cd_project_id c, cd_content c, cd_created_at c, cd_created_by_user_id c,
     cd_source_metadata c, cd_source_task_id c, cd_source_message_start_seq c,
     cd_source_message_end_seq c, cd_source_output_start_seq c, cd_source_output_end_seq c).
Definition preview_lasts (p p' : context_preview_row) : Prop :=
  (pw_preview_id p', pw_task_id p', pw_project_id p', pw_context_version_id p',
   pw_created_by_user_id p', pw_proposed_fingerprint p', pw_proposed_content p',
   pw_source_manifest p', pw_byte_budget p', pw_truncated p', pw_created_at p', pw_expires_at p')
  = (pw_preview_id p, pw_task_id p, pw_project_id p, pw_context_version_id p,
     pw_created_by_user_id p, pw_proposed_fingerprint p, pw_proposed_content p,
     pw_source_manifest p, pw_byte_budget p, pw_truncated p, pw_created_at p, pw_expires_at p).

#[export] Instance version_lasts_preorder : PreOrder version_lasts.
Proof. split; unfold version_lasts; red; [done|]. intros ? ? ? [? ?] [? ?]. split; [congruence | auto]. Qed.
#[export] Instance candidate_lasts_preorder : PreOrder candidate_lasts.
Proof. split; unfold candidate_lasts; red; congruence. Qed.
#[export] Instance preview_lasts_preorder : PreOrder preview_lasts.
Proof. split; unfold preview_lasts; red; congruence. Qed.

#[export] Instance project_lasts_preorder : PreOrder project_lasts.
Proof. split; unfold project_lasts; red; congruence. Qed.
#[export] Instance environment_lasts_preorder : PreOrder environment_lasts.
Proof. split; unfold environment_lasts; red; [done|]. intros ? ? ? [? ?] [? ?]. split; [congruence | auto]. Qed.
#[export] Instance workspace_lasts_preorder : PreOrder workspace_lasts.
Proof. split; unfold workspace_lasts; red; [done|]. intros ? ? ? [? ?] [? ?]. split; [congruence | auto]. Qed.

Record registry_grows (d d' : db) : Prop := mkGrows {
  gr_projects : Evolves project_lasts (projects d) (projects d');
  gr_environments : Evolves environment_lasts (environments d) (environments d');
  gr_workspaces : Evolves workspace_lasts (workspaces d) (workspaces d');
  gr_tasks : Evolves task_evolves (tasks d) (tasks d');
  gr_versions : Evolves version_lasts (context_versions d) (context_versions d');
  gr_provenance : Appends (context_provenance d) (context_provenance d');
  gr_candidates : Evolves candidate_lasts (context_candidates d) (context_candidates d');
  gr_fragments : Appends (context_fragments d) (context_fragments d');
  gr_snapshots : Appends (context_snapshots d) (context_snapshots d');
  gr_previews : Evolves preview_lasts (context_previews d) (context_previews d') }.

#[export] Instance registry_grows_preorder : PreOrder registry_grows.
Proof.
  split; [by intros d; constructor|]. intros d1 d2 d3 H1 H2. destruct H1, H2.
  constructor; by etrans.
Qed.

#[export] Instance registry_statements_grows : RegistryStatements registry_grows.
Proof.
  constructor; [constructor; [constructor; [apply _|..]|..]|]; intros; intros ?s ?x ?s Hrun; statement_inv Hrun;
    try reflexivity; constructor; simpl; try reflexivity;
    first [ apply evolves_insert; apply _
          | apply evolves_update; [apply _|]; intros ? _ _;
            match goal with
            | Hk : environment_kept ?f |- _ _ (?f _) => apply Hk
            | Hl : ∀ r, _ r (?f r) |- _ _ (?f _) => apply Hl
            end ].
Qed.

#[export] Instance fork_receipts_grows : ForkReceipts registry_grows.
Proof.
  constructor; [constructor; [apply _|..]|..]; intros; intros ?s ?x ?s Hrun; statement_inv Hrun;
    constructor; simpl; reflexivity.
Qed.
#[export] Instance context_statements_grows : ContextStatements registry_grows.
Proof.
  constructor; [constructor; [constructor; [apply _|..]|..]|..]; intros; intros ?s ?x ?s Hrun;
    try (statement_inv Hrun; try reflexivity; constructor; simpl; try reflexivity;
         first [ apply evolves_insert; apply _ | apply evolves_update; [apply _|]; done ]).
  unfold open_conversation in Hrun. tx_inv_all.
  repeat match goal with H : ?m _ = Ok _ |- _ => statement_inv H end.
  constructor; simpl; reflexivity.
Qed.

Section mono.
Context (d d' : db) (Hgr : registry_grows d d').

Lemma project_exists_mono p : project_exists d p = true → project_exists d' p = true.
Proof using Hgr.
  eapply evolves_row_exists, gr_projects, Hgr. unfold project_lasts. intros r r' [= -> _ _]. done.
Qed.
Lemma environment_exists_mono e : environment_exists d e = true → environment_exists d' e = true.
Proof using Hgr.
  eapply evolves_row_exists, gr_environments, Hgr. unfold environment_lasts. intros r r' [[= -> _ _ _] _]. done.
Qed.
Lemma workspace_exists_mono w : workspace_exists d w = true → workspace_exists d' w = true.
Proof using Hgr.
  eapply evolves_row_exists, gr_workspaces, Hgr. unfold workspace_lasts. intros r r' [[= -> _ _ _] _]. done.
Qed.
Lemma registry_task_exists_mono t : task_exists d t = true → task_exists d' t = true.
Proof using Hgr.
  eapply evolves_row_exists, gr_tasks, Hgr. unfold task_evolves, task_identity.
  intros r r' [= ->]. done.
Qed.
Lemma version_exists_mono v : version_exists d v = true → version_exists d' v = true.
Proof using Hgr.
  eapply evolves_row_exists, gr_versions, Hgr. unfold version_lasts.
  intros r r' [[= -> _ _ _ _ _ _] _]. done.
Qed.
Lemma snapshot_exists_mono s : snapshot_exists d s = true → snapshot_exists d' s = true.
Proof using Hgr. eapply evolves_row_exists, gr_snapshots, Hgr. by intros r r' ->. Qed.
Lemma referred_mono {A} (e : db → A → bool) o :
  (∀ a, e d a = true → e d' a = true) → referred e d o = true → referred e d' o = true.
Proof using. intros He. destruct o; simpl; auto. Qed.
End mono.

(** The references of a row are met in a database that has grown. *)
Ltac ref_mono :=
  intros ?;
  unfold member_ref, workspace_ref, link_ref, relationship_ref, draft_ref, version_ref,
    provenance_ref, candidate_ref, fragment_ref, snapshot_ref, preview_ref, pin_ref;
  repeat first
    [ apply andb_mono
    | apply project_exists_mono; assumption | apply environment_exists_mono; assumption
    | apply workspace_exists_mono; assumption | apply registry_task_exists_mono; assumption
    | apply version_exists_mono; assumption | apply snapshot_exists_mono; assumption
    | apply referred_mono; intros ? ].

(** ** Statements keep integrity *)

Definition lawful : relation db :=
  λ d d', registry_grows d d' ∧ (registry_integrity d → registry_integrity d').

#[export] Instance lawful_preorder : PreOrder lawful.
Proof.
  split; [by intros d|]. intros d1 d2 d3 [He1 Hi1] [He2 Hi2]. split; [by etrans | auto].
Qed.

Lemma unique_delete {R K} (p q : R → bool) (key : R → K) t :
  Unique p key t → Unique p key (List.filter q t).
Proof.
  unfold Unique. intros Hu. eapply sublist_NoDup; [exact Hu|]. apply fmap_sublist.
  clear Hu. unfold select.
  induction t as [|r t IH]; simpl; [done|].
  destruct (q r), (p r) eqn:Hp; simpl; rewrite ?Hp; by try constructor.
Qed.

Lemma met_delete {R} (ref : db → R → bool) (table : db → list R) p d d' :
  (∀ r, ref d r = true → ref d' r = true) → table d' = List.filter p (table d) →
  met ref table d → met ref table d'.
Proof.
  unfold met. rewrite !Forall_forall. intros Hm -> Hd r [Hr _]%elem_of_select. auto.
Qed.

(** An update of one row that the index accepts against the rows with another
    primary key. *)
Lemma unique_update_others {R K} `{EqDecision K} (p q : R → bool) (pk : R → string) (key : R → K)
    f t :
  Unique always pk t → Unique p key t → updates_one pk q f →
  (∀ r, r ∈ t → q r = true → index_free p key (f r) (others pk (f r) t) = true) →
  Unique p key (on_rows q f t).
Proof.
  intros Hpk Hu [[k Hk] Hf] Hg. apply (unique_update_one p q pk key f t k); try done.
  intros r x Hr Hq Hx Hne Hpf Hpx Heq. specialize (Hg r Hr Hq). unfold index_free in Hg.
  rewrite Hpf in Hg. simpl in Hg. apply negb_true_iff, (row_exists_false _ _) with (r:=x) in Hg.
  - rewrite Hpx, bool_decide_eq_true_2 in Hg by done. done.
  - apply elem_of_select. split; [done|]. apply negb_true_iff, String.eqb_neq.
    rewrite Hf, (Hk r Hq). done.
Qed.

Lemma index_free_always {R K} `{EqDecision K} (key : R → K) r t x :
  index_free always key r t = true → x ∈ t → key x ≠ key r.
Proof.
  unfold index_free. simpl. intros Hf%negb_true_iff Hx.
  eapply row_exists_false in Hf; [|exact Hx]. by apply bool_decide_eq_false in Hf.
Qed.

Lemma index_free_new {R K} `{EqDecision K} (key : R → K) (same : R → R → bool) r t :
  (∀ x, key x = key r → same r x = true) →
  row_exists (same r) t = false → index_free always key r t = true.
Proof.
  intros Hs Hn. unfold index_free; simpl. apply negb_true_iff, row_exists_false. intros x Hx.
  simpl. apply bool_decide_eq_false. intros Hk.
  eapply row_exists_false in Hn; [|exact Hx]. by rewrite Hs in Hn.
Qed.

(** The frame of a statement, with the growth it makes. *)
Ltac lawful_statement :=
  let Hrun := fresh "Hrun" in let Hgr := fresh "Hgr" in
  intros ?s ?x ?s Hrun;
  match type of Hrun with ?m _ = _ =>
    let Hm := fresh in assert (Respects registry_grows m) as Hm by
      first [ apply _ | by apply rs_update_projects | by apply rs_update_environments
            | by apply rs_update_workspaces | by apply rs_update_links
            | by apply xs_insert_candidate | by apply xs_insert_preview ];
    pose proof (Hm _ _ _ Hrun) as Hgr; clear Hm
  end;
  split; [exact Hgr|]; statement_inv Hrun;
  repeat match goal with H : _ _ _ = None |- _ => guard_facts H; split_bools end;
  let Hok := fresh in intros Hok; destruct Hok; constructor; simpl in *; try assumption;
  first [ eapply met_same; [..|eassumption]; [ref_mono | reflexivity]
        | eapply met_insert; [..|eassumption]; [ref_mono | reflexivity |]
        | eapply met_delete; [..|eassumption]; [ref_mono | reflexivity]
        | idtac ].

(** The indexes of the written table. *)
Ltac indexes_by_insert :=
  first [ by apply unique_insert
        | match goal with H : _ ?t |- _ (?t ++ [_]) => destruct H end;
          constructor; first [by apply unique_insert | by apply forall_insert] ].

#[export] Instance insert_project_lawful a b c d e f g h :
  Respects lawful (insert_project a b c d e f g h).
Proof. lawful_statement. indexes_by_insert. Qed.

Lemma update_projects_lawful p f :
  updates_one pj_project_id p f → (∀ r, project_lasts r (f r)) →
  Respects lawful (update_rows projects with_projects p project_update_guard f).
Proof.
  intros Hone Hlast. lawful_statement. destruct ok_projects0. constructor.
  - apply unique_update; [done|]. intros. split; [done | apply Hone].
  - eapply unique_update_others; [..|exact Hone|]; [done..|]. intros r Hr Hp.
    by match goal with H : ∀ r, _ → _ → project_update_guard _ _ _ = None |- _ =>
      specialize (H r Hr Hp); guard_facts H end.
Qed.

#[export] Instance upsert_project_member_lawful a b c d e :
  Respects lawful (upsert_project_member a b c d e).
Proof.
  lawful_statement.
  - apply unique_update; [done|]. by intros.
  - eapply met_update; [..|eassumption]; [ref_mono | reflexivity |]. intros y _ _; revert y. by ref_mono.
  - by apply unique_insert.
  - done.
Qed.

#[export] Instance remove_project_member_lawful a b : Respects lawful (remove_project_member a b).
Proof. lawful_statement. by apply unique_delete. Qed.

#[export] Instance insert_task_relationship_lawful a b c d e f :
  Respects lawful (insert_task_relationship a b c d e f).
Proof.
  lawful_statement.
  - destruct ok_relationships0. constructor; [|by apply unique_insert].
    apply unique_insert; [done|]. eapply index_free_new; [|eassumption]. intros r Hr.
    by apply bool_decide_eq_true_2.
  - by apply andb_true_iff.
Qed.

#[export] Instance repo_delete_task_relationship_lawful a :
  Respects lawful (repo_delete_task_relationship a).
Proof.
  lawful_statement. destruct ok_relationships0. by constructor; apply unique_delete.
Qed.

#[export] Instance insert_environment_lawful a b c d e f g h i j :
  Respects lawful (insert_environment a b c d e f g h i j).
Proof. lawful_statement. indexes_by_insert. Qed.

Lemma update_environments_lawful p f :
  updates_one en_environment_id p f → (∀ r, environment_lasts r (f r)) →
  Respects lawful (update_rows environments with_environments p environment_update_guard f).
Proof.
  intros Hone Hlast. lawful_statement. destruct ok_environments0. constructor.
  - apply unique_update; [done|]. intros. split; [done | apply Hone].
  - eapply unique_update_others; [..|exact Hone|]; [done..|]. intros r Hr Hp.
    by match goal with H : ∀ r, _ → _ → environment_update_guard _ _ _ = None |- _ =>
      specialize (H r Hr Hp); guard_facts H end.
Qed.

#[export] Instance insert_workspace_lawful a b c d e f g h i j k :
  Respects lawful (insert_workspace a b c d e f g h i j k).
Proof. lawful_statement; [indexes_by_insert | done]. Qed.

Lemma update_workspaces_lawful p f :
  updates_one ws_workspace_id p f → (∀ r, workspace_lasts r (f r)) →
  Respects lawful (update_rows workspaces with_workspaces p workspace_update_guard f).
Proof.
  intros Hone Hlast. lawful_statement.
  - destruct ok_workspaces0. constructor.
    + apply unique_update; [done|]. intros. split; [done | apply Hone].
    + eapply unique_update_others; [..|exact Hone|]; [done..|]. intros r Hr Hp.
      by match goal with H : ∀ r, _ → _ → workspace_update_guard _ _ _ = None |- _ =>
        specialize (H r Hr Hp); guard_facts H end.
  - eapply met_update; [..|eassumption]; [ref_mono | reflexivity |]. intros r _ _.
    destruct (Hlast r) as [[= _ _ He _] _]. unfold workspace_ref. rewrite He. done.
Qed.

(** Demoted links leave the index of Primary links. *)
Lemma update_links_lawful p f :
  demotes f → Respects lawful (update_rows workspace_links with_links p link_update_guard f).
Proof.
  intros Hdem. lawful_statement.
  - destruct ok_links0. constructor.
    + apply unique_update; [done|]. intros. split; [done | apply Hdem].
    + apply unique_update; [done|]. intros r _ _. destruct (Hdem r) as (_ & Hf & _).
      unfold primary_active. by rewrite Hf.
    + apply forall_update; [done|]. intros r _ _ _. destruct (Hdem r) as (_ & Hf & _).
      by rewrite Hf.
  - eapply met_update; [..|eassumption]; [ref_mono | reflexivity |]. intros r _ _.
    destruct (Hdem r) as ([= Hp Hw] & _). unfold link_ref. rewrite Hp, Hw. done.
Qed.

#[export] Instance upsert_link_lawful a b c d e :
  Respects lawful (upsert_project_workspace_link a b c d e).
Proof.
  lawful_statement.
  - destruct ok_links0. constructor.
    + apply unique_update; [done|]. by intros.
    + apply (unique_update_one _ _ link_key _ _ _ (a, b)); [done.. | |].
      { intros r ?. unfold same_link, link_key in *; simpl in *. split_bools. congruence. }
      intros r y Hr Hp Hx Hne Hi Hix Hk.
      match goal with H : ∀ r, _ → _ → link_update_guard _ _ _ = None |- _ =>
        specialize (H r Hr Hp); guard_facts H end.
      match goal with H : index_free _ _ _ _ = true |- _ => revert H end.
      unfold index_free. rewrite Hi. simpl. rewrite negb_true_iff, row_exists_false.
      intros Hfree. specialize (Hfree y). rewrite Hix, bool_decide_eq_true_2 in Hfree by done.
      enough (true && true = false) by done. apply Hfree, elem_of_select. split; [done|].
      apply negb_true_iff, not_true_iff_false. intros Hs. apply Hne.
      unfold same_link, link_key in *; simpl in *. split_bools. congruence.
    + apply forall_update; [done|]. intros r Hr Hp _.
      by match goal with H : ∀ r, _ → _ → link_update_guard _ _ _ = None |- _ =>
        specialize (H r Hr Hp); guard_facts H end.
  - eapply met_update; [..|eassumption]; [ref_mono | reflexivity |]. intros y _ _; revert y. by ref_mono.
  - indexes_by_insert.
  - by apply andb_true_iff.
Qed.

#[export] Instance insert_context_draft_lawful a b c d :
  Respects lawful (insert_context_draft a b c d).
Proof. lawful_statement; [indexes_by_insert | done]. Qed.
#[export] Instance insert_context_version_lawful a b c d e f g h :
  Respects lawful (insert_context_version a b c d e f g h).
Proof. lawful_statement; [indexes_by_insert | done]. Qed.
#[export] Instance insert_context_provenance_lawful a b c d :
  Respects lawful (insert_context_provenance a b c d).
Proof. lawful_statement; [indexes_by_insert | done]. Qed.

#[export] Instance registry_statements_lawful : RegistryStatements lawful.
Proof.
  constructor; [constructor; [constructor|..]|]; intros; try apply _;
    first [ by apply update_projects_lawful | by apply update_environments_lawful
          | by apply update_workspaces_lawful | by apply update_links_lawful
          | apply update_environments_lawful; [done|]; intros ?;
            by match goal with Hk : environment_kept _ |- _ => apply Hk end
          | lawful_statement ].
Qed.

(** ** Statements of the Context keep integrity *)

#[export] Instance upsert_context_draft_lawful a b c d :
  Respects lawful (upsert_context_draft a b c d).
Proof.
  lawful_statement.
  - apply unique_update; [done|]. by intros.
  - eapply met_update; [..|eassumption]; [ref_mono | reflexivity |]. intros y _ _; revert y. by ref_mono.
  - by apply unique_insert.
  - done.
Qed.
Lemma insert_candidate_lawful c :
  cd_status c = Candidate_PROPOSED → Respects lawful (insert_candidate c).
Proof. intros Hc. lawful_statement; [indexes_by_insert|]. apply andb_true_iff. by destruct (cd_source_task_id c). Qed.
#[export] Instance insert_fragment_lawful f : Respects lawful (insert_fragment f).
Proof. lawful_statement; [indexes_by_insert | done]. Qed.
#[export] Instance insert_snapshot_row_lawful s : Respects lawful (insert_snapshot_row s).
Proof. lawful_statement; [indexes_by_insert | done]. Qed.
Lemma insert_preview_lawful p :
  pw_confirmed_snapshot_id p = None → Respects lawful (insert_preview p).
Proof.
  intros Hp. lawful_statement; [indexes_by_insert|]. unfold preview_ref. rewrite Hp.
  by repeat (apply andb_true_iff; split).
Qed.

(** An update that keeps the references of a row. *)
Ltac met_kept := eapply met_update; [..|eassumption]; [ref_mono | reflexivity |].

#[export] Instance deactivate_lawful p : Respects lawful (deactivate_context_versions p).
Proof.
  lawful_statement.
  - destruct ok_versions0. constructor; (apply unique_update; [done|]; by intros).
  - met_kept. intros y _ _. revert y. by ref_mono.
Qed.
#[export] Instance accept_lawful a b c :
  Respects lawful (update_candidate a (set_candidate_accepted b c)).
Proof.
  lawful_statement.
  - apply unique_update; [done|]. by intros.
  - met_kept. intros y _ _. revert y. by ref_mono.
Qed.
#[export] Instance reject_lawful a b c d :
  Respects lawful (update_candidate a (set_candidate_rejected b c d)).
Proof.
  lawful_statement.
  - apply unique_update; [done|]. by intros.
  - met_kept. intros y _ _. revert y. by ref_mono.
Qed.
#[export] Instance confirm_preview_lawful a b c : Respects lawful (confirm_preview a b c).
Proof.
  lawful_statement.
  - apply unique_update; [done|]. by intros.
  - met_kept. intros y Hy Hq Hp.
    match goal with H : ∀ r, _ → _ → preview_update_guard _ _ _ = None |- _ =>
      specialize (H y Hy Hq); guard_facts H end.
    split_bools. unfold preview_ref in *; simpl in *. split_bools.
    by repeat (apply andb_true_iff; split).
Qed.

(** The Task that a statement pins. *)
Ltac pinned_task :=
  match goal with H : ∀ r, _ → _ → task_pin_guard _ _ _ = None |- met pin_ref _ _ =>
    met_kept; intros ? Hy Hq _; specialize (H _ Hy Hq); guard_facts H; by split_bools end.

#[export] Instance pin_task_lawful a b c d : Respects lawful (pin_task a b c d).
Proof. lawful_statement; [apply unique_update; [done|]; by intros | pinned_task]. Qed.
#[export] Instance rehome_task_lawful a b c d e : Respects lawful (rehome_task a b c d e).
Proof. lawful_statement; [apply unique_update; [done|]; by intros | pinned_task]. Qed.
#[export] Instance repin_lawful a b c : Respects lawful (repin_submissions a b c).
Proof. lawful_statement. Qed.
#[export] Instance insert_task_lawful t : Respects lawful (insert_task t).
Proof. lawful_statement; [indexes_by_insert | done]. Qed.

(** The receipts of forks are not of the registry, the relationship of a fork is. *)
#[export] Instance insert_fork_preview_lawful p : Respects lawful (insert_fork_preview p).
Proof. lawful_statement. Qed.
#[export] Instance insert_fork_transfer_lawful a b c d e f g h i j k l m :
  Respects lawful (insert_fork_transfer a b c d e f g h i j k l m).
Proof. lawful_statement. Qed.
#[export] Instance finish_fork_transfer_lawful a b c d e f g :
  Respects lawful (finish_fork_transfer a b c d e f g).
Proof. lawful_statement. Qed.
#[export] Instance insert_derived_relationship_lawful a b c d e :
  Respects lawful (insert_derived_relationship a b c d e).
Proof. lawful_statement; [indexes_by_insert | by apply andb_true_iff]. Qed.

(** A conversation that is opened leaves the registry alone. *)
#[export] Instance open_conversation_lawful a b c d e f g h i :
  Respects lawful (open_conversation a b c d e f g h i).
Proof.
  intros s x s' Hrun. unfold open_conversation in Hrun. tx_inv_all.
  repeat match goal with H : ?m _ = Ok _ |- _ => statement_inv H end.
  split; [constructor; simpl; reflexivity|]. intros []. by constructor.
Qed.

#[export] Instance context_statements_lawful : ContextStatements lawful.
Proof.
  constructor; [constructor; [constructor; [apply _|..]|..]|..]; intros;
    first [ apply _ | by apply insert_candidate_lawful | by apply insert_preview_lawful ].
Qed.
#[export] Instance fork_receipts_lawful : ForkReceipts lawful.
Proof. constructor; apply _. Qed.

(** ** Whole runs *)

Lemma same_frame {A} (key : task_row → A) (t t' : list task_row) :
  (∀ x y, task_frame x = task_frame y → key x = key y) →
  task_frame <$> t' = task_frame <$> t → key <$> t' = key <$> t.
Proof.
  intros Hk. revert t'. induction t as [|x t IH]; intros [|y t'] Hf; try done.
  csimpl. f_equal; [apply Hk | apply IH]; csimpl in Hf; congruence.
Qed.

Ltac rewrite_all_same :=
  repeat match goal with H : ?x = ?y |- context [?x] => rewrite H end.

Lemma conversation_lawful d d' : registry_same d d' → db_evolves d d' → lawful d d'.
Proof.
  intros Hsame Hev. assert (registry_grows d d') as Hgr.
  { destruct Hsame. constructor; try (rewrite_all_same; reflexivity). apply (ev_tasks _ _ Hev). }
  split; [done|]. intros Hok. pose proof (same_tasks _ _ Hsame) as Hframe. destruct Hsame, Hok. constructor;
    try match goal with H : ?x = ?y |- context [?x] => rewrite H; assumption end;
    try (eapply met_same; [..|eassumption]; [ref_mono | assumption]).
  - unfold Unique in *. rewrite select_always in *. erewrite same_frame; [eassumption | | exact Hframe].
    unfold task_frame, task_identity. intros; congruence.
  - unfold met in *.
    assert (Forall (λ s, referred snapshot_exists d s = true)
      (tk_project_context_snapshot_id <$> tasks d')) as Hs.
    { erewrite same_frame; [by apply Forall_fmap | | exact Hframe].
      unfold task_frame. intros; congruence. }
    apply Forall_fmap in Hs. eapply Forall_impl; [exact Hs|]. intros t. apply referred_mono.
    intros ?. by apply snapshot_exists_mono.
Qed.

Lemma domain_steps_lawful `{Host, Kernel} d d' : rtc domain_step d d' → lawful d d'.
Proof. apply domain_steps_spec; [apply _..|]. apply conversation_lawful. Qed.
