(* ===== verification/RegistrySound.v ===== *)
(** * What the registry keeps true beyond its constraints

    Rules that no constraint of the database states and that the methods keep by
    their own checks: the owner of a Project is not among its members, a linked
    Workspace is registered, a default Project is never archived, a Project has
    an active Context, and only an editor may publish. *)

From stdpp Require Import base tactics list strings relations.
From Stdlib Require Import ZArith Lia.
From S2P Require Import Prelude PyText PyJson Tables Contracts RegistryRows Schema Repository.
From S2P Require Import Projection RegistryRepository Service EnvironmentIdentity Authorization.
From S2P Require Import Registry RegistryWorkspaces Acceptance Execution Evolution Methods.
From S2P Require Import Integrity System Assembler ContextRepository Context ContextCandidates.
From S2P Require Import ContextSnapshots TaskLifecycle ForkRepository Fork RegistryMethods ContextMethods.
From S2P Require Import RegistryFrame RegistryIntegrity.

#[local] Hint Constants Opaque : typeclass_instances.
#[local] Hint Transparent dict time relation : typeclass_instances.

(** ** The rules *)

Definition registered (d : db) (workspace_id : string) : Prop :=
  ∃ w, w ∈ workspaces d ∧ ws_workspace_id w = workspace_id ∧ workspace_active w = true.

Definition has_context (d : db) (project_id : string) : Prop :=
  ∃ v, v ∈ context_versions d ∧ cv_project_id v = project_id ∧ cv_is_active v = true.

Record registry_sound (d : db) : Prop := mkSound {
  sound_owner p m : p ∈ projects d → m ∈ project_members d →
    mb_project_id m = pj_project_id p → mb_user_id m ≠ pj_owner_user_id p;
  sound_publisher m : m ∈ project_members d → mb_can_publish m = true → mb_role m = Role_EDITOR;
  sound_default p : p ∈ projects d → pj_is_default p = true → project_active p = true;
  sound_context p : p ∈ projects d → has_context d (pj_project_id p);
  sound_link l : l ∈ workspace_links d → link_active l = true → registered d (ln_workspace_id l) }.

(** ** Reading a method up to its first statement *)

(** Walks over the guards and reads of the run [H]; a run that returns the stored
    response is closed by the caller. *)
Ltac reading_step H :=
  lazymatch type of H with
  | (_ ≫= _) _ = Ok _ =>
      let x := fresh "x" in let s := fresh "s" in let Hm := fresh "Hm" in
      apply bind_Ok in H; destruct H as (x & s & Hm & H);
      first
        [ apply gets_Ok in Hm; destruct Hm as [? ->]
        | apply require_Ok in Hm; destruct Hm as [? ->]
        | apply require_some_Ok in Hm; destruct Hm as [? ->]
        | let Hr := fresh in pose proof Hm as Hr; reads_only Hr; clear Hr ];
      try match type of x with unit => destruct x end
  | (match ?c with _ => _ end) _ = Ok _ => destruct c eqn:?
  end.
Ltac reading H := cbv zeta in H; repeat (reading_step H; cbv beta zeta in H); simplify_eq.

(** ** Statements *)

Definition sounds : relation db :=
  λ d d', lawful d d' ∧ (registry_integrity d → registry_sound d → registry_sound d').

#[export] Instance sounds_preorder : PreOrder sounds.
Proof.
  split; [by intros d|]. intros d1 d2 d3 [[He1 Hk1] H1] [[He2 Hk2] H2].
  split; [split; [by etrans | auto] | auto].
Qed.

Lemma sounds_run {A} (m : txn A) d a d' :
  m d = Ok (a, d') → Respects lawful m →
  (registry_integrity d → registry_sound d → registry_sound d') → sounds d d'.
Proof. intros Hrun Hm HI. split; [by eapply Hm | done]. Qed.

(** The rules that a statement does not touch. *)
Ltac sound_statement :=
  let s := fresh "s" in let s' := fresh "s'" in let a := fresh "a" in
  let Hrun := fresh "Hrun" in let Hok := fresh "Hok" in let Hs := fresh "Hs" in
  intros s a s' Hrun;
  eapply sounds_run; [exact Hrun|..];
  [ first [ apply _ | by apply rs_update_links
          | apply rs_update_projects; [done|]; intros ?;
            by match goal with Hk : project_kept _ |- _ => apply Hk end
          | by apply rs_update_environments
          | by apply xs_insert_candidate | by apply xs_insert_preview ] |];
  statement_inv Hrun; intros Hok Hs; try exact Hs;
  destruct Hs; constructor; unfold registered, has_context in *; simpl in *; try assumption.

Lemma project_kept_row p f x y :
  project_kept f → x = (if (p y : bool) then f y else y) →
  project_lasts y x ∧ pj_owner_user_id x = pj_owner_user_id y ∧
  (project_active y = true → project_active x = true).
Proof. intros Hk ->. destruct (p y); [apply Hk | done]. Qed.

Lemma update_projects_sounds p f :
  updates_one pj_project_id p f → project_kept f →
  Respects sounds (update_rows projects with_projects p project_update_guard f).
Proof.
  intros Hone Hk. sound_statement.
  1: intros x m. 2, 3: intros x.
  all: intros (y & Hy & Hx)%elem_of_on_rows; destruct (project_kept_row _ _ _ _ Hk Hx)
    as ([= Hid Hdef _] & Hown & Hact); rewrite ?Hid, ?Hown, ?Hdef; eauto.
Qed.

Lemma update_workspaces_sounds p f :
  updates_one ws_workspace_id p f → workspace_kept f →
  Respects sounds (update_rows workspaces with_workspaces p workspace_update_guard f).
Proof.
  intros Hone Hk d n d' Hrun. eapply sounds_run; [exact Hrun|..].
  { apply rs_update_workspaces; [done|]. intros w. apply Hk. }
  statement_inv Hrun. intros _ [? ? ? ? Hlink]. constructor; simpl; try done.
  intros l Hl Ha. destruct (Hlink l Hl Ha) as (w & Hw & Hid & Hact).
  exists (if p w then f w else w). split; [apply elem_of_on_rows; eauto|].
  destruct (p w); [|done]. destruct (Hk w) as [[[= H1 _ _ _] _] H4]. unfold workspace_active in *.
  by rewrite H1, H4.
Qed.

Lemma update_links_sounds p f :
  demotes f → Respects sounds (update_rows workspace_links with_links p link_update_guard f).
Proof.
  intros Hdem. sound_statement. intros l (y & Hy & ->)%elem_of_on_rows.
  destruct (p y); [|auto]. destruct (Hdem y) as ([= _ ->] & _ & Ha). auto.
Qed.

Lemma update_environments_sounds p f :
  updates_one en_environment_id p f → (∀ r, environment_lasts r (f r)) →
  Respects sounds (update_rows environments with_environments p environment_update_guard f).
Proof. intros Hone Hlast. sound_statement. Qed.

#[export] Instance registry_safe_sounds : RegistrySafe sounds.
Proof.
  constructor; [apply _|..]; intros;
    first [ by apply update_projects_sounds | by apply update_workspaces_sounds
          | by apply update_links_sounds
          | apply update_environments_sounds; [done|]; intros ?;
            by match goal with Hk : environment_kept _ |- _ => apply Hk end
          | sound_statement ].
  - intros p m Hp [Hm _]%elem_of_select. auto.
  - intros m [Hm _]%elem_of_select. auto.
  - intros l Hl Ha. destruct (sound_link0 l Hl Ha) as (w & Hw & ?).
    exists w. split; [|done]. apply elem_of_app. by left.
Qed.

(** ** Statements that the methods guard *)

Lemma upsert_link_sounds a b c e t d u d' :
  registered d b → upsert_project_workspace_link a b c e t d = Ok (u, d') → sounds d d'.
Proof.
  intros Hreg Hrun. eapply sounds_run; [exact Hrun | apply _ |].
  statement_inv Hrun; intros _ [? ? ? ? Hlink]; constructor; simpl; try done.
  - intros l (y & Hy & ->)%elem_of_on_rows. destruct (same_link _ _) eqn:Hsame;
      [|exact (Hlink y Hy)].
    intros _. unfold same_link in Hsame; simpl in *. split_bools. by subst.
  - intros l [Hl| ->%list_elem_of_singleton]%elem_of_app; [exact (Hlink l Hl) | done].
Qed.

(** A member that does not own the Project. *)
Lemma upsert_member_sounds a b role pub t d u d' :
  (registry_integrity d →
   ∀ p, p ∈ projects d → pj_project_id p = a → pj_owner_user_id p ≠ b) →
  (pub = true → role = Role_EDITOR) →
  upsert_project_member a b role pub t d = Ok (u, d') → sounds d d'.
Proof.
  intros Hown Hpub Hrun. eapply sounds_run; [exact Hrun | apply _ |].
  statement_inv Hrun; intros Hok [Ho Hp ? ? ?]; specialize (Hown Hok);
    constructor; simpl; try done.
  - intros p m Hin (y & Hy & ->)%elem_of_on_rows. destruct (same_member _ _) eqn:Hsame; [|eauto].
    unfold same_member in Hsame; simpl in *. split_bools. subst.
    intros Hid Heq. by apply (Hown p).
  - intros m (y & Hy & ->)%elem_of_on_rows. destruct (same_member _ _); simpl; auto.
  - intros p m Hin [Hm| ->%list_elem_of_singleton]%elem_of_app; [eauto|]; simpl in *.
    intros Hid Heq. by apply (Hown p).
  - intros m [Hm| ->%list_elem_of_singleton]%elem_of_app; simpl; auto.
Qed.

Lemma project_by_id_elem a d p :
  project_by_id a d = Some p → p ∈ projects d ∧ pj_project_id p = a.
Proof. intros [? ?]%select_one_Some. by split_bools. Qed.

(** The only row with that key. *)
Lemma project_by_id_unique a d p x :
  registry_integrity d → project_by_id a d = Some p → x ∈ projects d → pj_project_id x = a → x = p.
Proof.
  intros Hok [Hp Ha]%project_by_id_elem Hx Hxa.
  eapply (unique_eq always pj_project_id); [apply (projects_pk _ (ok_projects _ Hok))|..];
    done || congruence.
Qed.

Lemma catch_integrity_Ok {A} (m h : txn A) d r d' :
  catch_integrity m h d = Ok (r, d') →
  m d = Ok (r, d') ∨ ∃ c, m d = Err (IntegrityError c) ∧ h d = Ok (r, d').
Proof. unfold catch_integrity. destruct (m d) as [[]|[]]; naive_solver. Qed.

(** What is left of a method after the statements that its checks guard. *)
Ltac rest H := revert H; apply respects_apply; solve_respects.
Ltac replayed H := apply ret_Ok in H; destruct H as [_ ->]; reflexivity.

Section blocks.
Context `{Host, Kernel}.

#[local] Instance initialize_project_context_lawful a b c e :
  Respects lawful (initialize_project_context a b c e).
Proof. method. Qed.

(** A new Project has no members, and its first Context is active. *)
Lemma new_project_sounds a b name de df t u d x d1 y d2 :
  insert_project a b name de Project_ACTIVE df t t d = Ok (x, d1) →
  initialize_project_context a b t u d1 = Ok (y, d2) → sounds d d2.
Proof.
  intros Hins Hini. split.
  { etrans; [exact (respects (R:=lawful) _ _ _ Hins) | exact (respects (R:=lawful) _ _ _ Hini)]. }
  statement_inv Hins. unfold initialize_project_context in Hini. tx_inv_all.
  repeat match goal with H : ?m _ = Ok _ |- _ => statement_inv H end.
  intros Hok [Ho Hp Hdf Hcx Hl]. constructor; simpl; try done.
  - intros p m [Hin| ->%list_elem_of_singleton]%elem_of_app Hm; [by eauto|]. simpl. intros Hid _.
    pose proof (met_members _ Hok) as Hmet. unfold met in Hmet. rewrite Forall_forall in Hmet.
    specialize (Hmet m Hm). unfold member_ref, project_exists in Hmet.
    apply row_exists_true in Hmet as (z & Hz & Hzid). split_bools.
    match goal with G : project_insert_guard _ _ = None |- _ => guard_facts G end.
    match goal with G : index_free always _ _ _ = true |- _ =>
      unfold index_free in G; simpl in G; apply negb_true_iff, (row_exists_false _ _) with (r:=z) in G end;
      [|done]. split_bools. simpl in *. congruence.
  - intros p [Hin| ->%list_elem_of_singleton]%elem_of_app; [by eauto|]. done.
  - intros p [Hin| ->%list_elem_of_singleton]%elem_of_app; unfold has_context; simpl.
    + destruct (Hcx p Hin) as (v & Hv & ?). exists v. split; [|done]. apply elem_of_app. by left.
    + eexists. split; [apply elem_of_app; right; constructor | done].
Qed.

#[export] Instance create_project_sounds a b c d e f g h i j k :
  Respects sounds (create_project a b c d e f g h i j k).
Proof.
  intros s r s' Hrun. unfold create_project in Hrun. reading Hrun; [replayed Hrun|].
  apply bind_Ok in Hrun as (? & s1 & Hins & Hrun). apply bind_Ok in Hrun as (? & s2 & Hini & Hrun).
  etrans; [exact (new_project_sounds _ _ _ _ _ _ _ _ _ _ _ _ Hins Hini) | rest Hrun].
Qed.

#[export] Instance provision_sounds a b c d e f g :
  Respects sounds (provision_default_project a b c d e f g).
Proof.
  intros s r s' Hrun. unfold provision_default_project in Hrun.
  reading Hrun; [replayed Hrun|].
  apply bind_Ok in Hrun as (winner & s1 & Hins & Hrun). apply catch_integrity_Ok in Hins as [Hfresh|(? & _ & Hins)].
  - apply bind_Ok in Hfresh as (? & s2 & Hfresh & [-> ->]%ret_Ok).
    apply bind_Ok in Hrun as (? & s3 & Hini & Hrun).
    etrans; [exact (new_project_sounds _ _ _ _ _ _ _ _ _ _ _ _ Hfresh Hini) | rest Hrun].
  - reading Hins. apply ret_Ok in Hins as [-> ->]. replayed Hrun.
Qed.

#[export] Instance archive_project_sounds a b c d e f g h :
  Respects sounds (archive_project a b c d e f g h).
Proof.
  intros s r s' Hrun. unfold archive_project in Hrun. reading Hrun; [replayed Hrun|].
  apply bind_Ok in Hrun as (? & s1 & Hup & Hrun). transitivity s1; [|rest Hrun].
  eapply sounds_run; [exact Hup | apply rs_update_projects; [one_row | intros ?; done] |].
  unfold repo_update_project in Hup. statement_inv Hup. intros Hok [Ho Hp Hd Hcx Hl].
  constructor; simpl; try done.
  - intros p m (y & Hy & ->)%elem_of_on_rows. destruct (eqs _ _); simpl; eauto.
  - intros p (y & Hy & ->)%elem_of_on_rows. destruct (eqs _ _) eqn:Hy'; simpl; [|eauto].
    split_bools. match goal with Hq : project_by_id _ _ = Some ?q |- _ =>
      assert (y = q) as -> by (by eapply project_by_id_unique) end. congruence.
  - intros p (y & Hy & ->)%elem_of_on_rows. destruct (eqs _ _); simpl; apply (Hcx y Hy).
Qed.

#[export] Instance add_member_sounds a b c d e f g h i j k :
  Respects sounds (add_member a b c d e f g h i j k).
Proof.
  intros s r s' Hrun. unfold add_member in Hrun. reading Hrun; [replayed Hrun|].
  apply bind_Ok in Hrun as (? & s1 & Hup & Hrun). transitivity s1; [|rest Hrun].
  split_bools. eapply upsert_member_sounds; [..|exact Hup].
  - intros Hok p Hp Hid. by match goal with Hq : project_by_id _ _ = Some ?q |- _ =>
      assert (p = q) as -> by (by eapply project_by_id_unique) end.
  - intros ->. by match goal with Hb : true && _ = false |- _ =>
      apply negb_false_iff, bool_decide_eq_true in Hb end.
Qed.

(** The new owner leaves the members, the old one joins them as an editor. *)
Lemma transfer_sounds a old new t d n1 d1 u d2 n2 d3 :
  repo_update_project a (set_project_owner new t) d = Ok (n1, d1) →
  upsert_project_member a old Role_EDITOR true t d1 = Ok (u, d2) →
  remove_project_member a new d2 = Ok (n2, d3) → sounds d d3.
Proof.
  intros Hup Hins Hrm. split.
  { transitivity d1; [|transitivity d2; [exact (respects (R:=lawful) _ _ _ Hins)
                                        | exact (respects (R:=lawful) _ _ _ Hrm)]].
    revert Hup. by apply respects_apply, rs_update_projects; [one_row | intros ?]. }
  assert (∀ m, m ∈ project_members d2 →
    mb_project_id m = a ∨ m ∈ project_members d) as Hkept.
  { unfold repo_update_project in Hup. statement_inv Hup. statement_inv Hins; simpl; intros m.
    - intros (y & Hy & ->)%elem_of_on_rows. destruct (same_member _ _) eqn:Hs; [|by right].
      left. unfold same_member in Hs; simpl in *. by split_bools.
    - intros [Hm| ->%list_elem_of_singleton]%elem_of_app; [by right | by left]. }
  assert (∀ m, m ∈ project_members d2 → mb_can_publish m = true →
    mb_role m = Role_EDITOR ∨ m ∈ project_members d) as Hedit.
  { unfold repo_update_project in Hup. statement_inv Hup. statement_inv Hins; simpl; intros m.
    - intros (y & Hy & ->)%elem_of_on_rows. destruct (same_member _ _) eqn:Hs; [by left | by right].
    - intros [Hm| ->%list_elem_of_singleton]%elem_of_app; [by right | by left]. }
  assert (projects d3 = on_rows (λ p, eqs (pj_project_id p) a) (set_project_owner new t) (projects d)
    ∧ context_versions d3 = context_versions d ∧ workspace_links d3 = workspace_links d
    ∧ workspaces d3 = workspaces d
    ∧ project_members d3 = List.filter
        (λ m, negb (eqs (mb_project_id m) a && eqs (mb_user_id m) new)) (project_members d2))
    as (Epr & Ecv & Eln & Ews & Emb).
  { unfold repo_update_project in Hup. statement_inv Hup. statement_inv Hrm.
    by statement_inv Hins. }
  intros _ [Ho Hp Hd Hcx Hl]. constructor; unfold registered, has_context in *;
    rewrite ?Epr, ?Ecv, ?Eln, ?Ews, ?Emb; try done.
  - intros p m (y & Hy & ->)%elem_of_on_rows [Hm Hf]%elem_of_select Hid.
    apply negb_true_iff in Hf. destruct (eqs (pj_project_id y) a) eqn:Ha; simpl in *; split_bools.
    + rewrite Hid, Ha, eqs_refl in Hf. simpl in Hf. by split_bools.
    + destruct (Hkept m Hm) as [|Hm']; [congruence | by eapply Ho].
  - intros m [Hm _]%elem_of_select Hpub. destruct (Hedit m Hm Hpub); auto.
  - intros p (y & Hy & ->)%elem_of_on_rows. destruct (eqs _ _); simpl; apply (Hd y Hy).
  - intros p (y & Hy & ->)%elem_of_on_rows. destruct (eqs _ _); simpl; apply (Hcx y Hy).
Qed.

#[export] Instance transfer_project_owner_sounds a b c d e f g h i :
  Respects sounds (transfer_project_owner a b c d e f g h i).
Proof.
  intros s r s' Hrun. unfold transfer_project_owner in Hrun.
  reading Hrun; [replayed Hrun | rest Hrun |].
  apply bind_Ok in Hrun as (? & s1 & Hup & Hrun).
  apply bind_Ok in Hrun as (? & ? & [_ ->]%require_Ok & Hrun).
  apply bind_Ok in Hrun as (? & s2 & Hin & Hrun). apply bind_Ok in Hrun as (? & s3 & Hrm & Hrun).
  transitivity s3; [exact (transfer_sounds _ _ _ _ _ _ _ _ _ _ _ Hup Hin Hrm) | rest Hrun].
Qed.

#[local] Instance set_environment_sounds a b c d e f g h :
  Respects sounds (repo_update_environment a (set_environment b c d e f g h)).
Proof. apply update_environments_sounds; [one_row | intros ?; done]. Qed.
#[export] Instance update_environment_sounds a b c d e f g h i j k l m :
  Respects sounds (update_environment a b c d e f g h i j k l m).
Proof. method. Qed.

(** The Workspace that a caller may link is registered. *)
Lemma linkable_registered auth p w u d e d' :
  linkable auth p w u d = Ok (e, d') → d' = d ∧ registered d w.
Proof.
  intros Hrun. pose proof Hrun as Hr. reads_only Hr. split; [done|].
  unfold linkable in Hrun. reading Hrun.
  match goal with Hq : linked_workspace_state _ _ = Some ?q |- _ =>
    unfold linked_workspace_state in Hq; destruct (workspace_by_id w d) as [x|] eqn:Hw; [|done];
    simpl in Hq; destruct (environment_by_id (ws_environment_id x) d); [|done]; simplify_eq/= end.
  apply select_one_Some in Hw as [Hx Hid]. split_bools. by exists x.
Qed.

#[export] Instance create_workspace_and_attach_sounds a b c d e f g h i j k l m n o p :
  Respects sounds (create_workspace_and_attach a b c d e f g h i j k l m n o p).
Proof.
  intros s r s' Hrun. unfold create_workspace_and_attach in Hrun.
  reading Hrun; [replayed Hrun|].
  apply bind_Ok in Hrun as (? & s1 & Hins & Hrun). apply bind_Ok in Hrun as (? & s2 & Hlnk & Hrun).
  transitivity s1; [exact (respects (R:=sounds) _ _ _ Hins)|].
  transitivity s2; [|rest Hrun]. eapply upsert_link_sounds; [|exact Hlnk].
  apply catch_integrity_Ok in Hins as [Hins|(? & _ & []%raise_Ok)]. statement_inv Hins.
  eexists. simpl. split; [apply elem_of_app; right; constructor | done].
Qed.

(** Clearing the Primary link leaves the Workspaces as they are. *)
Lemma clear_then_link_sounds p w b actor t d n d1 u d2 :
  registered d w → clear_active_primary p t d = Ok (n, d1) →
  upsert_project_workspace_link p w b actor t d1 = Ok (u, d2) → sounds d d2.
Proof.
  intros Hreg Hclr Hup. transitivity d1; [exact (respects (R:=sounds) _ _ _ Hclr)|].
  eapply upsert_link_sounds; [|exact Hup]. by statement_inv Hclr.
Qed.

#[export] Instance link_operation_sounds a b c d e f g h i j :
  Respects sounds (link_operation a b c d e f g h i j).
Proof.
  intros s r s' Hrun. unfold link_operation in Hrun. reading Hrun; [replayed Hrun|].
  match goal with Hl : linkable _ _ _ _ _ = Ok _ |- _ =>
    apply linkable_registered in Hl as [_ Hreg] end.
  apply bind_Ok in Hrun as (? & s1 & Hclr & Hrun). apply bind_Ok in Hrun as (? & s2 & Hup & Hrun).
  transitivity s2; [|rest Hrun]. destruct f.
  - apply bind_Ok in Hclr as (? & ? & Hclr & [_ ->]%ret_Ok).
    exact (clear_then_link_sounds _ _ _ _ _ _ _ _ _ _ Hreg Hclr Hup).
  - apply ret_Ok in Hclr as [_ ->]. exact (upsert_link_sounds _ _ _ _ _ _ _ _ Hreg Hup).
Qed.

#[export] Instance link_operation_in_transaction_sounds a b c d e f :
  Respects sounds (link_operation_in_transaction a b c d e f).
Proof.
  intros s r s' Hrun. unfold link_operation_in_transaction in Hrun. reading Hrun.
  match goal with Hl : linkable _ _ _ _ _ = Ok _ |- _ =>
    apply linkable_registered in Hl as [_ Hreg] end.
  apply bind_Ok in Hrun as (? & s1 & Hclr & Hrun). apply bind_Ok in Hrun as (? & s2 & Hup & Hrun).
  transitivity s2; [exact (clear_then_link_sounds _ _ _ _ _ _ _ _ _ _ Hreg Hclr Hup) | rest Hrun].
Qed.
#[export] Instance replace_primary_workspace_sounds a b c d e f g h i j :
  Respects sounds (replace_primary_workspace a b c d e f g h i j).
Proof. method. Qed.

(** An unregistered Workspace has no active link. *)
#[export] Instance unregister_and_retire_sounds a b :
  Respects sounds (unregister_workspace_and_retire_links a b).
Proof.
  intros d r d' Hrun. eapply sounds_run; [exact Hrun | apply _ |].
  unfold unregister_workspace_and_retire_links in Hrun. tx_inv_all.
  repeat match goal with H : _ _ = Ok _ |- _ => statement_inv H end.
  intros _ [? ? ? ? Hlink]. constructor; simpl; try done.
  intros l (y & Hy & ->)%elem_of_on_rows. destruct (eqs (ln_workspace_id y) a) eqn:Ha; [done|].
  intros Hact. destruct (Hlink y Hy Hact) as (w & Hw & Hid & Hwa). exists w. simpl.
  split; [|done]. apply on_rows_kept; [done|]. by rewrite Hid.
Qed.
#[export] Instance unregister_workspace_sounds a b c d e f g h :
  Respects sounds (unregister_workspace a b c d e f g h).
Proof. method. Qed.

#[export] Instance registry_blocks_sounds : RegistryBlocks sounds.
Proof. constructor; apply _. Qed.

(** *** The Context *)

#[local] Instance open_conversation_sounds a b c d e f g h i :
  Respects sounds (open_conversation a b c d e f g h i).
Proof.
  intros s x s' Hrun. eapply sounds_run; [exact Hrun | apply _ |].
  unfold open_conversation in Hrun. tx_inv_all.
  repeat match goal with H : ?m _ = Ok _ |- _ => statement_inv H end. intros _ []. by constructor.
Qed.

#[export] Instance context_updates_sounds : ContextUpdates sounds.
Proof.
  constructor; [constructor; [apply _|..]|..]; intros; first [ apply _ | sound_statement ].
Qed.

(** The new version takes the place of the active one. *)
#[export] Instance publish_version_sounds a b c d e f g :
  Respects sounds (publish_verified_version_in_transaction a b c d e f g).
Proof.
  intros s r s' Hrun. unfold publish_verified_version_in_transaction in Hrun. reading Hrun.
  apply bind_Ok in Hrun as (? & s1 & Hoff & Hrun). apply bind_Ok in Hrun as (? & s2 & Hver & Hrun).
  apply bind_Ok in Hrun as (? & s3 & Hprov & Hrun). transitivity s3; [|rest Hrun]. split.
  { transitivity s1; [exact (respects (R:=lawful) _ _ _ Hoff)|].
    transitivity s2; [exact (respects (R:=lawful) _ _ _ Hver)
                     | exact (respects (R:=lawful) _ _ _ Hprov)]. }
  repeat match goal with H : _ _ = Ok (_, _) |- _ => statement_inv H end.
  intros _ [Ho Hp Hd Hcx Hl]. constructor; simpl; try done.
  intros p Hin. destruct (decide (pj_project_id p = a)) as [Ha|Ha].
  - eexists. simpl. split; [apply elem_of_app; right; constructor | done].
  - destruct (Hcx p Hin) as (v & Hv & Hid & Hact). exists v. simpl. split; [|done].
    apply elem_of_app. left. apply on_rows_kept; [done|]. rewrite Hid. by apply eqs_ne.
Qed.

#[export] Instance context_blocks_sounds : ContextBlocks sounds.
Proof. apply context_updates_blocks; apply _. Qed.

#[export] Instance fork_receipts_sounds : ForkReceipts sounds.
Proof. constructor; [apply _|..]; intros; sound_statement. Qed.
#[export] Instance fork_blocks_sounds : ForkBlocks sounds.
Proof. apply fork_updates_blocks; apply _. Qed.
End blocks.

(** ** Whole runs *)

Lemma conversation_sounds d d' : registry_same d d' → db_evolves d d' → sounds d d'.
Proof.
  intros Hsame Hev. split; [by apply conversation_lawful|]. intros _ Hs.
  destruct Hsame as [Hp Hm _ Hw Hl _ _ Hv]. destruct Hs. unfold registered, has_context in *.
  constructor; unfold registered, has_context; rewrite ?Hp, ?Hm, ?Hw, ?Hl, ?Hv; done.
Qed.

Lemma domain_steps_sounds `{Host, Kernel} d d' : rtc domain_step d d' → sounds d d'.
Proof. apply domain_steps_spec; [apply _..|]. apply conversation_sounds. Qed.

(** A new installation: no Project and no Task yet, and Environments that were seeded. *)
Record domain_initial (d : db) : Prop := mkDomainInitial {
  di_initial : initial d;
  di_environments : environments_ok (environments d);
  di_projects : projects d = [];
  di_members : project_members d = [];
  di_workspaces : workspaces d = [];
  di_links : workspace_links d = [];
  di_relationships : task_relationships d = [];
  di_drafts : context_drafts d = [];
  di_versions : context_versions d = [];
  di_provenance : context_provenance d = [];
  di_candidates : context_candidates d = [];
  di_fragments : context_fragments d = [];
  di_snapshots : context_snapshots d = [];
  di_previews : context_previews d = [];
  di_fork_previews : fork_previews d = [];
  di_fork_transfers : fork_transfers d = [];
  di_tasks : tasks d = [] }.

Definition domain_reachable `{Host, Kernel} (d : db) : Prop :=
  ∃ d0, domain_initial d0 ∧ rtc domain_step d0 d.

Lemma domain_initial_ok d : domain_initial d → registry_integrity d ∧ registry_sound d.
Proof.
  intros []. split; constructor; unfold met, registered, has_context;
    repeat match goal with H : ?x = [] |- _ => rewrite H; clear H end; try done;
    try (constructor; apply NoDup_nil_2 || done); try apply NoDup_nil_2;
    by intros ? ?%not_elem_of_nil || (intros ? ? ?%not_elem_of_nil; done).
Qed.

Section reachable.
Context `{Host, Kernel}.

Lemma domain_reachable_steps d d' :
  domain_reachable d → rtc domain_step d d' → domain_reachable d'.
Proof. intros (d0 & Hi & Hs) Hr. exists d0. split; [done | by etrans]. Qed.

Lemma domain_reachable_reachable d : domain_reachable d → reachable d.
Proof.
  intros (d0 & Hi & Hs). exists d0. split; [by apply di_initial | by apply domain_steps_steps].
Qed.

Lemma domain_reachable_ok d : domain_reachable d → registry_integrity d ∧ registry_sound d.
Proof.
  intros (d0 & [Hok Hs]%domain_initial_ok & Hr).
  destruct (domain_steps_sounds _ _ Hr) as [[_ Hl] HI]. auto.
Qed.
End reachable.
