(* ===== verification/ContextSound.v ===== *)
(** * What the Context keeps true beyond its constraints

    A published version freezes fragments of its own Project and has verified
    provenance; a snapshot fits its budget; a preview is about a version of the
    Task's Project, and the snapshot that confirmed it says what it proposed; a Task
    is pinned to a snapshot of a version of its own Project; a candidate is decided
    once. *)

From stdpp Require Import base tactics list strings relations.
From Stdlib Require Import ZArith Lia.
From S2P Require Import Prelude PyText PyJson Utf8 PyTime Tables Contracts RegistryRows Schema.
From S2P Require Import Repository Projection RegistryRepository Service EnvironmentIdentity.
From S2P Require Import Authorization Registry RegistryWorkspaces Acceptance Execution Evolution.
From S2P Require Import Methods Integrity System Assembler AssemblerLaws ContextRepository Context.
From S2P Require Import ContextCandidates ContextSnapshots TaskLifecycle ForkRepository Fork RegistryMethods.
From S2P Require Import ContextMethods RegistryFrame RegistryIntegrity RegistrySound.

Local Open Scope string_scope.
#[local] Hint Constants Opaque : typeclass_instances.
#[local] Hint Transparent dict time relation : typeclass_instances.

(** ** The rules *)

(** An undecided candidate names no decision, a decided one names exactly one. *)
Definition candidate_decided (c : candidate_row) : Prop :=
  match cd_status c with
  | Candidate_PROPOSED =>
      cd_accepted_by_user_id c = None ∧ cd_accepted_at c = None ∧
      cd_rejected_by_user_id c = None ∧ cd_rejected_at c = None
  | Candidate_ACCEPTED =>
      not_none (cd_accepted_by_user_id c) = true ∧ not_none (cd_accepted_at c) = true ∧
      cd_rejected_by_user_id c = None ∧ cd_rejected_at c = None
  | Candidate_REJECTED =>
      cd_accepted_by_user_id c = None ∧ cd_accepted_at c = None ∧
      not_none (cd_rejected_by_user_id c) = true ∧ not_none (cd_rejected_at c) = true
  end.

Definition is_object (v : json) : bool := match v with JObj _ => true | _ => false end.

Lemma load_json_list_objects l : Forall (λ v, is_object v = true) l → load_json_list l = l.
Proof. induction 1 as [|v l Hv _ IH]; [done|]. simpl. destruct v; try done. by rewrite IH. Qed.

(** A version of a Project. *)
Definition version_in (d : db) (version_id project_id : string) : Prop :=
  ∃ v, v ∈ context_versions d ∧ cv_context_version_id v = version_id ∧
    cv_project_id v = project_id.

(** The pin of a Task. *)
Definition context_pinned (d : db) (t : task_row) : Prop :=
  ∃ s v, s ∈ context_snapshots d ∧ tk_project_context_snapshot_id t = Some (cs_context_snapshot_id s) ∧
    tk_project_context_version_id t = Some v ∧ cs_context_version_id s = Some v ∧
    version_in d v (tk_project_id t).

Section rules.
Context `{Host}.

Record fragment_sound (f : fragment_row) : Prop := mkFragmentSound {
  fs_id : truthy (fr_fragment_id f) = true;
  fs_type : truthy (fr_source_type f) = true;
  fs_fingerprint : fr_source_fingerprint f = Some (fingerprint (fr_content f));
  fs_version : ∃ v, fr_source_version f = Some v ∧ (truthy v = true ∨ v = fingerprint (fr_content f));
  fs_budget : match fr_byte_budget f with Some n => (0 ≤ n)%Z | None => True end }.

Record version_frozen (d : db) (v : context_version_row) : Prop := mkFrozen {
  vf_fragments : ∃ fs, cv_fragment_manifest v = map freeze_fragment fs ∧
    Forall (λ f, f ∈ context_fragments d ∧ fr_project_id f = cv_project_id v) fs;
  vf_fingerprint :
    cv_fingerprint v = context_version_fingerprint (cv_content v) (cv_fragment_manifest v);
  vf_provenance : ∃ p, p ∈ context_provenance d ∧
    pv_context_version_id p = cv_context_version_id v ∧ pv_status p = Provenance_VERIFIED ∧
    pv_evidence p = verified_fragment_provenance_evidence (cv_fragment_manifest v) }.

(** What is stored of an assembly. *)
Record assembled (a : ContextAssembly) : Prop := mkAssembled {
  am_bound : (byte_len (as_content a) ≤ as_byte_budget a)%Z;
  am_fingerprint : as_fingerprint a = fingerprint (canonical_json (JObj
    [("assembler_version", JInt 1); ("byte_budget", JInt (as_byte_budget a));
     ("truncated", JBool (as_truncated a)); ("source_manifest", JList (as_source_manifest a));
     ("content", JStr (as_content a))]));
  am_manifest : Forall (λ v, is_object v = true) (as_source_manifest a) }.

Definition snapshot_of (a : ContextAssembly) (s : context_snapshot_row) : Prop :=
  cs_content s = as_content a ∧ cs_fingerprint s = as_fingerprint a ∧
  cs_source_manifest s = as_source_manifest a ∧ cs_byte_budget s = Some (as_byte_budget a) ∧
  cs_truncated s = as_truncated a.

Definition proposal (p : context_preview_row) : ContextAssembly :=
  mkAssembly (pw_proposed_content p) (pw_proposed_fingerprint p) (pw_source_manifest p)
    (pw_byte_budget p) (pw_truncated p).

Record preview_sound (d : db) (p : context_preview_row) : Prop := mkPreviewSound {
  ps_version : version_in d (pw_context_version_id p) (pw_project_id p);
  ps_assembled : assembled (proposal p);
  ps_confirmed : match pw_confirmed_snapshot_id p with
    | Some id => ∃ s, s ∈ context_snapshots d ∧ cs_context_snapshot_id s = id ∧
        cs_context_version_id s = Some (pw_context_version_id p) ∧ snapshot_of (proposal p) s
    | None => True
    end }.

Record context_sound (d : db) : Prop := mkContextSound {
  cx_fragment f : f ∈ context_fragments d → fragment_sound f;
  cx_version v : v ∈ context_versions d → version_frozen d v;
  cx_snapshot s : s ∈ context_snapshots d → ∃ a, assembled a ∧ snapshot_of a s;
  cx_preview p : p ∈ context_previews d → preview_sound d p;
  cx_task t : t ∈ tasks d → context_pinned d t;
  cx_candidate c : c ∈ context_candidates d → candidate_decided c }.

(** ** They outlast the growth of the tables *)

Section grows.
Context (d d' : db) (Hgr : registry_grows d d').

Lemma version_in_mono v p : version_in d v p → version_in d' v p.
Proof using Hgr.
  intros (r & Hr & <- & <-).
  destruct (evolves_elem _ _ _ _ (gr_versions _ _ Hgr) Hr) as (r' & Hr' & Hl & _).
  exists r'. split; [done|]. split; congruence.
Qed.

Lemma appended {R} (table : db → list R) r :
  Appends (table d) (table d') → r ∈ table d → r ∈ table d'.
Proof using. intros Ha Hr. by destruct (evolves_elem _ _ _ _ Ha Hr) as (r' & Hr' & ->). Qed.

Lemma context_pinned_mono t t' :
  task_frame t' = task_frame t → context_pinned d t → context_pinned d' t'.
Proof using Hgr.
  intros Hf (s & v & Hs & Hsn & Hv & Hsv & Hp). exists s, v. unfold task_frame in Hf.
  split_and!; try congruence.
  - by apply appended, Hs; apply gr_snapshots.
  - replace (tk_project_id t') with (tk_project_id t) by congruence. by apply version_in_mono.
Qed.

Lemma version_frozen_mono v v' : version_lasts v v' → version_frozen d v → version_frozen d' v'.
Proof using Hgr.
  intros [Hl _] [(fs & Hm & Hfs) Hfp (p & Hp & Hid & Hst & Hev)].
  assert (cv_fragment_manifest v' = cv_fragment_manifest v ∧ cv_project_id v' = cv_project_id v ∧
    cv_context_version_id v' = cv_context_version_id v ∧ cv_content v' = cv_content v ∧
    cv_fingerprint v' = cv_fingerprint v) as (Em & Ep & Ei & Ec & Ef) by (split_and!; congruence).
  constructor; rewrite ?Em, ?Ep, ?Ei, ?Ec, ?Ef; [|done|].
  - exists fs. split; [done|]. eapply Forall_impl; [exact Hfs|]. intros f [Hf ?].
    split; [|done]. by apply appended, Hf; apply gr_fragments.
  - exists p. split_and!; try done. by apply appended, Hp; apply gr_provenance.
Qed.

Lemma preview_sound_mono p : preview_sound d p → preview_sound d' p.
Proof using Hgr.
  intros [Hv Ha Hc]. constructor; [by apply version_in_mono | done |].
  destruct (pw_confirmed_snapshot_id p) as [id|]; [|done]. destruct Hc as (s & Hs & ?).
  exists s. split; [|done]. by apply appended, Hs; apply gr_snapshots.
Qed.

(** Every row is an old one that kept what matters, or keeps the rule by itself. *)
Lemma context_sound_intro :
  (∀ f, f ∈ context_fragments d' → f ∈ context_fragments d ∨ fragment_sound f) →
  (∀ v, v ∈ context_versions d' →
     (∃ v0, v0 ∈ context_versions d ∧ version_lasts v0 v) ∨ version_frozen d' v) →
  (∀ s, s ∈ context_snapshots d' →
     s ∈ context_snapshots d ∨ ∃ a, assembled a ∧ snapshot_of a s) →
  (∀ p, p ∈ context_previews d' → p ∈ context_previews d ∨ preview_sound d' p) →
  (∀ t, t ∈ tasks d' → (∃ t0, t0 ∈ tasks d ∧ task_frame t = task_frame t0) ∨ context_pinned d' t) →
  (∀ c, c ∈ context_candidates d' → c ∈ context_candidates d ∨ candidate_decided c) →
  context_sound d → context_sound d'.
Proof using Hgr.
  intros Hf Hv Hs Hp Ht Hc []. constructor; intros x Hx.
  - destruct (Hf x Hx); auto.
  - destruct (Hv x Hx) as [(v0 & Hv0 & Hl)|?]; [|done]. eapply version_frozen_mono; eauto.
  - destruct (Hs x Hx); auto.
  - destruct (Hp x Hx); [|done]. by apply preview_sound_mono; auto.
  - destruct (Ht x Hx) as [(t0 & Ht0 & Hfr)|?]; [|done]. eapply context_pinned_mono; eauto.
  - destruct (Hc x Hx); auto.
Qed.
End grows.
End rules.

(** ** Steps *)

Definition decided_once (c c' : candidate_row) : Prop :=
  cd_status c ≠ Candidate_PROPOSED → c' = c.
Definition confirmed_once (p p' : context_preview_row) : Prop :=
  pw_confirmed_snapshot_id p ≠ None → p' = p.

#[export] Instance decided_once_preorder : PreOrder decided_once.
Proof. split; [by intros c|]. intros x y z Hxy Hyz Hx. specialize (Hxy Hx) as ->. auto. Qed.
#[export] Instance confirmed_once_preorder : PreOrder confirmed_once.
Proof. split; [by intros c|]. intros x y z Hxy Hyz Hx. specialize (Hxy Hx) as ->. auto. Qed.

Section steps.
Context `{Host}.

Record context_kept (d d' : db) : Prop := mkContextKept {
  ck_sound : context_sound d → context_sound d';
  ck_candidates : Evolves decided_once (context_candidates d) (context_candidates d');
  ck_previews : Evolves confirmed_once (context_previews d) (context_previews d') }.

#[export] Instance context_kept_preorder : PreOrder context_kept.
Proof.
  split; [by intros d; constructor|]. intros d1 d2 d3 [] []. constructor; [auto | by etrans..].
Qed.

Definition contexts : relation db :=
  λ d d', lawful d d' ∧ (registry_integrity d → context_kept d d').

#[export] Instance contexts_preorder : PreOrder contexts.
Proof.
  split; [by intros d|]. intros d1 d2 d3 [[He1 Hk1] H1] [[He2 Hk2] H2].
  split; [split; [by etrans | auto]|]. intros Hok. etrans; [by apply H1 | by apply H2, Hk1].
Qed.

Lemma contexts_run {A} (m : txn A) d a d' :
  m d = Ok (a, d') → Respects lawful m →
  (registry_integrity d → registry_grows d d' → context_kept d d') → contexts d d'.
Proof. intros Hrun Hm HI. pose proof (Hm _ _ _ Hrun) as [? ?]. by split; [|auto]. Qed.

(** Nothing of the Context is written. *)
Lemma contexts_same d d' :
  lawful d d' → context_fragments d' = context_fragments d →
  context_versions d' = context_versions d → context_snapshots d' = context_snapshots d →
  context_previews d' = context_previews d → context_candidates d' = context_candidates d →
  task_frame <$> tasks d' = task_frame <$> tasks d → contexts d d'.
Proof.
  intros Hl Ef Ev Es Ep Ec Et. split; [done|]. intros _.
  constructor; rewrite ?Ep, ?Ec; try reflexivity.
  apply context_sound_intro; rewrite ?Ef, ?Ev, ?Es, ?Ep, ?Ec; auto; [apply Hl|..].
  - intros v Hv. left. by exists v.
  - intros t Ht. left. apply (list_elem_of_fmap_2 task_frame) in Ht. rewrite Et in Ht.
    apply list_elem_of_fmap_1 in Ht as (t0 & ? & ?). eauto.
Qed.

#[export] Instance registry_plain_contexts : RegistryPlain contexts.
Proof.
  constructor; [apply _|..]; intros; intros ?s ?x ?s Hrun;
    (apply contexts_same; [eapply respects_apply; [|exact Hrun]; first [ apply _
      | by apply rs_update_projects | by apply rs_keep_environments | by apply rs_update_workspaces
      | by apply rs_update_links ] |..]); by statement_inv Hrun.
Qed.

(** *** Single statements *)

(** The rows of the tables that a statement leaves alone. *)
Ltac context_statement Hrun :=
  eapply contexts_run; [exact Hrun | first [ apply _ | by apply insert_candidate_lawful
                                           | by apply insert_preview_lawful ] |];
  statement_inv Hrun; intros Hok Hgr; constructor; simpl; try reflexivity;
  [ let Hsound := fresh "Hsound" in intros Hsound; pose proof Hsound as Hs0; revert Hsound;
    apply (context_sound_intro _ _ Hgr); simpl; auto;
    try (intros ? ?; left; eexists; split; [eassumption | reflexivity]) |..].

Lemma insert_fragment_contexts f d x d' :
  fragment_sound f → insert_fragment f d = Ok (x, d') → contexts d d'.
Proof.
  intros Hf Hrun. context_statement Hrun.
  intros f' [?| ->%list_elem_of_singleton]%elem_of_app; auto.
Qed.

Lemma insert_candidate_contexts c d x d' :
  cd_status c = Candidate_PROPOSED → candidate_decided c →
  insert_candidate c d = Ok (x, d') → contexts d d'.
Proof.
  intros Hc Hd Hrun. context_statement Hrun; [|apply evolves_insert, _].
  intros c' [?| ->%list_elem_of_singleton]%elem_of_app; auto.
Qed.

Lemma insert_snapshot_row_contexts s d x d' :
  (registry_integrity d → context_sound d → ∃ a, assembled a ∧ snapshot_of a s) →
  insert_snapshot_row s d = Ok (x, d') → contexts d d'.
Proof.
  intros Hs Hrun. context_statement Hrun. specialize (Hs Hok Hs0).
  intros s' [?| ->%list_elem_of_singleton]%elem_of_app; auto.
Qed.

Lemma insert_preview_contexts p d x d' :
  pw_confirmed_snapshot_id p = None → version_in d (pw_context_version_id p) (pw_project_id p) →
  assembled (proposal p) → insert_preview p d = Ok (x, d') → contexts d d'.
Proof.
  intros Hn Hv Ha Hrun. context_statement Hrun; [|apply evolves_insert, _].
  intros p' [?| ->%list_elem_of_singleton]%elem_of_app; [auto|]. right.
  constructor; [by eapply version_in_mono | done | by rewrite Hn].
Qed.

(** A candidate that is still proposed is decided. *)
Lemma update_candidate_contexts k f d x d' :
  Respects lawful (update_candidate k f) →
  (∀ c, cd_status c = Candidate_PROPOSED → candidate_decided c → candidate_decided (f c)) →
  (registry_integrity d → ∀ c, c ∈ context_candidates d → cd_candidate_id c = k →
     cd_status c = Candidate_PROPOSED) →
  update_candidate k f d = Ok (x, d') → contexts d d'.
Proof.
  intros Hl Hf Hk Hrun. eapply contexts_run; [exact Hrun | done|].
  unfold update_candidate in Hrun. statement_inv Hrun.
  intros Hok Hgr. specialize (Hk Hok). constructor; simpl; try reflexivity.
  - intros Hs. revert Hs. intros Hs. apply (context_sound_intro _ _ Hgr); simpl; auto;
      try (intros ? ?; left; eexists; split; [eassumption | reflexivity]).
    intros c (y & Hy & ->)%elem_of_on_rows. destruct (eqs _ _) eqn:Hc; [|by left]. right.
    split_bools. apply Hf; [by apply Hk | by apply (cx_candidate _ Hs)].
  - apply evolves_update; [apply _|]. intros c Hc Hq Hn. split_bools. by destruct Hn; apply Hk.
Qed.

(** A Task is pinned to a snapshot of a version of its Project. *)
Lemma update_tasks_contexts k f version_id snapshot_id d x d' :
  Respects lawful (update_rows tasks with_tasks (λ t, eqs (tk_task_id t) k) task_pin_guard f) →
  (∃ s, s ∈ context_snapshots d ∧ cs_context_snapshot_id s = snapshot_id ∧
     cs_context_version_id s = Some version_id) →
  (∀ t, tk_project_context_snapshot_id (f t) = Some snapshot_id ∧
     tk_project_context_version_id (f t) = Some version_id) →
  (registry_integrity d → context_sound d → ∀ t, t ∈ tasks d → tk_task_id t = k →
     version_in d version_id (tk_project_id (f t))) →
  update_rows tasks with_tasks (λ t, eqs (tk_task_id t) k) task_pin_guard f d = Ok (x, d') →
  contexts d d'.
Proof.
  intros Hl (s & Hs & Hsi & Hsv) Hf Hp Hrun. eapply contexts_run; [exact Hrun | done |].
  statement_inv Hrun. intros Hok Hgr. constructor; simpl; try reflexivity.
  intros Hs0. specialize (Hp Hok Hs0). revert Hs0. apply (context_sound_intro _ _ Hgr); simpl; auto.
  { intros v Hv. left. by exists v. }
  intros t (y & Hy & ->)%elem_of_on_rows. destruct (eqs _ _) eqn:Ht; [|left; by exists y]. right.
  split_bools. destruct (Hf y) as [Hfs Hfv]. exists s, version_id. split_and!; simpl; try congruence.
  by eapply version_in_mono, Hp.
Qed.

Lemma insert_task_contexts t d x d' :
  context_pinned d t → insert_task t d = Ok (x, d') → contexts d d'.
Proof.
  intros Ht Hrun. context_statement Hrun.
  intros t' [Hin| ->%list_elem_of_singleton]%elem_of_app; [left; by exists t'|]. right.
  by eapply context_pinned_mono.
Qed.

Lemma confirm_preview_contexts k snapshot_id now d x d' :
  (registry_integrity d → ∀ p, p ∈ context_previews d → pw_preview_id p = k →
     pw_confirmed_snapshot_id p = None ∧
     (context_sound d → ∃ s, s ∈ context_snapshots d ∧ cs_context_snapshot_id s = snapshot_id ∧
        cs_context_version_id s = Some (pw_context_version_id p) ∧ snapshot_of (proposal p) s)) →
  confirm_preview k snapshot_id now d = Ok (x, d') → contexts d d'.
Proof.
  intros Hp Hrun. eapply contexts_run; [exact Hrun | apply _ |]. statement_inv Hrun.
  intros Hok Hgr. specialize (Hp Hok). constructor; simpl; try reflexivity.
  - intros Hs. pose proof Hs as Hs0. revert Hs. apply (context_sound_intro _ _ Hgr); simpl; auto;
      try (intros ? ?; left; eexists; split; [eassumption | reflexivity]).
    intros p (y & Hy & ->)%elem_of_on_rows. destruct (eqs _ _) eqn:Hk; [|by left]. right. split_bools.
    destruct (Hp y Hy Hk) as [_ Hsn]. destruct (cx_preview _ Hs0 y Hy) as [Hv Ha _].
    constructor; simpl; [by eapply version_in_mono | done|]. by apply Hsn.
  - apply evolves_update; [apply _|]. intros p Hin Hk Hn. split_bools.
    by destruct Hn; apply (Hp p Hin Hk).
Qed.

(** *** Conversations *)

#[export] Instance repin_contexts a b c : Respects contexts (repin_submissions a b c).
Proof.
  intros s x s' Hrun. apply contexts_same; [exact (respects (R:=lawful) _ _ _ Hrun)|..];
    by statement_inv Hrun.
Qed.
#[export] Instance upsert_context_draft_contexts a b c d :
  Respects contexts (upsert_context_draft a b c d).
Proof.
  intros s x s' Hrun. apply contexts_same; [exact (respects (R:=lawful) _ _ _ Hrun)|..];
    by statement_inv Hrun.
Qed.
#[export] Instance open_conversation_contexts a b c d e f g h i :
  Respects contexts (open_conversation a b c d e f g h i).
Proof.
  intros s x s' Hrun. apply contexts_same; [exact (respects (R:=lawful) _ _ _ Hrun)|..];
    unfold open_conversation in Hrun; tx_inv_all;
    by repeat match goal with H : ?m _ = Ok _ |- _ => statement_inv H end.
Qed.

(** *** Versions *)

(** A version that comes with its provenance. *)
Lemma new_version_contexts v p content actor now t fs d d0 x d1 y d2 :
  d0 = d ∨ (∃ n, deactivate_context_versions p d = Ok (n, d0)) →
  Forall (λ f, f ∈ context_fragments d ∧ fr_project_id f = p) fs →
  insert_context_version v p content (context_version_fingerprint content (map freeze_fragment fs))
    (map freeze_fragment fs) true actor now d0 = Ok (x, d1) →
  insert_context_provenance v Provenance_VERIFIED
    (verified_fragment_provenance_evidence (map freeze_fragment fs)) t d1 = Ok (y, d2) →
  contexts d d2.
Proof.
  intros Hoff Hfs Hv Hp.
  assert (lawful d d2) as Hl.
  { transitivity d0.
    - destruct Hoff as [->|[n Hoff]]; [done | exact (respects (R:=lawful) _ _ _ Hoff)].
    - etrans; [exact (respects (R:=lawful) _ _ _ Hv) | exact (respects (R:=lawful) _ _ _ Hp)]. }
  assert (context_fragments d0 = context_fragments d ∧ context_snapshots d0 = context_snapshots d ∧
    context_previews d0 = context_previews d ∧ context_candidates d0 = context_candidates d ∧
    tasks d0 = tasks d ∧ ∀ v, v ∈ context_versions d0 →
      ∃ v0, v0 ∈ context_versions d ∧ version_lasts v0 v) as (Ef & Es & Ew & Ec & Et & Ev).
  { destruct Hoff as [->|[n Hoff]]; [by split_and!; [..|intros w Hw; exists w]|].
    statement_inv Hoff. split_and!; try done. intros w (w0 & Hw0 & ->)%elem_of_on_rows.
    exists w0. split; [done|]. by destruct (eqs _ _). }
  split; [done|]. intros _. statement_inv Hv. statement_inv Hp.
  constructor; simpl; rewrite ?Ew, ?Ec; try reflexivity.
  apply context_sound_intro; simpl; rewrite ?Ef, ?Es, ?Ew, ?Ec, ?Et; auto; [apply Hl|..].
  - intros w [Hw| ->%list_elem_of_singleton]%elem_of_app; [left; by apply Ev|]. right.
    constructor; simpl; [|done|].
    + exists fs. by rewrite Ef.
    + eexists. split; [apply elem_of_app; right; constructor | done].
  - intros w Hw. left. by exists w.
Qed.

Context `{Kernel}.

#[export] Instance initialize_contexts a b c e :
  Respects contexts (initialize_project_context a b c e).
Proof.
  intros s x s' Hrun. unfold initialize_project_context in Hrun. cbv zeta in Hrun.
  apply bind_Ok in Hrun as (? & s1 & Hdr & Hrun). apply bind_Ok in Hrun as (? & s2 & Hver & Hrun).
  apply bind_Ok in Hrun as (? & s3 & Hpv & Hrun). apply ret_Ok in Hrun as [_ ->].
  transitivity s1.
  - apply contexts_same; [exact (respects (R:=lawful) _ _ _ Hdr)|..]; by statement_inv Hdr.
  - eapply (new_version_contexts _ _ _ _ _ _ [] s1 s1); [by left | constructor | exact Hver | exact Hpv].
Qed.
End steps.
