(* ===== verification/ContextSteps.v ===== *)
(** * The methods of the Context service keep its rules

    Each mutation of [ContextMethods] keeps what [ContextSound] states, with the
    checks that the method makes; a run of the whole domain does. *)

From stdpp Require Import base tactics list strings relations.
From Stdlib Require Import ZArith Lia.
From S2P Require Import Prelude PyText PyJson Utf8 PyTime Tables Contracts RegistryRows Schema.
From S2P Require Import Repository Projection RegistryRepository Service EnvironmentIdentity.
From S2P Require Import Authorization Registry RegistryWorkspaces Acceptance Execution Evolution.
From S2P Require Import Methods Integrity System Assembler AssemblerLaws ContextRepository Context.
From S2P Require Import ContextCandidates ContextSnapshots TaskLifecycle ForkRepository Fork RegistryMethods.
From S2P Require Import ContextMethods RegistryFrame RegistryIntegrity RegistrySound ContextSound.

Local Open Scope string_scope.
#[local] Hint Constants Opaque : typeclass_instances.
#[local] Hint Transparent dict time relation : typeclass_instances.

Section steps.
Context `{Host, Kernel}.

(** ** Assemblies *)

Lemma assemble_assembled b ss a : (0 ≤ b)%Z → assemble b ss = Ok a → assembled a.
Proof.
  intros Hb Ha. pose proof (assemble_bound _ _ _ Hb Ha) as Hfit. unfold assemble in Ha.
  case_bool_decide; [|done]. destruct (include_sources b 0 ss) as [xs|] eqn:Hx; [|done].
  injection Ha as <-. constructor; [done | done |].
  apply include_sources_described in Hx as [Hd _]. simpl.
  eapply Forall2_Forall_r; [exact Hd|]. apply Forall_true. intros s v [Ht _]. by destruct v.
Qed.

Lemma lift_Ok {A} (r : result error A) (d : db) a d' : lift r d = Ok (a, d') → r = Ok a ∧ d' = d.
Proof. destruct r; [|done]. by intros [-> ->]%ret_Ok. Qed.

(** The version that an assembly is made of belongs to the Project. *)
Lemma view_of_row d v : vw_row (view_of d v) = v.
Proof. unfold view_of. by destruct (select_one _ _). Qed.

Lemma version_in_found p v d w :
  version_or_none p v d = Some w → version_in d v p ∧ cv_context_version_id (vw_row w) = v.
Proof.
  intros Hw. apply fmap_Some_1 in Hw as (r & Hr & ->). apply select_one_Some in Hr as [Hr Hp]. split_bools.
  rewrite view_of_row. split; [by exists r | done].
Qed.

Lemma active_version_in_project p d w :
  active_version_or_none p d = Some w →
  version_in d (cv_context_version_id (vw_row w)) p ∧ cv_is_active (vw_row w) = true.
Proof.
  intros Hw. apply fmap_Some_1 in Hw as (r & Hr & ->). apply select_one_Some in Hr as [Hr Hp]. split_bools.
  rewrite view_of_row. split; [by exists r | done].
Qed.

Lemma assemble_for_task_assembled p w t prompt v d a d' :
  assemble_for_task p w t prompt v d = Ok (a, d') → assembled a.
Proof.
  unfold assemble_for_task. intros Hrun. apply bind_Ok in Hrun as (r & s & _ & Hrun). reading Hrun.
  apply lift_Ok in Hrun as [Ha ->]. eapply assemble_assembled, Ha. apply context_byte_budget_nonneg.
Qed.

Lemma assemble_for_task_Ok p w t prompt v d a d' :
  assemble_for_task p w t prompt (Some v) d = Ok (a, d') →
  d' = d ∧ version_in d v p ∧ assembled a.
Proof.
  intros Hrun. pose proof (assemble_for_task_assembled _ _ _ _ _ _ _ _ Hrun).
  unfold assemble_for_task, version in Hrun. reading Hrun. apply lift_Ok in Hrun as [Ha ->].
  match goal with Hv : version_or_none _ _ _ = Some _ |- _ =>
    by apply version_in_found in Hv as [Hin _] end.
Qed.

Lemma insert_snapshot_contexts v a uuid now d id d' :
  (registry_integrity d → context_sound d → assembled a) →
  insert_snapshot v a uuid now d = Ok (id, d') →
  contexts d d' ∧ ∃ s, s ∈ context_snapshots d' ∧ cs_context_snapshot_id s = id ∧
    cs_context_version_id s = Some v ∧ snapshot_of a s ∧
    context_previews d' = context_previews d ∧ tasks d' = tasks d.
Proof.
  intros Ha Hrun. unfold insert_snapshot in Hrun. cbv zeta in Hrun.
  apply bind_Ok in Hrun as (? & s1 & Hins & Hrun). apply ret_Ok in Hrun as [-> ->].
  split; [eapply insert_snapshot_row_contexts, Hins; intros Hok Hs; exists a; split; [by apply Ha | done]|].
  statement_inv Hins. eexists. split; [apply elem_of_app; right; constructor | done].
Qed.

(** ** Drafts, versions, candidates and fragments *)

#[export] Instance save_draft_contexts a b c d e f g h :
  Respects contexts (save_draft a b c d e f g h).
Proof. method. Qed.

#[export] Instance publish_version_contexts a b c d e f g :
  Respects contexts (publish_verified_version_in_transaction a b c d e f g).
Proof.
  intros s r s' Hrun. unfold publish_verified_version_in_transaction in Hrun. reading Hrun.
  apply bind_Ok in Hrun as (n & s1 & Hoff & Hrun). apply bind_Ok in Hrun as (? & s2 & Hver & Hrun).
  apply bind_Ok in Hrun as (? & s3 & Hprov & Hrun). transitivity s3; [|rest Hrun].
  eapply new_version_contexts; [right; eauto | | exact Hver | exact Hprov].
  apply Forall_forall. intros f'. unfold fragments_for_project.
  rewrite elem_of_order_by, elem_of_select. intros [? ?]. by split_bools.
Qed.

#[export] Instance publish_contexts a b c d e f g h i j :
  Respects contexts (publish a b c d e f g h i j).
Proof. method. Qed.

#[export] Instance create_candidate_contexts a b c d e f g h i j k l m n o :
  Respects contexts (create_candidate a b c d e f g h i j k l m n o).
Proof.
  intros s r s' Hrun. unfold create_candidate in Hrun. reading Hrun; [replayed Hrun|].
  apply bind_Ok in Hrun as (? & s1 & Hins & Hrun). transitivity s1; [|rest Hrun].
  by eapply insert_candidate_contexts, Hins.
Qed.

Lemma candidate_unique p k c d x :
  registry_integrity d → candidate_by_id p k d = Some c → x ∈ context_candidates d →
  cd_candidate_id x = k → x = c.
Proof.
  intros Hok [Hc Hk]%select_one_Some Hx Hxk. split_bools.
  apply (unique_eq always cd_candidate_id _ _ _ (ok_candidates _ Hok)); done || congruence.
Qed.

Lemma accepted_decided u t c :
  cd_status c = Candidate_PROPOSED → candidate_decided c →
  candidate_decided (set_candidate_accepted u t c).
Proof. unfold candidate_decided. intros ->. simpl. naive_solver. Qed.
Lemma rejected_decided u t r c :
  cd_status c = Candidate_PROPOSED → candidate_decided c →
  candidate_decided (set_candidate_rejected u t r c).
Proof. unfold candidate_decided. intros ->. simpl. naive_solver. Qed.

#[export] Instance accept_candidate_contexts a b c d e f g h :
  Respects contexts (accept_candidate a b c d e f g h).
Proof.
  intros s r s' Hrun. unfold accept_candidate, candidate in Hrun.
  reading Hrun; [replayed Hrun | rest Hrun |].
  apply bind_Ok in Hrun as (? & s1 & Hdr & Hrun). transitivity s1; [exact (respects (R:=contexts) _ _ _ Hdr)|].
  apply bind_Ok in Hrun as (n & s2 & Hup & Hrun). transitivity s2; [|rest Hrun].
  eapply update_candidate_contexts, Hup; [apply _ | by apply accepted_decided |].
  intros Hok y Hy Hk. assert (candidate_by_id a b s1 = candidate_by_id a b s) as Eq
    by (unfold candidate_by_id; by statement_inv Hdr).
  match goal with Hc : candidate_by_id a b s = Some ?q |- _ => rewrite <-Eq in Hc;
    assert (y = q) as -> by (by eapply candidate_unique) end.
  split_bools. by destruct (cd_status _).
Qed.

#[export] Instance reject_candidate_contexts a b c d e f g h i :
  Respects contexts (reject_candidate a b c d e f g h i).
Proof.
  intros s r s' Hrun. unfold reject_candidate, candidate in Hrun.
  reading Hrun; [replayed Hrun | rest Hrun |].
  apply bind_Ok in Hrun as (n & s2 & Hup & Hrun). transitivity s2; [|rest Hrun].
  eapply update_candidate_contexts, Hup; [apply _ | by apply rejected_decided |].
  intros Hok y Hy Hk. match goal with Hc : candidate_by_id a b s = Some ?q |- _ =>
    assert (y = q) as -> by (by eapply candidate_unique) end.
  split_bools. by destruct (cd_status _).
Qed.

#[export] Instance create_fragment_contexts a b c d e f g h i j k l m n :
  Respects contexts (create_fragment a b c d e f g h i j k l m n).
Proof.
  intros s r s' Hrun. unfold create_fragment in Hrun. reading Hrun; [replayed Hrun|].
  apply bind_Ok in Hrun as (? & s1 & Hins & Hrun). transitivity s1; [|rest Hrun].
  eapply insert_fragment_contexts, Hins. constructor; simpl; try done.
  - eexists. split; [done|]. destruct f as [v|]; [|by right].
    destruct (truthy v) eqn:Hv; [by left | by right].
  - destruct h; [|done]. split_bools. lia.
Qed.

(** ** Snapshots and pins *)

(** The Task that may be updated is in the Project. *)
Lemma authorized_task t p u d r d' :
  authorize_task_context_update t p u d = Ok (r, d') →
  ∃ y, y ∈ tasks d ∧ tk_task_id y = t ∧ tk_project_id y = p.
Proof.
  unfold authorize_task_context_update, task_for_project. intros Hrun. reading Hrun.
  match goal with Hs : select_one _ (tasks _) = Some ?y |- _ =>
    exists y; apply select_one_Some in Hs as [Hy Hp] end.
  by split_bools.
Qed.

Lemma task_unique d x y :
  registry_integrity d → x ∈ tasks d → y ∈ tasks d → tk_task_id x = tk_task_id y → x = y.
Proof. intros Hok Hx Hy. by apply (unique_eq always tk_task_id _ _ _ (ok_tasks _ Hok)). Qed.

#[export] Instance preview_contexts a b c d e f :
  Respects contexts (preview_task_context_update a b c d e f).
Proof.
  intros s r s' Hrun. unfold preview_task_context_update in Hrun. reading Hrun.
  apply bind_Ok in Hrun as (? & s1 & Hins & Hrun). transitivity s1; [|rest Hrun].
  match goal with Ha : assemble_for_task _ _ _ _ _ _ = Ok _ |- _ =>
    apply assemble_for_task_assembled in Ha as [] end.
  match goal with Ha : active_version_or_none _ _ = Some _ |- _ =>
    apply active_version_in_project in Ha as [Hin _] end.
  by eapply insert_preview_contexts, Hins.
Qed.

(** What a confirmation writes: the proposal as a snapshot, the pin, and the mark that
    the preview is used up. *)
Lemma confirmed_contexts w t uuid at_ now d id d1 n1 d2 n2 d3 n3 d4 :
  w ∈ context_previews d → pw_confirmed_snapshot_id w = None →
  (∃ y, y ∈ tasks d ∧ tk_task_id y = t ∧ tk_project_id y = pw_project_id w) →
  insert_snapshot (pw_context_version_id w)
    (mkAssembly (pw_proposed_content w) (pw_proposed_fingerprint w)
       (load_json_list (pw_source_manifest w)) (pw_byte_budget w) (pw_truncated w)) uuid at_ d
    = Ok (id, d1) →
  pin_task t (pw_context_version_id w) id now d1 = Ok (n1, d2) →
  repin_submissions t id now d2 = Ok (n2, d3) →
  confirm_preview (pw_preview_id w) id now d3 = Ok (n3, d4) → contexts d d4.
Proof.
  intros Hw Hnone (y & Hy & Hyt & Hyp) Hsnap Hpin Hrepin Hconf.
  assert (∀ x, w ∈ context_previews x → context_sound x →
    load_json_list (pw_source_manifest w) = pw_source_manifest w) as Hman.
  { intros x Hx Hs. apply load_json_list_objects. apply (ps_assembled _ _ (cx_preview _ Hs w Hx)). }
  apply insert_snapshot_contexts in Hsnap as [Hc1 (sn & Hsn & Hid & Hver & Hof & Ew & Et)].
  2:{ intros _ Hs. rewrite (Hman d) by done. apply (ps_assembled _ _ (cx_preview _ Hs w Hw)). }
  transitivity d1; [done|]. rewrite <-Ew in Hw. rewrite <-Et in Hy. clear Hc1 Ew Et.
  transitivity d2.
  { eapply update_tasks_contexts, Hpin; [apply (pin_task_lawful t _ id now) | by eauto | done|].
    intros Hok Hs z Hz Hzt. rewrite (task_unique d1 z y) by congruence. simpl. rewrite Hyp.
    apply (ps_version _ _ (cx_preview _ Hs w Hw)). }
  transitivity d3; [exact (respects (R:=contexts) _ _ _ Hrepin)|].
  assert (context_previews d3 = context_previews d1 ∧ context_snapshots d3 = context_snapshots d1)
    as [Ew Es] by (statement_inv Hrepin; by statement_inv Hpin).
  rewrite <-Ew in Hw. rewrite <-Es in Hsn. eapply confirm_preview_contexts, Hconf.
  intros Hok p Hp Hpid. assert (p = w) as ->.
  { by apply (unique_eq always pw_preview_id _ _ _ (ok_previews _ Hok)). }
  split; [done|]. intros Hs. exists sn. split_and!; try done. by rewrite (Hman d3) in Hof by done.
Qed.

#[export] Instance confirm_contexts a b c d e f g h i j k l :
  Respects contexts (confirm_task_context_update a b c d e f g h i j k l).
Proof.
  intros s r s' Hrun. unfold confirm_task_context_update in Hrun. reading Hrun; [replayed Hrun|].
  match goal with Ha : authorize_task_context_update _ _ _ _ = Ok _ |- _ =>
    apply authorized_task in Ha end.
  match goal with Hp : preview_for _ _ _ _ _ = Some ?w |- _ =>
    apply select_one_Some in Hp as [Hw Hp] end.
  split_bools.
  subst. apply bind_Ok in Hrun as (id & s1 & Hsnap & Hrun).
  apply bind_Ok in Hrun as (? & s2 & Hpin & Hrun). apply bind_Ok in Hrun as (? & s3 & Hre & Hrun).
  apply bind_Ok in Hrun as (? & s4 & Hconf & Hrun). transitivity s4; [|rest Hrun].
  eapply confirmed_contexts; [exact Hw | by destruct (pw_confirmed_snapshot_id _) | done | done
                             | exact Hpin | exact Hre | exact Hconf].
Qed.

(** ** Tasks *)

Lemma create_snapshot_contexts p w t prompt v uuid now d id d' :
  create_snapshot_for_task_context_version p w t prompt v uuid now d = Ok (id, d') →
  contexts d d' ∧ version_in d' v p ∧ tasks d' = tasks d ∧
  ∃ s, s ∈ context_snapshots d' ∧ cs_context_snapshot_id s = id ∧ cs_context_version_id s = Some v.
Proof.
  intros Hrun. unfold create_snapshot_for_task_context_version in Hrun.
  apply bind_Ok in Hrun as (a & s1 & Ha & Hrun). apply assemble_for_task_Ok in Ha as (-> & Hin & Ha).
  apply insert_snapshot_contexts in Hrun as [Hc (sn & Hsn & Hid & Hv & _ & _ & Et)]; [|done].
  split_and!; [done | | done | by exists sn]. eapply version_in_mono, Hin. apply Hc.
Qed.

Lemma create_active_snapshot_contexts p w t prompt actor su uuid now d pin d' :
  create_active_snapshot_for_task p w t prompt actor su uuid now d = Ok (pin, d') →
  contexts d d' ∧ version_in d' pin.2 p ∧
  ∃ s, s ∈ context_snapshots d' ∧ cs_context_snapshot_id s = pin.1 ∧
    cs_context_version_id s = Some pin.2.
Proof.
  intros Hrun. unfold create_active_snapshot_for_task in Hrun. reading Hrun.
  apply bind_Ok in Hrun as (v & s1 & Hv & Hrun).
  assert (contexts d s1) as Hc1 by (case_bool_decide; rest Hv).
  apply bind_Ok in Hrun as (a & s2 & Ha & Hrun). apply assemble_for_task_Ok in Ha as (-> & Hin & Ha).
  apply bind_Ok in Hrun as (id & s3 & Hsn & [-> ->]%ret_Ok). simpl.
  apply insert_snapshot_contexts in Hsn as [Hc (sn & Hsn & Hid & Hver & _)]; [|done].
  split_and!; [by etrans | | by exists sn]. eapply version_in_mono, Hin. apply Hc.
Qed.

#[export] Instance move_task_contexts a b c d e f g h i :
  Respects contexts (move_task a b c d e f g h i).
Proof.
  intros s r s' Hrun. unfold move_task in Hrun. reading Hrun; [rest Hrun|].
  apply bind_Ok in Hrun as (id & s1 & Hsn & Hrun).
  apply create_snapshot_contexts in Hsn as (Hc & Hin & _ & Hsn). transitivity s1; [done|].
  apply bind_Ok in Hrun as (n & s2 & Hup & Hrun). transitivity s2; [|rest Hrun].
  eapply update_tasks_contexts, Hup; [apply (rehome_task_lawful a c _ id f) | done | done | done].
Qed.

(** A Task that is opened with the snapshot that was made for it. *)
Lemma opened_task_contexts p w k prompt actor su uuid now row act key digest sid tid at_ d pin d1 x d' :
  create_active_snapshot_for_task p w k prompt actor su uuid now d = Ok (pin, d1) →
  (tk_project_id row, tk_project_context_version_id row, tk_project_context_snapshot_id row)
    = (p, Some pin.2, Some pin.1) →
  open_task row act key digest pin.1 sid tid at_ d1 = Ok (x, d') → contexts d d'.
Proof.
  intros Hpin Hrow Hop.
  apply create_active_snapshot_contexts in Hpin as (Hc & Hin & sn & Hsn & Hid & Hv).
  transitivity d1; [done|]. unfold open_task in Hop. apply bind_Ok in Hop as (? & s3 & Hins & Hop).
  transitivity s3; [|exact (respects (R:=contexts) _ _ _ Hop)]. simplify_eq.
  eapply insert_task_contexts, Hins. exists sn, pin.2. split_and!; congruence.
Qed.

#[export] Instance create_task_contexts a b c d e f g h i j k l :
  Respects contexts (create_task a b c d e f g h i j k l).
Proof.
  intros s r s' Hrun. unfold create_task in Hrun. reading Hrun; [replayed Hrun|].
  apply bind_Ok in Hrun as (pin & s1 & Hpin & Hrun). apply bind_Ok in Hrun as (? & s2 & Hop & Hrun).
  transitivity s2; [|rest Hrun]. eapply opened_task_contexts; [exact Hpin | | exact Hop]; done.
Qed.

(** ** Forks *)

#[export] Instance fork_receipts_contexts : ForkReceipts contexts.
Proof.
  constructor; [apply _|..]; intros; intros ?s ?x ?s Hrun;
    (apply contexts_same; [exact (respects (R:=lawful) _ _ _ Hrun)|..]; by statement_inv Hrun).
Qed.

#[export] Instance open_fork_contexts a b c d e f g h i :
  Respects contexts (open_fork a b c d e f g h i).
Proof.
  intros s r s' Hrun. unfold open_fork in Hrun. cbv zeta in Hrun.
  apply bind_Ok in Hrun as (pin & s1 & Hpin & Hrun).
  apply bind_Ok in Hrun as (? & s2 & Hop & [_ ->]%ret_Ok). eapply opened_task_contexts; [exact Hpin | | exact Hop]; done.
Qed.

#[export] Instance confirm_fork_contexts a b c d e f g h :
  Respects contexts (confirm_fork a b c d e f g h).
Proof. method. Qed.

(** ** Whole runs *)

#[local] Instance set_environment_contexts a b c d e f g h :
  Respects contexts (repo_update_environment a (set_environment b c d e f g h)).
Proof.
  intros s x s' Hrun. apply contexts_same;
    [|unfold repo_update_environment in Hrun; by statement_inv Hrun..].
  revert Hrun. apply respects_apply, rs_update_environments; [one_row | intros ?; done].
Qed.

#[export] Instance registry_blocks_contexts : RegistryBlocks contexts.
Proof. apply registry_plain_blocks; [apply _ | apply _ |]. method. Qed.

Lemma context_step_contexts d d' : context_step d d' → contexts d d'.
Proof.
  intros (m & u & key & c & r & Hrun). revert Hrun. apply respects_apply.
  unfold context_mutate. destruct m; apply _.
Qed.

Lemma conversation_contexts d d' : registry_same d d' → db_evolves d d' → contexts d d'.
Proof.
  intros Hsame Hev. apply contexts_same; [by apply conversation_lawful|..]; apply Hsame.
Qed.

Lemma domain_steps_contexts d d' : rtc domain_step d d' → contexts d d'.
Proof.
  apply (domain_steps_cases contexts);
    [apply registry_step_spec, _ | apply context_step_contexts | apply conversation_contexts].
Qed.

Lemma domain_initial_context d : domain_initial d → context_sound d.
Proof.
  intros []. constructor; repeat match goal with H : ?x = [] |- _ => rewrite H; clear H end;
    by intros ? ?%not_elem_of_nil.
Qed.

Lemma domain_reachable_context d : domain_reachable d → context_sound d.
Proof.
  intros (d0 & Hi & Hr). destruct (domain_steps_contexts _ _ Hr) as [_ Hk].
  apply Hk; [by apply domain_initial_ok | by apply domain_initial_context].
Qed.
End steps.
