(* ===== verification/ForkSound.v ===== *)
(** * What the receipts of forks promise

    A preview is of a conversation and offers it to the other engine family; a committed
    transfer is complete: it confirms its preview, it is the only one that does, and the
    Task that it names is the caller's and runs on the engine and in the Workspace that
    were previewed.  Every method of the domain keeps this and leaves the receipts that
    are there as they are. *)

From stdpp Require Import base tactics list strings relations.
From Stdlib Require Import ZArith Lia.
From S2P Require Import Prelude PyText PyJson Tables Contracts RegistryRows Schema Repository.
From S2P Require Import Projection RegistryRepository Service EnvironmentIdentity Authorization.
From S2P Require Import Registry RegistryWorkspaces Acceptance Execution Evolution Methods.
From S2P Require Import Integrity System Assembler ContextRepository Context ContextCandidates.
From S2P Require Import ContextSnapshots TaskLifecycle ForkRepository Fork RegistryMethods.
From S2P Require Import ContextMethods RegistryFrame RegistryIntegrity RegistrySound.

Local Open Scope string_scope.

#[local] Hint Constants Opaque : typeclass_instances.
#[local] Hint Transparent dict time relation : typeclass_instances.

(** ** The rules *)

Record fork_preview_sound (p : fork_preview_row) : Prop := mkForkPreviewSound {
  fps_check : fork_preview_check p = true;
  fps_engine :
    engine_family_by_harness (fp_target_harness_engine p) = Some (fp_target_engine_family p) }.

(** The Task that a transfer opened. *)
Definition fork_target_of (t : fork_transfer_row) (p : fork_preview_row) (k : task_row) : Prop :=
  (ft_target_task_id t, fp_target_harness_engine p, fp_target_workspace_id p, ft_actor_user_id t)
  = (Some (tk_task_id k), tk_harness_engine k, tk_workspace_id k, tk_owner_user_id k).

Definition fork_transfer_sound (d : db) (t : fork_transfer_row) : Prop :=
  ft_status t = Fork_TRANSFERRED ∧
  ∃ p k, p ∈ fork_previews d ∧ k ∈ tasks d ∧ fork_confirms t p = true ∧
    fork_confirmed_in_time t p = true ∧ fork_target_of t p k.

Record fork_sound (d : db) : Prop := mkForkSound {
  fo_previews : Unique always fp_preview_id (fork_previews d);
  fo_preview p : p ∈ fork_previews d → fork_preview_sound p;
  fo_transfers : Unique always ft_transfer_id (fork_transfers d);
  fo_once : Unique always ft_preview_id (fork_transfers d);
  fo_transfer t : t ∈ fork_transfers d → fork_transfer_sound d t }.

(** ** Steps *)

Record forks (d d' : db) : Prop := mkForks {
  fk_tasks : Evolves task_evolves (tasks d) (tasks d');
  fk_previews : Appends (fork_previews d) (fork_previews d');
  fk_transfers : Appends (fork_transfers d) (fork_transfers d');
  fk_sound : fork_sound d → fork_sound d' }.

#[export] Instance forks_preorder : PreOrder forks.
Proof.
  split; [by intros d; constructor|]. intros d1 d2 d3 [] []. constructor; [by etrans.. | auto].
Qed.

Lemma fork_transfer_sound_mono d d' t :
  Evolves task_evolves (tasks d) (tasks d') → Appends (fork_previews d) (fork_previews d') →
  fork_transfer_sound d t → fork_transfer_sound d' t.
Proof.
  intros Ht Hp [Hs (p & k & Hin & Hk & Hc & Hi & Hof)]. split; [done|].
  destruct (evolves_elem _ _ _ _ Ht Hk) as (k' & Hk' & Hev).
  apply appends_prefix in Hp as [v Hv]. exists p, k'. split_and!; try done.
  - rewrite Hv. apply elem_of_app. by left.
  - unfold task_evolves, task_identity, fork_target_of in *. congruence.
Qed.

(** Nothing is written to the receipts. *)
Lemma forks_same d d' :
  Evolves task_evolves (tasks d) (tasks d') → fork_previews d' = fork_previews d →
  fork_transfers d' = fork_transfers d → forks d d'.
Proof.
  intros Ht Ep Et. constructor; rewrite ?Ep, ?Et; try done. intros [].
  constructor; rewrite ?Ep, ?Et; try done. intros t Hin.
  eapply fork_transfer_sound_mono; [done | by rewrite Ep | auto].
Qed.

Ltac receipts_untouched :=
  intros; intros ?s ?x ?s Hrun;
  first [ statement_inv Hrun
        | unfold open_conversation in Hrun; tx_inv_all;
          repeat match goal with H : ?m _ = Ok _ |- _ => statement_inv H end ];
  apply forks_same; simpl; try reflexivity;
  first [ apply evolves_insert; apply _ | apply evolves_update; [apply _|]; done ].

#[export] Instance registry_statements_forks : RegistryStatements forks.
Proof. constructor; [constructor; [constructor; [apply _|..]|..]|]; receipts_untouched. Qed.
#[export] Instance context_statements_forks : ContextStatements forks.
Proof. constructor; [constructor; [constructor; [apply _|..]|..]|..]; receipts_untouched. Qed.
#[export] Instance insert_derived_relationship_forks a b c d e :
  Respects forks (insert_derived_relationship a b c d e).
Proof. receipts_untouched. Qed.

Lemma insert_fork_preview_forks p d x d' :
  engine_family_by_harness (fp_target_harness_engine p) = Some (fp_target_engine_family p) →
  insert_fork_preview p d = Ok (x, d') → forks d d'.
Proof.
  intros He Hrun. statement_inv Hrun.
  match goal with H : _ _ _ = None |- _ => guard_facts H end.
  assert (Appends (fork_previews d) (fork_previews d ++ [p])%list) by (apply evolves_insert, _).
  constructor; simpl; try reflexivity; [done|]. intros []. constructor; simpl; try done.
  - by apply unique_insert.
  - intros p' [?| ->%list_elem_of_singleton]%elem_of_app; [auto|]. by constructor.
  - intros t Ht. by eapply fork_transfer_sound_mono; auto.
Qed.

(** The receipt after a transfer. *)
Definition transferred (task_id new actor key digest : string) (p : fork_preview_row)
    (c : fork_confirmation) (now : time) (k : fork_call) : fork_transfer_row :=
  mkForkTransfer (fk_transfer_id k) (fp_preview_id p) (fc_preview_hash c) task_id
    (fc_source_revision c) (fc_transfer_mode c) (fc_truncation_acknowledged c)
    (fc_full_transcript_confirmed c) actor key digest Fork_TRANSFERRED (Some new)
    [("submission_id", JStr (fk_submission_id k)); ("source_revision", JStr (fc_source_revision c))]
    None now (Some now) now.

Lemma record_transfer_Ok task_id new actor key digest p c now k d x d' :
  record_transfer task_id new actor key digest p c now k d = Ok (x, d') →
  let t := transferred task_id new actor key digest p c now k in
  let r := mkRelationship new task_id Rel_DERIVED_FROM now
    (Some ("relationship-" ++ fk_relationship_uuid k))
    [("kind", JStr "conversation_fork"); ("transfer_id", JStr (fk_transfer_id k));
     ("preview_id", JStr (fp_preview_id p))] in
  d' = with_relationships (λ l, (l ++ [r])%list) (with_fork_transfers (λ l, (l ++ [t])%list) d) ∧
  row_exists (fork_confirms t) (fork_previews d) = true ∧
  row_exists (fork_confirmed_in_time t) (fork_previews d) = true ∧
  index_free always ft_transfer_id t (fork_transfers d) = true ∧
  index_free always ft_preview_id t (fork_transfers d) = true.
Proof.
  intros Hrun. unfold record_transfer in Hrun. tx_inv_all.
  repeat match goal with H : ?m _ = Ok _ |- _ => statement_inv H end.
  repeat match goal with H : _ _ _ = None |- _ => guard_facts H end. split_and!; try done.
  unfold with_relationships, with_fork_transfers; simpl. f_equal.
  etrans; [apply on_rows_new; [|by rewrite eqs_refl] | done]. intros t Ht. apply andb_false_iff. left.
  apply eqs_ne. match goal with H : index_free always ft_transfer_id _ _ = true |- _ =>
    by pose proof (index_free_always ft_transfer_id _ _ _ H Ht) end.
Qed.

(** A receipt is final when its transaction commits. *)
Lemma record_transfer_forks task_id new actor key digest p c now k target d x d' :
  target ∈ tasks d →
  (tk_task_id target, tk_harness_engine target, tk_workspace_id target, tk_owner_user_id target)
    = (new, fp_target_harness_engine p, fp_target_workspace_id p, actor) →
  p ∈ fork_previews d →
  record_transfer task_id new actor key digest p c now k d = Ok (x, d') → forks d d'.
Proof.
  intros Hk Hof Hp (-> & Hc & Hi & Hid & Honce)%record_transfer_Ok.
  constructor; simpl; try reflexivity; [apply evolves_insert, _|]. intros [Hpk Hps Htk Ho Hs].
  constructor; simpl; try done; [by apply unique_insert..|].
  intros t [Ht| ->%list_elem_of_singleton]%elem_of_app; [by apply Hs|].
  apply row_exists_true in Hc as (p1 & Hp1 & Hc), Hi as (p2 & Hp2 & Hi).
  assert (p1 = p) as ->.
  { apply (unique_eq always fp_preview_id (fork_previews d)); try done.
    unfold fork_confirms in Hc. by split_bools. }
  assert (p2 = p) as ->.
  { apply (unique_eq always fp_preview_id (fork_previews d)); try done.
    unfold fork_confirmed_in_time in Hi. by split_bools. }
  split; [done|]. exists p, target. split_and!; try done. unfold fork_target_of; simpl. congruence.
Qed.

Section methods.
Context `{Host, Kernel}.

#[export] Instance preview_fork_forks a b c d e f : Respects forks (preview_fork a b c d e f).
Proof.
  intros s r s' Hrun. unfold preview_fork in Hrun. reading Hrun; [replayed Hrun|].
  apply bind_Ok in Hrun as (? & s1 & Hins & Hrun). transitivity s1; [|rest Hrun].
  eapply insert_fork_preview_forks, Hins. simpl. split_bools. congruence.
Qed.

(** The Task that a confirmation opens. *)
Definition fork_task (source : task_row) (p : fork_preview_row) (environment_id prompt actor : string)
    (confirmed_at : time) (k : fork_call) (pin : string * string) : task_row :=
  mkTask ("task-" ++ fk_task_uuid k) (fp_target_project_id p) (fp_target_workspace_id p)
    environment_id (tk_researcher_type source) (fp_target_harness_engine p)
    (Some (default (JList []) (tk_user_skills source)))
    (Some (default (JList []) (tk_user_mcp_servers source)))
    (fp_target_title p) prompt confirmed_at confirmed_at actor None None (Some pin.2) (Some pin.1).

Lemma open_fork_Ok source p e prompt actor key digest now k d new d' :
  open_fork source p e prompt actor key digest now k d = Ok (new, d') →
  new = "task-" ++ fk_task_uuid k ∧
  ∃ pin d1 u,
    create_active_snapshot_for_task (fp_target_project_id p) (fp_target_workspace_id p) new prompt
      actor (fk_successor k) (fk_snapshot_uuid k) (fk_snapshot_at k) d = Ok (pin, d1) ∧
    open_task (fork_task source p e prompt actor now k pin) actor key digest pin.1
      (fk_submission_id k) (fk_reserved_turn_id k) now d1 = Ok (u, d').
Proof.
  intros Hrun. unfold open_fork in Hrun. cbv zeta in Hrun.
  apply bind_Ok in Hrun as (pin & d1 & Hpin & Hrun).
  apply bind_Ok in Hrun as (u & d2 & Hop & [-> ->]%ret_Ok). eauto 10.
Qed.

Lemma open_task_inserts t a b c e f g h d u d' :
  open_task t a b c e f g h d = Ok (u, d') → t ∈ tasks d'.
Proof.
  intros Hrun. unfold open_task in Hrun. apply bind_Ok in Hrun as (? & d1 & Hins & Hrun).
  assert (tasks d' = tasks d1) as ->.
  { unfold open_conversation in Hrun. tx_inv_all.
    by repeat match goal with H : ?m _ = Ok _ |- _ => statement_inv H end. }
  statement_inv Hins. apply elem_of_app. right. constructor.
Qed.

#[export] Instance open_task_forks a b c d e f g h : Respects forks (open_task a b c d e f g h).
Proof. method. Qed.
#[export] Instance open_fork_forks a b c d e f g h i :
  Respects forks (open_fork a b c d e f g h i).
Proof.
  assert (∀ a b c d e f g, Respects forks (publish_verified_version_in_transaction a b c d e f g))
    by apply _. method.
Qed.

#[export] Instance confirm_fork_forks a b c d e f g h :
  Respects forks (confirm_fork a b c d e f g h).
Proof.
  intros s r s' Hrun. unfold confirm_fork in Hrun. reading Hrun; [replayed Hrun|].
  apply bind_Ok in Hrun as (new & s1 & Hop & Hrun). pose proof (respects (R:=forks) _ _ _ Hop) as Hf.
  transitivity s1; [done|]. apply bind_Ok in Hrun as (? & s2 & Hrec & Hrun).
  transitivity s2; [|rest Hrun].
  apply open_fork_Ok in Hop as (-> & pin & d1 & ? & _ & Hop). apply open_task_inserts in Hop.
  eapply record_transfer_forks; [exact Hop | done | | exact Hrec].
  match goal with Hp : fork_preview_by_id _ _ = Some _ |- _ =>
    apply select_one_Some in Hp as [Hp _] end.
  destruct Hf as [_ [v ->]%appends_prefix _ _]. apply elem_of_app. by left.
Qed.

#[export] Instance fork_blocks_forks : ForkBlocks forks.
Proof. constructor; apply _. Qed.

Lemma conversation_forks d d' : registry_same d d' → db_evolves d d' → forks d d'.
Proof. intros Hsame Hev. apply forks_same; [apply Hev | apply Hsame..]. Qed.

Lemma domain_steps_forks d d' : rtc domain_step d d' → forks d d'.
Proof. apply (domain_steps_spec forks), conversation_forks. Qed.

Lemma domain_initial_forks d : domain_initial d → fork_sound d.
Proof.
  intros []. constructor; repeat match goal with H : ?x = [] |- _ => rewrite H; clear H end;
    first [ apply NoDup_nil_2 | by intros ? ?%not_elem_of_nil ].
Qed.

Lemma domain_reachable_forks d : domain_reachable d → fork_sound d.
Proof.
  intros (d0 & Hi & Hs). apply (fk_sound _ _ (domain_steps_forks _ _ Hs)).
  by apply domain_initial_forks.
Qed.
End methods.
