(* ===== verification/Worker.v ===== *)
(** * The dispatcher ([src/ainrf/domain/conversation_worker.py])

    One [run_once] of a worker: claim a submission, check where it may run, arm its delivery,
    let the engine run and record what it reports, hand it the control requests of the user,
    and settle the outcome.  Each call of the execution service is one committed transaction,
    and what other processes commit may come between any two of them, so a dispatch is a
    state machine over its local variables and the database.  The engine is not part of the
    program: the identity that its adapter exposes, its events, its receipts and the way in
    which it ends are arguments.  So are the checks that touch the file system: [tenant] is
    [_tenant_user_for], [permitted] is [_validate_workspace_permissions]. *)

From stdpp Require Import base tactics list strings relations.
From Stdlib Require Import ZArith Lia.
From S2P Require Import Prelude PyText Tables Contracts RegistryRows Schema Repository.
From S2P Require Import RegistryRepository Service Acceptance Execution ContextRepository.
From S2P Require Import EnvironmentIdentity TaskLifecycle Fork System RegistryFrame.

Local Open Scope string_scope.
Local Open Scope tx_scope.

(** ** Launch context *)

(** The fields of [ExecutionContext] that are about the Task; the settings of the engine
    (endpoints, keys, models) are handed through from other columns. *)
Record launch_context := mkLaunch {
  lc_task_id : string;
  lc_canonical_path : string;
  lc_rendered_prompt : string;
  lc_researcher_type : string;
  lc_engine_type : string;
  lc_skills : list string;
  lc_user_mcp_servers : list string;
  lc_runtime_launch_key : string;
  lc_runtime_execution_id : string;
  lc_tenant_user : option string }.

Definition json_string_list (value : option json) : list string :=
  match value with
  | Some (JList l) => omap (λ v, match v with JStr s => Some s | _ => None end) l
  | _ => []
  end.

Definition AGENT_SDK : string := "agent-sdk".
Definition CODEX_APP_SERVER : string := "codex-app-server".

Definition turn_separator : string :=
  let newline := String (Ascii.ascii_of_nat 10) "" in
  newline ++ newline ++ "User Turn:" ++ newline.

(** The input of the Turn, after the pinned Context if there is any. *)
Definition render_prompt (context_content : option string) (input_text : string) : string :=
  match context_content with
  | Some content => if truthy content then content ++ turn_separator ++ input_text else input_text
  | None => input_text
  end.

Definition require_environment_grant (auth : option (list access_row))
    (environment_id user_id : string) : txn (option Z) :=
  require_some (active_environment_execution_grant auth environment_id user_id) RuntimeError.

(** [_require_claim_environment_grant] *)
Definition require_claim_environment_grant (auth : option (list access_row))
    (claim : SubmissionClaim) : txn (option Z) :=
  task ← gets (task_by_id (sc_task_id claim));
  task ← require_some task RuntimeError;
  workspace ← gets (workspace_by_id (tk_workspace_id task));
  workspace ← require_some workspace RuntimeError;
  require (eqs (tk_environment_id task) (ws_environment_id workspace)) RuntimeError;;
  require_environment_grant auth (tk_environment_id task) (tk_owner_user_id task).

Section launch.
Context `{Host}.

(** [_execution_context] *)
Definition execution_context (auth : option (list access_row))
    (tenant : string → result error (option string)) (permitted : string → option string → bool)
    (claim : SubmissionClaim) : txn launch_context :=
  runtime_identity ← runtime_identity_for_launch_context claim;
  task ← gets (task_by_id (sc_task_id claim));
  task ← require_some task RuntimeError;
  project ← gets (project_by_id (tk_project_id task));
  project ← require_some project RuntimeError;
  workspace ← gets (workspace_by_id (tk_workspace_id task));
  workspace ← require_some workspace RuntimeError;
  environment ← gets (environment_by_id (tk_environment_id task));
  environment ← require_some environment RuntimeError;
  linked ← gets (linked_active (tk_project_id task) (tk_workspace_id task));
  require linked RuntimeError;;
  snapshot ← gets (λ d, sc_context_snapshot_ref claim ≫= λ ref, snapshot_by_id ref d);
  require (bool_decide (pj_status project = Project_ACTIVE)) RuntimeError;;
  require (bool_decide (ws_status workspace = Workspace_ACTIVE)
           && bool_decide (en_status environment = Env_ACTIVE)) RuntimeError;;
  let owner_user_id := tk_owner_user_id task in
  require (eqs (ws_owner_user_id workspace) owner_user_id) RuntimeError;;
  require (eqs (ws_environment_id workspace) (tk_environment_id task)) RuntimeError;;
  _ ← require_environment_grant auth (tk_environment_id task) owner_user_id;
  input_text ← require_some
    (match dict_get "text" (sc_input claim) with
     | Some (JStr s) => if blank s then None else Some s
     | _ => None
     end) RuntimeError;
  let prompt := render_prompt (cs_content <$> snapshot) input_text in
  tenant_user ← match tenant owner_user_id with Ok u => mret u | Err e => raise e end;
  let engine_type := tk_harness_engine task in
  require (not_none (engine_family_by_harness engine_type)) ValueError;;
  require (negb (not_none tenant_user && eqs engine_type AGENT_SDK)) RuntimeError;;
  require (permitted (ws_canonical_path workspace) tenant_user) RuntimeError;;
  mret (mkLaunch (sc_task_id claim) (ws_canonical_path workspace) prompt
          (tk_researcher_type task) engine_type (json_string_list (tk_user_skills task))
          (json_string_list (tk_user_mcp_servers task)) (sc_submission_id claim)
          (ri_runtime_execution_id runtime_identity) tenant_user).

(** ** Engine events *)

Record EngineEvent := mkEvent {
  ev_event_type : string;
  ev_payload : dict;
  ev_token_usage : option dict }.

Definition EVENT_ITEM : list (string * (TurnItemType * TurnItemActor)) :=
  [("message", (Item_AGENT_MESSAGE, Actor_AGENT));
   ("thinking", (Item_REASONING_SUMMARY, Actor_AGENT));
   ("tool_call", (Item_TOOL_CALL, Actor_AGENT));
   ("tool_result", (Item_TOOL_RESULT, Actor_TOOL));
   ("system", (Item_SYSTEM_NOTICE, Actor_SYSTEM));
   ("error", (Item_ERROR, Actor_SYSTEM));
   ("token", (Item_SYSTEM_NOTICE, Actor_SYSTEM))].

Definition event_item (event_type : string) : option (TurnItemType * TurnItemActor) :=
  snd <$> List.find (λ m, eqs m.1 event_type) EVENT_ITEM.

Definition item_payload (e : EngineEvent) : dict :=
  match ev_token_usage e with
  | Some usage => dict_set "usage" (JObj usage) (ev_payload e)
  | None => ev_payload e
  end.

Definition persist_event (execution : RuntimeExecutionClaim) (e : EngineEvent)
    (persisted_at : time) (item_id : string) : txn unit :=
  match event_item (ev_event_type e) with
  | Some (item_type, actor) =>
      _ ← append_item execution item_type actor (item_payload e)
            [("engine_event_type", JStr (ev_event_type e))] None None persisted_at item_id;
      mret tt
  | None => mret tt
  end.

(** What [raw_status in {"cancelled", "interrupted"}] can be asked of. *)
Definition hashable (v : json) : bool :=
  match v with JList _ | JObj _ => false | _ => true end.
Definition status_readable (e : EngineEvent) : bool :=
  negb (eqs (ev_event_type e) "status")
  || match dict_get "status" (ev_payload e) with Some v => hashable v | None => true end.

(** One round of the loop of [emit], but for the variables that [note_status] sets. *)
Definition emit_event (execution : RuntimeExecutionClaim) (e : EngineEvent)
    (persisted_at : time) (item_id : string) : txn unit :=
  require (status_readable e) TypeError;;
  persist_event execution e persisted_at item_id.

(** ** One dispatch *)

(** A control request that the adapter is delivering. *)
Record flight := mkFlight {
  fl_control_id : string;
  fl_expected_status : ControlRequestStatus;
  fl_claim_id : option string }.

(** The local variables of [run_once]; the events of the [emit] under way that are not
    persisted yet, and the control requests that [_consume_controls] has read. *)
Record dispatch := mkDispatch {
  ds_claim : SubmissionClaim;
  ds_engine_type : string;
  ds_execution : option RuntimeExecutionClaim;
  ds_terminal_status : option TurnStatus;
  ds_failure_code : option string;
  ds_cancellation_during_acceptance : bool;
  ds_pending_events : list EngineEvent;
  ds_events_to_persist : list EngineEvent;
  ds_controls : list control_row;
  ds_flight : option flight }.

Definition start_dispatch (claim : SubmissionClaim) (context : launch_context) : dispatch :=
  mkDispatch claim (lc_engine_type context) None None None false [] [] [] None.

Definition with_outcome (status : option TurnStatus) (failure : option string) (w : dispatch) :
    dispatch :=
  mkDispatch (ds_claim w) (ds_engine_type w) (ds_execution w) status failure
    (ds_cancellation_during_acceptance w) (ds_pending_events w) (ds_events_to_persist w)
    (ds_controls w) (ds_flight w).
Definition with_events (pending to_persist : list EngineEvent) (w : dispatch) : dispatch :=
  mkDispatch (ds_claim w) (ds_engine_type w) (ds_execution w) (ds_terminal_status w)
    (ds_failure_code w) (ds_cancellation_during_acceptance w) pending to_persist (ds_controls w)
    (ds_flight w).
Definition with_execution (x : RuntimeExecutionClaim) (w : dispatch) : dispatch :=
  mkDispatch (ds_claim w) (ds_engine_type w) (Some x) (ds_terminal_status w) (ds_failure_code w)
    (ds_cancellation_during_acceptance w) (ds_pending_events w) (ds_events_to_persist w)
    (ds_controls w) (ds_flight w).
Definition with_cancellation (w : dispatch) : dispatch :=
  mkDispatch (ds_claim w) (ds_engine_type w) (ds_execution w) (ds_terminal_status w)
    (ds_failure_code w) true (ds_pending_events w) (ds_events_to_persist w) (ds_controls w)
    (ds_flight w).
Definition with_dispatch_controls (controls : list control_row) (f : option flight)
    (w : dispatch) : dispatch :=
  mkDispatch (ds_claim w) (ds_engine_type w) (ds_execution w) (ds_terminal_status w)
    (ds_failure_code w) (ds_cancellation_during_acceptance w) (ds_pending_events w)
    (ds_events_to_persist w) controls f.

(** The identity that the adapter exposes once the engine has accepted the Turn. *)
Record NativeAcceptanceIdentity := mkAcceptanceIdentity {
  na_conversation_kind : string;
  na_conversation_ref : string;
  na_turn_kind : string;
  na_turn_ref : string }.

Definition family_of_engine (engine_type : string) : string :=
  if eqs engine_type CODEX_APP_SERVER then "codex" else "claude".

(** [emit], up to the events that it persists: the first event after the acceptance opens
    the execution and releases the events that came before. *)
Definition receive (snapshot : db) (identity : option NativeAcceptanceIdentity)
    (e : EngineEvent) (accepted_at : time) (binding_uuid item_uuid : string) (w : dispatch)
    (d : db) : dispatch * db :=
  match ds_execution w with
  | Some _ => (with_events (ds_pending_events w) [e] w, d)
  | None =>
      let pending := (ds_pending_events w ++ [e])%list in
      match identity with
      | None => (with_events pending [] w, d)
      | Some i =>
          let claim := ds_claim w in
          match accept_and_open_execution snapshot claim (family_of_engine (ds_engine_type w))
                  (ds_engine_type w) (na_conversation_kind i) (na_conversation_ref i)
                  (na_turn_kind i) (na_turn_ref i) (Some "worker") (Some (sc_submission_id claim))
                  [("source", JStr "first_engine_event")] accepted_at binding_uuid item_uuid d with
          | Ok (x, d') => (with_events [] pending (with_execution x w), d')
          | Err (ConversationContractError TASK_NOT_OPEN) =>
              (with_events pending [] (with_cancellation w), d)
          | Err _ => (with_events pending [] w, d)
          end
      end
  end.

(** The variables that a status event sets; none if its status cannot be read. *)
Definition note_status (e : EngineEvent) (w : dispatch) : dispatch :=
  if eqs (ev_event_type e) "status" then
    match dict_get "status" (ev_payload e) with
    | Some (JStr raw_status) =>
        if eqs raw_status "succeeded" then
          with_outcome (Some Turn_COMPLETED) (ds_failure_code w) w
        else if eqs raw_status "cancelled" || eqs raw_status "interrupted" then
          with_outcome (Some Turn_INTERRUPTED) (ds_failure_code w) w
        else if eqs raw_status "failed" then
          with_outcome (Some Turn_FAILED) (Some "engine_failed") w
        else w
    | _ => w
    end
  else w.

(** The rest of [emit]: one event; an exception drops the events after it. *)
Definition persist_next (persisted_at : time) (item_id : string) (w : dispatch) (d : db) :
    dispatch * db :=
  match ds_events_to_persist w, ds_execution w with
  | e :: rest, Some x =>
      let w := note_status e w in
      match emit_event x e persisted_at item_id d with
      | Ok (_, d') => (with_events (ds_pending_events w) rest w, d')
      | Err _ => (with_events (ds_pending_events w) [] w, d)
      end
  | _, _ => (w, d)
  end.

(** ** Control requests *)

(** [with suppress(DomainConflictError)] and [except DomainConflictError: continue]. *)
Definition on_conflict {A} (alternative : A) (m : txn A) : txn A := λ d,
  match m d with
  | Err (DomainConflictError _) => Ok (alternative, d)
  | r => r
  end.

Definition worker_evidence : dict :=
  [("source", JStr "worker"); ("phase", JStr "control_delivery")].

(** [_consume_controls] up to the call of the adapter; [None] when there is none. *)
Definition start_control (c : control_row) (claim_id : string) (now : time) :
    txn (option flight) :=
  let control_id := ct_control_request_id c in
  match ct_kind c with
  | Control_STEER =>
      match dict_get "text" (ct_payload c) with
      | Some (JStr _) =>
          on_conflict None
            (transition_control control_id Ctl_REQUESTED Ctl_DELIVERING worker_evidence None now;;
             mret (Some (mkFlight control_id Ctl_DELIVERING None)))
      | _ =>
          on_conflict None
            (transition_control control_id Ctl_REQUESTED Ctl_REJECTED
               [("reason", JStr "steer text is missing")] (Some "invalid_control_payload") now;;
             mret None)
      end
  | Control_INTERRUPT =>
      on_conflict None
        (claimed ← claim_interrupt control_id claim_id now;
         mret (if (claimed : bool) then Some (mkFlight control_id Ctl_REQUESTED (Some claim_id)) else None))
  end.

(** How the call of the adapter ends. *)
Inductive adapter_outcome :=
| Adapter_RECEIPT (accepted : bool) (evidence : dict)
| Adapter_CANCELLED
| Adapter_RAISED (error_type : string).

Definition adapter_evidence (detail : string * json) (f : flight) : dict :=
  ([("source", JStr "runtime_adapter"); ("phase", JStr "control_delivery"); detail]
   ++ match fl_claim_id f with Some k => [("delivery_claim_id", JStr k)] | None => [] end
   ++ [("replay_forbidden", JBool true)])%list.

(** ... and after it. *)
Definition end_control (f : flight) (o : adapter_outcome) (now : time) : txn unit :=
  let transition (status : ControlRequestStatus) (evidence : dict) (failure_code : option string) :=
    on_conflict tt (transition_control (fl_control_id f) (fl_expected_status f) status evidence
                      failure_code now) in
  match o with
  | Adapter_RECEIPT accepted evidence =>
      transition (if accepted then Ctl_ACCEPTED else Ctl_REJECTED) evidence
        (if accepted then None else Some "capability_unsupported")
  | Adapter_CANCELLED =>
      transition Ctl_DELIVERY_UNKNOWN (adapter_evidence ("reason", JStr "adapter_cancelled") f)
        (Some "adapter_cancelled")
  | Adapter_RAISED error_type =>
      transition Ctl_DELIVERY_UNKNOWN (adapter_evidence ("error_type", JStr error_type) f)
        (Some "adapter_error")
  end.

(** ** The end of a run *)

Inductive run_outcome := Run_RETURNED | Run_CANCELLED | Run_RAISED.

Definition end_run (o : run_outcome) (w : dispatch) : dispatch :=
  match o with
  | Run_RETURNED => w
  | Run_CANCELLED => with_outcome (Some Turn_INTERRUPTED) (ds_failure_code w) w
  | Run_RAISED =>
      with_outcome (Some Turn_FAILED) (Some (or_else (ds_failure_code w) "runtime_error")) w
  end.

Definition unproven_reason (w : dispatch) : string :=
  if ds_cancellation_during_acceptance w then "task_cancelled_during_delivery"
  else "provider_acceptance_unproven".

(** The error that [run_once] raises, if any. *)
Definition settle (w : dispatch) (now : time) (d : db) : option error * db :=
  match ds_execution w with
  | None =>
      match mark_delivery_unknown (sc_submission_id (ds_claim w)) (unproven_reason w)
              [("source", JStr "runtime_adapter"); ("reason", JStr (unproven_reason w));
               ("replay_forbidden", JBool true)] now d with
      | Ok (_, d') => (None, d')
      | Err (DomainConflictError _ | ConversationContractError _) => (None, d)
      | Err e => (Some e, d)
      end
  | Some x =>
      match finish_execution x (default Turn_COMPLETED (ds_terminal_status w))
              [("source", JStr "engine_terminal")] (ds_failure_code w) now d with
      | Ok (_, d') => (None, d')
      | Err e => (Some e, d)
      end
  end.

(** The refusals of [begin_delivery] that leave the submission to a later claim. *)
Definition delivery_refused (e : error) : bool :=
  match e with
  | ConversationContractError TASK_NOT_OPEN | DomainConflictError _ => true
  | _ => false
  end.
End launch.

(** ** The dispatcher among other processes *)

Inductive worker :=
| Worker_IDLE
| Worker_CLAIMED (claim : SubmissionClaim)
| Worker_PREPARED (claim : SubmissionClaim) (context : launch_context)
| Worker_GRANTED (claim : SubmissionClaim) (context : launch_context) (capacity : option Z)
| Worker_RUNNING (w : dispatch)
| Worker_ENDED (w : dispatch)
| Worker_STOPPED.

Section dispatcher.
Context `{Host, Kernel}.

(** A run that is cancelled may report events until it has ended. *)
Definition engine_alive (phase : dispatch → worker) : Prop :=
  phase = Worker_RUNNING ∨ phase = Worker_ENDED.

(** [worker_others] also stands for what an engine reports after its run was abandoned: the
    claim of its execution stays genuine. *)
Inductive worker_step : worker * db → worker * db → Prop :=
| worker_others w d d' : domain_step d d' → worker_step (w, d) (w, d')
| worker_recover stale now recovered n d d' :
    recover_stale_control_delivery stale now recovered d = Ok (n, d') →
    worker_step (Worker_IDLE, d) (Worker_IDLE, d')
| worker_claim stale claimed now r d d' :
    claim_next_submission stale claimed now d = Ok (r, d') →
    worker_step (Worker_IDLE, d)
      (match r with Some claim => Worker_CLAIMED claim | None => Worker_IDLE end, d')
| worker_fails stale claimed now e d :
    (recover_stale_control_delivery stale claimed now d = Err e
     ∨ claim_next_submission stale claimed now d = Err e) →
    worker_step (Worker_IDLE, d) (Worker_STOPPED, d)
| worker_prepare auth tenant permitted claim context d :
    execution_context auth tenant permitted claim d = Ok (context, d) →
    worker_step (Worker_CLAIMED claim, d) (Worker_PREPARED claim context, d)
| worker_grant auth claim context capacity d :
    require_claim_environment_grant auth claim d = Ok (capacity, d) →
    worker_step (Worker_PREPARED claim context, d) (Worker_GRANTED claim context capacity, d)
| worker_abort claim d : worker_step (Worker_CLAIMED claim, d) (Worker_IDLE, d)
| worker_ungranted claim context d : worker_step (Worker_PREPARED claim context, d) (Worker_IDLE, d)
| worker_deliver claim context capacity now u d d' :
    begin_delivery (sc_submission_id claim) capacity now d = Ok (u, d') →
    worker_step (Worker_GRANTED claim context capacity, d)
      (Worker_RUNNING (start_dispatch claim context), d')
| worker_refused claim context capacity now e d :
    begin_delivery (sc_submission_id claim) capacity now d = Err e →
    worker_step (Worker_GRANTED claim context capacity, d)
      (if delivery_refused e then Worker_IDLE else Worker_STOPPED, d)
| worker_event phase snapshot identity e now binding_uuid item_uuid w d :
    engine_alive phase → ds_events_to_persist w = [] → rtc domain_step snapshot d →
    worker_step (phase w, snapshot)
      (let r := receive snapshot identity e now binding_uuid item_uuid w d in (phase r.1, r.2))
| worker_persist phase now item_id w d :
    engine_alive phase →
    worker_step (phase w, d) (let r := persist_next now item_id w d in (phase r.1, r.2))
| worker_read_controls x w d :
    ds_execution w = Some x → ds_controls w = [] → ds_flight w = None →
    worker_step (Worker_RUNNING w, d)
      (Worker_RUNNING (with_dispatch_controls (requested_controls (xc_runtime_execution_id x) d)
                         None w), d)
| worker_control c rest claim_id now f w d d' :
    ds_controls w = c :: rest → ds_flight w = None → start_control c claim_id now d = Ok (f, d') →
    worker_step (Worker_RUNNING w, d) (Worker_RUNNING (with_dispatch_controls rest f w), d')
| worker_receipt f o now u w d d' :
    ds_flight w = Some f → end_control f o now d = Ok (u, d') →
    worker_step (Worker_RUNNING w, d)
      (match o with
       | Adapter_CANCELLED => Worker_ENDED (end_run Run_CANCELLED w)
       | _ => Worker_RUNNING (with_dispatch_controls (ds_controls w) None w)
       end, d')
| worker_control_fails f o claim_id now c rest e w d :
    (ds_flight w = Some f ∧ end_control f o now d = Err e
     ∨ ds_controls w = c :: rest ∧ start_control c claim_id now d = Err e) →
    worker_step (Worker_RUNNING w, d) (Worker_ENDED (end_run Run_RAISED w), d)
| worker_end o w d :
    ds_events_to_persist w = [] →
    worker_step (Worker_RUNNING w, d) (Worker_ENDED (end_run o w), d)
| worker_settle cancelled_by_caller now w d :
    ds_events_to_persist w = [] →
    worker_step (Worker_ENDED w, d)
      (let r := settle w now d in
       (match r.1 with
        | None => if cancelled_by_caller : bool then Worker_STOPPED else Worker_IDLE
        | Some _ => Worker_STOPPED
        end, r.2)).
End dispatcher.
