(* ===== verification/RegistryScenario.v ===== *)
(** * A run of the registry

    From a new installation: Alice gets her default Project, creates another one,
    registers two Workspaces and links them, chooses and replaces its Primary,
    adds Bob and hands the Project over.  The databases of the run are the
    concrete inputs of the registry's witnesses. *)

From stdpp Require Import base tactics list strings relations pretty.
From Stdlib Require Import ZArith.
From S2P Require Import Prelude PyText PyJson Tables Contracts RegistryRows Schema Repository.
From S2P Require Import Projection RegistryRepository Service EnvironmentIdentity Authorization.
From S2P Require Import Registry RegistryWorkspaces Assembler Acceptance Execution Evolution Methods.
From S2P Require Import Integrity System Scenario RegistryMethods RegistryFrame RegistryIntegrity.
From S2P Require Import RegistrySound.

Local Open Scope string_scope.
Local Open Scope Z_scope.

#[export] Instance demo_kernel : Kernel :=
  {| artifact_sha := Some "release"; canonical_workspace_path p := p;
     py_str j := match j with JStr s => s | JInt n => pretty n | _ => "None" end;
     context_byte_budget := DEFAULT_CONTEXT_BYTE_BUDGET;
     platform_constraints := DEFAULT_PLATFORM_CONSTRAINTS;
     unified_diff before after := before ++ " -> " ++ after; container_environment := true;
     context_byte_budget_nonneg := default_budget_nonneg |}.

Definition root : user := mkUser (Some "root") (Some "admin").
Definition bob : user := mkUser (Some "bob") (Some "user").
Definition known_users : option (list string) := Some ["alice"; "bob"; "root"].

(** The call number [n]: its clock and its identifiers. *)
Definition nth_call (n : nat) : call :=
  let id s := s ++ pretty n in
  mkCall grants known_users (Z.of_nat n) (id "u") (id "c") (Z.of_nat n) (id "e") (Z.of_nat n)
    (id "f") (Z.of_nat n).

Definition reg0 : db :=
  mkDb (Some false) [] []
    [mkEnvironment "env" "host" (Some "root") "Host" None [("host", JStr "lab")] None true Env_ACTIVE
       0 0 None None None]
    [] [] [] [] [] [] [] [] [] [] [] [] [] [] [] [] [] [] [] [] [] [] [] [] [].

Definition reg1 : db := Eval vm_compute in after (provision "alice" "Alice" (nth_call 1)) reg0.
Definition lab : string := "project-u2".
Definition reg2 : db := Eval vm_compute in
  after (mutate (CreateProject "Lab" None false) alice (Some "k2") (nth_call 2)) reg1.
Definition ws3 : string := "workspace-u3".
Definition reg3 : db := Eval vm_compute in
  after (mutate (CreateWorkspaceAndAttach lab "env" "/a" "a" None None) alice (Some "k3")
           (nth_call 3)) reg2.
Definition ws4 : string := "workspace-u4".
Definition reg4 : db := Eval vm_compute in
  after (mutate (CreateWorkspaceAndAttach lab "env" "/b" "b" None None) alice (Some "k4")
           (nth_call 4)) reg3.
Definition reg5 : db := Eval vm_compute in
  after (mutate (SetPrimaryWorkspace lab ws3) alice (Some "k5") (nth_call 5)) reg4.
Definition reg6 : db := Eval vm_compute in
  after (mutate (ReplacePrimaryWorkspace lab ws3 ws4) alice (Some "k6") (nth_call 6)) reg5.
Definition reg7 : db := Eval vm_compute in
  after (mutate (AddMember lab "bob" "editor" true) alice (Some "k7") (nth_call 7)) reg6.
Definition reg8 : db := Eval vm_compute in
  after (mutate (TransferProjectOwner lab "bob") alice (Some "k8") (nth_call 8)) reg7.
Definition reg9 : db := Eval vm_compute in
  after (mutate (UnregisterWorkspace ws3 false) alice (Some "k9") (nth_call 9)) reg8.

Lemma reg0_initial : domain_initial reg0.
Proof.
  constructor; try reflexivity; [constructor; try reflexivity; apply NoDup_nil_2|].
  constructor; vm_compute; repeat constructor; set_solver.
Qed.

(** Each database is one transaction after the one before. *)
Ltac by_mutation m u k n :=
  eapply domain_registry, (registry_mutates m u (Some k) (nth_call n)); vm_compute; reflexivity.

Lemma reg_step1 : domain_step reg0 reg1.
Proof. eapply domain_registry, (registry_provisions "alice" "Alice" (nth_call 1)). vm_compute. reflexivity. Qed.
Lemma reg_step2 : domain_step reg1 reg2.
Proof. by_mutation (CreateProject "Lab" None false) alice "k2" 2%nat. Qed.
Lemma reg_step3 : domain_step reg2 reg3.
Proof. by_mutation (CreateWorkspaceAndAttach lab "env" "/a" "a" None None) alice "k3" 3%nat. Qed.
Lemma reg_step4 : domain_step reg3 reg4.
Proof. by_mutation (CreateWorkspaceAndAttach lab "env" "/b" "b" None None) alice "k4" 4%nat. Qed.
Lemma reg_step5 : domain_step reg4 reg5.
Proof. by_mutation (SetPrimaryWorkspace lab ws3) alice "k5" 5%nat. Qed.
Lemma reg_step6 : domain_step reg5 reg6.
Proof. by_mutation (ReplacePrimaryWorkspace lab ws3 ws4) alice "k6" 6%nat. Qed.
Lemma reg_step7 : domain_step reg6 reg7.
Proof. by_mutation (AddMember lab "bob" "editor" true) alice "k7" 7%nat. Qed.
Lemma reg_step8 : domain_step reg7 reg8.
Proof. by_mutation (TransferProjectOwner lab "bob") alice "k8" 8%nat. Qed.
Lemma reg_step9 : domain_step reg8 reg9.
Proof. by_mutation (UnregisterWorkspace ws3 false) alice "k9" 9%nat. Qed.

Lemma reg_steps49 : rtc domain_step reg4 reg9.
Proof.
  eapply rtc_l; [apply reg_step5|]. eapply rtc_l; [apply reg_step6|].
  eapply rtc_l; [apply reg_step7|]. eapply rtc_l; [apply reg_step8|]. apply rtc_once, reg_step9.
Qed.
Lemma reg1_reachable : domain_reachable reg1.
Proof. exists reg0. split; [apply reg0_initial | apply rtc_once, reg_step1]. Qed.
Lemma reg4_reachable : domain_reachable reg4.
Proof.
  eapply domain_reachable_steps; [apply reg1_reachable|]. eapply rtc_l; [apply reg_step2|].
  eapply rtc_l; [apply reg_step3|]. apply rtc_once, reg_step4.
Qed.
Lemma reg9_reachable : domain_reachable reg9.
Proof. eapply domain_reachable_steps; [apply reg4_reachable | apply reg_steps49]. Qed.
Lemma reg7_reachable : domain_reachable reg7.
Proof.
  eapply domain_reachable_steps; [apply reg4_reachable|]. eapply rtc_l; [apply reg_step5|].
  eapply rtc_l; [apply reg_step6|]. apply rtc_once, reg_step7.
Qed.
