(* ===== verification/RegistryGuarantees.v ===== *)
(** * Guarantees of the registry

    What holds of every database that the whole domain (registry and
    conversations) reaches from a new installation. *)

From stdpp Require Import base tactics list strings relations.
From Stdlib Require Import ZArith Lia.
From S2P Require Import Prelude PyText PyJson Tables Contracts RegistryRows Schema Repository.
From S2P Require Import Projection RegistryRepository Service EnvironmentIdentity Authorization.
From S2P Require Import Registry RegistryWorkspaces RegistryViews Acceptance Execution Evolution.
From S2P Require Import Methods Integrity System Scenario RegistryMethods RegistryFrame.
From S2P Require Import ContextRepository RegistryIntegrity RegistrySound RegistryScenario.

Local Open Scope string_scope.
#[local] Hint Constants Opaque : typeclass_instances.
#[local] Hint Transparent dict time relation : typeclass_instances.

(** ** Consistency *)

(** C7: whatever sequence of registry and conversation transactions runs, the registry's unique
    indexes hold and every reference is met (one active default Project per owner, one active
    Primary Workspace per Project, one active Context per Project); the owner of a Project is
    never also a member, only editors may publish, default Projects are never archived, every
    Project has an active Context, and an active link leads to a registered Workspace. *)
Theorem registry_is_consistent `{Host, Kernel} d :
  domain_reachable d → registry_integrity d ∧ registry_sound d.
Proof. apply domain_reachable_ok. Qed.

Lemma registry_is_consistent_witness :
  domain_reachable reg9 ∧ registry_integrity reg9 ∧ registry_sound reg9.
Proof. split; [exact reg9_reachable | exact (registry_is_consistent reg9 reg9_reachable)]. Defined.

(** C8: the registry refines the surroundings that the conversation domain assumes: each of its
    transactions is a step that leaves every conversation table alone and only appends to the
    idempotency and audit tables, and a transaction of the Context service or the Task lifecycle
    is a sequence of steps that the conversation system allows for, so a run of the whole domain
    is a run of the conversation system, and what that system guarantees of reachable databases
    holds. *)
Theorem domain_refines_conversations `{Host, Kernel} d d' :
  domain_reachable d → rtc domain_step d d' →
  rtc step d d' ∧ reachable d' ∧ integrity d' ∧
  (registry_step d d' → task_turns d' = task_turns d ∧ turn_items d' = turn_items d ∧
     submissions d' = submissions d ∧ executions d' = executions d ∧ controls d' = controls d ∧
     idempotency d `prefix_of` idempotency d' ∧ audit_events d `prefix_of` audit_events d').
Proof.
  intros Hd Hs. assert (reachable d') as Hd'
    by (by eapply domain_reachable_reachable, domain_reachable_steps).
  split_and!; [by apply domain_steps_steps | done | by apply reachable_integrity |].
  intros Hr. destruct (registry_step_control_plane _ _ Hr). rewrite <-!appends_prefix. by split_and!.
Qed.

Lemma domain_refines_conversations_witness :
  rtc step reg4 reg9 ∧ integrity reg9.
Proof.
  destruct (domain_refines_conversations reg4 reg9 reg4_reachable reg_steps49) as (H1 & _ & H2 & _).
  split; [exact H1 | exact H2].
Defined.

(** The registry forgets nothing: across any run no Project, Environment, Workspace or Task
    row disappears, identifiers, Workspace owners, their Environments, creation times and the
    default flag never change, a disabled Environment stays disabled, an unregistered Workspace
    stays unregistered and keeps no active link; a published Context version keeps its text and
    its frozen fragments and is never activated again, and fragments, snapshots and provenance are
    only added. *)
Theorem registry_history_is_preserved `{Host, Kernel} d d' w :
  domain_reachable d → rtc domain_step d d' →
  Evolves project_lasts (projects d) (projects d') ∧
  Evolves environment_lasts (environments d) (environments d') ∧
  Evolves workspace_lasts (workspaces d) (workspaces d') ∧
  Evolves task_evolves (tasks d) (tasks d') ∧
  Evolves version_lasts (context_versions d) (context_versions d') ∧
  context_provenance d `prefix_of` context_provenance d' ∧
  context_fragments d `prefix_of` context_fragments d' ∧
  context_snapshots d `prefix_of` context_snapshots d' ∧
  (w ∈ workspaces d → workspace_active w = false →
   ∀ l, l ∈ workspace_links d' → ln_workspace_id l = ws_workspace_id w → link_active l = false).
Proof.
  intros Hd Hs. destruct (domain_steps_lawful _ _ Hs) as [[Hp He Hw Ht Hv Hpv _ Hf Hsn _] _].
  rewrite <-!appends_prefix. split_and!; try done. intros Hin Hoff l Hl Hlw.
  apply not_true_iff_false. intros Hact.
  destruct (domain_reachable_ok d') as [Hok Hsound]; [by eapply domain_reachable_steps|].
  destruct (sound_link _ Hsound l Hl Hact) as (x & Hx & Hid & Hxa).
  destruct (evolves_elem _ _ _ _ Hw Hin) as (w' & Hw' & [= Hwid _ _ _] & Hkeep).
  assert (x = w') as ->.
  { apply (unique_eq always ws_workspace_id _ _ _ (workspaces_pk _ (ok_workspaces _ Hok)));
      done || congruence. }
  by rewrite (Hkeep Hoff) in Hxa.
Qed.

Lemma registry_history_is_preserved_witness :
  ∃ w, w ∈ workspaces reg9 ∧ workspace_active w = false ∧
    ∀ l, l ∈ workspace_links reg9 → ln_workspace_id l = ws3 → link_active l = false.
Proof.
  destruct (workspaces reg9 !! 0%nat) as [w|] eqn:Hw; [|discriminate Hw].
  exists w. assert (w ∈ workspaces reg9) as Hin by (by eapply list_elem_of_lookup_2).
  assert (workspace_active w = false ∧ ws_workspace_id w = ws3) as [Hoff Hid]
    by (by injection Hw as <-).
  split; [exact Hin|]. split; [exact Hoff|]. rewrite <-Hid.
  destruct (registry_history_is_preserved reg9 reg9 w reg9_reachable (rtc_refl _ _))
    as (_ & _ & _ & _ & _ & _ & _ & _ & Hkept).
  exact (Hkept Hin Hoff).
Defined.

(** ** Visibility *)

Lemma project_owner_of d p :
  registry_integrity d → p ∈ projects d →
  project_owner (pj_project_id p) d = Some (pj_owner_user_id p).
Proof.
  intros Hok Hp. unfold project_owner. erewrite (select_one_the _ _ p); [done | done | |].
  - apply eqs_refl.
  - intros x Hx Hid. split_bools.
    by apply (unique_eq always pj_project_id _ _ _ (projects_pk _ (ok_projects _ Hok))).
Qed.

Lemma project_member_exists d project_id uid :
  project_member project_id uid d ≠ None ↔
  row_exists (λ m, eqs (mb_project_id m) project_id && eqs (mb_user_id m) uid)
    (project_members d) = true.
Proof.
  unfold project_member. destruct (select_one _ _) eqn:Hs.
  - apply select_one_Some in Hs as [Hin Hp]. split; [|done]. intros _. apply row_exists_true. eauto.
  - split; [done|]. intros (m & Hm & Hp)%row_exists_true _.
    apply (proj1 (select_one_None _ _)) with (r:=m) in Hs; congruence.
Qed.

(** The list of Projects shows a caller exactly the Projects in which they have a role, each
    of them once, and the archived ones on request only: the filter of the SQL query and the
    authorization service agree. *)
Theorem listed_projects_are_the_visible_ones `{Host, Kernel} d u uid include_archived p :
  domain_reachable d → u_id u = Some uid → truthy uid = true →
  NoDup (pj_project_id <$> list_projects_visible uid (is_admin u) include_archived d) ∧
  (p ∈ list_projects_visible uid (is_admin u) include_archived d ↔
   p ∈ projects d ∧ project_role (pj_project_id p) u d ≠ None ∧
   (include_archived = true ∨ project_active p = true)).
Proof.
  intros [Hok _]%domain_reachable_ok Hu Ht. unfold list_projects_visible. split.
  - rewrite order_by_perm. pose proof (projects_pk _ (ok_projects _ Hok)) as Hpk.
    eapply unique_delete in Hpk. unfold Unique in Hpk. rewrite select_always in Hpk. exact Hpk.
  - rewrite elem_of_order_by, elem_of_select, !andb_true_iff, !orb_true_iff.
    enough (p ∈ projects d →
      (is_admin u = true ∨ eqs (pj_owner_user_id p) uid = true) ∨
        row_exists (λ m, eqs (mb_project_id m) (pj_project_id p) && eqs (mb_user_id m) uid)
          (project_members d) = true ↔ project_role (pj_project_id p) u d ≠ None) by naive_solver.
    intros Hp. rewrite <-project_member_exists.
    unfold project_role. rewrite project_owner_of by done. unfold owner_is. rewrite Hu, Ht. simpl.
    destruct (is_admin u); [naive_solver|]. unfold eqo. rewrite String.eqb_eq.
    case_bool_decide; [naive_solver|].
    destruct (project_member _ _ _); naive_solver.
Qed.

Lemma listed_projects_are_the_visible_ones_witness :
  list_projects_visible "bob" (is_admin bob) false reg7 ≠ [] ∧
  ∀ p, p ∈ list_projects_visible "bob" (is_admin bob) false reg7 ↔
    p ∈ projects reg7 ∧ project_role (pj_project_id p) bob reg7 ≠ None ∧
    (false = true ∨ project_active p = true).
Proof.
  split; [vm_compute; discriminate|]. intros p.
  apply (listed_projects_are_the_visible_ones reg7 bob "bob" false p);
    [exact reg7_reachable | reflexivity | reflexivity].
Defined.
