(* ===== verification/RegistryRequests.v ===== *)
(** * Requests to the registry

    Who may make a mutation, what a release without an artifact identity may
    write, and what a retried request does. *)

From stdpp Require Import base tactics list strings relations.
From Stdlib Require Import ZArith Lia.
From S2P Require Import Prelude PyText PyJson Tables Contracts RegistryRows Schema Repository.
From S2P Require Import Projection RegistryRepository Service EnvironmentIdentity Authorization.
From S2P Require Import Registry RegistryWorkspaces RegistryViews Acceptance Execution Evolution.
From S2P Require Import Methods Integrity System Scenario RegistryMethods RegistryFrame.
From S2P Require Import Assembler RegistryIntegrity RegistrySound RegistryScenario.

Local Open Scope string_scope.
#[local] Hint Constants Opaque : typeclass_instances.
#[local] Hint Transparent dict time relation : typeclass_instances.

(** ** Authorization *)

Definition role_in (roles : string → bool) (project_id : string) (u : user) (d : db) : bool :=
  match project_role project_id u d with Some role => roles role | None => false end.

Definition manages_workspace (workspace_id : string) (u : user) (d : db) : bool :=
  match workspace_owner workspace_id d with
  | Some owner => owner_is u owner || is_admin u
  | None => false
  end.

Definition may_execute (auth : option (list access_row)) (environment_id : string) (u : user) :
    bool :=
  match u_id u with
  | Some uid => has_active_environment_execution_grant auth environment_id uid
  | None => false
  end.

(** The caller may execute in the Environment of the Workspace. *)
Definition may_execute_in (auth : option (list access_row)) (workspace_id : string) (u : user)
    (d : db) : bool :=
  match workspace_by_id workspace_id d with
  | Some w => may_execute auth (ws_environment_id w) u
  | None => false
  end.

(** Who may make which mutation. *)
Definition permitted (m : mutation) (u : user) (auth : option (list access_row)) (d : db) : bool :=
  match m with
  | CreateProject _ _ _ => true
  | UpdateProject p _ _ | CreateTaskRelationship p _ _ => role_in is_editor p u d
  | ArchiveProject p _ | UnarchiveProject p | AddMember p _ _ _ | RemoveMember p _
  | TransferProjectOwner p _ => role_in is_manager p u d
  | DeleteTaskRelationship r =>
      match related_task_relationship r d with
      | Some (_, p) => role_in is_editor p u d
      | None => false
      end
  | CreateEnvironment _ _ _ _ _ | DisableEnvironment _ | UpdateEnvironment _ _ _ _ _ _ =>
      is_admin u
  | CreateWorkspace e _ _ _ _ => may_execute auth e u
  | CreateWorkspaceAndAttach p e _ _ _ _ => role_in is_editor p u d && may_execute auth e u
  | UpdateWorkspace w _ _ _ _ | UnregisterWorkspace w _ => manages_workspace w u d
  | DetachWorkspace p w _ => role_in is_editor p u d && manages_workspace w u d
  | AttachWorkspace p w | SetPrimaryWorkspace p w | ReplacePrimaryWorkspace p _ w =>
      role_in is_editor p u d && manages_workspace w u d && may_execute_in auth w u d
  end.

(** What each guard establishes. *)
Section guards.
Context `{Host, Kernel}.

Lemma editor_role p u d x d' :
  require_project_editor p u d = Ok (x, d') → role_in is_editor p u d = true.
Proof. unfold require_project_editor, role_in. intros Hrun. tx_inv_all. by simplify_option_eq. Qed.

Lemma manager_role p u d x d' :
  require_project_owner p u d = Ok (x, d') → role_in is_manager p u d = true.
Proof. unfold require_project_owner, role_in. intros Hrun. tx_inv_all. by simplify_option_eq. Qed.

Lemma manager_manages w u v d x d' :
  require_workspace_registry_manager w u v d = Ok (x, d') → manages_workspace w u d = true.
Proof.
  unfold require_workspace_registry_manager, manages_workspace. intros Hrun.
  reading Hrun; [|by apply raise_Ok in Hrun..]. by simplify_option_eq.
Qed.

Lemma execution_granted auth e u d x d' :
  has_environment_execution_access auth e u d = Ok (x, d') → may_execute auth e u = x.
Proof.
  unfold has_environment_execution_access, may_execute. intros Hrun.
  apply bind_Ok in Hrun as (uid & s & (Hu & _ & _)%actor_of_inv & [-> _]%ret_Ok). by rewrite Hu.
Qed.

Lemma executable_grant auth e u d x d' :
  executable_environment auth e u d = Ok (x, d') → may_execute auth e u = true.
Proof.
  unfold executable_environment, require_environment_execution_access. intros Hrun.
  reading Hrun; [|by apply raise_Ok in Hrun..].
  match goal with Hg : has_environment_execution_access _ _ _ _ = Ok _ |- _ =>
    by apply execution_granted in Hg end.
Qed.

Lemma linkable_grant auth p w u d x d' :
  linkable auth p w u d = Ok (x, d') → may_execute_in auth w u d = true.
Proof.
  unfold linkable, may_execute_in. intros Hrun. reading Hrun.
  match goal with Hq : linked_workspace_state _ _ = Some ?q |- _ =>
    unfold linked_workspace_state in Hq; destruct (workspace_by_id w d) as [y|]; [|done];
    simpl in Hq; destruct (environment_by_id (ws_environment_id y) d); [|done]; simplify_eq/= end.
  match goal with Hg : has_environment_execution_access _ _ _ _ = Ok _ |- _ =>
    by apply execution_granted in Hg end.
Qed.

Lemma in_transaction_grant auth p w u actor t d x d' :
  link_operation_in_transaction auth p w u actor t d = Ok (x, d') → may_execute_in auth w u d = true.
Proof. intros (? & ? & Hl%linkable_grant & _)%bind_Ok. done. Qed.

Lemma managed_by_admin auth e u d x d' :
  managed_environment auth e u d = Ok (x, d') →
  is_admin u = true ∧ ∃ s, actor_of u d = Ok (x.1, s).
Proof. unfold managed_environment. intros Hrun. reading Hrun. apply ret_Ok in Hrun as [-> _]. eauto. Qed.
End guards.

(** Every guard that a run passed, read off its trace. *)
Ltac guards_passed :=
  repeat match goal with
  | Hg : managed_environment _ _ _ _ = Ok _ |- _ =>
      apply managed_by_admin in Hg as (? & ? & Hg); simpl in Hg
  | Hg : actor_of _ _ = Ok _ |- _ => apply actor_of_inv in Hg as (? & ? & _)
  | Hg : begin_write _ = Ok _ |- _ => apply begin_write_inv in Hg as [? _]
  | Hg : require_project_editor _ _ _ = Ok _ |- _ => apply editor_role in Hg
  | Hg : require_project_owner _ _ _ = Ok _ |- _ => apply manager_role in Hg
  | Hg : require_workspace_registry_manager _ _ _ _ = Ok _ |- _ => apply manager_manages in Hg
  | Hg : executable_environment _ _ _ _ = Ok _ |- _ => apply executable_grant in Hg
  | Hg : linkable _ _ _ _ _ = Ok _ |- _ => apply linkable_grant in Hg
  end.

Lemma no_result_Ok (m : txn unit) d r d' :
  no_result m d = Ok (r, d') → r = JNull ∧ m d = Ok (tt, d').
Proof. intros ([] & s & Hm & [-> ->]%ret_Ok)%bind_Ok. done. Qed.

(** The method of a mutation, up to its first statement. *)
Ltac open_mutation m Hrun :=
  destruct m; simpl in Hrun; try (apply no_result_Ok in Hrun as [-> Hrun]);
  lazymatch type of Hrun with ?x _ = _ => let h := head_of x in unfold h in Hrun end;
  try unfold link_operation in Hrun; reading Hrun.

Section mutations.
Context `{Host, Kernel}.

(** C9: a mutation of the registry is committed only while no maintenance is under way, for an
    authenticated caller, and, unless it merely replays a stored response, only with the rights
    its target asks for: editors change a Project and its links, owners and administrators manage
    its members and its life cycle, administrators manage Environments, the owner of a Workspace
    or an administrator manages it, and linking takes a grant to execute in its Environment. *)
Theorem mutations_are_authorized m u key c d r d' :
  mutate m u key c d = Ok (r, d') →
  maintenance_is_active d = Some false ∧ (∃ actor, u_id u = Some actor ∧ truthy actor = true) ∧
  (d' = d ∨ permitted m u (cl_auth c) d = true).
Proof.
  intros Hrun. open_mutation m Hrun; guards_passed; (split; [done|]; split; [by eauto|]);
    try (apply ret_Ok in Hrun as [_ ->]; by left); right; simpl in *; try (rebool; done).
  - destruct x0 as [? p]. by simplify_option_eq.
  - apply bind_Ok in Hrun as (? & ? & Hlink & _). apply in_transaction_grant in Hlink. rebool.
Qed.
End mutations.

Lemma mutations_are_authorized_witness :
  maintenance_is_active reg5 = Some false ∧
  (reg6 = reg5 ∨ permitted (ReplacePrimaryWorkspace lab ws3 ws4) alice grants reg5 = true).
Proof.
  edestruct (mutations_are_authorized (ReplacePrimaryWorkspace lab ws3 ws4) alice (Some "k6")
    (nth_call 6) reg5) as (H1 & _ & H2); [vm_compute; reflexivity|].
  split; [exact H1 | exact H2].
Defined.

(** ** The release fence *)

Section fence.
Context `{Host, Kernel}.

(** A block that commits only behind the fence. *)
Definition Fenced {A} (m : txn A) : Prop := ∀ d r d', m d = Ok (r, d') → fence_ready = true.

Lemma kernel_audit_fenced a b c d e f g : Fenced (kernel_audit a b c d e f g).
Proof. by intros s r s' (? & ? & [Hf _]%require_Ok & _)%bind_Ok. Qed.
Lemma fenced_here {A B} (m : txn A) (f : A → txn B) : Fenced m → Fenced (m ≫= f).
Proof. intros Hm s r s' (? & ? & Hr & _)%bind_Ok. by eapply Hm. Qed.
Lemma fenced_later {A B} (m : txn A) (f : A → txn B) : (∀ x, Fenced (f x)) → Fenced (m ≫= f).
Proof. intros Hf s r s' (? & ? & _ & Hr)%bind_Ok. by eapply Hf. Qed.

Ltac fenced :=
  repeat match goal with
  | |- Fenced (kernel_audit _ _ _ _ _ _ _) => apply kernel_audit_fenced
  | |- Fenced (kernel_audit _ _ _ _ _ _ _ ≫= _) => apply fenced_here
  | |- Fenced (_ ≫= _) => apply fenced_later; intros ?
  | |- Fenced (match ?x with _ => _ end) => destruct x
  end.

(** A process that does not know the release it runs as commits no audited change: a mutation
    that succeeds there either changed nothing (a replayed response) or was a transfer of a
    Project to the user who owns it already, which leaves the registry and the audit trail alone. *)
Theorem unfenced_release_changes_nothing m u key c d r d' :
  fence_ready = false → mutate m u key c d = Ok (r, d') →
  d' = d ∨
  (∃ p owner, m = TransferProjectOwner p owner ∧ project_owner p d = Some owner) ∧
  registry_same d d' ∧ audit_events d' = audit_events d ∧ tasks d' = tasks d.
Proof.
  intros Hf Hrun. open_mutation m Hrun; try (apply ret_Ok in Hrun as [_ ->]; by left).
  all: try (enough (fence_ready = true) by congruence;
    lazymatch type of Hrun with ?x _ = _ =>
      assert (Fenced x) as Hfen by fenced; exact (Hfen _ _ _ Hrun) end).
  right. split_bools. split.
  { eexists _, _. split; [done|]. unfold project_owner, project_by_id in *. simplify_option_eq.
    congruence. }
  apply bind_Ok in Hrun as (? & s1 & Hst & [_ ->]%ret_Ok). unfold store_if in Hst.
  destruct key; [by statement_inv Hst|]. by apply ret_Ok in Hst as [_ ->].
Qed.
End fence.

(** A process that was started without an artifact identity. *)
Definition unfenced_kernel : Kernel :=
  {| artifact_sha := None; canonical_workspace_path p := p; py_str _ := "";
     context_byte_budget := DEFAULT_CONTEXT_BYTE_BUDGET; platform_constraints := "";
     unified_diff before after := ""; container_environment := false;
     context_byte_budget_nonneg := default_budget_nonneg |}.

Lemma unfenced_release_changes_nothing_witness :
  registry_same reg2 (after (@mutate _ unfenced_kernel (TransferProjectOwner lab "alice") alice
    (Some "k") (nth_call 3)) reg2).
Proof.
  edestruct (@unfenced_release_changes_nothing demo_host unfenced_kernel
    (TransferProjectOwner lab "alice") alice (Some "k") (nth_call 3) reg2) as [He|(_ & Hs & _)];
    [reflexivity | vm_compute; reflexivity | | exact Hs].
  apply (f_equal (λ d, length (idempotency d))) in He. vm_compute in He. discriminate He.
Defined.
