(* ===== verification/RegistryRetries.v ===== *)
(** * Retried requests to the registry

    A mutation that carries an idempotency key stores its response under the
    caller, the scope of the mutation and the key.  The same request is later
    answered from there and changes nothing. *)

From stdpp Require Import base tactics list strings relations.
From Stdlib Require Import ZArith Lia.
From S2P Require Import Prelude PyText PyJson Tables Contracts RegistryRows Schema Repository.
From S2P Require Import Projection RegistryRepository Service EnvironmentIdentity Authorization.
From S2P Require Import Registry RegistryWorkspaces RegistryViews Acceptance Execution Evolution.
From S2P Require Import Methods Integrity System Scenario RegistryMethods RegistryFrame.
From S2P Require Import Requests RegistryIntegrity RegistrySound RegistryScenario RegistryRequests.

Local Open Scope string_scope.
#[local] Hint Constants Opaque : typeclass_instances.
#[local] Hint Transparent dict time relation : typeclass_instances.

(** The scope under which a mutation stores its response. *)
Definition scope_of_mutation (m : mutation) : string :=
  match m with
  | CreateProject _ _ _ => "project.create"
  | UpdateProject _ _ _ => "project.update"
  | ArchiveProject _ _ => "project.archive"
  | UnarchiveProject _ => "project.unarchive"
  | AddMember _ _ _ _ => "project.member.upsert"
  | RemoveMember _ _ => "project.member.remove"
  | TransferProjectOwner _ _ => "project.owner.transfer"
  | CreateTaskRelationship _ _ _ => "task.relationship.create"
  | DeleteTaskRelationship _ => "task.relationship.delete"
  | CreateEnvironment _ _ _ _ _ => "environment.create"
  | DisableEnvironment _ => "environment.disable"
  | UpdateEnvironment _ _ _ _ _ _ => "environment.update"
  | CreateWorkspace _ _ _ _ _ => "workspace.create"
  | CreateWorkspaceAndAttach _ _ _ _ _ _ => "workspace.create_and_attach"
  | UpdateWorkspace _ _ _ _ _ => "workspace.update"
  | AttachWorkspace _ _ => "workspace.attach"
  | SetPrimaryWorkspace _ _ => "workspace.primary"
  | ReplacePrimaryWorkspace _ _ _ => "workspace.primary.replace"
  | DetachWorkspace _ _ _ => "workspace.detach"
  | UnregisterWorkspace _ _ => "workspace.unregister"
  end.

(** What a call returns when its stored response is [response]. *)
Definition answer (m : mutation) (response : json) : json :=
  match m with
  | DeleteTaskRelationship _ | DisableEnvironment _ | DetachWorkspace _ _ _
  | UnregisterWorkspace _ _ => JNull
  | _ => response
  end.

(** The response stored for a request, if there is one. *)
Definition stored (actor scope key : string) (response : json) (d : db) : Prop :=
  ∃ row, idempotency_record actor scope key d = Some row ∧ id_response row = response.

Section retries.
Context `{Host, Kernel}.

Lemma idempotent_result_inv actor scope key q d x d' :
  idempotent_result actor scope key q d = Ok (x, d') →
  match x with
  | Some response => stored actor scope key response d
  | None => idempotency_record actor scope key d = None
  end.
Proof.
  unfold idempotent_result, stored. intros Hrun. reading Hrun; try by apply raise_Ok in Hrun.
  - apply ret_Ok in Hrun as [-> _]. eauto.
  - by apply ret_Ok in Hrun as [-> _].
Qed.

(** What a mutation found in the store, whether its key is optional or not. *)
Ltac lookup_passed :=
  match goal with
  | Hg : replay_if _ _ _ _ _ = Ok _ |- _ => apply idempotent_result_inv in Hg
  | Hg : idempotent_result _ _ _ _ _ = Ok _ |- _ => apply idempotent_result_inv in Hg
  end.

(** A request whose response is stored changes nothing and returns it. *)
Lemma stored_is_replayed m u actor key c response d r d' :
  u_id u = Some actor → stored actor (scope_of_mutation m) key response d →
  mutate m u (Some key) c d = Ok (r, d') → d' = d ∧ r = answer m response.
Proof.
  intros Hu (row & Hrow & Hres) Hrun.
  open_mutation m Hrun; guards_passed; lookup_passed; unfold stored in *; simplify_eq/=;
    try congruence; apply ret_Ok in Hrun as [? ?];
    match goal with Hg : ∃ _, _ |- _ => destruct Hg as (? & ? & ?) end; by simplify_eq.
Qed.

(** The block stores its response and returns it. *)
Definition Records {A} (returns : A → json → Prop) (actor scope key : string) (m : txn A) : Prop :=
  ∀ d x d', m d = Ok (x, d') → ∃ row, row ∈ idempotency d' ∧
    id_actor_user_id row = actor ∧ id_scope row = scope ∧ id_key row = key ∧
    returns x (id_response row).

Lemma records_later {A B} (returns : B → json → Prop) actor s k (m : txn A) (f : A → txn B) :
  (∀ x, Records returns actor s k (f x)) → Records returns actor s k (m ≫= f).
Proof. intros Hf d x d' (y & d1 & _ & Hrun)%bind_Ok. by eapply Hf. Qed.

(** What follows the insertion only appends to the store and returns. *)
Lemma records_here {A} (returns : A → json → Prop) actor s k q result now (rest : unit → txn A) :
  (∀ d x d', rest tt d = Ok (x, d') → returns x (JObj result)) →
  Respects control_plane (rest tt) →
  Records returns actor s k (store_idempotency actor s k q result now ≫= rest).
Proof.
  intros Hret Happ d x d' ([] & d1 & Hst & Hrun)%bind_Ok. statement_inv Hst.
  eexists. split.
  - pose proof (cp_idempotency _ _ (Happ _ _ _ Hrun)) as [v ->]%appends_prefix. apply elem_of_app. left. simpl.
    apply elem_of_app. right. constructor.
  - split_and!; [done..|]. simpl. eauto.
Qed.

Lemma records_last (returns : unit → json → Prop) actor s k q result now :
  returns tt (JObj result) →
  Records returns actor s k (store_idempotency actor s k q result now).
Proof.
  intros Hret d [] d' Hst. statement_inv Hst. eexists. simpl.
  split; [apply elem_of_app; right; constructor | by split_and!].
Qed.

Ltac records :=
  repeat match goal with
  | |- Records _ _ _ _ (store_if (Some _) _ _ _ _ _ ≫= _) => unfold store_if at 1
  | |- Records _ _ _ _ (store_if (Some _) _ _ _ _ _) => apply records_last
  | |- Records _ _ _ _ (store_idempotency _ _ _ _ _ _) => apply records_last
  | |- Records _ _ _ _ (store_idempotency _ _ _ _ _ _ ≫= _) => apply records_here
  | |- Records _ _ _ _ (_ ≫= _) => apply records_later; intros ?
  | |- Records _ _ _ _ (match ?x with _ => _ end) => destruct x
  end.

(** What follows the insertion returns the response. *)
Ltac returns :=
  let Hr := fresh "Hr" in
  intros ? ? ? Hr; repeat (apply bind_Ok in Hr as (? & ? & _ & Hr));
  by apply ret_Ok in Hr as [-> _].

Lemma stored_row actor scope key response d :
  stored actor scope key response d → ∃ row, row ∈ idempotency d ∧
    id_actor_user_id row = actor ∧ id_scope row = scope ∧ id_key row = key ∧
    id_response row = response.
Proof.
  intros (row & [Hin Hp]%select_one_Some & Hr). exists row. by split_bools.
Qed.

(** Whatever path a mutation took, its response is stored. *)
Lemma mutation_is_stored m u key c d r d' :
  mutate m u (Some key) c d = Ok (r, d') →
  ∃ actor row, u_id u = Some actor ∧ row ∈ idempotency d' ∧ id_actor_user_id row = actor ∧
    id_scope row = scope_of_mutation m ∧ id_key row = key ∧ r = answer m (id_response row).
Proof.
  intros Hrun. open_mutation m Hrun; guards_passed; lookup_passed; simplify_eq/=;
    match goal with Hu : u_id u = Some ?a |- _ => exists a end.
  all: try match goal with
    | Hs : stored _ _ _ _ _ |- _ =>
        apply ret_Ok in Hrun as [? ->]; apply stored_row in Hs as (row & ? & ? & ? & ? & <-);
        exists row; by subst
    end.
  all: match goal with
    | Hu : u_id _ = Some ?a, Hrun : ?p _ = Ok (?x, ?d')
        |- context [_ ∈ idempotency ?d' ∧ _ ∧ id_scope _ = ?sc ∧ _] =>
        lazymatch type of x with
        | json => assert (Records eq a sc key p) as Hst
        | unit => assert (Records (λ _ _, True) a sc key p) as Hst
        end
    end; [records; first [done | returns | solve [solve_respects]] |];
    destruct (Hst _ _ _ Hrun) as (row & ? & ? & ? & ? & ?); exists row; by subst.
Qed.
End retries.

(** C10: no registry mutation takes effect twice: once a mutation with an idempotency key was
    committed, the same request by the same caller, at any later time and whatever happened in
    between, changes nothing if it succeeds, and it returns the response of the first call. *)
Theorem registry_retry_changes_nothing `{Host, Kernel} m u key c c' d r d1 d2 r' d3 :
  domain_reachable d → mutate m u (Some key) c d = Ok (r, d1) → rtc domain_step d1 d2 →
  mutate m u (Some key) c' d2 = Ok (r', d3) → d3 = d2 ∧ r' = r.
Proof.
  intros Hd Hrun Hs Hagain.
  assert (integrity d1) as Hok.
  { eapply reachable_integrity, domain_reachable_reachable, domain_reachable_steps; [exact Hd|].
    by eapply rtc_once, domain_registry, registry_mutates. }
  apply mutation_is_stored in Hrun as (actor & row & Hu & Hin & Ha & Hsc & Hk & ->).
  pose proof (recorded_later _ _ _ Hok Hin (domain_steps_steps _ _ Hs)) as Hrec.
  rewrite Ha, Hsc, Hk in Hrec. eapply stored_is_replayed; [exact Hu | by exists row | exact Hagain].
Qed.

Lemma registry_retry_changes_nothing_witness :
  ∃ r r' d3, mutate (SetPrimaryWorkspace lab ws3) alice (Some "k5") (nth_call 5) reg4 = Ok (r, reg5) ∧
    mutate (SetPrimaryWorkspace lab ws3) alice (Some "k5") (nth_call 10) reg7 = Ok (r', d3) ∧
    d3 = reg7 ∧ r' = r.
Proof.
  do 3 eexists. assert (∀ A B : Prop, A → (A → B) → A ∧ B) as Hand by tauto.
  apply Hand; [vm_compute; reflexivity|]. intros H1.
  apply Hand; [vm_compute; reflexivity|]. intros H2.
  refine (registry_retry_changes_nothing _ _ _ _ _ _ _ _ _ _ _ reg4_reachable H1 _ H2).
  eapply rtc_l; [exact reg_step6 | exact (rtc_once _ _ reg_step7)].
Defined.
