(* ===== verification/RegistryEnvironments.v ===== *)
(** * Environments keep their endpoint

    An Environment that a Workspace or a Task refers to is pinned to the
    endpoint it had; its identity does not depend on how its connection was
    written down. *)

From stdpp Require Import base tactics list strings relations.
From Stdlib Require Import ZArith Lia.
From S2P Require Import Prelude PyText PyJson Tables JsonLaws Contracts RegistryRows Schema Repository.
From S2P Require Import Projection RegistryRepository Service EnvironmentIdentity Authorization.
From S2P Require Import Registry RegistryWorkspaces RegistryViews Acceptance Execution Evolution.
From S2P Require Import Methods Integrity System Scenario RegistryMethods RegistryFrame.
From S2P Require Import ContextRepository Context ContextCandidates ContextSnapshots TaskLifecycle.
From S2P Require Import ContextMethods RegistryIntegrity RegistrySound RegistryScenario.

Local Open Scope string_scope.
#[local] Hint Constants Opaque : typeclass_instances.
#[local] Hint Transparent dict time relation : typeclass_instances.

Section pinned.
Context `{Host, Kernel}.

(** The fingerprint of a connection, when it has one. *)
Definition connection_fingerprint (connection : dict) : option string :=
  if json_finite (JObj connection)
  then Some (sha256_hex (compact_json (JObj (endpoint (canonical_fields connection)))))
  else None.

(** The endpoint of an Environment: as stored, or as its connection says. *)
Definition endpoint_of (e : environment_row) : option string :=
  match en_connection_fingerprint e with
  | Some fp => Some fp
  | None => connection_fingerprint (en_connection e)
  end.

Lemma fingerprint_Ok c d fp d' :
  environment_connection_fingerprint c d = Ok (fp, d') ↔ connection_fingerprint c = Some fp ∧ d' = d.
Proof.
  unfold environment_connection_fingerprint, canonical_connection_object, connection_fingerprint.
  split.
  - intros Hrun. reading Hrun. apply ret_Ok in Hrun as [-> ->]. tx_inv_all.
    by case_match.
  - intros [Hc ->]. destruct (json_finite _); [|done]. by simplify_eq.
Qed.

Lemma current_fingerprint_Ok e d fp d' :
  current_fingerprint e d = Ok (fp, d') → endpoint_of e = Some fp.
Proof.
  unfold current_fingerprint, endpoint_of. destruct (en_connection_fingerprint e).
  - by intros [-> _]%ret_Ok.
  - by intros [-> _]%fingerprint_Ok.
Qed.

Lemma referenced_mono e d d' :
  registry_grows d d' → environment_is_referenced e d = true → environment_is_referenced e d' = true.
Proof.
  intros [_ _ Hw Ht]. unfold environment_is_referenced. rewrite !orb_true_iff.
  intros [Hr|Hr]; [left|right]; revert Hr; eapply evolves_row_exists; [|exact Hw| |exact Ht].
  - intros r r' [[= _ _ -> _] _]. done.
  - intros r r' [= _ _ -> _ _]. done.
Qed.

(** The endpoints of the Environments that are in use stay what they are. *)
Definition pinned : relation db := λ d d',
  lawful d d' ∧
  (registry_integrity d → ∀ e fp, e ∈ environments d →
   environment_is_referenced (en_environment_id e) d = true → endpoint_of e = Some fp →
   ∃ e', e' ∈ environments d' ∧ en_environment_id e' = en_environment_id e ∧
     endpoint_of e' = Some fp).

#[export] Instance pinned_preorder : PreOrder pinned.
Proof.
  split; [intros d; split; [done|]; eauto|].
  intros d1 d2 d3 [[Hg1 Hl1] H1] [[Hg2 Hl2] H2]. split; [split; [by etrans | auto]|].
  intros Hok e fp He Hr Hf. destruct (H1 Hok e fp He Hr Hf) as (e2 & He2 & Hid & Hf2).
  destruct (H2 (Hl1 Hok) e2 fp He2) as (e3 & He3 & Hid3 & Hf3); [|done|].
  - rewrite Hid. by eapply referenced_mono.
  - exists e3. split_and!; [done | congruence | done].
Qed.

(** Environments that are kept or added. *)
Lemma pinned_intro {A} (m : txn A) d a d' :
  m d = Ok (a, d') → Respects lawful m →
  (∀ e, e ∈ environments d → ∃ e', e' ∈ environments d' ∧
     en_environment_id e' = en_environment_id e ∧ endpoint_of e' = endpoint_of e) → pinned d d'.
Proof.
  intros Hrun Hm He. split; [by eapply Hm|]. intros _ e fp Hin _ Hf.
  destruct (He e Hin) as (e' & ? & ? & ?). exists e'. split_and!; congruence || done.
Qed.

#[export] Instance registry_updates_pinned : RegistryUpdates pinned.
Proof.
  constructor; [constructor; [apply _|..]|..]; intros; intros ?s ?x ?s Hrun;
    (eapply pinned_intro; [exact Hrun | first [ apply _ | by apply rs_update_projects
      | by apply rs_keep_environments | by apply rs_update_workspaces | by apply rs_update_links ] |]);
    statement_inv Hrun; simpl; eauto.
  - intros env He. exists env. split; [apply elem_of_app; by left | done].
  - intros env He. exists (if p env then f env else env). split; [apply elem_of_on_rows; eauto|].
    destruct (p env); [|done].
    match goal with Hk : environment_kept _ |- _ =>
      destruct (Hk env) as ([[= -> _ _ _] _] & Hc & Hfp) end.
    unfold endpoint_of. by rewrite Hc, Hfp.
Qed.

Lemma environment_by_id_unique i d e x :
  registry_integrity d → environment_by_id i d = Some e → x ∈ environments d →
  en_environment_id x = i → x = e.
Proof.
  intros Hok [He Hi]%select_one_Some Hx Hxi. split_bools.
  apply (unique_eq always en_environment_id _ _ _ (environments_pk _ (ok_environments _ Hok)));
    done || congruence.
Qed.

(** Moving an Environment: to a fingerprint that it has already, or when nothing
    refers to it. *)
Lemma repointed_endpoint i e c d x d' :
  repointed i e c d = Ok (x, d') →
  environment_is_referenced i d = true → endpoint_of e = Some x.2.
Proof.
  unfold repointed. intros Hrun Href. reading Hrun. apply ret_Ok in Hrun as [-> _].
  match goal with Hc : current_fingerprint _ _ = Ok _ |- _ => apply current_fingerprint_Ok in Hc end.
  rewrite Href, orb_false_r in *. split_bools. by subst.
Qed.

(** The endpoint that an accepted update writes. *)
Lemma updated_endpoint i e connection new backfill al na de cr t d x d1 y d2 :
  option_map_tx connection (repointed i e) d = Ok (new, d1) →
  (match connection, en_connection_fingerprint e with
   | None, None => fp ← environment_connection_fingerprint (en_connection e); mret (Some fp)
   | _, _ => mret None
   end : txn (option string)) x = Ok (backfill, y) → d2 = d →
  environment_is_referenced i d2 = true → endpoint_of e ≠ None →
  endpoint_of (set_environment al na de new cr backfill t e) = endpoint_of e.
Proof.
  intros Hnew Hback -> Href Hsome. destruct connection as [c|]; simpl in Hnew.
  - apply bind_Ok in Hnew as ([c' fp] & ? & Hre & [-> _]%ret_Ok).
    by rewrite (repointed_endpoint _ _ _ _ _ _ Hre Href).
  - apply ret_Ok in Hnew as [-> _]. unfold endpoint_of in *. simpl.
    destruct (en_connection_fingerprint e); simpl; [done|].
    by apply bind_Ok in Hback as (fp & ? & [-> _]%fingerprint_Ok & [-> _]%ret_Ok).
Qed.

Lemma managed_existing auth i u d actor e d' :
  managed_environment auth i u d = Ok ((actor, e), d') → environment_by_id i d = Some e.
Proof. unfold managed_environment. intros Hrun. reading Hrun. by apply ret_Ok in Hrun as [[= -> ->] _]. Qed.

#[export] Instance update_environment_pinned a b c d e f g h i j k l m :
  Respects pinned (update_environment a b c d e f g h i j k l m).
Proof.
  intros s r s' Hrun. unfold update_environment in Hrun.
  reading Hrun; [by apply ret_Ok in Hrun as [_ ->]|].
  apply bind_Ok in Hrun as (backfill & s1 & Hback & Hrun).
  assert (s = s1) as <- by (revert Hback; apply respects_apply; solve_respects).
  apply bind_Ok in Hrun as (n & s2 & Hup & Hrun).
  transitivity s2; [|revert Hrun; apply respects_apply; solve_respects].
  apply catch_integrity_Ok in Hup as [Hup|(? & _ & []%raise_Ok)].
  unfold repo_update_environment in Hup. split.
  { revert Hup. apply respects_apply, rs_update_environments; [one_row | intros ?; done]. }
  statement_inv Hup. intros Hok env fp Hin Href Hend. simpl.
  eexists. split; [apply elem_of_on_rows; exists env; split; [done | reflexivity]|].
  destruct (eqs (en_environment_id env) b) eqn:Hb; [|done]. split; [done|]. split_bools.
  match goal with Hm : managed_environment _ _ _ _ = Ok _ |- _ => apply managed_existing in Hm end.
  assert (env = e0) as -> by (by eapply environment_by_id_unique). rewrite <-Hend.
  eapply updated_endpoint; [eassumption | exact Hback | reflexivity | congruence | congruence].
Qed.

#[export] Instance registry_blocks_pinned : RegistryBlocks pinned.
Proof. apply registry_updates_blocks; apply _. Qed.

(** The Context service and the forks write no Environment. *)
#[export] Instance fork_receipts_pinned : ForkReceipts pinned.
Proof.
  constructor; [apply _|..]; intros; intros ?s ?x ?s Hrun;
    (eapply pinned_intro; [exact Hrun | apply _ |]); statement_inv Hrun; simpl; eauto.
Qed.
#[export] Instance context_statements_pinned : ContextStatements pinned.
Proof.
  constructor; [constructor; [constructor; [apply _|..]|..]|..]; intros; intros ?s ?x ?s Hrun;
    (eapply pinned_intro; [exact Hrun | first [ apply _ | by apply xs_insert_candidate
      | by apply xs_insert_preview ] |]);
    first [ statement_inv Hrun | unfold open_conversation in Hrun; tx_inv_all;
            repeat match goal with H : _ _ = Ok _ |- _ => statement_inv H end ]; simpl; eauto.
Qed.

Lemma conversation_pinned d d' : registry_same d d' → db_evolves d d' → pinned d d'.
Proof.
  intros Hsame Hev. split; [by apply conversation_lawful|]. intros _ e fp He _ Hf.
  exists e. by rewrite (same_environments _ _ Hsame).
Qed.
End pinned.

(** C11: an Environment that a Workspace or a Task refers to keeps its endpoint: across any run of
    the domain the fingerprint of host, port, user, authentication, identity file, proxies and SSH
    options that it had (stored, or computed from its connection) stays the same, whatever updates
    are made to it. *)
Theorem referenced_environment_is_pinned `{Host, Kernel} d d' e fp :
  domain_reachable d → rtc domain_step d d' → e ∈ environments d →
  environment_is_referenced (en_environment_id e) d = true → endpoint_of e = Some fp →
  ∃ e', environment_by_id (en_environment_id e) d' = Some e' ∧ endpoint_of e' = Some fp.
Proof.
  intros Hd Hs He Href Hf. destruct (domain_reachable_ok d Hd) as [Hok _].
  destruct (domain_steps_spec pinned d d') as [[_ Hl] Hpin]; [apply conversation_pinned | done |].
  destruct (Hpin Hok e fp He Href Hf) as (e' & He' & Hid & Hf'). exists e'. split; [|done].
  apply select_one_the; [done | rewrite Hid; apply eqs_refl |]. intros x Hx Hxi. split_bools.
  apply (unique_eq always en_environment_id _ _ _ (environments_pk _ (ok_environments _ (Hl Hok))));
    done || congruence.
Qed.

(** An administrator renames the Environment of the run and rewrites its connection. *)
Definition rewritten : dict := [("port", JStr "22"); ("host", JStr "lab"); ("user", JStr "")].
Definition reg10 : db := Eval vm_compute in
  after (mutate (UpdateEnvironment "env" None (Some "Lab host") None (Some rewritten) None) root
           (Some "k10") (nth_call 10)) reg4.

Lemma reg_step10 : domain_step reg4 reg10.
Proof.
  by_mutation (UpdateEnvironment "env" None (Some "Lab host") None (Some rewritten) None) root
    "k10" 10%nat.
Qed.

Lemma referenced_environment_is_pinned_witness :
  reg10 ≠ reg4 ∧ ∃ e fp e', environments reg4 !! 0%nat = Some e ∧ endpoint_of e = Some fp ∧
    environment_by_id "env" reg10 = Some e' ∧ en_connection e' ≠ en_connection e ∧
    endpoint_of e' = Some fp.
Proof.
  split; [intros He; apply (f_equal (λ d, length (audit_events d))) in He; vm_compute in He; lia|].
  destruct (environments reg4 !! 0%nat) as [e|] eqn:He; [|discriminate He].
  destruct (endpoint_of e) as [fp|] eqn:Hfp; [|injection He as <-; vm_compute in Hfp; discriminate Hfp].
  assert (en_environment_id e = "env" ∧ environment_is_referenced (en_environment_id e) reg4 = true ∧
    en_connection e = [("host", JStr "lab")]) as (Hid & Href & Hc)
    by (injection He as <-; by vm_compute).
  destruct (referenced_environment_is_pinned reg4 reg10 e fp reg4_reachable
    (rtc_once _ _ reg_step10) (list_elem_of_lookup_2 _ _ _ He) Href Hfp) as (e' & He' & Hf').
  rewrite Hid in He'. exists e, fp, e'. split_and!; try done.
  rewrite Hc. injection He' as <-. by vm_compute.
Defined.

(** ** The identity of an endpoint *)

Lemma canonical_fields_sorted c :
  canonical_fields c = sort_fields (map (λ kv, (kv.1, sort_keys kv.2)) c).
Proof. done. Qed.

Lemma canonical_fields_idemp c : canonical_fields (canonical_fields c) = canonical_fields c.
Proof. pose proof (sort_keys_idemp (JObj c)) as Hi. by injection Hi. Qed.

(** The fingerprint of a connection depends on what it says and not on how it is written:
    connections with the same fields in another order have the same one, and the canonical copy
    that is stored has the fingerprint of the connection that was sent, so sending a stored
    connection back never moves an Environment; the port that enters it is a TCP port. *)
Theorem endpoint_identity_is_canonical `{Host, Kernel} (c c' : dict) (port : option json) :
  NoDup c.*1 → c ≡ₚ c' →
  connection_fingerprint c = connection_fingerprint c' ∧
  connection_fingerprint (canonical_fields c) = connection_fingerprint c ∧
  (1 ≤ port_or_default port 22 ≤ 65535)%Z.
Proof.
  intros Hnd Hp. split; [|split].
  - unfold connection_fingerprint. simpl. rewrite (forallb_perm _ _ _ Hp).
    rewrite !canonical_fields_sorted.
    erewrite (sort_fields_unique (map _ c)); [done | | by apply Permutation_map].
    by rewrite <-list_fmap_compose.
  - unfold connection_fingerprint. rewrite canonical_fields_idemp.
    change (json_finite (JObj (canonical_fields c))) with (json_finite (sort_keys (JObj c))).
    by rewrite json_finite_sorted.
  - unfold port_or_default, port_in_range.
    repeat case_match; simplify_eq; split_bools; lia.
Qed.

Lemma endpoint_identity_is_canonical_witness :
  connection_fingerprint [("host", JStr "lab"); ("port", JInt 22)]
    = connection_fingerprint [("port", JInt 22); ("host", JStr "lab")].
Proof.
  refine (proj1 (endpoint_identity_is_canonical _ _ None _ _)).
  - repeat constructor; set_solver.
  - apply perm_swap.
Defined.
