(* ===== verification/RegistryOutcomes.v ===== *)
(** * Outcomes of registry mutations

    What a committed change of the Primary Workspace or of the owner of a Project
    leaves in the database, and that relationship identifiers identify. *)

From stdpp Require Import base tactics list strings relations pretty.
From Stdlib Require Import ZArith Lia Ascii.
From S2P Require Import Prelude PyText PyJson Tables Contracts RegistryRows Schema Repository.
From S2P Require Import Projection RegistryRepository Service EnvironmentIdentity Authorization.
From S2P Require Import Registry RegistryWorkspaces RegistryViews Acceptance Execution Evolution.
From S2P Require Import Methods Integrity System Scenario RegistryMethods RegistryFrame.
From S2P Require Import RegistryIntegrity RegistrySound RegistryScenario RegistryRequests.

Local Open Scope string_scope.
#[local] Hint Constants Opaque : typeclass_instances.
#[local] Hint Transparent dict time relation : typeclass_instances.

(** ** The Primary Workspace *)

(** The Workspace is the Primary of the Project, and its only one; the links of
    other Projects are what they were, and no link was retired or revived. *)
Record primary_set (p w : string) (d d' : db) : Prop := mkPrimarySet {
  ps_primary : ln_workspace_id <$> active_primary_for_project p d' = Some w;
  ps_only l : l ∈ workspace_links d' → ln_project_id l = p → ln_is_primary l = true →
    ln_workspace_id l = w;
  ps_others l : ln_project_id l ≠ p → l ∈ workspace_links d' ↔ l ∈ workspace_links d;
  ps_links : (λ l, (link_key l, ln_status l)) <$> workspace_links d'
    = (λ l, (link_key l, ln_status l)) <$> workspace_links d }.

Lemma elem_of_on_rows_other {R} (p : R → bool) f t r :
  (∀ x, p (f x) = p x) → p r = false → r ∈ on_rows p f t ↔ r ∈ t.
Proof.
  intros Hf Hr. rewrite elem_of_on_rows. split.
  - intros (x & Hx & ->). destruct (p x) eqn:Hp; [|done]. by rewrite Hf, Hp in Hr.
  - intros Hin. exists r. by rewrite Hr.
Qed.

Lemma primary_of_links p w d l :
  registry_integrity d → l ∈ workspace_links d → ln_project_id l = p → ln_workspace_id l = w →
  primary_active l = true → ln_workspace_id <$> active_primary_for_project p d = Some w.
Proof.
  intros Hok Hl Hp <- Ha. unfold active_primary_for_project.
  erewrite (select_one_the _ _ l); [done | done | |].
  - by rewrite Hp, eqs_refl.
  - intros x Hx Hxp. split_bools.
    apply (unique_eq primary_active ln_project_id _ _ _ (links_one_primary _ (ok_links _ Hok)));
      done || congruence.
Qed.

(** Clearing the Primary and linking the Workspace as the new one. *)
Lemma clear_then_promote p w actor t d n d1 u d2 l0 :
  registry_integrity d → registry_integrity d2 →
  project_workspace_link p w d = Some l0 → link_active l0 = true →
  clear_active_primary p t d = Ok (n, d1) →
  upsert_project_workspace_link p w true actor t d1 = Ok (u, d2) → primary_set p w d d2.
Proof.
  intros Hok Hok2 [Hl0 Hkey]%select_one_Some Hact Hclr Hup. split_bools.
  set (cleared := λ l, eqs (ln_project_id l) p && link_active l) in *.
  set (demote := λ l, set_link (ln_status l) false (ln_actor_id l) t l) in *.
  set (row := mkLink p w Link_ACTIVE true actor t t) in *.
  assert (workspace_links d1 = on_rows cleared demote (workspace_links d)) as E1
    by (by statement_inv Hclr).
  assert (demote l0 ∈ workspace_links d1) as Hl1.
  { rewrite E1. apply elem_of_on_rows. exists l0. split; [done|].
    unfold cleared. by subst p; rewrite eqs_refl, Hact. }
  assert (same_link row (demote l0) = true) as Hsame
    by (unfold same_link; subst p w; simpl; by rewrite !eqs_refl).
  assert (workspace_links d2 = on_rows (same_link row)
    (set_link Link_ACTIVE true actor t) (workspace_links d1)) as E2.
  { statement_inv Hup; [done|]. exfalso.
    eapply row_exists_false in Hl1; [|eassumption]. fold row in Hl1. congruence. }
  assert (∀ l, l ∈ workspace_links d1 → ln_project_id l = p → ln_is_primary l = false) as Hdem.
  { rewrite E1. intros l (x & Hx & ->)%elem_of_on_rows Hxp. destruct (cleared x) eqn:Hc; [done|].
    pose proof (links_primary_active _ (ok_links _ Hok)) as Hpa. rewrite Forall_forall in Hpa.
    specialize (Hpa x Hx). unfold cleared in Hc. rewrite Hxp, eqs_refl in Hc. simpl in Hc.
    rewrite Hc in Hpa. by destruct (ln_is_primary x). }
  assert (∀ l, l ∈ workspace_links d1 → same_link row l = true → link_active l = true) as Hacts.
  { rewrite E1. intros l (x & Hx & ->)%elem_of_on_rows Hs.
    assert (x = l0) as ->.
    { apply (unique_eq always link_key _ _ _ (links_pk _ (ok_links _ Hok))); try done.
      unfold link_key, same_link in *. destruct (cleared x); simpl in Hs; split_bools; congruence. }
    by destruct (cleared l0). }
  constructor.
  - eapply primary_of_links; [done | | | |]; [rewrite E2; apply elem_of_on_rows; exists (demote l0);
      split; [done | by rewrite Hsame] | done..].
  - rewrite E2. intros l (y & Hy & ->)%elem_of_on_rows. destruct (same_link row y) eqn:Hs.
    + unfold same_link in Hs; simpl in *. by split_bools.
    + intros Hyp Hpr. by rewrite (Hdem y) in Hpr.
  - intros l Hne. rewrite E2, E1, !elem_of_on_rows_other; try done.
    + unfold cleared. by rewrite eqs_ne.
    + unfold same_link; simpl. by rewrite eqs_ne.
  - rewrite E2, E1, !fmap_on_rows; try done. rewrite <-E1. intros r Hr Hs.
    specialize (Hacts r Hr Hs). unfold link_active in Hacts. split_bools.
    unfold set_link, link_key; simpl. congruence.
Qed.

Section epilogue.
Context `{Host, Kernel}.
#[export] Instance store_idempotency_same a s k q r c :
  Respects registry_same (store_idempotency a s k q r c).
Proof. method. Qed.
#[export] Instance store_if_same k a s q r c : Respects registry_same (store_if k a s q r c).
Proof. method. Qed.
#[export] Instance kernel_audit_same a b c d e f g :
  Respects registry_same (kernel_audit a b c d e f g).
Proof. method. Qed.
End epilogue.

(** The idempotency record and the audit event leave the registry as it is. *)
Ltac same_after H :=
  let Hsame := fresh "Hsame" in
  match type of H with ?m ?d = Ok (_, ?d') =>
    assert (registry_same d d') as Hsame
      by (clear - H; revert H; apply respects_apply; solve_respects)
  end.

Lemma primary_set_same p w d d1 d2 :
  registry_same d1 d2 → primary_set p w d d1 → primary_set p w d d2.
Proof.
  intros Hs [H1 H2 H3 H4]. pose proof (same_links _ _ Hs) as El.
  constructor; unfold active_primary_for_project in *; rewrite El; done.
Qed.

Section links.
Context `{Host, Kernel}.

Lemma promoted p w actor t d l0 n d1 u d2 d' :
  registry_integrity d → project_workspace_link p w d = Some l0 → link_active l0 = true →
  clear_active_primary p t d = Ok (n, d1) →
  upsert_project_workspace_link p w true actor t d1 = Ok (u, d2) →
  registry_same d2 d' → primary_set p w d d'.
Proof.
  intros Hok Hl0 Hact Hclr Hup Hsame. eapply primary_set_same; [exact Hsame|].
  eapply clear_then_promote; [done | | done.. | exact Hclr | exact Hup].
  apply (respects (R:=lawful) _ _ _ Hup), (respects (R:=lawful) _ _ _ Hclr), Hok.
Qed.

Lemma active_link_inv p w d :
  link_is_active (project_workspace_link p w d) = true →
  ∃ l0, project_workspace_link p w d = Some l0 ∧ link_active l0 = true.
Proof. unfold link_is_active. destruct (project_workspace_link p w d); naive_solver. Qed.

(** Choosing the Primary Workspace of a Project, or replacing it, leaves that Workspace as the
    only Primary of the Project: the former one stays linked but is Primary no more, the links of
    other Projects are untouched and no link is retired or revived. *)
Theorem primary_is_the_chosen_one p w m u key c d r d' :
  m = SetPrimaryWorkspace p w ∨ (∃ v, m = ReplacePrimaryWorkspace p v w) →
  domain_reachable d → mutate m u key c d = Ok (r, d') → d' = d ∨ primary_set p w d d'.
Proof.
  intros Hm [Hok _]%domain_reachable_ok Hrun. destruct Hm as [->|(v & ->)]; simpl in Hrun.
  - unfold set_primary_workspace, link_operation in Hrun.
    reading Hrun; [apply ret_Ok in Hrun as [_ ->]; by left|]. right.
    apply bind_Ok in Hrun as (? & s1 & Hclr & Hrun). apply bind_Ok in Hrun as (? & s2 & Hup & Hrun).
    apply bind_Ok in Hclr as (? & ? & Hclr & [_ ->]%ret_Ok).
    match goal with Hl : negb true || link_is_active _ = true |- _ =>
      apply active_link_inv in Hl as (l0 & Hl0 & Hact) end.
    same_after Hrun. by eapply promoted.
  - unfold replace_primary_workspace in Hrun.
    reading Hrun; [apply ret_Ok in Hrun as [_ ->]; by left|]. right.
    apply bind_Ok in Hrun as (? & s2 & Hlink & Hrun). same_after Hrun.
    unfold link_operation_in_transaction in Hlink. reading Hlink.
    apply bind_Ok in Hlink as (? & s1 & Hclr & Hlink).
    apply bind_Ok in Hlink as (? & s3 & Hup & [_ ->]%ret_Ok).
    match goal with Hl : link_is_active _ = true |- _ =>
      apply active_link_inv in Hl as (l0 & Hl0 & Hact) end.
    by eapply promoted.
Qed.
End links.

Lemma primary_is_the_chosen_one_witness :
  ln_workspace_id <$> active_primary_for_project lab reg5 = Some ws3 ∧
  ln_workspace_id <$> active_primary_for_project lab reg6 = Some ws4 ∧
  primary_set lab ws4 reg5 reg6.
Proof.
  split; [reflexivity|]. split; [reflexivity|].
  edestruct (primary_is_the_chosen_one lab ws4 (ReplacePrimaryWorkspace lab ws3 ws4) alice
    (Some "k6") (nth_call 6) reg5) as [He|Hp]; [by right; eexists | | vm_compute; reflexivity | |].
  - eapply domain_reachable_steps; [exact reg4_reachable | exact (rtc_once _ _ reg_step5)].
  - apply (f_equal (λ d, length (audit_events d))) in He. vm_compute in He. discriminate He.
  - exact Hp.
Defined.

(** ** The owner of a Project *)

Lemma select_one_app {R} (p : R → bool) t r :
  select_one p (t ++ [r]) = match select_one p t with
                            | Some x => Some x
                            | None => if p r then Some r else None
                            end.
Proof. unfold select_one. induction t as [|x t IH]; simpl; [by destruct (p r)|]. by destruct (p x). Qed.

Lemma select_one_delete {R} (p q : R → bool) t :
  (∀ r, p r = true → q r = true) → select_one p (List.filter q t) = select_one p t.
Proof.
  intros Hpq. unfold select_one. induction t as [|x t IH]; simpl; [done|].
  destruct (q x) eqn:Hq; simpl; [by rewrite IH|]. destruct (p x) eqn:Hp; [|done].
  by rewrite Hpq in Hq.
Qed.

Definition member_of (q x : string) (m : member_row) : bool :=
  eqs (mb_project_id m) q && eqs (mb_user_id m) x.

Lemma member_of_true q x m : member_of q x m = true ↔ member_key m = (q, x).
Proof.
  unfold member_of, member_key. split; [intros ?; split_bools; congruence|].
  intros [= <- <-]. by rewrite !eqs_refl.
Qed.

Lemma same_member_of row m : same_member row m = member_of (mb_project_id row) (mb_user_id row) m.
Proof. done. Qed.

Lemma upserted_member a b role pub t d u d' :
  upsert_project_member a b role pub t d = Ok (u, d') →
  projects d' = projects d ∧
  (∃ m, project_member a b d' = Some m ∧ mb_role m = role ∧ mb_can_publish m = pub) ∧
  ∀ q x, (q, x) ≠ (a, b) → project_member q x d' = project_member q x d.
Proof.
  set (row := mkMember a b role pub t t). intros Hrun. statement_inv Hrun; (split; [done|]); simpl.
  - unfold project_member; simpl. split.
    + rewrite select_one_on_rows by done.
      match goal with He : row_exists _ _ = true |- _ =>
        apply row_exists_true in He as (y & Hy & Hs) end.
      destruct (select_one _ _) as [m|] eqn:Hm.
      * apply select_one_Some in Hm as [_ Hm]. simpl. fold row.
        rewrite same_member_of. unfold member_of; simpl. rewrite Hm. eauto.
      * eapply select_one_None in Hm; [|exact Hy]. unfold same_member in Hs. simpl in *. congruence.
    + intros q x Hne. rewrite select_one_on_rows by done.
      destruct (select_one _ _) as [m|] eqn:Hm; [|done]. simpl.
      apply select_one_Some in Hm as [_ Hm]. apply (member_of_true q x) in Hm.
      destruct (same_member _ m) eqn:Hs; [|done]. rewrite same_member_of in Hs.
      apply member_of_true in Hs. simpl in Hs. congruence.
  - unfold project_member; simpl. split.
    + rewrite select_one_app. simpl. rewrite !eqs_refl.
      destruct (select_one _ _) as [m|] eqn:Hm; [|eexists; done].
      apply select_one_Some in Hm as [Hin Hm]. exfalso.
      match goal with He : row_exists _ _ = false |- _ =>
        eapply row_exists_false in He; [|exact Hin]; unfold same_member in He; simpl in He end.
      congruence.
    + intros q x Hne. rewrite select_one_app. destruct (select_one _ _); [done|].
      destruct (_ && _) eqn:Hm; [|done]. simpl in Hm. split_bools. congruence.
Qed.

Lemma removed_member a b d n d' :
  remove_project_member a b d = Ok (n, d') →
  projects d' = projects d ∧ project_member a b d' = None ∧
  ∀ q x, (q, x) ≠ (a, b) → project_member q x d' = project_member q x d.
Proof.
  intros [-> _]%delete_rows_inv. split; [done|]. unfold project_member; simpl. split.
  - apply select_one_None. intros r [_ Hr]%elem_of_select. by apply negb_true_iff in Hr.
  - intros q x Hne. apply select_one_delete. intros r Hr. apply negb_true_iff, not_true_iff_false.
    intros Hr'. split_bools. congruence.
Qed.

Lemma owner_updated a new t d n d' :
  repo_update_project a (set_project_owner new t) d = Ok (n, d') →
  project_members d' = project_members d ∧
  ∀ q, project_owner q d' = if eqs q a then (λ _, new) <$> project_owner q d else project_owner q d.
Proof.
  unfold repo_update_project. intros (-> & _ & _)%update_rows_inv. split; [done|]. intros q.
  unfold project_owner; simpl. rewrite select_one_on_rows by done.
  destruct (select_one _ _) as [p|] eqn:Hp; simpl; [|by destruct (eqs q a)].
  apply select_one_Some in Hp as [_ Hp]. split_bools. subst q. by destruct (eqs _ a).
Qed.

(** A transfer that is committed hands the Project over: the new owner owns it and is no
    longer listed as a member, the former owner stays as an editor who may publish, and nobody
    else's role, in this or any other Project, changes. *)
Theorem ownership_is_handed_over `{Host, Kernel} p new u key c d r d' :
  domain_reachable d → mutate (TransferProjectOwner p new) u key c d = Ok (r, d') →
  d' = d ∨ project_owner p d = Some new ∨
  ∃ old m, project_owner p d = Some old ∧ project_owner p d' = Some new ∧
    project_member p new d' = None ∧ project_member p old d' = Some m ∧
    mb_role m = Role_EDITOR ∧ mb_can_publish m = true ∧
    (∀ q, q ≠ p → project_owner q d' = project_owner q d) ∧
    (∀ q x, (q, x) ≠ (p, new) → (q, x) ≠ (p, old) → project_member q x d' = project_member q x d).
Proof.
  intros [Hok _]%domain_reachable_ok Hrun. simpl in Hrun. unfold transfer_project_owner in Hrun.
  reading Hrun; [apply ret_Ok in Hrun as [_ ->]; by left | |];
    match goal with Hq : project_by_id _ _ = Some ?q |- _ =>
      assert (project_owner p d = Some (pj_owner_user_id q)) as Hown
        by (unfold project_owner; unfold project_by_id in Hq; by rewrite Hq) end; split_bools.
  { right. left. congruence. }
  apply bind_Ok in Hrun as (? & s1 & [Hmb Hpo]%owner_updated & Hrun).
  apply bind_Ok in Hrun as (? & ? & [_ ->]%require_Ok & Hrun).
  apply bind_Ok in Hrun as (? & s2 & (Hp2 & (m & Hold & Hrole & Hpub) & Hk2)%upserted_member & Hrun).
  apply bind_Ok in Hrun as (? & s3 & (Hp3 & Hnone & Hk3)%removed_member & Hrun).
  same_after Hrun. destruct Hsame as [Sp Sm _ _ _ _ _ _ _].
  assert (∀ q, project_owner q d' = project_owner q s1) as Ho
    by (intros q; unfold project_owner; congruence).
  assert (∀ q x, project_member q x d' = project_member q x s3) as Hmem
    by (intros q y; unfold project_member; congruence).
  assert (∀ q x, project_member q x s1 = project_member q x d) as Hmem1
    by (intros q y; unfold project_member; congruence).
  right. right. eexists _, m. split_and!.
  - exact Hown.
  - by rewrite Ho, Hpo, eqs_refl, Hown.
  - by rewrite Hmem.
  - rewrite Hmem, Hk3; [exact Hold | congruence].
  - done.
  - done.
  - intros q Hq. by rewrite Ho, Hpo, eqs_ne.
  - intros q y H1' H2'. by rewrite Hmem, Hk3, Hk2, Hmem1.
Qed.

Lemma ownership_is_handed_over_witness :
  project_owner lab reg7 = Some "alice" ∧ project_owner lab reg8 = Some "bob" ∧
  project_member lab "bob" reg8 = None ∧
  ∃ m, project_member lab "alice" reg8 = Some m ∧ mb_role m = Role_EDITOR.
Proof.
  split; [reflexivity|].
  edestruct (ownership_is_handed_over lab "bob" alice (Some "k8") (nth_call 8) reg7)
    as [He|[He|(old & m & H1 & H2 & H3 & H4 & H5 & _)]];
    [exact reg7_reachable | vm_compute; reflexivity | | |].
  - apply (f_equal (λ d, length (audit_events d))) in He. vm_compute in He. discriminate He.
  - vm_compute in He. discriminate He.
  - vm_compute in H1. injection H1 as <-. split; [exact H2|]. split; [exact H3|].
    exists m. split; [exact H4 | exact H5].
Defined.

(** * Identifiers of Task relationships

    [_relationship_id] concatenates its parts as netstrings; the parts can be read back,
    so relationships with one identifier are one relationship. *)

(** ** Splitting texts *)


(** The text is empty or begins with a character, not in the middle of one. *)
Definition starts (s : string) : Prop :=
  match s with EmptyString => True | String c _ => continuation c = false end.

Lemma split_by_length s1 s2 r1 r2 :
  s1 ++ r1 = s2 ++ r2 → py_len s1 = py_len s2 → starts r1 → starts r2 → s1 = s2 ∧ r1 = r2.
Proof.
  revert s2. induction s1 as [|c1 s1 IH]; intros [|c2 s2]; rewrite ?append_cons, ?append_nil_l;
    simpl; intros He Hl H1 H2; subst; try done.
  - simpl in H1. by rewrite H1 in Hl.
  - simpl in H2. by rewrite H2 in Hl.
  - injection He as -> He. destruct (IH s2) as [-> ->]; [done | | done..]. lia.
Qed.

Fixpoint all_digits (s : string) : bool :=
  match s with
  | EmptyString => true
  | String c s' => match digit_value c with Some _ => all_digits s' | None => false end
  end.

Lemma pretty_N_char_digit x : ∃ k, digit_value (pretty_N_char x) = Some k.
Proof. unfold pretty_N_char. repeat case_match; vm_compute; eauto. Qed.

Lemma pretty_N_go_digits n s :
  all_digits s = true → all_digits (pretty_N_go n s) = true ∧ (s ≠ "" → pretty_N_go n s ≠ "").
Proof.
  revert s. induction (N.lt_wf_0 n) as [n _ IH]; intros s Hs.
  assert (n = 0 ∨ 0 < n)%N as [->|Hn] by lia; [done|]. rewrite pretty_N_go_step by done.
  destruct (IH (n `div` 10)%N (N.div_lt n 10 Hn eq_refl)
    (String (pretty_N_char (n `mod` 10)) s)) as [Hd Hne].
  - simpl. by destruct (pretty_N_char_digit (n `mod` 10)) as [k ->].
  - split; [done|]. intros _. by apply Hne.
Qed.

Lemma pretty_digits (n : nat) : all_digits (pretty n) = true ∧ pretty n ≠ "".
Proof.
  unfold pretty, pretty_nat, pretty, pretty_N. case_decide; [done|].
  destruct (pretty_N_go_digits (N.of_nat n) "" eq_refl) as [Hd _]. split; [done|].
  rewrite pretty_N_go_step by lia.
  by apply pretty_N_go_digits; [simpl; destruct (pretty_N_char_digit (N.of_nat n `mod` 10)) as [k ->]|].
Qed.

(** Digits up to the first colon. *)
Lemma split_at_colon d1 d2 x y :
  all_digits d1 = true → all_digits d2 = true → d1 ++ ":" ++ x = d2 ++ ":" ++ y → d1 = d2 ∧ x = y.
Proof.
  revert d2. induction d1 as [|c1 d1 IH]; intros [|c2 d2] H1 H2;
    rewrite ?append_cons, ?append_nil_l; simpl in *; intros [= He].
  - done.
  - subst. by vm_compute in H2.
  - subst. by vm_compute in H1.
  - subst. repeat case_match; try done. by destruct (IH d2) as [-> ->].
Qed.

Lemma digit_starts s r : all_digits s = true → s ≠ "" → starts (s ++ r).
Proof.
  destruct s as [|c s]; [done|]. intros Hd _. rewrite append_cons. simpl in *.
  unfold digit_value in Hd. unfold continuation.
  destruct (Nat.leb 48 (code c)); simpl in Hd; [|done].
  destruct (Nat.leb_spec (code c) 57) as [Hle|]; [|done].
  by rewrite (proj2 (Nat.leb_gt 128 (code c))) by lia.
Qed.

Lemma netstring_starts t r : starts (netstring t ++ r).
Proof. unfold netstring. rewrite append_assoc. apply digit_starts; apply pretty_digits. Qed.

Lemma netstring_inj t1 t2 r1 r2 :
  netstring t1 ++ r1 = netstring t2 ++ r2 → starts r1 → starts r2 → t1 = t2 ∧ r1 = r2.
Proof.
  unfold netstring. rewrite !append_assoc. intros He H1 H2.
  apply split_at_colon in He as [Hn He]; [|apply pretty_digits..].
  apply (inj pretty) in Hn. by apply split_by_length.
Qed.

Lemma append_empty (s : string) : s ++ "" = s.
Proof. induction s as [|c s IH]; [done|]. by rewrite append_cons, IH. Qed.

(** The identifier of a Task relationship determines its source, its target and its type: no
    two relationships share one, so deleting by identifier deletes the relationship meant. *)
Theorem relationship_id_identifies a b c a' b' c' :
  relationship_id a b c = relationship_id a' b' c' → a = a' ∧ b = b' ∧ c = c'.
Proof.
  unfold relationship_id. intros He.
  rewrite <-(append_empty (netstring c)), <-(append_empty (netstring c')) in He.
  apply netstring_inj in He as [-> He]; [|apply netstring_starts..].
  apply netstring_inj in He as [-> He]; [|apply netstring_starts..].
  by apply netstring_inj in He as [-> _].
Qed.

Lemma relationship_id_identifies_witness :
  relationship_id "t1" "t2" "related_to" = "2:t12:t210:related_to" ∧
  "t1" = "t1" ∧ "t2" = "t2" ∧ "related_to" = "related_to".
Proof.
  split; [vm_compute; reflexivity|].
  apply (relationship_id_identifies "t1" "t2" "related_to" "t1" "t2" "related_to"). reflexivity.
Defined.
