(* ===== verification/RegistryDefaults.v ===== *)
(** * The default Project of a user

    Provisioning gives a user one default Project; it can neither be archived nor
    transferred, so provisioning again finds it. *)

From stdpp Require Import base tactics list strings relations.
From Stdlib Require Import ZArith Lia.
From S2P Require Import Prelude PyText PyJson Tables Contracts RegistryRows Schema Repository.
From S2P Require Import Projection RegistryRepository Service EnvironmentIdentity Authorization.
From S2P Require Import Registry RegistryWorkspaces RegistryViews Acceptance Execution Evolution.
From S2P Require Import Methods Integrity System Scenario RegistryMethods RegistryFrame.
From S2P Require Import ContextRepository Context ContextCandidates ContextSnapshots TaskLifecycle.
From S2P Require Import ContextMethods RegistryIntegrity RegistrySound RegistryScenario RegistryRequests.
From S2P Require Import RegistryOutcomes.

Local Open Scope string_scope.
#[local] Hint Constants Opaque : typeclass_instances.
#[local] Hint Transparent dict time relation : typeclass_instances.

(** A default Project stays the default Project of its owner. *)
Definition default_of (uid : string) (p : project_row) : Prop :=
  pj_is_default p = true ∧ pj_owner_user_id p = uid.

Definition defaults_kept : relation db := λ d d',
  lawful d d' ∧
  (registry_integrity d → ∀ p uid, p ∈ projects d → default_of uid p →
   ∃ p', p' ∈ projects d' ∧ pj_project_id p' = pj_project_id p ∧ default_of uid p').

#[export] Instance defaults_kept_preorder : PreOrder defaults_kept.
Proof.
  split; [intros d; split; [done | eauto]|].
  intros d1 d2 d3 [[Hg1 Hl1] H1] [[Hg2 Hl2] H2]. split; [split; [by etrans | auto]|].
  intros Hok p uid Hp Hd. destruct (H1 Hok p uid Hp Hd) as (p2 & Hp2 & Hid2 & Hd2).
  destruct (H2 (Hl1 Hok) p2 uid Hp2 Hd2) as (p3 & Hp3 & Hid3 & Hd3).
  exists p3. split_and!; [done | congruence | done].
Qed.

(** The statement writes no Project, or adds one. *)
Lemma defaults_kept_intro {A} (m : txn A) d a d' :
  m d = Ok (a, d') → Respects lawful m →
  (∀ p, p ∈ projects d → ∃ p', p' ∈ projects d' ∧ pj_project_id p' = pj_project_id p ∧
     ∀ uid, default_of uid p → default_of uid p') → defaults_kept d d'.
Proof.
  intros Hrun Hm Hp. split; [by eapply Hm|]. intros _ p uid Hin Hd.
  destruct (Hp p Hin) as (p' & ? & ? & Hd'). exists p'. auto.
Qed.

Ltac keeps_defaults :=
  let Hrun := fresh "Hrun" in
  intros ?s ?x ?s Hrun; eapply defaults_kept_intro; [exact Hrun | |];
  [ first [ apply _ | by apply rs_update_environments | by apply rs_keep_environments
          | by apply rs_update_links | by apply rs_update_projects
          | apply rs_update_workspaces; [done|]; intros ?;
            by match goal with Hk : workspace_kept _ |- _ => apply Hk end ]
  | statement_inv Hrun; simpl; try by eauto ].

Lemma update_projects_kept p f :
  updates_one pj_project_id p f → (∀ r, project_lasts r (f r)) →
  (∀ r, pj_owner_user_id (f r) = pj_owner_user_id r) →
  Respects defaults_kept (update_rows projects with_projects p project_update_guard f).
Proof.
  intros Hone Hlast Hown. keeps_defaults. intros y Hy.
  exists (if p y then f y else y). split; [apply elem_of_on_rows; eauto|].
  destruct (p y); [|done]. pose proof (Hlast y) as [= Hid Hdf _]. split; [done|].
  unfold default_of. by rewrite Hdf, Hown.
Qed.

#[export] Instance insert_project_kept a b c d e f g h :
  Respects defaults_kept (insert_project a b c d e f g h).
Proof. keeps_defaults. intros p Hp. exists p. split; [apply elem_of_app; by left | done]. Qed.

#[export] Instance registry_safe_kept : RegistrySafe defaults_kept.
Proof.
  constructor; [apply _|..]; intros;
    first [ apply update_projects_kept; [done|..]; intros ?;
            by match goal with Hk : project_kept _ |- _ => apply Hk end
          | keeps_defaults; fail ].
Qed.

Section blocks.
Context `{Host, Kernel}.

#[local] Instance upsert_member_kept a b c d e :
  Respects defaults_kept (upsert_project_member a b c d e).
Proof. keeps_defaults. Qed.
#[local] Instance upsert_link_kept a b c d e :
  Respects defaults_kept (upsert_project_workspace_link a b c d e).
Proof. keeps_defaults. Qed.
#[local] Instance insert_context_draft_kept a b c d :
  Respects defaults_kept (insert_context_draft a b c d).
Proof. keeps_defaults. Qed.
#[local] Instance insert_context_version_kept a b c d e f g h :
  Respects defaults_kept (insert_context_version a b c d e f g h).
Proof. keeps_defaults. Qed.
#[local] Instance insert_context_provenance_kept a b c d :
  Respects defaults_kept (insert_context_provenance a b c d).
Proof. keeps_defaults. Qed.
#[local] Instance initialize_project_context_kept a b c d :
  Respects defaults_kept (initialize_project_context a b c d).
Proof. method. Qed.
#[local] Instance archived_kept a b c d e :
  Respects defaults_kept (repo_update_project a (set_project_archived b c d e)).
Proof. apply update_projects_kept; [one_row | intros ?; done..]. Qed.
#[local] Instance set_environment_kept a b c d e f g h :
  Respects defaults_kept (repo_update_environment a (set_environment b c d e f g h)).
Proof.
  assert (Respects lawful (repo_update_environment a (set_environment b c d e f g h)))
    by (apply rs_update_environments; [one_row | intros ?; done]).
  unfold repo_update_environment in *. keeps_defaults.
Qed.
#[local] Instance unregister_and_retire_kept a b :
  Respects defaults_kept (unregister_workspace_and_retire_links a b).
Proof.
  intros d r d' Hrun. eapply defaults_kept_intro; [exact Hrun | apply _ |].
  unfold unregister_workspace_and_retire_links in Hrun. tx_inv_all.
  repeat match goal with H : _ _ = Ok _ |- _ => statement_inv H end. simpl. eauto.
Qed.
#[local] Instance link_operation_in_transaction_kept a b c d e f :
  Respects defaults_kept (link_operation_in_transaction a b c d e f).
Proof. method. Qed.

(** A default Project is not transferred. *)
#[local] Instance transfer_kept a b c d e f g h i :
  Respects defaults_kept (transfer_project_owner a b c d e f g h i).
Proof.
  intros s r s' Hrun. pose proof Hrun as Hl. apply (respects (R:=lawful)) in Hl.
  unfold transfer_project_owner in Hrun. reading Hrun;
    [by apply ret_Ok in Hrun as [_ ->] | revert Hrun; apply respects_apply; solve_respects |].
  apply bind_Ok in Hrun as (? & s1 & Hup & Hrun).
  transitivity s1; [|revert Hrun; apply respects_apply; solve_respects].
  split. { revert Hup. by apply respects_apply, rs_update_projects; [one_row | intros ?]. }
  unfold repo_update_project in Hup. statement_inv Hup. intros Hok p uid Hp [Hdf Hown]. simpl.
  exists p. split; [|done]. apply on_rows_kept; [done|]. apply eqs_ne. intros Hid.
  match goal with Hq : project_by_id _ _ = Some ?q |- _ =>
    assert (p = q) as -> by (by eapply project_by_id_unique) end. split_bools. congruence.
Qed.

#[export] Instance registry_blocks_kept : RegistryBlocks defaults_kept.
Proof. constructor; [apply _|..]; first [apply _ | method]. Qed.

(** The Context service and the forks write no Project. *)
#[export] Instance fork_receipts_kept : ForkReceipts defaults_kept.
Proof.
  constructor; [apply _|..]; intros; intros ?s ?x ?s Hrun;
    (eapply defaults_kept_intro; [exact Hrun | apply _ |]); statement_inv Hrun; simpl; eauto.
Qed.
#[export] Instance context_statements_kept : ContextStatements defaults_kept.
Proof.
  constructor; [constructor; [constructor; [apply _|..]|..]|..]; intros; intros ?s ?x ?s Hrun;
    (eapply defaults_kept_intro; [exact Hrun | first [ apply _ | by apply xs_insert_candidate
      | by apply xs_insert_preview ] |]);
    first [ statement_inv Hrun | unfold open_conversation in Hrun; tx_inv_all;
            repeat match goal with H : _ _ = Ok _ |- _ => statement_inv H end ]; simpl; eauto.
Qed.

Lemma conversation_kept d d' : registry_same d d' → db_evolves d d' → defaults_kept d d'.
Proof.
  intros Hsame Hev. split; [by apply conversation_lawful|]. intros _ p uid Hp Hd.
  exists p. by rewrite (same_projects _ _ Hsame).
Qed.
End blocks.

(** ** Provisioning *)

Section provisioning.
Context `{Host, Kernel}.

Lemma default_projects_elem uid d p :
  p ∈ default_projects_for_owner uid d ↔ p ∈ projects d ∧ default_of uid p.
Proof.
  unfold default_projects_for_owner, default_of. rewrite elem_of_order_by, elem_of_select.
  rewrite andb_true_iff. unfold eqs. rewrite String.eqb_eq. naive_solver.
Qed.

(** The default Project that provisioning answers with. *)
Lemma provisioned uid name c d r d' :
  registry_integrity d → provision uid name c d = Ok (r, d') →
  ∃ p, p ∈ projects d' ∧ default_of uid p ∧ r = JObj (project_dict p).
Proof.
  intros Hok Hrun. unfold provision, provision_default_project in Hrun. reading Hrun.
  { apply ret_Ok in Hrun as [-> ->].
    match goal with Hf : List.find _ _ = Some ?q |- _ =>
      apply find_some in Hf as [Hq%list_elem_of_In%default_projects_elem _]; exists q end.
    by destruct Hq. }
  apply bind_Ok in Hrun as (winner & s1 & Hins & Hrun).
  apply catch_integrity_Ok in Hins as [Hfresh|(? & _ & Hins)].
  - apply bind_Ok in Hfresh as (? & s2 & Hfresh & [-> ->]%ret_Ok).
    assert (registry_integrity s2) as Hok2 by apply (respects (R:=lawful) _ _ _ Hfresh), Hok.
    set (row := mkProject (default_project_id uid) uid (name ++ "'s Project") None Project_ACTIVE
      true None None (cl_now c) (cl_now c)).
    assert (row ∈ projects s2) as Hrow.
    { statement_inv Hfresh. simpl. apply elem_of_app. right. constructor. }
    apply bind_Ok in Hrun as (? & s3 & Hini & Hrun).
    apply bind_Ok in Hrun as (? & s4 & Haud & Hrun). reading Hrun. apply ret_Ok in Hrun as [-> ->].
    assert (projects s4 = projects s2) as Ep.
    { rewrite (same_projects _ _ (respects (R:=registry_same) _ _ _ Haud)).
      unfold initialize_project_context in Hini. tx_inv_all.
      by repeat match goal with H : _ _ = Ok _ |- _ => statement_inv H end. }
    match goal with Hq : project_by_id _ _ = Some ?q |- _ => exists q;
      apply project_by_id_elem in Hq as [Hq1 Hq2]; rewrite Ep in Hq1;
      assert (q = row) as -> end.
    { by apply (unique_eq always pj_project_id _ _ _ (projects_pk _ (ok_projects _ Hok2))). }
    by rewrite Ep.
  - reading Hins. apply ret_Ok in Hins as [-> ->]. apply ret_Ok in Hrun as [-> ->].
    match goal with Hf : active_default _ _ = Some ?q |- _ =>
      apply find_some in Hf as [Hq%list_elem_of_In%default_projects_elem _]; exists q end.
    by destruct Hq.
Qed.

Lemma find_the {A} (p : A → bool) l x :
  x ∈ l → p x = true → (∀ y, y ∈ l → p y = true → y = x) → List.find p l = Some x.
Proof. apply select_one_the. Qed.
End provisioning.

(** A user is given one default Project for good: after provisioning succeeded once, and
    whatever the domain does afterwards, the user has exactly one default Project, it is active,
    and provisioning again succeeds (outside maintenance, for a known user), writes nothing and
    answers with that Project, the one that the first call returned. *)
Theorem default_project_is_provisioned_once `{Host, Kernel} uid name name' c c' d r d1 d2 users :
  domain_reachable d → provision uid name c d = Ok (r, d1) → rtc domain_step d1 d2 →
  maintenance_is_active d2 = Some false → cl_users c' = Some users → uid ∈ users →
  truthy name' = true →
  ∃ p fields, provision uid name' c' d2 = Ok (JObj (project_dict p), d2) ∧
    r = JObj fields ∧ dict_get "project_id" fields = Some (JStr (pj_project_id p)) ∧
    project_active p = true ∧
    ∀ q, q ∈ projects d2 ∧ pj_is_default q = true ∧ pj_owner_user_id q = uid ↔ q = p.
Proof.
  intros Hd Hrun Hs Hmt Hus Huid Hname. destruct (domain_reachable_ok d Hd) as [Hok _].
  assert (truthy uid = true) as Hut.
  { apply bind_Ok in Hrun as (? & ? & [Ht _]%require_Ok & _). by split_bools. }
  assert (domain_reachable d1) as Hd1.
  { eapply domain_reachable_steps; [exact Hd|]. by eapply rtc_once, domain_registry, registry_provisions. }
  destruct (provisioned _ _ _ _ _ _ Hok Hrun) as (p1 & Hp1 & Hdf1 & ->).
  destruct (domain_steps_spec defaults_kept d1 d2) as [_ Hkept]; [apply conversation_kept | done |].
  destruct (domain_reachable_ok d1 Hd1) as [Hok1 _].
  destruct (Hkept Hok1 p1 uid Hp1 Hdf1) as (p & Hp & Hid & Hdf & Hown).
  destruct (domain_reachable_ok d2) as [Hok2 Hsound]; [by eapply domain_reachable_steps|].
  assert (∀ q, q ∈ projects d2 → default_of uid q → q = p) as Huniq.
  { intros q Hq [Hqd Hqo].
    apply (unique_eq default_active pj_owner_user_id _ _ _
      (projects_one_default _ (ok_projects _ Hok2))); try done; try congruence;
      unfold default_active; rewrite ?Hqd, ?Hdf; by apply (sound_default _ Hsound). }
  exists p, (project_dict p1). split_and!.
  - unfold provision, provision_default_project, require_known_auth_user, begin_write.
    rewrite Hut, Hname, Hus. unfold mbind, tx_bind, require, require_some, gets, mret, tx_ret; simpl.
    rewrite bool_decide_eq_true_2, Hmt by done.
    rewrite (find_the project_active _ p); [done | by apply default_projects_elem | |].
    + by apply (sound_default _ Hsound).
    + intros q [Hq Hqd]%default_projects_elem _. auto.
  - done.
  - simpl. by rewrite Hid.
  - by apply (sound_default _ Hsound).
  - intros q. split; [intros (Hq & ? & ?); by apply Huniq | by intros ->].
Qed.

Lemma default_project_is_provisioned_once_witness :
  ∃ p, provision "alice" "Alice" (nth_call 20) reg9 = Ok (JObj (project_dict p), reg9) ∧
    pj_project_id p = "project-default-#alice".
Proof.
  edestruct (default_project_is_provisioned_once "alice" "Alice" "Alice" (nth_call 1) (nth_call 20)
    reg0) as (p & fields & H1 & Hf & H2 & _).
  - exists reg0. split; [exact reg0_initial | exact (rtc_refl _ _)].
  - vm_compute. reflexivity.
  - transitivity reg4; [|exact reg_steps49]. eapply rtc_l; [exact reg_step2|].
    eapply rtc_l; [exact reg_step3 | exact (rtc_once _ _ reg_step4)].
  - reflexivity.
  - reflexivity.
  - set_solver.
  - reflexivity.
  - exists p. split; [exact H1|]. injection Hf as <-. vm_compute in H2. by injection H2.
Defined.
