(* ===== verification/ProjectionLaws.v ===== *)
(** * What a Task projection says about its conversation *)

From stdpp Require Import base tactics list strings relations.
From Stdlib Require Import ZArith Lia.
From S2P Require Import Prelude PyText Tables Contracts RegistryRows Schema Repository Service.
From S2P Require Import Acceptance Execution Evolution Methods Integrity System History Running.
From S2P Require Import Scenario Projection.

Local Open Scope Z_scope.

Lemma unique_ids_elem seen ids t : t ∈ unique_ids seen ids → t ∈ ids ∧ (t ∉ seen) ∧ truthy t = true.
Proof.
  revert seen. induction ids as [|x ids IH]; intros seen; simpl; [set_solver|].
  destruct (truthy x && negb (bool_decide (x ∈ seen))) eqn:Hx.
  - split_bools. intros [->|Ht]%elem_of_cons; [set_solver|]. apply IH in Ht. set_solver.
  - intros Ht%IH. set_solver.
Qed.

(** The entry of a Task in the result is its own projection. *)
Lemma projection_of_inv ids d t p :
  projection_of t (projections_for_tasks ids d) = Some p →
  t ∈ unique_ids [] ids ∧ task_projection (unique_ids [] ids) d t = Some p.
Proof.
  unfold projection_of, projections_for_tasks. intros ([x q] & Hs & Hq')%fmap_Some. simpl in Hq'. subst q.
  apply select_one_Some in Hs as [Hin Hp]. simpl in Hp. split_bools. subst x. simpl.
  apply list_elem_of_omap in Hin as (y & Hy & Hq).
  destruct (task_projection _ d y) eqn:Hty; simplify_eq/=. done.
Qed.

Section projection.
Context `{Host} (d : db) (Hd : reachable d) (ids : list string) (t : string).
Context (Ht : t ∈ unique_ids [] ids).

Let turns := repo_list_turns t d.

Lemma turns_elem τ : τ ∈ turns ↔ τ ∈ task_turns d ∧ tn_task_id τ = t.
Proof.
  unfold turns, repo_list_turns. rewrite elem_of_order_by, elem_of_select. unfold eqs.
  by rewrite String.eqb_eq.
Qed.

Lemma the_turn τ τ' :
  τ ∈ task_turns d → τ' ∈ task_turns d → tn_turn_id τ = tn_turn_id τ' → τ = τ'.
Proof using Hd.
  intros. by apply (unique_eq always tn_turn_id _ _ _
    (turns_pk _ (ok_turns _ (reachable_integrity _ Hd)))).
Qed.

(** The executions of the Turns of the Task are the executions of the Task. *)
Lemma executions_elem e :
  e ∈ (turns ≫= λ τ, executions_by_turn (unique_ids [] ids) (tn_turn_id τ) d)
  ↔ e ∈ executions d ∧ ∃ τ, τ ∈ task_turns d ∧ tn_task_id τ = t ∧ tn_turn_id τ = ex_turn_id e.
Proof using Hd Ht.
  rewrite list_elem_of_bind. unfold executions_by_turn.
  setoid_rewrite elem_of_order_by. setoid_rewrite elem_of_select. setoid_rewrite turns_elem. split.
  - intros (τ & [He Hp] & Hτ & Hid). split_bools. split; [done|]. by exists τ.
  - intros (He & τ & Hτ & Hid & Hturn). exists τ. split; [|done]. split; [done|].
    rewrite <-Hturn, eqs_refl, andb_true_r. apply bool_decide_eq_true.
    pose proof (met_executions _ (reachable_integrity _ Hd)) as Hm. unfold met in Hm.
    rewrite Forall_forall in Hm. specialize (Hm e He). unfold execution_ref in Hm. split_ands.
    match goal with Hr : row_exists (λ t, turn_in _ _ t && _ && _) _ = true |- _ =>
      apply row_exists_true in Hr as (τ' & Hτ' & Hin) end.
    unfold turn_in in Hin. split_bools.
    assert (τ' = τ) as -> by (apply the_turn; congruence). by assert (ex_task_id e = t) as -> by congruence.
Qed.

Lemma alive_iff_active :
  existsb exec_active (turns ≫= λ τ, executions_by_turn (unique_ids [] ids) (tn_turn_id τ) d) = true
  ↔ active_turn t d ≠ None.
Proof using Hd Ht.
  pose proof (reachable_running _ Hd) as Hrn. rewrite existsb_exists.
  setoid_rewrite <-list_elem_of_In. setoid_rewrite executions_elem. unfold active_turn. split.
  - intros (e & (He & τ & Hτ & Htask & Hid) & Ha) Hnone.
    destruct (rn_active _ _ Hrn e He Ha) as [_ (τ' & Hτ' & Hid' & Hact)].
    assert (τ' = τ) as -> by (apply the_turn; congruence).
    eapply select_one_None in Hnone; [|exact Hτ]. by rewrite Htask, eqs_refl, Hact in Hnone.
  - destruct (select_one _ _) as [τ|] eqn:Hs; [|done]. intros _.
    apply select_one_Some in Hs as [Hτ Hp]. apply andb_true_iff in Hp as [Htask Hact]. split_bools.
    destruct (rn_turn _ _ Hrn τ Hτ Hact) as (e & He & Het & Hea); [done|]. eauto 10.
Qed.

(** The items of the Turns of the Task are the items of the Task. *)
Lemma items_elem i :
  i ∈ (turns ≫= λ τ, items_by_turn (unique_ids [] ids) (tn_turn_id τ) d)
  ↔ i ∈ select (of_task_item t) (turn_items d).
Proof using Hd Ht.
  rewrite list_elem_of_bind. unfold items_by_turn.
  setoid_rewrite elem_of_order_by. setoid_rewrite elem_of_select. setoid_rewrite turns_elem.
  assert (i ∈ turn_items d → ∃ τ, τ ∈ task_turns d ∧ tn_turn_id τ = it_turn_id i ∧
    tn_task_id τ = it_task_id i) as Hitem.
  { intros Hi. pose proof (met_items _ (reachable_integrity _ Hd)) as Hm. unfold met in Hm.
    rewrite Forall_forall in Hm. specialize (Hm i Hi). unfold item_ref in Hm. split_ands.
    match goal with Hr : row_exists (turn_in _ _) _ = true |- _ =>
      apply row_exists_true in Hr as (τ & Hτ & Hin) end.
    unfold turn_in in Hin. split_bools. by exists τ. }
  unfold of_task_item. split.
  - intros (τ & [Hi Hp] & Hτ & Htask). split; [done|]. split_bools.
    destruct (Hitem Hi) as (τ' & Hτ' & Hid & Hti).
    assert (τ' = τ) as -> by (apply the_turn; congruence). rewrite <-Hti, Htask. apply eqs_refl.
  - intros [Hi Hti]. destruct (Hitem Hi) as (τ & Hτ & Hid & Htask). split_bools. exists τ.
    split; [|split; [done | congruence]]. split; [done|].
    rewrite <-Hid, eqs_refl, andb_true_r. apply bool_decide_eq_true. by rewrite Hti.
Qed.
End projection.

Lemma foldr_max_le l x : x ∈ l → x ≤ foldr Z.max 0 l.
Proof. induction l as [|y l IH]; [set_solver|]. intros [->|?]%elem_of_cons; simpl; [lia|]. specialize (IH H). lia. Qed.

Lemma foldr_max_same (l1 l2 : list Z) :
  (∀ x, x ∈ l1 ↔ x ∈ l2) → foldr Z.max 0 l1 = foldr Z.max 0 l2.
Proof.
  assert (∀ l m, 0 ≤ m → (∀ x, x ∈ l → x ≤ m) → foldr Z.max 0 l ≤ m) as Hle.
  { induction l as [|y l IH]; simpl; intros m Hm Hx; [done|].
    pose proof (Hx y ltac:(constructor)). pose proof (IH m Hm ltac:(set_solver)). lia. }
  assert (∀ l, 0 ≤ foldr Z.max 0 l) as Hpos by (intros l; induction l; simpl; lia).
  intros Heq. apply Z.le_antisymm; apply Hle; auto; intros x Hx; apply foldr_max_le; by apply Heq.
Qed.

(** The last Turn of a Task without an active one has ended. *)
Lemma idle_last_turn t d :
  active_turn t d = None → tn_status <$> last (repo_list_turns t d) ≠ Some Turn_IN_PROGRESS.
Proof.
  intros Ha (τ & Hτ & Hst)%fmap_Some. apply last_Some in Hτ as [l Hl].
  assert (τ ∈ repo_list_turns t d) as Hin by (rewrite Hl; apply elem_of_app; right; constructor).
  apply turns_elem in Hin as [Hin Ht]. eapply select_one_None in Ha; [|exact Hin].
  unfold turn_active in Ha. by rewrite Ht, eqs_refl, <-Hst in Ha.
Qed.

(** C35: the summary of a Task agrees with its conversation: it is RUNNING exactly while a Turn is
    in progress, otherwise QUEUED while a submission is pending; without either it is CANCELLED
    when the work was cancelled and else tells how the last Turn ended (SUCCEEDED, FAILED, or
    CANCELLED for an interrupted Turn), or, if there was no Turn, COMPLETED when the work was
    completed and QUEUED when not; and the sequence number it reports is the number of items in
    the transcript. *)
Theorem projection_follows_the_conversation `{Host} d ids t p :
  reachable d → projection_of t (projections_for_tasks ids d) = Some p →
  let pending := row_exists (λ s, eqs (sb_task_id s) t && submission_pending s) (submissions d) in
  let last_turn := tn_status <$> last (repo_list_turns t d) in
  (tp_status p = Task_RUNNING ↔ active_turn t d ≠ None) ∧
  (active_turn t d = None → pending = true → tp_status p = Task_QUEUED) ∧
  (active_turn t d = None → pending = false →
     (tp_work_status p = Work_CANCELLED → tp_status p = Task_CANCELLED) ∧
     (tp_work_status p ≠ Work_CANCELLED →
        match last_turn with
        | Some Turn_COMPLETED => tp_status p = Task_SUCCEEDED
        | Some Turn_FAILED => tp_status p = Task_FAILED
        | Some Turn_INTERRUPTED => tp_status p = Task_CANCELLED
        | Some Turn_IN_PROGRESS => False
        | None => tp_status p = if bool_decide (tp_work_status p = Work_COMPLETED)
                                then Task_COMPLETED else Task_QUEUED
        end)) ∧
  tp_latest_item_seq p = Z.of_nat (length (list_task_items t d)).
Proof.
  intros Hd [Ht Hp]%projection_of_inv pending last_turn. unfold task_projection in Hp.
  destruct (task_state t d) as [state|]; [|done]. injection Hp as <-. simpl. fold pending.
  pose proof (alive_iff_active d Hd ids t Ht) as Halive.
  assert (foldr Z.max 0 (it_task_item_seq <$>
      (repo_list_turns t d ≫= λ τ, items_by_turn (unique_ids [] ids) (tn_turn_id τ) d))
    = Z.of_nat (length (list_task_items t d))) as Hseq.
  { pose proof (gf_task_items _ (reachable_gap_free _ Hd) t) as Hdense.
    assert (list_task_items t d = select (of_task_item t) (turn_items d)) as ->
      by (by apply dense_order_by).
    pose proof (dense_next_seq _ _ _ Hdense) as Hn. unfold next_seq in Hn.
    rewrite (foldr_max_same _ (it_task_item_seq <$> select (of_task_item t) (turn_items d))); [lia|].
    intros x. rewrite !list_elem_of_fmap. by setoid_rewrite (items_elem d Hd ids t Ht). }
  destruct (existsb exec_active _) eqn:Hal.
  - split_and!; [tauto | | | done]; intros Hn; by destruct (proj1 Halive eq_refl).
  - assert (active_turn t d = None) as Hnone by (destruct (active_turn t d); naive_solver).
    unfold project_task_status. fold last_turn. split_and!; [| by intros _ -> | | done].
    + split; [|done]. destruct pending; [done|]. repeat case_match; done.
    + intros _ ->. split; [intros Hw; by rewrite bool_decide_eq_true_2|].
      intros Hw. rewrite bool_decide_eq_false_2 by done.
      assert (last_turn ≠ Some Turn_IN_PROGRESS) as Hip by (by apply idle_last_turn).
      by destruct last_turn as [[]|].
Qed.

Lemma projection_follows_the_conversation_witness :
  ∃ p, projection_of "task" (projections_for_tasks ["task"] demo8) = Some p ∧
    tp_status p = Task_RUNNING ∧ tp_latest_item_seq p = 2.
Proof.
  destruct (projection_of "task" (projections_for_tasks ["task"] demo8)) as [p|] eqn:Hp;
    [|vm_compute in Hp; discriminate Hp].
  destruct (projection_follows_the_conversation demo8 ["task"] "task" p demo8_reachable Hp)
    as (H1 & _ & _ & H2).
  exists p. split; [reflexivity|]. split; [apply H1; vm_compute; discriminate|].
  rewrite H2. reflexivity.
Defined.
