(* ===== verification/RegistryFindings.v ===== *)
(** * Where the registry surprises

    The Console's permissions against the guards they announce, and attaching a
    Workspace that is already the Primary of its Project. *)

From stdpp Require Import base tactics list strings relations.
From Stdlib Require Import ZArith Lia.
From S2P Require Import Prelude PyText PyJson Tables Contracts RegistryRows Schema Repository.
From S2P Require Import Projection RegistryRepository Service EnvironmentIdentity Authorization.
From S2P Require Import Registry RegistryWorkspaces RegistryViews Acceptance Execution Evolution.
From S2P Require Import Methods Integrity System Scenario RegistryMethods RegistryFrame.
From S2P Require Import RegistryIntegrity RegistrySound RegistryScenario RegistryRequests.
From S2P Require Import RegistryOutcomes.

Local Open Scope string_scope.
#[local] Hint Constants Opaque : typeclass_instances.
#[local] Hint Transparent dict time relation : typeclass_instances.

(** ** The Console's permissions *)

(** The guard lets the caller pass. *)
Definition passes {A} (guard : txn A) (d : db) : Prop := ∃ x, guard d = Ok (x, d).

Lemma editor_passes p u d :
  passes (require_project_editor p u) d ↔ role_in is_editor p u d = true.
Proof.
  unfold passes, require_project_editor, role_in, mbind, tx_bind, gets, require_some, require.
  destruct (project_role p u d) as [role|]; simpl; [|split; [by intros []|done]].
  destruct (is_editor role); split; try done; [by exists tt | by intros []].
Qed.

Lemma manager_passes p u d :
  passes (require_project_owner p u) d ↔ role_in is_manager p u d = true.
Proof.
  unfold passes, require_project_owner, role_in, mbind, tx_bind, gets, require_some, require.
  destruct (project_role p u d) as [role|]; simpl; [|split; [by intros []|done]].
  destruct (is_manager role); split; try done; [by exists tt | by intros []].
Qed.

Lemma publisher_passes p u d :
  passes (require_project_publisher p u) d ↔
  project_role p u d ≠ None ∧
  (project_owner p d = u_id u ∨
   ∃ uid m, u_id u = Some uid ∧ project_member p uid d = Some m ∧ mb_role m = Role_EDITOR ∧
     mb_can_publish m = true).
Proof.
  unfold passes, require_project_publisher, require_project_viewer, mbind, tx_bind, gets,
    require_some, require, eqo.
  destruct (project_role p u d) as [role|]; simpl; [|split; [by intros []|by intros [? _]]].
  case_bool_decide as Hown; [split; [auto | by exists tt]|].
  destruct (u_id u) as [uid|]; simpl;
    [|split; [by intros [] | intros [_ [?|(? & ? & ? & _)]]; done]].
  destruct (project_member p uid d) as [m|] eqn:Hm; simpl;
    [|split; [by intros [] | intros [_ [?|(? & ? & [= <-] & ? & _)]]; [done | congruence]]].
  destruct (bool_decide (mb_role m = Role_EDITOR)) eqn:Hr, (mb_can_publish m) eqn:Hp; simpl;
    split_bools; split; try (by intros []); try (by exists tt);
    try (intros [_ [?|(? & ? & [= <-] & ? & ? & ?)]]; [done | congruence]).
  intros _. split; [done|]. right. by exists uid, m.
Qed.

(** The permissions that the Console shows for a Project are the ones its guards enforce:
    editing and managing members are offered exactly to the callers whose requests pass, and so
    is publishing, except that an administrator who owns the Project may publish although the
    Console denies it. *)
Theorem console_permissions_match_the_guards p u uid role row count d :
  u_id u = Some uid → truthy uid = true → project_role p u d = Some role →
  let shown := permissions_for role (project_member p uid d) row count in
  (pm_can_edit shown = true ↔ passes (require_project_editor p u) d) ∧
  (pm_can_manage_members shown = true ↔ passes (require_project_owner p u) d) ∧
  (is_admin u = false → (pm_can_publish shown = true ↔ passes (require_project_publisher p u) d)) ∧
  (is_admin u = true → pm_can_publish shown = false ∧
     (project_owner p d = Some uid → passes (require_project_publisher p u) d)).
Proof.
  intros Hu Ht Hrole shown. rewrite editor_passes, manager_passes, publisher_passes.
  unfold role_in. rewrite Hrole, Hu. split; [done|]. split; [done|].
  unfold project_role in Hrole. destruct (project_owner p d) as [owner|] eqn:Ho; [|done].
  destruct (is_admin u) eqn:Had.
  - split; [done|]. intros _. injection Hrole as <-. split; [done|]. intros [= ->].
    by split; [|left].
  - split; [|done]. intros _. unfold owner_is in Hrole. rewrite Hu in Hrole.
    unfold eqo in Hrole. case_bool_decide as Hown.
    + injection Hrole as <-. split; [|done]. intros _. split; [done|]. left. congruence.
    + rewrite Ht in Hrole. simpl in Hrole. unfold shown, permissions_for; simpl.
      destruct (project_member p uid d) as [m|] eqn:Hm; [|done]. injection Hrole as <-.
      split.
      * destruct (mb_role m) eqn:Hr; simpl; [done|]. intros Hp. split; [done|]. right.
        by exists uid, m.
      * intros [_ [?|(? & m' & [= <-] & Hm' & Hr & Hp)]]; [congruence|].
        assert (m' = m) as -> by congruence. by rewrite Hr.
Qed.

Definition lab_row : project_row :=
  mkProject lab "bob" "Lab" None Project_ACTIVE false None None 2%Z 8%Z.

Lemma console_permissions_match_the_guards_witness :
  ∃ role, project_role lab alice reg8 = Some role ∧
    pm_can_publish (permissions_for role (project_member lab "alice" reg8)
      lab_row 2%Z) = true ∧
    passes (require_project_publisher lab alice) reg8.
Proof.
  eexists. assert (∀ A B : Prop, A → (A → B) → A ∧ B) as Hand by tauto.
  apply Hand; [vm_compute; reflexivity|]. intros Hr.
  apply Hand; [vm_compute; reflexivity|]. intros Hp.
  refine (proj1 (proj1 (proj2 (proj2 (console_permissions_match_the_guards lab alice "alice" _
    lab_row 2%Z reg8 _ _ Hr))) _) Hp); reflexivity.
Defined.

(** ** Attaching the Primary Workspace *)

(** Attaching a Workspace that is the Primary of the Project already demotes it: the Project is
    left without a Primary Workspace, which detaching and unregistering refuse to do unless the
    caller allows it. *)
Theorem attaching_the_primary_demotes_it `{Host, Kernel} p w u key c d r d' :
  domain_reachable d → ln_workspace_id <$> active_primary_for_project p d = Some w →
  mutate (AttachWorkspace p w) u key c d = Ok (r, d') →
  d' = d ∨ active_primary_for_project p d' = None.
Proof.
  intros [Hok _]%domain_reachable_ok Hprim Hrun. simpl in Hrun.
  unfold attach_workspace, link_operation in Hrun.
  reading Hrun; [apply ret_Ok in Hrun as [_ ->]; by left|]. right.
  apply bind_Ok in Hrun as (? & s1 & Hup & Hrun). same_after Hrun.
  apply fmap_Some in Hprim as (l0 & Hl0 & ->).
  apply select_one_Some in Hl0 as [Hl0 Hp]. apply andb_true_iff in Hp as [Hpid Hact]. split_bools.
  assert (∀ l, l ∈ workspace_links d → ln_project_id l = p → primary_active l = true → l = l0)
    as Honly.
  { intros l Hl Hlp Ha.
    apply (unique_eq primary_active ln_project_id _ _ _ (links_one_primary _ (ok_links _ Hok)));
      done || congruence. }
  unfold active_primary_for_project. rewrite (same_links _ _ Hsame). apply select_one_None.
  intros l Hl. apply not_true_iff_false. intros [Hlp Ha]%andb_true_iff. split_bools.
  statement_inv Hup; simpl in Hl.
  - apply elem_of_on_rows in Hl as (y & Hy & ->).
    destruct (same_link _ y) eqn:Hs; [done|].
    rewrite (Honly y) in Hs by done. unfold same_link in Hs; simpl in Hs.
    by rewrite Hpid, !eqs_refl in Hs.
  - apply elem_of_app in Hl as [Hl| ->%list_elem_of_singleton]; [|done].
    match goal with He : row_exists _ _ = false |- _ =>
      eapply row_exists_false in He; [|exact Hl0]; unfold same_link in He; simpl in He;
      by rewrite Hpid, !eqs_refl in He end.
Qed.

Lemma attaching_the_primary_demotes_it_witness :
  ln_workspace_id <$> active_primary_for_project lab reg6 = Some ws4 ∧
  active_primary_for_project lab (after (mutate (AttachWorkspace lab ws4) alice (Some "k") (nth_call 7))
    reg6) = None.
Proof.
  split; [reflexivity|].
  edestruct (attaching_the_primary_demotes_it lab ws4 alice (Some "k") (nth_call 7) reg6)
    as [He|Hn]; [| reflexivity | vm_compute; reflexivity | | exact Hn].
  - eapply domain_reachable_steps; [exact reg4_reachable|].
    eapply rtc_l; [exact reg_step5 | exact (rtc_once _ _ reg_step6)].
  - apply (f_equal (λ d, length (audit_events d))) in He. vm_compute in He. discriminate He.
Defined.
