(* ===== verification/ContextScenario.v ===== *)
(** * A run of the Context service

    It continues the run of the registry: a brief is drafted and a fragment reviewed,
    both are published, a Task is created and runs its first Turn, a candidate from
    its transcript is accepted and published, and the Task's owner previews and
    confirms the new Context while a next Turn waits; at the end, the Task is forked. *)

From stdpp Require Import base tactics list strings relations pretty.
From Stdlib Require Import ZArith.
From S2P Require Import Prelude PyText PyJson Tables Contracts RegistryRows Schema Repository.
From S2P Require Import Projection RegistryRepository Service EnvironmentIdentity Authorization.
From S2P Require Import Registry RegistryWorkspaces Assembler ContextRepository Context.
From S2P Require Import ContextCandidates ContextSnapshots TaskLifecycle ForkRepository Fork Acceptance Execution.
From S2P Require Import Evolution Methods Integrity System Scenario RegistryMethods ContextMethods.
From S2P Require Import RegistryFrame RegistryIntegrity RegistrySound RegistryScenario.

Local Open Scope string_scope.
Local Open Scope Z_scope.

(** The call number [n]: its clock and its identifiers. *)
Definition nth_context_call (n : nat) : context_call :=
  let id s := s ++ pretty n in
  let t := Z.of_nat n in
  mkContextCall grants t (id "u") (mkSuccessor (id "v") t (id "g") t) (id "s") t t t (id "e") t
    (id "f") t (id "sub") (id "turn") (id "x") (id "rel").

Definition task4 : string := "task-u14".
Definition spec4 : task_spec :=
  mkSpec lab ws4 "Title" "Prompt" "vanilla" "codex-app-server" None [] [].

Definition ctx1 : db := Eval vm_compute in
  after (context_mutate (SaveDraft lab "Brief") alice (Some "k11") (nth_context_call 11)) reg4.
Definition ctx2 : db := Eval vm_compute in
  after (context_mutate (CreateFragment lab "Reviewed" "note" [] None 0 None) alice (Some "k12")
           (nth_context_call 12)) ctx1.
Definition ctx3 : db := Eval vm_compute in
  after (context_mutate (Publish lab) alice (Some "k13") (nth_context_call 13)) ctx2.
Definition ctx4 : db := Eval vm_compute in
  after (context_mutate (CreateTask spec4) alice (Some "k14") (nth_context_call 14)) ctx3.

(** The first Turn is delivered and the engine accepts it. *)
Definition ctx5 : db := Eval vm_compute in after (claim_next_submission 30 15 15) ctx4.
Definition ctx6 : db := Eval vm_compute in after (begin_delivery "sub14" (Some 1) 16) ctx5.
Definition claim4 : SubmissionClaim :=
  mkSubmissionClaim "sub14" task4 "turn14" [("text", JStr "Prompt")] (Some "snapshot-s14").
Definition ctx7 : db := Eval vm_compute in
  after (accept_and_open_execution ctx6 claim4 "codex" "codex-app-server" "thread" "th1" "turn"
           "nt1" (Some "process") (Some "pid1") [("source", JStr "engine")] 17 "bind4" "item4") ctx6.

(** The engine's first message is proposed for the brief. *)
Definition ctx8 : db := Eval vm_compute in
  after (context_mutate (CreateCandidate lab "Result" [] (Some task4) (Some 1) (Some 1) None None)
           alice (Some "k18") (nth_context_call 18)) ctx7.
Definition candidate8 : string := "candidate-u18".
Definition ctx9 : db := Eval vm_compute in
  after (context_mutate (AcceptCandidate lab candidate8) alice (Some "k19") (nth_context_call 19))
    ctx8.
Definition ctx10 : db := Eval vm_compute in
  after (context_mutate (Publish lab) alice (Some "k20") (nth_context_call 20)) ctx9.

(** A next Turn waits while the new Context is previewed and confirmed. *)
Definition ctx11 : db := Eval vm_compute in
  after (create_turn grants task4 alice [("text", JStr "next")] "k21" None true 21 "sub21" "turn21"
           "ev21") ctx10.
Definition ctx12 : db := Eval vm_compute in
  after (context_mutate (PreviewTaskContext task4 lab) alice None (nth_context_call 22)) ctx11.
Definition preview12 : string := "context-preview-u22".
Definition ctx13 : db := Eval vm_compute in
  after (context_mutate (ConfirmTaskContext task4 lab preview12) alice (Some "k23")
           (nth_context_call 23)) ctx12.

(** Each database is one transaction after the one before. *)
Ltac by_context m k n :=
  apply domain_context; exists m, alice, k, (nth_context_call n); eexists; vm_compute; reflexivity.

Lemma ctx_step1 : domain_step reg4 ctx1.
Proof. by_context (SaveDraft lab "Brief") (Some "k11") 11%nat. Qed.
Lemma ctx_step2 : domain_step ctx1 ctx2.
Proof. by_context (CreateFragment lab "Reviewed" "note" [] None 0 None) (Some "k12") 12%nat. Qed.
Lemma ctx_step3 : domain_step ctx2 ctx3.
Proof. by_context (Publish lab) (Some "k13") 13%nat. Qed.
Lemma ctx_step4 : domain_step ctx3 ctx4.
Proof. by_context (CreateTask spec4) (Some "k14") 14%nat. Qed.
Lemma ctx_step5 : domain_step ctx4 ctx5.
Proof. eapply domain_conversation, (step_claim_next_submission 30 15 15). vm_compute. reflexivity. Qed.
Lemma ctx_step6 : domain_step ctx5 ctx6.
Proof. eapply domain_conversation, (step_begin_delivery "sub14" (Some 1) 16). vm_compute. reflexivity. Qed.
Lemma ctx_step7 : domain_step ctx6 ctx7.
Proof.
  eapply domain_conversation, (step_accept ctx6 claim4 "codex" "codex-app-server" "thread" "th1"
    "turn" "nt1" (Some "process") (Some "pid1") [("source", JStr "engine")] 17 "bind4" "item4");
    [reflexivity|]. vm_compute. reflexivity.
Qed.
Lemma ctx_step8 : domain_step ctx7 ctx8.
Proof.
  by_context (CreateCandidate lab "Result" [] (Some task4) (Some 1) (Some 1) None None)
    (Some "k18") 18%nat.
Qed.
Lemma ctx_step9 : domain_step ctx8 ctx9.
Proof. by_context (AcceptCandidate lab candidate8) (Some "k19") 19%nat. Qed.
Lemma ctx_step10 : domain_step ctx9 ctx10.
Proof. by_context (Publish lab) (Some "k20") 20%nat. Qed.
Lemma ctx_step11 : domain_step ctx10 ctx11.
Proof.
  eapply domain_conversation, (step_create_turn grants task4 alice [("text", JStr "next")] "k21"
    None true 21 "sub21" "turn21" "ev21"). vm_compute. reflexivity.
Qed.
Lemma ctx_step12 : domain_step ctx11 ctx12.
Proof. by_context (PreviewTaskContext task4 lab) (None : option string) 22%nat. Qed.
Lemma ctx_step13 : domain_step ctx12 ctx13.
Proof. by_context (ConfirmTaskContext task4 lab preview12) (Some "k23") 23%nat. Qed.

Lemma domain_reachable_step d d' : domain_reachable d → domain_step d d' → domain_reachable d'.
Proof. intros Hd Hs. eapply domain_reachable_steps; [exact Hd | by apply rtc_once]. Qed.

Lemma ctx2_reachable : domain_reachable ctx2.
Proof.
  eapply domain_reachable_step, ctx_step2. eapply domain_reachable_step, ctx_step1.
  apply reg4_reachable.
Qed.
Lemma ctx3_reachable : domain_reachable ctx3.
Proof. eapply domain_reachable_step, ctx_step3. apply ctx2_reachable. Qed.
Lemma ctx8_reachable : domain_reachable ctx8.
Proof.
  eapply domain_reachable_step, ctx_step8. eapply domain_reachable_step, ctx_step7.
  eapply domain_reachable_step, ctx_step6. eapply domain_reachable_step, ctx_step5.
  eapply domain_reachable_step, ctx_step4. apply ctx3_reachable.
Qed.
Lemma ctx9_reachable : domain_reachable ctx9.
Proof. eapply domain_reachable_step, ctx_step9. apply ctx8_reachable. Qed.
Lemma ctx_steps9_13 : rtc domain_step ctx9 ctx13.
Proof.
  eapply rtc_l; [apply ctx_step10|]. eapply rtc_l; [apply ctx_step11|].
  eapply rtc_l; [apply ctx_step12|]. apply rtc_once, ctx_step13.
Qed.
Lemma ctx12_reachable : domain_reachable ctx12.
Proof.
  eapply domain_reachable_step, ctx_step12. eapply domain_reachable_step, ctx_step11.
  eapply domain_reachable_step, ctx_step10. apply ctx9_reachable.
Qed.
Lemma ctx13_reachable : domain_reachable ctx13.
Proof. eapply domain_reachable_step, ctx_step13. apply ctx12_reachable. Qed.

(** * A fork

    The engine answers in the first Turn of the Task, its owner previews a fork of the
    whole transcript to the other engine and confirms it. *)

Definition running4 : RuntimeExecutionClaim :=
  mkExecutionClaim "openscience-runtime-execution:sub14" task4 "turn14" 1.
Definition frk1 : db := Eval vm_compute in
  after (append_item running4 Item_AGENT_MESSAGE Actor_AGENT [("text", JStr "Answer")] [] None None 40
           "item40") ctx8.

Definition fork_to_claude : fork_request :=
  mkForkRequest "claude" None None None None FULL_TRANSCRIPT [] [] [] 900.
Definition frk2 : db := Eval vm_compute in
  after (context_mutate (PreviewFork task4 fork_to_claude) alice (Some "k41") (nth_context_call 41))
    frk1.
Definition preview41 : string := "u41".
Definition confirmation41 : fork_confirmation := Eval vm_compute in
  match fork_preview_by_id preview41 frk2 with
  | Some p => mkForkConfirmation (fp_preview_hash p) (fp_source_revision p) FULL_TRANSCRIPT false true
  | None => mkForkConfirmation "" "" FULL_TRANSCRIPT false true
  end.
Definition frk3 : db := Eval vm_compute in
  after (context_mutate (ConfirmFork task4 preview41 confirmation41) alice (Some "k42")
           (nth_context_call 42)) frk2.
Definition task42 : string := "task-u42".

Lemma frk_step1 : domain_step ctx8 frk1.
Proof.
  eapply domain_conversation, (step_append_item running4 Item_AGENT_MESSAGE Actor_AGENT
    [("text", JStr "Answer")] [] None None 40 "item40"); [|vm_compute; reflexivity].
  apply genuine_by_lookup. exists 0%nat. eexists. split; [reflexivity|]. by split_and!.
Qed.
Lemma frk_step2 : domain_step frk1 frk2.
Proof. by_context (PreviewFork task4 fork_to_claude) (Some "k41") 41%nat. Qed.
Lemma frk_step3 : domain_step frk2 frk3.
Proof. by_context (ConfirmFork task4 preview41 confirmation41) (Some "k42") 42%nat. Qed.

Lemma frk1_reachable : domain_reachable frk1.
Proof. eapply domain_reachable_step, frk_step1. apply ctx8_reachable. Qed.
Lemma frk2_reachable : domain_reachable frk2.
Proof. eapply domain_reachable_step, frk_step2. apply frk1_reachable. Qed.
Lemma frk3_reachable : domain_reachable frk3.
Proof. eapply domain_reachable_step, frk_step3. apply frk2_reachable. Qed.

(** The new Task has the whole transcript as its prompt. *)
Example fork_of_the_demo :
  (λ t, (tk_task_id t, tk_harness_engine t, tk_title t)) <$> last (tasks frk3)
    = Some (task42, "claude-code", "Fork of Title") ∧
  map (λ p, (fp_message_count p, fp_turn_count p, fp_item_count p)) (fork_previews frk3)
    = [(1, 1, 2)] ∧
  map (λ t, (ft_status t, ft_target_task_id t)) (fork_transfers frk3)
    = [(Fork_TRANSFERRED, Some task42)].
Proof. vm_compute. auto. Qed.
