(* ===== verification/ContextGuarantees.v ===== *)
(** * Guarantees of the Context

    What holds of the Context in every database that the whole domain reaches from a
    new installation, and what its methods do. *)

From stdpp Require Import base tactics list strings relations.
From Stdlib Require Import ZArith Lia.
From S2P Require Import Prelude PyText PyJson Utf8 PyTime Tables Contracts RegistryRows Schema.
From S2P Require Import Repository Projection RegistryRepository Service EnvironmentIdentity.
From S2P Require Import Authorization Registry RegistryWorkspaces Acceptance Execution Evolution.
From S2P Require Import Methods Integrity System Scenario Assembler AssemblerLaws.
From S2P Require Import ContextRepository Context ContextCandidates ContextSnapshots TaskLifecycle.
From S2P Require Import RegistryMethods ContextMethods RegistryFrame RegistryIntegrity.
From S2P Require Import RegistrySound RegistryScenario ContextSound ContextSteps ContextScenario.

Local Open Scope string_scope.
#[local] Hint Constants Opaque : typeclass_instances.
#[local] Hint Transparent dict time relation : typeclass_instances.

(** C12: whatever the domain does, the Context stays coherent: a published version froze fragments
    of its own Project, carries the fingerprint of what it froze and verified provenance; a stored
    snapshot fits its byte budget and carries the fingerprint of its content; a preview is about a
    version of its Project, and once confirmed its snapshot says exactly what it proposed; every
    Task is pinned to a snapshot of a version of its own Project; and a candidate names a decision
    exactly when it was decided. *)
Theorem context_is_coherent `{Host, Kernel} d : domain_reachable d → context_sound d.
Proof. apply domain_reachable_context. Qed.

Lemma context_is_coherent_witness :
  length (tasks ctx13) = 1 ∧ length (context_snapshots ctx13) = 2 ∧
  length (context_versions ctx13) = 4 ∧ context_sound ctx13.
Proof. split_and!; [reflexivity.. | exact (context_is_coherent ctx13 ctx13_reachable)]. Defined.

(** Decisions about the Context are final: across any run, a candidate that was accepted or
    rejected and a preview that was confirmed stay as they are to the last column, a published
    version keeps its text and its frozen fragments and is never activated again, and fragments and
    snapshots are never changed. *)
Theorem context_decisions_are_final `{Host, Kernel} d d' :
  domain_reachable d → rtc domain_step d d' →
  (∀ c, c ∈ context_candidates d → cd_status c ≠ Candidate_PROPOSED → c ∈ context_candidates d') ∧
  (∀ p, p ∈ context_previews d → pw_confirmed_snapshot_id p ≠ None → p ∈ context_previews d') ∧
  Evolves version_lasts (context_versions d) (context_versions d') ∧
  context_fragments d `prefix_of` context_fragments d' ∧
  context_snapshots d `prefix_of` context_snapshots d'.
Proof.
  intros Hd Hs. destruct (domain_reachable_ok d Hd) as [Hok _].
  destruct (domain_steps_contexts _ _ Hs) as [[Hgr _] Hk]. destruct (Hk Hok) as [_ Hc Hp].
  rewrite <-!appends_prefix. split_and!; try apply Hgr.
  - intros c Hin Hst. destruct (evolves_elem _ _ _ _ Hc Hin) as (c' & Hc' & He). by rewrite <-(He Hst).
  - intros p Hin Hst. destruct (evolves_elem _ _ _ _ Hp Hin) as (p' & Hp' & He). by rewrite <-(He Hst).
Qed.

Lemma context_decisions_are_final_witness :
  ∃ c, context_candidates ctx9 !! 0%nat = Some c ∧ cd_status c = Candidate_ACCEPTED ∧
    c ∈ context_candidates ctx13.
Proof.
  destruct (context_candidates ctx9 !! 0%nat) as [c|] eqn:Hc; [|discriminate Hc].
  exists c. assert (cd_status c = Candidate_ACCEPTED) as Hst by (by injection Hc as <-).
  split_and!; [done | done|].
  apply (context_decisions_are_final ctx9 ctx13 ctx9_reachable ctx_steps9_13).
  - by eapply list_elem_of_lookup_2.
  - by rewrite Hst.
Defined.

(** ** From published fragments to assemblies *)

Section assembly.
Context `{Host, Kernel}.

(** A frozen fragment as the assembler reads it back. *)
Definition thaw (f : fragment_row) : ContextFragment :=
  mkFragment (fr_fragment_id f) (fr_source_type f)
    (match nonempty (fr_source_version f) with Some v => v | None => fingerprint (fr_content f) end)
    (fr_content f) (fr_source_metadata f) (fr_sort_order f) (fr_byte_budget f)
    (fr_created_by_user_id f) (Some (isoformat (fr_created_at f)))
    (Some (fingerprint (fr_content f))).

(** Digests are not empty. *)
Definition digests : Prop := ∀ s, truthy (sha256_hex s) = true.

Lemma decode_frozen f :
  digests → fragment_sound f →
  decode_fragment (freeze_fragment f) =
    if truthy (fr_content f) then Ok (thaw f) else Err manifest_invalid.
Proof.
  intros Hdig [Hid Hty Hfp (v & Hv & Hvt) Hb].
  assert (truthy (fingerprint (fr_content f)) = true) as Hfd by apply Hdig.
  assert (truthy v = true) as Hvv by (by destruct Hvt as [?| ->]).
  assert (frozen_fingerprint f = fingerprint (fr_content f)) as Hff
    by (unfold frozen_fingerprint; by rewrite Hfp, Hfd).
  unfold decode_fragment, freeze_fragment, text_of, metadata_of, sort_order_of, byte_budget_of,
    creator_of, time_text, thaw, nonempty.
  rewrite Hff, Hv, Hvv. cbn -[truthy isoformat fingerprint eqs].
  rewrite Hid, Hty, Hvv, Hfd, isoformat_truthy.
  destruct (truthy (fr_content f)); [rewrite eqs_refl|done].
  by destruct (fr_byte_budget f), (fr_created_by_user_id f).
Qed.

Lemma decode_frozen_list fs :
  digests → Forall fragment_sound fs →
  decode_fragments (map freeze_fragment fs) =
    if forallb (λ f, truthy (fr_content f)) fs then Ok (map thaw fs) else Err manifest_invalid.
Proof.
  intros Hdig. induction 1 as [|f fs Hf _ IH]; [done|]. cbn [map decode_fragments forallb].
  rewrite decode_frozen, IH by done. by destruct (truthy (fr_content f)), (forallb _ fs).
Qed.

Lemma thaw_valid f : fragment_sound f → fragment_valid (thaw f) = true.
Proof.
  intros [_ _ _ _ Hb]. unfold fragment_valid, thaw; simpl. rewrite eqs_refl, andb_true_r.
  destruct (fr_byte_budget f); [by apply Z.leb_le | done].
Qed.

(** A version of a reachable database is found by its id, with its provenance. *)
Lemma version_found d v :
  registry_integrity d → context_sound d → v ∈ context_versions d →
  ∃ w, version_or_none (cv_project_id v) (cv_context_version_id v) d = Some w ∧ vw_row w = v ∧
    vw_status w = Provenance_VERIFIED.
Proof.
  intros Hok Hs Hv. destruct (cx_version _ Hs v Hv) as [_ _ (p & Hp & Hpid & Hst & _)].
  exists (view_of d v). unfold version_or_none. erewrite (select_one_the _ _ v); [|done|..].
  - split; [done|]. split; [apply view_of_row|]. unfold view_of.
    by erewrite (select_one_the _ _ p); [|done | by apply String.eqb_eq |
      intros q Hq ?; split_bools;
      apply (unique_eq always pv_context_version_id _ _ _ (ok_provenance _ Hok)); done || congruence].
  - by rewrite !eqs_refl.
  - intros x Hx ?. split_bools.
    by apply (unique_eq always cv_context_version_id _ _ _ (versions_pk _ (ok_versions _ Hok))).
Qed.

(** C22: a published version can be assembled for any Task exactly when none of the fragments it
    froze is empty: then the frozen manifest is read back as those very fragments and a Context
    within the byte budget results, in the other case the manifest is refused; nothing is written
    either way. *)
Theorem frozen_fragments_are_read_back d v workspace_id task_id prompt :
  digests → domain_reachable d → v ∈ context_versions d →
  ∃ fs, cv_fragment_manifest v = map freeze_fragment fs ∧
    Forall (λ f, f ∈ context_fragments d ∧ fr_project_id f = cv_project_id v) fs ∧
    let run := assemble_for_task (cv_project_id v) workspace_id task_id prompt
                 (Some (cv_context_version_id v)) d in
    if forallb (λ f, truthy (fr_content f)) fs
    then decode_fragments (cv_fragment_manifest v) = Ok (map thaw fs) ∧
      ∃ a, run = Ok (a, d) ∧ (byte_len (as_content a) ≤ context_byte_budget)%Z
    else run = Err manifest_invalid.
Proof.
  intros Hdig Hd Hv. destruct (domain_reachable_ok d Hd) as [Hok _].
  pose proof (domain_reachable_context d Hd) as Hs.
  destruct (vf_fragments _ _ (cx_version _ Hs v Hv)) as (fs & Hm & Hfs). exists fs.
  split_and!; [done | done|]. destruct (version_found d v Hok Hs Hv) as (w & Hw & Hrow & Hst).
  assert (Forall fragment_sound fs) as Hsound.
  { eapply Forall_impl; [exact Hfs|]. intros f [Hf _]. by apply (cx_fragment _ Hs). }
  pose proof (decode_frozen_list fs Hdig Hsound) as Hdec.
  unfold assemble_for_task, version, fragments_for_version, mbind, tx_bind, gets. cbv zeta.
  rewrite Hw. cbn [require_some mret tx_ret]. unfold mret, tx_ret.
  rewrite Hst, Hrow, Hm, Hdec. cbn [bool_decide decide_rel].
  destruct (forallb _ fs); [|done]. split; [done|]. simpl.
  edestruct (assemble_total context_byte_budget
    (task_sources w (workspace_by_id workspace_id d) workspace_id task_id prompt (map thaw fs)))
    as [a Ha]; [done| |].
  - unfold fragments_of, task_sources. simpl. rewrite app_nil_r. apply forallb_forall.
    intros x (f & <- & Hf)%in_map_iff. apply thaw_valid. rewrite Forall_forall in Hsound.
    by apply Hsound, list_elem_of_In.
  - exists a. rewrite Ha. split; [done|]. eapply assemble_bound, Ha. apply context_byte_budget_nonneg.
Qed.
End assembly.

Lemma demo_digests : digests.
Proof. done. Qed.

Lemma frozen_fragments_are_read_back_witness :
  ∃ v a, context_versions ctx3 !! 2%nat = Some v ∧ cv_is_active v = true ∧
    assemble_for_task lab ws4 "task" "prompt" (Some (cv_context_version_id v)) ctx3 = Ok (a, ctx3).
Proof.
  destruct (context_versions ctx3 !! 2%nat) as [v|] eqn:Hv; [|discriminate Hv].
  assert (cv_project_id v = lab ∧ cv_is_active v = true ∧
    decode_fragments (cv_fragment_manifest v) ≠ Err manifest_invalid) as (Hp & Ha & Hdec)
    by (injection Hv as <-; by vm_compute).
  destruct (frozen_fragments_are_read_back ctx3 v ws4 "task" "prompt" demo_digests ctx3_reachable
    (list_elem_of_lookup_2 _ _ _ Hv)) as (fs & Hm & _ & Hrun).
  rewrite Hp in Hrun. cbv zeta in Hrun. destruct (forallb _ fs) eqn:Hall.
  - destruct Hrun as [_ (a & Hrun & _)]. exists v, a. by split_and!.
  - injection Hv as <-. vm_compute in Hrun. discriminate Hrun.
Defined.
