(* ===== verification/ContextOutcomes.v ===== *)
(** * What the methods of the Context service do

    Publishing, accepting a candidate, confirming a preview, creating and moving a
    Task: the rows that a fresh (not replayed) call leaves behind. *)

From stdpp Require Import base tactics list strings relations.
From Stdlib Require Import ZArith Lia.
From S2P Require Import Prelude PyText PyJson Utf8 PyTime Tables Contracts RegistryRows Schema.
From S2P Require Import Repository Projection RegistryRepository Service EnvironmentIdentity.
From S2P Require Import Authorization Registry RegistryWorkspaces Acceptance Execution Evolution.
From S2P Require Import Methods Integrity System Scenario Assembler AssemblerLaws.
From S2P Require Import ContextRepository Context ContextCandidates ContextSnapshots TaskLifecycle.
From S2P Require Import RegistryMethods ContextMethods RegistryFrame RegistryIntegrity.
From S2P Require Import RegistrySound RegistryScenario ContextSound ContextSteps ContextScenario.
From S2P Require Import ContextGuarantees RegistryOutcomes.

Local Open Scope string_scope.
#[local] Hint Constants Opaque : typeclass_instances.
#[local] Hint Transparent dict time relation : typeclass_instances.

(** The tables that the epilogue of a method (stored response, audit event) leaves alone. *)
Definition context_same : relation db := λ d d',
  context_drafts d' = context_drafts d ∧ context_versions d' = context_versions d ∧
  context_provenance d' = context_provenance d ∧ context_candidates d' = context_candidates d ∧
  context_fragments d' = context_fragments d ∧ context_snapshots d' = context_snapshots d ∧
  context_previews d' = context_previews d ∧ tasks d' = tasks d ∧ submissions d' = submissions d ∧
  intents d' = intents d ∧ task_states d' = task_states d.

#[export] Instance context_same_preorder : PreOrder context_same.
Proof.
  split; [by intros d; unfold context_same|].
  unfold context_same. intros d1 d2 d3 H1 H2. destruct_and!. split_and!; congruence.
Qed.

#[export] Instance context_same_ledger : Ledger context_same.
Proof. constructor; [apply _|..]; intros; intros ?s ?x ?s Hrun; statement_inv Hrun; by unfold context_same. Qed.

(** The row that was inserted is the one that is selected. *)
Lemma select_one_new {R} (p : R → bool) t r :
  (∀ x, x ∈ t → p x = false) → p r = true → select_one p (t ++ [r])%list = Some r.
Proof.
  unfold select_one. intros Ht Hr. induction t as [|x t IH]; simpl; [by rewrite Hr|].
  rewrite (Ht x) by constructor. apply IH. intros y Hy. apply Ht. by constructor.
Qed.

(** What is left of a method when its rows are written. *)
Ltac ledger H :=
  lazymatch type of H with ?m ?s = Ok (_, ?s') =>
    assert (context_same s s') by (revert H; apply respects_apply; solve_respects); clear H end.

(** A read that depends on the key. *)
Ltac reading_match H :=
  let x := fresh "x" in let s := fresh "s" in let Hm := fresh "Hm" in
  apply bind_Ok in H; destruct H as (x & s & Hm & H);
  lazymatch type of Hm with _ ?d = _ =>
    assert (d = s) by (revert Hm; apply respects_apply; solve_respects); subst s end.

Section outcomes.
Context `{Host, Kernel}.

(** ** Publishing *)

Definition new_version (p actor uuid content : string) (now : time) (manifest : list json) :
    context_version_row :=
  mkContextVersion ("context-" ++ uuid) p content (context_version_fingerprint content manifest)
    true actor now manifest.

Lemma published p actor ev uuid now e t d r d' :
  publish_verified_version_in_transaction p actor ev uuid now e t d = Ok (r, d') →
  ∃ draft, context_draft p d = Some draft ∧
    let manifest := freeze_project_fragments p d in
    let v := new_version p actor uuid (dr_content draft) now manifest in
    context_versions d' =
      (on_rows (λ v, eqs (cv_project_id v) p) deactivate (context_versions d) ++ [v])%list ∧
    context_fragments d' = context_fragments d ∧
    active_version_or_none p d' =
      Some (mkView v Provenance_VERIFIED (verified_fragment_provenance_evidence manifest)).
Proof.
  intros Hrun. unfold publish_verified_version_in_transaction in Hrun. reading Hrun.
  match goal with Hd : context_draft p d = Some ?x |- _ => exists x; split; [exact Hd|] end.
  apply bind_Ok in Hrun as (n & s1 & Hoff & Hrun). apply bind_Ok in Hrun as (? & s2 & Hver & Hrun).
  apply bind_Ok in Hrun as (? & s3 & Hprov & Hrun). ledger Hrun.
  match goal with Hs : context_same _ _ |- _ => destruct Hs as (_ & Ev & Epv & _ & Ef & _) end.
  statement_inv Hoff. statement_inv Hver. statement_inv Hprov.
  simpl in *. cbv zeta. split_and!; [by rewrite Ev | by rewrite Ef|].
  unfold active_version_or_none. rewrite Ev, select_one_new; [|by intros v' (y & Hy & ->)%elem_of_on_rows;
    destruct (eqs (cv_project_id y) p) eqn:Hq; simpl; rewrite ?Hq, ?andb_false_r|by simpl; rewrite eqs_refl].
  simpl. f_equal. unfold view_of. simpl. rewrite Epv, select_one_new; [done| |apply eqs_refl].
  intros q Hq. apply eqs_ne.
  match goal with G : provenance_insert_guard _ _ = None |- _ => guard_facts G end.
  match goal with F : index_free always _ _ _ = true |- _ =>
    exact (index_free_always _ _ _ _ F Hq) end.
Qed.

(** C21: publishing replaces the active version: the new version holds the draft as it was and
    froze the Project's fragments in their order, it is the only active version of the Project and
    verified, so Tasks are pinned to it from then on; the versions of the Project that were there
    stay, no longer active, and those of other Projects are untouched. *)
Theorem publishing_replaces_the_version p u key uuid now e t st e2 t2 d r d' :
  publish p u key uuid now e t st e2 t2 d = Ok (r, d') → d' ≠ d →
  ∃ draft w, context_draft p d = Some draft ∧
    active_version_or_none p d' = Some w ∧ vw_status w = Provenance_VERIFIED ∧
    cv_context_version_id (vw_row w) = "context-" ++ uuid ∧
    cv_content (vw_row w) = dr_content draft ∧
    cv_fragment_manifest (vw_row w) = map freeze_fragment (fragments_for_project p d) ∧
    (∀ v, v ∈ context_versions d' ∧ cv_project_id v = p ∧ cv_is_active v = true ↔ v = vw_row w) ∧
    (∀ v, v ∈ context_versions d → cv_project_id v = p → deactivate v ∈ context_versions d') ∧
    (∀ v, cv_project_id v ≠ p → v ∈ context_versions d' ↔ v ∈ context_versions d).
Proof.
  intros Hrun Hnew. unfold publish in Hrun. reading Hrun.
  do 2 reading_match Hrun. reading Hrun; [by apply ret_Ok in Hrun as [_ ->].. |].
  apply bind_Ok in Hrun as (fields & s1 & Hpub & Hrun). ledger Hrun.
  match goal with Hs : context_same _ _ |- _ =>
    destruct Hs as (_ & Ev & Epv & _) end.
  apply published in Hpub as (draft & Hd & Evs & Hf & Hact).
  eexists draft, _. split; [done|].
  assert (active_version_or_none p d' = active_version_or_none p s1) as ->.
  { unfold active_version_or_none, view_of. by rewrite Ev, Epv. }
  split; [exact Hact|]. simpl. split_and!; try done; rewrite Ev, Evs.
  - intros v. rewrite elem_of_app, elem_of_on_rows, list_elem_of_singleton. split.
    + intros ([(y & Hy & ->)| ->] & Hp & Ha); [|done].
      destruct (eqs (cv_project_id y) p) eqn:Hq; [done|]. by apply String.eqb_neq in Hq.
    + intros ->. split; [by right | done].
  - intros v Hv Hp. apply elem_of_app. left. apply elem_of_on_rows. exists v. split; [done|].
    by rewrite Hp, eqs_refl.
  - intros v Hp. rewrite elem_of_app, elem_of_on_rows, list_elem_of_singleton. split.
    + intros [(y & Hy & ->)| ->]; [|done]. destruct (eqs (cv_project_id y) p) eqn:Hq; [|done].
      by split_bools.
    + intros Hv. left. exists v. split; [done|]. by rewrite (eqs_ne _ _ Hp).
Qed.

(** ** Candidates *)

Lemma upserted_draft p content actor now d x d' :
  upsert_context_draft p content actor now d = Ok (x, d') →
  context_draft p d' = Some (mkContextDraft p content actor now) ∧
  context_candidates d' = context_candidates d ∧
  ∀ q, q ≠ p → context_draft q d' = context_draft q d.
Proof.
  intros Hrun. unfold upsert_context_draft in Hrun. unfold context_draft.
  statement_inv Hrun; simpl.
  - split; [|split; [done|]].
    + rewrite select_one_on_rows by done. match goal with He : row_exists _ _ = true |- _ =>
        apply row_exists_true in He as (c & Hc & Hsame) end.
      destruct (select_one _ (context_drafts d)) as [w|] eqn:Hx; simpl.
      * apply select_one_Some in Hx as [_ Hx]. unfold same_draft. simpl. rewrite Hx.
        by split_bools; subst.
      * unfold same_draft in Hsame; simpl in Hsame.
        apply (proj1 (select_one_None _ _)) with (r:=c) in Hx; [congruence | done].
    + intros q Hq. rewrite select_one_on_rows by done.
      destruct (select_one _ (context_drafts d)) as [w|] eqn:Hx; simpl; [|done].
      apply select_one_Some in Hx as [_ Hx]. unfold same_draft. simpl. split_bools. subst.
      by rewrite eqs_ne.
  - split; [|split; [done|]].
    + rewrite select_one_new; [done | | apply eqs_refl]. intros c Hc.
      match goal with He : row_exists _ _ = false |- _ => eapply row_exists_false in He; [|exact Hc] end.
      done.
    + intros q Hq. rewrite select_one_app. destruct (select_one _ _); [done|]. simpl.
      by rewrite eqs_ne.
Qed.

Definition draft_content (p : string) (d : db) : string :=
  match context_draft p d with Some c => dr_content c | None => "" end.

(** Accepting a candidate adds its text to the draft once: a proposed candidate is marked as
    accepted by the caller and its text is appended to the draft of the Project; for a candidate
    that was accepted before, under whatever key, nothing but the response is stored, so the draft
    does not get the text twice; a rejected candidate is refused.  Other candidates and drafts are
    left alone. *)
Theorem accepting_extends_the_draft p k u key now e t st d r d' :
  accept_candidate p k u key now e t st d = Ok (r, d') → d' ≠ d →
  ∃ c actor, candidate_by_id p k d = Some c ∧ u_id u = Some actor ∧
    match cd_status c with
    | Candidate_PROPOSED =>
        candidate_by_id p k d' = Some (set_candidate_accepted actor now c) ∧
        draft_content p d' = append_candidate (draft_content p d) (cd_content c) ∧
        (∀ q, q ≠ p → context_draft q d' = context_draft q d) ∧
        (∀ x, cd_candidate_id x ≠ k → x ∈ context_candidates d' ↔ x ∈ context_candidates d)
    | Candidate_ACCEPTED =>
        context_drafts d' = context_drafts d ∧ context_candidates d' = context_candidates d
    | Candidate_REJECTED => False
    end.
Proof.
  intros Hrun Hnew. unfold accept_candidate, candidate in Hrun.
  reading Hrun; [by apply ret_Ok in Hrun as [_ ->] |..];
    match goal with Ha : actor_of _ _ = Ok (?a, _) |- _ =>
      apply actor_of_inv in Ha as (Hactor & _ & _) end;
    match goal with Hc : candidate_by_id p k d = Some ?c |- _ =>
      eexists c, _; split; [exact Hc|]; split; [exact Hactor|]; split_bools end.
  - ledger Hrun. match goal with Hst : cd_status _ = _ |- _ => rewrite Hst end.
    by match goal with Hs : context_same _ _ |- _ => destruct Hs as (? & _ & _ & ? & _) end.
  - apply bind_Ok in Hrun as (? & s1 & Hdr & Hrun). apply bind_Ok in Hrun as (n & s2 & Hup & Hrun).
    ledger Hrun. match goal with Hs : context_same _ _ |- _ => destruct Hs as (Ed & _ & _ & Ec & _) end.
    apply upserted_draft in Hdr as (Hd1 & Hc1 & Hq1).
    unfold update_candidate in Hup. statement_inv Hup. simpl in *. rewrite Hc1 in Ec.
    destruct (cd_status _) eqn:Hst; [|done..]. split_and!.
    + unfold candidate_by_id in *. rewrite Ec, select_one_on_rows by done.
      match goal with Hc : select_one _ _ = Some _ |- _ =>
        rewrite Hc; apply select_one_Some in Hc as [_ Hc] end. split_bools. simpl.
      by subst; rewrite eqs_refl.
    + unfold draft_content, context_draft in *. rewrite Ed. simpl. by rewrite Hd1.
    + intros q Hq. rewrite <-(Hq1 q Hq). unfold context_draft. by rewrite Ed.
    + intros y Hy. rewrite Ec. apply elem_of_on_rows_other; [done | by apply eqs_ne].
Qed.

(** ** Pins *)

(** A queued submission that follows the pin of the Task. *)
Definition follows_pin (t : string) (s : submission_row) : bool :=
  eqs (sb_task_id s) t && bool_decide (sb_status s = Sub_QUEUED)
  && bool_decide (sb_context_snapshot_source s = Source_TASK_PIN).

(** The Task and its queued submissions have the new pin, and nothing else changed. *)
Record repinned (t version_id snapshot_id : string) (d d' : db) : Prop := mkRepinned {
  rp_task x : x ∈ tasks d' → tk_task_id x = t →
    tk_project_context_snapshot_id x = Some snapshot_id ∧
    tk_project_context_version_id x = Some version_id;
  rp_other_tasks x : tk_task_id x ≠ t → x ∈ tasks d' ↔ x ∈ tasks d;
  rp_queued s : s ∈ submissions d' → follows_pin t s = true →
    sb_context_snapshot_ref s = Some snapshot_id;
  rp_other_submissions s : follows_pin t s = false → s ∈ submissions d' ↔ s ∈ submissions d }.

Lemma repinned_intro t v sn f now d d1 n1 d2 n2 d3 :
  (∀ x, tk_task_id (f x) = tk_task_id x ∧ tk_project_context_snapshot_id (f x) = Some sn ∧
     tk_project_context_version_id (f x) = Some v) →
  tasks d1 = tasks d → submissions d1 = submissions d →
  update_rows tasks with_tasks (λ x, eqs (tk_task_id x) t) task_pin_guard f d1 = Ok (n1, d2) →
  repin_submissions t sn now d2 = Ok (n2, d3) → repinned t v sn d d3.
Proof.
  intros Hf Et Es Hpin Hre. statement_inv Hpin. statement_inv Hre. constructor; simpl; rewrite ?Et, ?Es.
  - intros x (y & Hy & ->)%elem_of_on_rows. destruct (eqs (tk_task_id y) t) eqn:Ht; [by intros; apply Hf|].
    by intros ?%String.eqb_neq.
  - intros x Hx. apply elem_of_on_rows_other; [|by apply eqs_ne]. intros y. by rewrite (proj1 (Hf y)).
  - intros s (y & Hy & ->)%elem_of_on_rows.
    destruct (eqs (sb_task_id y) t && _ && _) eqn:Hq; [done|]. unfold follows_pin. congruence.
  - intros s Hs. by apply elem_of_on_rows_other.
Qed.

Lemma repinned_same t v sn d d1 d2 :
  repinned t v sn d d1 → tasks d2 = tasks d1 → submissions d2 = submissions d1 → repinned t v sn d d2.
Proof. intros [] Et Es. constructor; by rewrite ?Et, ?Es. Qed.

(** C13: confirming a preview pins the Task to exactly what was shown: the snapshot it stores has
    the content, manifest and fingerprint of the unexpired preview of the same caller, the Task and
    every queued submission that follows the Task's pin refer to it, everything else (running
    submissions, explicit overrides, other Tasks) keeps the Context it had, and the preview is used
    up. *)
Theorem confirming_pins_the_preview t p w u key checked uuid at_ now st e au d r d' :
  domain_reachable d →
  confirm_task_context_update t p w u key checked uuid at_ now st e au d = Ok (r, d') → d' ≠ d →
  ∃ actor preview s, u_id u = Some actor ∧ preview_for w t p actor d = Some preview ∧
    pw_confirmed_snapshot_id preview = None ∧ (checked ≤ pw_expires_at preview)%Z ∧
    s ∈ context_snapshots d' ∧ cs_context_snapshot_id s = "snapshot-" ++ uuid ∧
    cs_context_version_id s = Some (pw_context_version_id preview) ∧
    snapshot_of (proposal preview) s ∧
    repinned t (pw_context_version_id preview) ("snapshot-" ++ uuid) d d' ∧
    preview_for w t p actor d' = Some (set_preview_confirmed ("snapshot-" ++ uuid) now preview).
Proof.
  intros Hd Hrun Hnew. unfold confirm_task_context_update in Hrun.
  reading Hrun; [by apply ret_Ok in Hrun as [_ ->]|].
  match goal with Ha : actor_of _ _ = Ok (?a, _) |- _ =>
    apply actor_of_inv in Ha as (Hactor & _ & _); exists a end.
  match goal with Hw : preview_for _ _ _ _ _ = Some ?x |- _ =>
    exists x; rename Hw into Hprev; pose proof Hprev as Hin; apply select_one_Some in Hin as [Hin Hk] end.
  assert (load_json_list (pw_source_manifest x3) = pw_source_manifest x3) as Hman.
  { apply load_json_list_objects, (ps_assembled _ _ (cx_preview _ (domain_reachable_context _ Hd) _ Hin)). }
  rewrite Hman in Hrun. apply bind_Ok in Hrun as (id & s1 & Hsnap & Hrun).
  apply bind_Ok in Hrun as (n1 & s2 & Hpin & Hrun). apply bind_Ok in Hrun as (n2 & s3 & Hre & Hrun).
  apply bind_Ok in Hrun as (n3 & s4 & Hconf & Hrun). ledger Hrun.
  match goal with Hs : context_same _ _ |- _ =>
    destruct Hs as (_ & _ & _ & _ & _ & Esn & Epw & Et & Esb & _) end.
  unfold insert_snapshot in Hsnap. cbv zeta in Hsnap.
  apply bind_Ok in Hsnap as (? & s0 & Hsnap & [-> ->]%ret_Ok).
  assert (repinned t (pw_context_version_id x3) ("snapshot-" ++ uuid) d s3) as Hrep.
  { eapply repinned_intro; [|..|exact Hpin | exact Hre]; [done|..]; by statement_inv Hsnap. }
  assert (tasks s4 = tasks s3 ∧ submissions s4 = submissions s3 ∧
    context_snapshots s4 = context_snapshots s3) as (Et4 & Esb4 & Esn4) by (by statement_inv Hconf).
  assert (preview_for w t p x d' = Some (set_preview_confirmed ("snapshot-" ++ uuid) now x3)) as Hnext.
  { unfold preview_for in *. statement_inv Hconf. statement_inv Hre. statement_inv Hpin.
    statement_inv Hsnap. rewrite Epw. simpl. rewrite select_one_on_rows, Hprev by done. simpl.
    split_bools. by subst; rewrite eqs_refl. }
  statement_inv Hre. statement_inv Hpin. statement_inv Hsnap.
  eexists. split_and!; [done | done | by destruct (pw_confirmed_snapshot_id x3) | split_bools; lia
    | rewrite Esn, Esn4; apply elem_of_app; right; constructor | done | done | done | | done].
  eapply repinned_same; [exact Hrep | by rewrite Et, Et4 | by rewrite Esb, Esb4].
Qed.
(** ** Tasks *)

Lemma active_verified d p w :
  registry_integrity d → context_sound d → active_version_or_none p d = Some w →
  vw_status w = Provenance_VERIFIED.
Proof.
  intros Hok Hs Hw. apply fmap_Some_1 in Hw as (v & Hv & ->).
  apply select_one_Some in Hv as [Hv _]. destruct (version_found d v Hok Hs Hv) as (w & Hw & <- & Hst).
  apply fmap_Some_1 in Hw as (v' & _ & ->). by rewrite view_of_row in *.
Qed.

Lemma opened_task t actor key digest sn sub turn now d x d' :
  open_task t actor key digest sn sub turn now d = Ok (x, d') →
  tasks d' = (tasks d ++ [t])%list ∧
  task_states d' = (task_states d ++ [mkState (tk_task_id t) Work_OPEN 1 now now])%list ∧
  submissions d' = (submissions d ++ [mkSubmission sub (tk_task_id t) turn actor key digest Sub_QUEUED
    [("text", JStr (tk_prompt t))] (Some sn) Source_TASK_PIN None None [] None now None None None None
    now])%list ∧
  intents d' = (intents d ++ [mkIntent sub (tk_task_id t) Intent_CREATE None now])%list ∧
  context_snapshots d' = context_snapshots d.
Proof.
  intros Hrun. unfold open_task, open_conversation in Hrun. tx_inv_all.
  by repeat match goal with H : ?m _ = Ok _ |- _ => statement_inv H end.
Qed.

(** In a reachable database the active version is verified, so it is the one that is pinned. *)
Lemma active_snapshot p w t prompt actor su uuid now d pin d' :
  registry_integrity d → context_sound d →
  create_active_snapshot_for_task p w t prompt actor su uuid now d = Ok (pin, d') →
  ∃ v a, active_version_or_none p d = Some v ∧
    pin = ("snapshot-" ++ uuid, cv_context_version_id (vw_row v)) ∧
    assemble_for_task p w t prompt (Some pin.2) d = Ok (a, d) ∧
    insert_snapshot_row (mkContextSnapshot pin.1 (Some pin.2) (as_fingerprint a) (as_content a) now
      (as_source_manifest a) (Some (as_byte_budget a)) (as_truncated a)) d = Ok (tt, d').
Proof.
  intros Hok Hs Hrun. unfold create_active_snapshot_for_task in Hrun. reading Hrun.
  match goal with Hv : active_version_or_none p d = Some ?v |- _ =>
    rewrite (active_verified d p v Hok Hs Hv) in Hrun; exists v; rename Hv into Hact end.
  cbn [bool_decide] in Hrun. apply bind_Ok in Hrun as (id & s1 & Hid & Hrun).
  apply ret_Ok in Hid as [-> ->]. apply bind_Ok in Hrun as (a & s2 & Ha & Hrun).
  pose proof Ha as Hr. reads_only Hr. apply bind_Ok in Hrun as (sid & s3 & Hsn & [-> ->]%ret_Ok).
  unfold insert_snapshot in Hsn. cbv zeta in Hsn.
  apply bind_Ok in Hsn as ([] & s4 & Hsn & [-> ->]%ret_Ok). by exists a.
Qed.

(** A Workspace in which Tasks of the Project run in the Environment: all three are active, the
    Workspace is linked to the Project, and the Environment is the one of the Workspace's row. *)
Record writable (project_id workspace_id environment_id : string) (d : db) : Prop := mkWritable {
  wr_project : ∃ p, project_by_id project_id d = Some p ∧ project_active p = true;
  wr_linked : linked_active project_id workspace_id d = true;
  wr_workspace : ∃ w, workspace_by_id workspace_id d = Some w ∧ workspace_active w = true ∧
    ws_environment_id w = environment_id;
  wr_environment : ∃ e, environment_by_id environment_id d = Some e ∧ environment_active e = true }.

Lemma writable_workspace_Ok p w e d x d' :
  writable_workspace p w e d = Ok (x, d') → writable p w x d ∧ default x e = x.
Proof.
  unfold writable_workspace. intros Hrun. reading Hrun. apply ret_Ok in Hrun as [-> ->].
  match goal with Hq : _ ≫= _ = Some _ |- _ => revert Hq end.
  destruct (workspace_by_id w d) as [row|] eqn:Hw; simpl; [|done].
  destruct (environment_by_id _ d) as [env|] eqn:He; simpl; [|done].
  destruct (linked_active p w d) eqn:Hl; [|done]. intros [= <-]. simpl in *. split_bools. split.
  - constructor; eauto.
  - destruct e; [|done]. simpl. split_bools. congruence.
Qed.

(** C14: creating a Task opens its conversation in one transaction: the Workspace is active, linked
    to the active Project, and its row names the active Environment in which the caller may execute
    and in which the Task is placed (the one that the caller asked for, if any); the active version
    of the Project's Context is assembled into a new snapshot, the Task is added with that pin, its
    prompt and the caller as its owner, open for work, and its first Turn is queued with the prompt
    as input and the snapshot as Context. *)
Theorem creating_a_task_opens_its_conversation auth u s key now uuid su snu snat sub turn e d r d' :
  domain_reachable d →
  create_task auth u s key now uuid su snu snat sub turn e d = Ok (r, d') → d' ≠ d →
  ∃ actor environment_id w a digest, u_id u = Some actor ∧
    writable (ts_project_id s) (ts_workspace_id s) environment_id d ∧
    default environment_id (ts_environment_id s) = environment_id ∧
    has_active_environment_execution_grant auth environment_id actor = true ∧
    active_version_or_none (ts_project_id s) d = Some w ∧
    let task_id := "task-" ++ uuid in
    let snapshot_id := "snapshot-" ++ snu in
    let version_id := cv_context_version_id (vw_row w) in
    assemble_for_task (ts_project_id s) (ts_workspace_id s) task_id (ts_prompt s) (Some version_id) d
      = Ok (a, d) ∧
    context_snapshots d' = (context_snapshots d ++ [mkContextSnapshot snapshot_id (Some version_id)
      (as_fingerprint a) (as_content a) snat (as_source_manifest a) (Some (as_byte_budget a))
      (as_truncated a)])%list ∧
    tasks d' = (tasks d ++ [mkTask task_id (ts_project_id s) (ts_workspace_id s) environment_id
      (ts_researcher_type s) (ts_harness_engine s) (Some (texts (ts_user_skills s)))
      (Some (texts (ts_user_mcp_servers s))) (ts_title s) (ts_prompt s) now now actor None None
      (Some version_id) (Some snapshot_id)])%list ∧
    task_states d' = (task_states d ++ [mkState task_id Work_OPEN 1 now now])%list ∧
    submissions d' = (submissions d ++ [mkSubmission sub task_id turn actor key digest Sub_QUEUED
      [("text", JStr (ts_prompt s))] (Some snapshot_id) Source_TASK_PIN None None [] None now None None
      None None now])%list ∧
    intents d' = (intents d ++ [mkIntent sub task_id Intent_CREATE None now])%list.
Proof.
  intros Hd Hrun Hnew. destruct (domain_reachable_ok d Hd) as [Hok _].
  pose proof (domain_reachable_context d Hd) as Hs. unfold create_task in Hrun.
  reading Hrun; [by apply ret_Ok in Hrun as [_ ->]|].
  apply bind_Ok in Hrun as ([id v] & s1 & Hpin & Hrun).
  apply active_snapshot in Hpin as (w & a & Hw & [= -> ->] & Ha & Hsn); [|done..].
  apply bind_Ok in Hrun as (? & s2 & Hop & Hrun). ledger Hrun.
  match goal with Hsm : context_same _ _ |- _ =>
    destruct Hsm as (_ & _ & _ & _ & _ & Esn & _ & Et & Esb & Ein & Ets) end.
  apply opened_task in Hop as (Et2 & Ets2 & Esb2 & Ein2 & Esn2). simpl in *.
  match goal with Hl : writable_workspace _ _ _ _ = Ok _ |- _ =>
    apply writable_workspace_Ok in Hl as [? ?] end.
  match goal with Hg : require_environment_execution_grant _ _ _ _ = Ok _, Ha' : actor_of _ _ = Ok _ |- _ =>
    unfold require_environment_execution_grant in Hg;
    apply bind_Ok in Hg as (? & ? & Ha2 & [Hg _]%require_Ok);
    apply actor_of_inv in Ha2 as (Hu & _ & _); apply actor_of_inv in Ha' as (Hu' & _ & _);
    rewrite Hu in Hu'; injection Hu' as -> end.
  statement_inv Hsn. simpl in *. eexists _, _, w, a, _.
  rewrite Esn, Et, Esb, Ein, Ets, Et2, Ets2, Esb2, Ein2, Esn2. by split_and!.
Qed.

(** Moving a Task takes the Context with it: only an idle-Turn Task of another Project is moved,
    to a Project that its Workspace is linked to, both active, and it stays in the Environment of
    that Workspace; a snapshot of the version that the caller chose,
    one of the target Project, is stored, and the Task and every queued submission that follows its
    pin refer to it, while other Tasks and submissions are left alone. *)
Theorem moving_a_task_repins_it t u p v key now uuid at_ e d r d' :
  domain_reachable d → move_task t u p v key now uuid at_ e d = Ok (r, d') → d' ≠ d →
  ∃ x s, task_by_id t d = Some x ∧ tk_project_id x ≠ p ∧ active_turn t d = None ∧
    writable p (tk_workspace_id x) (tk_environment_id x) d ∧ version_in d v p ∧
    s ∈ context_snapshots d' ∧ cs_context_snapshot_id s = "snapshot-" ++ uuid ∧
    cs_context_version_id s = Some v ∧
    repinned t v ("snapshot-" ++ uuid) d d' ∧
    ∀ y, y ∈ tasks d' → tk_task_id y = t → tk_project_id y = p.
Proof.
  intros Hd Hrun Hnew. unfold move_task in Hrun. reading Hrun.
  { by apply ret_Ok in Hrun as [_ ->]. }
  match goal with Hx : task_by_id t d = Some ?x |- _ => exists x; rename Hx into Htask end.
  apply bind_Ok in Hrun as (id & s1 & Hsn & Hrun). unfold create_snapshot_for_task_context_version in Hsn.
  apply bind_Ok in Hsn as (a & s0 & Ha & Hsn). apply assemble_for_task_Ok in Ha as (-> & Hin & _).
  unfold insert_snapshot in Hsn. cbv zeta in Hsn.
  apply bind_Ok in Hsn as (? & s4 & Hsn & [-> ->]%ret_Ok).
  apply bind_Ok in Hrun as (n1 & s2 & Hpin & Hrun). apply bind_Ok in Hrun as (n2 & s3 & Hre & Hrun).
  ledger Hrun. match goal with Hs : context_same _ _ |- _ =>
    destruct Hs as (_ & _ & _ & _ & _ & Esn & _ & Et & Esb & _) end.
  assert (repinned t v ("snapshot-" ++ uuid) d s3) as Hrep.
  { eapply repinned_intro; [|..|exact Hpin | exact Hre]; [done|..]; by statement_inv Hsn. }
  match goal with Hl : writable_workspace _ _ _ _ = Ok _ |- _ =>
    apply writable_workspace_Ok in Hl as [Hl Henv]; simpl in Henv; subst end.
  statement_inv Hre. statement_inv Hpin. statement_inv Hsn. split_bools.
  eexists. split_and!; [done | done | by destruct (active_turn t d) | done | done
    | rewrite Esn; apply elem_of_app; right; constructor | done | done
    | eapply repinned_same; [exact Hrep | done | done] |].
  rewrite Et. simpl. intros y (z & Hz & ->)%elem_of_on_rows.
  destruct (eqs (tk_task_id z) t) eqn:Hzt; [done|]. by intros ?%String.eqb_neq.
Qed.
End outcomes.

Lemma creating_a_task_opens_its_conversation_witness :
  ∃ w, active_version_or_none lab ctx3 = Some w ∧
    ∃ x, tasks ctx4 = (tasks ctx3 ++ [x])%list ∧
      writable lab (ts_workspace_id spec4) (tk_environment_id x) ctx3 ∧
      tk_project_context_version_id x = Some (cv_context_version_id (vw_row w)).
Proof.
  edestruct (creating_a_task_opens_its_conversation grants alice spec4 "k14" 14%Z "u14"
    (mkSuccessor "v14" 14%Z "g14" 14%Z) "s14" 14%Z "sub14" "turn14" "e14" ctx3)
    as (actor & env & w & a & digest & _ & He & _ & _ & Hw & _ & _ & Ht & _);
    [exact ctx3_reachable | vm_compute; reflexivity | |].
  { intros E. apply (f_equal (λ d, length (audit_events d))) in E. vm_compute in E. lia. }
  exists w. split; [exact Hw|]. eexists. split; [exact Ht|]. split; [exact He | done].
Defined.

Lemma confirming_pins_the_preview_witness :
  ∃ s, s ∈ context_snapshots ctx13 ∧ cs_context_snapshot_id s = "snapshot-s23" ∧
    (∀ x, x ∈ tasks ctx13 → tk_task_id x = task4 →
       tk_project_context_snapshot_id x = Some "snapshot-s23") ∧
    ∃ sub, sub ∈ submissions ctx13 ∧ follows_pin task4 sub = true ∧
      sb_context_snapshot_ref sub = Some "snapshot-s23".
Proof.
  edestruct (confirming_pins_the_preview task4 lab preview12 alice "k23" 23%Z "s23" 23%Z 23%Z 23%Z
    "e23" 23%Z ctx12) as (actor & pv & s & _ & _ & _ & _ & Hs & Hid & _ & _ & [Ht _ Hq _] & _);
    [exact ctx12_reachable | vm_compute; reflexivity | |].
  { intros He. apply (f_equal (λ d, length (audit_events d))) in He. vm_compute in He. lia. }
  exists s. split_and!; [exact Hs | exact Hid | intros x Hx Hxt; exact (proj1 (Ht x Hx Hxt))|].
  destruct (submissions ctx13 !! 1%nat) as [sub|] eqn:Hsub; [|discriminate Hsub].
  assert (sub ∈ submissions ctx13) as Hin by exact (list_elem_of_lookup_2 _ _ _ Hsub).
  assert (follows_pin task4 sub = true) as Hf by (by injection Hsub as <-).
  exists sub. split_and!; [exact Hin | exact Hf | exact (Hq sub Hin Hf)].
Defined.

Lemma accepting_extends_the_draft_witness :
  ∃ c, candidate_by_id lab candidate8 ctx8 = Some c ∧ cd_status c = Candidate_PROPOSED ∧
    draft_content lab ctx9 = append_candidate "Brief" (cd_content c).
Proof.
  edestruct (accepting_extends_the_draft lab candidate8 alice (Some "k19") 19%Z "e19" 19%Z 19%Z ctx8)
    as (c & actor & Hc & _ & Hout); [vm_compute; reflexivity | |].
  { intros He. apply (f_equal (λ d, length (audit_events d))) in He. vm_compute in He. lia. }
  exists c. assert (cd_status c = Candidate_PROPOSED) as Hst by (by injection Hc as <-).
  rewrite Hst in Hout. destruct Hout as (_ & Hd & _). split_and!; [exact Hc | exact Hst | exact Hd].
Defined.

Lemma publishing_replaces_the_version_witness :
  ∃ draft w, context_draft lab ctx2 = Some draft ∧ dr_content draft = "Brief" ∧
    active_version_or_none lab (after (publish lab alice (Some "k99") "u99" 99%Z "e" 99%Z 99%Z "f" 99%Z) ctx2) = Some w ∧
    cv_content (vw_row w) = "Brief".
Proof.
  edestruct (publishing_replaces_the_version lab alice (Some "k99") "u99" 99%Z "e" 99%Z 99%Z "f" 99%Z ctx2)
    as (draft & w & Hd & Hw & _ & _ & Hc & _); [vm_compute; reflexivity | |].
  { intros He. apply (f_equal (λ d, length (audit_events d))) in He. vm_compute in He. lia. }
  exists draft, w. split; [exact Hd|]. injection Hd as <-. split_and!; [done | exact Hw | exact Hc].
Defined.
