(* ===== verification/ContextFindings.v ===== *)
(** * Where the Context service does not do what it means to

    An empty fragment blocks its Project, a publication is audited twice, and a
    Task is moved although a submission of it is being delivered. *)

From stdpp Require Import base tactics list strings relations.
From Stdlib Require Import ZArith Lia.
From S2P Require Import Prelude PyText PyJson Utf8 PyTime Tables Contracts RegistryRows Schema.
From S2P Require Import Repository Projection RegistryRepository Service EnvironmentIdentity.
From S2P Require Import Authorization Registry RegistryWorkspaces Acceptance Execution Evolution.
From S2P Require Import Methods Integrity System Scenario Assembler AssemblerLaws.
From S2P Require Import ContextRepository Context ContextCandidates ContextSnapshots TaskLifecycle.
From S2P Require Import RegistryMethods ContextMethods RegistryFrame RegistryIntegrity.
From S2P Require Import RegistrySound RegistryScenario ContextSound ContextSteps ContextScenario.
From S2P Require Import ForkRepository Fork ForkSound ContextGuarantees ContextOutcomes.

Local Open Scope string_scope.
#[local] Hint Constants Opaque : typeclass_instances.
#[local] Hint Transparent dict time relation : typeclass_instances.

(** ** Empty fragments *)

Lemma forallb_false {A} (p : A → bool) l x : x ∈ l → p x = false → forallb p l = false.
Proof.
  intros Hx Hp. apply not_true_iff_false. rewrite forallb_forall.
  intros Hall. by rewrite (Hall x) in Hp by (by apply list_elem_of_In).
Qed.

Section empty.
Context `{Host, Kernel}.

(** What a publication leaves behind. *)
Lemma publish_leaves p u key uuid now e t st e2 t2 d r d' :
  publish p u key uuid now e t st e2 t2 d = Ok (r, d') → d' ≠ d →
  ∃ v, context_versions d' =
      (on_rows (λ v, eqs (cv_project_id v) p) deactivate (context_versions d) ++ [v])%list ∧
    context_fragments d' = context_fragments d ∧
    cv_project_id v = p ∧ cv_is_active v = true ∧
    cv_fragment_manifest v = map freeze_fragment (fragments_for_project p d).
Proof.
  intros Hrun Hnew. unfold publish in Hrun. reading Hrun. do 2 reading_match Hrun.
  reading Hrun; [by apply ret_Ok in Hrun as [_ ->].. |].
  apply bind_Ok in Hrun as (fields & s1 & Hpub & Hrun). ledger Hrun.
  match goal with Hs : context_same _ _ |- _ => destruct Hs as (_ & Ev & _ & _ & Ef & _) end.
  apply published in Hpub as (draft & _ & Evs & Efs & _).
  exists (new_version p x uuid (dr_content draft) now (freeze_project_fragments p d)).
  by rewrite Ev, Evs, Ef.
Qed.

Lemma publish_step p u key uuid now e t st e2 t2 d r d' :
  publish p u key uuid now e t st e2 t2 d = Ok (r, d') → domain_step d d'.
Proof.
  intros Hrun. apply domain_context. exists (Publish p), u, key, (mkContextCall None now uuid
    (mkSuccessor "" 0%Z "" 0%Z) "" 0%Z 0%Z st e t e2 t2 "" "" "" ""), r. exact Hrun.
Qed.

(** A Project whose active version freezes [f], whatever version that is. *)
Record stuck (f : fragment_row) (d : db) : Prop := mkStuck {
  sk_fragment : f ∈ context_fragments d;
  sk_active : ∃ v, v ∈ context_versions d ∧ cv_project_id v = fr_project_id f ∧
    cv_is_active v = true;
  sk_frozen v : v ∈ context_versions d → cv_project_id v = fr_project_id f →
    cv_is_active v = true → freeze_fragment f ∈ cv_fragment_manifest v }.

Definition stays_stuck (d d' : db) : Prop := ∀ f, stuck f d → stuck f d'.
#[export] Instance stays_stuck_preorder : PreOrder stays_stuck.
Proof. split; unfold stays_stuck; red; auto. Qed.

Lemma stuck_same d d' :
  (∀ f, f ∈ context_fragments d → f ∈ context_fragments d') →
  context_versions d' = context_versions d → stays_stuck d d'.
Proof. intros Hf Ev f []. constructor; rewrite ?Ev; auto. Qed.

Ltac versions_untouched :=
  intros; intros ?s ?x ?s Hrun;
  first [ statement_inv Hrun
        | unfold open_conversation in Hrun; tx_inv_all;
          repeat match goal with H : ?m _ = Ok _ |- _ => statement_inv H end ];
  apply stuck_same; simpl; try done; intros ? ?; apply elem_of_app; by left.

#[export] Instance registry_plain_stuck : RegistryPlain stays_stuck.
Proof. constructor; [apply _|..]; versions_untouched. Qed.
#[export] Instance context_updates_stuck : ContextUpdates stays_stuck.
Proof. constructor; [constructor; [apply _|..]|..]; versions_untouched. Qed.
#[export] Instance fork_receipts_stuck : ForkReceipts stays_stuck.
Proof. constructor; [apply _|..]; versions_untouched. Qed.

(** A Project that has an active version is not initialized again. *)
#[export] Instance initialize_stuck a b c e : Respects stays_stuck (initialize_project_context a b c e).
Proof.
  intros d r d' Hrun f Hf. unfold initialize_project_context in Hrun. cbv zeta in Hrun.
  tx_inv_all. repeat match goal with H : ?m _ = Ok _ |- _ => statement_inv H end.
  match goal with G : version_insert_guard _ _ = None |- _ => guard_facts G end.
  destruct Hf as [Hin (v & Hv & Hp & Ha) Hfr]. constructor; simpl in *; [done|..].
  - exists v. split; [|done]. apply elem_of_app. by left.
  - intros w [Hw| ->%list_elem_of_singleton]%elem_of_app Hwp Hwa;
      [by apply Hfr|]. simpl in *. exfalso.
    match goal with U : index_free cv_is_active _ _ _ = true |- _ =>
      revert U; apply not_true_iff_false; unfold index_free end.
    simpl. apply negb_false_iff, row_exists_true. exists v. split; [done|].
    rewrite Ha. simpl. apply bool_decide_eq_true. congruence.
Qed.

(** A publication freezes [f] again. *)
#[export] Instance publish_version_stuck a b c d e f g :
  Respects stays_stuck (publish_verified_version_in_transaction a b c d e f g).
Proof.
  intros s r s' (dr & Hdr & Ev & Ef & _)%published x [Hin (v & Hv & Hp & Ha) Hfr].
  constructor; rewrite ?Ef, ?Ev; [done|..].
  - destruct (decide (a = fr_project_id x)) as [->|Hne].
    + eexists. split; [apply elem_of_app; right; constructor | done].
    + exists v. split; [|done]. apply elem_of_app. left. apply elem_of_on_rows. exists v.
      split; [done|]. by rewrite Hp, eqs_ne by done.
  - intros w [(y & Hy & ->)%elem_of_on_rows | ->%list_elem_of_singleton]%elem_of_app Hwp Hwa.
    + destruct (eqs (cv_project_id y) a) eqn:E; [done | by apply Hfr].
    + simpl in *. subst. unfold freeze_project_fragments. apply list_elem_of_fmap. exists x.
      split; [done|]. unfold fragments_for_project. rewrite elem_of_order_by, elem_of_select.
      by rewrite eqs_refl.
Qed.

#[local] Instance set_environment_stuck a b c d e f g h :
  Respects stays_stuck (repo_update_environment a (set_environment b c d e f g h)).
Proof. versions_untouched. Qed.
#[export] Instance registry_blocks_stuck : RegistryBlocks stays_stuck.
Proof. apply registry_plain_blocks; [apply _ | apply _ | method]. Qed.
#[export] Instance context_blocks_stuck : ContextBlocks stays_stuck.
Proof. apply context_updates_blocks; apply _. Qed.
#[export] Instance fork_blocks_stuck : ForkBlocks stays_stuck.
Proof. apply fork_updates_blocks; apply _. Qed.

Lemma domain_steps_stuck d d' : rtc domain_step d d' → stays_stuck d d'.
Proof.
  intros Hs. refine (domain_steps_cases stays_stuck d d' _ _ _ Hs);
    [apply registry_step_spec, _ | apply context_step_spec; apply _ |].
  intros d1 d2 Hsame _. apply stuck_same; [|apply Hsame].
  intros f Hf. assert (context_fragments d2 = context_fragments d1) as -> by apply Hsame. done.
Qed.

(** An active version that freezes an empty fragment cannot be read. *)
Lemma stuck_fragments f d v :
  digests → context_sound d → stuck f d → fr_content f = "" →
  v ∈ context_versions d → cv_project_id v = fr_project_id f → cv_is_active v = true →
  decode_fragments (cv_fragment_manifest v) = Err manifest_invalid.
Proof.
  intros Hdig Hs [_ _ Hfr] He Hv Hp Ha. pose proof (Hfr v Hv Hp Ha) as Hin.
  destruct (cx_version _ Hs v Hv) as [(fs & Em & Hfs) _ _]. rewrite Em in Hin |- *.
  apply list_elem_of_fmap in Hin as (x & Hx & Hxin).
  assert (fr_content x = "") as Hxe by (unfold freeze_fragment in Hx; by injection Hx; congruence).
  rewrite decode_frozen_list; [|done|].
  - by erewrite (forallb_false _ _ x); [|exact Hxin | by rewrite Hxe].
  - eapply Forall_impl; [exact Hfs|]. intros y [Hy _]. by apply (cx_fragment _ Hs).
Qed.

Lemma stuck_assembly f d w t prompt v a d' :
  digests → registry_integrity d → context_sound d → stuck f d → fr_content f = "" →
  active_version_or_none (fr_project_id f) d = Some v →
  assemble_for_task (fr_project_id f) w t prompt (Some (cv_context_version_id (vw_row v))) d
    ≠ Ok (a, d').
Proof.
  intros Hdig Hok Hs Hf He Hv Hrun.
  apply fmap_Some_1 in Hv as (r & Hr & ->). rewrite view_of_row in Hrun.
  apply select_one_Some in Hr as [Hr Hp]. split_bools.
  unfold assemble_for_task, version in Hrun. reading Hrun.
  match goal with Hq : version_or_none _ _ _ = Some _ |- _ =>
    apply fmap_Some_1 in Hq as (r' & Hr' & ->); apply select_one_Some in Hr' as [Hr' Hp'] end.
  split_bools. assert (r' = r) as ->.
  { apply (unique_eq always cv_context_version_id _ _ _ (versions_pk _ (ok_versions _ Hok))); done || congruence. }
  match goal with Hl : lift (fragments_for_version _) _ = Ok _ |- _ => apply lift_Ok in Hl as [Hl _];
    unfold fragments_for_version in Hl; rewrite view_of_row in Hl;
    rewrite (stuck_fragments f d r) in Hl by done; by destruct (bool_decide _) end.
Qed.

Lemma publish_stuck f u key uuid now e t st e2 t2 d r d' :
  f ∈ context_fragments d →
  publish (fr_project_id f) u key uuid now e t st e2 t2 d = Ok (r, d') → d' ≠ d → stuck f d'.
Proof.
  intros Hf Hrun Hnew.
  destruct (publish_leaves _ _ _ _ _ _ _ _ _ _ _ _ _ Hrun Hnew) as (v & Ev & Ef & Hp & Ha & Hm).
  constructor; rewrite ?Ef, ?Ev; [done|..].
  - exists v. split; [|done]. apply elem_of_app. right. constructor.
  - intros w [(y & Hy & ->)%elem_of_on_rows | ->%list_elem_of_singleton]%elem_of_app Hwp Hwa.
    + destruct (eqs (cv_project_id y) _) eqn:E; [done|]. by apply String.eqb_neq in E as [].
    + rewrite Hm. apply list_elem_of_fmap. exists f. split; [done|]. unfold fragments_for_project.
      rewrite elem_of_order_by, elem_of_select. by rewrite eqs_refl.
Qed.

Lemma stuck_active_assembly f d w t prompt :
  digests → registry_integrity d → context_sound d → stuck f d → fr_content f = "" →
  assemble_for_task (fr_project_id f) w t prompt None d = Err manifest_invalid.
Proof.
  intros Hdig Hok Hs Hf He.
  destruct (active_version_or_none (fr_project_id f) d) as [x|] eqn:Hx.
  - pose proof (active_verified _ _ _ Hok Hs Hx) as Hver. pose proof Hx as Hx'.
    apply fmap_Some_1 in Hx' as (y & Hy & ->). apply select_one_Some in Hy as [Hy Hyp]. split_bools.
    unfold assemble_for_task, active_version, fragments_for_version, mbind, tx_bind, gets. cbv zeta.
    rewrite Hx. cbn [require_some]. unfold mret, tx_ret. rewrite Hver, view_of_row.
    by rewrite (stuck_fragments f d y).
  - destruct (sk_active _ _ Hf) as (v & Hv & Hp & Ha).
    apply fmap_None in Hx. eapply select_one_None in Hx; [|exact Hv].
    by rewrite Hp, eqs_refl, Ha in Hx.
Qed.

(** C34: a fragment with empty content, which the service accepts, blocks its Project for good
    once a version is published: in every later state, whatever is published in between, no
    Context can be assembled from the active version, so that no call creates a Task in the
    Project or forks a conversation into it (only what was stored before is answered again), and
    no Context update of a Task can be previewed.  (Previews and versions from before are not
    spoken of.) *)
Theorem empty_fragment_blocks_the_project d d1 f u key uuid now e t st e2 t2 r d2 d3 :
  digests → domain_reachable d → f ∈ context_fragments d → fr_content f = "" →
  rtc domain_step d d1 →
  publish (fr_project_id f) u key uuid now e t st e2 t2 d1 = Ok (r, d2) → d2 ≠ d1 →
  rtc domain_step d2 d3 →
  let p := fr_project_id f in
  (∀ w task prompt, assemble_for_task p w task prompt None d3 = Err manifest_invalid) ∧
  (∀ auth v s k c i su j c2 x y z r4 d4, ts_project_id s = p →
     create_task auth v s k c i su j c2 x y z d3 = Ok (r4, d4) → d4 = d3) ∧
  (∀ task v i c c2 r4 d4, preview_task_context_update task p v i c c2 d3 ≠ Ok (r4, d4)) ∧
  (∀ auth task pid q v c k c2 call r4 d4, fork_preview_by_id pid d3 = Some q →
     fp_target_project_id q = p →
     confirm_fork auth task pid v c k c2 call d3 = Ok (r4, d4) → d4 = d3).
Proof.
  intros Hdig Hd Hf He Hs1 Hrun Hnew Hs3 p.
  assert (domain_reachable d1) as Hd1 by (by eapply domain_reachable_steps).
  assert (domain_reachable d3) as Hd3.
  { eapply domain_reachable_steps; [exact Hd1|]. eapply rtc_l, Hs3. by eapply publish_step. }
  assert (stuck f d3) as Hst.
  { eapply domain_steps_stuck; [exact Hs3|]. eapply publish_stuck; [|exact Hrun | exact Hnew].
    destruct (domain_steps_lawful _ _ Hs1) as [Hgr _]. by eapply appended, Hf; apply gr_fragments. }
  destruct (domain_reachable_ok d3 Hd3) as [Hok _].
  pose proof (domain_reachable_context d3 Hd3) as Hs.
  assert (∀ w t prompt, assemble_for_task p w t prompt None d3 = Err manifest_invalid) as Hnone
    by (intros; by apply stuck_active_assembly).
  assert (∀ w t prompt actor su uuid now pin d4,
    create_active_snapshot_for_task p w t prompt actor su uuid now d3 ≠ Ok (pin, d4)) as Hpin.
  { intros w' t' pr ac su uu nw pin d4 (v & a & Hv & -> & Ha & _)%active_snapshot; [|done..].
    by eapply (stuck_assembly f d3). }
  split_and!; [exact Hnone|..].
  - intros auth v s k c i su j c2 x y z r4 d4 <- Hc. unfold create_task in Hc.
    reading Hc; [by apply ret_Ok in Hc as [_ ->]|]. exfalso.
    apply bind_Ok in Hc as (pin & s1 & Hc & _). by eapply Hpin.
  - intros task v i c c2 r4 d4 Hc. unfold preview_task_context_update in Hc. reading Hc.
    match goal with Ha : assemble_for_task _ _ _ _ _ _ = Ok _ |- _ => by rewrite Hnone in Ha end.
  - intros auth task pid q v c k c2 call r4 d4 Hq Hqp Hc. unfold confirm_fork in Hc.
    reading Hc; [by apply ret_Ok in Hc as [_ ->]|]. exfalso.
    apply bind_Ok in Hc as (new & s1 & Hop & _).
    apply open_fork_Ok in Hop as (_ & pin & d5 & ? & Hc & _).
    rewrite Hqp in Hc. by eapply Hpin.
Qed.

(** A publication is recorded twice: a fresh call appends two audit events that differ in
    nothing but their identifiers and clock readings. *)
Theorem publication_is_audited_twice p u key uuid now e t st e2 t2 d r d' :
  publish p u key uuid now e t st e2 t2 d = Ok (r, d') → d' ≠ d →
  ∃ actor, u_id u = Some actor ∧ audit_events d' = (audit_events d ++
    [mkAudit e actor "project_context.published" "project" p [] t;
     mkAudit e2 actor "project_context.published" "project" p [] t2])%list.
Proof.
  intros Hrun Hnew. unfold publish in Hrun. reading Hrun. do 2 reading_match Hrun.
  reading Hrun; [by apply ret_Ok in Hrun as [_ ->].. |].
  match goal with Ha : actor_of _ _ = Ok (?a, _) |- _ =>
    exists a; apply actor_of_inv in Ha as (Hactor & _ & _); split; [exact Hactor|] end.
  unfold publish_verified_version_in_transaction, context_audit, kernel_audit in Hrun.
  assert (∀ k a sc q rs c s y s', context_store_if k a sc q rs c s = Ok (y, s') →
    audit_events s' = audit_events s) as Hstore.
  { intros k a sc q rs c s y s' Hst. unfold context_store_if, context_store in Hst.
    destruct k; [|by apply ret_Ok in Hst as [_ ->]]. tx_inv_all.
    match goal with Hi : insert_idempotency_record _ _ _ _ _ _ _ = Ok _ |- _ => by statement_inv Hi end. }
  tx_inv_all. apply Hstore in H2.
  repeat match goal with H : validate_write _ = Ok _ |- _ => reads_only H; clear H end.
  repeat match goal with H : _ _ = Ok (_, _) |- _ => statement_inv H end.
  simpl in *. by rewrite H2, <-app_assoc.
Qed.
End empty.

(** A run in which an empty fragment is created and published. *)
Definition blank1 : db := Eval vm_compute in
  after (context_mutate (CreateFragment lab "" "note" [] None 0 None) alice (Some "k41")
           (nth_context_call 41)) ctx3.
Lemma blank1_reachable : domain_reachable blank1.
Proof.
  eapply domain_reachable_step; [apply ctx3_reachable|].
  by_context (CreateFragment lab "" "note" [] None 0 None) (Some "k41") 41%nat.
Qed.

Definition blank2 : db := Eval vm_compute in
  after (publish lab alice (Some "k42") "u42" 42%Z "e42" 42%Z 42%Z "f42" 42%Z) blank1.

Lemma empty_fragment_blocks_the_project_witness :
  assemble_for_task lab ws4 "task" "prompt" None blank2 = Err manifest_invalid.
Proof.
  destruct (context_fragments blank1 !! 1%nat) as [f|] eqn:Hf; [|discriminate Hf].
  assert (fr_content f = "" ∧ fr_project_id f = lab) as [He Hp] by (by injection Hf as <-).
  rewrite <-Hp. eapply (empty_fragment_blocks_the_project blank1 blank1 f alice (Some "k42") "u42"
    42%Z "e42" 42%Z 42%Z "f42" 42%Z _ blank2 blank2);
    [exact demo_digests | exact blank1_reachable | |exact He | done | | |done].
  - exact (list_elem_of_lookup_2 _ _ _ Hf).
  - rewrite Hp. vm_compute. reflexivity.
  - intros Ha. apply (f_equal (λ d, length (audit_events d))) in Ha. vm_compute in Ha. lia.
Defined.

Lemma publication_is_audited_twice_witness :
  length (audit_events (after (publish lab alice (Some "k42") "u42" 42%Z "e42" 42%Z 42%Z "f42" 42%Z) ctx2))
    = 2 + length (audit_events ctx2).
Proof.
  edestruct (publication_is_audited_twice lab alice (Some "k42") "u42" 42%Z "e42" 42%Z 42%Z "f42" 42%Z
    ctx2) as (actor & _ & Ha); [vm_compute; reflexivity | |].
  - intros Ha. apply (f_equal (λ d, length (audit_events d))) in Ha. vm_compute in Ha. lia.
  - etrans; [exact (f_equal length Ha)|]. rewrite length_app. simpl. lia.
Defined.

(** ** Moving a Task that is not idle *)

Definition home : string := "project-default-#alice".
Definition move1 : db := Eval vm_compute in
  after (mutate (AttachWorkspace home ws4) alice (Some "k30") (nth_call 30)) ctx6.
Definition move2 : db := Eval vm_compute in
  after (context_mutate (MoveTask task4 home "context-c1") alice (Some "k31") (nth_context_call 31))
    move1.

Lemma move1_reachable : domain_reachable move1.
Proof.
  apply (domain_reachable_step ctx6 move1); [|by_mutation (AttachWorkspace home ws4) alice "k30" 30%nat].
  eapply domain_reachable_step, ctx_step6. eapply domain_reachable_step, ctx_step5.
  eapply domain_reachable_step, ctx_step4. apply ctx3_reachable.
Qed.
Lemma move_step : domain_step move1 move2.
Proof. by_context (MoveTask task4 home "context-c1") (Some "k31") 31%nat. Qed.

(** A Task is moved although it is not idle: [move_task] looks for an active Turn only, so a Task
    whose submission is being delivered to the engine moves to another Project, and the delivery
    goes on with the Context of the Project it came from. *)
Theorem move_ignores_a_delivery :
  domain_reachable move1 ∧ domain_step move1 move2 ∧
  ∃ x s snapshot v, tasks move2 = [x] ∧ tk_project_id x = home ∧
    submissions move2 = [s] ∧ sb_task_id s = tk_task_id x ∧ sb_status s = Sub_DELIVERING ∧
    sb_context_snapshot_ref s = Some (cs_context_snapshot_id snapshot) ∧
    snapshot ∈ context_snapshots move2 ∧ cs_context_version_id snapshot = Some (cv_context_version_id v) ∧
    v ∈ context_versions move2 ∧ cv_project_id v ≠ home.
Proof.
  split; [exact move1_reachable|]. split; [exact move_step|].
  do 2 eexists.
  destruct (context_snapshots move2 !! 0%nat) as [sn|] eqn:Hs; [|discriminate Hs].
  destruct (context_versions move2 !! 2%nat) as [v|] eqn:Hv; [|discriminate Hv].
  exists sn, v. split_and!; try reflexivity.
  - by injection Hs as <-.
  - by eapply list_elem_of_lookup_2.
  - injection Hs as <-. by injection Hv as <-.
  - by eapply list_elem_of_lookup_2.
  - by injection Hv as <-.
Qed.
