(* ===== verification/ForkOutcomes.v ===== *)
(** * What a fork does

    Which Turns a transfer range selects, what a confirmation leaves behind, and that it
    hands over the transcript that was previewed. *)

From stdpp Require Import base tactics list strings relations.
From Stdlib Require Import ZArith Lia.
From S2P Require Import Prelude PyText PyJson PyTime Tables JsonLaws JsonParser Contracts.
From S2P Require Import RegistryRows Schema Repository Projection RegistryRepository Service.
From S2P Require Import EnvironmentIdentity Authorization Registry RegistryWorkspaces Acceptance.
From S2P Require Import Execution Evolution Methods Integrity System Assembler ContextRepository.
From S2P Require Import Context ContextCandidates ContextSnapshots TaskLifecycle ForkRepository Fork.
From S2P Require Import RegistryMethods ContextMethods RegistryFrame RegistryIntegrity RegistrySound.
From S2P Require Import ContextSound ContextSteps ForkSound ContextOutcomes Scenario.
From S2P Require Import RegistryScenario ContextScenario.

Local Open Scope string_scope.
#[local] Hint Constants Opaque : typeclass_instances.
#[local] Hint Transparent dict time relation : typeclass_instances.

(** ** Selection *)

Lemma through_prefix k turns sel :
  through k turns = Some sel →
  sel `prefix_of` turns ∧ tn_turn_id <$> last sel = Some k ∧
  ∀ t, t ∈ removelast sel → tn_turn_id t ≠ k.
Proof.
  revert sel. induction turns as [|t turns IH]; intros sel; [done|]. cbn [through].
  destruct (eqs (tn_turn_id t) k) eqn:E.
  - intros [= <-]. split_and!; [by exists turns | simpl; f_equal; by apply String.eqb_eq |].
    by intros x ?%not_elem_of_nil.
  - destruct (through k turns) as [s|]; [|done]. intros [= <-].
    destruct (IH s eq_refl) as ([v ->] & Hl & Hne). split_and!.
    + by exists v.
    + by destruct s.
    + destruct s; [done|]. cbn [removelast]. intros x [-> |Hx]%elem_of_cons; [by apply String.eqb_neq|].
      by apply Hne.
Qed.

Definition selects (turns : list turn_row) (mode : ForkTransferMode) (range : dict)
    (sel : list turn_row) : Prop :=
  match mode with
  | CONTEXT_ONLY => range = [] ∧ sel = []
  | FULL_TRANSCRIPT =>
      ((dict_get "through_turn" range = None ∨ dict_get "through_turn" range = Some JNull) ∧
       sel = turns) ∨
      ∃ k, dict_get "through_turn" range = Some (JStr k) ∧ sel `prefix_of` turns ∧
        tn_turn_id <$> last sel = Some k
  | SELECTED_TURNS =>
      ∃ ids, dict_get "turn_ids" range = Some (JList (map JStr ids)) ∧ ids ≠ [] ∧
        sel `sublist_of` turns ∧ tn_turn_id <$> sel = ids
  | RECENT_TURNS =>
      ∃ n, dict_get "count" range = Some (JInt n) ∧ (0 < n)%Z ∧ sel `suffix_of` turns ∧
        length sel = Nat.min (Z.to_nat n) (length turns)
  end.

Lemma known_turns turns l ids :
  mapM (known_turn turns) l = Some ids →
  l = map JStr ids ∧ ∀ k, k ∈ ids → k ∈ tn_turn_id <$> turns.
Proof.
  revert ids. induction l as [|v l IH]; intros ids; cbn [mapM]; simpl.
  - intros [= <-]. split; [done|]. by intros k ?%not_elem_of_nil.
  - destruct (known_turn turns v) as [k|] eqn:Hk; simpl; [|done].
    destruct (mapM (known_turn turns) l) as [ks|]; simpl; [|done]. intros [= <-].
    destruct (IH ks eq_refl) as [-> Hks]. unfold known_turn in Hk.
    destruct v as [| | | |s| |]; try done. destruct (row_exists _ _) eqn:He; [|done].
    injection Hk as <-. split; [done|]. intros x [-> |Hx]%elem_of_cons; [|auto].
    apply row_exists_true in He as (t & Ht & Hid). apply list_elem_of_fmap. exists t.
    split; [symmetry; by apply String.eqb_eq | done].
Qed.

Lemma through_complete k turns sel :
  NoDup (tn_turn_id <$> turns) → sel `prefix_of` turns → tn_turn_id <$> last sel = Some k →
  through k turns = Some sel.
Proof.
  revert sel. induction turns as [|t turns IH]; intros sel Hnd Hp Hl.
  { by apply prefix_nil_inv in Hp as ->. }
  destruct sel as [|x sel]; [done|].
  pose proof (prefix_cons_inv_1 _ _ _ _ Hp) as ->. apply prefix_cons_inv_2 in Hp.
  csimpl in Hnd. apply NoDup_cons in Hnd as [Hni Hnd]. cbn [through].
  destruct sel as [|y sel].
  - simpl in Hl. injection Hl as ->. by rewrite eqs_refl.
  - change (last (t :: y :: sel)) with (last (y :: sel)) in Hl. rewrite eqs_ne.
    + by rewrite (IH (y :: sel)).
    + intros Hk. apply Hni. rewrite Hk.
      destruct (last (y :: sel)) as [z|] eqn:E; [|done]. injection Hl as <-.
      apply list_elem_of_fmap_2. apply last_Some in E as [l' E]. destruct Hp as [v ->]. rewrite E.
      apply elem_of_app. left. apply elem_of_app. right. constructor.
Qed.

(** The rows of a sublist, found again by their keys. *)
Lemma select_sublist (turns sel : list turn_row) :
  NoDup (tn_turn_id <$> turns) → sel `sublist_of` turns →
  select (λ t, bool_decide (tn_turn_id t ∈ tn_turn_id <$> sel)) turns = sel.
Proof.
  intros Hnd. induction 1 as [|t sel turns Hs IH|t sel turns Hs IH]; [done|..];
    csimpl in Hnd; apply NoDup_cons in Hnd as [Hni Hnd].
  - unfold select in *. cbn [List.filter]. rewrite bool_decide_eq_true_2 by (csimpl; constructor).
    f_equal. etrans; [|exact (IH Hnd)]. apply List.filter_ext_in.
    intros x Hx%list_elem_of_In. apply bool_decide_ext. csimpl. rewrite elem_of_cons.
    split; [|by right]. intros [Hx'|]; [|done]. destruct Hni. rewrite <-Hx'.
    by apply list_elem_of_fmap_2.
  - unfold select in *. cbn [List.filter]. rewrite bool_decide_eq_false_2; [by apply IH|].
    intros Hin. apply Hni. eapply elem_of_submseteq; [exact Hin|].
    by apply fmap_submseteq, sublist_submseteq.
Qed.

Lemma select_ids_sublist (turns : list turn_row) p : select p turns `sublist_of` turns.
Proof.
  unfold select. induction turns as [|t turns IH]; simpl; [done|]. by destruct (p t); constructor.
Qed.

(** The named Turns, as the code finds them. *)
Lemma named_turns turns v l sel :
  NoDup (tn_turn_id <$> turns) →
  selects turns SELECTED_TURNS [("turn_ids", JList (v :: l))] sel ↔
  ∃ ids, mapM (known_turn turns) (v :: l) = Some ids ∧ NoDup ids ∧
    sel = select (λ t, bool_decide (tn_turn_id t ∈ ids)) turns ∧ tn_turn_id <$> sel = ids.
Proof.
  intros Hnd. cbn [selects dict_get]. change (String.eqb "turn_ids" "turn_ids") with true. cbv iota.
  split.
  - intros (ids & [= El] & _ & Hsub & Hids). exists ids. subst ids.
    assert (NoDup (tn_turn_id <$> sel)) by (by eapply sublist_NoDup; [|apply fmap_sublist]).
    split_and!; [|done | by rewrite select_sublist | done]. rewrite El. clear El.
    assert (∀ s, s `sublist_of` turns →
      mapM (known_turn turns) (map JStr (tn_turn_id <$> s)) = Some (tn_turn_id <$> s)) as Hm;
      [|by apply Hm].
    induction s as [|t s IH]; intros Hs; [done|]. cbn [map fmap list_fmap mapM]. simpl.
    assert (row_exists (λ x, eqs (tn_turn_id x) (tn_turn_id t)) turns = true) as ->.
    { apply row_exists_true. exists t. split; [|apply eqs_refl].
      eapply elem_of_submseteq; [|by apply sublist_submseteq]. constructor. }
    simpl. rewrite IH; [done|]. etrans; [|exact Hs]. by constructor.
  - intros (ids & Hm & Hn & -> & Hids). exists ids.
    destruct (known_turns _ _ _ Hm) as [El _]. split_and!; [by rewrite El | | apply select_ids_sublist | done].
    by intros ->.
Qed.

(** The selection of a fork is what its range says, in the order of the transcript: all Turns
    or those up to a given one, the last ones, exactly the named ones, or none; a range that
    says anything else is refused, and nothing is written. *)
Lemma fork_selection_spec turns mode range d :
  NoDup (tn_turn_id <$> turns) →
  match fork_selection turns mode range d with
  | Ok (sel, d') => d' = d ∧ selects turns mode range sel
  | Err e => e = range_mismatch ∧ ∀ sel, ~ selects turns mode range sel
  end.
Proof.
  intros Hnd. destruct mode; cbn [fork_selection].
  - destruct (dict_get "turn_ids" range) as [[| | | | |[|v l]|]|] eqn:E;
      try (split; [done|]; cbn [selects]; intros sel (ids & E' & Hne & _); rewrite E in E';
           simplify_eq; by destruct ids).
    assert (∀ sel, selects turns SELECTED_TURNS range sel ↔
      selects turns SELECTED_TURNS [("turn_ids", JList (v :: l))] sel) as HP.
    { intros sel. cbn [selects dict_get]. by rewrite E. }
    pose proof (λ sel, named_turns turns v l sel Hnd) as Hnamed.
    revert HP. generalize (selects turns SELECTED_TURNS range) as P. intros P HP.
    unfold require_some, require, mbind, tx_bind, mret, tx_ret.
    destruct (mapM (known_turn turns) (v :: l)) as [ids|] eqn:Hm;
      [|split; [done|]; intros sel (? & ? & _)%HP%Hnamed; congruence].
    case_bool_decide as Hn;
      [|split; [done|]; intros sel (? & ? & ? & _)%HP%Hnamed; congruence].
    case_bool_decide as Hi; [split; [done|]; apply HP, Hnamed; eauto 10|].
    split; [done|]. intros sel (? & [= <-] & _ & -> & ?)%HP%Hnamed. done.
  - destruct (dict_get "count" range) as [[| |n| | | |]|] eqn:E;
      try (split; [done|]; cbn [selects]; intros sel (n & E' & _); congruence).
    unfold require. destruct (Z.ltb 0 n) eqn:Hn; cbn.
    + split; [done|]. rewrite E. exists n. split_and!; [done | lia | apply suffix_drop |].
      unfold last_turns. rewrite length_drop. lia.
    + split; [done|]. intros sel (n' & E' & Hpos & _). rewrite E in E'. simplify_eq. lia.
  - destruct (dict_get "through_turn" range) as [[| | | |k| |]|] eqn:E; cbn [selects]; rewrite E;
      try (split; [done|]; intros sel [[[?|?] _]|(? & ? & _)]; congruence);
      try (cbn; by auto).
    unfold require_some. destruct (through k turns) as [sel|] eqn:Ht; cbn.
    + split; [done|]. right. exists k. by apply through_prefix in Ht as (? & ? & _).
    + split; [done|]. intros sel [[[?|?] _]|(k' & [= <-] & Hp & Hl)]; try congruence.
      by rewrite (through_complete k turns sel) in Ht.
  - unfold require. destruct range; cbn; [done|]. split; [done|]. by intros sel [? _].
Qed.

(** ** Confirmation *)

Section confirmation.
Context `{Host, Kernel}.

Lemma fork_target_writable source p w u d e d' :
  fork_target source p w u d = Ok (e, d') → writable p w e d.
Proof.
  unfold fork_target. intros Hrun. reading_match Hrun. reading_match Hrun.
  by eapply writable_workspace_Ok.
Qed.

(** The steps of a confirmation that is not a replay. *)
Lemma confirm_fork_Ok auth t pid u c key now k d r d' :
  confirm_fork auth t pid u c key now k d = Ok (r, d') → d' ≠ d →
  ∃ actor p source e selected digest pin d1 d2 d3,
    u_id u = Some actor ∧ fork_preview_by_id pid d = Some p ∧ fp_source_task_id p = t ∧
    confirmation_matches c p (transcript_revision t d) now = true ∧
    task_by_id t d = Some source ∧
    writable (fp_target_project_id p) (fp_target_workspace_id p) e d ∧
    has_active_environment_execution_grant auth e actor = true ∧
    fork_selection (repo_list_turns t d) (fc_transfer_mode c) (fp_transfer_range p) d
      = Ok (selected, d) ∧
    let new := "task-" ++ fk_task_uuid k in
    let prompt := transfer_prompt (transfer_payload t (fc_source_revision c) (fc_transfer_mode c)
      (items_of_turns selected (list_task_items t d))) in
    create_active_snapshot_for_task (fp_target_project_id p) (fp_target_workspace_id p) new prompt
      actor (fk_successor k) (fk_snapshot_uuid k) (fk_snapshot_at k) d = Ok (pin, d1) ∧
    open_task (fork_task source p e prompt actor now k pin) actor key digest pin.1
      (fk_submission_id k) (fk_reserved_turn_id k) now d1 = Ok (tt, d2) ∧
    record_transfer t new actor key digest p c now k d2 = Ok (tt, d3) ∧
    ∃ result, store actor FORK_CONFIRM key digest result now d3 = Ok (tt, d').
Proof.
  intros Hrun Hnew. unfold confirm_fork in Hrun.
  reading Hrun; [by apply ret_Ok in Hrun as [_ ->]|].
  apply bind_Ok in Hrun as (new & s1 & Hop & Hrun).
  apply open_fork_Ok in Hop as (-> & pin & d1 & [] & Hpin & Hop).
  apply bind_Ok in Hrun as ([] & s2 & Hrec & Hrun).
  apply bind_Ok in Hrun as ([] & s3 & Hst & [-> ->]%ret_Ok).
  match goal with Hg : require_environment_execution_grant _ _ _ _ = Ok _, Ha' : actor_of _ _ = Ok _ |- _ =>
    unfold require_environment_execution_grant in Hg;
    apply bind_Ok in Hg as (? & ? & Ha2 & [Hg _]%require_Ok);
    apply actor_of_inv in Ha2 as (Hu & _ & _); apply actor_of_inv in Ha' as (Hu' & _ & _);
    rewrite Hu in Hu'; injection Hu' as -> end.
  match goal with Hl : fork_target _ _ _ _ _ = Ok _ |- _ => apply fork_target_writable in Hl end.
  split_bools. eexists _, _, _, _, _, _, pin, d1, s1, s2. split_and!; try done.
  cbv zeta. split_and!; [exact Hpin | exact Hop | exact Hrec | by eexists].
Qed.
Lemma reachable_turn_ids t d : domain_reachable d → NoDup (tn_turn_id <$> repo_list_turns t d).
Proof.
  intros Hd%domain_reachable_reachable%reachable_integrity. unfold repo_list_turns.
  rewrite order_by_perm. eapply sublist_NoDup, fmap_sublist, select_ids_sublist.
  pose proof (turns_pk _ (ok_turns _ Hd)) as Hu. unfold Unique in Hu. by rewrite select_always in Hu.
Qed.

(** The outcome of a confirmation that is not a replay, in terms of what it confirms. *)
Lemma confirmed_fork auth t pid u c key now k d r d' :
  domain_reachable d → confirm_fork auth t pid u c key now k d = Ok (r, d') → d' ≠ d →
  ∃ actor p source e selected digest w, u_id u = Some actor ∧
    fork_preview_by_id pid d = Some p ∧ fp_source_task_id p = t ∧
    confirmation_matches c p (transcript_revision t d) now = true ∧
    writable (fp_target_project_id p) (fp_target_workspace_id p) e d ∧
    has_active_environment_execution_grant auth e actor = true ∧
    task_by_id t d = Some source ∧ active_version_or_none (fp_target_project_id p) d = Some w ∧
    selects (repo_list_turns t d) (fc_transfer_mode c) (fp_transfer_range p) selected ∧
    let prompt := transfer_prompt (transfer_payload t (fc_source_revision c) (fc_transfer_mode c)
      (items_of_turns selected (list_task_items t d))) in
    let new := "task-" ++ fk_task_uuid k in
    let snapshot_id := "snapshot-" ++ fk_snapshot_uuid k in
    let pin := (snapshot_id, cv_context_version_id (vw_row w)) in
    tasks d' = (tasks d ++ [fork_task source p e prompt actor now k pin])%list ∧
    submissions d' = (submissions d ++ [mkSubmission (fk_submission_id k) new
      (fk_reserved_turn_id k) actor key digest Sub_QUEUED [("text", JStr prompt)] (Some snapshot_id)
      Source_TASK_PIN None None [] None now None None None None now])%list ∧
    fork_transfers d' = (fork_transfers d ++ [transferred t new actor key digest p c now k])%list ∧
    (∃ x, task_relationships d' = (task_relationships d ++ [x])%list ∧
       relationship_key x = (new, t, Rel_DERIVED_FROM)) ∧
    task_turns d' = task_turns d ∧ turn_items d' = turn_items d ∧
    fork_previews d' = fork_previews d.
Proof.
  intros Hd Hrun Hnew. destruct (domain_reachable_ok d Hd) as [Hok _].
  pose proof (domain_reachable_context d Hd) as Hs.
  apply confirm_fork_Ok in Hrun as (actor & p & source & e & sel & digest & pin & d1 & d2 & d3 &
    Hu & Hp & Hpt & Hc & Hsrc & Hl & Hg & Hsel & Hpin & Hop & Hrec & res & Hst); [|done].
  apply active_snapshot in Hpin as (w & a & Hw & -> & _ & Hsn); [|done..].
  pose proof Hop as Hop'. apply opened_task in Hop as (Et & _ & Esb & _ & _).
  apply record_transfer_Ok in Hrec as (-> & _). unfold store in Hst. statement_inv Hst.
  assert (task_turns d2 = task_turns d1 ∧ turn_items d2 = turn_items d1 ∧
    fork_previews d2 = fork_previews d1 ∧ fork_transfers d2 = fork_transfers d1 ∧
    task_relationships d2 = task_relationships d1) as (Etn & Eit & Epv & Etr & Erl).
  { unfold open_task, open_conversation in Hop'. tx_inv_all.
    by repeat match goal with H : ?m _ = Ok _ |- _ => statement_inv H end. }
  statement_inv Hsn. simpl in *.
  pose proof (fork_selection_spec (repo_list_turns t d) (fc_transfer_mode c) (fp_transfer_range p) d) as Hspec.
  rewrite Hsel in Hspec. destruct Hspec as [_ Hspec]; [by apply reachable_turn_ids|].
  eexists actor, p, source, e, sel, digest, w. split_and!; try done; try congruence.
  rewrite Erl. by eexists.
Qed.

(** C15: confirming a fork hands the selected part of the transcript to the other engine in one
    transaction: the preview is of this Task, unexpired, of the current transcript, and its
    truncation acknowledged; the target Workspace is active, linked to the active target Project,
    and its row names the active Environment in which the caller may execute; a new Task of the
    previewed engine and title is added in that Environment, owned by the caller and pinned to the
    active Context of its Project, and its only submission is queued with exactly the items of
    the selected Turns as its prompt; the receipt of the transfer and the relationship to the
    source name it; the transcripts are left alone. *)
Theorem confirming_a_fork_hands_over_the_selection auth t pid u c key now k d r d' :
  domain_reachable d → confirm_fork auth t pid u c key now k d = Ok (r, d') → d' ≠ d →
  ∃ actor p source e selected digest w, u_id u = Some actor ∧
    fork_preview_by_id pid d = Some p ∧ fp_source_task_id p = t ∧
    fp_source_revision p = transcript_revision t d ∧ (now ≤ fp_expires_at p)%Z ∧
    (fp_truncated p = true → fc_truncation_acknowledged c = true) ∧
    writable (fp_target_project_id p) (fp_target_workspace_id p) e d ∧
    has_active_environment_execution_grant auth e actor = true ∧
    task_by_id t d = Some source ∧ active_version_or_none (fp_target_project_id p) d = Some w ∧
    selects (repo_list_turns t d) (fp_transfer_mode p) (fp_transfer_range p) selected ∧
    let items := items_of_turns selected (list_task_items t d) in
    let prompt := transfer_prompt
      (transfer_payload t (fp_source_revision p) (fp_transfer_mode p) items) in
    let new := "task-" ++ fk_task_uuid k in
    let snapshot_id := "snapshot-" ++ fk_snapshot_uuid k in
    let pin := (snapshot_id, cv_context_version_id (vw_row w)) in
    tasks d' = (tasks d ++ [fork_task source p e prompt actor now k pin])%list ∧
    submissions d' = (submissions d ++ [mkSubmission (fk_submission_id k) new
      (fk_reserved_turn_id k) actor key digest Sub_QUEUED [("text", JStr prompt)] (Some snapshot_id)
      Source_TASK_PIN None None [] None now None None None None now])%list ∧
    fork_transfers d' = (fork_transfers d ++ [transferred t new actor key digest p c now k])%list ∧
    (∃ x, task_relationships d' = (task_relationships d ++ [x])%list ∧
       relationship_key x = (new, t, Rel_DERIVED_FROM)) ∧
    task_turns d' = task_turns d ∧ turn_items d' = turn_items d ∧
    fork_previews d' = fork_previews d.
Proof.
  intros Hd Hrun Hnew. destruct (confirmed_fork auth t pid u c key now k d r d' Hd Hrun Hnew)
    as (actor & p & source & e & sel & digest & w & Hu & Hp & Hpt & Hc & Hl & Hg & Hsrc & Hw & Hsel & H').
  unfold confirmation_matches in Hc. split_bools.
  assert (fp_source_revision p = transcript_revision t d ∧ fp_source_revision p = fc_source_revision c
    ∧ fp_transfer_mode p = fc_transfer_mode c) as (Hrev & Hrev' & Hmode) by (split_and!; congruence).
  rewrite <-Hmode, <-Hrev' in *.
  exists actor, p, source, e, sel, digest, w. split_and!; try done; try lia.
  intros Ht. by match goal with E : negb (fp_truncated p) || _ = true |- _ => rewrite Ht in E end.
Qed.
End confirmation.

(** The demo's owner confirms its preview. *)
Definition call42 : fork_call :=
  mkForkCall "x42" "u42" (mkSuccessor "v42" 42%Z "g42" 42%Z) "s42" 42%Z "sub42" "turn42" "rel42".

Lemma confirming_a_fork_hands_over_the_selection_witness :
  ∃ p e, fork_preview_by_id preview41 frk2 = Some p ∧
    fp_source_revision p = transcript_revision task4 frk2 ∧
    writable (fp_target_project_id p) (fp_target_workspace_id p) e frk2 ∧
    tk_environment_id <$> last (tasks frk3) = Some e.
Proof.
  assert (∃ r, confirm_fork grants task4 preview41 alice confirmation41 "k42" 42%Z call42 frk2
    = Ok (r, frk3)) as [r Hr] by (eexists; vm_compute; reflexivity).
  destruct (confirming_a_fork_hands_over_the_selection grants task4 preview41 alice confirmation41
    "k42" 42%Z call42 frk2 r frk3) as (ac & p & so & e & se & dg & w & _ & Hp & _ & Hrev & _ & _ & Hw &
    _ & _ & _ & _ & Ht & _).
  - apply frk2_reachable.
  - exact Hr.
  - intros E. apply (f_equal (λ d, length (idempotency d))) in E. vm_compute in E. discriminate.
  - exists p, e. split; [exact Hp|]. split; [exact Hrev|]. split; [exact Hw|].
    by rewrite Ht, last_snoc.
Defined.
