(* ===== verification/ForkGuarantees.v ===== *)
(** * Guarantees of forks

    Receipts in every reachable database, and that a confirmation transfers the
    transcript that was previewed. *)

From stdpp Require Import base tactics list strings relations.
From Stdlib Require Import ZArith Lia.
From S2P Require Import Prelude PyText PyJson PyTime Tables JsonLaws JsonParser Contracts.
From S2P Require Import RegistryRows Schema Repository Projection RegistryRepository Service.
From S2P Require Import EnvironmentIdentity Authorization Registry RegistryWorkspaces Acceptance.
From S2P Require Import Execution Evolution Methods Integrity System Scenario Assembler.
From S2P Require Import ContextRepository Context ContextCandidates ContextSnapshots TaskLifecycle.
From S2P Require Import ForkRepository Fork RegistryMethods ContextMethods RegistryFrame.
From S2P Require Import RegistryIntegrity RegistrySound ContextSound ContextSteps ForkSound.
From S2P Require Import RegistryScenario ContextScenario ContextOutcomes ForkOutcomes.

Local Open Scope string_scope.
#[local] Hint Constants Opaque : typeclass_instances.
#[local] Hint Transparent dict time relation : typeclass_instances.

(** ** Equal revisions, equal transcripts *)

Lemma sort_keys_option o : sort_keys (json_of_option o) = json_of_option o.
Proof. by destruct o. Qed.
Lemma sort_keys_time o : sort_keys (json_of_time o) = json_of_time o.
Proof. by destruct o. Qed.

Lemma turn_dict_flat t : map (λ kv, (kv.1, sort_keys kv.2)) (turn_dict t) = turn_dict t.
Proof. unfold turn_dict. cbn [map fst snd]. by rewrite !sort_keys_option, !sort_keys_time. Qed.
Lemma item_dict_flat i : map (λ kv, (kv.1, sort_keys kv.2)) (item_dict i) = item_dict i.
Proof. unfold item_dict. cbn [map fst snd]. by rewrite !sort_keys_option, !sort_keys_time. Qed.

Lemma turn_dict_keys t : NoDup (turn_dict t).*1.
Proof. apply (bool_decide_unpack (NoDup (turn_dict t).*1)). reflexivity. Qed.
Lemma item_dict_keys i : NoDup (item_dict i).*1.
Proof. apply (bool_decide_unpack (NoDup (item_dict i).*1)). reflexivity. Qed.

(** Objects with the same keys in the same order. *)
Lemma perm_same_keys (d1 d2 : dict) : NoDup d1.*1 → d1.*1 = d2.*1 → d1 ≡ₚ d2 → d1 = d2.
Proof.
  revert d2. induction d1 as [|[k v] d1 IH]; intros d2 Hnd Hk Hp.
  { by apply Permutation_nil in Hp. }
  destruct d2 as [|[k' v'] d2]; [done|]. csimpl in Hk. injection Hk as <- Hk.
  csimpl in Hnd. apply NoDup_cons in Hnd as [Hni Hnd].
  assert (v = v') as <-.
  { assert ((k, v) ∈ (k, v') :: d2) as Hin by (rewrite <-Hp; constructor).
    apply elem_of_cons in Hin as [[= ->]|Hin]; [done|].
    destruct Hni. rewrite Hk. exact (list_elem_of_fmap_2 fst _ _ Hin). }
  f_equal. apply IH; [done | done | by eapply Permutation_cons_inv].
Qed.

Lemma sorted_same_keys (d1 d2 : dict) :
  NoDup d1.*1 → d1.*1 = d2.*1 → sort_fields d1 = sort_fields d2 → d1 = d2.
Proof.
  intros Hnd Hk Hs. apply perm_same_keys; [done..|].
  by rewrite <-(sort_fields_perm d1), Hs, sort_fields_perm.
Qed.

Lemma objects_cons_inj (d1 d2 : dict) l1 l2 :
  JObj d1 :: l1 = JObj d2 :: l2 → d1 = d2 ∧ l1 = l2.
Proof. by intros [= -> ->]. Qed.

Lemma sorted_turns (l1 l2 : list turn_row) :
  map sort_keys (map (λ t, JObj (turn_dict t)) l1) = map sort_keys (map (λ t, JObj (turn_dict t)) l2) →
  map turn_dict l1 = map turn_dict l2.
Proof.
  revert l2. induction l1 as [|a l1 IH]; intros [|b l2]; try done. cbn [map sort_keys].
  rewrite !turn_dict_flat. intros [Hd Hl]%objects_cons_inj. f_equal; [|by apply IH].
  apply sorted_same_keys; [apply turn_dict_keys | done | exact Hd].
Qed.
Lemma sorted_items (l1 l2 : list item_row) :
  map sort_keys (map (λ t, JObj (item_dict t)) l1) = map sort_keys (map (λ t, JObj (item_dict t)) l2) →
  map item_dict l1 = map item_dict l2.
Proof.
  revert l2. induction l1 as [|a l1 IH]; intros [|b l2]; try done. cbn [map sort_keys].
  rewrite !item_dict_flat. intros [Hd Hl]%objects_cons_inj. f_equal; [|by apply IH].
  apply sorted_same_keys; [apply item_dict_keys | done | exact Hd].
Qed.

Lemma transcript_ok `{Floats} t d : json_ok (transcript t d).
Proof.
  unfold transcript. cbn [json_ok foldr fst snd]. split_and!; try done.
  - apply (bool_decide_unpack (NoDup _)). reflexivity.
  - induction (repo_list_turns t d) as [|x l IH]; [done|]. cbn [map foldr]. split; [|done].
    cbn [json_ok]. split; [apply turn_dict_keys|]. apply json_ok_fields. unfold turn_dict.
    repeat (apply Forall_cons; split; [simpl; unfold json_of_option, json_of_time; by repeat case_match|]).
    constructor.
  - induction (list_task_items t d) as [|x l IH]; [done|]. cbn [map foldr]. split; [|done].
    cbn [json_ok]. split; [apply item_dict_keys|]. apply json_ok_fields. unfold item_dict.
    repeat (apply Forall_cons; split; [simpl; unfold json_of_option, json_of_time; by repeat case_match|]).
    constructor.
Qed.

(** The columns of the rows that a revision is the digest of. *)
Definition transcript_rows (t : string) (d : db) : list dict * list dict :=
  (map turn_dict (repo_list_turns t d), map item_dict (list_task_items t d)).

Lemma transcript_text_inj t d1 d2 :
  canonical_json (transcript t d1) = canonical_json (transcript t d2) →
  transcript_rows t d1 = transcript_rows t d2.
Proof.
  pose (plain := {| float_repr r := r |} : Floats). intros E.
  apply (canonical_json_inj (H:=plain)) in E; [|apply transcript_ok..].
  assert (∀ t d, sort_keys (transcript t d) =
    JObj [("items", JList (map sort_keys (map (λ i, JObj (item_dict i)) (list_task_items t d))));
          ("turns", JList (map sort_keys (map (λ t, JObj (turn_dict t)) (repo_list_turns t d))))]) as Es
    by done.
  rewrite !Es in E. injection E as Hi Ht. unfold transcript_rows.
  f_equal; [by apply sorted_turns | by apply sorted_items].
Qed.

(** The same range selects the same Turns of transcripts with the same Turns. *)
Lemma through_ids k l1 l2 s1 s2 :
  tn_turn_id <$> l1 = tn_turn_id <$> l2 → through k l1 = Some s1 → through k l2 = Some s2 →
  tn_turn_id <$> s1 = tn_turn_id <$> s2.
Proof.
  revert l2 s1 s2. induction l1 as [|a l1 IH]; intros [|b l2] s1 s2 Hl; try done.
  csimpl in Hl. injection Hl as Hab Hl. cbn [through]. rewrite Hab.
  destruct (eqs (tn_turn_id b) k); [intros [= <-] [= <-]; csimpl; by rewrite Hab|].
  destruct (through k l1) as [x1|] eqn:E1; [|done]. destruct (through k l2) as [x2|] eqn:E2; [|done].
  intros [= <-] [= <-]. csimpl. rewrite Hab. f_equal. by eapply IH.
Qed.

Lemma suffix_ids (l1 l2 s1 s2 : list turn_row) :
  tn_turn_id <$> l1 = tn_turn_id <$> l2 → s1 `suffix_of` l1 → s2 `suffix_of` l2 →
  length s1 = length s2 → tn_turn_id <$> s1 = tn_turn_id <$> s2.
Proof.
  intros Hl [x1 ->] [x2 ->] Hlen. rewrite !fmap_app in Hl.
  apply app_inj_2 in Hl as [_ ?]; [done | by rewrite !length_fmap].
Qed.

Lemma selects_ids l1 l2 mode range s1 s2 :
  NoDup (tn_turn_id <$> l1) → tn_turn_id <$> l1 = tn_turn_id <$> l2 →
  selects l1 mode range s1 → selects l2 mode range s2 → tn_turn_id <$> s1 = tn_turn_id <$> s2.
Proof.
  intros Hnd Hl. pose proof Hnd as Hnd2. rewrite Hl in Hnd2. destruct mode; cbn [selects].
  - intros (i1 & E1 & _ & _ & H1) (i2 & E2 & _ & _ & H2). rewrite E1 in E2. injection E2 as E2.
    rewrite H1, H2. clear -E2. revert i2 E2. induction i1; intros [|]; simpl; naive_solver.
  - intros (n1 & E1 & _ & H1 & L1) (n2 & E2 & _ & H2 & L2). eapply suffix_ids; [exact Hl | done | done|].
    apply (f_equal length) in Hl. rewrite !length_fmap in Hl. rewrite E1 in E2. simplify_eq. lia.
  - intros [[[E1|E1] ->]|(k1 & E1 & P1 & K1)] [[[E2|E2] ->]|(k2 & E2 & P2 & K2)];
      try congruence. rewrite E1 in E2. injection E2 as <-.
    eapply through_ids; [exact Hl | by apply through_complete | by apply through_complete].
  - by intros [_ ->] [_ ->].
Qed.

(** What a revision determines. *)
Lemma rows_turn_ids t d1 d2 :
  transcript_rows t d1 = transcript_rows t d2 →
  tn_turn_id <$> repo_list_turns t d1 = tn_turn_id <$> repo_list_turns t d2.
Proof.
  intros [= Ht _]. revert Ht. generalize (repo_list_turns t d1) (repo_list_turns t d2).
  induction l as [|a l1 IH]; intros [|b l2]; try done. intros [= Hd Hl]. csimpl. f_equal; [done|].
  by apply IH.
Qed.

Lemma rows_item_turns t d1 d2 :
  transcript_rows t d1 = transcript_rows t d2 →
  it_turn_id <$> list_task_items t d1 = it_turn_id <$> list_task_items t d2.
Proof.
  intros [= _ Ht]. revert Ht. generalize (list_task_items t d1) (list_task_items t d2).
  induction l as [|a l1 IH]; intros [|b l2]; try done. intros [= Hd Hl]. csimpl. f_equal; [done|].
  by apply IH.
Qed.

Lemma items_of_turns_length s1 s2 i1 i2 :
  tn_turn_id <$> s1 = tn_turn_id <$> s2 → it_turn_id <$> i1 = it_turn_id <$> i2 →
  length (items_of_turns s1 i1) = length (items_of_turns s2 i2).
Proof.
  intros Hs. unfold items_of_turns, select. rewrite Hs. revert i2.
  induction i1 as [|a i1 IH]; intros [|b i2] Hi; try done. csimpl in Hi. injection Hi as Hab Hi.
  cbn [List.filter]. rewrite Hab. case_bool_decide; simpl; by rewrite (IH i2).
Qed.

Section previewed.
Context `{Host, Kernel}.

(** The receipt of a preview that is not a replay. *)
Lemma preview_fork_Ok t u q key now pid d r d' :
  domain_reachable d → preview_fork t u q key now pid d = Ok (r, d') → d' ≠ d →
  ∃ p selected, fork_previews d' = (fork_previews d ++ [p])%list ∧
    (fp_preview_id p, fp_source_task_id p, fp_source_revision p, fp_transfer_mode p,
     fp_transfer_range p)
    = (pid, t, transcript_revision t d, fq_transfer_mode q, fq_transfer_range q) ∧
    selects (repo_list_turns t d) (fq_transfer_mode q) (fq_transfer_range q) selected ∧
    fp_turn_count p = Z.of_nat (length selected) ∧
    fp_item_count p = Z.of_nat (length (items_of_turns selected (list_task_items t d))).
Proof.
  intros Hd Hrun Hnew. unfold preview_fork in Hrun.
  reading Hrun; [by apply ret_Ok in Hrun as [_ ->]|].
  apply bind_Ok in Hrun as (? & s1 & Hins & Hrun). apply bind_Ok in Hrun as (? & s2 & Hst & [_ ->]%ret_Ok).
  unfold store in Hst. statement_inv Hst. statement_inv Hins.
  match goal with Hsel : fork_selection _ _ _ _ = Ok (?x, _) |- _ =>
    pose proof (fork_selection_spec (repo_list_turns t d) (fq_transfer_mode q) (fq_transfer_range q) d
      (reachable_turn_ids t d Hd)) as Hspec; rewrite Hsel in Hspec; eexists _, x end.
  destruct Hspec as [_ Hspec]. by split_and!.
Qed.
(** C16: what a confirmed fork hands over is what its preview showed: whatever happened in
    between, the rows of the source transcript are the ones of the time of the preview, the new
    Task's only submission carries the selected items of it, and the numbers of Turns and items
    on the receipt are theirs, unless the digests of two different transcripts collide. *)
Theorem fork_transfers_what_was_previewed t u q key now pid d r d1 d2 auth u' c key' now' k r' d3 :
  domain_reachable d → preview_fork t u q key now pid d = Ok (r, d1) → d1 ≠ d →
  rtc domain_step d1 d2 →
  confirm_fork auth t pid u' c key' now' k d2 = Ok (r', d3) → d3 ≠ d2 →
  (transcript_revision t d = transcript_revision t d2 →
   canonical_json (transcript t d) = canonical_json (transcript t d2)) →
  transcript_rows t d2 = transcript_rows t d ∧
  ∃ p selected sub, p ∈ fork_previews d3 ∧ fp_preview_id p = pid ∧
    selects (repo_list_turns t d2) (fq_transfer_mode q) (fq_transfer_range q) selected ∧
    let items := items_of_turns selected (list_task_items t d2) in
    fp_turn_count p = Z.of_nat (length selected) ∧ fp_item_count p = Z.of_nat (length items) ∧
    submissions d3 = (submissions d2 ++ [sub])%list ∧
    sb_input sub = [("text", JStr (transfer_prompt (transfer_payload t (transcript_revision t d)
      (fq_transfer_mode q) items)))].
Proof.
  intros Hd Hprev Hnew1 Hsteps Hconf Hnew3 Hcoll.
  assert (domain_reachable d2) as Hd2.
  { eapply domain_reachable_steps; [exact Hd|]. eapply rtc_l; [|exact Hsteps].
    apply domain_context. by exists (PreviewFork t q), u, (Some key),
      (mkContextCall None now pid (mkSuccessor "" 0%Z "" 0%Z) "" 0%Z 0%Z 0%Z "" 0%Z "" 0%Z "" "" "" ""), r. }
  destruct (preview_fork_Ok t u q key now pid d r d1) as (p & s1 & Ep & [= Hid Hst Hrev Hmode Hrange]
    & Hs1 & Htc & Hic); [done..|].
  pose proof (domain_steps_forks _ _ Hsteps) as [_ [v Epv]%appends_prefix _ _].
  destruct (confirmed_fork auth t pid u' c key' now' k d2 r' d3)
    as (actor & p' & src & e & s2 & dg & w & _ & Hp' & _ & Hc' & _ & _ & _ & _ & Hs2 & _ & Hsub
        & _ & _ & _ & _ & Epv3); [done..|].
  unfold confirmation_matches in Hc'. split_bools.
  assert (p ∈ fork_previews d2) as Hin.
  { rewrite Epv, Ep. apply elem_of_app. left. apply elem_of_app. right. constructor. }
  assert (p' = p) as ->.
  { apply select_one_Some in Hp' as [Hp' Hk]. split_bools.
    apply (unique_eq always fp_preview_id _ _ _ (fo_previews _ (domain_reachable_forks _ Hd2)));
      done || congruence. }
  assert (transcript_rows t d2 = transcript_rows t d) as Hrows.
  { symmetry. apply transcript_text_inj, Hcoll. congruence. }
  assert (fc_transfer_mode c = fq_transfer_mode q ∧ fc_source_revision c = transcript_revision t d)
    as [Hmode' Hrev'] by (split; congruence).
  rewrite Hmode', Hrange in Hs2.
  assert (tn_turn_id <$> s1 = tn_turn_id <$> s2) as Hids.
  { eapply (selects_ids (repo_list_turns t d) (repo_list_turns t d2));
      [by apply reachable_turn_ids | by apply rows_turn_ids | exact Hs1 | exact Hs2]. }
  split; [done|]. eexists p, s2, _. split_and!; [by rewrite Epv3 | done | done |].
  cbv zeta. split_and!; [| |exact Hsub|].
  - rewrite Htc. apply (f_equal length) in Hids. rewrite !length_fmap in Hids. by rewrite Hids.
  - rewrite Hic. f_equal. by apply items_of_turns_length, rows_item_turns.
  - simpl. by rewrite Hrev', Hmode'.
Qed.

(** C17: in every reachable database every preview, confirmed or not, offers its conversation to
    an engine of the other family, and every transfer is complete: it confirms, in time, exactly one preview, which no
    other transfer does, and the Task that it names belongs to the caller who confirmed it and
    runs in the previewed Workspace on an engine of the previewed family, which is not the one
    that the conversation was forked from.  Receipts are never changed or removed. *)
Theorem fork_receipts_are_settled d d' :
  domain_reachable d → rtc domain_step d d' →
  (∀ t, t ∈ fork_transfers d → t ∈ fork_transfers d') ∧
  (∀ p, p ∈ fork_previews d → p ∈ fork_previews d') ∧
  (∀ p, p ∈ fork_previews d' →
    engine_family_by_harness (fp_target_harness_engine p) = Some (fp_target_engine_family p) ∧
    fp_target_engine_family p ≠ fp_source_engine_family p) ∧
  ∀ t, t ∈ fork_transfers d' →
    ft_status t = Fork_TRANSFERRED ∧
    (∀ t', t' ∈ fork_transfers d' → ft_preview_id t' = ft_preview_id t → t' = t) ∧
    ∃ p k family, p ∈ fork_previews d' ∧ k ∈ tasks d' ∧ fork_confirms t p = true ∧
      fork_confirmed_in_time t p = true ∧ ft_target_task_id t = Some (tk_task_id k) ∧
      tk_owner_user_id k = ft_actor_user_id t ∧ tk_workspace_id k = fp_target_workspace_id p ∧
      engine_family_by_harness (tk_harness_engine k) = Some family ∧
      family = fp_target_engine_family p ∧ family ≠ fp_source_engine_family p.
Proof.
  intros Hd Hs. pose proof (domain_steps_forks _ _ Hs) as [_ Hp Ht _].
  pose proof (domain_reachable_forks d' (domain_reachable_steps _ _ Hd Hs)) as Hf.
  apply appends_prefix in Hp as [vp Hp], Ht as [vt Ht]. split_and!.
  - intros t Hin. rewrite Ht. apply elem_of_app. by left.
  - intros p Hin. rewrite Hp. apply elem_of_app. by left.
  - intros p Hin. destruct (fo_preview _ Hf p Hin) as [Hcheck He]. split; [done|].
    unfold fork_preview_check in Hcheck. split_bools. congruence.
  - intros t Hin. destruct (fo_transfer _ Hf t Hin) as [Hst (p & k & Hpin & Hk & Hc & Hi & Hof)].
    destruct (fo_preview _ Hf p Hpin) as [Hcheck He]. unfold fork_target_of in Hof. simplify_eq.
    unfold fork_preview_check in Hcheck. split_bools. split_and!; [done| |].
    + intros t' Hin' Hid. by apply (unique_eq always ft_preview_id _ _ _ (fo_once _ Hf)).
    + exists p, k, (fp_target_engine_family p). split_and!; try done; congruence.
Qed.
End previewed.

(** The preview and the confirmation of the demo. *)
Lemma fork_transfers_what_was_previewed_witness :
  transcript_rows task4 frk2 = transcript_rows task4 frk1.
Proof.
  eapply (fork_transfers_what_was_previewed task4 alice fork_to_claude "k41" 41%Z "u41" frk1 _ frk2
    frk2 grants alice confirmation41 "k42" 42%Z call42 _ frk3).
  - apply frk1_reachable.
  - vm_compute. reflexivity.
  - intros E. apply (f_equal (λ d, length (idempotency d))) in E. vm_compute in E. discriminate.
  - constructor.
  - vm_compute. reflexivity.
  - intros E. apply (f_equal (λ d, length (idempotency d))) in E. vm_compute in E. discriminate.
  - intros _. vm_compute. reflexivity.
Defined.

Lemma fork_receipts_are_settled_witness :
  (∃ p, p ∈ fork_previews frk3 ∧ fp_target_engine_family p ≠ fp_source_engine_family p) ∧
  ∃ t, t ∈ fork_transfers frk3 ∧ ft_target_task_id t = Some task42 ∧ ft_status t = Fork_TRANSFERRED.
Proof.
  destruct (fork_receipts_are_settled frk2 frk3) as (_ & _ & Hp & Ht).
  - apply frk2_reachable.
  - apply rtc_once, frk_step3.
  - split.
    + destruct (fork_previews frk3) as [|p l] eqn:E; [by vm_compute in E|].
      exists p. split; [constructor | apply Hp; constructor].
    + destruct (fork_transfers frk3) as [|t l] eqn:E; [by vm_compute in E|].
      exists t. split_and!; [constructor| |apply Ht; constructor].
      vm_compute in E. by injection E as <- _.
Defined.

(** ** What is refused *)

(** A message of either party to the conversation. *)
Definition spoken (i : item_row) : bool :=
  bool_decide (it_item_type i = Item_USER_MESSAGE) || bool_decide (it_item_type i = Item_AGENT_MESSAGE).

Lemma spoken_messages items :
  (∃ i, i ∈ items ∧ it_item_type i = Item_AGENT_MESSAGE) →
  (length (select is_message items) < length (select spoken items))%nat.
Proof.
  assert (∀ l, length (select is_message l) ≤ length (select spoken l))%nat as Hle.
  { induction l as [|a l IH]; [done|]. unfold select, is_message, spoken in *. cbn [List.filter].
    destruct (it_item_type a); simpl; lia. }
  intros (i & Hi & Ht). induction items as [|a l IH]; [by apply not_elem_of_nil in Hi|].
  specialize (Hle l). unfold select, is_message, spoken in *. cbn [List.filter].
  apply elem_of_cons in Hi as [<-|Hi]; [rewrite Ht; simpl; lia|].
  specialize (IH Hi). destruct (it_item_type a); simpl; lia.
Qed.

Section refused.
Context `{Host, Kernel}.

Lemma replay_unused actor scope key q d x :
  replay actor scope key q d = Ok (x, d) → idempotency_record actor scope key d = None →
  x.2 = None.
Proof. unfold replay. intros Hrun E. reading Hrun; congruence || by apply ret_Ok in Hrun as [-> _]. Qed.

(** C32: the number of messages on a preview leaves out what the agent said: a caller who states
    the number of messages of both parties in the selected part of a conversation in which the
    agent answered is refused. *)
Theorem agent_messages_are_not_counted t u q key now pid d selected :
  (∀ actor, u_id u = Some actor → idempotency_record actor FORK_PREVIEW key d = None) →
  fork_selection (repo_list_turns t d) (fq_transfer_mode q) (fq_transfer_range q) d
    = Ok (selected, d) →
  let items := items_of_turns selected (list_task_items t d) in
  (∃ i, i ∈ items ∧ it_item_type i = Item_AGENT_MESSAGE) →
  dict_get "message_count" (fq_metrics q) = Some (JInt (Z.of_nat (length (select spoken items)))) →
  ∀ r d', preview_fork t u q key now pid d ≠ Ok (r, d').
Proof.
  intros Hkey Hsel items Hi Hm r d' Hrun. apply spoken_messages in Hi. unfold preview_fork in Hrun.
  reading Hrun;
    (match goal with Hr : replay _ _ _ _ _ = Ok _, Ha : actor_of _ _ = Ok _ |- _ =>
       apply actor_of_inv in Ha as (Hu & _ & _); apply replay_unused in Hr; [|by apply Hkey] end);
    [congruence|].
  match goal with Hs : fork_selection _ _ _ _ = Ok (?x, _) |- _ =>
    rewrite Hsel in Hs; injection Hs as <- end.
  match goal with Hc : check_metrics _ _ _ = Ok _ |- _ => revert Hc end.
  unfold check_metrics, canonical_metrics. cbn [for_each fst snd]. intros Hc.
  apply bind_Ok in Hc as (? & ? & Hc & _). rewrite Hm in Hc. unfold metric_int in Hc. rewrite Hm in Hc.
  apply bind_Ok in Hc as (n & s & Hn & [Hc _]%require_Ok).
  apply bind_Ok in Hn as (? & ? & _ & [-> _]%ret_Ok). fold items in Hc. split_bools. lia.
Qed.

(** A preview is transferred at most once: any later confirmation of it that succeeds only
    repeats the recorded answer of an earlier one and writes nothing. *)
Theorem fork_is_confirmed_once auth task pid u c key now k d r d' :
  row_exists (λ t, eqs (ft_preview_id t) pid) (fork_transfers d) = true →
  confirm_fork auth task pid u c key now k d = Ok (r, d') → d' = d.
Proof.
  intros Ht Hrun. unfold confirm_fork in Hrun. reading Hrun; [by apply ret_Ok in Hrun as [_ ->]|].
  exfalso. apply bind_Ok in Hrun as (new & s1 & Hop & Hrun).
  pose proof (respects (R:=forks) _ _ _ Hop) as [_ _ [v Ev]%appends_prefix _].
  apply bind_Ok in Hrun as (? & s2 & (_ & _ & _ & _ & Hfree)%record_transfer_Ok & _).
  apply row_exists_true in Ht as (t & Hin & Hid). split_bools.
  apply (index_free_always _ _ _ t) in Hfree; [|rewrite Ev; apply elem_of_app; by left].
  destruct Hfree. simpl. match goal with Hp : fork_preview_by_id _ _ = Some _ |- _ =>
    apply select_one_Some in Hp as [_ Hp] end. split_bools. congruence.
Qed.
End refused.

(** The demo's preview states both messages of its Turn. *)
Definition counted_fork : fork_request :=
  mkForkRequest "claude" None None None None FULL_TRANSCRIPT [] [("message_count", JInt 2)] [] 900.
Lemma agent_messages_are_not_counted_witness :
  ¬ ∃ r d', preview_fork task4 alice counted_fork "k43" 43%Z "u43" frk1 = Ok (r, d').
Proof.
  intros (r & d' & Hrun). revert Hrun.
  eapply (agent_messages_are_not_counted task4 alice counted_fork "k43" 43%Z "u43" frk1);
    [by intros actor [= <-] | vm_compute; reflexivity | | vm_compute; reflexivity].
  eexists. split; [vm_compute; right; left | reflexivity].
Defined.

(** A second confirmation under a new key: the unique index of the receipts stops it, where
    every other stale confirmation is answered with [FORK_CONFIRMATION_REQUIRED]. *)
Example second_confirmation_fails :
  confirm_fork grants task4 preview41 alice confirmation41 "k44" 44%Z
    (mkForkCall "x44" "u44" (mkSuccessor "v44" 44%Z "g44" 44%Z) "s44" 44%Z "sub44" "turn44" "rel44")
    frk3 = Err (IntegrityError "fork_transfer_receipts_preview").
Proof. vm_compute. reflexivity. Qed.

Lemma fork_is_confirmed_once_witness :
  match confirm_fork grants task4 preview41 alice confirmation41 "k42" 44%Z call42 frk3 with
  | Ok (_, d') => d' = frk3
  | Err _ => False
  end.
Proof.
  destruct (confirm_fork _ _ _ _ _ _ _ _ _) as [[r d']|e] eqn:Hrun; [|by vm_compute in Hrun].
  eapply fork_is_confirmed_once; [|exact Hrun]. vm_compute. reflexivity.
Defined.
