(* ===== verification/WorkerLaws.v ===== *)
(** * What a dispatch does

    A dispatcher among other processes takes only steps of the domain, starts no submission
    twice, records what the engine reports in the order of the events, and settles what it
    started. *)

From stdpp Require Import base tactics list strings relations.
From Stdlib Require Import ZArith Lia.
From S2P Require Import Prelude PyText Tables Contracts RegistryRows Schema Repository Service.
From S2P Require Import Acceptance Execution Evolution Methods Integrity System Deliveries.
From S2P Require Import Acceptances Completions Running RegistryRepository EnvironmentIdentity.
From S2P Require Import ContextRepository TaskLifecycle Fork RegistryFrame RegistrySound Worker.
From S2P Require Import Scenario RegistryScenario ContextScenario.

Local Open Scope string_scope.
#[local] Hint Constants Opaque : typeclass_instances.
#[local] Hint Transparent dict time relation : typeclass_instances.

(** ** A dispatch among other processes *)

(** The submission has left the queue for an engine. *)
Definition handed_over (s : TurnSubmissionStatus) : bool :=
  match s with Sub_QUEUED | Sub_CLAIMED => false | _ => true end.

Definition started (d : db) (claim : SubmissionClaim) : Prop :=
  ∃ s, s ∈ submissions d ∧ sb_submission_id s = sc_submission_id claim ∧
    handed_over (sb_status s) = true.

(** What holds while the engine runs. *)
Definition dispatch_ok (w : dispatch) (d : db) : Prop :=
  started d (ds_claim w) ∧ ∀ x, ds_execution w = Some x → genuine d x.
Definition worker_ok (p : worker * db) : Prop :=
  match p.1 with
  | Worker_RUNNING w | Worker_ENDED w => dispatch_ok w p.2
  | _ => True
  end.

Lemma handed_over_steps s s' : rtc submission_step s s' → handed_over s = true → handed_over s' = true.
Proof.
  induction 1 as [|s1 s2 s3 Hs _ IH]; [done|]. intros Ho. apply IH. unfold submission_step in Hs.
  destruct s1; try done; simpl in Hs; repeat (apply elem_of_cons in Hs as [->|Hs]; [done|]);
    by apply not_elem_of_nil in Hs.
Qed.

Lemma started_evolves d d' claim : db_evolves d d' → started d claim → started d' claim.
Proof.
  intros Hev (s & Hs & Hid & Ho).
  destruct (evolves_elem _ _ _ _ (ev_submissions _ _ Hev) Hs) as (s' & Hs' & Hi & Hst & _).
  exists s'. unfold submission_identity in Hi. split_and!; [done | congruence|].
  by eapply handed_over_steps.
Qed.

Lemma genuine_evolves d d' x : db_evolves d d' → genuine d x → genuine d' x.
Proof.
  intros Hev (e & He & Hn). destruct (evolves_elem _ _ _ _ (ev_executions _ _ Hev) He) as (e' & He' & Hi & _).
  exists e'. split; [done|]. unfold names, execution_identity in *.
  destruct Hn as (? & ? & ? & ?). split_and!; congruence.
Qed.

Section worker.
Context `{Host, Kernel}.

Lemma domain_steps_evolve d d' : rtc domain_step d d' → db_evolves d d'.
Proof. intros Hs%domain_steps_steps. by apply (steps_spec db_evolves). Qed.

Lemma dispatch_ok_steps w d d' : rtc domain_step d d' → dispatch_ok w d → dispatch_ok w d'.
Proof.
  intros Hev%domain_steps_evolve [Hs Hx]. split; [by eapply started_evolves|].
  intros x Hw. by eapply genuine_evolves, Hx.
Qed.

Lemma worker_ok_steps w d d' : rtc domain_step d d' → worker_ok (w, d) → worker_ok (w, d').
Proof. intros Hs. destruct w; simpl; try done; by apply dispatch_ok_steps. Qed.

Lemma accepted_genuine snapshot claim ef ed ck cr tk tr rk rr ev c bu iu d x d' :
  accept_and_open_execution snapshot claim ef ed ck cr tk tr rk rr ev c bu iu d = Ok (x, d') →
  genuine d' x.
Proof.
  intros (s & i & id & d0 & d1 & bi & _ & _ & _ & Hp & _ & _)%accept_and_open_execution_inv.
  apply persist_runtime_opens in Hp as [(e & He & Hn & _) _]. by exists e.
Qed.

(** A transaction of the worker is a step of the domain. *)
Lemma once d d' : conversation_step d d' → rtc domain_step d d'.
Proof. intros Hs. by apply rtc_once, domain_conversation. Qed.

Lemma received snapshot i e now bu iu w d :
  dispatch_ok w snapshot → rtc domain_step snapshot d →
  let r := receive snapshot i e now bu iu w d in rtc domain_step snapshot r.2 ∧ dispatch_ok r.1 r.2.
Proof.
  intros Hw Hs. pose proof (dispatch_ok_steps w _ _ Hs Hw) as Hd. unfold receive.
  destruct (ds_execution w) eqn:Ex; [by split; [|destruct Hd]|].
  destruct i as [i|]; [|by split; [|destruct Hd]].
  destruct (accept_and_open_execution _ _ _ _ _ _ _ _ _ _ _ _ _ _ d) as [[x d']|e'] eqn:Ha.
  - pose proof (step_accept _ _ _ _ _ _ _ _ _ _ _ _ _ _ _ _ _ (domain_steps_evolve _ _ Hs) Ha) as Hst.
    apply once in Hst. simpl. split; [by etrans|]. split.
    + eapply (dispatch_ok_steps w _ _ Hst Hd).
    + intros y [= <-]. by eapply accepted_genuine.
  - destruct Hd as [Hst Hx]. by destruct e' as [| | | |[]| | | | | | | |].
Qed.

Lemma emit_event_Ok x e now iid d u d' :
  emit_event x e now iid d = Ok (u, d') → persist_event x e now iid d = Ok (u, d').
Proof. by intros (? & ? & [_ ->]%require_Ok & Hrun)%bind_Ok. Qed.

Lemma noted e w : ds_claim (note_status e w) = ds_claim w ∧ ds_execution (note_status e w) = ds_execution w.
Proof. unfold note_status. by repeat case_match. Qed.

Lemma persisted now iid w d :
  dispatch_ok w d → let r := persist_next now iid w d in rtc domain_step d r.2 ∧ dispatch_ok r.1 r.2.
Proof.
  intros Hd. unfold persist_next. destruct (ds_events_to_persist w) as [|e l]; [done|].
  destruct (ds_execution w) as [x|] eqn:Ex; [|done].
  destruct (noted e w) as [Hc Hx].
  assert (∀ d1 a b, rtc domain_step d d1 → dispatch_ok (with_events a b (note_status e w)) d1) as Hok.
  { intros d1 a b Hs. destruct (dispatch_ok_steps w _ _ Hs Hd) as [Hst Hg].
    split; simpl; [by rewrite Hc | by rewrite Hx]. }
  destruct (emit_event x e now iid d) as [[[] d']|e'] eqn:Hp; simpl; [|by split; [|apply Hok]].
  apply emit_event_Ok in Hp.
  assert (rtc domain_step d d') as Hs; [|by split; [|apply Hok]].
  unfold persist_event in Hp. destruct (event_item _) as [[ty ac]|]; [|by apply ret_Ok in Hp as [_ ->]].
  apply bind_Ok in Hp as (? & ? & Hp & [_ ->]%ret_Ok).
  eapply once, step_append_item; [|exact Hp]. by apply Hd.
Qed.

Lemma on_conflict_Ok {A} (a : A) m d r d' :
  on_conflict a m d = Ok (r, d') → (r, d') = (a, d) ∨ m d = Ok (r, d').
Proof.
  unfold on_conflict. destruct (m d) as [|[]]; intros [= <- <-] || intros ?; auto; done.
Qed.

Lemma started_control c claim_id now d f d' :
  start_control c claim_id now d = Ok (f, d') → rtc domain_step d d'.
Proof.
  intros Hrun. unfold start_control in Hrun.
  repeat case_match; apply on_conflict_Ok in Hrun as [[= _ ->]|Hrun]; try done;
    apply bind_Ok in Hrun as (? & ? & Hrun & [_ ->]%ret_Ok);
    first [by eapply once, step_transition_control | by eapply once, step_claim_interrupt].
Qed.

Lemma ended_control f o now d u d' : end_control f o now d = Ok (u, d') → rtc domain_step d d'.
Proof.
  intros Hrun. unfold end_control in Hrun.
  destruct o; apply on_conflict_Ok in Hrun as [[= _ ->]|Hrun]; try done;
    by eapply once, step_transition_control.
Qed.

Lemma settled w now d : dispatch_ok w d → rtc domain_step d (settle w now d).2.
Proof.
  intros [_ Hx]. unfold settle. destruct (ds_execution w) as [x|].
  - destruct (finish_execution _ _ _ _ _ d) as [[r d']|] eqn:Hf; [|done].
    eapply once, step_finish_execution; [by apply Hx | exact Hf].
  - destruct (mark_delivery_unknown _ _ _ _ d) as [[r d']|e] eqn:Hm; [|by destruct e].
    by eapply once, step_mark_delivery_unknown.
Qed.

Lemma delivered_started claim cap now d u d' :
  begin_delivery (sc_submission_id claim) cap now d = Ok (u, d') → started d' claim.
Proof.
  intros (? & ? & ? & _ & _ & _ & _ & _ & _ & Htr)%begin_delivery_inv.
  apply transition_submission_hit in Htr as (s & _ & Hid & _ & Hs1). eexists. by split_and!.
Qed.

Lemma worker_step_ok p p' : worker_step p p' → worker_ok p → rtc domain_step p.2 p'.2 ∧ worker_ok p'.
Proof.
  intros Hs Hp. destruct Hs; simpl in *;
    try (assert (rtc domain_step d d') as Hd by
           first [ by apply rtc_once | by eapply once, step_recover_controls
                 | by eapply once, step_claim_next_submission | by eapply once, step_begin_delivery
                 | by eapply started_control | by eapply ended_control ]).
  - split; [done | by eapply (worker_ok_steps w)].
  - done.
  - split; [done | by destruct r].
  - done.
  - done.
  - done.
  - done.
  - done.
  - split; [done|]. split; [by eapply delivered_started | done].
  - by destruct (delivery_refused e).
  - match goal with Ha : engine_alive _ |- _ => destruct Ha as [->| ->] end; by apply received.
  - match goal with Ha : engine_alive _ |- _ => destruct Ha as [->| ->] end; by apply persisted.
  - done.
  - split; [done|]. exact (dispatch_ok_steps w d d' Hd Hp).
  - split; [done|]. pose proof (dispatch_ok_steps w d d' Hd Hp). by destruct o.
  - done.
  - by destruct o.
  - split; [by apply settled|]. destruct (settle w now d).1; [done|]. by destruct cancelled_by_caller.
Qed.

Lemma worker_steps_ok p p' :
  rtc worker_step p p' → worker_ok p → rtc domain_step p.2 p'.2 ∧ worker_ok p'.
Proof.
  induction 1 as [|p1 p2 p3 Hs _ IH]; [done|]. intros Hp.
  destruct (worker_step_ok _ _ Hs Hp) as [H1 H2]. destruct (IH H2). split; [by etrans | done].
Qed.

(** C5: a dispatcher that runs among other processes takes only steps of the domain, whatever
    its engine reports and however it ends, so that everything that is shown of the domain
    holds with any number of dispatchers; and the execution that it appends to and finishes
    is one that it opened. *)
Theorem dispatchers_refine_the_domain d w d' :
  domain_reachable d → rtc worker_step (Worker_IDLE, d) (w, d') →
  rtc domain_step d d' ∧ domain_reachable d' ∧
  ∀ run x, w = Worker_RUNNING run ∨ w = Worker_ENDED run → ds_execution run = Some x →
    genuine d' x.
Proof.
  intros Hd Hs. destruct (worker_steps_ok _ _ Hs I) as [Hd' Hw]. simpl in *.
  split_and!; [done | by eapply domain_reachable_steps |].
  intros run x [-> | ->] Hx; by apply Hw.
Qed.

(** C6: no submission is given to an engine twice: while an engine runs for a dispatcher, and
    ever after, no dispatcher can begin the delivery of its submission. *)
Theorem a_running_submission_is_not_started_again d w d1 d2 capacity now :
  domain_reachable d → rtc worker_step (Worker_IDLE, d) (Worker_RUNNING w, d1) →
  rtc domain_step d1 d2 →
  ∃ e, begin_delivery (sc_submission_id (ds_claim w)) capacity now d2 = Err e.
Proof.
  intros Hd Hs Hs2. destruct (worker_steps_ok _ _ Hs I) as [Hd1 [(s & Hin & Hid & Ho) _]].
  assert (integrity d1) as Hok1 by (eapply reachable_integrity, domain_reachable_reachable,
    domain_reachable_steps; [exact Hd | exact Hd1]).
  destruct (begin_delivery _ capacity now d2) as [[u d3]|e] eqn:Hb; [exfalso | by exists e].
  apply begin_delivery_inv in Hb as (? & ? & ? & _ & _ & _ & _ & _ & _ & Htr).
  apply transition_submission_hit in Htr as (y & Hy & Hyid & Hyst & _).
  destruct (submission_later _ _ _ Hok1 (domain_steps_steps _ _ Hs2) Hin) as (s2 & _ & (_ & Hst & _) & Hu).
  apply handed_over_steps in Hst; [|done]. rewrite <-(Hu y) in Hst by congruence. by rewrite Hyst in Hst.
Qed.

(** ** The end of a dispatch *)

(** The schema accepts that a delivery stays unknown. *)
Lemma unknown_runs sid ev f c d :
  integrity d → nonblank_opt (Some f) = true → json_valid ev = true →
  ∃ d', transition_submission sid Sub_DELIVERING Sub_DELIVERY_UNKNOWN c None None None None None
          None ev (Some f) d
        = Ok (Z.of_nat (length (select (λ s, eqs (sb_submission_id s) sid
            && bool_decide (sb_status s = Sub_DELIVERING)) (submissions d))), d').
Proof.
  intros Hok Hf Hev. unfold transition_submission. eexists. apply update_rows_runs.
  intros s Hs Hp. split_bools. pose proof (submission_checked _ _ Hok Hs) as Hc.
  assert (sb_status s = Sub_DELIVERING) as Hst by done.
  apply violation_None. repeat constructor; simpl; rewrite ?Hst; try done.
  - unfold submission_check in *. simpl. rewrite Hst in Hc. split_bools.
    repeat (apply andb_true_iff; split); auto; try by apply negb_true_iff. by destruct ev.
  - match goal with |- index_free _ _ ?s' _ = true => by apply (native_index_kept d s s') end.
Qed.

Lemma no_longer_delivering sid ev f c d n d' s :
  transition_submission sid Sub_DELIVERING Sub_DELIVERY_UNKNOWN c None None None None None None ev
    (Some f) d = Ok (n, d') →
  s ∈ submissions d' → sb_submission_id s = sid → sb_status s ≠ Sub_DELIVERING.
Proof.
  intros (-> & _ & _)%update_rows_inv. intros (y & Hy & ->)%elem_of_on_rows Hid.
  destruct (_ && _) eqn:Hp; [done|]. intros Hst. by rewrite Hid, eqs_refl, bool_decide_eq_true_2 in Hp.
Qed.

Lemma unaccepted_settles w now d :
  integrity d → maintenance_is_active d = Some false → started d (ds_claim w) →
  ds_execution w = None →
  ∃ d', settle w now d = (None, d') ∧
    ∀ s, s ∈ submissions d' → sb_submission_id s = sc_submission_id (ds_claim w) →
      sb_status s ≠ Sub_DELIVERING.
Proof.
  intros Hok Hm (s & Hs & Hid & _) Hx. unfold settle. rewrite Hx.
  set (sid := sc_submission_id (ds_claim w)) in *.
  assert (∀ y, y ∈ submissions d → sb_submission_id y = sid → y = s) as Hu.
  { intros y Hy Hyid. eapply unique_eq;
      [apply (submissions_pk _ (ok_submissions _ Hok)) | done..| congruence]. }
  assert (submission_by_id sid d = Some s) as Hby.
  { apply select_one_the; [done | by rewrite Hid, eqs_refl |].
    intros y Hy Hp. split_bools. by apply Hu. }
  unfold mark_delivery_unknown, mbind, tx_bind. rewrite (begin_write_open _ Hm). simpl.
  unfold gets, require_some. rewrite Hby. simpl.
  destruct (bool_decide (sb_status s = Sub_DELIVERY_UNKNOWN)) eqn:Hst.
  - exists d. split; [done|]. intros y Hy Hyid. rewrite (Hu y) by done. split_bools. congruence.
  - edestruct (unknown_runs sid
      [("source", JStr "runtime_adapter"); ("reason", JStr (unproven_reason w));
       ("replay_forbidden", JBool true)]) as (d' & Hrun); [exact Hok| |reflexivity|].
    2:{ rewrite Hrun. unfold require. destruct (Z.eqb _ 1) eqn:Hn; simpl.
        - exists d'. split; [done|]. intros y Hy Hyid. by eapply no_longer_delivering.
        - exists d. split; [done|]. intros y Hy Hyid Hd. apply Z.eqb_neq in Hn. apply Hn.
          rewrite <-Hyid, (matching_once d y); done. }
    unfold unproven_reason. by destruct (ds_cancellation_during_acceptance w).
Qed.

(** A paused service refuses to settle. *)
Lemma paused_settles_nothing w now d :
  maintenance_is_active d ≠ Some false → ds_execution w = None →
  settle w now d = (Some MaintenanceModeError, d).
Proof.
  intros Hm Hx. unfold settle. rewrite Hx. unfold mark_delivery_unknown, begin_write, mbind, tx_bind.
  unfold gets. cbn [mbind]. by destruct (maintenance_is_active d) as [[]|].
Qed.

(** C24: a dispatch settles what it started.  A run that ends before the engine accepted leaves
    its submission settled, not in delivery, unless writes are paused: then nothing changes and
    the dispatcher stops with the error.  A run whose completion is recorded leaves its Turn
    with the status that the run ended with, and none of its control requests pending. *)
Theorem a_dispatch_is_settled d w d1 now :
  domain_reachable d → rtc worker_step (Worker_IDLE, d) (Worker_ENDED w, d1) →
  match ds_execution w with
  | None =>
      (maintenance_is_active d1 = Some false →
       ∃ d', settle w now d1 = (None, d') ∧
        ∀ s, s ∈ submissions d' → sb_submission_id s = sc_submission_id (ds_claim w) →
          sb_status s ≠ Sub_DELIVERING) ∧
      (maintenance_is_active d1 ≠ Some false → settle w now d1 = (Some MaintenanceModeError, d1))
  | Some x =>
      ∀ d', settle w now d1 = (None, d') →
        (∃ t, t ∈ task_turns d' ∧ tn_turn_id t = xc_turn_id x ∧ tn_status t ≠ Turn_IN_PROGRESS ∧
           tn_status t = default Turn_COMPLETED (ds_terminal_status w)) ∧
        ∀ y, y ∈ controls d' → ct_runtime_execution_id y = xc_runtime_execution_id x →
          ctl_pending y = false
  end.
Proof.
  intros Hd Hs. destruct (worker_steps_ok _ _ Hs I) as [Hd1 [Hst Hx]]. simpl in *.
  assert (reachable d1) as Hr.
  { eapply domain_reachable_reachable, domain_reachable_steps; [exact Hd | exact Hd1]. }
  destruct (ds_execution w) as [x|] eqn:Ex.
  - intros d' Hset. unfold settle in Hset. rewrite Ex in Hset.
    destruct (finish_execution _ _ _ _ _ d1) as [[r d2]|] eqn:Hf; [|done]. injection Hset as <-.
    split; [|intros y Hy Hyx; eapply finished_controls; [exact Hr | by apply Hx | done..]].
    apply finished_turn in Hf as (t & Ht & Hid & _ & Hst' & Ha). exists t. split_and!; try done.
    intros Hp. unfold turn_active in Ha. by rewrite Hp in Ha.
  - split; [|by intros; apply paused_settles_nothing].
    intros Hm. apply unaccepted_settles; [by apply reachable_integrity | done..].
Qed.

(** ** Events *)

(** The item that an event becomes. *)
Definition event_record (x : RuntimeExecutionClaim) (e : EngineEvent) :
    option (string * TurnItemType * TurnItemActor * dict) :=
  (λ m, (xc_turn_id x, m.1, m.2, item_payload e)) <$> event_item (ev_event_type e).
Definition item_record (i : item_row) : string * TurnItemType * TurnItemActor * dict :=
  (it_turn_id i, it_item_type i, it_actor i, it_payload i).

(** The loop of [emit], with the clock and the identifiers that it draws. *)
Fixpoint persist_all (readings : list (time * string)) (w : dispatch) (d : db) : dispatch * db :=
  match readings with
  | [] => (w, d)
  | r :: rest => let p := persist_next r.1 r.2 w d in persist_all rest p.1 p.2
  end.

Lemma append_item_adds x ty ac p pr ni o c i d r d' :
  append_item x ty ac p pr ni o c i d = Ok (r, d') →
  ∃ row, turn_items d' = (turn_items d ++ [row])%list ∧ item_record row = (xc_turn_id x, ty, ac, p).
Proof.
  intros Hrun. unfold append_item in Hrun.
  apply bind_Ok in Hrun as (? & ? & [_ ->]%begin_write_inv & Hrun).
  apply bind_Ok in Hrun as (? & ? & [-> ->]%gets_Ok & Hrun).
  apply bind_Ok in Hrun as (? & ? & [Hst ->]%require_Ok & Hrun).
  apply bind_Ok in Hrun as (? & ? & [-> ->]%gets_Ok & Hrun).
  apply bind_Ok in Hrun as (? & ? & [-> ->]%gets_Ok & Hrun).
  apply bind_Ok in Hrun as (? & d1 & [_ ->]%insert_row_inv & [_ ->]%ret_Ok). by eexists.
Qed.

Lemma persist_event_adds x e now iid d u d' :
  persist_event x e now iid d = Ok (u, d') →
  ∃ rows, turn_items d' = (turn_items d ++ rows)%list ∧
    item_record <$> rows = option_list (event_record x e).
Proof.
  unfold persist_event, event_record. destruct (event_item _) as [[ty ac]|].
  - intros (? & ? & (row & E & Hr)%append_item_adds & [_ ->]%ret_Ok)%bind_Ok.
    exists [row]. by rewrite E; simpl; rewrite Hr.
  - intros [_ ->]%ret_Ok. exists []. by rewrite app_nil_r.
Qed.

(** C23: what the engine reports is recorded in the order of its events and once: the events
    that one [emit] persists become the next items of the execution's Turn, each with the
    type, actor and payload of its event, up to the first one that is refused (by the database,
    or because its status is a list or an object). *)
Theorem events_are_recorded_in_order x readings w d :
  ds_execution w = Some x → length readings = length (ds_events_to_persist w) →
  let r := persist_all readings w d in
  ∃ recorded dropped rows, ds_events_to_persist w = (recorded ++ dropped)%list ∧
    turn_items r.2 = (turn_items d ++ rows)%list ∧
    item_record <$> rows = omap (event_record x) recorded ∧
    (dropped = [] ∨ ∃ e rest now iid err, dropped = e :: rest ∧
       emit_event x e now iid r.2 = Err err).
Proof.
  intros Hx. revert w d Hx. induction readings as [|[now iid] readings IH]; intros w d Hx Hlen.
  { destruct (ds_events_to_persist w) eqn:E; [|done]. exists [], [], []. split_and!; auto.
    by rewrite app_nil_r. }
  destruct (ds_events_to_persist w) as [|e es] eqn:E; [done|]. cbn [persist_all fst snd].
  unfold persist_next. rewrite E, Hx.
  destruct (emit_event x e now iid d) as [[u d1]|err] eqn:Hp; cbn [fst snd].
  - apply emit_event_Ok in Hp. destruct (IH (with_events (ds_pending_events (note_status e w)) es (note_status e w)) d1)
      as (rec & dr & rows & Ees & Eit & Erec & Hend).
    { simpl. by rewrite (proj2 (noted e w)). }
    { simpl in *. lia. }
    apply persist_event_adds in Hp as (row & Erow & Hrow). simpl in Ees.
    exists (e :: rec), dr, (row ++ rows)%list. split_and!.
    + by rewrite Ees.
    + by rewrite Eit, Erow, app_assoc.
    + rewrite fmap_app, Erec, Hrow. simpl. by destruct (event_record x e).
    + exact Hend.
  - assert (∀ l v, ds_events_to_persist v = [] → persist_all l v d = (v, d)) as Hnil.
    { clear. induction l as [|y l IH]; intros v Hv; [done|]. cbn [persist_all].
      unfold persist_next. rewrite Hv. cbn [fst snd]. by apply IH. }
    rewrite Hnil by done. exists [], (e :: es), []. split_and!; [done | by rewrite app_nil_r | done|].
    right. by exists e, es, now, iid, err.
Qed.

(** ** A failure that is taken back *)

Definition dispatch_of (w : worker) : option dispatch :=
  match w with Worker_RUNNING x | Worker_ENDED x => Some x | _ => None end.

(** The steps of one dispatch, from the start of its engine to the end of the run. *)
Definition run_step (p q : worker * db) : Prop := worker_step p q ∧ is_Some (dispatch_of q.1).

Definition failed_once (w : dispatch) : Prop := is_Some (ds_failure_code w).

Lemma noted_failure e w : failed_once w → failed_once (note_status e w).
Proof. unfold failed_once, note_status. intros [f Hf]. repeat case_match; simpl; eauto. Qed.

Lemma failure_kept p q v :
  worker_step p q → dispatch_of p.1 = Some v → failed_once v →
  ∀ w, dispatch_of q.1 = Some w → failed_once w.
Proof.
  unfold failed_once. intros Hs Hv Hf w Hw. destruct Hs; simpl in *; simplify_eq; try done.
  - match goal with Ha : engine_alive _ |- _ => destruct Ha as [->| ->] end; simpl in *; simplify_eq;
      unfold receive; repeat case_match; done.
  - match goal with Ha : engine_alive _ |- _ => destruct Ha as [->| ->] end; simpl in *; simplify_eq;
      unfold persist_next; repeat case_match; simpl; try done; by apply noted_failure.
  - destruct o; simpl in *; by simplify_eq.
  - destruct o; simpl; eauto.
  - by destruct (settle _ _ _).1, cancelled_by_caller.
Qed.

Lemma failure_kept_run p q v :
  rtc run_step p q → dispatch_of p.1 = Some v → failed_once v →
  ∀ w, dispatch_of q.1 = Some w → failed_once w.
Proof.
  intros Hs. revert v. induction Hs as [p|p1 p2 p3 [Hs [v2 Hv2]] _ IH]; intros v Hv Hf w Hw; [congruence|].
  by eapply (IH v2); [| eapply failure_kept|].
Qed.

Lemma finish_refused x s ev f now d :
  s ≠ Turn_FAILED → s ≠ Turn_IN_PROGRESS →
  finish_execution x s ev (Some f) now d = Err (ConversationContractError INVALID_STATE_TRANSITION).
Proof. by destruct s. Qed.

(** C33: a failure that the engine has reported cannot be taken back: if the run ends otherwise
    (the engine goes on and succeeds, or the run is interrupted), its completion is refused
    and nothing is recorded, so the Turn stays in progress and the dispatcher stops. *)
Theorem a_reported_failure_blocks_the_completion v d w d' x s now :
  failed_once v → rtc run_step (Worker_RUNNING v, d) (Worker_ENDED w, d') →
  ds_execution w = Some x → default Turn_COMPLETED (ds_terminal_status w) = s →
  s ≠ Turn_FAILED → s ≠ Turn_IN_PROGRESS →
  settle w now d' = (Some (ConversationContractError INVALID_STATE_TRANSITION), d').
Proof.
  intros Hf Hs Hx Ht Hne Hip.
  destruct (failure_kept_run _ _ v Hs eq_refl Hf w eq_refl) as [f Hw].
  unfold settle. by rewrite Hx, Hw, Ht, finish_refused.
Qed.
End worker.

(** ** A dispatch of the demo

    The dispatcher claims the first submission of the demo's Task; its engine answers, reports
    a failure, and succeeds after all. *)

Definition anywhere (_ : string) (_ : option string) : bool := true.
Definition no_tenant (_ : string) : result error (option string) := Ok None.

Definition launch4 : launch_context := Eval vm_compute in
  match execution_context grants no_tenant anywhere claim4 ctx5 with
  | Ok (l, _) => l
  | Err _ => mkLaunch "" "" "" "" "" [] [] "" "" None
  end.
Definition run0 : dispatch := Eval vm_compute in start_dispatch claim4 launch4.
Definition wrk0 : db := Eval vm_compute in after (begin_delivery "sub14" None 16%Z) ctx5.

Definition answer : EngineEvent := mkEvent "message" [("text", JStr "Answer")] None.
Definition status_event (s : string) : EngineEvent := mkEvent "status" [("status", JStr s)] None.
Definition identity4 : NativeAcceptanceIdentity := mkAcceptanceIdentity "thread" "th1" "turn" "nt1".

Definition wrk1 : dispatch * db := Eval vm_compute in
  receive wrk0 (Some identity4) answer 17%Z "bind4" "item4" run0 wrk0.
Definition wrk2 : dispatch * db := Eval vm_compute in persist_next 18%Z "item18" wrk1.1 wrk1.2.
Definition wrk3 : dispatch * db := Eval vm_compute in
  receive wrk2.2 None (status_event "failed") 19%Z "" "" wrk2.1 wrk2.2.
Definition wrk4 : dispatch * db := Eval vm_compute in persist_next 19%Z "" wrk3.1 wrk3.2.
Definition wrk5 : dispatch * db := Eval vm_compute in
  receive wrk4.2 None (status_event "succeeded") 20%Z "" "" wrk4.1 wrk4.2.
Definition wrk6 : dispatch * db := Eval vm_compute in persist_next 20%Z "" wrk5.1 wrk5.2.

Example prompt_of_the_demo :
  lc_rendered_prompt launch4 = render_prompt (cs_content <$> snapshot_by_id "snapshot-s14" ctx5) "Prompt" ∧
  lc_engine_type launch4 = "codex-app-server".
Proof. vm_compute. auto. Qed.

Lemma run0_running : rtc worker_step (Worker_IDLE, ctx4) (Worker_RUNNING run0, wrk0).
Proof.
  assert (claim_next_submission 30%Z 15%Z 15%Z ctx4 = Ok (Some claim4, ctx5)) as H1
    by (vm_compute; reflexivity).
  assert (execution_context grants no_tenant anywhere claim4 ctx5 = Ok (launch4, ctx5)) as H2
    by (vm_compute; reflexivity).
  assert (require_claim_environment_grant grants claim4 ctx5 = Ok (None, ctx5)) as H3
    by (vm_compute; reflexivity).
  assert (begin_delivery "sub14" None 16%Z ctx5 = Ok (tt, wrk0)) as H4 by (vm_compute; reflexivity).
  eapply rtc_l; [exact (worker_claim _ _ _ _ _ _ H1)|].
  eapply rtc_l; [exact (worker_prepare _ _ _ _ _ _ H2)|].
  eapply rtc_l; [exact (worker_grant _ _ _ _ _ H3)|].
  apply rtc_once. exact (worker_deliver claim4 _ _ _ _ _ _ H4).
Qed.

Lemma event_step w d i e now bu iu r :
  ds_events_to_persist w = [] → receive d i e now bu iu w d = r →
  worker_step (Worker_RUNNING w, d) (Worker_RUNNING r.1, r.2).
Proof. intros Hw <-. apply worker_event; [by left | done | done]. Qed.
Lemma persist_step w d now iid r :
  persist_next now iid w d = r → worker_step (Worker_RUNNING w, d) (Worker_RUNNING r.1, r.2).
Proof. intros <-. apply worker_persist. by left. Qed.

Lemma wrk2_running : rtc worker_step (Worker_IDLE, ctx4) (Worker_RUNNING wrk2.1, wrk2.2).
Proof.
  etrans; [apply run0_running|].
  eapply rtc_l; [eapply (event_step run0 wrk0 (Some identity4) answer 17%Z "bind4" "item4" wrk1);
    vm_compute; reflexivity|].
  apply rtc_once. eapply (persist_step _ _ 18%Z "item18" wrk2). vm_compute. reflexivity.
Qed.

Lemma wrk4_ended : rtc run_step (Worker_RUNNING wrk4.1, wrk4.2) (Worker_ENDED wrk6.1, wrk6.2).
Proof.
  eapply rtc_l; [split; [eapply (event_step _ _ None (status_event "succeeded") 20%Z "" "" wrk5);
    vm_compute; reflexivity | by eexists]|].
  eapply rtc_l; [split; [eapply (persist_step _ _ 20%Z "" wrk6); vm_compute; reflexivity | by eexists]|].
  apply rtc_once. split; [exact (worker_end Run_RETURNED wrk6.1 wrk6.2 eq_refl) | by eexists].
Qed.

Lemma ctx4_reachable : domain_reachable ctx4.
Proof. eapply domain_reachable_step, ctx_step4. apply ctx3_reachable. Qed.

Lemma dispatchers_refine_the_domain_witness :
  rtc domain_step ctx4 wrk2.2 ∧ ∃ x, ds_execution wrk2.1 = Some x ∧ genuine wrk2.2 x.
Proof.
  destruct (dispatchers_refine_the_domain ctx4 (Worker_RUNNING wrk2.1) wrk2.2 ctx4_reachable
    wrk2_running) as (Hs & _ & Hg).
  split; [exact Hs|]. eexists. split; [reflexivity|].
  eapply (Hg wrk2.1); [by left | reflexivity].
Defined.

Lemma a_running_submission_is_not_started_again_witness :
  ∃ e, begin_delivery "sub14" None 30%Z wrk2.2 = Err e.
Proof.
  exact (a_running_submission_is_not_started_again ctx4 wrk2.1 wrk2.2 wrk2.2 None 30%Z ctx4_reachable
    wrk2_running (rtc_refl _ _)).
Defined.

Lemma a_dispatch_is_settled_witness :
  ∃ d', settle (end_run Run_RAISED run0) 18%Z wrk0 = (None, d') ∧
    ∀ s, s ∈ submissions d' → sb_submission_id s = "sub14" → sb_status s ≠ Sub_DELIVERING.
Proof.
  eapply (a_dispatch_is_settled ctx4 (end_run Run_RAISED run0) wrk0 18%Z ctx4_reachable);
    [|reflexivity].
  eapply rtc_r; [apply run0_running|]. exact (worker_end Run_RAISED run0 wrk0 eq_refl).
Defined.

Lemma events_are_recorded_in_order_witness :
  ∃ recorded dropped rows, [answer] = (recorded ++ dropped)%list ∧
    turn_items (persist_all [(18%Z, "item18")] wrk1.1 wrk1.2).2 = (turn_items wrk1.2 ++ rows)%list.
Proof.
  destruct (events_are_recorded_in_order running4 [(18%Z, "item18")] wrk1.1 wrk1.2)
    as (recorded & dropped & rows & Hes & Hit & _ & _); [reflexivity | reflexivity |].
  exists recorded, dropped, rows. split; [exact Hes | exact Hit].
Defined.

(** The engine failed and succeeded: the Turn stays in progress. *)
Lemma a_reported_failure_blocks_the_completion_witness :
  settle wrk6.1 21%Z wrk6.2 = (Some (ConversationContractError INVALID_STATE_TRANSITION), wrk6.2) ∧
  (tn_status <$> task_turns wrk6.2) = [Turn_IN_PROGRESS].
Proof.
  split; [|reflexivity].
  eapply (a_reported_failure_blocks_the_completion wrk4.1 wrk4.2 wrk6.1 wrk6.2 running4 Turn_COMPLETED
    21%Z); [by eexists | exact wrk4_ended | reflexivity | reflexivity | discriminate | discriminate].
Defined.
